(* ===== verification/_CoqProject ===== *)
-Q . S2P
Prelude.v
GoStrings.v
GoHeap.v
DeepCopy.v
World.v
Interleaving.v
Threads.v
ShieldConfig.v
Demo.v
ImageCheck.v
ImageVerify.v
RequestHandler.v
ApiServer.v
Admission.v
Observer.v
ObserverMain.v
Concurrency.v
Overlap.v
Isolation.v
AdmissionOverlap.v
RestClients.v
FakeClientset.v
Informers.v
OperatorResources.v
Managers.v
Operator.v
OperatorProofs.v
OperatorDemo.v
Access.v
Integration.v
EndToEnd.v
