(* ===== verification/Prelude.v ===== *)
(** * Integrity Shield: a verification development

    Integrity Shield protects Kubernetes resources with signatures.  The
    repository has four programs:
    - the _request handler_ ([shield/]) decides one admission request against one
      constraint: filters, mutation check, signature verification by
      k8s-manifest-sigstore, image verification by cosign, deny events;
    - the _admission controller_ ([webhook/admission-controller/]) matches a
      request against the profiles of the cluster, calls the request handler for
      every matching one, accumulates the answers and records violations;
    - the _observer_ ([observer/]) verifies the resources that are already in the
      cluster, constraint by constraint, and exports the results;
    - the _operator_ ([integrity-shield-operator/]) creates and maintains the
      deployments, roles, configuration and webhook of the other three.

    ** Files

    - [Prelude]: the monad [M W] of Go functions that act on a state and return or
      panic, the total-correctness predicate [runs], Go errors, machine integers,
      loops, the tactics and hint databases.
    - [GoStrings]: the functions of [strings], [strconv] and [filepath] in use.
    - [GoHeap]: a heap of cells, and the contract of a copy routine ([Deep],
      [DeepLaws]) with its combinators for pointers, slices and structs.
    - [DeepCopy]: the generated copy functions [zz_generated.deepcopy.go] of the
      three API packages, on that heap.
    - [World]: process state (environment, logger, files, clock) and the interfaces
      of the code outside the repository: [ExtLib], [OS], [Kube], [Sigstore], and
      [ResClientLaws], the documented behaviour of a typed Kubernetes client.
    - [Interleaving]: clients with resource versions ([VerClientLaws]: optimistic
      concurrency), handlers cut at their client calls ([proc]), their interleaving
      ([step]) and the serializability of read-compute-write handlers.
    - [Threads]: goroutines of one process ([prog]: a tree of atomic actions), their
      interleaving ([tstep]), termination, and rely/guarantee reasoning ([ok]).
    - [ShieldConfig]: [shield/pkg/config/parameter.go] and
      [request_handler_config.go].
    - [Demo]: concrete instances of all interfaces, for evaluating the model.
    - [ImageCheck]: the earlier image check, [shield/pkg/shield/image.go].
    - [ImageVerify]: [shield/pkg/image/image.go].
    - [RequestHandler]: [shield/pkg/shield/request_handler.go].
    - [ApiServer]: the HTTP server around it, [shield/main.go].
    - [Admission]: [webhook/admission-controller/pkg]: [config/], [controller/]
      and [apis/manifestintegrityprofile/v1/types.go].
    - [Observer]: [observer/pkg/observer/] and
      [apis/manifestintegritystate/v1/types.go].
    - [ObserverMain]: [observer/main.go] as a step relation.
    - [Concurrency]: [createOrUpdateEvent], [updateConstraintStatus] and
      [exportVerifyResult] run concurrently.
    - [Overlap]: the request handler cut at every access to the environment, the
      logger, the files and the cluster, for requests that overlap in one process.
    - [Isolation]: the rely/guarantee proof that such requests do not disturb each
      other.
    - [AdmissionOverlap]: the same for [ProcessRequest] of the admission controller.
    - [RestClients]: the generated typed clients, clientsets and fake clients of
      [observer/pkg/client] and [webhook/admission-controller/pkg/client].
    - [FakeClientset]: the generated fake clientsets and fake group clients there.
    - [Informers]: the generated informer factories, informers and listers there.
    - [OperatorResources]: the custom resource ([api/v1]) and the builders of
      [resources/].
    - [Managers]: [main.go] of the admission controller and of the operator, their
      initialisers, and [SetupWithManager].
    - [Operator]: [controllers/] and [cert/cert.go].
    - [OperatorProofs]: the laws of the operator's client and the theorems about
      [Reconcile].
    - [OperatorDemo]: an in-memory API server that satisfies the laws, examples.
    - [Access]: the requests of the generated clients against the definitions and
      roles that the operator creates.
    - [Integration]: operator and servers together.
    - [EndToEnd]: the path of a report from the deployed pod through the generated
      client to the stored object.

    ** How the code is modelled

    A Go function that only computes is a Rocq function with the same name; one
    with effects is a program of [M W].  [W] is [World] for the three servers and
    [OpWorld] for the operator.  A pair [(T, error)] of which one side is
    meaningful is a [res]; where the code returns both, the pair is kept.  A nil
    pointer that the code may dereference is [None], and the dereference is
    [panic].  Long handlers are cut at their comments into named parts that are
    composed in the order of the source; a skeleton that the source repeats in
    several functions ([getOrCreate], [deleteFound]) is written once.  [int32]
    and [int64] wrap around.  The order in which Go visits a map is a parameter
    ([range_order], [visits]), as are the clock and the file system's refusals.
    A typed client method is the chain of calls on a [rest_Request]; what happens to
    the request is a parameter ([Transport]).  Copying of pointers is modelled on an
    explicit heap, because there aliasing is the question.  The observer's main loop
    is a relation whose steps interleave with those of other actors; the calls of the
    informer factory, which hold its lock, are sequences of calls.  The functions that
    read an object and write it back exist twice: as programs of [M World], which the
    handlers call, and cut at their client calls as [proc]s, which interleave; run
    alone the second is the first.  The request handler and [ProcessRequest] exist a
    second time, too, as [prog]s that are cut at every access to state of the process
    or the cluster; a file is written by two actions, truncation and filling.  The
    packages of the two clientsets that have the
    same text are written once and instantiated at the client of each.

    ** What is proved

    - Request handler: it always returns and agrees with an abstract policy on the
      facts it collects; an allowed request has one of the documented
      justifications; only denied requests change the cluster; events, options,
      mutation check and unreadable input.
    - Admission controller: when exactly a request is denied, that a denial is
      backed by a matching profile, matching, accumulation, the bounded violation
      history, and the two ways in which errors become "allow" or a crash.
    - Observer: one result per covered resource with consistent totals, the
      verdict on a resource, upsert of the exported state, completion of a run and
      the state of every constraint after it, that the main loop neither crashes nor
      stops, which intervals it accepts, which resources are listed, and the crashes
      on missing input.
    - Shield API: which requests are answered how, and that only a JSON POST to
      [/api/request] reaches the request handler.
    - Earlier image check: the decision, the selection of images, equivalence of the
      pattern match with a reference matcher, the kinds it misses.
    - Operator: convergence of the requeue loop (a liveness property: at most one
      call per step), the finalizer, the webhook being registered only with a
      running server and with its certificate authority, unchanged config maps,
      the comparison of deployments, image names, a complete scheme.
    - Generated code: a copy has the same value and shares exactly the storage that
      the generated code fails to copy; the typed clients refine the contract
      [ResClientLaws] that observer and admission controller rely on; the fake
      clients are equivalent to them; a fake clientset responds with the objects it
      was given; informers are shared and started once, whether they are reached by
      type or by resource; listers find exactly the named object.
    - The programs together: the configuration and the interval written by the
      operator are those its pods load; webhook, services, probes and certificates
      lead to the servers; every request of the generated clients is served and
      granted; what the service accounts may do, exactly; a report of a deployed
      observer or admission controller ends up in the resource that the operator
      defines.
    - Concurrency: any number of overlapping reports, in any interleaving, end within
      a bounded number of actions, leave what the successful ones would leave one
      after the other (exact counts, whole states, histories), and per object at
      least one succeeds.
    - Overlapping requests: request handlers and whole admission requests that run in
      one process at the same time, interleaved in any way, all return; without a
      common key secret they decide as if alone, by the policy on facts that nobody
      disturbed; and even when they share key files, none is let through that should
      not be (complete mediation), though one can be denied because it reads a key
      file that another is rewriting.

    A theorem about code outside the repository quantifies over the interface; its
    witness instantiates the interface by a small executable function.

    ** Fuel

    Recursion is structural throughout.  [settle] takes the number of reconcile
    calls as fuel; the convergence theorem shows that the number of steps is
    enough.  [strip_all] (trimming) has the length of the string as fuel and every
    round removes a byte.  A [proc] or [prog] is a finite tree; [exec] and [texec]
    follow a finite schedule.

    ** Not modelled

    Log output; overlapping requests while the configuration changes (a concrete
    interleaving is evaluated, [rekor_race], but there is no theorem) and reads of
    sigstore and cosign that are not atomic; the caches behind informers and the
    object tracker behind fake clientsets (library code, parameters); the informer
    package v1alpha1, which calls a method that its clientset does not have;
    cryptography, TLS, YAML and JSON decoding, which are parameters; tests, manifests
    and scripts. *)
From stdpp Require Import base gmap strings list list_numbers pretty.
From Stdlib Require Import ZArith Lia.

(** Statements are written with the unicode notations of stdpp. *)

(** ** Outcomes: a Go call either returns or panics *)

Inductive outcome (A : Type) : Type :=
| Ret (a : A)
| Panic (why : string).
Arguments Ret {A} a.
Arguments Panic {A} why.

(** A Go function that acts on process or cluster state [W]: it threads the
    state and either returns a value or panics.  The state that a panic leaves
    behind is kept, because earlier side effects persist. *)
Definition M (W A : Type) : Type := W → outcome A * W.

#[export] Instance M_ret W : MRet (M W) := λ A a w, (Ret a, w).
#[export] Instance M_bind W : MBind (M W) := λ A B f c w,
  match c w with
  | (Ret a, w') => f a w'
  | (Panic e, w') => (Panic e, w')
  end.
#[export] Instance M_fmap W : FMap (M W) := λ A B f c w,
  match c w with
  | (Ret a, w') => (Ret (f a), w')
  | (Panic e, w') => (Panic e, w')
  end.

Definition getW {W} : M W W := λ w, (Ret w, w).
Definition putW {W} (w : W) : M W unit := λ _, (Ret tt, w).
Definition modifyW {W} (f : W → W) : M W unit := λ w, (Ret tt, f w).
Definition asksW {W A} (f : W → A) : M W A := λ w, (Ret (f w), w).
Definition panic {W A} (why : string) : M W A := λ w, (Panic why, w).

(** The text of the run-time panic on a nil pointer. *)
Definition nil_dereference : string :=
  "invalid memory address or nil pointer dereference".

(** The value part and the state part of a run. *)
Definition result_of {W A} (c : M W A) (w : W) : outcome A := (c w).1.
Definition state_of {W A} (c : M W A) (w : W) : W := (c w).2.

Section monad_laws.
Context {W : Type}.

Lemma M_bind_ret_l {A B} (a : A) (f : A → M W B) (w : W) :
  (mret a ≫= f) w = f a w.
Proof. reflexivity. Qed.

Lemma M_bind_ret_r {A} (c : M W A) (w : W) : (c ≫= mret) w = c w.
Proof. unfold mbind, M_bind. by destruct (c w) as [[] ?]. Qed.

Lemma M_bind_assoc {A B C} (c : M W A) (f : A → M W B) (g : B → M W C) w :
  ((c ≫= f) ≫= g) w = (c ≫= λ a, f a ≫= g) w.
Proof. unfold mbind, M_bind. by destruct (c w) as [[] ?]. Qed.

Lemma M_bind_ext {A B} (c : M W A) (f g : A → M W B) w :
  (∀ a w, f a w = g a w) → (c ≫= f) w = (c ≫= g) w.
Proof. intros H. unfold mbind, M_bind. destruct (c w) as [[]]; [apply H|done]. Qed.
Lemma M_bind_Ret {A B} (c : M W A) (f : A → M W B) w a w' :
  c w = (Ret a, w') → (c ≫= f) w = f a w'.
Proof. unfold mbind, M_bind. by intros ->. Qed.

Lemma M_bind_Panic {A B} (c : M W A) (f : A → M W B) w e w' :
  c w = (Panic e, w') → (c ≫= f) w = (Panic e, w').
Proof. unfold mbind, M_bind. by intros ->. Qed.

(** Inversion of a run that returns. *)
Lemma M_bind_inv {A B} (c : M W A) (f : A → M W B) w b w'' :
  (c ≫= f) w = (Ret b, w'') →
  ∃ a w', c w = (Ret a, w') ∧ f a w' = (Ret b, w'').
Proof. unfold mbind, M_bind. destruct (c w) as [[] ?]; naive_solver. Qed.
End monad_laws.

(** ** Total correctness of a run

    [runs c w P]: started in [w] the program returns (no panic), and the value
    and the final state satisfy [P]. *)
Definition runs {W A} (c : M W A) (w : W) (P : A → W → Prop) : Prop :=
  ∃ a w', c w = (Ret a, w') ∧ P a w'.

Section runs.
Context {W : Type}.
Implicit Types w : W.

Lemma runs_ret {A} (a : A) w (P : A → W → Prop) : P a w → runs (mret a) w P.
Proof. by exists a, w. Qed.
Lemma runs_bind {A B} (c : M W A) (f : A → M W B) w P :
  runs c w (λ a w1, runs (f a) w1 P) → runs (c ≫= f) w P.
Proof.
  intros (a & w1 & Hc & b & w2 & Hf & HP). exists b, w2. split; [|done].
  by rewrite (M_bind_Ret _ _ _ _ _ Hc).
Qed.
Lemma runs_mono {A} (c : M W A) w (P Q : A → W → Prop) :
  runs c w P → (∀ a w', P a w' → Q a w') → runs c w Q.
Proof. intros (a & w' & E & HP) HPQ. exists a, w'. auto. Qed.
Lemma runs_inv {A} (c : M W A) w P a w' : runs c w P → c w = (Ret a, w') → P a w'.
Proof. intros (a' & w'' & E & HP) E'. congruence. Qed.
Lemma runs_and {A} (c : M W A) w P Q :
  runs c w P → runs c w Q → runs c w (λ a w', P a w' ∧ Q a w').
Proof. intros (a & w' & E & HP) HQ. exists a, w'. pose proof (runs_inv _ _ _ _ _ HQ E). auto. Qed.
Lemma runs_getW w (P : W → W → Prop) : P w w → runs getW w P.
Proof. by exists w, w. Qed.
Lemma runs_asksW {A} (f : W → A) w (P : A → W → Prop) : P (f w) w → runs (asksW f) w P.
Proof. by exists (f w), w. Qed.
Lemma runs_modifyW (f : W → W) w (P : () → W → Prop) : P tt (f w) → runs (modifyW f) w P.
Proof. by exists tt, (f w). Qed.
End runs.

(** A for loop over a slice with state, no early exit. *)
Fixpoint forM {W A} (l : list A) (f : A → M W unit) : M W unit :=
  match l with
  | [] => mret tt
  | x :: l' => f x ≫= λ _, forM l' f
  end.

(** A for loop that appends one result per element. *)
Fixpoint mapMW {W A B} (f : A → M W B) (l : list A) : M W (list B) :=
  match l with
  | [] => mret []
  | x :: l' => y ← f x; ys ← mapMW f l'; mret (y :: ys)
  end.

Lemma mapMW_runs {W A B} (I : relation W) `{!PreOrder I} (Q : A → B → Prop)
    (f : A → M W B) l w :
  (∀ x w, runs (f x) w (λ y w', I w w' ∧ Q x y)) →
  runs (mapMW f l) w (λ ys w', I w w' ∧ Forall2 Q l ys).
Proof.
  intros Hf. revert w. induction l as [|x l IH]; intros w; simpl.
  { apply runs_ret. split; [done|constructor]. }
  apply runs_bind. eapply runs_mono; [apply Hf|]. intros y w1 [H1 Hq].
  apply runs_bind. eapply runs_mono; [apply IH|].
  intros ys w2 [H2 Hqs]. apply runs_ret. split; [by etrans|by constructor].
Qed.

Lemma mapMW_returns {W A B} (f : A → M W B) l w :
  (∀ x w, ∃ y w', f x w = (Ret y, w')) →
  ∃ ys w', mapMW f l w = (Ret ys, w') ∧ length ys = length l.
Proof.
  intros Hf. revert w. induction l as [|x l IH]; intros w; simpl; [by exists [], w|].
  destruct (Hf x w) as (y & w1 & E1). destruct (IH w1) as (ys & w2 & E2 & Hl).
  exists (y :: ys), w2. rewrite (M_bind_Ret _ _ _ _ _ E1), (M_bind_Ret _ _ _ _ _ E2).
  split; [done|]. simpl. by rewrite Hl.
Qed.

(** A run whose result is known, with its final state left as a projection. *)
Lemma run_eta {W A} (c : M W A) w a :
  result_of c w = Ret a → c w = (Ret a, state_of c w).
Proof. unfold result_of, state_of. destruct (c w). simpl. by intros ->. Qed.

(** ** Go errors *)

(** The status reason of a Kubernetes API error, as far as the code asks for it
    ([errors.IsNotFound], [errors.IsAlreadyExists]). *)
Inductive reason := NotFound | AlreadyExists | OtherReason.
#[export] Instance reason_eq_dec : EqDecision reason.
Proof. solve_decision. Defined.

Record error := mkError { e_reason : reason; Error : string }.
#[export] Instance error_eq_dec : EqDecision error.
Proof. solve_decision. Defined.

Definition IsNotFound (e : error) : bool := bool_decide (e_reason e = NotFound).
Definition IsAlreadyExists (e : error) : bool :=
  bool_decide (e_reason e = AlreadyExists).

(** [errors.New] / [fmt.Errorf] with the formatted text. *)
Definition errNew (s : string) : error := mkError OtherReason s.

(** A Go pair [(A, error)] in which exactly one side is meaningful. *)
Inductive res (A : Type) : Type :=
| Good (a : A)
| Bad (e : error).
Arguments Good {A} a.
Arguments Bad {A} e.

Definition is_good {A} (r : res A) : bool :=
  match r with Good _ => true | Bad _ => false end.

(** ** Machine integers *)

Definition wrap (bits : Z) (z : Z) : Z :=
  ((z + 2 ^ (bits - 1)) mod 2 ^ bits - 2 ^ (bits - 1))%Z.
Definition int32 (z : Z) : Z := wrap 32 z.
Definition int64 (z : Z) : Z := wrap 64 z.

Lemma wrap_id bits z :
  (0 < bits)%Z → (- 2 ^ (bits - 1) ≤ z < 2 ^ (bits - 1))%Z → wrap bits z = z.
Proof.
  intros Hb Hz. unfold wrap.
  assert (2 ^ bits = 2 * 2 ^ (bits - 1))%Z as E.
  { replace bits with (Z.succ (bits - 1)) at 1 by lia. apply Z.pow_succ_r. lia. }
  rewrite Z.mod_small; lia.
Qed.

Lemma wrap_range bits z :
  (0 < bits)%Z → (- 2 ^ (bits - 1) ≤ wrap bits z < 2 ^ (bits - 1))%Z.
Proof.
  intros Hb. unfold wrap.
  assert (2 ^ bits = 2 * 2 ^ (bits - 1))%Z as E.
  { replace bits with (Z.succ (bits - 1)) at 1 by lia. apply Z.pow_succ_r. lia. }
  pose proof (Z.pow_pos_nonneg 2 (bits - 1) ltac:(lia) ltac:(lia)).
  pose proof (Z.mod_pos_bound (z + 2 ^ (bits - 1)) (2 ^ bits) ltac:(lia)). lia.
Qed.

Lemma wrap_wrap_add bits a b : wrap bits (wrap bits a + b) = wrap bits (a + b).
Proof.
  unfold wrap. f_equal.
  replace ((a + 2 ^ (bits - 1)) mod 2 ^ bits - 2 ^ (bits - 1) + b + 2 ^ (bits - 1))%Z
    with ((a + 2 ^ (bits - 1)) mod 2 ^ bits + b)%Z by lia.
  rewrite Zplus_mod_idemp_l. f_equal. lia.
Qed.

(** ** Existential loops: [for _, x := range l { if p x { return true } }; return false] *)

Fixpoint anyb {A} (p : A → bool) (l : list A) : bool :=
  match l with
  | [] => false
  | x :: l' => if p x then true else anyb p l'
  end.

Lemma anyb_exists {A} (p : A → bool) (l : list A) :
  anyb p l = true ↔ ∃ x, x ∈ l ∧ p x = true.
Proof.
  induction l as [|a l IH]; simpl.
  - split; [done|]. intros (x & Hx & _). by apply elem_of_nil in Hx.
  - destruct (p a) eqn:E.
    + split; [|done]. intros _. exists a. split; [left|done].
    + rewrite IH. split; intros (x & Hx & Hp); exists x; split; auto.
      * by right.
      * apply elem_of_cons in Hx as [->|]; [congruence|done].
Qed.

Lemma anyb_false {A} (p : A → bool) (l : list A) :
  anyb p l = false ↔ ∀ x, x ∈ l → p x = false.
Proof.
  rewrite <-not_true_iff_false, anyb_exists. split.
  - intros H x Hx. apply not_true_iff_false. naive_solver.
  - intros H (x & Hx & Hp). rewrite H in Hp; done.
Qed.

Lemma anyb_app {A} (p : A → bool) (l k : list A) :
  anyb p (l ++ k) = anyb p l || anyb p k.
Proof. induction l as [|a l IH]; simpl; [done|]. by destruct (p a). Qed.

(** Membership of a string, the loop of [contains] / [Contains] / [containsString]. *)
Definition containsb (s : list string) (e : string) : bool :=
  anyb (λ a, bool_decide (a = e)) s.

Lemma containsb_spec s e : containsb s e = true ↔ e ∈ s.
Proof.
  unfold containsb. rewrite anyb_exists. split.
  - intros (x & Hx & ->%bool_decide_eq_true). done.
  - intros H. exists e. split; [done|]. by apply bool_decide_eq_true.
Qed.

(** Cutting a list twice at the same length. *)
Lemma take_app_take {A} n (l k : list A) : take n (l ++ take n k) = take n (l ++ k).
Proof. rewrite !take_app, take_take. f_equal. f_equal. lia. Qed.

(** ** Automation *)

Create HintDb shield discriminated.
#[export] Hint Resolve M_bind_ret_l M_bind_ret_r : shield.
#[export] Hint Resolve runs_ret runs_bind runs_getW runs_asksW runs_modifyW : shield.

Create Rewrite HintDb goeqs.
#[export] Hint Rewrite @M_bind_ret_l @M_bind_ret_r @M_bind_assoc : goeqs.

(** Run the monadic program of the goal or of a hypothesis one step further. *)
Ltac go_unfold :=
  unfold mbind, M_bind, mret, M_ret, fmap, M_fmap, getW, putW, modifyW, asksW, panic in *.

(** One structural step of a [runs] goal. *)
Ltac run_step :=
  lazymatch goal with
  | |- runs (mret _) _ _ => apply runs_ret
  | |- runs (_ ≫= _) _ _ => apply runs_bind
  | |- runs getW _ _ => apply runs_getW
  | |- runs (asksW _) _ _ => apply runs_asksW
  | |- runs (modifyW _) _ _ => apply runs_modifyW
  end.
(** Use the specification [H] of the program at the head of a [runs] goal. *)
Ltac run_with H := eapply runs_mono; [apply H|].

(** Case analysis on every test or match that blocks a run. *)
Ltac go_case :=
  match goal with
  | |- context [match ?x with _ => _ end] => destruct x eqn:?
  | H : context [match ?x with _ => _ end] |- _ => destruct x eqn:?
  end.

Ltac go_crush := go_unfold; repeat (simplify_eq/=; try go_case); simplify_eq/=.
