(* ===== verification/GoStrings.v ===== *)
(** * The parts of Go's [strings], [strconv] and [filepath] the code uses

    A Go string is a sequence of bytes; here it is a [string] whose characters
    are bytes, so [len(s)] is [String.length s] and [s[:n]] is [go_take n s].
    Every function is defined on all byte strings; [ToLower] maps the ASCII
    letters and leaves other bytes alone (the code applies it to Kubernetes
    kinds and operations, which are ASCII). *)
From S2P Require Import Prelude.
From stdpp Require Import base gmap strings list pretty.
From Stdlib Require Import Ascii String ZArith Lia.

Local Open Scope string_scope.

(** ** Definitions *)

Definition len (s : string) : nat := String.length s.

(** [s[:n]] for [n ≤ len(s)]. *)
Definition go_take (n : nat) (s : string) : string := String.substring 0 n s.

Definition HasPrefix (s pre : string) : bool := String.prefix pre s.

Definition HasSuffix (s suf : string) : bool :=
  (len suf <=? len s)%nat &&
  String.eqb (String.substring (len s - len suf) (len suf) s) suf.

(** Drop the longest prefix whose bytes satisfy [p]. *)
Fixpoint drop_while (p : ascii → bool) (s : string) : string :=
  match s with
  | EmptyString => EmptyString
  | String c s' => if p c then drop_while p s' else s
  end.

Definition in_cutset (cutset : string) (c : ascii) : bool :=
  anyb (Ascii.eqb c) (String.list_ascii_of_string cutset).

Fixpoint rev_app (s acc : string) : string :=
  match s with
  | EmptyString => acc
  | String c s' => rev_app s' (String c acc)
  end.
Definition srev (s : string) : string := rev_app s "".

(** [strings.TrimRight(s, cutset)] for an ASCII cutset. *)
Definition TrimRight (s cutset : string) : string :=
  srev (drop_while (in_cutset cutset) (srev s)).

(** The UTF-8 encodings of the runes with [unicode.IsSpace]. *)
Definition bytes (l : list nat) : string :=
  String.string_of_list_ascii (ascii_of_nat <$> l).
Definition space_runes : list string := bytes <$>
  ([[9]; [10]; [11]; [12]; [13]; [32]; [194; 133]; [194; 160]; [225; 154; 128]]
  ++ ((λ k, [226; 128; 128 + k]) <$> seq 0 11)
  ++ [[226; 128; 168]; [226; 128; 169]; [226; 128; 175]; [226; 129; 159];
      [227; 128; 128]])%list%nat.

(** Remove one leading member of [rs], if there is one. *)
Fixpoint strip_one (rs : list string) (s : string) : option string :=
  match rs with
  | [] => None
  | r :: rs' => if String.prefix r s
                then Some (String.substring (len r) (len s - len r) s)
                else strip_one rs' s
  end.
Fixpoint strip_all (fuel : nat) (rs : list string) (s : string) : string :=
  match fuel with
  | O => s
  | S n => match strip_one rs s with
           | Some s' => strip_all n rs s'
           | None => s
           end
  end.

(** [strings.TrimSpace]: the fuel is the length, each round removes a byte. *)
Definition TrimSpace (s : string) : string :=
  let l := strip_all (len s) space_runes s in
  srev (strip_all (len l) (srev <$> space_runes) (srev l)).

(** [strings.Split(s, sep)] for a non-empty [sep]; [skip] counts the bytes of a
    separator still to be dropped, [cur] is the current piece. *)
Fixpoint split_aux (sep : string) (skip : nat) (cur s : string) : list string :=
  match s with
  | EmptyString => [cur]
  | String c s' =>
      match skip with
      | S k => split_aux sep k cur s'
      | O => if String.prefix sep s
             then cur :: split_aux sep (len sep - 1) "" s'
             else split_aux sep O (cur +:+ String c "") s'
      end
  end.
Definition Split (s sep : string) : list string := split_aux sep O "" s.

Fixpoint strings_Join (l : list string) (sep : string) : string :=
  match l with
  | [] => ""
  | [x] => x
  | x :: l' => x +:+ sep +:+ strings_Join l' sep
  end.

Fixpoint Contains (s sub : string) : bool :=
  String.prefix sub s ||
  match s with EmptyString => false | String _ s' => Contains s' sub end.

(** [strings.Replace(s, old, new, 1)]. *)
Fixpoint Replace1 (s old new : string) : string :=
  if String.prefix old s
  then new +:+ String.substring (len old) (len s - len old) s
  else match s with
       | EmptyString => EmptyString
       | String c s' => String c (Replace1 s' old new)
       end.

Definition lower_ascii (c : ascii) : ascii :=
  let n := nat_of_ascii c in
  if (65 <=? n)%nat && (n <=? 90)%nat then ascii_of_nat (n + 32) else c.
Fixpoint ToLower (s : string) : string :=
  match s with
  | EmptyString => EmptyString
  | String c s' => String (lower_ascii c) (ToLower s')
  end.

(** [strconv.ParseBool]; [None] is the error case, in which the value is false. *)
Definition ParseBool (s : string) : option bool :=
  if containsb ["1"; "t"; "T"; "true"; "TRUE"; "True"] s then Some true
  else if containsb ["0"; "f"; "F"; "false"; "FALSE"; "False"] s then Some false
  else None.
(** [b, _ := strconv.ParseBool(s)] *)
Definition ParseBool_value (s : string) : bool := default false (ParseBool s).
Definition FormatBool (b : bool) : string := if b then "true" else "false".

(** [strconv.Atoi] on a 64-bit platform: an optional sign and at least one decimal
    digit; a syntax error yields 0, a value out of range the nearest [int]. *)
Definition digit (c : ascii) : option Z :=
  let n := nat_of_ascii c in
  if (48 <=? n)%nat && (n <=? 57)%nat then Some (Z.of_nat (n - 48)) else None.
Fixpoint digits (acc : Z) (s : string) : option Z :=
  match s with
  | EmptyString => Some acc
  | String c s' => match digit c with
                   | Some d => digits (10 * acc + d) s'
                   | None => None
                   end
  end.
Definition ErrSyntax : error := errNew "invalid syntax".
Definition ErrRange : error := errNew "value out of range".
Definition signOf (s : string) : bool * string :=
  match s with
  | EmptyString => (false, s)
  | String c r => if bool_decide (c = "-"%char) then (true, r)
                  else if bool_decide (c = "+"%char) then (false, r) else (false, s)
  end.
Definition Atoi (s : string) : Z * option error :=
  let '(neg, body) := signOf s in
  if bool_decide (body = "") then (0, Some ErrSyntax)%Z
  else match digits 0 body with
  | None => (0, Some ErrSyntax)%Z
  | Some n =>
      if neg then if (2 ^ 63 <? n)%Z then ((- 2 ^ 63)%Z, Some ErrRange) else ((- n)%Z, None)
      else if (2 ^ 63 <=? n)%Z then ((2 ^ 63 - 1)%Z, Some ErrRange) else (n, None)
  end.

(** [filepath.Clean], by the lexical rules of its documentation: the components
    are pushed on a stack, ["."] and empty ones are dropped, [".."] pops. *)
Fixpoint clean_stack (rooted : bool) (st l : list string) : list string :=
  match l with
  | [] => st
  | c :: l' =>
      if bool_decide (c = "") || bool_decide (c = ".") then clean_stack rooted st l'
      else if bool_decide (c = "..") then
        match st with
        | top :: st' =>
            if bool_decide (top = "..") then clean_stack rooted (".." :: st) l'
            else clean_stack rooted st' l'
        | [] => clean_stack rooted (if rooted then [] else [".."]) l'
        end
      else clean_stack rooted (c :: st) l'
  end.
Definition Clean (path : string) : string :=
  let rooted := HasPrefix path "/" in
  let body := strings_Join (reverse (clean_stack rooted [] (Split path "/"))) "/" in
  if rooted then "/" +:+ body else if bool_decide (body = "") then "." else body.
(** [filepath.Join] *)
Definition JoinPath (elems : list string) : string :=
  match filter (λ e, e ≠ "") elems with
  | [] => ""
  | es => Clean (strings_Join es "/")
  end.

(** ** Lemmas *)

#[local] Arguments String.append !_ _ / : simpl nomatch.

Lemma sapp_nil_r s : s +:+ "" = s.
Proof. induction s as [|c s IH]; simpl; [done|]. by rewrite IH. Qed.
Lemma sapp_assoc s t u : s +:+ (t +:+ u) = (s +:+ t) +:+ u.
Proof. induction s as [|c s IH]; simpl; [done|]. by rewrite IH. Qed.
Lemma len_app s t : len (s +:+ t) = (len s + len t)%nat.
Proof. unfold len. induction s as [|c s IH]; simpl; [done|]. by rewrite IH. Qed.
Lemma sapp_eq_nil s t : s +:+ t = "" → s = "" ∧ t = "".
Proof. destruct s; simpl; [by split|done]. Qed.

Lemma substring_0_len s : String.substring 0 (len s) s = s.
Proof. unfold len. induction s as [|c s IH]; simpl; [done|]. by rewrite IH. Qed.
Lemma substring_app_r s t :
  String.substring (len s) (len t) (s +:+ t) = t.
Proof.
  induction s as [|c s IH]; simpl; [apply substring_0_len|]. exact IH.
Qed.
Lemma len_substring_le n m s : (len (String.substring n m s) ≤ m)%nat.
Proof.
  unfold len. revert n m. induction s as [|c s IH]; intros [|n] [|m]; simpl; try lia.
  - specialize (IH O m). lia.
  - specialize (IH n O). lia.
  - specialize (IH n (S m)). lia.
Qed.
Lemma len_take n s : (len (go_take n s) ≤ n)%nat.
Proof. apply len_substring_le. Qed.

Lemma prefix_app s t : String.prefix s (s +:+ t) = true.
Proof.
  induction s as [|c s IH]; simpl; [by destruct t|].
  destruct (ascii_dec c c); [done|done].
Qed.
Lemma prefix_spec s t : String.prefix s t = true ↔ ∃ u, t = s +:+ u.
Proof.
  split; [|intros [u ->]; apply prefix_app].
  revert t. induction s as [|c s IH]; intros t; [by exists t|].
  destruct t as [|d t]; [done|]. simpl. destruct (ascii_dec c d) as [->|]; [|done].
  intros [u ->]%IH. by exists u.
Qed.
Lemma prefix_drop s t :
  String.prefix s t = true →
  t = s +:+ String.substring (len s) (len t - len s) t.
Proof.
  intros [u ->]%prefix_spec. rewrite len_app.
  replace (len s + len u - len s)%nat with (len u) by lia.
  by rewrite substring_app_r.
Qed.

Lemma HasPrefix_spec s pre : HasPrefix s pre = true ↔ ∃ u, s = pre +:+ u.
Proof. apply prefix_spec. Qed.

Lemma substring_app_split s n :
  (n ≤ len s)%nat →
  s = String.substring 0 n s +:+ String.substring n (len s - n) s.
Proof.
  unfold len. revert n. induction s as [|c s IH]; intros [|n] Hn; simpl in *; try done.
  - f_equal. symmetry. apply (substring_0_len s).
  - f_equal. apply IH. lia.
Qed.

Lemma HasSuffix_spec s suf : HasSuffix s suf = true ↔ ∃ u, s = u +:+ suf.
Proof.
  unfold HasSuffix. rewrite andb_true_iff, Nat.leb_le, String.eqb_eq. split.
  - intros [Hl He]. exists (String.substring 0 (len s - len suf) s).
    rewrite (substring_app_split s (len s - len suf)) at 1 by lia.
    f_equal. by replace (len s - (len s - len suf))%nat with (len suf) by lia.
  - intros [u ->]. rewrite len_app. split; [lia|].
    replace (len u + len suf - len suf)%nat with (len u) by lia.
    apply substring_app_r.
Qed.

#[local] Arguments String.prefix : simpl never.

(** Splitting and joining with the same separator is the identity. *)
Lemma split_aux_nonempty sep k cur s : split_aux sep k cur s ≠ [].
Proof.
  revert k cur. induction s as [|c s IH]; intros [|k] cur; simpl; try done; auto.
  destruct (String.prefix sep (String c s)); [done|apply IH].
Qed.

Lemma Join_cons x l sep :
  l ≠ [] → strings_Join (x :: l) sep = x +:+ sep +:+ strings_Join l sep.
Proof. by destruct l. Qed.

Lemma Join_split_aux sep k cur s u :
  sep ≠ "" → (k ≤ len s)%nat → s = u +:+ String.substring k (len s - k) s →
  len u = k →
  strings_Join (split_aux sep k cur s) sep = cur +:+ String.substring k (len s - k) s.
Proof.
  intros Hsep. revert k cur u. induction s as [|c s IH]; intros k cur u Hk Hu Hlu.
  - simpl in *. assert (k = 0%nat) as -> by (unfold len in Hk; simpl in *; lia).
    by rewrite sapp_nil_r.
  - destruct k as [|k].
    + rewrite Nat.sub_0_r, substring_0_len. simpl split_aux.
      destruct (String.prefix sep (String c s)) eqn:E.
      * rewrite Join_cons by apply split_aux_nonempty.
        apply prefix_spec in E as [r Hr]. destruct sep as [|d sep]; [done|].
        simpl in Hr. simplify_eq.
        rewrite (IH (len (String d sep) - 1)%nat "" sep).
        -- simpl. unfold len. simpl. rewrite Nat.sub_0_r.
           fold (len (sep +:+ r)) (len sep). rewrite len_app.
           replace (len sep + len r - len sep)%nat with (len r) by lia.
           by rewrite substring_app_r.
        -- rewrite len_app. unfold len. simpl. lia.
        -- unfold len at 1 3. simpl. rewrite Nat.sub_0_r. fold (len sep).
           rewrite len_app. replace (len sep + len r - len sep)%nat with (len r) by lia.
           by rewrite substring_app_r.
        -- unfold len. simpl. lia.
      * rewrite (IH 0%nat (cur +:+ String c "") ""); [|lia| |done].
        -- rewrite Nat.sub_0_r, substring_0_len, <-sapp_assoc. done.
        -- by rewrite Nat.sub_0_r, substring_0_len.
    + destruct u as [|d u]; [done|]. simpl in Hu, Hlu. simplify_eq.
      simpl split_aux.
      assert (len (String d s) - S (len u) = len s - len u)%nat as El
        by (unfold len; simpl; lia).
      unfold len in Hk. simpl in Hk.
      rewrite (IH (len u) cur u); [done| |done|done]. unfold len. lia.
Qed.

Lemma Join_Split s sep : sep ≠ "" → strings_Join (Split s sep) sep = s.
Proof.
  intros Hsep. unfold Split.
  rewrite (Join_split_aux sep 0 "" s ""); [|done|lia| |done].
  - by rewrite Nat.sub_0_r, substring_0_len.
  - by rewrite Nat.sub_0_r, substring_0_len.
Qed.

(** Splitting at a one-byte separator. *)
Lemma prefix_char c d s :
  String.prefix (String c "") (String d s) = bool_decide (c = d).
Proof.
  unfold String.prefix. destruct (ascii_dec c d); simpl.
  - rewrite bool_decide_eq_true_2 by done. by destruct s.
  - by rewrite bool_decide_eq_false_2.
Qed.
Lemma Contains_char_cons c d s :
  Contains (String d s) (String c "") = false → c ≠ d ∧ Contains s (String c "") = false.
Proof.
  simpl. rewrite prefix_char, orb_false_iff, bool_decide_eq_false. done.
Qed.
Lemma Contains_char_app c s t : Contains (s +:+ String c t) (String c "") = true.
Proof.
  induction s as [|d s IH]; simpl; rewrite prefix_char.
  - by rewrite bool_decide_eq_true_2.
  - by rewrite IH, orb_true_r.
Qed.
Lemma split_aux_char c cur s t :
  Contains s (String c "") = false →
  split_aux (String c "") 0 cur (s +:+ String c t) =
  (cur +:+ s) :: split_aux (String c "") 0 "" t.
Proof.
  revert cur. induction s as [|d s IH]; intros cur Hs.
  - simpl. rewrite prefix_char, bool_decide_eq_true_2 by done. by rewrite sapp_nil_r.
  - apply Contains_char_cons in Hs as [Hd Hs]. simpl.
    rewrite prefix_char, bool_decide_eq_false_2 by done. rewrite IH by done.
    by rewrite <-sapp_assoc.
Qed.
Lemma split_aux_char_none c cur s :
  Contains s (String c "") = false → split_aux (String c "") 0 cur s = [cur +:+ s].
Proof.
  revert cur. induction s as [|d s IH]; intros cur Hs; simpl.
  - by rewrite sapp_nil_r.
  - apply Contains_char_cons in Hs as [Hd Hs].
    rewrite prefix_char, bool_decide_eq_false_2 by done. rewrite IH by done.
    by rewrite <-sapp_assoc.
Qed.
Lemma last_split_aux_char c cur r n :
  Contains n (String c "") = false →
  last (split_aux (String c "") 0 cur (r +:+ String c n)) = Some n.
Proof.
  intros Hn. revert cur. induction r as [|d r IH]; intros cur; simpl; rewrite prefix_char.
  - rewrite bool_decide_eq_true_2 by done. simpl. by rewrite split_aux_char_none.
  - case_bool_decide; [|apply IH]. simpl. specialize (IH "").
    destruct (split_aux _ _ _ _); [done|exact IH].
Qed.

(** Replacing a text that occurs only at the end. *)
Lemma Replace1_suffix reg n :
  (∀ p q, reg +:+ n = p +:+ n +:+ q → q = "") → Replace1 (reg +:+ n) n "" = reg.
Proof.
  assert (∀ s, Replace1 s n "" = if String.prefix n s
    then "" +:+ String.substring (len n) (len s - len n) s
    else match s with EmptyString => EmptyString
         | String c s' => String c (Replace1 s' n "") end) as Hstep by by intros [].
  induction reg as [|c reg IH]; intros Hq; rewrite Hstep.
  - simpl. assert (String.prefix n n = true) as ->.
    { apply prefix_spec. exists "". by rewrite sapp_nil_r. }
    rewrite Nat.sub_diag. clear. unfold len. induction n; simpl; [done|exact IHn].
  - destruct (String.prefix n (String c reg +:+ n)) eqn:E.
    + apply prefix_spec in E as [u Hu]. pose proof (Hq "" u Hu) as ->.
      rewrite sapp_nil_r in Hu. apply (f_equal len) in Hu. rewrite len_app in Hu.
      unfold len in Hu. simpl in Hu. lia.
    + simpl. f_equal. apply IH. intros p q Hpq. apply (Hq (String c p) q). simpl. by rewrite Hpq.
Qed.

(** Reversal, and the decomposition that [TrimRight] computes. *)
Lemma rev_app_spec s acc : rev_app s acc = srev s +:+ acc.
Proof.
  unfold srev. revert acc. induction s as [|c s IH]; intros acc; simpl; [done|].
  rewrite IH, (IH (String c "")), <-sapp_assoc. done.
Qed.
Lemma srev_cons c s : srev (String c s) = srev s +:+ String c "".
Proof. unfold srev at 1. simpl. apply rev_app_spec. Qed.
Lemma srev_app s t : srev (s +:+ t) = srev t +:+ srev s.
Proof.
  induction s as [|c s IH]; simpl.
  - by rewrite sapp_nil_r.
  - by rewrite !srev_cons, IH, <-sapp_assoc.
Qed.
Lemma srev_involutive s : srev (srev s) = s.
Proof. induction s as [|c s IH]; [done|]. by rewrite srev_cons, srev_app, IH. Qed.

Fixpoint forallb_string (p : ascii → bool) (s : string) : bool :=
  match s with
  | EmptyString => true
  | String c s' => p c && forallb_string p s'
  end.
Lemma forallb_string_app p s t :
  forallb_string p (s +:+ t) = forallb_string p s && forallb_string p t.
Proof. induction s as [|c s IH]; simpl; [done|]. by rewrite IH, andb_assoc. Qed.
Lemma forallb_srev p s : forallb_string p (srev s) = forallb_string p s.
Proof.
  induction s as [|c s IH]; [done|].
  rewrite srev_cons, forallb_string_app, IH. simpl. by rewrite andb_true_r, andb_comm.
Qed.
Lemma drop_while_spec p s :
  ∃ r, s = r +:+ drop_while p s ∧ forallb_string p r = true ∧
    match drop_while p s with EmptyString => True | String c _ => p c = false end.
Proof.
  induction s as [|c s (r & Hs & Hr & Hc)]; simpl; [by exists ""|].
  destruct (p c) eqn:E; [|by exists ""].
  exists (String c r). simpl. rewrite E, Hr. split_and!; [by f_equal|done|done].
Qed.
Lemma TrimRight_spec s cs :
  ∃ r, s = TrimRight s cs +:+ r ∧ forallb_string (in_cutset cs) r = true ∧
    (TrimRight s cs = "" ∨
     ∃ u c, TrimRight s cs = u +:+ String c "" ∧ in_cutset cs c = false).
Proof.
  unfold TrimRight. destruct (drop_while_spec (in_cutset cs) (srev s)) as (r & Hs & Hr & Hc).
  exists (srev r). split_and!.
  - rewrite <-(srev_involutive s), Hs at 1. by rewrite srev_app.
  - by rewrite forallb_srev.
  - destruct (drop_while _ _) as [|c u]; [by left|]. right. exists (srev u), c.
    by rewrite srev_cons.
Qed.

Lemma ParseBool_FormatBool b : ParseBool (FormatBool b) = Some b.
Proof. by destruct b. Qed.

(** [Atoi] reads back the decimal notation of every [int]. *)
Lemma digit_pretty n : (n < 10)%N → digit (pretty_N_char n) = Some (Z.of_N n).
Proof.
  intros Hn. destruct n as [|p]; [done|].
  do 4 (try (destruct p as [p|p|])); solve [done|lia].
Qed.
Lemma digits_pretty_go n s : digits 0 (pretty_N_go n s) = digits (Z.of_N n) s.
Proof.
  revert s. induction n as [n IH] using (well_founded_induction N.lt_wf_0); intros s.
  destruct (decide (n = 0)%N) as [->|Hn]; [done|].
  rewrite pretty_N_go_step by lia. rewrite IH by (apply N.div_lt; lia). simpl.
  pose proof (N.mod_lt n 10 ltac:(lia)).
  rewrite digit_pretty by done. f_equal. pose proof (N.div_mod n 10 ltac:(lia)). lia.
Qed.
Lemma digits_pretty_N n : digits 0 (pretty n) = Some (Z.of_N n).
Proof. unfold pretty, pretty_N. destruct (decide _) as [->|]; [done|]. apply digits_pretty_go. Qed.
Lemma pretty_N_first p :
  ∃ c r, pretty (N.pos p) = String c r ∧ ∃ d, digit c = Some d.
Proof.
  pose proof (digits_pretty_N (N.pos p)) as H. destruct (pretty (N.pos p)) as [|c r]; [done|].
  exists c, r. split; [done|]. simpl in H. destruct (digit c); [by eexists|done].
Qed.
Lemma Atoi_pretty z : (- 2 ^ 63 ≤ z < 2 ^ 63)%Z → Atoi (pretty z) = (z, None).
Proof.
  intros Hz.
  assert (∀ p, signOf (pretty (N.pos p)) = (false, pretty (N.pos p))) as Hs.
  { intros p. destruct (pretty_N_first p) as (c & r & -> & d & Hd). simpl.
    do 2 (case_bool_decide; [subst; done|]). done. }
  assert (∀ p, pretty (N.pos p) ≠ "") as Hn.
  { intros p. by destruct (pretty_N_first p) as (c & r & -> & _). }
  unfold Atoi. destruct z as [|p|p].
  - done.
  - change (pretty (Z.pos p)) with (pretty (N.pos p)). rewrite Hs.
    rewrite bool_decide_eq_false_2 by apply Hn. rewrite digits_pretty_N.
    change (Z.of_N (N.pos p)) with (Z.pos p).
    destruct (Z.leb_spec (2 ^ 63) (Z.pos p)); [lia|done].
  - change (pretty (Z.neg p)) with (String "-" (pretty (N.pos p))). simpl.
    rewrite bool_decide_eq_false_2 by apply Hn. rewrite digits_pretty_N.
    change (Z.of_N (N.pos p)) with (Z.pos p).
    destruct (Z.ltb_spec (2 ^ 63) (Z.pos p)); [lia|done].
Qed.

Lemma Clean_nonempty p : Clean p ≠ "".
Proof. unfold Clean. destruct (HasPrefix p "/"); [done|]. by case_bool_decide. Qed.
Lemma JoinPath_nonempty d es : d ≠ "" → JoinPath (d :: es) ≠ "".
Proof.
  intros Hd. unfold JoinPath. rewrite filter_cons_True by done. apply Clean_nonempty.
Qed.

(** A text built with a positive fixed part is not empty. *)
Lemma sapp_nonempty_r s t : t ≠ "" → s +:+ t ≠ "".
Proof. intros Ht [_ ?]%sapp_eq_nil. done. Qed.

#[export] Hint Resolve sapp_nonempty_r : shield.
#[export] Hint Rewrite sapp_nil_r len_app substring_0_len substring_app_r : goeqs.
