(* ===== verification/GoHeap.v ===== *)
(** * Go pointers, slices and maps

    A heap of cells, and what it means that a copy of a structure is deep.  A
    representation type [A] is what a Go variable holds: plain data and references.
    [Deep A] gives for a representation the value it denotes ([val]), the storage it
    reaches ([refs]), its copy routine ([copy]) and the part of the storage that the
    routine shares with the original ([shared]).  [DeepLaws] is the contract of a
    copy routine; the combinators below build lawful routines from lawful ones, the
    way the generated code does.

    A slice is its backing array (the copied slices are whole arrays); a nil
    pointer, slice or map is [None]. *)
From S2P Require Import Prelude.
From stdpp Require Import base gmap strings list fin_maps.
From Stdlib Require Import ZArith Lia.

Abbreviation loc := positive.

(** The kinds of fields of a representation: data without references, a reference
    whose target is plain (a pointer, slice or map), a pointer that is copied as it
    is, a pointer to a structure, a structure that is copied as it is, a slice of
    structures. *)
Definition Plain (A : Type) : Type := A.
Definition Ref (A : Type) : Type := option loc.
Definition Alias (A : Type) : Type := option loc.
Definition Ptr (A : Type) : Type := option loc.
Definition Shallow (A : Type) : Type := A.
Abbreviation Slice A := (Ptr (list A)).
#[global] Typeclasses Opaque Plain Ref Alias Ptr Shallow.

Section heap.
Context {cell : Type}.
Abbreviation Heap := (gmap loc cell).

(** The cells that hold values of type [A]. *)
Class Cellable (A : Type) := { inj : A → cell; prj : cell → option A; prj_inj a : prj (inj a) = Some a }.

Definition peek {A} `{Cellable A} (h : Heap) (l : loc) : option A := h !! l ≫= prj.
Definition load {A} `{Cellable A} (l : loc) : M Heap A := λ h,
  match peek h l with
  | Some a => (Ret a, h)
  | None => (Panic nil_dereference, h)
  end.
Definition alloc {A} `{Cellable A} (a : A) : M Heap loc := λ h,
  let l := fresh (dom h) in (Ret l, <[l := inj a]> h).
Definition write {A} `{Cellable A} (l : loc) (a : A) : M Heap unit := λ h,
  (Ret tt, <[l := inj a]> h).

(** ** The contract of a copy *)

Class Deep (A : Type) := {
  Val : Type;
  val : Heap → A → option Val;
  refs : Heap → A → gset loc;
  shared : Heap → A → gset loc;
  copy : A → M Heap A }.

Class DeepLaws (A : Type) `{Deep A} : Prop := {
  (* value and storage depend on the storage only *)
  val_local h h' a : (∀ l, l ∈ refs h a → h' !! l = h !! l) → val h' a = val h a;
  refs_local h h' a : (∀ l, l ∈ refs h a → h' !! l = h !! l) → refs h' a = refs h a;
  shared_local h h' a : (∀ l, l ∈ refs h a → h' !! l = h !! l) → shared h' a = shared h a;
  refs_dom h a v : val h a = Some v → refs h a ⊆ dom h;
  shared_refs h a : shared h a ⊆ refs h a;
  (* a copy denotes the same value, changes nothing that exists, and reaches
     nothing that exists except what is shared *)
  copy_ok h a v : val h a = Some v →
    runs (copy a) h (λ a' h', h ⊆ h' ∧ val h' a' = Some v ∧ refs h' a' ∩ dom h = shared h a) }.

Lemma extends_agree (h h' : Heap) (X : gset loc) :
  h ⊆ h' → X ⊆ dom h → ∀ l, l ∈ X → h' !! l = h !! l.
Proof.
  intros Hh HX l Hl. apply HX, elem_of_dom in Hl as [c Hc]. rewrite Hc.
  by eapply lookup_weaken.
Qed.

Section extends.
Context {A : Type} `{DeepLaws A}.
Lemma val_extends h h' a v : val h a = Some v → h ⊆ h' → val h' a = Some v.
Proof.
  intros Hv Hh. rewrite (val_local h h'); [done|].
  eapply extends_agree; [done|by eapply refs_dom].
Qed.
Lemma refs_extends h h' a v : val h a = Some v → h ⊆ h' → refs h' a = refs h a.
Proof.
  intros Hv Hh. apply refs_local. eapply extends_agree; [done|by eapply refs_dom].
Qed.
Lemma shared_extends h h' a v : val h a = Some v → h ⊆ h' → shared h' a = shared h a.
Proof.
  intros Hv Hh. apply shared_local. eapply extends_agree; [done|by eapply refs_dom].
Qed.
End extends.

Lemma fresh_extends (h : Heap) (c : cell) : h ⊆ <[fresh (dom h) := c]> h.
Proof. apply insert_subseteq, not_elem_of_dom, is_fresh. Qed.

(** ** Data without references *)

#[export] Instance Deep_plain (A : Type) : Deep (Plain A) := {|
  Val := A; val _ a := Some a; refs _ _ := ∅; shared _ _ := ∅; copy a := mret a |}.
#[export] Instance Deep_plain_laws A : DeepLaws (Plain A).
Proof.
  split; simpl; try done.
  intros h a v ?. simplify_eq. apply runs_ret. split_and!; [done|done|set_solver].
Qed.

(** A structure that an assignment copies without its storage. *)
#[export] Instance Deep_shallow A `{Deep A} : Deep (Shallow A) := {|
  Val := Val (A := A); val h (a : A) := val h a; refs h (a : A) := refs h a;
  shared h (a : A) := refs h a; copy a := mret a |}.
#[export] Instance Deep_shallow_laws A `{DeepLaws A} : DeepLaws (Shallow A).
Proof.
  split; simpl.
  - intros h h' a. apply val_local.
  - intros h h' a. apply refs_local.
  - intros h h' a. apply refs_local.
  - intros h a v. apply refs_dom.
  - done.
  - intros h a v Hv. apply runs_ret. split_and!; [done|done|].
    apply refs_dom in Hv. set_solver.
Qed.

(** ** References *)

(** [if in != nil { *out = new(T); **out = **in }], and slices and maps of plain
    data: a new cell with the same content. *)
Definition copyRef {A} `{Cellable A} (r : Ref A) : M Heap (Ref A) :=
  match r with
  | None => mret None
  | Some l => a ← load (A := A) l; l' ← alloc a; mret (Some l')
  end.
(** [*out = *in] of a pointer: both point to the same cell. *)
Definition shareRef {A} (r : Alias A) : M Heap (Alias A) := mret r.
(** A pointer to a struct: nil stays nil, otherwise [new(T)] and the struct's own
    [DeepCopyInto]. *)
Definition copyPtr {A} `{Cellable A} (c : A → M Heap A) (r : Ptr A)
    : M Heap (Ptr A) :=
  match r with
  | None => mret None
  | Some l => a ← load l; a' ← c a; l' ← alloc a'; mret (Some l')
  end.
(** A slice of structs: a new array, element by element with [DeepCopyInto]. *)
Definition copySlice {A} `{Cellable (list A)} (c : A → M Heap A) (r : Slice A)
    : M Heap (Slice A) := copyPtr (mapMW c) r.

Definition refVal {A} `{Cellable A} (h : Heap) (r : option loc) : option (option A) :=
  match r with None => Some None | Some l => Some <$> peek h l end.
Definition refSet (r : option loc) : gset loc :=
  match r with None => ∅ | Some l => {[ l ]} end.

#[export] Instance Deep_ref A `{Cellable A} : Deep (Ref A) := {|
  Val := option A; val h r := refVal h r; refs _ r := refSet r; shared _ _ := ∅;
  copy := copyRef (A := A) |}.
#[export] Instance Deep_alias A `{Cellable A} : Deep (Alias A) := {|
  Val := option A; val h r := refVal h r; refs _ r := refSet r; shared _ r := refSet r;
  copy := shareRef (A := A) |}.

Lemma refVal_local {A} `{Cellable A} (h h' : Heap) r :
  (∀ l, l ∈ refSet r → h' !! l = h !! l) → refVal (A := A) h' r = refVal h r.
Proof.
  intros Hl. destruct r as [l|]; [|done]. simpl. unfold peek. rewrite Hl; [done|set_solver].
Qed.
Lemma refVal_dom {A} `{Cellable A} (h : Heap) r (v : option A) :
  refVal h r = Some v → refSet r ⊆ dom h.
Proof.
  destruct r as [l|]; simpl; [|set_solver]. unfold peek.
  destruct (h !! l) as [c|] eqn:E; [|done]. intros _. apply elem_of_dom_2 in E. set_solver.
Qed.

#[export] Instance Deep_ref_laws A `{Cellable A} : DeepLaws (Ref A).
Proof.
  split; simpl; try set_solver.
  - intros h h' a. apply refVal_local.
  - intros h a v. apply refVal_dom.
  - intros h [l|] v Hv; simpl in *.
    + destruct (peek h l) as [a|] eqn:E; [|done]. simplify_eq/=.
      apply runs_bind. exists a, h. split; [unfold load; by rewrite E|].
      apply runs_bind. eexists _, _. split; [reflexivity|]. apply runs_ret.
      split_and!; [apply fresh_extends| |].
      * simpl. unfold peek. rewrite lookup_insert_eq. simpl. by rewrite prj_inj.
      * simpl. pose proof (is_fresh (dom h)). set_solver.
    + apply runs_ret. simplify_eq. split_and!; [done|done|set_solver].
Qed.
#[export] Instance Deep_alias_laws A `{Cellable A} : DeepLaws (Alias A).
Proof.
  split; simpl; try done.
  - intros h h' a. apply refVal_local.
  - intros h a v. apply refVal_dom.
  - intros h r v Hv. apply runs_ret. apply refVal_dom in Hv as Hd.
    split_and!; [done|done|set_solver].
Qed.

(** ** Several parts *)

Lemma seq_shared (h h1 : Heap) (R1 R2 S1 S2 : gset loc) :
  h ⊆ h1 → R1 ∩ dom h = S1 → R2 ∩ dom h1 = S2 → S2 ⊆ dom h →
  (R1 ∪ R2) ∩ dom h = S1 ∪ S2.
Proof. intros Hh%subseteq_dom. set_solver. Qed.

(** Copying one part after the other. *)
Lemma copy_seq {A B} `{DeepLaws A} `{DeepLaws B} h (a : A) (b : B) v u :
  val h a = Some v → val h b = Some u →
  runs (a' ← copy a; b' ← copy b; mret (a', b')) h (λ '(a', b') h', h ⊆ h' ∧
    val h' a' = Some v ∧ val h' b' = Some u ∧
    (refs h' a' ∪ refs h' b') ∩ dom h = shared h a ∪ shared h b).
Proof.
  intros Ha Hb. run_step. run_with (copy_ok h a v Ha). intros a' h1 (Hh1 & Hva & Hra).
  pose proof (val_extends h h1 b u Hb Hh1) as Hb1.
  run_step. run_with (copy_ok h1 b u Hb1). intros b' h2 (Hh2 & Hvb & Hrb). run_step.
  split_and!; [by etrans|by eapply val_extends|done|].
  rewrite (refs_extends h1 h2 a' v) by done. rewrite (shared_extends h h1 b u) in Hrb by done.
  eapply seq_shared; [exact Hh1|done|done|].
  etrans; [apply shared_refs|by eapply refs_dom].
Qed.

#[export] Instance Deep_pair A B `{Deep A} `{Deep B} : Deep (A * B) := {|
  Val := Val (A := A) * Val (A := B);
  val h '(a, b) := v ← val h a; u ← val h b; Some (v, u);
  refs h '(a, b) := refs h a ∪ refs h b;
  shared h '(a, b) := shared h a ∪ shared h b;
  copy '(a, b) := a' ← copy a; b' ← copy b; mret (a', b') |}.
#[export] Instance Deep_pair_laws A B `{DeepLaws A} `{DeepLaws B} : DeepLaws (A * B).
Proof.
  split.
  - intros h h' [a b] Hl. simpl in *. rewrite (val_local h h' a), (val_local h h' b); set_solver.
  - intros h h' [a b] Hl. simpl in *. rewrite (refs_local h h' a), (refs_local h h' b); set_solver.
  - intros h h' [a b] Hl. simpl in *.
    rewrite (shared_local h h' a), (shared_local h h' b); set_solver.
  - intros h [a b] v Hv. simpl in *. destruct (val h a) eqn:Ea; [|done].
    destruct (val h b) eqn:Eb; [|done].
    apply refs_dom in Ea. apply refs_dom in Eb. set_solver.
  - intros h [a b]. simpl. pose proof (shared_refs h a). pose proof (shared_refs h b). set_solver.
  - intros h [a b] v Hv. simpl in *. destruct (val h a) as [va|] eqn:Ea; [|done].
    destruct (val h b) as [vb|] eqn:Eb; [|done]. simplify_eq/=.
    run_with (copy_seq h a b va vb Ea Eb). intros [a' b'] h' (Hh & Hva & Hvb & Hr).
    simpl. by rewrite Hva, Hvb.
Qed.

Lemma copy_pair_inv {A B} `{Deep A} `{Deep B} (a : A) (b : B) h t h' :
  copy (a, b) h = (Ret t, h') →
  ∃ a' b' h1, copy a h = (Ret a', h1) ∧ copy b h1 = (Ret b', h') ∧ t = (a', b').
Proof.
  simpl. intros (a' & h1 & Ha & (b' & h2 & Hb & E)%M_bind_inv)%M_bind_inv.
  exists a', b', h1. injection E as <- <-. done.
Qed.
Lemma copy_plain_inv {A} (a : Plain A) (h : Heap) t h' :
  copy a h = (Ret t, h') → t = a ∧ h' = h.
Proof. simpl. intros E. by injection E as <- <-. Qed.

Lemma copy_shallow_inv {A} `{Deep A} (a : Shallow A) (h : Heap) t h' :
  copy a h = (Ret t, h') → t = a ∧ h' = h.
Proof. simpl. intros E. by injection E as <- <-. Qed.

Fixpoint unions {A} (f : A → gset loc) (l : list A) : gset loc :=
  match l with [] => ∅ | a :: l' => f a ∪ unions f l' end.
Lemma unions_ext {A} (f g : A → gset loc) l : (∀ a, f a = g a) → unions f l = unions g l.
Proof. intros E. induction l as [|a l IH]; [done|]. simpl. by rewrite E, IH. Qed.
#[export] Instance Deep_list A `{Deep A} : Deep (list A) := {|
  Val := list (Val (A := A));
  val h l := mapM (val h) l;
  refs h l := unions (refs h) l;
  shared h l := unions (shared h) l;
  copy := mapMW copy |}.
#[export] Instance Deep_list_laws A `{DeepLaws A} : DeepLaws (list A).
Proof.
  split; simpl.
  - intros h h' l. induction l as [|a l IH]; [done|]. simpl. intros Hl.
    rewrite (val_local h h' a), IH by set_solver. done.
  - intros h h' l. induction l as [|a l IH]; [done|]. simpl. intros Hl.
    rewrite (refs_local h h' a), IH by set_solver. done.
  - intros h h' l. induction l as [|a l IH]; [done|]. simpl. intros Hl.
    rewrite (shared_local h h' a), IH by set_solver. done.
  - intros h l. induction l as [|a l IH]; intros v; simpl; [set_solver|].
    destruct (val h a) eqn:Ea; [|done]. simpl.
    destruct (mapM (val h) l) eqn:El; [|done]. intros _.
    apply refs_dom in Ea. specialize (IH _ eq_refl). set_solver.
  - intros h l. induction l as [|a l IH]; simpl; [done|].
    pose proof (shared_refs h a). set_solver.
  - intros h l. revert h. induction l as [|a l IH]; intros h v Hv; simpl in *.
    { simplify_eq. run_step. split_and!; [done|done|set_solver]. }
    destruct (val h a) as [va|] eqn:Ea; [|done]. simpl in Hv.
    destruct (mapM (val h) l) as [vs|] eqn:El; [|done]. simplify_eq/=.
    run_step. run_with (copy_ok h a va Ea). intros a' h1 (Hh1 & Hva & Hra).
    assert (mapM (val h1) l = Some vs ∧ unions (shared h1) l = unions (shared h) l
            ∧ unions (shared h) l ⊆ dom h) as (El1 & Es & Hs).
    { clear -El Hh1 H0. revert vs El. induction l as [|b l IH]; intros vs El; simpl in *.
      { split_and!; [done|done|set_solver]. }
      destruct (val h b) as [vb|] eqn:Eb; [|done]. simpl in El.
      destruct (mapM (val h) l) as [us|]; [|done]. simplify_eq/=.
      destruct (IH us eq_refl) as (E1 & E2 & E3).
      rewrite (val_extends h h1 b vb) by done. simpl. rewrite E1, E2.
      rewrite (shared_extends h h1 b vb) by done.
      pose proof (refs_dom h b vb Eb). pose proof (shared_refs h b). split_and!; set_solver. }
    run_step. run_with (IH h1 vs El1). intros l' h2 (Hh2 & Hvs & Hrl). run_step.
    split_and!; [by etrans| |].
    + simpl. rewrite (val_extends h1 h2 a' va) by done. simpl. by rewrite Hvs.
    + simpl. rewrite (refs_extends h1 h2 a' va) by done. rewrite Es in Hrl.
      by eapply seq_shared.
Qed.

(** ** Pointers to structures *)

Definition ptrFold {A B} `{Cellable A} (f : A → B) (d : B) (h : Heap) (r : option loc) : B :=
  match r ≫= peek h with Some a => f a | None => d end.
Lemma ptrFold_ext {A B} `{Cellable A} (f g : A → B) d h r :
  (∀ a, f a = g a) → ptrFold f d h r = ptrFold g d h r.
Proof. intros E. unfold ptrFold. destruct (r ≫= peek h); [apply E|done]. Qed.
#[export] Instance Deep_ptr A `{Cellable A} `{Deep A} : Deep (Ptr A) := {|
  Val := option (Val (A := A));
  val h r := match r with
             | None => Some None
             | Some l => a ← peek h l; Some <$> val h a
             end;
  refs h r := refSet r ∪ ptrFold (refs h) ∅ h r;
  shared h r := ptrFold (shared h) ∅ h r;
  copy := copyPtr copy |}.
#[export] Instance Deep_ptr_laws A `{Cellable A} `{DeepLaws A} : DeepLaws (Ptr A).
Proof.
  assert (∀ (h h' : Heap) l, (∀ l0, l0 ∈ refs (A := Ptr A) h (Some l) → h' !! l0 = h !! l0) →
    peek (A := A) h' l = peek h l) as Hpeek.
  { intros h h' l Hl. unfold peek. rewrite (Hl l); [done|]. simpl. set_solver. }
  split.
  - intros h h' [l|] Hl; [|done]. simpl. rewrite (Hpeek h h') by done. simpl in Hl.
    unfold ptrFold in Hl. simpl in Hl. destruct (peek h l) as [a|]; [|done]. simpl.
    rewrite (val_local h h' a); [done|]. set_solver.
  - intros h h' [l|] Hl; [|done]. simpl. unfold ptrFold. simpl. rewrite (Hpeek h h') by done.
    simpl in Hl. unfold ptrFold in Hl. simpl in Hl. destruct (peek h l) as [a|]; [|done]. simpl.
    rewrite (refs_local h h' a); [done|]. set_solver.
  - intros h h' [l|] Hl; [|done]. simpl. unfold ptrFold. simpl. rewrite (Hpeek h h') by done.
    simpl in Hl. unfold ptrFold in Hl. simpl in Hl. destruct (peek h l) as [a|]; [|done]. simpl.
    apply shared_local. set_solver.
  - intros h [l|] v; simpl; unfold ptrFold; simpl; [|set_solver].
    destruct (peek h l) as [a|] eqn:E; [|done]. simpl. destruct (val h a) eqn:Ea; [|done].
    intros _. apply refs_dom in Ea. unfold peek in E.
    destruct (h !! l) eqn:El; [|done]. apply elem_of_dom_2 in El. set_solver.
  - intros h [l|]; simpl; unfold ptrFold; simpl; [|set_solver].
    destruct (peek h l) as [a|]; [|set_solver]. pose proof (shared_refs h a). set_solver.
  - intros h [l|] v Hv; simpl in *.
    2: { run_step. simplify_eq. split_and!; [done|done|]. unfold ptrFold. simpl. set_solver. }
    unfold ptrFold. simpl. destruct (peek h l) as [a|] eqn:E; [|done]. simpl in Hv.
    destruct (val h a) as [va|] eqn:Ea; [|done]. simplify_eq/=.
    run_step. exists a, h. split; [unfold load; by rewrite E|].
    run_step. run_with (copy_ok h a va Ea). intros a' h1 (Hh1 & Hva & Hra).
    run_step. eexists _, _. split; [reflexivity|]. run_step.
    assert (peek (<[fresh (dom h1) := inj a']> h1) (fresh (dom h1)) = Some a') as Ep.
    { unfold peek. rewrite lookup_insert_eq. simpl. by rewrite prj_inj. }
    unfold ptrFold. simpl. rewrite !Ep. simpl.
    rewrite (val_extends h1 _ a' va) by (done || apply fresh_extends).
    rewrite (refs_extends h1 _ a' va) by (done || apply fresh_extends).
    split_and!; [etrans; [exact Hh1|apply fresh_extends]|done|].
    pose proof (is_fresh (dom h1)). apply subseteq_dom in Hh1. set_solver.
Qed.

(** ** Structures *)

(** A struct type [R] with the parts [T] and its own copy routine [c]. *)
Definition Deep_struct {R T} `{Deep T} (f : R → T) (c : R → M Heap R) : Deep R := {|
  Val := Val (A := T); val h r := val h (f r); refs h r := refs h (f r);
  shared h r := shared h (f r); copy := c |}.
Lemma Deep_struct_laws {R T} `{DeepLaws T} (f : R → T) (c : R → M Heap R) :
  (∀ r h t h', copy (f r) h = (Ret t, h') → ∃ r', c r h = (Ret r', h') ∧ f r' = t) →
  @DeepLaws R (Deep_struct f c).
Proof.
  intros Hc. split; simpl.
  - intros h h' r. apply val_local.
  - intros h h' r. apply refs_local.
  - intros h h' r. apply shared_local.
  - intros h r v. apply refs_dom.
  - intros h r. apply shared_refs.
  - intros h r v Hv. destruct (copy_ok h (f r) v Hv) as (t & h' & E & Ht).
    destruct (Hc r h t h' E) as (r' & E' & <-). by exists r', h'.
Qed.

(** ** Copies that share nothing *)

Class FullyDeep (A : Type) `{Deep A} : Prop := nothing_shared h (a : A) : shared h a = ∅.
#[export] Instance plain_fully A : FullyDeep (Plain A).
Proof. done. Qed.
#[export] Instance ref_fully A `{Cellable A} : FullyDeep (Ref A).
Proof. done. Qed.
#[export] Instance pair_fully A B `{Deep A} `{Deep B} `{!FullyDeep A, !FullyDeep B} :
  FullyDeep (A * B).
Proof. intros h [a b]. simpl. rewrite (nothing_shared h a), (nothing_shared h b). set_solver. Qed.
Lemma unions_empty {A} (f : A → gset loc) l : (∀ a, f a = ∅) → unions f l = ∅.
Proof. intros Hf. induction l as [|a l IH]; [done|]. simpl. rewrite Hf, IH. set_solver. Qed.
#[export] Instance list_fully A `{Deep A} `{!FullyDeep A} : FullyDeep (list A).
Proof. intros h l. apply unions_empty, nothing_shared. Qed.
#[export] Instance ptr_fully A `{Cellable A} `{Deep A} `{!FullyDeep A} : FullyDeep (Ptr A).
Proof.
  intros h r. simpl. unfold ptrFold. destruct (r ≫= peek h); [apply nothing_shared|done].
Qed.
Lemma struct_fully {R T} `{Deep T} `{!FullyDeep T} (f : R → T) (c : R → M Heap R) :
  @FullyDeep R (Deep_struct f c).
Proof. intros h r. exact (nothing_shared h (f r)). Qed.

(** ** Isolation *)

(** After a lawful copy, writing to the copy's own storage does not change the
    original, and writing to the original's storage outside the shared part does not
    change the copy. *)
Lemma copy_isolated {A} `{DeepLaws A} h (a : A) v :
  val h a = Some v →
  runs (copy a) h (λ a' h', val h' a = Some v ∧ val h' a' = Some v ∧
    ∀ l c, l ∉ shared h a →
      (l ∈ refs h' a' → val (<[l := c]> h') a = Some v) ∧
      (l ∈ refs h' a → val (<[l := c]> h') a' = Some v)).
Proof.
  intros Hv. run_with (copy_ok h a v Hv). intros a' h' (Hh & Hv' & Hr).
  pose proof (val_extends h h' a v Hv Hh) as Hv1.
  pose proof (refs_dom h a v Hv) as Hd. pose proof (refs_extends h h' a v Hv Hh) as Hre.
  split_and!; [done|done|]. intros l c Hs. split; intros Hl.
  - rewrite (val_local h' _ a); [done|]. intros l' Hl'. rewrite lookup_insert_ne; [done|].
    intros ->. rewrite Hre in Hl'. set_solver.
  - rewrite (val_local h' _ a'); [done|]. intros l' Hl'. rewrite lookup_insert_ne; [done|].
    intros ->. rewrite Hre in Hl. set_solver.
Qed.
End heap.
Arguments Cellable cell A : clear implicits.
Arguments Deep cell A : clear implicits.
Arguments DeepLaws cell A {_}.
Arguments FullyDeep cell A {_}.
