(* ===== verification/DeepCopy.v ===== *)
(** * The generated copy functions

    [zz_generated.deepcopy.go] of the three API packages:
    [integrity-shield-operator/api/v1],
    [observer/pkg/apis/manifestintegritystate/v1] and
    [webhook/.../apis/manifestintegrityprofile/v1].  A type [XR] is the memory
    representation of the Go struct [X]: [Plain], [Ref], [Alias], [Ptr], [Slice] and
    [Shallow] fields say how the generated code copies them (see [GoHeap]).
    [X_DeepCopyInto] returns what it writes to [out]; [X_DeepCopy] works on pointers.

    Structures of other packages ([metav1.ObjectMeta], [corev1.SecurityContext] and so
    on, and the two structs copied by the copier library) are parameters with the
    contract [DeepLaws] of their own copy routines. *)
From S2P Require Import Prelude GoHeap.
From stdpp Require Import base gmap strings list.
From Stdlib Require Import ZArith Lia.

Local Open Scope string_scope.

(** The copy routine [c] of a struct with the parts [f] does what the routines of the
    parts do, one after the other. *)
Ltac deep_parts f c :=
  apply Deep_struct_laws; intros r h t h' E; unfold f in E;
  repeat match goal with
  | E : copy (_, _) _ = (Ret _, _) |- _ => apply copy_pair_inv in E as (? & ? & ? & E & ?E & ->)
  | E : copy (A := Shallow _) _ _ = (Ret _, _) |- _ => apply copy_shallow_inv in E as [-> ->]
  | E : copy (A := Plain _) _ _ = (Ret _, _) |- _ => apply copy_plain_inv in E as [-> ->]
  end;
  eexists; split;
  [ unfold c;
    repeat match goal with
    | E : copy ?x ?h = (Ret ?a, ?h1) |- (_ ≫= _) ?h = _ =>
        etrans; [apply (M_bind_Ret _ _ h a h1 E)|cbv beta; clear E]
    end; reflexivity
  | reflexivity ].

(** ** Integrity states (observer) *)

Section states.
Context {cell : Type} {ObjectMetaR ListMetaR : Type}
  `{!Deep cell ObjectMetaR, !DeepLaws cell ObjectMetaR}
  `{!Deep cell ListMetaR, !DeepLaws cell ListMetaR}.
Abbreviation Heap := (gmap loc cell).

Record VerifyResultR := mkVerifyResultR {
  vrr_Namespace : string; vrr_Name : string; vrr_Kind : string; vrr_ApiGroup : string;
  vrr_ApiVersion : string; vrr_Result : string; vrr_Signer : string;
  vrr_SignedTime : Alias Z;                       (* *time.Time *)
  vrr_SigRef : string }.
Context `{!Cellable cell Z}.

(** The pointer [SignedTime] is assigned, not copied. *)
Definition VerifyResult_DeepCopyInto (i : VerifyResultR) : M Heap VerifyResultR :=
  signedTime ← shareRef (vrr_SignedTime i);
  mret (mkVerifyResultR (vrr_Namespace i) (vrr_Name i) (vrr_Kind i) (vrr_ApiGroup i)
          (vrr_ApiVersion i) (vrr_Result i) (vrr_Signer i) signedTime (vrr_SigRef i)).
Definition VerifyResult_parts (i : VerifyResultR) : Alias Z * Plain (list string) :=
  (vrr_SignedTime i, [vrr_Namespace i; vrr_Name i; vrr_Kind i; vrr_ApiGroup i;
                      vrr_ApiVersion i; vrr_Result i; vrr_Signer i; vrr_SigRef i]).
#[export] Instance VerifyResult_deep : Deep cell VerifyResultR :=
  Deep_struct VerifyResult_parts VerifyResult_DeepCopyInto.
#[export] Instance VerifyResult_laws : DeepLaws cell VerifyResultR.
Proof. deep_parts VerifyResult_parts VerifyResult_DeepCopyInto. Qed.

Record StateSpecR := mkStateSpecR {
  ssr_ConstraintName : string; ssr_Violation : bool; ssr_TotalViolations : Z;
  ssr_Violations : Slice VerifyResultR;
  ssr_NonViolations : Slice VerifyResultR;
  ssr_ObservationTime : string }.
Context `{!Cellable cell (list VerifyResultR)}.

Definition ManifestIntegrityStateSpec_DeepCopyInto (i : StateSpecR) : M Heap StateSpecR :=
  violations ← copySlice VerifyResult_DeepCopyInto (ssr_Violations i);
  nonViolations ← copySlice VerifyResult_DeepCopyInto (ssr_NonViolations i);
  mret (mkStateSpecR (ssr_ConstraintName i) (ssr_Violation i) (ssr_TotalViolations i)
          violations nonViolations (ssr_ObservationTime i)).
Definition StateSpec_parts (i : StateSpecR)
    : Slice VerifyResultR * Slice VerifyResultR * Plain (string * bool * Z * string) :=
  (ssr_Violations i, ssr_NonViolations i,
   (ssr_ConstraintName i, ssr_Violation i, ssr_TotalViolations i, ssr_ObservationTime i)).
#[export] Instance StateSpec_deep : Deep cell StateSpecR :=
  Deep_struct StateSpec_parts ManifestIntegrityStateSpec_DeepCopyInto.
#[export] Instance StateSpec_laws : DeepLaws cell StateSpecR.
Proof. deep_parts StateSpec_parts ManifestIntegrityStateSpec_DeepCopyInto. Qed.

(** The status has no fields. *)
Record StateStatusR := mkStateStatusR { }.
Definition ManifestIntegrityStateStatus_DeepCopyInto (i : StateStatusR) : M Heap StateStatusR :=
  mret i.

Record StateR := mkStateR {
  st_TypeMeta : string * string; st_ObjectMeta : ObjectMetaR; st_Spec : StateSpecR;
  st_Status : StateStatusR }.
Definition ManifestIntegrityState_DeepCopyInto (i : StateR) : M Heap StateR :=
  meta ← copy (st_ObjectMeta i);
  spec ← ManifestIntegrityStateSpec_DeepCopyInto (st_Spec i);
  mret (mkStateR (st_TypeMeta i) meta spec (st_Status i)).
Definition State_parts (i : StateR) : ObjectMetaR * StateSpecR
    * Plain (string * string * StateStatusR) :=
  (st_ObjectMeta i, st_Spec i, (st_TypeMeta i, st_Status i)).
#[export] Instance State_deep : Deep cell StateR :=
  Deep_struct State_parts ManifestIntegrityState_DeepCopyInto.
#[export] Instance State_laws : DeepLaws cell StateR.
Proof. deep_parts State_parts ManifestIntegrityState_DeepCopyInto. Qed.

Record StateListR := mkStateListR {
  stl_TypeMeta : string * string; stl_ListMeta : ListMetaR; stl_Items : Slice StateR }.
Context `{!Cellable cell (list StateR)}.
Definition ManifestIntegrityStateList_DeepCopyInto (i : StateListR) : M Heap StateListR :=
  meta ← copy (stl_ListMeta i);
  items ← copySlice ManifestIntegrityState_DeepCopyInto (stl_Items i);
  mret (mkStateListR (stl_TypeMeta i) meta items).
Definition StateList_parts (i : StateListR)
    : ListMetaR * Slice StateR * Plain (string * string) :=
  (stl_ListMeta i, stl_Items i, stl_TypeMeta i).
#[export] Instance StateList_deep : Deep cell StateListR :=
  Deep_struct StateList_parts ManifestIntegrityStateList_DeepCopyInto.
#[export] Instance StateList_laws : DeepLaws cell StateListR.
Proof. deep_parts StateList_parts ManifestIntegrityStateList_DeepCopyInto. Qed.

Context `{!Cellable cell VerifyResultR, !Cellable cell StateSpecR, !Cellable cell StateR,
          !Cellable cell StateStatusR, !Cellable cell StateListR}.
Definition ManifestIntegrityStateStatus_DeepCopy (p : Ptr StateStatusR)
    : M Heap (Ptr StateStatusR) := copyPtr ManifestIntegrityStateStatus_DeepCopyInto p.
Definition VerifyResult_DeepCopy (p : Ptr VerifyResultR) : M Heap (Ptr VerifyResultR) :=
  copyPtr VerifyResult_DeepCopyInto p.
Definition ManifestIntegrityStateSpec_DeepCopy (p : Ptr StateSpecR) : M Heap (Ptr StateSpecR) :=
  copyPtr ManifestIntegrityStateSpec_DeepCopyInto p.
Definition ManifestIntegrityState_DeepCopy (p : Ptr StateR) : M Heap (Ptr StateR) :=
  copyPtr ManifestIntegrityState_DeepCopyInto p.
Definition ManifestIntegrityStateList_DeepCopy (p : Ptr StateListR) : M Heap (Ptr StateListR) :=
  copyPtr ManifestIntegrityStateList_DeepCopyInto p.
(** [DeepCopyObject]: the copy as a [runtime.Object], nil for nil. *)
Definition DeepCopyObject {A} (DeepCopy : Ptr A → M Heap (Ptr A)) (p : Ptr A) : M Heap (Ptr A) :=
  c ← DeepCopy p;
  match c with Some l => mret (Some l) | None => mret None end.

(** The times of signature that a list of results, a state and a list of states
    reach. *)
Definition signedTimes (h : Heap) (r : Slice VerifyResultR) : gset loc :=
  ptrFold (unions (λ v, refSet (vrr_SignedTime v))) ∅ h r.
Definition stateTimes (h : Heap) (s : StateR) : gset loc :=
  signedTimes h (ssr_Violations (st_Spec s)) ∪ signedTimes h (ssr_NonViolations (st_Spec s)).
Definition listTimes (h : Heap) (l : StateListR) : gset loc :=
  ptrFold (unions (stateTimes h)) ∅ h (stl_Items l).

Lemma signedTimes_shared h (r : Slice VerifyResultR) : shared h r = signedTimes h r.
Proof. apply ptrFold_ext. intros l. apply unions_ext. intros v. simpl. set_solver. Qed.
Lemma stateTimes_shared `{!FullyDeep cell ObjectMetaR} h (s : StateR) :
  shared h s = stateTimes h s.
Proof.
  unfold stateTimes. rewrite <- !signedTimes_shared.
  change (shared h s) with (shared h (State_parts s)). simpl.
  rewrite nothing_shared. set_solver.
Qed.
Lemma listTimes_shared `{!FullyDeep cell ObjectMetaR, !FullyDeep cell ListMetaR} h
    (l : StateListR) : shared h l = listTimes h l.
Proof.
  change (shared h l) with (shared h (StateList_parts l)).
  transitivity (∅ ∪ shared h (stl_Items l) ∪ ∅);
    [simpl; by rewrite nothing_shared|].
  rewrite union_empty_l_L, union_empty_r_L. apply ptrFold_ext. intros items.
  apply unions_ext. intros s. apply stateTimes_shared.
Qed.

(** The copy of a list of integrity states has the same value, no existing cell is
    changed, and the copy shares with the list exactly the cells with the times of
    signature of its results, when the metadata are copied deeply: all slices are new,
    the pointers [SignedTime] are not. *)
Theorem ManifestIntegrityStateList_DeepCopy_spec
    `{!FullyDeep cell ObjectMetaR, !FullyDeep cell ListMetaR} h (p : Ptr StateListR) v :
  val h p = Some v →
  runs (ManifestIntegrityStateList_DeepCopy p) h (λ p' h', h ⊆ h' ∧ val h' p' = Some v ∧
    refs h' p' ∩ dom h = ptrFold (listTimes h) ∅ h p).
Proof.
  intros Hv. run_with (copy_ok h p v Hv). intros p' h' (Hh & Hv' & ->).
  split_and!; [done|done|]. apply ptrFold_ext, listTimes_shared.
Qed.
End states.

(** ** Integrity profiles (admission controller) *)

Section profiles.
Context {cell : Type} {ObjectMetaR ListMetaR MatchConditionR ParameterObjectR : Type}
  `{!Deep cell ObjectMetaR, !DeepLaws cell ObjectMetaR}
  `{!Deep cell ListMetaR, !DeepLaws cell ListMetaR}
  `{!Deep cell MatchConditionR, !DeepLaws cell MatchConditionR}
  `{!Deep cell ParameterObjectR, !DeepLaws cell ParameterObjectR}.
Abbreviation Heap := (gmap loc cell).

Record KindsR := mkKindsR { kr_Kinds : Ref (list string); kr_ApiGroups : Ref (list string) }.
Context `{!Cellable cell (list string)}.
Definition Kinds_DeepCopyInto (i : KindsR) : M Heap KindsR :=
  kinds ← copyRef (A := list string) (kr_Kinds i);
  apiGroups ← copyRef (A := list string) (kr_ApiGroups i);
  mret (mkKindsR kinds apiGroups).
Definition Kinds_parts (i : KindsR) : Ref (list string) * Ref (list string) :=
  (kr_Kinds i, kr_ApiGroups i).
#[export] Instance Kinds_deep : Deep cell KindsR := Deep_struct Kinds_parts Kinds_DeepCopyInto.
#[export] Instance Kinds_laws : DeepLaws cell KindsR.
Proof. deep_parts Kinds_parts Kinds_DeepCopyInto. Qed.

Record ViolationDetailR := mkViolationDetailR {
  vdr_Namespace : string; vdr_Kind : string; vdr_Name : string; vdr_Message : string;
  vdr_Timestamp : string }.
Definition ViolationDetail_DeepCopyInto (i : ViolationDetailR) : M Heap ViolationDetailR :=
  mret i.

Record ProfileStatusR := mkProfileStatusR {
  psr_DenyCount : Z; psr_Violations : Slice (Ref ViolationDetailR) }.
Context `{!Cellable cell ViolationDetailR, !Cellable cell (list (Ref ViolationDetailR))}.
Definition ManifestIntegrityProfileStatus_DeepCopyInto (i : ProfileStatusR)
    : M Heap ProfileStatusR :=
  violations ← copySlice (copyRef (A := ViolationDetailR)) (psr_Violations i);
  mret (mkProfileStatusR (psr_DenyCount i) violations).
Definition ProfileStatus_parts (i : ProfileStatusR)
    : Slice (Ref ViolationDetailR) * Plain Z := (psr_Violations i, psr_DenyCount i).
#[export] Instance ProfileStatus_deep : Deep cell ProfileStatusR :=
  Deep_struct ProfileStatus_parts ManifestIntegrityProfileStatus_DeepCopyInto.
#[export] Instance ProfileStatus_laws : DeepLaws cell ProfileStatusR.
Proof. deep_parts ProfileStatus_parts ManifestIntegrityProfileStatus_DeepCopyInto. Qed.

(** [MatchCondition] and [ParameterObject] are copied by the copier library. *)
Record ProfileSpecR := mkProfileSpecR {
  pspr_Match : MatchConditionR; pspr_Parameters : ParameterObjectR }.
Definition ManifestIntegrityProfileSpec_DeepCopyInto (i : ProfileSpecR) : M Heap ProfileSpecR :=
  m ← copy (pspr_Match i);
  p ← copy (pspr_Parameters i);
  mret (mkProfileSpecR m p).
Definition ProfileSpec_parts (i : ProfileSpecR) : MatchConditionR * ParameterObjectR :=
  (pspr_Match i, pspr_Parameters i).
#[export] Instance ProfileSpec_deep : Deep cell ProfileSpecR :=
  Deep_struct ProfileSpec_parts ManifestIntegrityProfileSpec_DeepCopyInto.
#[export] Instance ProfileSpec_laws : DeepLaws cell ProfileSpecR.
Proof. deep_parts ProfileSpec_parts ManifestIntegrityProfileSpec_DeepCopyInto. Qed.

Record ProfileR := mkProfileR {
  pr_TypeMeta : string * string; pr_ObjectMeta : ObjectMetaR;
  pr_Spec : ProfileSpecR; pr_Status : ProfileStatusR }.
Definition ManifestIntegrityProfile_DeepCopyInto (i : ProfileR) : M Heap ProfileR :=
  meta ← copy (pr_ObjectMeta i);
  spec ← ManifestIntegrityProfileSpec_DeepCopyInto (pr_Spec i);
  status ← ManifestIntegrityProfileStatus_DeepCopyInto (pr_Status i);
  mret (mkProfileR (pr_TypeMeta i) meta spec status).
Definition Profile_parts (i : ProfileR)
    : ObjectMetaR * ProfileSpecR * ProfileStatusR * Plain (string * string) :=
  (pr_ObjectMeta i, pr_Spec i, pr_Status i, pr_TypeMeta i).
#[export] Instance Profile_deep : Deep cell ProfileR :=
  Deep_struct Profile_parts ManifestIntegrityProfile_DeepCopyInto.
#[export] Instance Profile_laws : DeepLaws cell ProfileR.
Proof. deep_parts Profile_parts ManifestIntegrityProfile_DeepCopyInto. Qed.

Record ProfileListR := mkProfileListR {
  prl_TypeMeta : string * string; prl_ListMeta : ListMetaR; prl_Items : Slice ProfileR }.
Context `{!Cellable cell (list ProfileR)}.
Definition ManifestIntegrityProfileList_DeepCopyInto (i : ProfileListR) : M Heap ProfileListR :=
  meta ← copy (prl_ListMeta i);
  items ← copySlice ManifestIntegrityProfile_DeepCopyInto (prl_Items i);
  mret (mkProfileListR (prl_TypeMeta i) meta items).
Definition ProfileList_parts (i : ProfileListR)
    : ListMetaR * Slice ProfileR * Plain (string * string) :=
  (prl_ListMeta i, prl_Items i, prl_TypeMeta i).
#[export] Instance ProfileList_deep : Deep cell ProfileListR :=
  Deep_struct ProfileList_parts ManifestIntegrityProfileList_DeepCopyInto.
#[export] Instance ProfileList_laws : DeepLaws cell ProfileListR.
Proof. deep_parts ProfileList_parts ManifestIntegrityProfileList_DeepCopyInto. Qed.

Context `{!Cellable cell KindsR, !Cellable cell MatchConditionR, !Cellable cell ProfileStatusR,
          !Cellable cell ProfileSpecR, !Cellable cell ProfileR, !Cellable cell ProfileListR}.
Definition Kinds_DeepCopy (p : Ptr KindsR) : M Heap (Ptr KindsR) := copyPtr Kinds_DeepCopyInto p.
Definition ViolationDetail_DeepCopy (p : Ptr ViolationDetailR) : M Heap (Ptr ViolationDetailR) :=
  copyPtr ViolationDetail_DeepCopyInto p.
Definition MatchCondition_DeepCopy (p : Ptr MatchConditionR) : M Heap (Ptr MatchConditionR) :=
  copyPtr copy p.
Definition ManifestIntegrityProfileStatus_DeepCopy (p : Ptr ProfileStatusR)
    : M Heap (Ptr ProfileStatusR) := copyPtr ManifestIntegrityProfileStatus_DeepCopyInto p.
Definition ManifestIntegrityProfileSpec_DeepCopy (p : Ptr ProfileSpecR)
    : M Heap (Ptr ProfileSpecR) := copyPtr ManifestIntegrityProfileSpec_DeepCopyInto p.
Definition ManifestIntegrityProfile_DeepCopy (p : Ptr ProfileR) : M Heap (Ptr ProfileR) :=
  copyPtr ManifestIntegrityProfile_DeepCopyInto p.
Definition ManifestIntegrityProfileList_DeepCopy (p : Ptr ProfileListR)
    : M Heap (Ptr ProfileListR) := copyPtr ManifestIntegrityProfileList_DeepCopyInto p.

#[export] Instance ProfileStatus_fully : FullyDeep cell ProfileStatusR.
Proof. apply struct_fully. Qed.
Lemma Profile_shared `{!FullyDeep cell ObjectMetaR} h (p : ProfileR) :
  shared h p = shared h (pspr_Match (pr_Spec p)) ∪ shared h (pspr_Parameters (pr_Spec p)).
Proof.
  change (shared h p) with (shared h (Profile_parts p)).
  transitivity (shared h (pr_ObjectMeta p) ∪ shared h (pr_Spec p) ∪ shared h (pr_Status p) ∪ ∅);
    [done|].
  rewrite (nothing_shared h (pr_ObjectMeta p)), (nothing_shared h (pr_Status p)).
  transitivity (shared h (pr_Spec p)); [set_solver|done].
Qed.

(** The copy of a profile has the same value and shares with the profile exactly
    what the copier library shares of the match condition and the parameters; a write
    to any other cell of the profile, the recorded violations among them, leaves the
    copy as it is, and a write to any other cell of the copy leaves the profile. *)
Theorem ManifestIntegrityProfile_DeepCopy_isolated `{!FullyDeep cell ObjectMetaR} h
    (p : Ptr ProfileR) v :
  val h p = Some v →
  runs (ManifestIntegrityProfile_DeepCopy p) h (λ p' h',
    val h' p = Some v ∧ val h' p' = Some v ∧
    ∀ l c, l ∉ ptrFold (λ i, shared h (pspr_Match (pr_Spec i)) ∪
                             shared h (pspr_Parameters (pr_Spec i))) ∅ h p →
      (l ∈ refs h' p' → val (<[l := c]> h') p = Some v) ∧
      (l ∈ refs h' p → val (<[l := c]> h') p' = Some v)).
Proof.
  intros Hv. run_with (copy_isolated h p v Hv). intros p' h' (Hp & Hv' & Hl).
  split_and!; [done|done|]. intros l c Hn. apply Hl. contradict Hn.
  erewrite ptrFold_ext; [exact Hn|]. intros i. symmetry. apply Profile_shared.
Qed.
End profiles.

(** ** The custom resource (operator) *)

Section shields.
Context {cell : Type}
  {ObjectMetaR ListMetaR SecurityContextR PodSecurityContextR ResourceRequirementsR
   AffinityR TolerationR RuleR IntOrStringR : Type}
  `{!Deep cell ObjectMetaR, !DeepLaws cell ObjectMetaR}
  `{!Deep cell ListMetaR, !DeepLaws cell ListMetaR}
  `{!Deep cell SecurityContextR, !DeepLaws cell SecurityContextR}
  `{!Deep cell PodSecurityContextR, !DeepLaws cell PodSecurityContextR}
  `{!Deep cell ResourceRequirementsR, !DeepLaws cell ResourceRequirementsR}
  `{!Deep cell AffinityR, !DeepLaws cell AffinityR}
  `{!Deep cell TolerationR, !DeepLaws cell TolerationR}
  `{!Deep cell RuleR, !DeepLaws cell RuleR}.
Context `{!Cellable cell (gmap string string), !Cellable cell SecurityContextR,
  !Cellable cell PodSecurityContextR, !Cellable cell AffinityR, !Cellable cell (list TolerationR),
  !Cellable cell IntOrStringR, !Cellable cell Z}.
Abbreviation Heap := (gmap loc cell).
Abbreviation StringMapR := (Ref (gmap string string)).

Record LogConfigR := mkLogConfigR { lcr_LogLevel : string; lcr_LogFormat : string }.
Definition LogConfig_DeepCopyInto (i : LogConfigR) : M Heap LogConfigR := mret i.

Record SecurityConfigR := mkSecurityConfigR {
  scr_APIServiceAccountName : string; scr_ObserverServiceAccountName : string;
  scr_ObserverRole : string; scr_ObserverRoleBinding : string; scr_APIRole : string;
  scr_APIRoleBinding : string; scr_PodSecurityPolicyName : string;
  scr_PodSecurityContext : Ptr PodSecurityContextR }.
Definition SecurityConfig_DeepCopyInto (i : SecurityConfigR) : M Heap SecurityConfigR :=
  ctx ← copyPtr copy (scr_PodSecurityContext i);
  mret (mkSecurityConfigR (scr_APIServiceAccountName i) (scr_ObserverServiceAccountName i)
          (scr_ObserverRole i) (scr_ObserverRoleBinding i) (scr_APIRole i)
          (scr_APIRoleBinding i) (scr_PodSecurityPolicyName i) ctx).
Definition SecurityConfig_parts (i : SecurityConfigR)
    : Ptr PodSecurityContextR * Plain (list string) :=
  (scr_PodSecurityContext i,
   [scr_APIServiceAccountName i; scr_ObserverServiceAccountName i; scr_ObserverRole i;
    scr_ObserverRoleBinding i; scr_APIRole i; scr_APIRoleBinding i; scr_PodSecurityPolicyName i]).
#[export] Instance SecurityConfig_deep : Deep cell SecurityConfigR :=
  Deep_struct SecurityConfig_parts SecurityConfig_DeepCopyInto.
#[export] Instance SecurityConfig_laws : DeepLaws cell SecurityConfigR.
Proof. deep_parts SecurityConfig_parts SecurityConfig_DeepCopyInto. Qed.

Record APIContainerR := mkAPIContainerR {
  acr_Name : string; acr_SelectorLabels : StringMapR;
  acr_SecurityContext : Ptr SecurityContextR; acr_ImagePullPolicy : string;
  acr_Image : string; acr_Tag : string; acr_Port : Z; acr_Resources : ResourceRequirementsR }.
Definition APIContainer_DeepCopyInto (i : APIContainerR) : M Heap APIContainerR :=
  labels ← copyRef (A := gmap string string) (acr_SelectorLabels i);
  ctx ← copyPtr copy (acr_SecurityContext i);
  resources ← copy (acr_Resources i);
  mret (mkAPIContainerR (acr_Name i) labels ctx (acr_ImagePullPolicy i) (acr_Image i)
          (acr_Tag i) (acr_Port i) resources).
Definition APIContainer_parts (i : APIContainerR)
    : StringMapR * Ptr SecurityContextR * ResourceRequirementsR * Plain (list string * Z) :=
  (acr_SelectorLabels i, acr_SecurityContext i, acr_Resources i,
   ([acr_Name i; acr_ImagePullPolicy i; acr_Image i; acr_Tag i], acr_Port i)).
#[export] Instance APIContainer_deep : Deep cell APIContainerR :=
  Deep_struct APIContainer_parts APIContainer_DeepCopyInto.
#[export] Instance APIContainer_laws : DeepLaws cell APIContainerR.
Proof. deep_parts APIContainer_parts APIContainer_DeepCopyInto. Qed.

Record ControllerContainerR := mkControllerContainerR {
  ccr_Name : string; ccr_SelectorLabels : StringMapR;
  ccr_SecurityContext : Ptr SecurityContextR; ccr_ImagePullPolicy : string;
  ccr_Image : string; ccr_Tag : string; ccr_Port : Z; ccr_Resources : ResourceRequirementsR;
  ccr_Log : LogConfigR }.
Definition ControllerContainer_DeepCopyInto (i : ControllerContainerR)
    : M Heap ControllerContainerR :=
  labels ← copyRef (A := gmap string string) (ccr_SelectorLabels i);
  ctx ← copyPtr copy (ccr_SecurityContext i);
  resources ← copy (ccr_Resources i);
  mret (mkControllerContainerR (ccr_Name i) labels ctx (ccr_ImagePullPolicy i) (ccr_Image i)
          (ccr_Tag i) (ccr_Port i) resources (ccr_Log i)).
Definition ControllerContainer_parts (i : ControllerContainerR)
    : StringMapR * Ptr SecurityContextR * ResourceRequirementsR
      * Plain (list string * Z * LogConfigR) :=
  (ccr_SelectorLabels i, ccr_SecurityContext i, ccr_Resources i,
   ([ccr_Name i; ccr_ImagePullPolicy i; ccr_Image i; ccr_Tag i], ccr_Port i, ccr_Log i)).
#[export] Instance ControllerContainer_deep : Deep cell ControllerContainerR :=
  Deep_struct ControllerContainer_parts ControllerContainer_DeepCopyInto.
#[export] Instance ControllerContainer_laws : DeepLaws cell ControllerContainerR.
Proof. deep_parts ControllerContainer_parts ControllerContainer_DeepCopyInto. Qed.

(** The generated code does not mention [Resources]: it is assigned by [*out = *in]. *)
Record ObserverR := mkObserverR {
  obr_Enabled : bool; obr_Name : string; obr_SelectorLabels : StringMapR;
  obr_ImagePullPolicy : string; obr_Image : string; obr_Tag : string;
  obr_SecurityContext : Ptr SecurityContextR; obr_LogLevel : string; obr_Interval : string;
  obr_ExportDetailResult : bool; obr_Provenanece : bool;
  obr_ResultDetailConfigName : string; obr_ResultDetailConfigKey : string;
  obr_Resources : Shallow ResourceRequirementsR }.
Definition Observer_DeepCopyInto (i : ObserverR) : M Heap ObserverR :=
  labels ← copyRef (A := gmap string string) (obr_SelectorLabels i);
  ctx ← copyPtr copy (obr_SecurityContext i);
  mret (mkObserverR (obr_Enabled i) (obr_Name i) labels (obr_ImagePullPolicy i) (obr_Image i)
          (obr_Tag i) ctx (obr_LogLevel i) (obr_Interval i) (obr_ExportDetailResult i)
          (obr_Provenanece i) (obr_ResultDetailConfigName i) (obr_ResultDetailConfigKey i)
          (obr_Resources i)).
Definition Observer_parts (i : ObserverR)
    : StringMapR * Ptr SecurityContextR * Shallow ResourceRequirementsR
      * Plain (list string * list bool) :=
  (obr_SelectorLabels i, obr_SecurityContext i, obr_Resources i,
   ([obr_Name i; obr_ImagePullPolicy i; obr_Image i; obr_Tag i; obr_LogLevel i; obr_Interval i;
     obr_ResultDetailConfigName i; obr_ResultDetailConfigKey i],
    [obr_Enabled i; obr_ExportDetailResult i; obr_Provenanece i])).
#[export] Instance Observer_deep : Deep cell ObserverR :=
  Deep_struct Observer_parts Observer_DeepCopyInto.
#[export] Instance Observer_laws : DeepLaws cell ObserverR.
Proof. deep_parts Observer_parts Observer_DeepCopyInto. Qed.

(** The string, integer and boolean fields of [IntegrityShieldSpec]. *)
Record SpecScalars := mkSpecScalars {
  sps_RequestHandlerConfigKey : string; sps_RequestHandlerConfigName : string;
  sps_RequestHandlerConfig : string; sps_ApiServiceName : string; sps_ApiServicePort : Z;
  sps_AdmissionControllerConfigKey : string; sps_AdmissionControllerConfigName : string;
  sps_AdmissionControllerConfig : string; sps_APITlsSecretName : string;
  sps_WebhookServerTlsSecretName : string; sps_WebhookServiceName : string;
  sps_WebhookConfigName : string; sps_UseGatekeeper : bool; sps_Rego : string }.
Record ShieldSpecR := mkShieldSpecR {
  shr_MaxSurge : Ref IntOrStringR;
  shr_MaxUnavailable : Ref IntOrStringR;
  shr_ReplicaCount : Ref Z;
  shr_MetaLabels : StringMapR;
  shr_NodeSelector : StringMapR;
  shr_Affinity : Ptr AffinityR;
  shr_Tolerations : Slice TolerationR;
  shr_Security : SecurityConfigR;
  shr_API : APIContainerR;
  shr_ControllerContainer : ControllerContainerR;
  shr_Observer : ObserverR;
  shr_WebhookNamespacedResource : RuleR;
  shr_WebhookClusterResource : RuleR;
  shr_Scalars : SpecScalars }.
Definition IntegrityShieldSpec_DeepCopyInto (i : ShieldSpecR) : M Heap ShieldSpecR :=
  maxSurge ← copyRef (A := IntOrStringR) (shr_MaxSurge i);
  maxUnavailable ← copyRef (A := IntOrStringR) (shr_MaxUnavailable i);
  replicaCount ← copyRef (A := Z) (shr_ReplicaCount i);
  metaLabels ← copyRef (A := gmap string string) (shr_MetaLabels i);
  nodeSelector ← copyRef (A := gmap string string) (shr_NodeSelector i);
  affinity ← copyPtr copy (shr_Affinity i);
  tolerations ← copySlice copy (shr_Tolerations i);
  security ← SecurityConfig_DeepCopyInto (shr_Security i);
  api ← APIContainer_DeepCopyInto (shr_API i);
  controller ← ControllerContainer_DeepCopyInto (shr_ControllerContainer i);
  observer ← Observer_DeepCopyInto (shr_Observer i);
  nsRule ← copy (shr_WebhookNamespacedResource i);
  clRule ← copy (shr_WebhookClusterResource i);
  mret (mkShieldSpecR maxSurge maxUnavailable replicaCount metaLabels nodeSelector affinity
          tolerations security api controller observer nsRule clRule (shr_Scalars i)).
Definition ShieldSpec_parts (i : ShieldSpecR)
    : Ref IntOrStringR * Ref IntOrStringR * Ref Z * StringMapR * StringMapR * Ptr AffinityR
      * Slice TolerationR * SecurityConfigR * APIContainerR * ControllerContainerR * ObserverR
      * RuleR * RuleR * Plain SpecScalars :=
  (shr_MaxSurge i, shr_MaxUnavailable i, shr_ReplicaCount i, shr_MetaLabels i,
   shr_NodeSelector i, shr_Affinity i, shr_Tolerations i, shr_Security i, shr_API i,
   shr_ControllerContainer i, shr_Observer i, shr_WebhookNamespacedResource i,
   shr_WebhookClusterResource i, shr_Scalars i).
#[export] Instance ShieldSpec_deep : Deep cell ShieldSpecR :=
  Deep_struct ShieldSpec_parts IntegrityShieldSpec_DeepCopyInto.
#[export] Instance ShieldSpec_laws : DeepLaws cell ShieldSpecR.
Proof. deep_parts ShieldSpec_parts IntegrityShieldSpec_DeepCopyInto. Qed.

(** The status has no fields. *)
Record ShieldStatusR := mkShieldStatusR { }.
Definition IntegrityShieldStatus_DeepCopyInto (i : ShieldStatusR) : M Heap ShieldStatusR :=
  mret i.
Record ShieldR := mkShieldR {
  sh_TypeMeta : string * string; sh_ObjectMeta : ObjectMetaR; sh_Spec : ShieldSpecR;
  sh_Status : ShieldStatusR }.
Definition IntegrityShield_DeepCopyInto (i : ShieldR) : M Heap ShieldR :=
  meta ← copy (sh_ObjectMeta i);
  spec ← IntegrityShieldSpec_DeepCopyInto (sh_Spec i);
  mret (mkShieldR (sh_TypeMeta i) meta spec (sh_Status i)).
Definition Shield_parts (i : ShieldR) : ObjectMetaR * ShieldSpecR
    * Plain (string * string * ShieldStatusR) :=
  (sh_ObjectMeta i, sh_Spec i, (sh_TypeMeta i, sh_Status i)).
#[export] Instance Shield_deep : Deep cell ShieldR :=
  Deep_struct Shield_parts IntegrityShield_DeepCopyInto.
#[export] Instance Shield_laws : DeepLaws cell ShieldR.
Proof. deep_parts Shield_parts IntegrityShield_DeepCopyInto. Qed.

Record ShieldListR := mkShieldListR {
  shl_TypeMeta : string * string; shl_ListMeta : ListMetaR; shl_Items : Slice ShieldR }.
Context `{!Cellable cell (list ShieldR)}.
Definition IntegrityShieldList_DeepCopyInto (i : ShieldListR) : M Heap ShieldListR :=
  meta ← copy (shl_ListMeta i);
  items ← copySlice IntegrityShield_DeepCopyInto (shl_Items i);
  mret (mkShieldListR (shl_TypeMeta i) meta items).
Definition ShieldList_parts (i : ShieldListR)
    : ListMetaR * Slice ShieldR * Plain (string * string) :=
  (shl_ListMeta i, shl_Items i, shl_TypeMeta i).
#[export] Instance ShieldList_deep : Deep cell ShieldListR :=
  Deep_struct ShieldList_parts IntegrityShieldList_DeepCopyInto.
#[export] Instance ShieldList_laws : DeepLaws cell ShieldListR.
Proof. deep_parts ShieldList_parts IntegrityShieldList_DeepCopyInto. Qed.

Context `{!Cellable cell LogConfigR, !Cellable cell SecurityConfigR, !Cellable cell APIContainerR,
  !Cellable cell ControllerContainerR, !Cellable cell ObserverR, !Cellable cell ShieldSpecR,
  !Cellable cell ShieldR, !Cellable cell ShieldListR, !Cellable cell ShieldStatusR}.
Definition IntegrityShieldStatus_DeepCopy (p : Ptr ShieldStatusR) : M Heap (Ptr ShieldStatusR) :=
  copyPtr IntegrityShieldStatus_DeepCopyInto p.
Definition LogConfig_DeepCopy (p : Ptr LogConfigR) : M Heap (Ptr LogConfigR) :=
  copyPtr LogConfig_DeepCopyInto p.
Definition SecurityConfig_DeepCopy (p : Ptr SecurityConfigR) : M Heap (Ptr SecurityConfigR) :=
  copyPtr SecurityConfig_DeepCopyInto p.
Definition APIContainer_DeepCopy (p : Ptr APIContainerR) : M Heap (Ptr APIContainerR) :=
  copyPtr APIContainer_DeepCopyInto p.
Definition ControllerContainer_DeepCopy (p : Ptr ControllerContainerR)
    : M Heap (Ptr ControllerContainerR) := copyPtr ControllerContainer_DeepCopyInto p.
Definition Observer_DeepCopy (p : Ptr ObserverR) : M Heap (Ptr ObserverR) :=
  copyPtr Observer_DeepCopyInto p.
Definition IntegrityShieldSpec_DeepCopy (p : Ptr ShieldSpecR) : M Heap (Ptr ShieldSpecR) :=
  copyPtr IntegrityShieldSpec_DeepCopyInto p.
Definition IntegrityShield_DeepCopy (p : Ptr ShieldR) : M Heap (Ptr ShieldR) :=
  copyPtr IntegrityShield_DeepCopyInto p.
Definition IntegrityShieldList_DeepCopy (p : Ptr ShieldListR) : M Heap (Ptr ShieldListR) :=
  copyPtr IntegrityShieldList_DeepCopyInto p.

(** The libraries' own types are copied deeply. *)
Context `{!FullyDeep cell ObjectMetaR, !FullyDeep cell SecurityContextR,
  !FullyDeep cell PodSecurityContextR, !FullyDeep cell ResourceRequirementsR,
  !FullyDeep cell AffinityR, !FullyDeep cell TolerationR, !FullyDeep cell RuleR}.
#[export] Instance SecurityConfig_fully : FullyDeep cell SecurityConfigR.
Proof. apply struct_fully. Qed.
#[export] Instance APIContainer_fully : FullyDeep cell APIContainerR.
Proof. apply struct_fully. Qed.
#[export] Instance ControllerContainer_fully : FullyDeep cell ControllerContainerR.
Proof. apply struct_fully. Qed.

(** The storage of the observer's resource requirements. *)
Definition observerResources (h : Heap) (s : ShieldR) : gset loc :=
  refs (A := ResourceRequirementsR) h (obr_Resources (shr_Observer (sh_Spec s))).
Lemma Observer_shared h (o : ObserverR) :
  shared h o = refs (A := ResourceRequirementsR) h (obr_Resources o).
Proof.
  change (shared h o) with (shared h (obr_SelectorLabels o) ∪ shared h (obr_SecurityContext o)
    ∪ refs (A := ResourceRequirementsR) h (obr_Resources o) ∪ ∅).
  rewrite (nothing_shared h (obr_SelectorLabels o)), (nothing_shared h (obr_SecurityContext o)).
  set_solver.
Qed.
Lemma ShieldSpec_shared h (s : ShieldSpecR) : shared h s = shared h (shr_Observer s).
Proof.
  destruct s as [ms mu rc ml ns af tl se ap co ob wn wc sc].
  change (shared h (ms, mu, rc, ml, ns, af, tl, se, ap, co) ∪ shared h ob
    ∪ shared h wn ∪ shared h wc ∪ ∅ = shared h ob).
  rewrite nothing_shared, (nothing_shared h wn), (nothing_shared h wc). set_solver.
Qed.
Lemma Shield_shared h (s : ShieldR) : shared h s = observerResources h s.
Proof.
  change (shared h s) with (shared h (sh_ObjectMeta s) ∪ shared h (sh_Spec s) ∪ ∅).
  rewrite nothing_shared, ShieldSpec_shared, Observer_shared. unfold observerResources.
  set_solver.
Qed.

(** C30. The copy of the custom resource has the same value in every field and changes no
    existing cell; it shares with the original exactly the storage of the observer's
    resource requirements, which [Observer.DeepCopyInto] assigns without copying. *)
Theorem IntegrityShield_DeepCopy_spec h (p : Ptr ShieldR) v :
  val h p = Some v →
  runs (IntegrityShield_DeepCopy p) h (λ p' h', h ⊆ h' ∧ val h' p' = Some v ∧
    refs h' p' ∩ dom h = ptrFold (observerResources h) ∅ h p).
Proof.
  intros Hv. run_with (copy_ok h p v Hv). intros p' h' (Hh & Hv' & ->).
  split_and!; [done|done|]. apply ptrFold_ext, Shield_shared.
Qed.
End shields.

(** ** A concrete memory *)

Module DeepCopyDemo.
(** The library types of the demonstration: a map or a string. *)
Definition MetaR : Type := Ref (gmap string string).
Definition TextR : Type := Plain string.
#[export] Instance MetaR_cell {cell} `{!Cellable cell (gmap string string)} : Deep cell MetaR :=
  Deep_ref _.
#[export] Instance MetaR_laws {cell} `{!Cellable cell (gmap string string)} :
  DeepLaws cell MetaR := Deep_ref_laws _.
#[export] Instance MetaR_fully {cell} `{!Cellable cell (gmap string string)} :
  FullyDeep cell MetaR := ref_fully _.
#[export] Instance TextR_deep {cell} : Deep cell TextR := Deep_plain _.
#[export] Instance TextR_laws {cell} : DeepLaws cell TextR := Deep_plain_laws _.
#[export] Instance TextR_fully {cell} : FullyDeep cell TextR := plain_fully _.

Abbreviation DState := (StateR (ObjectMetaR := MetaR)).
Abbreviation DStateList := (StateListR (ObjectMetaR := MetaR) (ListMetaR := TextR)).
Abbreviation DProfile :=
  (ProfileR (ObjectMetaR := MetaR) (MatchConditionR := MetaR) (ParameterObjectR := TextR)).
Abbreviation DShield :=
  (ShieldR (ObjectMetaR := MetaR) (SecurityContextR := TextR) (PodSecurityContextR := TextR)
           (ResourceRequirementsR := MetaR) (AffinityR := TextR) (TolerationR := TextR)
           (RuleR := TextR) (IntOrStringR := TextR)).

Inductive cell :=
  | CInt (z : Z) | CMap (m : gmap string string) | CText (s : TextR) | CTexts (l : list TextR)
  | CResults (l : list VerifyResultR) | CStates (l : list DState) | CStateList (l : DStateList)
  | CDetail (d : ViolationDetailR) | CDetails (l : list (Ref ViolationDetailR))
  | CProfile (p : DProfile) | CShield (s : DShield).

#[export] Instance int_cell : Cellable cell Z := Build_Cellable _ CInt
  (λ c, match c with CInt z => Some z | _ => None end) (λ _, eq_refl).
#[export] Instance map_cell : Cellable cell (gmap string string) := Build_Cellable _ CMap
  (λ c, match c with CMap m => Some m | _ => None end) (λ _, eq_refl).
#[export] Instance text_cell : Cellable cell TextR := Build_Cellable _ CText
  (λ c, match c with CText s => Some s | _ => None end) (λ _, eq_refl).
#[export] Instance texts_cell : Cellable cell (list TextR) := Build_Cellable _ CTexts
  (λ c, match c with CTexts l => Some l | _ => None end) (λ _, eq_refl).
#[export] Instance results_cell : Cellable cell (list VerifyResultR) := Build_Cellable _ CResults
  (λ c, match c with CResults l => Some l | _ => None end) (λ _, eq_refl).
#[export] Instance states_cell : Cellable cell (list DState) := Build_Cellable _ CStates
  (λ c, match c with CStates l => Some l | _ => None end) (λ _, eq_refl).
#[export] Instance stateList_cell : Cellable cell DStateList := Build_Cellable _ CStateList
  (λ c, match c with CStateList l => Some l | _ => None end) (λ _, eq_refl).
#[export] Instance detail_cell : Cellable cell ViolationDetailR := Build_Cellable _ CDetail
  (λ c, match c with CDetail l => Some l | _ => None end) (λ _, eq_refl).
#[export] Instance details_cell : Cellable cell (list (Ref ViolationDetailR)) := Build_Cellable _ CDetails
  (λ c, match c with CDetails l => Some l | _ => None end) (λ _, eq_refl).
#[export] Instance profile_cell : Cellable cell DProfile := Build_Cellable _ CProfile
  (λ c, match c with CProfile l => Some l | _ => None end) (λ _, eq_refl).
#[export] Instance shield_cell : Cellable cell DShield := Build_Cellable _ CShield
  (λ c, match c with CShield l => Some l | _ => None end) (λ _, eq_refl).

(** A list with one state and one signed result; a profile with one violation; a custom
    resource with labels, one toleration and resource requirements. *)
Definition stateHeap : gmap loc cell :=
  {[ 1%positive := CInt 1600000000;
     2%positive := CResults [mkVerifyResultR "ns" "cm" "ConfigMap" "" "v1" "ok" "signer"
                               (Some 1%positive) ""];
     3%positive := CMap {[ "name" := "state" ]};
     4%positive := CStates [mkStateR ("", "") (Some 3%positive)
                      (mkStateSpecR "c" false 0 None (Some 2%positive) "") mkStateStatusR];
     5%positive := CStateList (mkStateListR ("", "") "" (Some 4%positive)) ]}.
Definition profileHeap : gmap loc cell :=
  {[ 1%positive := CDetail (mkViolationDetailR "ns" "ConfigMap" "cm" "no signature" "now");
     2%positive := CDetails [Some 1%positive];
     3%positive := CMap {[ "name" := "profile" ]};
     4%positive := CProfile (mkProfileR ("", "") (Some 3%positive) (mkProfileSpecR None "p")
                      (mkProfileStatusR 1 (Some 2%positive))) ]}.
Definition shieldHeap : gmap loc cell :=
  let labels : Ref (gmap string string) := Some 1%positive in
  let resources : MetaR := Some 3%positive in
  {[ 1%positive := CMap {[ "app" := "shield" ]};
     2%positive := CTexts ["toleration"];
     3%positive := CMap {[ "memory" := "1Gi" ]};
     4%positive := CShield (mkShieldR ("", "") labels
       (mkShieldSpecR None None None labels None None (Some 2%positive)
          (mkSecurityConfigR "" "" "" "" "" "" "" None)
          (mkAPIContainerR "api" labels None "" "" "" 8123 resources)
          (mkControllerContainerR "ac" None None "" "" "" 8123 resources (mkLogConfigR "" ""))
          (mkObserverR true "obs" None "" "" "" None "" "" false false "" "" resources)
          "rule" "rule" (mkSpecScalars "" "" "" "" 8123 "" "" "" "" "" "" "" false ""))
       mkShieldStatusR) ]}.

Definition statePtr : Ptr DStateList := Some 5%positive.
Definition profilePtr : Ptr DProfile := Some 4%positive.
Definition shieldPtr : Ptr DShield := Some 4%positive.

Lemma ManifestIntegrityStateList_DeepCopy_spec_witness :
  ptrFold (A := DStateList) (listTimes stateHeap) ∅ stateHeap statePtr = {[ 1%positive ]} ∧
  ∃ v, runs (ManifestIntegrityStateList_DeepCopy statePtr) stateHeap (λ p' h',
    stateHeap ⊆ h' ∧ val h' p' = Some v ∧
    refs h' p' ∩ dom stateHeap = ptrFold (A := DStateList) (listTimes stateHeap) ∅ stateHeap statePtr).
Proof.
  split; [vm_compute; reflexivity|]. eexists.
  apply (ManifestIntegrityStateList_DeepCopy_spec stateHeap statePtr).
  vm_compute. reflexivity.
Defined.
Lemma ManifestIntegrityProfile_DeepCopy_isolated_witness : ∃ v,
  runs (ManifestIntegrityProfile_DeepCopy profilePtr) profileHeap (λ p' h',
    val h' profilePtr = Some v ∧ val h' p' = Some v ∧
    ∀ l c, l ∉ ptrFold (A := DProfile) (λ i : DProfile, shared profileHeap (pspr_Match (pr_Spec i)) ∪
                          shared profileHeap (pspr_Parameters (pr_Spec i))) ∅ profileHeap
                       profilePtr →
      (l ∈ refs h' p' → val (<[l := c]> h') profilePtr = Some v) ∧
      (l ∈ refs h' profilePtr → val (<[l := c]> h') p' = Some v)).
Proof.
  eexists. apply (ManifestIntegrityProfile_DeepCopy_isolated profileHeap profilePtr).
  vm_compute. reflexivity.
Defined.
Lemma IntegrityShield_DeepCopy_spec_witness :
  ptrFold (A := DShield) (observerResources shieldHeap) ∅ shieldHeap shieldPtr
    = {[ 3%positive ]} ∧
  ∃ v, runs (IntegrityShield_DeepCopy shieldPtr) shieldHeap (λ p' h',
    shieldHeap ⊆ h' ∧ val h' p' = Some v ∧
    refs h' p' ∩ dom shieldHeap
      = ptrFold (A := DShield) (observerResources shieldHeap) ∅ shieldHeap shieldPtr).
Proof.
  split; [vm_compute; reflexivity|]. eexists.
  apply (IntegrityShield_DeepCopy_spec (ListMetaR := TextR) shieldHeap shieldPtr).
  vm_compute. reflexivity.
Defined.
End DeepCopyDemo.
