(* ===== verification/World.v ===== *)
(** * The environment of the shield, the admission controller and the observer

    Process state ([World]: environment variables, logger, files, clock) and the
    interfaces of the code that is not part of the repository:
    - [ExtTypes]/[ExtLib]: the pure part of k8s-manifest-sigstore, of
      apimachinery's unstructured objects and of label selectors;
    - [OS]: time, temporary directories and file writes, Go map iteration;
    - [Kube]: the Kubernetes clients (state [Cluster]), with [ResClientLaws] the
      documented behaviour of a typed client;
    - [Sigstore]: [k8smanifest.VerifyResource] and cosign's manifest verifier.
    The module [Demo] instantiates all of them by small concrete functions. *)
From S2P Require Import Prelude GoStrings.
From stdpp Require Import base gmap strings list.
From Stdlib Require Import ZArith Lia.

Local Open Scope string_scope.

(** ** Libraries the repository calls *)

Class ExtTypes := {
  Unstructured : Type;            (* unstructured.Unstructured *)
  ObjectReference : Type;         (* k8smanifest.ObjectReference *)
  OptionRest : Type;              (* the option fields the repository leaves alone *)
  ResultRest : Type;
  DiffResult : Type;              (* mapnode.DiffResult *)
  Node : Type;                    (* mapnode.Node *)
  NodeMap : Type;                 (* map[string]interface{} of Node.ToMap *)
  LabelSelector : Type;           (* metav1.LabelSelector *)
  Selector : Type;                (* labels.Selector *)
}.

Record GroupVersionKind := mkGVK { Group : string; Version : string; Kind : string }.
#[export] Instance GroupVersionKind_eq_dec : EqDecision GroupVersionKind.
Proof. solve_decision. Defined.

(** [admission.Request], with the fields the handlers read. *)
Record Request := mkRequest {
  rq_Namespace : string;
  rq_Name : string;
  rq_Kind : GroupVersionKind;
  rq_Operation : string;
  rq_Username : string;
  rq_Object : string;             (* Object.Raw *)
  rq_OldObject : string;          (* OldObject.Raw *)
}.

Section sigstore_types.
Context {T : ExtTypes}.

(** [k8smanifest.ObjectFieldBinding] *)
Record ObjectFieldBinding := mkOFB {
  ofb_Fields : list string;
  ofb_Objects : list ObjectReference }.

(** [k8smanifest.VerifyResourceOption] *)
Record VerifyResourceOption := mkVO {
  vo_ImageRef : string;
  vo_SignatureResourceRef : string;
  vo_ProvenanceResourceRef : string;
  vo_DryRunNamespace : string;
  vo_AnnotationKeyDomain : string;
  vo_KeyPath : string;
  vo_Provenance : bool;
  vo_IgnoreFields : list ObjectFieldBinding;
  vo_SkipObjects : list ObjectReference;
  vo_rest : OptionRest }.

(** [k8smanifest.VerifyResourceResult] *)
Record VerifyResourceResult := mkVR {
  vr_Verified : bool;
  vr_InScope : bool;
  vr_Signer : string;
  vr_SignedTime : option Z;
  vr_SigRef : string;
  vr_Diff : option DiffResult;
  vr_rest : ResultRest }.
End sigstore_types.

Class ExtLib (T : ExtTypes) := {
  (* pkg/util of k8s-manifest-sigstore *)
  MatchPattern : string → string → bool;
  MatchSinglePattern : string → string → bool;
  MatchWithPatternArray : string → list string → bool;
  (* object selectors *)
  ObjectReference_Match : ObjectReference → Unstructured → bool;
  ObjectReferenceList_Match : list ObjectReference → Unstructured → bool;
  ObjectFieldBindingList_Match :
    list ObjectFieldBinding → Unstructured → bool * list string;
  (* unstructured objects *)
  json_Unstructured : string → res Unstructured;
  yaml_Marshal : Unstructured → res string;
  GetAnnotations : Unstructured → gmap string string;
  GetLabels : Unstructured → gmap string string;
  GetNamespace : Unstructured → string;
  GetName : Unstructured → string;
  GetGVK : Unstructured → GroupVersionKind;
  (* mapnode; a nil pointer is None *)
  NewFromBytes : string → option Node * option error;
  NewFromMap : NodeMap → option Node;
  Node_Mask : Node → list string → Node;
  Node_ToMap : Node → NodeMap;
  Node_Diff : option Node → option Node → option DiffResult;
  Diff_Size : DiffResult → nat;
  Diff_String : DiffResult → string;
  Diff_Filter : DiffResult → list string → DiffResult;   (* the unfiltered part *)
  (* label selectors *)
  LabelSelectorAsSelector : LabelSelector → res Selector;
  Selector_Matches : Selector → gmap string string → bool;
  GV_String : string → string → string;     (* schema.GroupVersion.String *)
  (* pkg/errors *)
  Wrap : error → string → error;
}.

(** ** The operating system and the Go runtime *)

Abbreviation Files := (gmap string string).
Abbreviation Env := (gmap string string).

Class OS := {
  clock : nat → Z;                                  (* the n-th reading of time.Now *)
  FormatTime : bool → string → Z → string;          (* UTC or local, layout *)
  fs_write_err : Files → string → option error;     (* ioutil.WriteFile *)
  fs_tempdir : Files → string → res string;         (* ioutil.TempDir *)
  (* the order in which the n-th range statement visits a map is not specified *)
  range_order : nat → ∀ m : gmap string string,
    { l : list (string * string) | l ≡ₚ map_to_list m };
}.

(** ** Kubernetes clients *)

(** A client of one resource kind: a namespaced store with fallible calls. *)
Record ResClient (C A : Type) := mkClient {
  rc_get : C → string → string → res A;               (* namespace, name *)
  rc_create : C → string → A → option error * C;      (* namespace *)
  rc_update : C → string → A → option error * C;
}.
Arguments rc_get {C A}.
Arguments rc_create {C A}.
Arguments rc_update {C A}.
Arguments mkClient {C A}.

(** The documented behaviour of a typed client: an accepted write is what the
    next read of that name returns, a read returns the named object, other names are untouched, a refused write
    changes nothing. *)
Class ResClientLaws {C A} (name : A → string) (k : ResClient C A) : Prop := {
  get_name c ns n x : rc_get k c ns n = Good x → name x = n;
  create_get c ns x c' :
    rc_create k c ns x = (None, c') → rc_get k c' ns (name x) = Good x;
  update_get c ns x c' :
    rc_update k c ns x = (None, c') → rc_get k c' ns (name x) = Good x;
  create_other c ns x c' ns' n :
    rc_create k c ns x = (None, c') → (ns', n) ≠ (ns, name x) →
    rc_get k c' ns' n = rc_get k c ns' n;
  update_other c ns x c' ns' n :
    rc_update k c ns x = (None, c') → (ns', n) ≠ (ns, name x) →
    rc_get k c' ns' n = rc_get k c ns' n;
  create_refused c ns x e c' : rc_create k c ns x = (Some e, c') → c' = c;
  update_refused c ns x e c' : rc_update k c ns x = (Some e, c') → c' = c;
}.

Record ConfigMap := mkConfigMap { cm_Name : string; cm_Data : gmap string string }.
Record Secret := mkSecret { sec_Data : gmap string string }.
Record NamespaceObj := mkNamespace { ns_Name : string; ns_Labels : gmap string string }.

Record ObjRef := mkObjRef {
  or_Namespace : string; or_APIVersion : string; or_Kind : string; or_Name : string }.

(** [corev1.Event] *)
Record Event := mkEvent {
  ev_Name : string;
  ev_Namespace : string;
  ev_Annotations : gmap string string;
  ev_InvolvedObject : ObjRef;
  ev_Type : string;
  ev_Component : string;
  ev_ReportingController : string;
  ev_ReportingInstance : string;
  ev_Action : string;
  ev_Reason : string;
  ev_FirstTimestamp : Z;
  ev_LastTimestamp : Z;
  ev_EventTime : Z;
  ev_Message : string;
  ev_Count : Z;                                       (* int32 *)
}.

Class Kube := {
  Cluster : Type;
  GetKubeConfig : Cluster → option error;
  NewForConfig : Cluster → option error;
  configmaps : ResClient Cluster ConfigMap;
  events : ResClient Cluster Event;
  GetSecret : Cluster → string → string → res Secret;   (* kubeutil.GetResource *)
  Namespaces_Get : Cluster → string → res NamespaceObj;
  Namespaces_List : Cluster → res (list NamespaceObj);
}.

(** ** Verification back ends *)

Class Sigstore (T : ExtTypes) (K : Kube) := {
  VerifyResource : Env → Files → Cluster → Unstructured → VerifyResourceOption →
    res VerifyResourceResult;
  (* cosigncli.VerifyManifestCommand{KeyRef}.Exec([path]); None is success *)
  VerifyManifest : Env → Files → string → string → option error;
}.

(** ** Process state *)

Inductive Level := PanicLevel | FatalLevel | ErrorLevel | WarnLevel | InfoLevel
                 | DebugLevel | TraceLevel.
#[export] Instance Level_eq_dec : EqDecision Level.
Proof. solve_decision. Defined.

Section world.
Context {K : Kube}.

Record World := mkWorld {
  w_env : Env;
  w_level : Level;
  w_jsonlog : bool;
  w_files : Files;
  w_ticks : nat;
  w_cluster : Cluster }.

Definition set_env (k v : string) (w : World) : World :=
  mkWorld (<[k := v]> (w_env w)) (w_level w) (w_jsonlog w) (w_files w)
    (w_ticks w) (w_cluster w).
Definition set_log (l : Level) (json : bool) (w : World) : World :=
  mkWorld (w_env w) l json (w_files w) (w_ticks w) (w_cluster w).
Definition set_files (f : Files) (w : World) : World :=
  mkWorld (w_env w) (w_level w) (w_jsonlog w) f (w_ticks w) (w_cluster w).
Definition set_cluster (c : Cluster) (w : World) : World :=
  mkWorld (w_env w) (w_level w) (w_jsonlog w) (w_files w) (w_ticks w) c.
Definition tick (w : World) : World :=
  mkWorld (w_env w) (w_level w) (w_jsonlog w) (w_files w) (S (w_ticks w))
    (w_cluster w).

(** [os.Getenv]: an unset variable reads as the empty string. *)
Definition getenv (w : World) (k : string) : string := default "" (w_env w !! k).
Definition Getenv (k : string) : M World string := asksW (λ w, getenv w k).
Definition Setenv (k v : string) : M World unit := modifyW (set_env k v).

(** [v := os.Getenv(k); if v == "" { v = dflt }] *)
Definition env_or (k dflt : string) : M World string :=
  v ← Getenv k; mret (if bool_decide (v = "") then dflt else v).

Definition Now `{OS} : M World Z := λ w, (Ret (clock (w_ticks w)), tick w).

(** [for k, v := range m]: the order is chosen by the runtime. *)
Definition RangeMap `{OS} (m : gmap string string) : M World (list (string * string)) :=
  λ w, (Ret (proj1_sig (range_order (w_ticks w) m)), tick w).

Definition WriteFile `{OS} (path data : string) : M World (option error) := λ w,
  match fs_write_err (w_files w) path with
  | Some e => (Ret (Some e), w)
  | None => (Ret None, set_files (<[path := data]> (w_files w)) w)
  end.
(** [ioutil.TempDir] makes a new directory; a directory [d] it made is the entry
    [d/] of the files. *)
Definition TempDir `{OS} (pattern : string) : M World (res string) := λ w,
  match fs_tempdir (w_files w) pattern with
  | Good d => (Ret (Good d), set_files (<[d +:+ "/" := ""]> (w_files w)) w)
  | Bad e => (Ret (Bad e), w)
  end.
(** [os.RemoveAll dir]: every file below [dir]. *)
Definition RemoveAll (dir : string) : M World unit := modifyW (λ w,
  set_files (filter (λ kv, HasPrefix kv.1 (dir +:+ "/") = false) (w_files w)) w).

(** A write through a client. *)
Definition clusterM (f : Cluster → option error * Cluster) : M World (option error) :=
  λ w, let '(e, c) := f (w_cluster w) in (Ret e, set_cluster c w).

(** Lemmas *)

Lemma getenv_set_env_eq k v w : getenv (set_env k v w) k = v.
Proof. unfold getenv. simpl. by rewrite lookup_insert_eq. Qed.
Lemma getenv_set_env_ne k k' v w :
  k ≠ k' → getenv (set_env k v w) k' = getenv w k'.
Proof. intros ?. unfold getenv. simpl. by rewrite lookup_insert_ne. Qed.

(** Files and clock may change, everything else is kept. *)
Definition files_only (w w' : World) : Prop :=
  w_env w' = w_env w ∧ w_level w' = w_level w ∧ w_jsonlog w' = w_jsonlog w
  ∧ w_cluster w' = w_cluster w.
#[export] Instance files_only_preorder : PreOrder files_only.
Proof.
  split; [by repeat split|]. intros w1 w2 w3. unfold files_only. naive_solver congruence.
Qed.

Lemma runs_WriteFile `{OS} p d w (P : option error → World → Prop) :
  (∀ e, fs_write_err (w_files w) p = Some e → P (Some e) w) →
  (fs_write_err (w_files w) p = None → P None (set_files (<[p := d]> (w_files w)) w)) →
  runs (WriteFile p d) w P.
Proof.
  intros HS HN. unfold runs, WriteFile.
  destruct (fs_write_err (w_files w) p); eauto.
Qed.
Lemma runs_RangeMap `{OS} m w (P : list (string * string) → World → Prop) :
  (∀ l, l ≡ₚ map_to_list m → P l (tick w)) → runs (RangeMap m) w P.
Proof.
  intros HP. unfold runs, RangeMap. eexists _, _. split; [done|].
  apply HP. apply (proj2_sig (range_order (w_ticks w) m)).
Qed.
Lemma runs_Now `{OS} w (P : Z → World → Prop) :
  P (clock (w_ticks w)) (tick w) → runs Now w P.
Proof. intros. by eexists _, _. Qed.
Lemma runs_TempDir `{OS} p w (P : res string → World → Prop) :
  (∀ d, fs_tempdir (w_files w) p = Good d →
     P (Good d) (set_files (<[d +:+ "/" := ""]> (w_files w)) w)) →
  (∀ e, fs_tempdir (w_files w) p = Bad e → P (Bad e) w) →
  runs (TempDir p) w P.
Proof.
  intros HG HB. unfold runs, TempDir. destruct (fs_tempdir (w_files w) p); eauto.
Qed.
Lemma runs_clusterM f w (P : option error → World → Prop) :
  (∀ e c, f (w_cluster w) = (e, c) → P e (set_cluster c w)) → runs (clusterM f) w P.
Proof.
  intros HP. unfold runs, clusterM. destruct (f (w_cluster w)) as [e c] eqn:E. eauto.
Qed.

Definition envor (w : World) (k dflt : string) : string :=
  if bool_decide (getenv w k = "") then dflt else getenv w k.
Lemma env_or_run k d w : env_or k d w = (Ret (envor w k d), w).
Proof. reflexivity. Qed.
Lemma runs_env_or k d w (P : string → World → Prop) :
  P (envor w k d) w → runs (env_or k d) w P.
Proof. by eexists _, _. Qed.
Lemma envor_nonempty w k d : d ≠ "" → envor w k d ≠ "".
Proof. intros. unfold envor. by case_bool_decide. Qed.
End world.
#[export] Hint Resolve envor_nonempty : shield.
#[export] Hint Rewrite @getenv_set_env_eq @env_or_run : goeqs.
