(* ===== verification/Interleaving.v ===== *)
(** * Concurrent handlers and the API server's resource versions

    The servers answer every request in a goroutine of its own, and several
    replicas of a server talk to one API server.  This file holds what the
    programs of [Concurrency] share:
    - [VerClient]: a typed client whose objects carry [metadata.resourceVersion],
      with [VerClientLaws] the documented rules of optimistic concurrency (an
      update is accepted only with the version that is stored, a create only
      when the name is free, every accepted write gets a new version);
    - [proc]: a handler cut into its local parts and its client calls, [step] the
      interleaving of any number of them, [exec] a scheduler;
    - [txn]: a handler that reads one object, computes and writes it back, and
      the lemma [serializable]: whatever the interleaving, the stored objects are
      those of the successful handlers run one after the other. *)
From S2P Require Import Prelude GoStrings World.
From stdpp Require Import base gmap strings list relations.
From Stdlib Require Import ZArith Lia.


(** ** Clients with versions *)

Record VerClient (C A : Type) := mkVerClient {
  vc_get : C → string → string → res (nat * A);
  vc_create : C → string → A → option error * C;
  vc_update : C → string → nat * A → option error * C }.
Arguments mkVerClient {C A}.
Arguments vc_get {C A}.
Arguments vc_create {C A}.
Arguments vc_update {C A}.

(** [rev] is the revision of the store, which every accepted write raises. *)
Class VerClientLaws {C A} (name : A → string) (rev : C → nat) (k : VerClient C A)
    : Prop := {
  vget_name c ns n v x : vc_get k c ns n = Good (v, x) → name x = n;
  vget_rev c ns n v x : vc_get k c ns n = Good (v, x) → v ≤ rev c;
  vcreate_absent c ns x c' :
    vc_create k c ns x = (None, c') → ∃ e, vc_get k c ns (name x) = Bad e;
  vcreate_get c ns x c' :
    vc_create k c ns x = (None, c') →
    rev c < rev c' ∧ vc_get k c' ns (name x) = Good (rev c', x);
  vcreate_other c ns x c' ns' n :
    vc_create k c ns x = (None, c') → (ns', n) ≠ (ns, name x) →
    vc_get k c' ns' n = vc_get k c ns' n;
  vcreate_refused c ns x e c' : vc_create k c ns x = (Some e, c') → c' = c;
  vupdate_current c ns v x c' :
    vc_update k c ns (v, x) = (None, c') → ∃ x0, vc_get k c ns (name x) = Good (v, x0);
  vupdate_get c ns v x c' :
    vc_update k c ns (v, x) = (None, c') →
    rev c < rev c' ∧ vc_get k c' ns (name x) = Good (rev c', x);
  vupdate_other c ns v x c' ns' n :
    vc_update k c ns (v, x) = (None, c') → (ns', n) ≠ (ns, name x) →
    vc_get k c' ns' n = vc_get k c ns' n;
  vupdate_refused c ns v x e c' : vc_update k c ns (v, x) = (Some e, c') → c' = c;
}.

(** A server that refuses writes for no other reason. *)
Class VerClientLive {C A} (name : A → string) (k : VerClient C A) : Prop := {
  vcreate_free c ns x e :
    vc_get k c ns (name x) = Bad e → ∃ c', vc_create k c ns x = (None, c');
  vupdate_fresh c ns v x x0 :
    vc_get k c ns (name x) = Good (v, x0) → ∃ c', vc_update k c ns (v, x) = (None, c');
}.

(** What a handler that runs alone sees: an update sends the version that the
    read just before it returned. *)
Definition unversioned {C A} (name : A → string) (k : VerClient C A) : ResClient C A :=
  mkClient
    (λ c ns n, match vc_get k c ns n with Good (_, x) => Good x | Bad e => Bad e end)
    (vc_create k)
    (λ c ns x, match vc_get k c ns (name x) with
               | Good (v, _) => vc_update k c ns (v, x)
               | Bad e => (Some e, c)
               end).

Section versioned.
Context {C A : Type} (name : A → string) (rev : C → nat) (k : VerClient C A).
Context `{!VerClientLaws name rev k}.

Lemma unversioned_update c ns x v y :
  vc_get k c ns (name x) = Good (v, y) →
  rc_update (unversioned name k) c ns x = vc_update k c ns (v, x).
Proof. simpl. by intros ->. Qed.

(** The sequential components were proved against [ResClientLaws]. *)
#[export] Instance unversioned_laws : ResClientLaws name (unversioned name k).
Proof.
  split; simpl.
  - intros c ns n x. destruct (vc_get k c ns n) as [[v y]|] eqn:E; [|done].
    intros [= ->]. by eapply vget_name.
  - intros c ns x c' H. by destruct (vcreate_get _ _ _ _ H) as [_ ->].
  - intros c ns x c'. destruct (vc_get k c ns (name x)) as [[v y]|]; [|done]. intros H.
    by destruct (vupdate_get _ _ _ _ _ H) as [_ ->].
  - intros c ns x c' ns' n H Hne. by rewrite (vcreate_other _ _ _ _ _ _ H Hne).
  - intros c ns x c' ns' n. destruct (vc_get k c ns (name x)) as [[v y]|]; [|done].
    intros H Hne. by rewrite (vupdate_other _ _ _ _ _ _ _ H Hne).
  - intros c ns x e c'. apply vcreate_refused.
  - intros c ns x e c'. destruct (vc_get k c ns (name x)) as [[v y]|]; [|naive_solver].
    apply vupdate_refused.
Qed.

(** The object stored under a namespace and a name. *)
Definition cellval (c : C) (κ : string * string) : option A :=
  match vc_get k c κ.1 κ.2 with Good (_, x) => Some x | Bad _ => None end.
End versioned.

(** ** Handlers as sequences of client calls *)

Section proc.
Context {K : Kube} {A : Type}.

(** The rest of a handler: [Local] is what it does by itself (environment,
    clock), the other constructors are one client call each. *)
Inductive proc :=
| Done (r : option error)
| Local {X : Type} (m : M World X) (next : X → proc)
| Read (ns n : string) (next : res (nat * A) → proc)
| Create (ns : string) (y : A) (next : option error → proc)
| Update (ns : string) (v : nat) (y : A) (next : option error → proc).

Context (k : VerClient Cluster A).

(** The next action of a handler. *)
Definition action (p : proc) (w : World) : option (outcome proc * World) :=
  match p with
  | Done _ => None
  | Local m next => Some ((x ← m; mret (next x)) w)
  | Read ns n next => Some (Ret (next (vc_get k (w_cluster w) ns n)), w)
  | Create ns y next => Some ((r ← clusterM (λ c, vc_create k c ns y); mret (next r)) w)
  | Update ns v y next =>
      Some ((r ← clusterM (λ c, vc_update k c ns (v, y)); mret (next r)) w)
  end.

(** A handler that runs alone. *)
Fixpoint run_proc (p : proc) : M World (option error) :=
  match p with
  | Done r => mret r
  | Local m next => x ← m; run_proc (next x)
  | Read ns n next => r ← asksW (λ w, vc_get k (w_cluster w) ns n); run_proc (next r)
  | Create ns y next => r ← clusterM (λ c, vc_create k c ns y); run_proc (next r)
  | Update ns v y next => r ← clusterM (λ c, vc_update k c ns (v, y)); run_proc (next r)
  end.

(** One action of one of the handlers. *)
Inductive step : list proc * World → list proc * World → Prop :=
| step_action ps w i p p' w' :
    ps !! i = Some p → action p w = Some (Ret p', w') →
    step (ps, w) (<[i := p']> ps, w').

(** The handlers act in the order [sched]; an entry for a finished one is skipped. *)
Fixpoint exec (sched : list nat) (cfg : list proc * World) : list proc * World :=
  match sched with
  | [] => cfg
  | i :: sched' =>
      exec sched' (match cfg.1 !! i ≫= λ p, action p cfg.2 with
                   | Some (Ret p', w') => (<[i := p']> cfg.1, w')
                   | _ => cfg
                   end)
  end.

Lemma steps_length cfg cfg' : rtc step cfg cfg' → length cfg'.1 = length cfg.1.
Proof.
  induction 1 as [|cfg1 cfg2 cfg3 Hstep _ IH]; [done|]. rewrite IH.
  destruct Hstep. simpl. by rewrite length_insert.
Qed.

Lemma exec_steps sched cfg : rtc step cfg (exec sched cfg).
Proof.
  revert cfg. induction sched as [|i sched IH]; intros [ps w]; simpl; [done|].
  destruct (ps !! i ≫= _) as [[[p'|] w']|] eqn:E; [|apply IH..].
  apply bind_Some in E as (p & Hp & Ha). eapply rtc_l; [|apply IH]. by econstructor.
Qed.

Lemma exec_steps_pair sched cfg : rtc step cfg ((exec sched cfg).1, (exec sched cfg).2).
Proof. rewrite <-surjective_pairing. apply exec_steps. Qed.

(** Handlers that have all returned do not act. *)
Definition has_returned (p : proc) : bool := match p with Done _ => true | _ => false end.
Lemma returned_stuck ps w cfg : forallb has_returned ps = true → ¬ step (ps, w) cfg.
Proof.
  intros Hall Hstep. inversion Hstep as [? ? i p p' w' Hp Ha]; subst.
  rewrite forallb_forall in Hall. specialize (Hall p).
  rewrite <-list_elem_of_In in Hall. apply list_elem_of_lookup_2, Hall in Hp.
  by destruct p.
Qed.
End proc.
Arguments proc {K} A.

(** ** Transactions on one object *)

(** What a handler writes ([tx_cell]: namespace and name), and how the object it
    stores follows from the one it found; [tx_fails] are the errors with which it
    gives up before its write. *)
Record txspec (A : Type) := mkTx {
  tx_cell : string * string;
  tx_rel : option A → A → Prop;
  tx_fails : error → Prop }.
Arguments mkTx {A}.
Arguments tx_cell {A}.
Arguments tx_rel {A}.
Arguments tx_fails {A}.

Section txn.
Context {K : Kube} {A : Type} (name : A → string).
(* what the handlers rely on in the state, e.g. the environment variables *)
Context (I : World → Prop).

(** [txn t h p]: the rest [p] of a handler conforms to [t] after it found [h]
    ([None]: it has not read yet). *)
Fixpoint txn (t : txspec A) (h : option (option (nat * A))) (p : proc A) : Prop :=
  match p with
  | Done r => ∃ e, r = Some e ∧ tx_fails t e
  | Local m next =>
      ∀ w, I w → runs m w (λ x w', w_cluster w' = w_cluster w ∧ I w' ∧ txn t h (next x))
  | Read ns n next =>
      h = None ∧ tx_cell t = (ns, n)
      ∧ (∀ v x, name x = n → txn t (Some (Some (v, x))) (next (Good (v, x))))
      ∧ (∀ e, txn t (Some None) (next (Bad e)))
  | Create ns y next =>
      h = Some None ∧ tx_cell t = (ns, name y) ∧ tx_rel t None y ∧ ∀ r, next r = Done r
  | Update ns v y next =>
      ∃ x, h = Some (Some (v, x)) ∧ tx_cell t = (ns, name y) ∧ tx_rel t (Some x) y
           ∧ ∀ r, next r = Done r
  end.
End txn.

(** The value of the object [κ] after the handlers of [log] (latest first), each
    of which found what the one before it left. *)
Inductive serial {A} (ts : list (txspec A)) (κ : string * string) (o0 : option A)
    : list nat → option A → Prop :=
| serial_nil : serial ts κ o0 [] o0
| serial_other i t log o :
    ts !! i = Some t → tx_cell t ≠ κ →
    serial ts κ o0 log o → serial ts κ o0 (i :: log) o
| serial_commit i t log o y :
    ts !! i = Some t → tx_cell t = κ → tx_rel t o y →
    serial ts κ o0 log o → serial ts κ o0 (i :: log) (Some y).

Section serializable.
Context {K : Kube} {A : Type} (name : A → string) (rev : Cluster → nat).
Context (k : VerClient Cluster A) `{!VerClientLaws name rev k}.
Context (I : World → Prop).
Context (I_create : ∀ w ns y e c, I w → vc_create k (w_cluster w) ns y = (e, c) →
  I (set_cluster c w)).
Context (I_update : ∀ w ns v y e c, I w → vc_update k (w_cluster w) ns (v, y) = (e, c) →
  I (set_cluster c w)).
Context (ts : list (txspec A)).

Abbreviation proc := (proc A).
Abbreviation txn := (txn name I).
Abbreviation cellval := (cellval k).

(** No handler of [log] wrote the object of [t]. *)
Definition untouched (log : list nat) (t : txspec A) : Prop :=
  ∀ j tj, j ∈ log → ts !! j = Some tj → tx_cell tj ≠ tx_cell t.

Abbreviation stored c t := (vc_get k c (tx_cell t).1 (tx_cell t).2).

(** What a handler read is what the version it read stands for, and it is what
    is stored as long as nobody wrote the object. *)
Definition snapshot (log : list nat) (c : Cluster) (t : txspec A)
    (h : option (option (nat * A))) : Prop :=
  match h with
  | Some (Some (v, x)) =>
      v ≤ rev c ∧ (∀ x', stored c t = Good (v, x') → x' = x)
      ∧ (untouched log t → stored c t = Good (v, x))
  | Some None => untouched log t → ∃ e, stored c t = Bad e
  | None => True
  end.

(** The states of a handler that has not written. *)
Definition pending (log : list nat) (c : Cluster) (t : txspec A) (p : proc) : Prop :=
  (∃ e, p = Done (Some e)
        ∧ (VerClientLive name k → tx_fails t e ∨ ¬ untouched log t))
  ∨ ∃ h, txn t h p ∧ snapshot log c t h.

(** The invariant of the interleaving, with [log] the handlers that have written. *)
Record inv (w0 : World) (log : list nat) (ps : list proc) (w : World) : Prop := {
  inv_I : I w;
  inv_len : length ps = length ts;
  inv_nodup : NoDup log;
  inv_thread i p t : ps !! i = Some p → ts !! i = Some t →
    (i ∈ log ∧ p = Done None) ∨ (i ∉ log ∧ pending log (w_cluster w) t p);
  inv_log i : i ∈ log → i < length ts;
  inv_serial κ : serial ts κ (cellval (w_cluster w0) κ) log (cellval (w_cluster w) κ) }.

Lemma inv_init w0 ps :
  I w0 → Forall2 (λ t p, txn t None p) ts ps → inv w0 [] ps w0.
Proof.
  intros HI Hts. split.
  - done.
  - by rewrite (Forall2_length _ _ _ Hts).
  - constructor.
  - intros i p t Hp Ht. right. split; [set_solver|]. right. exists None.
    split; [|done]. by eapply (Forall2_lookup_lr _ _ _ _ _ _ Hts).
  - set_solver.
  - constructor.
Qed.

Lemma untouched_cons i t log t' :
  ts !! i = Some t → untouched (i :: log) t' ↔ tx_cell t ≠ tx_cell t' ∧ untouched log t'.
Proof.
  intros Ht. unfold untouched. split.
  - intros H. split; [apply (H i t); [left|done]|]. intros j tj Hj. apply H. by right.
  - intros [Hne H] j tj [->|Hj]%elem_of_cons Htj; [congruence|by eapply H].
Qed.

Lemma stored_other c c' (t t' : txspec A) :
  (∀ ns n, (ns, n) ≠ tx_cell t → vc_get k c' ns n = vc_get k c ns n) →
  tx_cell t ≠ tx_cell t' → stored c' t' = stored c t'.
Proof. intros Ho Hne. apply Ho. destruct (tx_cell t'). by simpl. Qed.

(** An accepted write of handler [i] leaves the states of the others valid: the
    version it gives the object is new. *)
Lemma pending_write log c c' i t y t' p :
  ts !! i = Some t → rev c < rev c' → stored c' t = Good (rev c', y) →
  (∀ ns n, (ns, n) ≠ tx_cell t → vc_get k c' ns n = vc_get k c ns n) →
  pending log c t' p → pending (i :: log) c' t' p.
Proof.
  intros Ht Hr Hg Ho [(e & -> & He)|(h & Hh & Hs)].
  { left. exists e. split; [done|]. intros HL. destruct (He HL) as [|Hn]; [by left|].
    right. rewrite (untouched_cons _ _ _ _ Ht). tauto. }
  right. exists h. split; [done|]. destruct (decide (tx_cell t = tx_cell t')) as [E|E].
  - destruct h as [[[v x]|]|]; simpl in *; [|by rewrite (untouched_cons _ _ _ _ Ht); tauto|done].
    rewrite (untouched_cons _ _ _ _ Ht), <-E, Hg.
    split_and!; [lia| |tauto]. intros x' [= ? ?]. lia.
  - pose proof (stored_other _ _ _ _ Ho E) as Es.
    destruct h as [[[v x]|]|]; simpl in *; [| |done];
      rewrite (untouched_cons _ _ _ _ Ht), Es; [|tauto].
    destruct Hs as (? & ? & ?). split_and!; [lia|done|tauto].
Qed.

(** A step that changes no object: the handler goes on to [p']. *)
Lemma inv_quiet w0 log ps w w' i t p' :
  inv w0 log ps w → ts !! i = Some t → i ∉ log → I w' →
  w_cluster w' = w_cluster w → pending log (w_cluster w) t p' →
  inv w0 log (<[i := p']> ps) w'.
Proof.
  intros [HI Hlen Hnd Hth Hlog Hser] Ht Hi HI' Hc Hp'. split; rewrite ?Hc; try done.
  - by rewrite length_insert.
  - intros j p tj Hj Htj. apply list_lookup_insert_Some in Hj as [(<- & -> & ?)|[? Hj]].
    + simplify_eq. by right.
    + eauto.
Qed.

(** An accepted write of handler [i]. *)
Lemma inv_commit w0 log ps w c i t y :
  inv w0 log ps w → ts !! i = Some t → i ∉ log → I (set_cluster c w) →
  tx_rel t (cellval (w_cluster w) (tx_cell t)) y →
  rev (w_cluster w) < rev c → stored c t = Good (rev c, y) →
  (∀ ns n, (ns, n) ≠ tx_cell t → vc_get k c ns n = vc_get k (w_cluster w) ns n) →
  inv w0 (i :: log) (<[i := Done None]> ps) (set_cluster c w).
Proof.
  intros [HI Hlen Hnd Hth Hlog Hser] Ht Hi HI' HR Hrev Hg Ho. split; simpl.
  - done.
  - by rewrite length_insert.
  - by constructor.
  - intros j q tj Hj Htj. apply list_lookup_insert_Some in Hj as [(<- & <- & ?)|[? Hj]].
    { left. split; [left|done]. }
    destruct (Hth j q tj Hj Htj) as [[? ->]|[? Hpen]].
    + left. split; [by right|done].
    + right. split; [set_solver|]. by eapply pending_write.
  - intros j [->|?]%elem_of_cons; [by eapply lookup_lt_Some|auto].
  - intros κ. destruct (decide (tx_cell t = κ)) as [<-|Hne].
    + unfold Interleaving.cellval at 2. rewrite Hg. by econstructor.
    + unfold Interleaving.cellval at 2. rewrite Ho by (by destruct κ).
      eapply serial_other; [done..|]. apply Hser.
Qed.

(** The outcome of a client call that writes. *)
Lemma inv_write w0 log ps w r c i t y :
  inv w0 log ps w → ts !! i = Some t → i ∉ log → I (set_cluster c w) →
  (∀ e, r = Some e → c = w_cluster w ∧ (VerClientLive name k → ¬ untouched log t)) →
  (r = None →
     tx_rel t (cellval (w_cluster w) (tx_cell t)) y
     ∧ rev (w_cluster w) < rev c ∧ stored c t = Good (rev c, y)
     ∧ (∀ ns n, (ns, n) ≠ tx_cell t → vc_get k c ns n = vc_get k (w_cluster w) ns n)) →
  ∃ log', inv w0 log' (<[i := Done r]> ps) (set_cluster c w).
Proof.
  intros Hinv Ht Hi HI' Hbad Hgood. destruct r as [e|].
  - destruct (Hbad e eq_refl) as [-> Hl]. exists log.
    eapply inv_quiet; try done. left. eauto.
  - destruct (Hgood eq_refl) as (? & ? & ? & ?). exists (i :: log). by eapply inv_commit.
Qed.

Lemma inv_create w0 log ps w r c i t ns y :
  inv w0 log ps w → ts !! i = Some t → i ∉ log →
  tx_cell t = (ns, name y) → tx_rel t None y →
  snapshot log (w_cluster w) t (Some None) →
  vc_create k (w_cluster w) ns y = (r, c) →
  ∃ log', inv w0 log' (<[i := Done r]> ps) (set_cluster c w).
Proof.
  intros Hinv Ht Hi Hcell HR Hs E. simpl in Hs. rewrite Hcell in Hs. simpl in Hs.
  eapply inv_write; try done; rewrite ?Hcell; simpl.
  - eapply I_create; [apply Hinv|done].
  - intros e ->. split; [by eapply vcreate_refused|]. intros HL Hu.
    destruct (Hs Hu) as [e' He]. destruct (vcreate_free _ _ _ _ He). congruence.
  - intros ->. destruct (vcreate_absent _ _ _ _ E) as [e He].
    destruct (vcreate_get _ _ _ _ E). unfold Interleaving.cellval. simpl. rewrite He.
    split_and!; [done..|]. intros ns' n' Hne. by eapply vcreate_other.
Qed.

Lemma inv_update w0 log ps w r c i t ns v x y :
  inv w0 log ps w → ts !! i = Some t → i ∉ log →
  tx_cell t = (ns, name y) → tx_rel t (Some x) y →
  snapshot log (w_cluster w) t (Some (Some (v, x))) →
  vc_update k (w_cluster w) ns (v, y) = (r, c) →
  ∃ log', inv w0 log' (<[i := Done r]> ps) (set_cluster c w).
Proof.
  intros Hinv Ht Hi Hcell HR Hs E. simpl in Hs. rewrite Hcell in Hs. simpl in Hs.
  destruct Hs as (_ & Hx & Hs).
  eapply inv_write; try done; rewrite ?Hcell; simpl.
  - eapply I_update; [apply Hinv|done].
  - intros e ->. split; [by eapply vupdate_refused|]. intros HL Hu.
    destruct (vupdate_fresh _ _ _ _ _ (Hs Hu)). congruence.
  - intros ->. destruct (vupdate_current _ _ _ _ _ E) as [x0 Hx0].
    destruct (vupdate_get _ _ _ _ _ E). unfold Interleaving.cellval. simpl.
    rewrite Hx0, (Hx _ Hx0).
    split_and!; [done..|]. intros ns' n' Hne. by eapply vupdate_other.
Qed.

Lemma inv_read w0 log ps w i t ns n next :
  inv w0 log ps w → ts !! i = Some t → i ∉ log → txn t None (Read ns n next) →
  inv w0 log (<[i := next (vc_get k (w_cluster w) ns n)]> ps) w.
Proof.
  intros Hinv Ht Hi (_ & Hcell & Hgood & Hbad).
  eapply inv_quiet; try done; [apply Hinv|]. right.
  destruct (vc_get k (w_cluster w) ns n) as [[v x]|e] eqn:E.
  - exists (Some (Some (v, x))).
    split; [by eapply Hgood, vget_name|]. simpl. rewrite Hcell. simpl.
    split; [by eapply vget_rev|]. rewrite E. naive_solver.
  - exists (Some None). split; [apply Hbad|]. simpl. rewrite Hcell. eauto.
Qed.

Lemma inv_step w0 log ps w ps' w' :
  inv w0 log ps w → step k (ps, w) (ps', w') → ∃ log', inv w0 log' ps' w'.
Proof.
  intros Hinv Hstep. inversion Hstep as [? ? i p p' ? Hp Ha]; subst.
  destruct (lookup_lt_is_Some_2 ts i) as [t Ht].
  { rewrite <-(inv_len _ _ _ _ Hinv). by eapply lookup_lt_Some. }
  destruct (inv_thread _ _ _ _ Hinv i p t Hp Ht) as [[_ ->]|(Hi & [(e & -> & _)|(h & Hh & Hs)])];
    [done..|].
  destruct p as [r|X m next|ns n next|ns y next|ns v y next]; simpl in Ha, Hh; [done|..].
  - injection Ha as Ha. apply M_bind_inv in Ha as (x & w1 & Hm & [= <- <-]).
    destruct (runs_inv _ _ _ _ _ (Hh w (inv_I _ _ _ _ Hinv)) Hm) as (Hc & HI' & Hx).
    exists log. eapply inv_quiet; [done..|]. right. eauto.
  - simplify_eq. exists log. eapply inv_read; [done..|].
    by destruct Hh as (-> & ?).
  - destruct Hh as (-> & Hcell & HR & Hnext). injection Ha as Ha.
    apply M_bind_inv in Ha as (r & w1 & Hm & [= <- <-]). unfold clusterM in Hm.
    destruct (vc_create k (w_cluster w) ns y) as [e c] eqn:E. simplify_eq.
    rewrite Hnext. by eapply inv_create.
  - destruct Hh as (x & -> & Hcell & HR & Hnext). injection Ha as Ha.
    apply M_bind_inv in Ha as (r & w1 & Hm & [= <- <-]). unfold clusterM in Hm.
    destruct (vc_update k (w_cluster w) ns (v, y)) as [e c] eqn:E. simplify_eq.
    rewrite Hnext. by eapply inv_update.
Qed.

Lemma inv_steps w0 log ps w ps' w' :
  inv w0 log ps w → rtc (step k) (ps, w) (ps', w') → ∃ log', inv w0 log' ps' w'.
Proof.
  intros Hinv Hsteps.
  refine (rtc_ind_r (λ cfg, ∃ log', inv w0 log' cfg.1 cfg.2) (ps, w) _ _ (ps', w') Hsteps).
  { by exists log. }
  intros [ps1 w1] [ps2 w2] _ Hstep [log1 H1]. by eapply inv_step.
Qed.

(** *** Serializability

    The handlers that returned without an error, in the order of their writes,
    account for the value of every object. *)
Lemma serializable w0 ps0 ps w :
  I w0 → Forall2 (λ t p, txn t None p) ts ps0 → rtc (step k) (ps0, w0) (ps, w) →
  ∃ log, NoDup log ∧ (∀ i, i ∈ log ↔ ps !! i = Some (Done None))
    ∧ ∀ κ, serial ts κ (cellval (w_cluster w0) κ) log (cellval (w_cluster w) κ).
Proof.
  intros HI Hts Hsteps.
  destruct (inv_steps _ _ _ _ _ _ (inv_init _ _ HI Hts) Hsteps) as [log Hinv].
  exists log. split_and!; [apply Hinv| |apply Hinv]. intros i. split.
  - intros Hi. pose proof (inv_log _ _ _ _ Hinv i Hi) as Hlt.
    destruct (lookup_lt_is_Some_2 ts i Hlt) as [t Ht].
    rewrite <-(inv_len _ _ _ _ Hinv) in Hlt.
    destruct (lookup_lt_is_Some_2 ps i Hlt) as [p Hp].
    by destruct (inv_thread _ _ _ _ Hinv i p t Hp Ht) as [[_ ->]|[? _]].
  - intros Hp. destruct (lookup_lt_is_Some_2 ts i) as [t Ht].
    { rewrite <-(inv_len _ _ _ _ Hinv). by eapply lookup_lt_Some. }
    destruct (inv_thread _ _ _ _ Hinv i _ t Hp Ht) as [[? _]|(_ & [(e & [=] & _)|(h & (e & [=] & _) & _)])];
    done.
Qed.

(** A handler fails for a reason of its own, or because another one that
    succeeded wrote its object first. *)
Lemma loses_to_winner w0 ps0 ps w i t e `{!VerClientLive name k} :
  I w0 → Forall2 (λ t p, txn t None p) ts ps0 → rtc (step k) (ps0, w0) (ps, w) →
  ps !! i = Some (Done (Some e)) → ts !! i = Some t →
  tx_fails t e ∨ ∃ j tj, ps !! j = Some (Done None) ∧ ts !! j = Some tj
                         ∧ tx_cell tj = tx_cell t.
Proof.
  intros HI Hts Hsteps Hp Ht.
  destruct (inv_steps _ _ _ _ _ _ (inv_init _ _ HI Hts) Hsteps) as [log Hinv].
  destruct (inv_thread _ _ _ _ Hinv i _ t Hp Ht) as [[_ [=]]|(_ & [(e' & [= <-] & He)|(h & (e' & [= <-] & He) & _)])];
    [|by left].
  destruct (He _) as [|Hu]; [by left|].
  destruct (decide (Exists (λ j, tx_cell <$> ts !! j = Some (tx_cell t)) log)) as [Hex|Hex].
  - right. apply Exists_exists in Hex as (j & Hj & Hcell).
    apply fmap_Some in Hcell as (tj & Htj & Hc). exists j, tj. split_and!; [|done..].
    destruct (lookup_lt_is_Some_2 ps j) as [p Hpj].
    { rewrite (inv_len _ _ _ _ Hinv). by eapply lookup_lt_Some. }
    by destruct (inv_thread _ _ _ _ Hinv j p tj Hpj Htj) as [[_ ->]|[? _]].
  - destruct Hu. intros j tj Hj Htj Hc. apply Hex, Exists_exists. exists j.
    split; [done|]. by rewrite Htj, <-Hc.
Qed.

(** A handler that has not returned can act. *)
Lemma progress w0 ps0 ps w i p :
  I w0 → Forall2 (λ t p, txn t None p) ts ps0 → rtc (step k) (ps0, w0) (ps, w) →
  ps !! i = Some p → (∃ r, p = Done r) ∨ ∃ p' w', step k (ps, w) (<[i := p']> ps, w').
Proof.
  intros HI Hts Hsteps Hp.
  destruct (inv_steps _ _ _ _ _ _ (inv_init _ _ HI Hts) Hsteps) as [log Hinv].
  destruct (lookup_lt_is_Some_2 ts i) as [t Ht].
  { rewrite <-(inv_len _ _ _ _ Hinv). by eapply lookup_lt_Some. }
  destruct (inv_thread _ _ _ _ Hinv i p t Hp Ht) as [[_ ->]|(Hi & [(e & -> & _)|(h & Hh & _)])];
    [eauto..|].
  destruct p as [r|X m next|ns n next|ns y next|ns v y next]; [by eauto|right..].
  - destruct (Hh w (inv_I _ _ _ _ Hinv)) as (x & w' & Hm & _).
    exists (next x), w'. econstructor; [done|]. simpl. by rewrite (M_bind_Ret _ _ _ _ _ Hm).
  - eexists _, _. by econstructor.
  - destruct (vc_create k (w_cluster w) ns y) as [e c] eqn:E.
    exists (next e), (set_cluster c w). econstructor; [done|]. simpl.
    unfold mbind, M_bind, clusterM. by rewrite E.
  - destruct (vc_update k (w_cluster w) ns (v, y)) as [e c] eqn:E.
    exists (next e), (set_cluster c w). econstructor; [done|]. simpl.
    unfold mbind, M_bind, clusterM. by rewrite E.
Qed.
End serializable.

(** ** Bounded handlers *)

Section bounded.
Context {K : Kube} {A : Type} (k : VerClient Cluster A).

(** The handler returns after at most [d] actions. *)
Fixpoint within (p : proc A) (d : nat) : Prop :=
  match p with
  | Done _ => True
  | Local m next => match d with 0 => False | S d => ∀ x, within (next x) d end
  | Read _ _ next => match d with 0 => False | S d => ∀ x, within (next x) d end
  | Create _ _ next => match d with 0 => False | S d => ∀ x, within (next x) d end
  | Update _ _ _ next => match d with 0 => False | S d => ∀ x, within (next x) d end
  end.

Lemma within_action p d w p' w' :
  within p d → action k p w = Some (Ret p', w') → ∃ d', d = S d' ∧ within p' d'.
Proof.
  destruct p as [r|X m next|ns n next|ns y next|ns v y next], d as [|d]; simpl; try done;
    intros Hd Ha; exists d; split; try done; injection Ha as Ha;
    first [apply M_bind_inv in Ha as (x & w1 & _ & [= <- _]) | subst p']; apply Hd.
Qed.

Lemma sum_list_insert (l : list nat) i d d' :
  l !! i = Some d → sum_list (<[i := d']> l) + d = sum_list l + d'.
Proof.
  revert i. induction l as [|a l IH]; intros [|i]; simpl; [done..| |].
  - intros [= ->]. lia.
  - intros H%IH. lia.
Qed.

(** Every interleaving is finite: no more actions than the handlers have. *)
Lemma bounded_steps m ps w ps' w' ds :
  Forall2 within ps ds → nsteps (step k) m (ps, w) (ps', w') →
  ∃ ds', Forall2 within ps' ds' ∧ m + sum_list ds' = sum_list ds.
Proof.
  revert ps w ds. induction m as [|m IH]; intros ps w ds Hds Hn.
  { inversion Hn; subst. eauto. }
  inversion Hn as [|? ? [ps1 w1] ? Hstep Hrest]; subst.
  inversion Hstep as [? ? i p p' ? Hp Ha]; subst.
  destruct (Forall2_lookup_l _ _ _ _ _ Hds Hp) as (d & Hd & Hw).
  destruct (within_action _ _ _ _ _ Hw Ha) as (d' & -> & Hw').
  destruct (IH _ _ (<[i := d']> ds) (Forall2_insert _ _ _ _ _ _ Hds Hw') Hrest)
    as (ds' & ? & Hsum).
  exists ds'. split; [done|]. pose proof (sum_list_insert _ _ _ d' Hd). lia.
Qed.
End bounded.

(** ** Counting the successful handlers *)

Definition returned_nil {K : Kube} {A} (p : proc A) : bool :=
  match p with Done None => true | _ => false end.

(** The handlers that wrote the object [κ]: those meant for it that returned nil. *)
Definition writers {K : Kube} {A} (κ : string * string) (cells : list (string * string))
    (ps : list (proc A)) : list nat :=
  filter (λ i, cells !! i = Some κ ∧ returned_nil <$> ps !! i = Some true)
    (seq 0 (length cells)).

Section counting.
Context {K : Kube} {A : Type}.
Implicit Types (ts : list (txspec A)) (ps : list (proc A)).

Definition at_cell ts κ (log : list nat) : list nat :=
  filter (λ i, tx_cell <$> ts !! i = Some κ) log.

Lemma elem_of_writers κ cells ps i :
  cells !! i = Some κ → ps !! i = Some (Done None) → i ∈ writers κ cells ps.
Proof.
  intros Hc Hp. apply list_elem_of_filter. split; [by rewrite Hp|].
  apply elem_of_seq. apply lookup_lt_Some in Hc. lia.
Qed.

Lemma writers_log ts κ ps log :
  NoDup log → (∀ i, i ∈ log ↔ ps !! i = Some (Done None)) →
  at_cell ts κ log ≡ₚ writers κ (tx_cell <$> ts) ps.
Proof.
  intros Hnd Hlog. apply NoDup_Permutation.
  - by apply NoDup_filter.
  - apply NoDup_filter, NoDup_seq.
  - intros i. unfold at_cell, writers. rewrite !list_elem_of_filter, elem_of_seq, length_fmap.
    rewrite list_lookup_fmap, Hlog. split.
    + intros [Hc Hp]. split_and!; [done|by rewrite Hp|lia|].
      apply fmap_Some in Hc as (t & Ht & _). by apply lookup_lt_Some in Ht.
    + intros [[Hc Hp] _]. split; [done|].
      destruct (ps !! i) as [[[|]|X m nx|ns n nx|ns y nx|ns v y nx]|]; done.
Qed.

(** A quantity that every write advances by [f]. *)
Lemma serial_measure {B} ts κ o0 log o (cnt : A → B) (f : B → B) (b0 : B) :
  (∀ i t o y, ts !! i = Some t → tx_cell t = κ → tx_rel t o y →
     cnt y = f (default b0 (cnt <$> o))) →
  serial ts κ o0 log o →
  default b0 (cnt <$> o) = Nat.iter (length (at_cell ts κ log)) f (default b0 (cnt <$> o0)).
Proof.
  intros Hf. unfold at_cell.
  induction 1 as [|i t log o Ht Hne _ IH|i t log o y Ht Heq HR _ IH]; [done|..].
  - rewrite filter_cons_False by (rewrite Ht; simpl; congruence). done.
  - rewrite filter_cons_True by (rewrite Ht; simpl; congruence). simpl.
    rewrite <-IH. by eapply Hf.
Qed.

(** The last write of an object is the one that counts. *)
Lemma serial_last ts κ o0 log o :
  serial ts κ o0 log o →
  (at_cell ts κ log = [] ∧ o = o0) ∨
  ∃ i t o' y, i ∈ at_cell ts κ log ∧ ts !! i = Some t ∧ tx_rel t o' y ∧ o = Some y.
Proof.
  unfold at_cell. destruct 1 as [|i t log o Ht Hne Hser|i t log o y Ht Heq HR _]; [by left|..].
  - rewrite filter_cons_False by (rewrite Ht; simpl; congruence).
    induction Hser as [|j t' log o Ht' Hne' _ IH|j t' log o y Ht' Heq' HR' _ _]; [by left|..].
    + by rewrite filter_cons_False by (rewrite Ht'; simpl; congruence).
    + right. exists j, t', o, y. split_and!; [|done..].
      rewrite filter_cons_True by (rewrite Ht'; simpl; congruence). left.
  - right. exists i, t, o, y. split_and!; [|done..].
    rewrite filter_cons_True by (rewrite Ht; simpl; congruence). left.
Qed.
End counting.

(** ** What the calls rely on *)

Section steady.
Context {K : Kube}.

(** The process environment does not change, the cluster stays in [P]. *)
Definition steady (P : Cluster → Prop) (w0 w : World) : Prop :=
  w_env w = w_env w0 ∧ P (w_cluster w).

Lemma steady_envor P w0 w k d : steady P w0 w → envor w k d = envor w0 k d.
Proof. intros [E _]. unfold envor, getenv. by rewrite E. Qed.

(** The writes of a client keep the cluster in [P]. *)
Class Keeps {A} (k : VerClient Cluster A) (P : Cluster → Prop) : Prop := {
  create_keeps c ns y e c' : P c → vc_create k c ns y = (e, c') → P c';
  update_keeps c ns v y e c' : P c → vc_update k c ns (v, y) = (e, c') → P c' }.
#[export] Instance keeps_True {A} (k : VerClient Cluster A) : Keeps k (λ _, True).
Proof. by split. Qed.

Lemma steady_create {A} (k : VerClient Cluster A) P `{!Keeps k P} w0 w ns y e c :
  steady P w0 w → vc_create k (w_cluster w) ns y = (e, c) → steady P w0 (set_cluster c w).
Proof. intros [? HP] E. split; [done|]. exact (create_keeps _ _ _ _ _ HP E). Qed.
Lemma steady_update {A} (k : VerClient Cluster A) P `{!Keeps k P} w0 w ns v y e c :
  steady P w0 w → vc_update k (w_cluster w) ns (v, y) = (e, c) →
  steady P w0 (set_cluster c w).
Proof. intros [? HP] E. split; [done|]. exact (update_keeps _ _ _ _ _ _ HP E). Qed.

(** [serializable] for such handlers, as seen at one object. *)
Lemma steady_serializable {A} (name : A → string) rev (k : VerClient Cluster A)
    `{!VerClientLaws name rev k} P `{!Keeps k P} ts w0 ps0 ps w κ :
  P (w_cluster w0) → Forall2 (λ t p, txn name (steady P w0) t None p) ts ps0 →
  rtc (step k) (ps0, w0) (ps, w) →
  ∃ log, at_cell ts κ log ≡ₚ writers κ (tx_cell <$> ts) ps
    ∧ serial ts κ (cellval k (w_cluster w0) κ) log (cellval k (w_cluster w) κ).
Proof.
  intros HP Hts Hsteps.
  destruct (serializable name rev k (steady P w0)
    (λ w ns y e c, steady_create k P w0 w ns y e c)
    (λ w ns v y e c, steady_update k P w0 w ns v y e c) ts _ _ _ _
    (conj eq_refl HP) Hts Hsteps) as (log & Hnd & Hlog & Hser).
  exists log. split; [by apply writers_log|done].
Qed.

(** When no action is left, every handler has returned; those that failed did so
    for a reason of their own or lost to one that succeeded. *)
Lemma steady_finished {A} (name : A → string) rev (k : VerClient Cluster A)
    `{!VerClientLaws name rev k, !VerClientLive name k} P `{!Keeps k P} ts w0 ps0 ps w i t :
  P (w_cluster w0) → Forall2 (λ t p, txn name (steady P w0) t None p) ts ps0 →
  rtc (step k) (ps0, w0) (ps, w) → (∀ cfg, ¬ step k (ps, w) cfg) →
  ts !! i = Some t → (∀ e, ¬ tx_fails t e) →
  (∃ r, ps !! i = Some (Done r)) ∧ writers (tx_cell t) (tx_cell <$> ts) ps ≠ [].
Proof.
  intros HP Hts Hsteps Hend Ht Hnf.
  assert (length ps = length ts) as Hlen.
  { rewrite (Forall2_length _ _ _ Hts). exact (steps_length k _ _ Hsteps). }
  destruct (lookup_lt_is_Some_2 ps i) as [p Hp].
  { rewrite Hlen. by eapply lookup_lt_Some. }
  pose proof (steady_create k P w0) as Hcr. pose proof (steady_update k P w0) as Hup.
  destruct (progress name rev k (steady P w0) Hcr Hup ts _ _ _ _ i p
    (conj eq_refl HP) Hts Hsteps Hp) as [[r ->]|(p' & w' & Hs)]; [|by destruct (Hend _ Hs)].
  split; [by exists r|]. destruct r as [e|].
  - destruct (loses_to_winner name rev k (steady P w0) Hcr Hup ts _ _ _ _ i t e
      (conj eq_refl HP) Hts Hsteps Hp Ht) as [Hf|(j & tj & Hj & Htj & Hc)];
      [by destruct (Hnf e)|].
    eapply elem_of_not_nil, (elem_of_writers _ _ _ j); [|done].
    by rewrite list_lookup_fmap, Htj, <-Hc.
  - eapply elem_of_not_nil, (elem_of_writers _ _ _ i); [|done].
    by rewrite list_lookup_fmap, Ht.
Qed.
End steady.

(** Counting up in 2^bits arithmetic. *)
Lemma iter_wrap bits n z :
  wrap bits z = z →
  Nat.iter n (λ c, wrap bits (c + 1)) z = wrap bits (z + Z.of_nat n).
Proof.
  intros Hz. induction n as [|n IH]; simpl; [by rewrite Z.add_0_r|].
  rewrite IH, wrap_wrap_add. f_equal. lia.
Qed.

(** ** A store with versions, the concrete instance of the interface *)

Module VerStore.

Abbreviation store A := (gmap (string * string) (nat * A)).

(** The newest version in the store. *)
Definition vs_rev {A} (s : store A) : nat := max_list (map_to_list s).*2.*1.

Lemma vs_rev_ge {A} (s : store A) κ v x : s !! κ = Some (v, x) → v ≤ vs_rev s.
Proof.
  intros H. apply max_list_elem_of_le. apply list_elem_of_fmap. exists (v, x).
  split; [done|]. apply list_elem_of_fmap. exists (κ, (v, x)).
  split; [done|]. by apply elem_of_map_to_list.
Qed.
Lemma max_list_bound l b : (∀ v, v ∈ l → v ≤ b) → max_list l ≤ b.
Proof.
  induction l as [|a l IH]; simpl; [lia|]. intros H.
  apply Nat.max_lub; [apply H; left|]. apply IH. intros v ?. apply H. by right.
Qed.
Lemma vs_rev_insert {A} (s : store A) κ x :
  vs_rev (<[κ := (S (vs_rev s), x)]> s) = S (vs_rev s).
Proof.
  apply Nat.le_antisymm.
  - apply max_list_bound. intros v Hv.
    apply list_elem_of_fmap in Hv as ([v' y] & -> & Hv).
    apply list_elem_of_fmap in Hv as ([κ' [? ?]] & [= <- <-] & Hv).
    apply elem_of_map_to_list, lookup_insert_Some in Hv as [[_ [= <- _]]|[_ Hv]]; [done|].
    apply vs_rev_ge in Hv. simpl. lia.
  - eapply (vs_rev_ge _ κ). by rewrite lookup_insert_eq.
Qed.

Section client.
Context {C A : Type} (name : A → string) (getv : C → store A) (setv : store A → C → C).

Definition conflict (n : string) : error :=
  errNew ("Operation cannot be fulfilled on " ++ n)%string.

Definition sget (s : store A) (ns n : string) : res (nat * A) :=
  match s !! (ns, n) with
  | Some (v, x) => if bool_decide (name x = n) then Good (v, x)
                   else Bad (mkError NotFound n)
  | None => Bad (mkError NotFound n)
  end.
Definition sput (s : store A) (ns : string) (x : A) : store A :=
  <[(ns, name x) := (S (vs_rev s), x)]> s.

Definition storeVerClient : VerClient C A := mkVerClient
  (λ c ns n, sget (getv c) ns n)
  (λ c ns x, match sget (getv c) ns (name x) with
             | Good _ => (Some (mkError AlreadyExists (name x)), c)
             | Bad _ => (None, setv (sput (getv c) ns x) c)
             end)
  (λ c ns vx, match sget (getv c) ns (name vx.2) with
              | Good (v, _) => if bool_decide (v = vx.1)
                               then (None, setv (sput (getv c) ns vx.2) c)
                               else (Some (conflict (name vx.2)), c)
              | Bad e => (Some e, c)
              end).
Definition rev (c : C) : nat := vs_rev (getv c).

Context (Hgs : ∀ s c, getv (setv s c) = s).

Lemma sget_put s ns x : sget (sput s ns x) ns (name x) = Good (S (vs_rev s), x).
Proof. unfold sget, sput. by rewrite lookup_insert_eq, bool_decide_eq_true_2. Qed.
Lemma sget_put_other s ns x ns' n :
  (ns', n) ≠ (ns, name x) → sget (sput s ns x) ns' n = sget s ns' n.
Proof. intros Hne. unfold sget, sput. by rewrite lookup_insert_ne by congruence. Qed.

#[export] Instance storeVer_live : VerClientLive name storeVerClient.
Proof.
  split; simpl.
  - intros c ns x e ->. eauto.
  - intros c ns v x x0 ->. rewrite bool_decide_eq_true_2; eauto.
Qed.

Lemma storeVer_laws : VerClientLaws name rev storeVerClient.
Proof.
  unfold rev. split; simpl.
  - intros c ns n v x. unfold sget. destruct (getv c !! (ns, n)) as [[? ?]|]; [|done].
    case_bool_decide; naive_solver.
  - intros c ns n v x. unfold sget. destruct (getv c !! (ns, n)) as [[? ?]|] eqn:E; [|done].
    case_bool_decide; [|done]. intros [= -> ->]. by eapply vs_rev_ge.
  - intros c ns x c'. destruct (sget _ _ _); naive_solver.
  - intros c ns x c'. destruct (sget _ _ _); [done|]. intros [= <-].
    rewrite Hgs, sget_put. unfold sput. rewrite vs_rev_insert. split; [lia|done].
  - intros c ns x c' ns' n. destruct (sget _ _ (name x)); [done|]. intros [= <-] Hne.
    by rewrite Hgs, sget_put_other.
  - intros c ns x e c'. destruct (sget _ _ _); naive_solver.
  - intros c ns v x c'. destruct (sget _ _ _) as [[v' x0]|]; [|done].
    case_bool_decide; [|done]. subst. eauto.
  - intros c ns v x c'. destruct (sget _ _ _) as [[v' x0]|]; [|done].
    case_bool_decide; [|done]. intros [= <-].
    rewrite Hgs, sget_put. unfold sput. rewrite vs_rev_insert. split; [lia|done].
  - intros c ns v x c' ns' n. destruct (sget _ _ (name x)) as [[v' x0]|]; [|done].
    case_bool_decide; [|done]. intros [= <-] Hne. by rewrite Hgs, sget_put_other.
  - intros c ns v x e c'. destruct (sget _ _ _) as [[v' x0]|]; [|naive_solver].
    case_bool_decide; naive_solver.
Qed.
End client.
End VerStore.
