(* ===== verification/Threads.v ===== *)
(** * Goroutines that share the state of one process

    [Interleaving] cuts a handler at its client calls only: what it does to the
    process (environment variables, logger, files) is one action.  Here a handler
    is cut at every access to state it shares with the other goroutines of its
    process:
    - [prog]: a handler as a tree of atomic actions, [run_prog] its run alone,
      [tstep] the interleaving of any number of them, [texec] a scheduler;
    - [ok]: rely/guarantee reasoning for one handler, with auxiliary state [G] for
      what the handlers own at run time; [ok_steps] composes the handlers, so that
      each is verified against what the others are allowed to do;
    - [tstep_terminates]: every interleaving ends. *)
From S2P Require Import Prelude GoStrings World Interleaving.
From stdpp Require Import base gmap strings list relations.
From Stdlib Require Import ZArith Lia.

(** ** Programs *)

Section prog.
Context {K : Kube}.

Inductive prog (R : Type) : Type :=
| Return (r : R)
| Atom {X : Type} (m : M World X) (next : X → prog R).
Arguments Return {R}.
Arguments Atom {R X}.

Fixpoint pbind {A B} (f : A → prog B) (p : prog A) : prog B :=
  match p with
  | Return r => f r
  | Atom m next => Atom m (λ x, pbind f (next x))
  end.

(** One atomic action. *)
Definition atom {X} (m : M World X) : prog X := Atom m Return.

(** The goroutine runs alone. *)
Fixpoint run_prog {R} (p : prog R) : M World R :=
  match p with
  | Return r => mret r
  | Atom m next => x ← m; run_prog (next x)
  end.

(** A reporting call of [Concurrency], with its client calls as actions. *)
Fixpoint prog_of {A} (k : VerClient Cluster A) (p : proc A) : prog (option error) :=
  match p with
  | Done r => Return r
  | Local m next => Atom m (λ x, prog_of k (next x))
  | Read ns n next =>
      Atom (asksW (λ w, vc_get k (w_cluster w) ns n)) (λ r, prog_of k (next r))
  | Create ns y next => Atom (clusterM (λ c, vc_create k c ns y)) (λ r, prog_of k (next r))
  | Update ns v y next =>
      Atom (clusterM (λ c, vc_update k c ns (v, y))) (λ r, prog_of k (next r))
  end.

Lemma run_pbind {A B} (f : A → prog B) p w :
  run_prog (pbind f p) w = (r ← run_prog p; run_prog (f r)) w.
Proof.
  revert w. induction p as [r|X m next IH]; intros w; simpl; [done|].
  rewrite M_bind_assoc. unfold mbind, M_bind. destruct (m w) as [[x|e] w1]; [|done].
  apply IH.
Qed.
Lemma run_atom {X} (m : M World X) w : run_prog (atom m) w = m w.
Proof. apply M_bind_ret_r. Qed.
Lemma run_prog_of {A} (k : VerClient Cluster A) p w :
  run_prog (prog_of k p) w = run_proc k p w.
Proof.
  revert w. induction p as [r|X m next IH|ns n next IH|ns y next IH|ns v y next IH];
    intros w; simpl; [done|..]; unfold mbind, M_bind;
    lazymatch goal with |- match ?c w with _ => _ end = _ =>
      destruct (c w) as [[x|e] w1]; [apply IH|done] end.
Qed.

(** ** Interleaving *)

Section step.
Context {R : Type}.

(** The next action of a goroutine. *)
Definition taction (p : prog R) (w : World) : option (outcome (prog R) * World) :=
  match p with
  | Return _ => None
  | Atom m next => Some ((x ← m; mret (next x)) w)
  end.

Inductive tstep : list (prog R) * World → list (prog R) * World → Prop :=
| tstep_action ps w i p p' w' :
    ps !! i = Some p → taction p w = Some (Ret p', w') →
    tstep (ps, w) (<[i := p']> ps, w').

(** The goroutines act in the order [sched]; an entry for a finished one is skipped. *)
Fixpoint texec (sched : list nat) (cfg : list (prog R) * World) : list (prog R) * World :=
  match sched with
  | [] => cfg
  | i :: sched' =>
      texec sched' (match cfg.1 !! i ≫= λ p, taction p cfg.2 with
                    | Some (Ret p', w') => (<[i := p']> cfg.1, w')
                    | _ => cfg
                    end)
  end.

Lemma texec_steps sched cfg : rtc tstep cfg (texec sched cfg).
Proof.
  revert cfg. induction sched as [|i sched IH]; intros [ps w]; simpl; [done|].
  destruct (ps !! i ≫= _) as [[[p'|] w']|] eqn:E; [|apply IH..].
  apply bind_Some in E as (p & Hp & Ha). eapply rtc_l; [|apply IH]. by econstructor.
Qed.
Lemma texec_steps_pair sched cfg :
  rtc tstep cfg ((texec sched cfg).1, (texec sched cfg).2).
Proof. rewrite <-surjective_pairing. apply texec_steps. Qed.

Lemma tsteps_length cfg cfg' : rtc tstep cfg cfg' → length cfg'.1 = length cfg.1.
Proof.
  induction 1 as [|cfg1 cfg2 cfg3 Hstep _ IH]; [done|]. rewrite IH.
  destruct Hstep. simpl. by rewrite length_insert.
Qed.

(** The answer of a goroutine that has returned. *)
Definition answer (p : prog R) : option R :=
  match p with Return r => Some r | Atom _ _ => None end.

Lemma taction_atom {X} (m : M World X) next w p' w' :
  taction (Atom m next) w = Some (Ret p', w') ↔
  ∃ x, m w = (Ret x, w') ∧ p' = next x.
Proof.
  simpl. unfold mbind, M_bind. split.
  - destruct (m w) as [[x|e] w1]; intros [=]. subst. eauto.
  - intros (x & -> & ->). done.
Qed.
End step.
End prog.
Arguments Return {K R}.
Arguments Atom {K R X}.

(** The notation of the sequential monad, for programs. *)
#[export] Instance prog_mbind {K : Kube} : MBind prog := λ A B, pbind.

(** ** Every interleaving ends *)

Section termination.
Context {K : Kube} {R : Type}.

(** [p'] is what is left of [p] after its next action. *)
Definition rest (p' p : prog R) : Prop :=
  match p with Return _ => False | Atom m next => ∃ x, p' = next x end.
Definition rest_one (ps' ps : list (prog R)) : Prop :=
  ∃ i p p', ps !! i = Some p ∧ rest p' p ∧ ps' = <[i := p']> ps.

Lemma rest_wf p : Acc rest p.
Proof.
  induction p as [r|X m next IH]; constructor; simpl; [done|]. by intros ? [x ->].
Qed.

Lemma rest_one_wf ps : Acc rest_one ps.
Proof.
  induction ps as [|p ps IHps].
  { constructor. intros ? (i & p & p' & Hp & _). by rewrite lookup_nil in Hp. }
  revert ps IHps. induction (rest_wf p) as [p _ IHp]. intros ps Hps.
  pose proof Hps as Hall. induction Hps as [ps Hps IHps].
  constructor. intros ? ([|i] & q & q' & Hq & Hr & ->); simpl in *.
  - injection Hq as ->. by apply IHp.
  - assert (rest_one (<[i := q']> ps) ps) as Hone by by exists i, q, q'.
    apply IHps; [done|]. by apply Hps.
Qed.

Lemma tstep_rest cfg cfg' : tstep cfg cfg' → rest_one cfg'.1 cfg.1.
Proof.
  intros [ps w i p p' w' Hp Ha]. exists i, p, p'. split_and!; [done| |done].
  destruct p as [r|X m next]; [done|]. apply taction_atom in Ha as (x & _ & ->).
  by exists x.
Qed.

(** No interleaving goes on for ever: the steps are well founded. *)
Lemma tstep_terminates (cfg : list (prog R) * World) :
  Acc (λ cfg' cfg, tstep cfg cfg') cfg.
Proof.
  destruct cfg as [ps w]. revert w. induction (rest_one_wf ps) as [ps _ IH].
  intros w. constructor. intros [ps' w'] Hstep. apply IH. exact (tstep_rest _ _ Hstep).
Qed.

(** So where every goroutine that has not returned can act, all of them return. *)
Lemma all_return (cfg : list (prog R) * World) :
  (∀ ps w i p, rtc tstep cfg (ps, w) → ps !! i = Some p →
     is_Some (answer p) ∨ ∃ cfg', tstep (ps, w) cfg') →
  ∃ ps w, rtc tstep cfg (ps, w) ∧ Forall (λ p, is_Some (answer p)) ps.
Proof.
  induction (tstep_terminates cfg) as [cfg _ IH]. intros Hprog.
  destruct cfg as [ps w].
  destruct (decide (Forall (λ p, is_Some (answer p)) ps)) as [Hall|Hnot]; [by exists ps, w|].
  apply not_Forall_Exists in Hnot; [|apply _]. apply Exists_exists in Hnot as (p & Hin & Hp).
  apply list_elem_of_lookup in Hin as [i Hi].
  destruct (Hprog ps w i p ltac:(done) Hi) as [?|[cfg' Hstep]]; [done|].
  destruct (IH cfg' Hstep) as (ps' & w' & Hsteps & Hall).
  { intros ps1 w1 j q Hs. apply Hprog. by eapply rtc_l. }
  exists ps', w'. split; [by eapply rtc_l|done].
Qed.
End termination.

(** ** Rely and guarantee *)

Section rely_guarantee.
Context {K : Kube} {G : Type} {R : Type}.
Abbreviation st := (World * G)%type.
(* what always holds, what goroutine [i] expects of the others, what it promises *)
Context (Inv : st → Prop) (rely guar : nat → relation st).
Context `{!∀ i, PreOrder (rely i)}.

(** The program [p], run by goroutine [i] from [σ] on, keeps the guarantee and
    the invariant, never panics, and returns only with [Q], whatever the others
    do in between within the rely. *)
Fixpoint ok {A} (i : nat) (p : prog A) (Q : A → st → Prop) (σ : st) : Prop :=
  match p with
  | Return r => Q r σ
  | Atom m next => ∀ σ', rely i σ σ' → Inv σ' →
      runs m σ'.1 (λ x w', ∃ g', guar i σ' (w', g') ∧ Inv (w', g') ∧ ok i (next x) Q (w', g'))
  end.

(** An assertion the others cannot invalidate. *)
Definition stable (i : nat) (P : st → Prop) : Prop :=
  ∀ σ σ', P σ → rely i σ σ' → Inv σ' → P σ'.

Lemma stable_const i (P : Prop) : stable i (λ _, P).
Proof. by intros ? ? ?. Qed.
Lemma ok_stable {A} i (p : prog A) Q :
  (∀ r, stable i (Q r)) → stable i (ok i p Q).
Proof.
  intros HQ σ σ' Hok Hr HI. destruct p as [r|X m next]; simpl in *; [by eapply HQ|].
  intros σ'' Hr' HI'. apply Hok; [by etrans|done].
Qed.
Lemma ok_mono {A} i (p : prog A) (Q Q' : A → st → Prop) σ :
  ok i p Q σ → (∀ r σ, Q r σ → Q' r σ) → ok i p Q' σ.
Proof.
  intros Hok HQ. revert σ Hok. induction p as [r|X m next IH]; intros σ; simpl; [by apply HQ|].
  intros Hok σ' Hr HI. eapply runs_mono; [by apply Hok|].
  intros x w' (g' & ? & ? & ?). eauto.
Qed.
Lemma ok_bind {A B} i (p : prog A) (f : A → prog B) Q σ :
  ok i p (λ r, ok i (f r) Q) σ → ok i (p ≫= f) Q σ.
Proof.
  revert σ. induction p as [r|X m next IH]; intros σ; simpl; [done|].
  intros Hok σ' Hr HI. eapply runs_mono; [by apply Hok|].
  intros x w' (g' & ? & ? & ?). exists g'. split_and!; [done..|by apply IH].
Qed.
Lemma ok_ret {A} i (r : A) (Q : A → st → Prop) σ : Q r σ → ok i (Return r) Q σ.
Proof. done. Qed.

(** An action that changes neither the state nor what the goroutines own. *)
Lemma ok_ask {A} i (f : World → A) Q σ :
  (∀ σ', guar i σ' σ') → (∀ σ', rely i σ σ' → Inv σ' → Q (f σ'.1) σ') →
  ok i (atom (asksW f)) Q σ.
Proof.
  intros Hg HQ σ' Hr HI. apply runs_asksW. exists σ'.2. rewrite <-surjective_pairing.
  split_and!; [done..|]. by apply HQ.
Qed.

Context (compat : ∀ i j σ σ', i ≠ j → guar j σ σ' → rely i σ σ').
Context (Q : nat → R → st → Prop) (Q_stable : ∀ i r, stable i (Q i r)).

Lemma ok_steps ps w g ps' w' :
  Inv (w, g) → (∀ i p, ps !! i = Some p → ok i p (Q i) (w, g)) →
  rtc tstep (ps, w) (ps', w') →
  ∃ g', Inv (w', g') ∧ ∀ i p, ps' !! i = Some p → ok i p (Q i) (w', g').
Proof.
  intros HI Hok Hsteps. remember (ps, w) as cfg eqn:E. remember (ps', w') as cfg' eqn:E'.
  revert ps w g E HI Hok. induction Hsteps as [cfg|? ? ? Hstep _ IH]; intros ps w g -> HI Hok.
  { simplify_eq. by exists g. }
  inversion Hstep as [? ? i p p' w1 Hp Ha]; subst.
  destruct p as [r|X m next]; [done|]. apply taction_atom in Ha as (x & Hm & ->).
  pose proof (Hok i _ Hp) as Hi. simpl in Hi. specialize (Hi (w, g) ltac:(done) HI).
  apply (runs_inv _ _ _ _ _ Hi) in Hm as (g1 & Hg & HI1 & Hnext).
  apply (IH eq_refl _ _ g1 eq_refl HI1). intros j q Hj.
  apply list_lookup_insert_Some in Hj as [(<- & <- & _)|[Hne Hj]]; [done|].
  apply (ok_stable j q (Q j) (Q_stable j) (w, g)); [by apply Hok| |done].
  by apply (compat _ i).
Qed.

(** A goroutine that has not returned can act: no panic, no deadlock. *)
Lemma ok_progress ps w g ps' w' i p :
  Inv (w, g) → (∀ i p, ps !! i = Some p → ok i p (Q i) (w, g)) →
  rtc tstep (ps, w) (ps', w') → ps' !! i = Some p →
  is_Some (answer p) ∨ ∃ cfg', tstep (ps', w') cfg'.
Proof.
  intros HI Hok Hsteps Hp. destruct (ok_steps _ _ _ _ _ HI Hok Hsteps) as (g' & HI' & Hok').
  specialize (Hok' i p Hp). destruct p as [r|X m next]; [left; by exists r|right].
  destruct (Hok' (w', g') ltac:(done) HI') as (x & w1 & Hm & _).
  exists (<[i := next x]> ps', w1). econstructor; [done|]. apply taction_atom. eauto.
Qed.
End rely_guarantee.
