(* ===== verification/ShieldConfig.v ===== *)
(** * shield/pkg/config: constraint parameters and the request handler config

    [parameter.go] (the parameter object of a constraint and its matchers) and
    [request_handler_config.go] (the handler's configuration, the logger set-up,
    [LoadKeySecret] and [LoadRequestHandlerConfig]). *)
From S2P Require Import Prelude GoStrings World.
From stdpp Require Import base gmap strings list.
From Stdlib Require Import ZArith Lia.

Local Open Scope string_scope.

Section types.
Context {T : ExtTypes}.

Record ActionT := mkAction { Audit_Inform : bool; AdmissionControl_Enforce : bool }.
Record ResourceRef := mkResourceRef { rr_Name : string; rr_Namespace : string }.
Record SignatureRef := mkSignatureRef {
  sr_ImageRef : string;
  sr_SignatureResourceRef : ResourceRef;
  sr_ProvenanceResourceRef : ResourceRef }.
Record KeyConfig := mkKeyConfig {
  KeySecretName : string; KeySecretNamespace : string }.

Abbreviation ImageRef := string.
Record ImageProfile := mkImageProfile {
  ip_KeyConfigs : list KeyConfig;
  ip_Match : list ImageRef;
  ip_Exclude : list ImageRef }.

Record ObjectUserBinding := mkOUB {
  oub_Objects : list ObjectReference; oub_Users : list string }.

Record ParameterObject := mkParam {
  ConstraintName : string;
  po_SignatureRef : SignatureRef;
  po_KeyConfigs : list KeyConfig;
  InScopeObjects : list ObjectReference;
  po_SkipUsers : list ObjectUserBinding;
  InScopeUsers : list ObjectUserBinding;
  po_ImageProfile : ImageProfile;
  po_VerifyResourceOption : VerifyResourceOption;
  po_Action : option ActionT }.

Record LogConfig := mkLogConfig {
  lc_Level : string; ManifestSigstoreLogLevel : string; lc_Format : string }.
Record RequestFilterProfile := mkFilterProfile {
  rf_SkipObjects : list ObjectReference;
  rf_SkipUsers : list ObjectUserBinding;
  rf_IgnoreFields : list ObjectFieldBinding }.

(** [ImageVerificationConfig] is an empty struct and is left out. *)
Record RequestHandlerConfig := mkRHC {
  KeyPathList : list string;
  RekorServer : string;               (* SigStoreConfig.RekorServer *)
  rhc_Filter : RequestFilterProfile;
  rhc_Log : LogConfig;
  CreateDenyEvent : bool;             (* SideEffectConfig.CreateDenyEvent *)
  DefaultConstraintAction : ActionT;
  rhc_Options : list string }.

(** The zero value [&RequestHandlerConfig{}]. *)
Definition RequestHandlerConfig_zero : RequestHandlerConfig :=
  mkRHC [] "" (mkFilterProfile [] [] []) (mkLogConfig "" "" "") false
    (mkAction false false) [].
End types.

(** [yaml.Unmarshal] into a [*RequestHandlerConfig] (ghodss/yaml). *)
Class ShieldYaml (T : ExtTypes) := {
  yaml_RequestHandlerConfig : string → option RequestHandlerConfig * option error }.

(** ** parameter.go: matchers *)
Section matchers.
Context {T : ExtTypes} {L : ExtLib T}.

Definition ImageRef_Match (r imageRef : string) : bool := MatchPattern r imageRef.

Definition ImageRefList_Match (l : list string) (imageRef : string) : bool :=
  if bool_decide (l = []) then true else anyb (λ r, ImageRef_Match r imageRef) l.

Definition ObjectUserBinding_Match (u : ObjectUserBinding) (obj : Unstructured)
    (username : string) : bool :=
  if ObjectReferenceList_Match (oub_Objects u) obj then
    if MatchWithPatternArray username (oub_Users u) then true else false
  else false.

Definition ObjectUserBindingList_Match (l : list ObjectUserBinding)
    (obj : Unstructured) (username : string) : bool :=
  if (length l =? 0)%nat then false
  else anyb (λ u, ObjectUserBinding_Match u obj username) l.

Definition ImageProfile_Enabled (p : ImageProfile) : bool :=
  (0 <? length (ip_Match p))%nat || (0 <? length (ip_Exclude p))%nat.

Definition ImageProfile_MatchWith (p : ImageProfile) (imageRef : string) : bool :=
  let matched := ImageRefList_Match (ip_Match p) imageRef in
  let excluded := if (0 <? length (ip_Exclude p))%nat
                  then ImageRefList_Match (ip_Exclude p) imageRef else false in
  matched && negb excluded.

Lemma ObjectUserBindingList_Match_exists l obj user :
  ObjectUserBindingList_Match l obj user = true ↔
  ∃ u, u ∈ l ∧ ObjectReferenceList_Match (oub_Objects u) obj = true
         ∧ MatchWithPatternArray user (oub_Users u) = true.
Proof.
  unfold ObjectUserBindingList_Match.
  assert (anyb (λ u, ObjectUserBinding_Match u obj user) l = true ↔
    ∃ u, u ∈ l ∧ ObjectReferenceList_Match (oub_Objects u) obj = true
           ∧ MatchWithPatternArray user (oub_Users u) = true) as E.
  { rewrite anyb_exists. unfold ObjectUserBinding_Match.
    split; intros (u & Hu & H); exists u; (split; [done|]); repeat case_match; naive_solver. }
  destruct l as [|u l]; [|exact E]. simpl. split; [done|].
  intros (u & Hu & _). by apply elem_of_nil in Hu.
Qed.

Lemma ImageRefList_Match_exists l r :
  ImageRefList_Match l r = true ↔ l = [] ∨ ∃ p, p ∈ l ∧ MatchPattern p r = true.
Proof.
  unfold ImageRefList_Match. case_bool_decide; [naive_solver|].
  rewrite anyb_exists. naive_solver.
Qed.
End matchers.

(** ** request_handler_config.go *)
Section handler_config.
Context {T : ExtTypes} {L : ExtLib T} {O : OS} {K : Kube} {Y : ShieldYaml T}.

Definition k8sLogLevelEnvKey := "K8S_MANIFEST_SIGSTORE_LOG_LEVEL".
Definition defaultConfigKeyInConfigMap := "config.yaml".
Definition defaultPodNamespace := "integrity-shield-operator-system".
Definition defaultHandlerConfigMapName := "request-handler-config".

Definition logLevelMap : gmap string Level :=
  {[ "panic" := PanicLevel; "fatal" := FatalLevel; "error" := ErrorLevel;
     "warn" := WarnLevel; "info" := InfoLevel; "debug" := DebugLevel;
     "trace" := TraceLevel ]}.

(** The two level strings after the defaulting cascade. *)
Definition logLevels (config : LogConfig) : string * string :=
  let l := lc_Level config in
  let k := ManifestSigstoreLogLevel config in
  let '(l, k) := if bool_decide (l = "") && bool_decide (k = "")
                 then ("info", "info") else (l, k) in
  let l := if bool_decide (l = "") && bool_decide (k ≠ "") then k else l in
  let k := if bool_decide (l ≠ "") && bool_decide (k = "") then l else k in
  (l, k).

Definition SetupLogger (config : LogConfig) : M World unit :=
  let '(logLevelStr, k8sLogLevelStr) := logLevels config in
  _ ← Setenv k8sLogLevelEnvKey k8sLogLevelStr;
  let logLevel := default InfoLevel (logLevelMap !! logLevelStr) in
  modifyW (λ w, set_log logLevel
    (if bool_decide (lc_Format config = "json") then true else w_jsonlog w) w).

(** The loop of [LoadKeySecret]: the first key file that can be written. *)
Fixpoint saveKeyFile (keyDir : string) (l : list (string * string))
    (sumErr : list string) : M World (string * list string) :=
  match l with
  | [] => mret ("", sumErr)
  | (fname, keyData) :: l' =>
      let fpath := JoinPath [keyDir; fname] in
      e ← WriteFile fpath keyData;
      match e with
      | Some err => saveKeyFile keyDir l' (sumErr ++ [Error err])
      | None => mret (fpath, sumErr)
      end
  end.

Definition keyDirOf (ns name : string) : string :=
  "/tmp/" +:+ ns +:+ "/" +:+ name +:+ "/".

Definition LoadKeySecret (keySecretNamespace keySecretName : string)
    : M World (res string) :=
  obj ← asksW (λ w, GetSecret (w_cluster w) keySecretNamespace keySecretName);
  match obj with
  | Bad err => mret (Bad (Wrap err ("failed to get a secret `" +:+ keySecretName
      +:+ "` in `" +:+ keySecretNamespace +:+ "` namespace")))
  | Good secret =>
      order ← RangeMap (sec_Data secret);
      '(keyPath, sumErr) ←
        saveKeyFile (keyDirOf keySecretNamespace keySecretName) order [];
      mret (if bool_decide (keyPath = "") && (0 <? length sumErr)%nat then
              Bad (errNew ("failed to save secret data as a file; "
                           +:+ strings_Join sumErr "; "))
            else if bool_decide (keyPath = "") then
              Bad (errNew ("no key files are found in the secret `" +:+ keySecretName
                +:+ "` in `" +:+ keySecretNamespace +:+ "` namespace"))
            else Good keyPath)
  end.

Definition LoadRequestHandlerConfig
    : M World (option RequestHandlerConfig * option error) :=
  namespace ← env_or "POD_NAMESPACE" defaultPodNamespace;
  configName ← env_or "REQUEST_HANDLER_CONFIG_NAME" defaultHandlerConfigMapName;
  configKey ← env_or "REQUEST_HANDLER_CONFIG_KEY" defaultConfigKeyInConfigMap;
  w ← getW;
  mret (match GetKubeConfig (w_cluster w) with
  | Some _ => (None, None)
  | None =>
    match NewForConfig (w_cluster w) with
    | Some _ => (None, None)
    | None =>
      match rc_get configmaps (w_cluster w) namespace configName with
      | Bad err => (None, Some (Wrap err ("failed to get a configmap `" +:+ configName
          +:+ "` in `" +:+ namespace +:+ "` namespace")))
      | Good cm =>
        match cm_Data cm !! configKey with
        | None => (None, Some (errNew ("`" +:+ configKey
            +:+ "` is not found in configmap")))
        | Some cfgBytes =>
          match yaml_RequestHandlerConfig cfgBytes with
          | (sc, Some err) => (sc, Some (Wrap err
              "failed to unmarshal config.yaml into *config.RequestHandlerConfig"))
          | (sc, None) => (sc, None)
          end
        end
      end
    end
  end).

(** Lemmas on the handler configuration *)

(** The configuration the handler will see in [w]; loading changes nothing. *)
Definition loaded_config (w : World) : option RequestHandlerConfig * option error :=
  match LoadRequestHandlerConfig w with
  | (Ret r, _) => r
  | (Panic _, _) => (None, None)
  end.
Lemma LoadRequestHandlerConfig_run w :
  LoadRequestHandlerConfig w = (Ret (loaded_config w), w).
Proof. reflexivity. Qed.

Lemma SetupLogger_run config w :
  SetupLogger config w =
  (Ret tt, set_log (default InfoLevel (logLevelMap !! (logLevels config).1))
             (if bool_decide (lc_Format config = "json") then true else w_jsonlog w)
             (set_env k8sLogLevelEnvKey (logLevels config).2 w)).
Proof. unfold SetupLogger. by destruct (logLevels config). Qed.

Lemma files_only_set_files f w : files_only w (set_files f w).
Proof. by repeat split. Qed.
Lemma files_only_tick w : files_only w (tick w).
Proof. by repeat split. Qed.

(** What the loop does: it stops at the first file it can write. *)
Lemma saveKeyFile_spec keyDir l errs w :
  keyDir ≠ "" →
  (∃ pre f d post es,
      l = (pre ++ (f, d) :: post)%list ∧ Forall (λ fd, is_Some (fs_write_err (w_files w) (JoinPath [keyDir; fd.1]))) pre
      ∧ fs_write_err (w_files w) (JoinPath [keyDir; f]) = None
      ∧ saveKeyFile keyDir l errs w =
          (Ret (JoinPath [keyDir; f], es),
           set_files (<[JoinPath [keyDir; f] := d]> (w_files w)) w))
  ∨ (∃ es, Forall (λ fd, is_Some (fs_write_err (w_files w) (JoinPath [keyDir; fd.1]))) l
      ∧ length es = (length errs + length l)%nat
      ∧ saveKeyFile keyDir l errs w = (Ret ("", es), w)).
Proof.
  intros Hd. revert errs. induction l as [|[f d] l IH]; intros errs.
  - right. exists errs. simpl. split; [constructor|]. split; [lia|done].
  - simpl. go_unfold. unfold WriteFile.
    destruct (fs_write_err (w_files w) (JoinPath [keyDir; f])) as [e|] eqn:E.
    + destruct (IH (errs ++ [Error e])%list) as [(pre & f' & d' & post & es & -> & HF & HN & ->)|(es & HF & Hl & ->)].
      * left. exists ((f, d) :: pre), f', d', post, es.
        split_and!; try done. constructor; [|done]. simpl. by rewrite E.
      * right. exists es. split; [constructor; [simpl; by rewrite E|done]|].
        split; [|done]. rewrite Hl, length_app. simpl. lia.
    + left. exists [], f, d, l, errs. split_and!; done.
Qed.

(** The complete behaviour of [LoadKeySecret]. *)
Lemma LoadKeySecret_runs ns n w :
  runs (LoadKeySecret ns n) w (λ r w',
    files_only w w' ∧
    match GetSecret (w_cluster w) ns n, r with
    | Good sec, Good path => ∃ f d,
        sec_Data sec !! f = Some d ∧ path = JoinPath [keyDirOf ns n; f]
        ∧ w_files w' = <[path := d]> (w_files w)
    | Good sec, Bad _ =>
        w_files w' = w_files w ∧
        ∀ f d, sec_Data sec !! f = Some d →
          is_Some (fs_write_err (w_files w) (JoinPath [keyDirOf ns n; f]))
    | Bad e, r => w' = w ∧ r = Bad (Wrap e ("failed to get a secret `" +:+ n
                              +:+ "` in `" +:+ ns +:+ "` namespace"))
    end).
Proof.
  unfold LoadKeySecret. apply runs_bind, runs_asksW.
  destruct (GetSecret (w_cluster w) ns n) as [sec|e]; [|by apply runs_ret].
  apply runs_bind, runs_RangeMap. intros l Hl. apply runs_bind.
  destruct (saveKeyFile_spec (keyDirOf ns n) l [] (tick w) ltac:(done))
    as [(pre & f & d & post & es & -> & _ & _ & E)|(es & HF & Hes & E)];
    eexists _, _; (split; [exact E|]); apply runs_ret.
  - rewrite (bool_decide_eq_false_2 (JoinPath _ = "")) by by apply JoinPath_nonempty.
    simpl. split; [by repeat split|]. exists f, d. split_and!; try done.
    apply elem_of_map_to_list. rewrite <-Hl. set_solver.
  - split; [apply files_only_tick|]. rewrite bool_decide_eq_true_2 by done. simpl.
    assert (∀ f d, sec_Data sec !! f = Some d →
      is_Some (fs_write_err (w_files w) (JoinPath [keyDirOf ns n; f]))).
    { intros f d Hf. rewrite Forall_forall in HF.
      apply (HF (f, d)). rewrite Hl. by apply elem_of_map_to_list. }
    by destruct (0 <? length es)%nat.
Qed.
End handler_config.
#[export] Hint Resolve files_only_set_files files_only_tick : shield.

(** ** Theorems *)
Section theorems.
Context {T : ExtTypes} {L : ExtLib T} {O : OS} {K : Kube} {Y : ShieldYaml T}.

(** [LoadKeySecret] returns a path only after it has written to it one of the
    keys of that secret; when the secret exists and no path is returned, every key
    file was refused by the file system (in particular for a secret without keys)
    and no file changed.  Neither the cluster nor the environment changes. *)
Theorem LoadKeySecret_correct ns n w sec :
  GetSecret (w_cluster w) ns n = Good sec →
  runs (LoadKeySecret ns n) w (λ r w', files_only w w' ∧
    match r with
    | Good path => ∃ f d, sec_Data sec !! f = Some d
        ∧ path = JoinPath [keyDirOf ns n; f] ∧ w_files w' !! path = Some d
        ∧ ∀ p, p ≠ path → w_files w' !! p = w_files w !! p
    | Bad _ => w_files w' = w_files w ∧
        ∀ f, is_Some (sec_Data sec !! f) →
          is_Some (fs_write_err (w_files w) (JoinPath [keyDirOf ns n; f]))
    end).
Proof.
  intros Hs. run_with LoadKeySecret_runs. rewrite Hs. intros [p|e] w' [Hf H]; split; auto.
  - destruct H as (f & d & Hd & -> & ->). exists f, d. split_and!; try done.
    + apply lookup_insert_eq.
    + intros p Hp. by apply lookup_insert_ne.
  - destruct H as [-> H]. split; [done|]. intros f [d Hd]. eauto.
Qed.

(** An image matches a profile exactly when the match list is empty or has a
    pattern for it, and no pattern of the exclude list matches it. *)
Theorem ImageProfile_MatchWith_spec p r :
  ImageProfile_MatchWith p r = true ↔
  (ip_Match p = [] ∨ ∃ m, m ∈ ip_Match p ∧ MatchPattern m r = true)
  ∧ ∀ x, x ∈ ip_Exclude p → MatchPattern x r = false.
Proof.
  unfold ImageProfile_MatchWith. rewrite andb_true_iff, negb_true_iff.
  rewrite ImageRefList_Match_exists.
  assert ((if (0 <? length (ip_Exclude p))%nat
           then ImageRefList_Match (ip_Exclude p) r else false) = false ↔
          ∀ x, x ∈ ip_Exclude p → MatchPattern x r = false) as ->; [|done].
  unfold ImageRefList_Match. destruct (ip_Exclude p) as [|x l] eqn:E; simpl.
  - split; [|done]. intros _ x Hx. by apply elem_of_nil in Hx.
  - apply (anyb_false (λ m, ImageRef_Match m r) (x :: l)).
Qed.

(** A user filter list matches a request exactly when one of its bindings
    covers both the object and the user; the empty list matches nobody. *)
Theorem ObjectUserBindingList_Match_spec l obj user :
  ObjectUserBindingList_Match l obj user = true ↔
  Exists (λ u, ObjectReferenceList_Match (oub_Objects u) obj = true
               ∧ MatchWithPatternArray user (oub_Users u) = true) l.
Proof. rewrite ObjectUserBindingList_Match_exists, Exists_exists. done. Qed.

(** After [SetupLogger] the library's log level variable is set and never
    empty; an unset level takes the other one and ["info"] when both are unset;
    an unknown level string means InfoLevel; the JSON format is never unset. *)
Theorem SetupLogger_spec lc w :
  runs (SetupLogger lc) w (λ _ w',
    getenv w' k8sLogLevelEnvKey ≠ "" ∧
    getenv w' k8sLogLevelEnvKey =
      (if bool_decide (ManifestSigstoreLogLevel lc = "") then
         if bool_decide (lc_Level lc = "") then "info" else lc_Level lc
       else ManifestSigstoreLogLevel lc) ∧
    w_level w' = default InfoLevel (logLevelMap !!
      (if bool_decide (lc_Level lc = "") then
         if bool_decide (ManifestSigstoreLogLevel lc = "") then "info"
         else ManifestSigstoreLogLevel lc
       else lc_Level lc)) ∧
    (w_jsonlog w = true → w_jsonlog w' = true) ∧
    w_cluster w' = w_cluster w ∧ w_files w' = w_files w).
Proof.
  eexists _, _. split; [apply SetupLogger_run|]. simpl.
  change (getenv (set_log ?l ?j (set_env ?k ?v w)) k8sLogLevelEnvKey)
    with (getenv (set_env k v w) k8sLogLevelEnvKey).
  rewrite getenv_set_env_eq. unfold logLevels.
  destruct (bool_decide_reflect (lc_Level lc = "")) as [El|El];
    destruct (bool_decide_reflect (ManifestSigstoreLogLevel lc = "")) as [Em|Em]; simpl;
    rewrite ?El, ?Em; repeat (case_bool_decide; simplify_eq/=; try done).
Qed.
End theorems.
