(* ===== verification/Demo.v ===== *)
(** * A concrete instance of every interface

    Small executable functions for the libraries, the operating system and the
    Kubernetes API, so that the theorems about the handlers can be evaluated on
    concrete requests.  An object is the text ["kind/namespace/name/k=v;k=v"];
    the cluster is an in-memory store. *)
From S2P Require Import Prelude GoStrings World ShieldConfig.
From stdpp Require Import base gmap strings list.
From Stdlib Require Import ZArith Lia.

Local Open Scope string_scope.

Module Demo.

Record obj := mkObj {
  o_kind : string; o_ns : string; o_name : string; o_fields : gmap string string }.

#[export] Instance types : ExtTypes := {
  Unstructured := obj;
  ObjectReference := string * string;            (* kind, name; empty: any *)
  OptionRest := list string;                     (* signers *)
  ResultRest := unit;
  DiffResult := list string;
  Node := gmap string string;
  NodeMap := gmap string string;
  LabelSelector := gmap string string;
  Selector := gmap string string;
}.

Definition pattern (p v : string) : bool :=
  if HasSuffix p "*" then HasPrefix v (TrimRight p "*") else bool_decide (p = v).

Definition refMatch (r : string * string) (o : obj) : bool :=
  (bool_decide (r.1 = "") || pattern r.1 (o_kind o)) &&
  (bool_decide (r.2 = "") || pattern r.2 (o_name o)).
Definition refListMatch (l : list (string * string)) (o : obj) : bool :=
  match l with [] => true | _ => anyb (λ r, refMatch r o) l end.

Definition fields (s : string) : gmap string string :=
  list_to_map (omap (λ kv, match Split kv "=" with
                           | [k; v] => Some (k, v) | _ => None end) (Split s ";")).
Definition decode (s : string) : option obj :=
  match Split s "/" with
  | [k; ns; n; b] => Some (mkObj k ns n (fields b))
  | _ => None
  end.

Definition diffKeys (a b : gmap string string) : list string :=
  filter (λ k, a !! k ≠ b !! k) (elements (dom a ∪ dom b)).

Definition selMatches (s ls : gmap string string) : bool :=
  bool_decide (map_Forall (λ k v, ls !! k = Some v) s).

#[export] Instance lib : ExtLib types := {
  MatchPattern := pattern;
  MatchSinglePattern := pattern;
  MatchWithPatternArray v ps := anyb (λ p, pattern p v) ps;
  ObjectReference_Match := refMatch;
  ObjectReferenceList_Match := refListMatch;
  ObjectFieldBindingList_Match l o :=
    let ms := filter (λ b, refListMatch (ofb_Objects b) o = true) l in
    (bool_decide (ms ≠ []), mjoin (ofb_Fields <$> ms));
  json_Unstructured s := match decode s with
    | Some o => Good o | None => Bad (errNew "invalid object") end;
  yaml_Marshal o := Good (o_kind o +:+ ":" +:+ o_name o);
  GetAnnotations := o_fields;
  GetLabels := o_fields;
  GetNamespace := o_ns;
  GetName := o_name;
  GetGVK o := mkGVK "" "v1" (o_kind o);
  NewFromBytes s := match decode s with
    | Some o => (Some (o_fields o), None)
    | None => (None, Some (errNew "invalid object")) end;
  NewFromMap := Some;
  Node_Mask n ks := foldr delete n ks;
  Node_ToMap n := n;
  Node_Diff a b := match a, b with
    | Some a, Some b => Some (diffKeys a b) | _, _ => None end;
  Diff_Size := length;
  Diff_String d := strings_Join d ",";
  Diff_Filter d ks := filter (λ k, k ∉ ks) d;
  LabelSelectorAsSelector s := Good s;
  Selector_Matches := selMatches;
  GV_String g v := if bool_decide (g = "") then v else g +:+ "/" +:+ v;
  Wrap e m := mkError (e_reason e) (m +:+ ": " +:+ Error e);
}.

#[export] Instance os : OS := {
  clock n := Z.of_nat n;
  FormatTime _ _ _ := "2021-11-18 00:00:00";
  fs_write_err fs p := if HasPrefix p "/tmp/" then None else Some (errNew "read-only");
  fs_tempdir fs p :=
    match filter (λ d, bool_decide (map_Forall (λ q _, HasPrefix q (d +:+ "/") = false) fs))
            (String.append ("/tmp/" +:+ p) <$> ["0"; "1"; "2"; "3"]) with
    | d :: _ => Good d
    | [] => Bad (errNew "too many temporary directories")
    end;
  range_order _ m := exist _ (map_to_list m) (Permutation_refl _);
}.

(** ** The in-memory cluster; [X] is the part other components add *)

Record MemCluster (X : Type) := mkMem {
  mc_online : bool;
  mc_configmaps : gmap (string * string) ConfigMap;
  mc_events : gmap (string * string) Event;
  mc_secrets : gmap (string * string) Secret;
  mc_namespaces : gmap string NamespaceObj;
  mc_ext : X }.
Arguments mkMem {X}.
Arguments mc_online {X}.
Arguments mc_configmaps {X}.
Arguments mc_events {X}.
Arguments mc_secrets {X}.
Arguments mc_namespaces {X}.
Arguments mc_ext {X}.

Definition notFound (n : string) : error := mkError NotFound (n +:+ " not found").
Definition alreadyExists (n : string) : error :=
  mkError AlreadyExists (n +:+ " already exists").

(** A lawful client from a getter and a setter of the store's map. *)
Definition storeGet {A} (name : A → string) (m : gmap (string * string) A)
    (ns n : string) : res A :=
  match m !! (ns, n) with
  | Some x => if bool_decide (name x = n) then Good x else Bad (notFound n)
  | None => Bad (notFound n)
  end.
Definition storeClient {C A} (name : A → string)
    (getm : C → gmap (string * string) A) (setm : gmap (string * string) A → C → C)
    : ResClient C A :=
  mkClient
    (λ c ns n, storeGet name (getm c) ns n)
    (λ c ns x, match storeGet name (getm c) ns (name x) with
               | Good _ => (Some (alreadyExists (name x)), c)
               | Bad _ => (None, setm (<[(ns, name x) := x]> (getm c)) c) end)
    (λ c ns x, match storeGet name (getm c) ns (name x) with
               | Bad _ => (Some (notFound (name x)), c)
               | Good _ => (None, setm (<[(ns, name x) := x]> (getm c)) c) end).

Lemma storeClient_laws {C A} (name : A → string) getm setm :
  (∀ m (c : C), getm (setm m c) = m) →
  ResClientLaws name (storeClient (A := A) name getm setm).
Proof.
  intros Hgs.
  split; simpl.
  1: { intros c ns n x. unfold storeGet. destruct (getm c !! (ns, n)); [|done].
       case_bool_decide; congruence. }
  all: intros c ns x; intros;
    destruct (storeGet name (getm c) ns (name x)) eqn:E; simplify_eq; try done;
    rewrite ?Hgs; unfold storeGet; rewrite ?lookup_insert_eq, ?lookup_insert_ne by congruence;
    rewrite ?bool_decide_eq_true_2 by done; done.
Qed.

Section mem.
Context {X : Type}.
Definition set_configmaps m (c : MemCluster X) := mkMem (mc_online c) m
  (mc_events c) (mc_secrets c) (mc_namespaces c) (mc_ext c).
Definition set_events m (c : MemCluster X) := mkMem (mc_online c)
  (mc_configmaps c) m (mc_secrets c) (mc_namespaces c) (mc_ext c).
Definition set_ext (x : X) (c : MemCluster X) := mkMem (mc_online c)
  (mc_configmaps c) (mc_events c) (mc_secrets c) (mc_namespaces c) x.

Definition offline : error := errNew "connection refused".

#[export] Instance kube : Kube := {
  Cluster := MemCluster X;
  GetKubeConfig c := if mc_online c then None else Some offline;
  NewForConfig c := None;
  configmaps := storeClient cm_Name mc_configmaps set_configmaps;
  events := storeClient ev_Name mc_events set_events;
  GetSecret c ns n := match mc_secrets c !! (ns, n) with
    | Some s => Good s | None => Bad (notFound n) end;
  Namespaces_Get c n := match mc_namespaces c !! n with
    | Some s => Good s | None => Bad (notFound n) end;
  Namespaces_List c := Good (map_to_list (mc_namespaces c)).*2;
}.

#[export] Instance events_laws : ResClientLaws ev_Name (events (Kube := kube)).
Proof. by apply storeClient_laws. Qed.
#[export] Instance configmaps_laws : ResClientLaws cm_Name (configmaps (Kube := kube)).
Proof. by apply storeClient_laws. Qed.

(** A resource is verified when its ["sig"] field names a configured signer. *)
#[export] Instance sigstore : Sigstore types kube := {
  VerifyResource env fs c o vo :=
    if refListMatch (vo_SkipObjects vo) o && bool_decide (vo_SkipObjects vo ≠ []) then
      Good (mkVR (T := types) false false "" None "" None tt)
    else match o_fields o !! "sig" with
    | Some s => if bool_decide (s = "broken") then Bad (errNew "malformed signature")
                else Good (mkVR (T := types) (bool_decide (s ∈ vo_rest vo)) true s None "" None tt)
    | None => Good (mkVR (T := types) false true "" None "" None tt)
    end;
  VerifyManifest env fs key path :=
    match fs !! path with
    | None => Some (errNew "no such file")
    | Some y => if Contains y "evil" then Some (errNew "no matching signatures")
                else None
    end;
}.
End mem.

(** The configuration text ["name"] of the store stands for a config of this table. *)
#[export] Instance yaml : ShieldYaml types := {
  yaml_RequestHandlerConfig s :=
    if bool_decide (s = "") then (None, None)
    else if bool_decide (s = "bad") then (None, Some (errNew "yaml: line 1"))
    else (Some (mkRHC [] "rekor.local"
      (mkFilterProfile [("Secret", "boot-*")]
        [mkOUB [("", "")] ["system:*"]] [mkOFB ["meta"] [("", "")]])
      (mkLogConfig "debug" "" "json") (bool_decide (s = "events"))
      (mkAction true (bool_decide (s ≠ "inform"))) []), None) }.

Definition vo0 : VerifyResourceOption := mkVO "" "" "" "" "" "" false [] [] ["alice"].
Definition param0 : ParameterObject :=
  mkParam "c0" (mkSignatureRef "" (mkResourceRef "" "") (mkResourceRef "" "")) []
    [("ConfigMap", "")] [mkOUB [("", "")] ["admin"]] [] (mkImageProfile [] [] []) vo0 None.

Definition cm_of (data : string) : ConfigMap :=
  mkConfigMap "request-handler-config" {[ "config.yaml" := data ]}.
Definition cluster_with (data : string) : MemCluster unit :=
  mkMem true {[ ("integrity-shield-operator-system", "request-handler-config") := cm_of data ]}
    ∅ {[ ("ns1", "key1") := mkSecret {[ "key.pub" := "KEY" ]} ]} ∅ tt.
Definition world_with (data : string) : World (K := kube (X := unit)) :=
  mkWorld (K := kube (X := unit)) ∅ InfoLevel false ∅ 0 (cluster_with data).

Definition req0 (op user old new : string) : Request :=
  mkRequest "ns1" "cm1" (mkGVK "" "v1" "ConfigMap") op user new old.

(** The theorem on key secrets at the key secret of [cluster_with]. *)
Lemma LoadKeySecret_correct_witness :
  runs (LoadKeySecret "ns1" "key1") (world_with "x") (λ r _, ∃ p, r = Good p).
Proof.
  eapply runs_mono.
  - apply (LoadKeySecret_correct "ns1" "key1" (world_with "x") (mkSecret {[ "key.pub" := "KEY" ]})).
    vm_compute. reflexivity.
  - intros [p|e] w' [_ H]; [by exists p|]. exfalso. destruct H as [_ H].
    destruct (H "key.pub" ltac:(by eexists; vm_compute)) as [e' He].
    vm_compute in He. discriminate.
Defined.

End Demo.
