(* ===== verification/ImageCheck.v ===== *)
(** * shield/pkg/shield/image.go: the earlier image check

    Which images of an admitted workload need a signature check, and the decision
    once they are verified.  The packages [common], [kubeutil] and [logger] and
    the type [DecisionResult] that the file uses are not in the repository: the
    codes are the parameters of [DecisionCodes], [ResourceContext] and
    [DecisionResult] carry the fields the file reads and sets.  The decoders of
    the Kubernetes workload types are the parameters of [WorkloadJson]. *)
From S2P Require Import Prelude GoStrings World Demo.
From stdpp Require Import base gmap strings list.
From Stdlib Require Import Ascii ZArith Lia.

Local Open Scope string_scope.

(** ** Data *)

(** [common.ResourceContext] *)
Record ResourceContext := mkResc {
  rs_Kind : string; rs_ApiGroup : string; rs_ApiVersion : string;
  rs_Namespace : string; rs_RawObject : string }.

Record ImageCheckProfile := mkImageCheckProfile {
  icp_Key : string;
  icp_KeyNamespace : string;
  icp_CommonName : string;
  icp_Image : string;
  icp_CosignExperimental : bool }.
Record ImageVerifyResult := mkImageVerifyResult {
  ivr_Error : option error;
  ivr_Allowed : bool;
  ivr_Reason : string;
  ivr_Digest : string;
  ivr_CommonNames : list string }.
Record ImageToVerify := mkImageToVerify {
  itv_Image : string;
  itv_Profile : ImageCheckProfile;
  itv_Result : ImageVerifyResult;
  itv_ProfileCheckResult : bool }.
Record SigCheckImages := mkSigCheckImages { ImagesToVerify : list ImageToVerify }.

(** The zero values of the structs. *)
Definition zeroProfile := mkImageCheckProfile "" "" "" "" false.
Definition zeroResult := mkImageVerifyResult None false "" "" [].

(** [common.Decision*] and [common.REASON_*] *)
Class DecisionCodes := {
  DecisionType : Type;
  DecisionError : DecisionType;
  DecisionDeny : DecisionType;
  DecisionAllow : DecisionType;
  ReasonCodeT : Type;
  REASON_ERROR : ReasonCodeT;
  REASON_INVALID_SIG_IMAGE : ReasonCodeT;
  REASON_NO_MATCH_IMAGE_PROFILE : ReasonCodeT;
  REASON_VALID_SIG_IMAGE : ReasonCodeT }.
(** The three decisions are different constants. *)
Class DecisionCodesLaws (D : DecisionCodes) : Prop := {
  allow_not_deny : DecisionAllow ≠ DecisionDeny;
  allow_not_error : DecisionAllow ≠ DecisionError }.
Record DecisionResult {D : DecisionCodes} := mkDecisionResult {
  dr_Type : DecisionType;
  dr_Verified : bool;
  dr_ReasonCode : ReasonCodeT;
  dr_Message : string }.
Arguments mkDecisionResult {_}.

(** The parts of the workload types on the way to the containers. *)
Record Container := mkContainer { ct_Image : string }.
Record PodSpec := mkPodSpec { Containers : list Container }.
Record Pod := mkPod { pod_Spec : PodSpec }.
Record Workload := mkWorkload { wl_Template_Spec : PodSpec }.   (* Spec.Template.Spec *)
Record CronJob := mkCronJob { cj_JobTemplate : Workload }.      (* Spec.JobTemplate *)

(** The Go types with a [Spec.Template.Spec] that the file decodes. *)
Inductive WorkloadType :=
| appsv1_Deployment | appsv1beta1_Deployment | appsv1beta2_Deployment
| extensionsv1beta1_Deployment
| appsv1_ReplicaSet | extensionsv1beta1_ReplicaSet | appsv1beta2_ReplicaSet
| appsv1_DaemonSet | appsv1beta2_DaemonSet | extensionsv1beta1_DaemonSet
| appsv1_StatefulSet | appsv1beta2_StatefulSet | appsv1beta1_StatefulSet
| batchv1_Job.

(** [json.Unmarshal] at these types *)
Class WorkloadJson := {
  json_Pod : string → res Pod;
  json_Workload : WorkloadType → string → res Workload;
  json_CronJob : string → res CronJob }.

(** ** Operations *)

Definition contains (s : list string) (e : string) : bool := containsb s e.

Definition isMatchImage (pattern value : string) : bool :=
  let pattern := TrimSpace pattern in
  if bool_decide (pattern = "") then true
  else if bool_decide (pattern = "*") then true
  else if bool_decide (pattern = "-") && bool_decide (value = "") then true
  else if HasSuffix pattern "*" then HasPrefix value (TrimRight pattern "*")
  else if bool_decide (pattern = value) then true
  else false.

Definition filterByKind (resource : string) : bool :=
  if bool_decide (resource = "Pod") || bool_decide (resource = "Deployment")
     || bool_decide (resource = "Replicaset") || bool_decide (resource = "Daemonset")
     || bool_decide (resource = "Statefulset") || bool_decide (resource = "Job")
     || bool_decide (resource = "Cronjob")
  then true else false.

Fixpoint getImages (containers : list Container) : list string :=
  match containers with
  | [] => []
  | c :: cs => ct_Image c :: getImages cs
  end.

Section podspec.
Context {J : WorkloadJson}.

(** [x := T{}; if err := json.Unmarshal(rawObj, &x) ...; ps = x.Spec.Template.Spec] *)
Definition workloadSpec (t : WorkloadType) (rawObj : string) : res PodSpec :=
  match json_Workload t rawObj with
  | Bad err => Bad err
  | Good x => Good (wl_Template_Spec x)
  end.

Definition getPodSpec (rawObj group version kind : string) : res PodSpec :=
  let gvk k v g := bool_decide (kind = k) && bool_decide (version = v)
                  && bool_decide (group = g) in
  if bool_decide (kind = "Pod") && bool_decide (version = "v1") then
    match json_Pod rawObj with
    | Bad err => Bad err
    | Good pod => Good (pod_Spec pod)
    end
  else if gvk "Deployment" "v1" "apps" then workloadSpec appsv1_Deployment rawObj
  else if gvk "Deployment" "v1beta1" "apps" then workloadSpec appsv1beta1_Deployment rawObj
  else if gvk "Deployment" "v1beta2" "apps" then workloadSpec appsv1beta2_Deployment rawObj
  else if gvk "Deployment" "v1beta1" "extensions" then
    workloadSpec extensionsv1beta1_Deployment rawObj
  else if gvk "Replicaset" "v1" "apps" then workloadSpec appsv1_ReplicaSet rawObj
  else if gvk "Replicaset" "v1beta1" "extensions" then
    workloadSpec extensionsv1beta1_ReplicaSet rawObj
  else if gvk "Replicaset" "v1beta2" "apps" then workloadSpec appsv1beta2_ReplicaSet rawObj
  else if gvk "DaemonSet" "v1" "apps" then workloadSpec appsv1_DaemonSet rawObj
  else if gvk "DaemonSet" "v1beta2" "apps" then workloadSpec appsv1beta2_DaemonSet rawObj
  else if gvk "DaemonSet" "v1beta1" "extensions" then
    workloadSpec extensionsv1beta1_DaemonSet rawObj
  else if gvk "StatefulSet" "v1" "apps" then workloadSpec appsv1_StatefulSet rawObj
  else if gvk "StatefulSet" "v1beta2" "apps" then workloadSpec appsv1beta2_StatefulSet rawObj
  else if gvk "StatefulSet" "v1beta1" "apps" then workloadSpec appsv1beta1_StatefulSet rawObj
  else if gvk "Job" "v1" "batch" then workloadSpec batchv1_Job rawObj
  else if gvk "CronJob" "v1beta1" "batch" then
    match json_CronJob rawObj with
    | Bad err => Bad err
    | Good cronjob => Good (wl_Template_Spec (cj_JobTemplate cronjob))
    end
  else Good (mkPodSpec []).
End podspec.

Section profile.
Context {K : Kube}.

(** The fields of the config map, in the order of the source. *)
Definition profileOfData (data : gmap string string) : ImageCheckProfile :=
  mkImageCheckProfile (default "" (data !! "keySecret"))
    (default "" (data !! "keySecretNamespace"))
    (default "" (data !! "commonName"))
    (default "" (data !! "image"))
    (match data !! "transparencyLog" with
     | Some transparencyLog => ParseBool_value transparencyLog
     | None => false
     end).

(** The errors of [GetKubeConfig] and [NewForConfig] are dropped: both leave a nil
    pointer that the next call dereferences. *)
Definition getConfigmapProfile (namespace profileName : string)
    : M World (res ImageCheckProfile) :=
  w ← getW;
  match GetKubeConfig (w_cluster w), NewForConfig (w_cluster w) with
  | None, None =>
      match rc_get configmaps (w_cluster w) namespace profileName with
      | Bad err => mret (Bad err)
      | Good cm =>
          match cm_Data cm !! "image" with
          | Some _ => mret (Good (profileOfData (cm_Data cm)))
          | None => mret (Bad (errNew
              ("no image is defined in image profile configmap%!(EXTRA string="
               +:+ namespace +:+ ")")))
          end
      end
  | _, _ => panic nil_dereference
  end.

Definition newImageToVerify (ip : ImageCheckProfile) (img : string) : ImageToVerify :=
  mkImageToVerify img
    (mkImageCheckProfile "" "" (icp_CommonName ip) (icp_Image ip)
       (icp_CosignExperimental ip))
    zeroResult false.

Fixpoint profileImages (ip : ImageCheckProfile) (images : list string)
    (imagesToVerify : list ImageToVerify) : list ImageToVerify :=
  match images with
  | [] => imagesToVerify
  | img :: images' =>
      profileImages ip images'
        (if isMatchImage (icp_Image ip) img
         then imagesToVerify ++ [newImageToVerify ip img] else imagesToVerify)
  end%list.

Definition getImageProfile (namespace : string) (images : list string)
    : M World (list ImageToVerify * string) :=
  r ← getConfigmapProfile namespace "image-profile-cm";
  match r with
  | Bad _ => mret ([], "fail to load image profile")
  | Good ip =>
      let imagesToVerify := profileImages ip images [] in
      if (length imagesToVerify =? 0)%nat then mret (imagesToVerify, "No matching profile")
      else mret (imagesToVerify, "")
  end.

Definition requestCheckForImageCheck `{WorkloadJson} (resc : ResourceContext)
    : M World (bool * option SigCheckImages * string) :=
  if negb (filterByKind (rs_Kind resc)) then mret (false, None, "no image referenced")
  else
    match getPodSpec (rs_RawObject resc) (rs_ApiGroup resc) (rs_ApiVersion resc)
            (rs_Kind resc) with
    | Bad _ => mret (false, None, "no image referenced: fail to get podspec")
    | Good podspec =>
        let images := getImages (Containers podspec) in
        '(imagesToVerify, msg) ← getImageProfile (rs_Namespace resc) images;
        if (length imagesToVerify =? 0)%nat then mret (false, None, msg)
        else mret (true, Some (mkSigCheckImages imagesToVerify), "")
    end.
End profile.

Definition set_ProfileCheckResult (img : ImageToVerify) : ImageToVerify :=
  mkImageToVerify (itv_Image img) (itv_Profile img) (itv_Result img) true.

(** [for i, img := range sci.ImagesToVerify]: [n] rounds are left, the slice is
    updated in place. *)
Fixpoint checkFrom (n i : nat) (l : list ImageToVerify) : list ImageToVerify :=
  match n with
  | O => l
  | S n' =>
      match l !! i with
      | None => l
      | Some img =>
          checkFrom n' (S i)
            (if contains (ivr_CommonNames (itv_Result img)) (icp_CommonName (itv_Profile img))
             then <[i := set_ProfileCheckResult img]> l else l)
      end
  end.
Definition imageVerifiedResultCheckByProfile (sci : SigCheckImages) : SigCheckImages :=
  mkSigCheckImages (checkFrom (length (ImagesToVerify sci)) 0 (ImagesToVerify sci)).

Section decision.
Context {D : DecisionCodes}.

(** The loop of [makeImageCheckResult]: the early return, if there is one. *)
Fixpoint firstRefusal (l : list ImageToVerify) : option DecisionResult :=
  match l with
  | [] => None
  | img :: l' =>
      match ivr_Error (itv_Result img) with
      | Some e => Some (mkDecisionResult DecisionError true REASON_ERROR (Error e))
      | None =>
          if negb (ivr_Allowed (itv_Result img)) then
            Some (mkDecisionResult DecisionDeny true REASON_INVALID_SIG_IMAGE
                    (ivr_Reason (itv_Result img)))
          else if negb (itv_ProfileCheckResult img) then
            Some (mkDecisionResult DecisionDeny true REASON_NO_MATCH_IMAGE_PROFILE
                    ("no image profile matches with this commonName:"
                     +:+ strings_Join (ivr_CommonNames (itv_Result img)) ","))
          else firstRefusal l'
      end
  end.

Definition makeImageCheckResult (images : SigCheckImages) : outcome DecisionResult :=
  match firstRefusal (ImagesToVerify images) with
  | Some res => Ret res
  | None =>
      match ImagesToVerify images with
      | [] => Panic "index out of range [0] with length 0"
      | img :: _ =>
          Ret (mkDecisionResult DecisionAllow true REASON_VALID_SIG_IMAGE
            ("this image is signed by a valid signer; image digest: "
             +:+ ivr_Digest (itv_Result img) +:+ ", signer: "
             +:+ icp_CommonName (itv_Profile img)))
      end
  end.
End decision.

(** ** Reference definitions *)

(** A wildcard matcher: ["*"] stands for any text, every other byte for itself. *)
Fixpoint any_suffix (f : string → bool) (v : string) : bool :=
  f v || match v with EmptyString => false | String _ v' => any_suffix f v' end.
Fixpoint glob (p : string) : string → bool :=
  match p with
  | EmptyString => λ v, bool_decide (v = "")
  | String c p' =>
      if bool_decide (c = "*"%char) then any_suffix (glob p')
      else λ v, match v with
                | EmptyString => false
                | String d v' => bool_decide (c = d) && glob p' v'
                end
  end.

(** The in-place loop as a map over the images. *)
Definition checkOne (img : ImageToVerify) : ImageToVerify :=
  if contains (ivr_CommonNames (itv_Result img)) (icp_CommonName (itv_Profile img))
  then set_ProfileCheckResult img else img.

(** An image whose verification result backs an "allow". *)
Definition image_ok (img : ImageToVerify) : Prop :=
  ivr_Error (itv_Result img) = None ∧ ivr_Allowed (itv_Result img) = true ∧
  itv_ProfileCheckResult img = true.

(** ** Patterns *)

#[local] Arguments String.append !_ _ / : simpl nomatch.

Definition stars (r : string) : bool := forallb_string (in_cutset "*") r.

Lemma in_star c : in_cutset "*" c = bool_decide (c = "*"%char).
Proof.
  unfold in_cutset. simpl. case_bool_decide as E.
  - subst. done.
  - by rewrite (proj2 (Ascii.eqb_neq c "*")).
Qed.
Lemma any_suffix_true f v : f "" = true → any_suffix f v = true.
Proof.
  intros Hf. induction v as [|c v IH]; simpl; [by rewrite Hf|]. by rewrite IH, orb_true_r.
Qed.
Lemma glob_stars_nil r : stars r = true → glob r "" = true.
Proof.
  unfold stars. induction r as [|c r IH]; simpl; [done|].
  rewrite in_star, andb_true_iff. intros [Hc Hr]. rewrite Hc. simpl. by rewrite IH.
Qed.
Lemma glob_stars c r v : stars (String c r) = true → glob (String c r) v = true.
Proof.
  unfold stars. simpl. rewrite in_star, andb_true_iff. intros [-> Hr].
  by apply any_suffix_true, glob_stars_nil.
Qed.
Lemma glob_literal s r v :
  Contains s "*" = false →
  glob (s +:+ r) v =
  match r with
  | EmptyString => bool_decide (s = v)
  | _ => if HasPrefix v s then glob r (String.substring (len s) (len v - len s) v) else false
  end.
Proof.
  revert v. induction s as [|c s IH]; intros v Hs.
  - simpl. rewrite Nat.sub_0_r, substring_0_len. unfold HasPrefix. destruct r; simpl.
    + by apply bool_decide_ext.
    + by destruct v.
  - apply Contains_char_cons in Hs as [Hc Hs]. simpl.
    rewrite bool_decide_eq_false_2 by done. unfold HasPrefix.
    destruct v as [|d v].
    { destruct r; [by rewrite bool_decide_eq_false_2|done]. }
    rewrite (IH v Hs). simpl. unfold HasPrefix. destruct (ascii_dec c d) as [->|Hne].
    + rewrite bool_decide_eq_true_2 by done. simpl. destruct r; [|done].
      apply bool_decide_ext. naive_solver.
    + rewrite bool_decide_eq_false_2 by done. simpl. destruct r; [|done].
      rewrite bool_decide_eq_false_2 by naive_solver. done.
Qed.

Lemma stars_snoc c r : stars (String c r) = true → ∃ u, String c r = u +:+ "*".
Proof.
  unfold stars. revert c. induction r as [|d r IH]; intros c; simpl; rewrite in_star.
  - rewrite andb_true_r. intros ->%bool_decide_eq_true. by exists "".
  - rewrite andb_true_iff. intros [_ [u Hu]%IH]. exists (String c u). simpl. by rewrite Hu.
Qed.

(** A pattern with trailing stars only is a prefix match. *)
Lemma glob_trailing p v :
  Contains (TrimRight p "*") "*" = false →
  glob p v = if HasSuffix p "*" then HasPrefix v (TrimRight p "*") else bool_decide (p = v).
Proof.
  intros Hs. destruct (TrimRight_spec p "*") as (r & Hp & Hr & _).
  rewrite Hp at 1. rewrite glob_literal by done. destruct r as [|c r].
  - rewrite sapp_nil_r in Hp. rewrite <-Hp in *. destruct (HasSuffix p "*") eqn:E; [|done].
    apply HasSuffix_spec in E as [u ->].
    by rewrite (Contains_char_app "*"%char u "") in Hs.
  - rewrite glob_stars by done. destruct (stars_snoc c r Hr) as [u Hu].
    assert (HasSuffix p "*" = true) as ->.
    { apply HasSuffix_spec. exists (TrimRight p "*" +:+ u). by rewrite <-sapp_assoc, <-Hu. }
    by destruct (HasPrefix v (TrimRight p "*")).
Qed.

(** [isMatchImage] agrees with the wildcard matcher [glob] on every pattern
    whose stars are all at the end, except that a blank pattern matches every image
    and ["-"] also matches the empty one: leading and trailing space of the pattern
    is ignored. *)
Theorem isMatchImage_glob pattern value :
  let p := TrimSpace pattern in
  Contains (TrimRight p "*") "*" = false →
  isMatchImage pattern value =
  bool_decide (p = "") || (bool_decide (p = "-") && bool_decide (value = ""))
  || glob p value.
Proof.
  intros p Hp. unfold isMatchImage. fold p. rewrite (glob_trailing p value Hp).
  case_bool_decide; [done|]. simpl. case_bool_decide as E.
  - rewrite E. change (HasSuffix "*" "*") with true. change (TrimRight "*" "*") with "".
    by destruct value.
  - destruct (_ && _); [done|]. simpl. by destruct (HasSuffix p "*"), (bool_decide (p = value)).
Qed.

Lemma isMatchImage_glob_witness :
  isMatchImage " registry.io/app* " "registry.io/app:1.0" =
  glob "registry.io/app*" "registry.io/app:1.0"
  ∧ isMatchImage " registry.io/app* " "other.io/app" = glob "registry.io/app*" "other.io/app".
Proof.
  split.
  - exact (isMatchImage_glob " registry.io/app* " "registry.io/app:1.0" eq_refl).
  - exact (isMatchImage_glob " registry.io/app* " "other.io/app" eq_refl).
Defined.

(** A star that is not at the end is an ordinary byte. *)
Example isMatchImage_inner_star :
  isMatchImage "registry.io/*/app" "registry.io/team/app" = false
  ∧ glob "registry.io/*/app" "registry.io/team/app" = true.
Proof. split; vm_compute; reflexivity. Qed.

(** ** The decision *)

Lemma checkFrom_spec n i l :
  (length l ≤ i + n)%nat →
  checkFrom n i l = (take i l ++ (checkOne <$> drop i l))%list.
Proof.
  revert i l. induction n as [|n IH]; intros i l Hn; simpl.
  - rewrite take_ge, drop_ge by lia. simpl. by rewrite app_nil_r.
  - destruct (l !! i) as [img|] eqn:E.
    2: { apply lookup_ge_None in E. rewrite take_ge, drop_ge by lia. simpl.
         by rewrite app_nil_r. }
    rewrite (drop_S l img i E), fmap_cons.
    assert ((take i l ++ checkOne img :: (checkOne <$> drop (S i) l))%list =
      ((take i l ++ [checkOne img]) ++ (checkOne <$> drop (S i) l))%list) as ->
      by by rewrite <-app_assoc.
    unfold checkOne at 1. destruct (contains _ _) eqn:Ec.
    + rewrite IH by (rewrite length_insert; lia).
      rewrite drop_insert_lt by lia.
      rewrite (take_S_r _ _ (set_ProfileCheckResult img))
        by (apply list_lookup_insert_eq; eapply lookup_lt_Some, E).
      by rewrite take_insert_ge by lia.
    + rewrite IH by lia. by rewrite (take_S_r _ _ img E).
Qed.
Lemma imageVerifiedResultCheckByProfile_map sci :
  ImagesToVerify (imageVerifiedResultCheckByProfile sci) = checkOne <$> ImagesToVerify sci.
Proof. unfold imageVerifiedResultCheckByProfile. simpl. by rewrite checkFrom_spec by lia. Qed.

Section decision_proofs.
Context {D : DecisionCodes} {DL : DecisionCodesLaws D}.

Lemma firstRefusal_None l : firstRefusal l = None ↔ Forall image_ok l.
Proof.
  induction l as [|img l IH]; simpl; [done|]. rewrite Forall_cons, <-IH. unfold image_ok.
  destruct (ivr_Error _); [naive_solver|].
  destruct (ivr_Allowed _); [|naive_solver].
  destruct (itv_ProfileCheckResult img); naive_solver.
Qed.
Lemma firstRefusal_Some l r :
  firstRefusal l = Some r → dr_Type r ≠ DecisionAllow ∧ dr_Verified r = true.
Proof using DL.
  induction l as [|img l IH]; simpl; [done|].
  destruct DL as [Hd He]. destruct (ivr_Error _).
  { intros; simplify_eq/=; auto. }
  destruct (ivr_Allowed _); simpl; [|intros; simplify_eq/=; auto].
  destruct (itv_ProfileCheckResult img); simpl; [done|intros; simplify_eq/=; auto].
Qed.

End decision_proofs.

(** ** Which images are checked *)

Lemma getImages_fmap cs : getImages cs = ct_Image <$> cs.
Proof. induction cs as [|c cs IH]; simpl; [done|]. by rewrite IH. Qed.
Lemma profileImages_spec ip images acc :
  profileImages ip images acc =
  (acc ++ (newImageToVerify ip <$> filter (λ i, isMatchImage (icp_Image ip) i = true) images))%list.
Proof.
  revert acc. induction images as [|i images IH]; intros acc; simpl.
  { by rewrite app_nil_r. }
  rewrite IH. destruct (isMatchImage (icp_Image ip) i) eqn:E.
  - rewrite filter_cons_True by done. simpl. by rewrite <-app_assoc.
  - by rewrite filter_cons_False by congruence.
Qed.

(** The kinds for which [getPodSpec] decodes anything. *)
Lemma getPodSpec_kinds `{WorkloadJson} raw g v k ps :
  getPodSpec raw g v k = Good ps → Containers ps ≠ [] →
  k ∈ ["Pod"; "Deployment"; "Replicaset"; "DaemonSet"; "StatefulSet"; "Job"; "CronJob"].
Proof.
  unfold getPodSpec. intros H0 Hne.
  repeat match type of H0 with
  | (if ?b then _ else _) = _ => destruct b eqn:?E
  end; simplify_eq/=; try done;
  repeat match goal with H : _ && _ = true |- _ => apply andb_true_iff in H as [H _] end;
  repeat match goal with H : bool_decide _ = true |- _ => apply bool_decide_eq_true in H as -> end;
  set_solver.
Qed.

Section request_proofs.
Context {K : Kube} {J : WorkloadJson}.

Definition online (w : World) : Prop :=
  GetKubeConfig (w_cluster w) = None ∧ NewForConfig (w_cluster w) = None.

(** The profile that applies in a namespace. *)
Definition namespaceProfile (w : World) (ns : string) : option ImageCheckProfile :=
  match rc_get configmaps (w_cluster w) ns "image-profile-cm" with
  | Bad _ => None
  | Good cm => if decide (is_Some (cm_Data cm !! "image"))
               then Some (profileOfData (cm_Data cm)) else None
  end.
(** The images of an in-scope resource that the profile covers, in order. *)
Definition coveredImages (w : World) (resc : ResourceContext) : list ImageToVerify :=
  match getPodSpec (rs_RawObject resc) (rs_ApiGroup resc) (rs_ApiVersion resc) (rs_Kind resc),
        namespaceProfile w (rs_Namespace resc) with
  | Good ps, Some ip =>
      if filterByKind (rs_Kind resc) then
        newImageToVerify ip <$>
          filter (λ i, isMatchImage (icp_Image ip) i = true) (ct_Image <$> Containers ps)
      else []
  | _, _ => []
  end.

Lemma getImageProfile_runs ns images w :
  online w →
  runs (getImageProfile ns images) w (λ r w', w' = w ∧
    r.1 = match namespaceProfile w ns with
          | Some ip => newImageToVerify ip <$>
                         filter (λ i, isMatchImage (icp_Image ip) i = true) images
          | None => [] end
    ∧ (r.2 = "" ↔ r.1 ≠ [])).
Proof.
  intros [Hk Hc]. unfold getImageProfile, getConfigmapProfile, namespaceProfile.
  run_step. run_step. run_step. rewrite Hk, Hc.
  destruct (rc_get _ _ _ _) as [cm|e]; [|by run_step; run_step].
  destruct (cm_Data cm !! "image") as [p|] eqn:Ei.
  2: { rewrite decide_False by (intros []; congruence). by run_step; run_step. }
  rewrite decide_True by eauto. run_step. rewrite profileImages_spec. simpl.
  destruct (newImageToVerify _ <$> _) as [|x l] eqn:El; simpl; run_step; done.
Qed.

Lemma requestCheckForImageCheck_runs resc w :
  online w →
  runs (requestCheckForImageCheck resc) w (λ '(need, sci, msg) w', w' = w ∧
    (need = true ↔ coveredImages w resc ≠ []) ∧
    sci = (if need then Some (mkSigCheckImages (coveredImages w resc)) else None) ∧
    (msg = "" ↔ need = true)).
Proof.
  intros Hon. unfold requestCheckForImageCheck, coveredImages.
  destruct (filterByKind (rs_Kind resc)); simpl.
  2: { run_step. destruct (getPodSpec _ _ _ _); [|naive_solver].
       destruct (namespaceProfile _ _); naive_solver. }
  destruct (getPodSpec _ _ _ _) as [ps|e]; [|run_step; naive_solver].
  run_step. run_with (getImageProfile_runs (rs_Namespace resc) (getImages (Containers ps)) w Hon).
  intros [l msg] w' (-> & Hl & Hm). simpl in *. rewrite getImages_fmap in Hl. rewrite Hl in *.
  destruct (namespaceProfile w (rs_Namespace resc)) as [ip|]; simpl.
  - destruct (newImageToVerify ip <$> _) as [|x l'] eqn:El; simpl; run_step; naive_solver.
  - run_step. naive_solver.
Qed.

(** With a reachable API server [requestCheckForImageCheck] returns and changes
    nothing; it asks for a check exactly when the resource is of a kind in scope,
    its namespace has an image profile, and the profile covers one of the container
    images, and it then lists exactly the covered images, in order. *)
Theorem requestCheckForImageCheck_spec resc w :
  online w →
  runs (requestCheckForImageCheck resc) w (λ '(need, sci, msg) w', w' = w ∧
    (need = true ↔ coveredImages w resc ≠ []) ∧
    sci = (if need then Some (mkSigCheckImages (coveredImages w resc)) else None) ∧
    (msg = "" ↔ need = true)).
Proof. apply requestCheckForImageCheck_runs. Qed.

(** Only pods, deployments and jobs can be selected for an image check:
    [ReplicaSet], [DaemonSet], [StatefulSet] and [CronJob], as Kubernetes spells
    them, are out of scope whatever they contain, because [filterByKind] spells
    them differently; and of its own spellings [Daemonset], [Statefulset] and
    [Cronjob] are never decoded by [getPodSpec]. *)
Theorem image_check_skips_kinds resc w :
  online w →
  (rs_Kind resc ∈ ["ReplicaSet"; "DaemonSet"; "StatefulSet"; "CronJob"] →
   requestCheckForImageCheck resc w = (Ret (false, None, "no image referenced"), w)) ∧
  runs (requestCheckForImageCheck resc) w (λ '(need, _, _) _,
    need = true → rs_Kind resc ∈ ["Pod"; "Deployment"; "Replicaset"; "Job"]).
Proof.
  intros Hon. split.
  - intros Hk. assert (filterByKind (rs_Kind resc) = false) as E.
    { repeat (apply elem_of_cons in Hk as [->|Hk]; [done|]). by apply elem_of_nil in Hk. }
    unfold requestCheckForImageCheck. by rewrite E.
  - run_with (requestCheckForImageCheck_runs resc w Hon).
    intros [[need sci] msg] w' (_ & Hn & _) Hneed. apply Hn in Hneed. clear Hn.
    unfold coveredImages in Hneed.
    destruct (getPodSpec _ _ _ _) as [ps|] eqn:Ep; [|done].
    destruct (namespaceProfile _ _); [|done].
    destruct (filterByKind (rs_Kind resc)) eqn:Ef; [|done].
    assert (Containers ps ≠ []) as Hc by (intros E; by rewrite E in Hneed).
    pose proof (getPodSpec_kinds _ _ _ _ _ Ep Hc) as Hk.
    repeat (apply elem_of_cons in Hk as [E|Hk];
            [rewrite E in *; first [discriminate|set_solver]|]).
    by apply elem_of_nil in Hk.
Qed.
End request_proofs.

(** ** Concrete instances *)

Module ImageCheckDemo.
Import Demo.

#[export] Instance codes : DecisionCodes := {
  DecisionType := nat; DecisionError := 0; DecisionDeny := 1; DecisionAllow := 2;
  ReasonCodeT := nat; REASON_ERROR := 0; REASON_INVALID_SIG_IMAGE := 1;
  REASON_NO_MATCH_IMAGE_PROFILE := 2; REASON_VALID_SIG_IMAGE := 3 }.
#[export] Instance codes_laws : DecisionCodesLaws codes.
Proof. by split. Qed.

(** A workload is written as its images, separated by spaces. *)
Definition podSpecOf (s : string) : PodSpec := mkPodSpec (mkContainer <$> Split s " ").
#[export] Instance json : WorkloadJson := {
  json_Pod s := Good (mkPod (podSpecOf s));
  json_Workload _ s := if bool_decide (s = "") then Bad (errNew "unexpected end of JSON input")
                       else Good (mkWorkload (podSpecOf s));
  json_CronJob s := Good (mkCronJob (mkWorkload (podSpecOf s))) }.

Definition profileCm := mkConfigMap "image-profile-cm"
  {[ "image" := "registry.io/*"; "commonName" := "signer@example.com" ]}.
Definition icWorld : World (K := kube (X := unit)) :=
  mkWorld (K := kube (X := unit)) ∅ InfoLevel false ∅ 0
    (mkMem true {[ ("ns", "image-profile-cm") := profileCm ]} ∅ ∅ ∅ tt).
Definition deployment (kind : string) : ResourceContext :=
  mkResc kind "apps" "v1" "ns" "registry.io/app docker.io/side registry.io/db".

Definition signedBy (names : list string) (i : string) : ImageToVerify :=
  mkImageToVerify i (mkImageCheckProfile "" "" "signer@example.com" "registry.io/*" false)
    (mkImageVerifyResult None true "" "sha256:1" names) false.
Definition twoImages : SigCheckImages := mkSigCheckImages
  [signedBy ["root@example.com"; "signer@example.com"] "registry.io/app";
   signedBy ["root@example.com"] "registry.io/db"].


Lemma requestCheckForImageCheck_spec_witness :
  ∃ sci, requestCheckForImageCheck (deployment "Deployment") icWorld
         = (Ret (true, Some sci, ""), icWorld)
       ∧ itv_Image <$> ImagesToVerify sci = ["registry.io/app"; "registry.io/db"].
Proof.
  destruct (requestCheckForImageCheck_spec (deployment "Deployment") icWorld)
    as ([[need sci] msg] & w' & Hrun & Hw & Hneed & Hsci & Hmsg);
    [split; reflexivity|].
  assert (need = true) as Ht by (apply Hneed; vm_compute; discriminate).
  subst need w' sci. rewrite (proj2 Hmsg eq_refl) in Hrun.
  eexists. split; [exact Hrun|]. vm_compute. reflexivity.
Defined.

Lemma image_check_skips_kinds_witness :
  requestCheckForImageCheck (deployment "DaemonSet") icWorld
  = (Ret (false, None, "no image referenced"), icWorld).
Proof.
  apply (image_check_skips_kinds (deployment "DaemonSet") icWorld).
  - split; reflexivity.
  - by right; left.
Defined.

(** Without a kube config the check crashes. *)
Example requestCheck_offline :
  result_of (requestCheckForImageCheck (deployment "Deployment"))
    (mkWorld (K := kube (X := unit)) ∅ InfoLevel false ∅ 0 (mkMem false ∅ ∅ ∅ ∅ tt))
  = Panic nil_dereference.
Proof. reflexivity. Qed.
End ImageCheckDemo.
