(* ===== verification/ImageVerify.v ===== *)
(** * shield/pkg/image/image.go: verification of the images of a manifest *)
From S2P Require Import Prelude GoStrings World ShieldConfig Demo.
From stdpp Require Import base gmap strings list.
From Stdlib Require Import ZArith Lia.

Local Open Scope string_scope.

Section image.
Context {T : ExtTypes} {L : ExtLib T} {O : OS} {K : Kube} {S : Sigstore T K}.

Record ImageVerifyResult := mkIVR {
  ivr_Object : Unstructured;
  ivr_ImageRef : string;
  ivr_Verified : bool;
  ivr_InScope : bool;
  ivr_Signer : string;
  ivr_SignedTime : option Z;
  ivr_FailReason : string }.

(** The key files of the profile; the first secret that fails stops the loop. *)
Fixpoint loadImageKeys (l : list KeyConfig) : M World (res (list string)) :=
  match l with
  | [] => mret (Good [])
  | kc :: l' =>
      if bool_decide (KeySecretName kc ≠ "") then
        r ← LoadKeySecret (KeySecretNamespace kc) (KeySecretName kc);
        match r with
        | Bad err => mret (Bad (Wrap err "failed to load a key secret for image verification"))
        | Good keyPath =>
            rest ← loadImageKeys l';
            mret (match rest with
                  | Good ks => Good (keyPath :: ks)
                  | Bad e => Bad e
                  end)
        end
      else loadImageKeys l'
  end.

(** The verification loop: whether some key verifies, and the last failure. *)
Fixpoint verifyWithKeys (w : World) (manifestPath : string) (keyPathList : list string)
    (failReason : string) : bool * string :=
  match keyPathList with
  | [] => (false, failReason)
  | keyPath :: l' =>
      match VerifyManifest (w_env w) (w_files w) keyPath manifestPath with
      | None => (true, failReason)
      | Some iErr => verifyWithKeys w manifestPath l' (Error iErr)
      end
  end.

(** The body of the function after [defer os.RemoveAll(tmpDir)]. *)
Definition verifyInDir (tmpDir yamlBytes : string) (profile : ImageProfile)
    : M World (bool * option error) :=
  let manifestPath := JoinPath [tmpDir; "manifest.yaml"] in
  e ← WriteFile manifestPath yamlBytes;
  match e with
  | Some err => mret (false, Some (errNew ("failed to create temp manifest file: "
                                           +:+ Error err)))
  | None =>
      keys ← loadImageKeys (ip_KeyConfigs profile);
      match keys with
      | Bad err => mret (false, Some err)
      | Good ks =>
          let keyPathList := if (length ks =? 0)%nat then [""] else ks in
          w ← getW;
          let '(allImagesVerified, failReason) :=
            verifyWithKeys w manifestPath keyPathList "" in
          mret (allImagesVerified,
                if negb allImagesVerified then Some (errNew failReason) else None)
      end
  end.

Definition VerifyImageInManifest (resource : Unstructured) (profile : ImageProfile)
    : M World (bool * option error) :=
  match yaml_Marshal resource with
  | Bad err => mret (false, Some (Wrap err "failed to yaml.Marshal() the resource"))
  | Good yamlBytes =>
      d ← TempDir "verify-image";
      match d with
      | Bad err => mret (false, Some (errNew ("failed to create temp dir: " +:+ Error err)))
      | Good tmpDir =>
          r ← verifyInDir tmpDir yamlBytes profile;
          _ ← RemoveAll tmpDir;
          mret r
      end
  end.

(** ** Lemmas *)

Lemma loadImageKeys_runs l w :
  runs (loadImageKeys l) w (λ _ w', files_only w w').
Proof.
  revert w. induction l as [|kc l IH]; intros w; simpl; [by apply runs_ret|].
  case_bool_decide; [|apply IH]. apply runs_bind.
  run_with LoadKeySecret_runs. intros [p|e] w1 [Hw1 _]; [|by apply runs_ret].
  apply runs_bind. run_with IH. intros r w2 Hw2. apply runs_ret. by etrans.
Qed.

Lemma verifyInDir_runs d y prof w :
  runs (verifyInDir d y prof) w (λ r w', files_only w w' ∧
    (r.1 = true ↔ r.2 = None)).
Proof.
  unfold verifyInDir. apply runs_bind, runs_WriteFile; [intros e _|intros _].
  { by apply runs_ret. }
  apply runs_bind. run_with loadImageKeys_runs. intros [ks|e] w1 Hw1; [|by apply runs_ret].
  apply runs_bind, runs_getW. destruct (verifyWithKeys _ _ _ _) as [[] fr]; apply runs_ret;
    (split; [etrans; [apply files_only_set_files|done]|done]).
Qed.

Lemma RemoveAll_clean d w p :
  HasPrefix p (d +:+ "/") = true → w_files (state_of (RemoveAll d) w) !! p = None.
Proof.
  intros Hp. simpl. apply map_lookup_filter_None. right. intros x _ H. simpl in H. congruence.
Qed.

Lemma VerifyImageInManifest_runs res prof w :
  runs (VerifyImageInManifest res prof) w (λ r w', files_only w w' ∧
    (r.1 = true ↔ r.2 = None)).
Proof.
  unfold VerifyImageInManifest. destruct (yaml_Marshal res) as [y|e]; [|by apply runs_ret].
  apply runs_bind, runs_TempDir; [intros d Hd|by intros; apply runs_ret].
  apply runs_bind. run_with verifyInDir_runs. intros r w1 [Hw1 Hr].
  apply runs_bind, runs_modifyW, runs_ret. split; [|done].
  etrans; [apply files_only_set_files|]. etrans; [exact Hw1|apply files_only_set_files].
Qed.

Lemma verifyWithKeys_exists w p ks fr :
  (verifyWithKeys w p ks fr).1 = true ↔
  ∃ k, k ∈ ks ∧ VerifyManifest (w_env w) (w_files w) k p = None.
Proof.
  revert fr. induction ks as [|k ks IH]; intros fr; simpl.
  - split; [done|]. intros (k & Hk & _). by apply elem_of_nil in Hk.
  - destruct (VerifyManifest _ _ k p) eqn:E; simpl.
    + rewrite IH. setoid_rewrite elem_of_cons. naive_solver.
    + split; [|done]. intros _. exists k. split; [left|done].
Qed.

Lemma loadImageKeys_keyless l w :
  Forall (λ kc, KeySecretName kc = "") l → loadImageKeys l w = (Ret (Good []), w).
Proof.
  induction 1 as [|kc l Hk _ IH]; simpl; [done|].
  by rewrite bool_decide_eq_false_2 by (intros ?; done).
Qed.

(** Keyless image verification: for a profile that names no key secret the
    manifest is accepted exactly when cosign, without a key, accepts the file
    [manifest.yaml] of the temporary directory, which holds the YAML of the
    resource; a rejection carries cosign's error. *)
Theorem VerifyImageInManifest_keyless resource prof w y d :
  yaml_Marshal resource = Good y →
  fs_tempdir (w_files w) "verify-image" = Good d →
  fs_write_err (<[d +:+ "/" := ""]> (w_files w)) (JoinPath [d; "manifest.yaml"]) = None →
  Forall (λ kc, KeySecretName kc = "") (ip_KeyConfigs prof) →
  runs (VerifyImageInManifest resource prof) w (λ r _,
    r = match VerifyManifest (w_env w)
                (<[JoinPath [d; "manifest.yaml"] := y]> (<[d +:+ "/" := ""]> (w_files w))) ""
                (JoinPath [d; "manifest.yaml"]) with
        | None => (true, None)
        | Some e => (false, Some (errNew (Error e)))
        end).
Proof.
  intros Hy Hd Hw Hk. unfold VerifyImageInManifest, verifyInDir. rewrite Hy.
  apply runs_bind, runs_TempDir; rewrite Hd; [intros ? [= <-]|done].
  apply runs_bind, runs_bind, runs_WriteFile; [simpl; congruence|intros _]. apply runs_bind.
  eexists _, _. split; [by apply loadImageKeys_keyless|]. apply runs_bind, runs_getW. simpl.
  destruct (VerifyManifest _ _ _ _); apply runs_ret, runs_bind, runs_modifyW, runs_ret; done.
Qed.

(** C36.  Image verification returns for every resource, profile and state; it
    reports success exactly when it reports no error; afterwards the temporary
    directory holds no file, and cluster and environment are unchanged. *)
Theorem VerifyImageInManifest_clean resource prof w :
  runs (VerifyImageInManifest resource prof) w (λ r w', files_only w w' ∧
    (r.1 = true ↔ r.2 = None) ∧
    match fs_tempdir (w_files w) "verify-image" with
    | Good d => is_good (yaml_Marshal resource) = true →
        ∀ p, HasPrefix p (d +:+ "/") = true → w_files w' !! p = None
    | Bad _ => w' = w
    end).
Proof.
  pose proof (VerifyImageInManifest_runs resource prof w) as H1.
  eapply runs_mono; [eapply (runs_and _ _ _ (λ _ w',
    match fs_tempdir (w_files w) "verify-image" with
    | Good d => is_good (yaml_Marshal resource) = true →
        ∀ p, HasPrefix p (d +:+ "/") = true → w_files w' !! p = None
    | Bad _ => w' = w
    end) H1)|naive_solver].
  unfold VerifyImageInManifest. destruct (yaml_Marshal resource) as [y|e].
  - apply runs_bind, runs_TempDir; intros d ->; [|by apply runs_ret].
    apply runs_bind. run_with verifyInDir_runs. intros r w1 _.
    apply runs_bind, runs_modifyW, runs_ret. intros _ p Hp.
    by apply (RemoveAll_clean d w1).
  - apply runs_ret. by destruct (fs_tempdir _ _).
Qed.
End image.

Section witnesses.
Import Demo.
Definition good_obj : Unstructured := mkObj "Pod" "ns1" "web" ∅.
Definition all_images : ImageProfile := mkImageProfile [] ["*"] [].
Lemma VerifyImageInManifest_keyless_witness :
  runs (VerifyImageInManifest good_obj all_images) (world_with "x") (λ r _, r = (true, None)).
Proof.
  eapply runs_mono; [apply (VerifyImageInManifest_keyless good_obj all_images
    (world_with "x") "Pod:web" "/tmp/verify-image0");
    try (vm_compute; reflexivity); constructor|].
  intros r w' ->. vm_compute. reflexivity.
Defined.
Lemma VerifyImageInManifest_clean_witness :
  runs (VerifyImageInManifest good_obj all_images) (world_with "x") (λ _ w',
    w_files w' !! "/tmp/verify-image0/manifest.yaml" = None).
Proof.
  eapply runs_mono; [apply (VerifyImageInManifest_clean good_obj all_images (world_with "x"))|].
  intros r w' (_ & _ & H).
  assert (fs_tempdir (w_files (world_with "x")) "verify-image" = Good "/tmp/verify-image0")
    as E by (vm_compute; reflexivity).
  rewrite E in H. apply H; vm_compute; reflexivity.
Defined.
End witnesses.
