(* ===== verification/RequestHandler.v ===== *)
(** * shield/pkg/shield/request_handler.go: the decision on a request

    [RequestHandler] decides one admission request against one parameter object:
    mutation check, user and object filters, signature verification, image
    verification, deny events.  The section [policy] states the decision as a
    pure function of the facts the handler collects; the refinement lemma
    [RequestHandler_refines_policy] says that the handler implements it. *)
From S2P Require Import Prelude GoStrings World ShieldConfig Demo ImageVerify.
From stdpp Require Import base gmap strings list.
From Stdlib Require Import ZArith Lia.

Local Open Scope string_scope.

Record ResultFromRequestHandler := mkResult {
  Allow : bool; Message : string; Profile : string }.

Definition ImageRefAnnotationKeyShield := "integrityshield.io/signature".
Definition AnnotationKeyDomain := "integrityshield.io".
Definition SignatureAnnotationTypeShield := "IntegrityShield".
Definition EventTypeAnnotationKey := "integrityshield.io/eventType".
Definition EventResultAnnotationKey := "integrityshield.io/eventResult".
Definition EventTypeValueVerifyResult := "verify-result".
Definition EventTypeAnnotationValueDeny := "deny".
Definition rekorServerEnvKey := "REKOR_SERVER".

Definition makeResultFromRequestHandler (allow : bool) (msg : string) (enforce : bool)
    : ResultFromRequestHandler :=
  if negb allow && negb enforce
  then mkResult true ("allowed because not enforced: " +:+ msg) ""
  else mkResult allow msg "".

Definition isUpdateRequest (operation : string) : bool := bool_decide (operation = "UPDATE").

Section handler.
Context {T : ExtTypes} {L : ExtLib T} {O : OS} {K : Kube} {S : Sigstore T K}
  {Y : ShieldYaml T}.

(** ** Mutation check *)

Definition getMatchedIgnoreFields (pi ci : list ObjectFieldBinding)
    (resource : Unstructured) : list string :=
  let fields := (ObjectFieldBindingList_Match pi resource).2 in
  let commonfields := (ObjectFieldBindingList_Match ci resource).2 in
  (fields ++ commonfields)%list.

Definition quote : string := bytes [34].

Definition mutationMask : list string := [
  "metadata.annotations.namespace";
  "metadata.annotations.kubectl." +:+ quote
    +:+ "kubernetes.io/last-applied-configuration" +:+ quote;
  "metadata.annotations.deprecated.daemonset.template.generation";
  "metadata.creationTimestamp";
  "metadata.uid";
  "metadata.generation";
  "metadata.managedFields";
  "metadata.selfLink";
  "metadata.resourceVersion";
  "status"].

Definition maskedNode (v : Node) : option Node :=
  NewFromMap (Node_ToMap (Node_Mask v mutationMask)).

Definition mutationCheck (rawOldObject rawObject : string) (IgnoreFields : list string)
    : bool * option error :=
  match NewFromBytes rawObject with
  | (_, Some err) => (false, Some err)
  | (None, None) => (false, None)
  | (Some v, None) =>
    let newObject := maskedNode v in
    match NewFromBytes rawOldObject with
    | (_, Some err) => (false, Some err)
    | (None, None) => (false, None)
    | (Some v, None) =>
      let oldObject := maskedNode v in
      match Node_Diff oldObject newObject with
      | None => (false, None)
      | Some dr =>
        if (Diff_Size dr =? 0)%nat then (false, None)
        else
          let unfiltered := Diff_Filter dr IgnoreFields in
          if (Diff_Size unfiltered =? 0)%nat then (false, None) else (true, None)
      end
    end
  end.

(** ** Filters *)

Definition skipObjectsMatch (l : list ObjectReference) (obj : Unstructured) : bool :=
  if (length l =? 0)%nat then false
  else anyb (λ r, ObjectReference_Match r obj) l.

(** ** Verification options *)

(** The loop over [paramObj.KeyConfigs]; a secret that fails leaves an empty path. *)
Fixpoint keyPathsOf (l : list KeyConfig) : M World (list string) :=
  match l with
  | [] => mret []
  | keyconfig :: l' =>
      if bool_decide (KeySecretName keyconfig ≠ "") then
        r ← LoadKeySecret (KeySecretNamespace keyconfig) (KeySecretName keyconfig);
        let keyPath := match r with Good p => p | Bad _ => "" end in
        rest ← keyPathsOf l';
        mret (keyPath :: rest)
      else keyPathsOf l'
  end.

Definition configMapRef (r : ResourceRef) : string :=
  "k8s://ConfigMap/" +:+ rr_Namespace r +:+ "/" +:+ rr_Name r.

(** The option fields that come from the signature reference. *)
Definition withSignatureRef (sr : SignatureRef) (vo : VerifyResourceOption)
    : VerifyResourceOption :=
  let imageRef := if bool_decide (sr_ImageRef sr ≠ "") then sr_ImageRef sr
                  else vo_ImageRef vo in
  let s := sr_SignatureResourceRef sr in
  let sigRef := if bool_decide (rr_Name s ≠ "") && bool_decide (rr_Namespace s ≠ "")
                then configMapRef s else vo_SignatureResourceRef vo in
  let p := sr_ProvenanceResourceRef sr in
  let provRef := if bool_decide (rr_Name p ≠ "") && bool_decide (rr_Namespace p ≠ "")
                 then configMapRef p else vo_ProvenanceResourceRef vo in
  mkVO imageRef sigRef provRef (vo_DryRunNamespace vo) (vo_AnnotationKeyDomain vo)
    (vo_KeyPath vo) (vo_Provenance vo) (vo_IgnoreFields vo) (vo_SkipObjects vo)
    (vo_rest vo).

Definition withKeys (domain dryRun keyPath : string) (ignore : list ObjectFieldBinding)
    (vo : VerifyResourceOption) : VerifyResourceOption :=
  mkVO (vo_ImageRef vo) (vo_SignatureResourceRef vo) (vo_ProvenanceResourceRef vo)
    dryRun domain keyPath (vo_Provenance vo) ignore (vo_SkipObjects vo) (vo_rest vo).

(** The code updates the option inside [paramObj] and returns a pointer to it;
    the updated option is the result here, the rest of [paramObj] is unchanged. *)
Definition setVerifyOption (paramObj : ParameterObject) (config : RequestHandlerConfig)
    (signatureAnnotationType : string) : M World VerifyResourceOption :=
  let vo := withSignatureRef (po_SignatureRef paramObj)
              (po_VerifyResourceOption paramObj) in
  namespace ← env_or "POD_NAMESPACE" defaultPodNamespace;
  let domain := if bool_decide (signatureAnnotationType = SignatureAnnotationTypeShield)
                then AnnotationKeyDomain else vo_AnnotationKeyDomain vo in
  keyPath ←
    (if negb (length (po_KeyConfigs paramObj) =? 0)%nat then
       keyPathList ← keyPathsOf (po_KeyConfigs paramObj);
       let keyPathString := strings_Join keyPathList "," in
       mret (if bool_decide (keyPathString ≠ "") then keyPathString else vo_KeyPath vo)
     else mret (vo_KeyPath vo));
  let ignore := if (length (rf_IgnoreFields (rhc_Filter config)) =? 0)%nat
                then vo_IgnoreFields vo
                else (vo_IgnoreFields vo ++ rf_IgnoreFields (rhc_Filter config))%list in
  mret (withKeys domain namespace keyPath ignore vo).

(** ** Deny events *)

Definition denyMessage (constraintName msg : string) : string :=
  let tmpMessage := "[" +:+ constraintName +:+ "]" +:+ msg in
  if (1024 <? len tmpMessage)%nat
  then go_take 950 tmpMessage
       +:+ " ... Trimmed. `Event.Message` can have 1024 chars at maximum."
  else tmpMessage.

Definition denyEventName (req : Request) : string :=
  "ishield-deny-" +:+ ToLower (rq_Operation req) +:+ "-"
    +:+ ToLower (Kind (rq_Kind req)) +:+ "-" +:+ rq_Name req.

Definition denyEventNamespace (req : Request) (namespace : string) : string :=
  if bool_decide (rq_Namespace req = "") then namespace else rq_Namespace req.

Definition newDenyEvent (req : Request) (evtNamespace : string) (now : Z) : Event :=
  let sourceName := "IntegrityShield" in
  mkEvent (denyEventName req) evtNamespace
    {[ EventTypeAnnotationKey := EventTypeValueVerifyResult;
       EventResultAnnotationKey := EventTypeAnnotationValueDeny ]}
    (mkObjRef (rq_Namespace req)
       (GV_String (Group (rq_Kind req)) (Version (rq_Kind req)))
       (Kind (rq_Kind req)) (rq_Name req))
    sourceName sourceName sourceName (denyEventName req) (denyEventName req) "Deny"
    now 0 0 "" 0.

(** The fields written on a new and on an existing event alike. *)
Definition stampEvent (msg : string) (now : Z) (evt : Event) : Event :=
  mkEvent (ev_Name evt) (ev_Namespace evt) (ev_Annotations evt)
    (ev_InvolvedObject evt) (ev_Type evt) (ev_Component evt)
    (ev_ReportingController evt) (ev_ReportingInstance evt) (ev_Action evt)
    (ev_Reason evt) (ev_FirstTimestamp evt) now now msg (int32 (ev_Count evt + 1)).

Definition createOrUpdateEvent (req : Request) (ar : ResultFromRequestHandler)
    (constraintName : string) : M World (option error) :=
  if Allow ar then mret None else
  w ← getW;
  match GetKubeConfig (w_cluster w) with
  | Some err => mret (Some err)
  | None =>
    match NewForConfig (w_cluster w) with
    | Some err => mret (Some err)
    | None =>
      namespace ← env_or "POD_NAMESPACE" defaultPodNamespace;
      let evtNamespace := denyEventNamespace req namespace in
      now ← Now;
      match rc_get events (w_cluster w) evtNamespace (denyEventName req) with
      | Good current =>
          clusterM (λ c, rc_update events c evtNamespace
            (stampEvent (denyMessage constraintName (Message ar)) now current))
      | Bad _ =>
          clusterM (λ c, rc_create events c evtNamespace
            (stampEvent (denyMessage constraintName (Message ar)) now
               (newDenyEvent req evtNamespace now)))
      end
    end
  end.

(** ** The handler *)

Definition enforceAction (paramObj : ParameterObject) (rhconfig : RequestHandlerConfig)
    : bool :=
  match po_Action paramObj with
  | None => AdmissionControl_Enforce (DefaultConstraintAction rhconfig)
  | Some a => AdmissionControl_Enforce a
  end.

Definition setupRekor (rhconfig : RequestHandlerConfig) : M World unit :=
  if bool_decide (RekorServer rhconfig ≠ "")
  then Setenv rekorServerEnvKey (RekorServer rhconfig)
  else Setenv rekorServerEnvKey "".

(** The verdict on the result of [VerifyResource]. *)
Definition signatureVerdict (result : VerifyResourceResult) : bool * string :=
  if vr_InScope result then
    if vr_Verified result then
      (true, "singed by a valid signer: " +:+ vr_Signer result)
    else
      (false,
       match vr_Diff result with
       | Some d =>
           if (0 <? Diff_Size d)%nat then
             "Signature verification is required for this request, but failed to verify signature. diff found: " +:+ Diff_String d
           else if bool_decide (vr_Signer result ≠ "") then
             "Signature verification is required for this request, but no signer config matches with this resource. This is signed by " +:+ vr_Signer result
           else "Signature verification is required for this request, but no signature is found."
       | None =>
           if bool_decide (vr_Signer result ≠ "") then
             "Signature verification is required for this request, but no signer config matches with this resource. This is signed by " +:+ vr_Signer result
           else "Signature verification is required for this request, but no signature is found."
       end)
  else (true, "not protected").

(** The loop over the image results: the first in-scope unverified image. *)
Fixpoint imageResultsVerdict (l : list ImageVerifyResult) : bool * string :=
  match l with
  | [] => (true, "")
  | r :: l' =>
      if ivr_InScope r && negb (ivr_Verified r)
      then (false, "Image signature verification is required, but failed to verify signature: "
                     +:+ ivr_FailReason r)
      else imageResultsVerdict l'
  end.

Definition imageVerdict (resource : Unstructured) (profile : ImageProfile)
    : M World (bool * string) :=
  let imageVerifyResults := [] in
  if ImageProfile_Enabled profile then
    '(_, err) ← VerifyImageInManifest resource profile;
    mret (match err with
          | Some e => (false,
              "Image signature verification is required, but failed to verify signature: "
                +:+ Error e)
          | None => imageResultsVerdict imageVerifyResults
          end)
  else mret (true, "").

Definition annotationType (resource : Unstructured) : string :=
  match GetAnnotations resource !! ImageRefAnnotationKeyShield with
  | Some _ => SignatureAnnotationTypeShield
  | None => ""
  end.

(** The last branch of the decision: signatures, then images.  [inr r] is the
    early return after an error of [VerifyResource]. *)
Definition verifyBranch (req : Request) (paramObj : ParameterObject)
    (rhconfig : RequestHandlerConfig) (resource : Unstructured) (enforce : bool)
    : M World (bool * string + ResultFromRequestHandler) :=
  vo ← setVerifyOption paramObj rhconfig (annotationType resource);
  w ← getW;
  match VerifyResource (w_env w) (w_files w) (w_cluster w) resource vo with
  | Bad err =>
      let r := makeResultFromRequestHandler false (Error err) enforce in
      _ ← (if CreateDenyEvent rhconfig
           then createOrUpdateEvent req r (ConstraintName paramObj) else mret None);
      mret (inr r)
  | Good result =>
      let '(allow, message) := signatureVerdict result in
      '(imageAllow, imageMessage) ← imageVerdict resource (po_ImageProfile paramObj);
      mret (inl (if allow && negb imageAllow then (false, imageMessage)
                 else (allow, message)))
  end.

(** From the decision on: filters, verification, result, deny event. *)
Definition decide_request (req : Request) (paramObj : ParameterObject)
    (rhconfig : RequestHandlerConfig) (resource : Unstructured) (enforce : bool)
    : M World ResultFromRequestHandler :=
  let user := rq_Username req in
  let commonSkipUserMatched :=
    ObjectUserBindingList_Match (rf_SkipUsers (rhc_Filter rhconfig)) resource user in
  let skipObjectMatched := skipObjectsMatch (rf_SkipObjects (rhc_Filter rhconfig)) resource in
  let skipUserMatched := ObjectUserBindingList_Match (po_SkipUsers paramObj) resource user in
  let inScopeUserMatched := ObjectUserBindingList_Match (InScopeUsers paramObj) resource user in
  let inScopeObjMatched := ObjectReferenceList_Match (InScopeObjects paramObj) resource in
  v ← (if (skipUserMatched || commonSkipUserMatched) && negb inScopeUserMatched then
         mret (inl (true, "SkipUsers rule matched."))
       else if negb inScopeObjMatched then
         mret (inl (true, "ObjectSelector rule did not match. Out of scope of verification."))
       else if skipObjectMatched then
         mret (inl (true, "SkipObjects rule matched."))
       else verifyBranch req paramObj rhconfig resource enforce);
  match v with
  | inr r => mret r
  | inl (allow, message) =>
      let r := makeResultFromRequestHandler allow message enforce in
      _ ← (if CreateDenyEvent rhconfig
           then createOrUpdateEvent req r (ConstraintName paramObj) else mret None);
      mret r
  end.

Definition RequestHandler (req : Request) (paramObj : ParameterObject)
    : M World ResultFromRequestHandler :=
  match json_Unstructured (rq_Object req) with
  | Bad err =>
      mret (makeResultFromRequestHandler false
        ("IntegrityShield failed to decide the response. Failed to Unmarshal a requested object: "
           +:+ Error err) false)
  | Good resource =>
      '(rhconfig, err) ← LoadRequestHandlerConfig;
      match err with
      | Some err =>
          mret (makeResultFromRequestHandler false
            ("IntegrityShield failed to decide the response. Failed to load request handler config: "
               +:+ Error err) false)
      | None =>
          let rhconfig := default RequestHandlerConfig_zero rhconfig in
          _ ← SetupLogger (rhc_Log rhconfig);
          let enforce := enforceAction paramObj rhconfig in
          _ ← setupRekor rhconfig;
          if isUpdateRequest (rq_Operation req) then
            let ignoreFields := getMatchedIgnoreFields
              (vo_IgnoreFields (po_VerifyResourceOption paramObj))
              (rf_IgnoreFields (rhc_Filter rhconfig)) resource in
            match mutationCheck (rq_OldObject req) (rq_Object req) ignoreFields with
            | (_, Some err) =>
                mret (makeResultFromRequestHandler false
                  ("IntegrityShield failed to decide the response. Failed to check mutation: "
                     +:+ Error err) enforce)
            | (mutated, None) =>
                if negb mutated
                then mret (makeResultFromRequestHandler true "no mutation found" enforce)
                else decide_request req paramObj rhconfig resource enforce
            end
          else decide_request req paramObj rhconfig resource enforce
      end
  end.
End handler.

(** ** The policy the handler implements *)

Inductive SigFact := SigError | SigOutOfScope | SigVerified | SigUnverified.
#[export] Instance SigFact_eq_dec : EqDecision SigFact.
Proof. solve_decision. Defined.
Inductive MutFact := NoCheck | MutError | NotMutated | Mutated.
#[export] Instance MutFact_eq_dec : EqDecision MutFact.
Proof. solve_decision. Defined.

(** What the handler finds out about a request. *)
Record Facts := mkFacts {
  f_mut : MutFact;
  f_skipUser : bool;
  f_inScopeUser : bool;
  f_inScopeObj : bool;
  f_skipObj : bool;
  f_sig : SigFact;
  f_images : bool }.

(** Whether signature and images are acceptable. *)
Definition verified (f : Facts) : bool :=
  match f_sig f with
  | SigError | SigUnverified => false
  | SigOutOfScope | SigVerified => f_images f
  end.

(** The filters come before the verification. *)
Definition decision (f : Facts) : bool :=
  (f_skipUser f && negb (f_inScopeUser f)) || negb (f_inScopeObj f) || f_skipObj f
  || verified f.

Definition policy (f : Facts) : bool :=
  match f_mut f with
  | MutError => false
  | NotMutated => true
  | NoCheck | Mutated => decision f
  end.

(** The reasons for which the policy lets a request pass. *)
Inductive justified (f : Facts) : Prop :=
| by_no_mutation : f_mut f = NotMutated → justified f
| by_skip_user : f_skipUser f = true → f_inScopeUser f = false → justified f
| by_scope : f_inScopeObj f = false → justified f
| by_skip_object : f_skipObj f = true → justified f
| by_signature : f_sig f = SigVerified ∨ f_sig f = SigOutOfScope →
    f_images f = true → justified f.

Lemma policy_justified f : policy f = true → justified f.
Proof.
  unfold policy, decision, verified.
  destruct f as [[] [] [] [] [] [] []]; simpl; try done; intros _;
    solve [ by apply by_no_mutation | by apply by_skip_user | by apply by_scope
          | by apply by_skip_object | apply by_signature; auto ].
Qed.

Section facts.
Context {T : ExtTypes} {L : ExtLib T} {O : OS} {K : Kube} {S : Sigstore T K}
  {Y : ShieldYaml T}.
Implicit Types (req : Request) (po : ParameterObject) (rc : RequestHandlerConfig).

Definition sig_fact po rc (resource : Unstructured) (w : World) : SigFact :=
  match setVerifyOption po rc (annotationType resource) w with
  | (Ret vo, w2) =>
      match VerifyResource (w_env w2) (w_files w2) (w_cluster w2) resource vo with
      | Bad _ => SigError
      | Good r => if vr_InScope r then if vr_Verified r then SigVerified else SigUnverified
                  else SigOutOfScope
      end
  | (Panic _, _) => SigError
  end.

(** No image profile, or cosign accepts the images of the manifest. *)
Definition images_fact po rc (resource : Unstructured) (w : World) : bool :=
  negb (ImageProfile_Enabled (po_ImageProfile po)) ||
  match setVerifyOption po rc (annotationType resource) w with
  | (Ret _, w2) =>
      match VerifyImageInManifest resource (po_ImageProfile po) w2 with
      | (Ret (ok, _), _) => ok
      | (Panic _, _) => false
      end
  | (Panic _, _) => false
  end.

Definition mut_fact req po rc (resource : Unstructured) : MutFact :=
  if isUpdateRequest (rq_Operation req) then
    match mutationCheck (rq_OldObject req) (rq_Object req)
            (getMatchedIgnoreFields (vo_IgnoreFields (po_VerifyResourceOption po))
               (rf_IgnoreFields (rhc_Filter rc)) resource) with
    | (_, Some _) => MutError
    | (false, None) => NotMutated
    | (true, None) => Mutated
    end
  else NoCheck.

Definition facts req po rc (resource : Unstructured) (w : World) : Facts := mkFacts
  (mut_fact req po rc resource)
  (ObjectUserBindingList_Match (po_SkipUsers po) resource (rq_Username req)
   || ObjectUserBindingList_Match (rf_SkipUsers (rhc_Filter rc)) resource (rq_Username req))
  (ObjectUserBindingList_Match (InScopeUsers po) resource (rq_Username req))
  (ObjectReferenceList_Match (InScopeObjects po) resource)
  (skipObjectsMatch (rf_SkipObjects (rhc_Filter rc)) resource)
  (sig_fact po rc resource w)
  (images_fact po rc resource w).

(** The state in which the decision starts: logger and REKOR_SERVER are set. *)
Definition prepared rc (w : World) : World :=
  set_env rekorServerEnvKey (RekorServer rc) (state_of (SetupLogger (rhc_Log rc)) w).

(** ** Specifications of the parts *)

Lemma keyPathsOf_runs l w : runs (keyPathsOf l) w (λ _ w', files_only w w').
Proof.
  revert w. induction l as [|kc l IH]; intros w; simpl; [by apply runs_ret|].
  case_bool_decide; [|apply IH]. apply runs_bind.
  run_with LoadKeySecret_runs. intros r w1 [Hw1 _].
  apply runs_bind. run_with IH. intros ks w2 Hw2. apply runs_ret. by etrans.
Qed.

Lemma setVerifyOption_runs po rc sat w :
  runs (setVerifyOption po rc sat) w (λ vo w', files_only w w' ∧
    vo_DryRunNamespace vo = envor w "POD_NAMESPACE" defaultPodNamespace ∧
    vo_IgnoreFields vo = (vo_IgnoreFields (po_VerifyResourceOption po)
                          ++ rf_IgnoreFields (rhc_Filter rc))%list ∧
    vo_SkipObjects vo = vo_SkipObjects (po_VerifyResourceOption po) ∧
    vo_rest vo = vo_rest (po_VerifyResourceOption po)).
Proof.
  unfold setVerifyOption. apply runs_bind, runs_env_or. apply runs_bind.
  assert (∀ l : list ObjectFieldBinding, l = [] → (vo_IgnoreFields (po_VerifyResourceOption po) ++ l)%list = vo_IgnoreFields (po_VerifyResourceOption po)) as Hnil.
  { intros ? ->. apply app_nil_r. }
  assert (∀ A (l : list A), (length l =? 0)%nat = true → l = []) as Hlen.
  { intros A [|]; simpl; congruence. }
  destruct (negb _); [apply runs_bind; run_with keyPathsOf_runs; intros ks w1 Hw1|];
    apply runs_ret, runs_ret; simpl;
    (split; [done|]); split_and!; try done;
    (destruct (length (rf_IgnoreFields _) =? 0)%nat eqn:E; [|done];
     symmetry; auto).
Qed.

Lemma imageVerdict_runs resource prof w :
  runs (imageVerdict resource prof) w (λ v w', files_only w w' ∧
    v.1 = negb (ImageProfile_Enabled prof) ||
          match VerifyImageInManifest resource prof w with
          | (Ret (ok, _), _) => ok
          | (Panic _, _) => false
          end).
Proof.
  unfold imageVerdict. destruct (ImageProfile_Enabled prof); [|by apply runs_ret].
  destruct (VerifyImageInManifest_runs resource prof w) as ([ok e] & w' & E & Hf & Hok).
  apply runs_bind. eexists _, _. split; [exact E|]. rewrite E. simpl.
  apply runs_ret. split; [done|]. simpl in Hok. destruct e as [e|], ok; simpl; try done.
  - by destruct Hok as [Hok _]; specialize (Hok eq_refl).
  - by destruct Hok as [_ Hok]; specialize (Hok eq_refl).
Qed.

Lemma createOrUpdateEvent_runs req ar cn w :
  runs (createOrUpdateEvent req ar cn) w (λ _ w',
    w_env w' = w_env w ∧ w_files w' = w_files w ∧ (Allow ar = true → w' = w)).
Proof.
  unfold createOrUpdateEvent. destruct (Allow ar) eqn:Ha; [by apply runs_ret|].
  apply runs_bind, runs_getW. destruct (GetKubeConfig _); [by apply runs_ret|].
  destruct (NewForConfig _); [by apply runs_ret|].
  apply runs_bind, runs_env_or, runs_bind, runs_Now.
  destruct (rc_get _ _ _ _); apply runs_clusterM; by intros.
Qed.

Lemma makeResult_allow a m e : Allow (makeResultFromRequestHandler a m e) = negb e || a.
Proof. by destruct a, e. Qed.

Lemma signatureVerdict_allow r :
  (signatureVerdict r).1 = negb (vr_InScope r) || vr_Verified r.
Proof. unfold signatureVerdict. by destruct (vr_InScope r), (vr_Verified r). Qed.

(** An optional deny event: it happens for denied results only. *)
Lemma denyEvent_runs (b : bool) req ar cn w :
  runs (if b then createOrUpdateEvent req ar cn else mret None) w (λ _ w',
    w_env w' = w_env w ∧ w_files w' = w_files w ∧
    (b = false ∨ Allow ar = true → w_cluster w' = w_cluster w)).
Proof.
  destruct b; [|by apply runs_ret].
  run_with createOrUpdateEvent_runs. intros _ w' (? & ? & H). split_and!; auto.
  intros [?|Ha]; [done|]. by rewrite (H Ha).
Qed.

(** The claim carried through the decision: the verdict and the cluster frame. *)
Definition decided (enforce : bool) rc (v : bool) (w : World)
    (r : ResultFromRequestHandler) (w' : World) : Prop :=
  Allow r = negb enforce || v ∧
  (CreateDenyEvent rc = false ∨ Allow r = true → w_cluster w' = w_cluster w).

Lemma verifyBranch_runs req po rc resource enforce w :
  runs (verifyBranch req po rc resource enforce) w (λ v w',
    match v with
    | inr r => decided enforce rc
                 (verified (facts req po rc resource w)) w r w'
    | inl (a, _) => a = verified (facts req po rc resource w)
                    ∧ w_cluster w' = w_cluster w
    end).
Proof.
  unfold verifyBranch, verified, facts. simpl. apply runs_bind.
  unfold sig_fact, images_fact.
  destruct (setVerifyOption_runs po rc (annotationType resource) w)
    as (vo & w2 & E & (He & _ & _ & Hc) & _).
  rewrite E. eexists _, _. split; [exact E|]. apply runs_bind, runs_getW.
  destruct (VerifyResource _ _ _ _ _) as [r|err].
  - pose proof (signatureVerdict_allow r) as Hsv.
    destruct (signatureVerdict r) as [allow msg]. simpl in Hsv. apply runs_bind.
    run_with imageVerdict_runs. intros [ia im] w3 [(_ & _ & _ & Hc3) Hia]. simpl in Hia.
    apply runs_ret. rewrite <-Hia, Hsv, Hc3, Hc.
    by destruct (vr_InScope r), (vr_Verified r), ia.
  - apply runs_bind. run_with denyEvent_runs. intros _ w3 (_ & _ & H3). apply runs_ret.
    split; [by rewrite makeResult_allow|]. rewrite <-Hc. exact H3.
Qed.

Lemma decide_request_runs req po rc resource enforce w :
  runs (decide_request req po rc resource enforce) w
    (decided enforce rc (decision (facts req po rc resource w)) w).
Proof.
  unfold decide_request, decision. apply runs_bind.
  (* the early exits: the decision is known and the state unchanged *)
  assert (∀ b m w1, w_cluster w1 = w_cluster w →
    runs (_ ← (if CreateDenyEvent rc
               then createOrUpdateEvent req (makeResultFromRequestHandler b m enforce)
                      (ConstraintName po) else mret None);
          mret (makeResultFromRequestHandler b m enforce)) w1
      (decided enforce rc b w)) as Hend.
  { intros b m w1 Hw1. apply runs_bind. run_with denyEvent_runs.
    intros _ w2 (_ & _ & H2). apply runs_ret.
    split; [by rewrite makeResult_allow|]. rewrite <-Hw1. exact H2. }
  destruct ((_ || _) && negb _) eqn:E1.
  { apply runs_ret. unfold facts; simpl. rewrite E1. by apply Hend. }
  unfold facts at 1 2; simpl. rewrite E1. simpl.
  destruct (ObjectReferenceList_Match (InScopeObjects po) resource) eqn:E2; simpl.
  2: { apply runs_ret. by apply Hend. }
  destruct (skipObjectsMatch _ resource) eqn:E3; simpl.
  { apply runs_ret. by apply Hend. }
  run_with verifyBranch_runs. intros [[a m]|r] w1.
  - intros [-> Hw1]. by apply Hend.
  - intros Hd. by apply runs_ret.
Qed.
End facts.

(** ** Theorems *)
Section theorems.
Context {T : ExtTypes} {L : ExtLib T} {O : OS} {K : Kube} {S : Sigstore T K}
  {Y : ShieldYaml T}.
Implicit Types (req : Request) (po : ParameterObject) (w : World).

Lemma SetupLogger_cluster lc w : w_cluster (state_of (SetupLogger lc) w) = w_cluster w.
Proof. unfold state_of. by rewrite SetupLogger_run. Qed.

(** Both halves of the handler's contract at once. *)
Lemma RequestHandler_runs req po w :
  runs (RequestHandler req po) w (λ r w',
    match json_Unstructured (rq_Object req) with
    | Bad _ => Allow r = true ∧ w' = w
    | Good resource =>
        match loaded_config w with
        | (_, Some _) => Allow r = true ∧ w' = w
        | (rc, None) =>
            let rc := default RequestHandlerConfig_zero rc in
            decided (enforceAction po rc) rc
              (policy (facts req po rc resource (prepared rc w))) w r w'
        end
    end).
Proof.
  unfold RequestHandler. destruct (json_Unstructured (rq_Object req)) as [resource|e];
    [|by apply runs_ret].
  apply runs_bind. eexists _, _. split; [apply LoadRequestHandlerConfig_run|].
  destruct (loaded_config w) as [rc [e|]]; [by apply runs_ret|].
  set (rc' := default RequestHandlerConfig_zero rc).
  apply runs_bind. eexists _, _. split; [apply SetupLogger_run|]. apply runs_bind.
  eexists tt, (prepared rc' w). split.
  { unfold setupRekor, prepared, state_of. rewrite SetupLogger_run.
    case_bool_decide as Hr; [done|]. by rewrite Hr. }
  assert (w_cluster (prepared rc' w) = w_cluster w) as Hc by apply SetupLogger_cluster.
  unfold policy, facts at 1. simpl. unfold mut_fact.
  destruct (isUpdateRequest (rq_Operation req)).
  - destruct (mutationCheck _ _ _) as [[] [e|]]; simpl.
    1, 3: apply runs_ret; split; [by rewrite makeResult_allow|done].
    + unfold decided. rewrite <-Hc. apply decide_request_runs.
    + apply runs_ret; split; [by rewrite makeResult_allow|done].
  - unfold decided. rewrite <-Hc. apply decide_request_runs.
Qed.

(** C1.  The handler refines the policy: for every request, parameter object and
    state of the process and the cluster it returns without a panic, and it
    allows exactly when the object or the configuration cannot be read, or the
    constraint is not enforced, or the policy accepts the collected facts. *)
Theorem RequestHandler_refines_policy req po w :
  runs (RequestHandler req po) w (λ r _,
    Allow r =
    match json_Unstructured (rq_Object req), loaded_config w with
    | Good resource, (rc, None) =>
        let rc := default RequestHandlerConfig_zero rc in
        negb (enforceAction po rc)
        || policy (facts req po rc resource (prepared rc w))
    | _, _ => true
    end).
Proof.
  run_with RequestHandler_runs. intros r w'.
  destruct (json_Unstructured _); [|by intros [-> _]].
  destruct (loaded_config w) as [rc [e|]]; [by intros [-> _]|]. by intros [-> _].
Qed.

(** C2.  Complete mediation: when a readable request is allowed under
    enforcement, one of the documented reasons holds: an update without relevant
    mutation, a skipped user who is not forced into scope, an object out of
    scope, a skipped object, or a signature that verifies (or is not required)
    together with verified images. *)
Theorem RequestHandler_allow_sound req po w r w' resource rc :
  json_Unstructured (rq_Object req) = Good resource →
  loaded_config w = (rc, None) →
  enforceAction po (default RequestHandlerConfig_zero rc) = true →
  RequestHandler req po w = (Ret r, w') →
  Allow r = true →
  justified (facts req po (default RequestHandlerConfig_zero rc) resource
               (prepared (default RequestHandlerConfig_zero rc) w)).
Proof.
  intros Hj Hl He Hr Ha. pose proof (RequestHandler_runs req po w) as H.
  apply (runs_inv _ _ _ _ _ H) in Hr. rewrite Hj, Hl in Hr.
  destruct Hr as [Hr _]. rewrite He, Ha in Hr. apply policy_justified. by simpl in Hr.
Qed.

(** C29.  The handler writes to the cluster only to record a denial: whenever the
    request is allowed, the cluster is the same after the call as before it. *)
Theorem RequestHandler_allow_no_write req po w r w' :
  RequestHandler req po w = (Ret r, w') → Allow r = true →
  w_cluster w' = w_cluster w.
Proof.
  intros Hr Ha. pose proof (RequestHandler_runs req po w) as H.
  apply (runs_inv _ _ _ _ _ H) in Hr. destruct (json_Unstructured _) as [resource|];
    [|by destruct Hr as [_ ->]].
  destruct (loaded_config w) as [rc [e|]]; [by destruct Hr as [_ ->]|].
  destruct Hr as [_ Hr]. by apply Hr; right.
Qed.

(** The deny event is an upsert: after a successful call for a denied
    request the event of that operation, kind and name exists, carries the
    (bounded) deny message, counts one more denial than before (int32, starting
    at 1), and every other event is untouched. *)
Theorem createOrUpdateEvent_upserts `{!ResClientLaws ev_Name events} req ar cn w w' :
  Allow ar = false →
  createOrUpdateEvent req ar cn w = (Ret None, w') →
  let ns := denyEventNamespace req (envor w "POD_NAMESPACE" defaultPodNamespace) in
  (∃ evt, rc_get events (w_cluster w') ns (denyEventName req) = Good evt
     ∧ ev_Message evt = denyMessage cn (Message ar)
     ∧ ev_Count evt =
         match rc_get events (w_cluster w) ns (denyEventName req) with
         | Good old => int32 (ev_Count old + 1)
         | Bad _ => 1%Z
         end)
  ∧ ∀ ns' n, (ns', n) ≠ (ns, denyEventName req) →
      rc_get events (w_cluster w') ns' n = rc_get events (w_cluster w) ns' n.
Proof.
  intros Ha Hrun ns. unfold createOrUpdateEvent in Hrun. rewrite Ha in Hrun.
  go_unfold. unfold Now, clusterM in Hrun.
  destruct (GetKubeConfig _); [done|]. destruct (NewForConfig _); [done|].
  rewrite env_or_run in Hrun. fold ns in Hrun. simpl in Hrun.
  destruct (rc_get events (w_cluster w) ns (denyEventName req)) as [old|e] eqn:Eg.
  - pose proof (get_name _ _ _ _ Eg) as Hn.
    destruct (rc_update _ _ _ _) as [e c] eqn:Eu. simplify_eq. simpl. split.
    + eexists. split; [rewrite <-Hn; exact (update_get _ _ _ _ Eu)|]. by split.
    + intros ns' n' Hne. eapply update_other; [exact Eu|]. simpl. by rewrite Hn.
  - destruct (rc_create _ _ _ _) as [e' c] eqn:Eu. simplify_eq. simpl. split.
    + eexists. split; [exact (create_get _ _ _ _ Eu)|]. by split.
    + intros ns' n' Hne. eapply create_other; [exact Eu|done].
Qed.

(** The message of a deny event never exceeds the 1024 bytes the API
    accepts, whatever the constraint name and the handler's message; a message
    that fits is kept unchanged. *)
Theorem denyMessage_bounded cn m :
  (len (denyMessage cn m) ≤ 1024)%nat ∧
  ((len ("[" +:+ cn +:+ "]" +:+ m) ≤ 1024)%nat →
   denyMessage cn m = "[" +:+ cn +:+ "]" +:+ m).
Proof.
  unfold denyMessage. destruct (Nat.ltb_spec 1024 (len ("[" +:+ cn +:+ "]" +:+ m))).
  - split; [|lia]. rewrite len_app.
    pose proof (len_take 950 ("[" +:+ cn +:+ "]" +:+ m)).
    assert (len " ... Trimmed. `Event.Message` can have 1024 chars at maximum." = 61%nat)
      as -> by reflexivity. lia.
  - done.
Qed.

(** An update counts as mutated exactly when both objects can be read and,
    after the volatile metadata and the status are masked, a difference remains
    that no matched ignore field covers. *)
Theorem mutationCheck_spec old new ignore :
  mutationCheck old new ignore = (true, None) ↔
  ∃ vo vn d, NewFromBytes old = (Some vo, None) ∧ NewFromBytes new = (Some vn, None)
    ∧ Node_Diff (maskedNode vo) (maskedNode vn) = Some d
    ∧ Diff_Size d ≠ 0%nat ∧ Diff_Size (Diff_Filter d ignore) ≠ 0%nat.
Proof.
  unfold mutationCheck. split.
  - intros H. repeat case_match; simplify_eq. eexists _, _, _. split_and!; try done.
    + by apply Nat.eqb_neq.
    + by apply Nat.eqb_neq.
  - intros (vo & vn & d & -> & -> & Hd & H1 & H2). simpl. rewrite Hd.
    apply Nat.eqb_neq in H1, H2. by rewrite H1, H2.
Qed.

(** C37.  A request whose object cannot be decoded, or that arrives while the
    handler configuration cannot be loaded, is let through: the result allows,
    its message says that the shield could not decide, nothing is written, and
    this does not depend on the action of the constraint. *)
Theorem RequestHandler_unreadable_allowed req po w e :
  json_Unstructured (rq_Object req) = Bad e ∨
    (is_good (json_Unstructured (rq_Object req)) = true ∧ ∃ rc, loaded_config w = (rc, Some e)) →
  ∃ why, RequestHandler req po w =
    (Ret (mkResult true ("allowed because not enforced: "
            +:+ "IntegrityShield failed to decide the response. " +:+ why
            +:+ Error e) ""), w).
Proof.
  unfold RequestHandler. intros [Hj|[Hj [rc Hl]]].
  - rewrite Hj. by eexists "Failed to Unmarshal a requested object: ".
  - destruct (json_Unstructured _); [|done].
    rewrite (M_bind_Ret _ _ _ _ _ (LoadRequestHandlerConfig_run w)), Hl.
    by eexists "Failed to load request handler config: ".
Qed.

(** The verification options handed to sigstore: the ignore fields of the
    constraint followed by the common ones, the references of the constraint when
    they are complete, a non-empty dry-run namespace; skip objects and signers
    are those of the constraint, and nothing but key files is written. *)
Theorem setVerifyOption_spec po rc sat w :
  let sr := po_SignatureRef po in
  let vo0 := po_VerifyResourceOption po in
  runs (setVerifyOption po rc sat) w (λ vo w',
    vo_IgnoreFields vo = (vo_IgnoreFields vo0 ++ rf_IgnoreFields (rhc_Filter rc))%list ∧
    vo_DryRunNamespace vo ≠ "" ∧
    vo_ImageRef vo = (if bool_decide (sr_ImageRef sr = "") then vo_ImageRef vo0
                      else sr_ImageRef sr) ∧
    vo_SkipObjects vo = vo_SkipObjects vo0 ∧ vo_rest vo = vo_rest vo0 ∧
    files_only w w').
Proof.
  intros sr vo0. pose proof (setVerifyOption_runs po rc sat w) as H1.
  assert (runs (setVerifyOption po rc sat) w (λ vo _,
    vo_ImageRef vo = (if bool_decide (sr_ImageRef sr = "") then vo_ImageRef vo0
                      else sr_ImageRef sr))) as H2.
  { unfold setVerifyOption. apply runs_bind, runs_env_or, runs_bind.
    subst sr. destruct (negb _); [apply runs_bind; run_with keyPathsOf_runs; intros ks w1 _|];
      apply runs_ret, runs_ret; simpl; repeat case_bool_decide; done. }
  eapply runs_mono; [exact (runs_and _ _ _ _ H1 H2)|].
  intros vo w' [(Hf & Hn & Hi & Hs & Hr) Him]. split_and!; try done.
  rewrite Hn. by apply envor_nonempty.
Qed.

(** Two key secrets that cannot be loaded leave the key path [","], a list
    of two empty paths, instead of no key path: the request is then verified
    with that key path, not with the one configured in the parameters. *)
Theorem setVerifyOption_failing_keys po rc sat w k1 k2 e1 e2 :
  po_KeyConfigs po = [k1; k2] →
  KeySecretName k1 ≠ "" → KeySecretName k2 ≠ "" →
  GetSecret (w_cluster w) (KeySecretNamespace k1) (KeySecretName k1) = Bad e1 →
  GetSecret (w_cluster w) (KeySecretNamespace k2) (KeySecretName k2) = Bad e2 →
  runs (setVerifyOption po rc sat) w (λ vo _, vo_KeyPath vo = ",").
Proof.
  intros Hk H1 H2 E1 E2. unfold setVerifyOption. rewrite Hk. simpl.
  apply runs_bind, runs_env_or, runs_bind, runs_bind.
  rewrite !bool_decide_eq_true_2 by done. apply runs_bind.
  run_with LoadKeySecret_runs. rewrite E1. intros r w1 (_ & -> & ->).
  apply runs_bind, runs_bind. run_with LoadKeySecret_runs. rewrite E2.
  intros r w2 (_ & -> & ->). do 3 apply runs_bind || idtac.
  repeat (apply runs_ret || apply runs_bind). done.
Qed.
End theorems.

(** ** The theorems at concrete requests *)
Section witnesses.
Import Demo.
Local Open Scope string_scope.

Definition signed : Request := req0 "CREATE" "bob" "" "ConfigMap/ns1/cm1/sig=alice".
Definition unsigned : Request := req0 "CREATE" "bob" "" "ConfigMap/ns1/cm1/sig=mallory".
Definition garbage : Request := req0 "CREATE" "bob" "" "%".
Definition w_enf : World := world_with "events".
Definition cfg : RequestHandlerConfig :=
  default RequestHandlerConfig_zero (yaml_RequestHandlerConfig "events").1.

(** A signed request is allowed, an unsigned one is denied under enforcement. *)
Example signed_allowed :
  result_of (RequestHandler signed param0) w_enf =
  Ret (mkResult true "singed by a valid signer: alice" "").
Proof. vm_compute. reflexivity. Qed.
Example unsigned_denied :
  result_of (RequestHandler unsigned param0) w_enf =
  Ret (mkResult false
    "Signature verification is required for this request, but no signer config matches with this resource. This is signed by mallory" "").
Proof. vm_compute. reflexivity. Qed.

Lemma RequestHandler_allow_sound_witness :
  justified (facts signed param0 cfg (mkObj "ConfigMap" "ns1" "cm1" {["sig" := "alice"]})
               (prepared cfg w_enf)).
Proof.
  apply (RequestHandler_allow_sound signed param0 w_enf
    (mkResult true "singed by a valid signer: alice" "")
    (state_of (RequestHandler signed param0) w_enf)
    (mkObj "ConfigMap" "ns1" "cm1" {["sig" := "alice"]}) (Some cfg));
    try apply run_eta; vm_compute; reflexivity.
Defined.

Lemma RequestHandler_allow_no_write_witness :
  w_cluster (state_of (RequestHandler signed param0) w_enf) = w_cluster w_enf.
Proof.
  apply (RequestHandler_allow_no_write signed param0 w_enf
    (mkResult true "singed by a valid signer: alice" "")); try apply run_eta;
    vm_compute; reflexivity.
Defined.

Definition denied : ResultFromRequestHandler := mkResult false "no signature" "".
Lemma createOrUpdateEvent_upserts_witness :
  ∃ evt, rc_get events
    (w_cluster (state_of (createOrUpdateEvent unsigned denied "c0") w_enf))
    "ns1" "ishield-deny-create-configmap-cm1" = Good evt ∧ ev_Count evt = 1%Z.
Proof.
  destruct (createOrUpdateEvent_upserts unsigned denied "c0" w_enf
    (state_of (createOrUpdateEvent unsigned denied "c0") w_enf)
    ltac:(reflexivity) ltac:(apply run_eta; vm_compute; reflexivity)) as [(evt & Hg & _ & Hc) _].
  exists evt. split; [exact Hg|exact Hc].
Defined.

Lemma RequestHandler_unreadable_allowed_witness :
  ∃ why, RequestHandler garbage param0 w_enf =
    (Ret (mkResult true ("allowed because not enforced: "
            +:+ "IntegrityShield failed to decide the response. " +:+ why
            +:+ "invalid object") ""), w_enf).
Proof.
  apply (RequestHandler_unreadable_allowed garbage param0 w_enf (errNew "invalid object")).
  left. vm_compute. reflexivity.
Defined.

Lemma denyMessage_bounded_witness :
  denyMessage "c0" "denied" = "[c0]denied".
Proof.
  apply (proj2 (denyMessage_bounded "c0" "denied")).
  apply Nat.leb_le. vm_compute. reflexivity.
Defined.

Definition param_keys : ParameterObject :=
  mkParam "c0" (po_SignatureRef param0) [mkKeyConfig "gone1" "ns1"; mkKeyConfig "gone2" "ns1"]
    [] [] [] (po_ImageProfile param0) vo0 None.
Lemma setVerifyOption_failing_keys_witness :
  runs (setVerifyOption param_keys cfg "") w_enf (λ vo _, vo_KeyPath vo = ",").
Proof.
  apply (setVerifyOption_failing_keys param_keys cfg "" w_enf
    (mkKeyConfig "gone1" "ns1") (mkKeyConfig "gone2" "ns1")
    (notFound "gone1") (notFound "gone2")); (vm_compute; reflexivity) || discriminate.
Defined.
End witnesses.
