(* ===== verification/ApiServer.v ===== *)
(** * shield/main.go: the HTTP server of the request handler

    The handlers, the routes and the start-up of the API server.  An HTTP exchange
    runs in the state [Http]: the process state and the response written so far
    (status and body; header fields are not kept).  [http.ServeMux] and the
    per-request recovery of panics are those of the standard library.  Requests are
    served one after the other: concurrent requests are not interleaved.

    The decoders and encoders of [encoding/json] at the types in use are the
    parameters of [ApiJson], the transport is [HttpConn]. *)
From S2P Require Import Prelude GoStrings World ShieldConfig Demo ImageVerify RequestHandler.
From stdpp Require Import base gmap strings list.
From Stdlib Require Import Ascii ZArith Lia.

Local Open Scope string_scope.

(** ** HTTP *)

Record HttpRequest := mkHttpRequest {
  hr_Method : string;
  hr_Path : string;               (* r.URL.Path *)
  hr_ContentType : string;        (* Header.Get of Content-Type *)
  hr_Body : string }.             (* what ReadFrom(r.Body) delivers *)
Record HttpResponse := mkHttpResponse {
  rp_Status : option Z;           (* None: no header has been written *)
  rp_Body : string }.

Definition StatusOK : Z := 200.
Definition StatusMovedPermanently : Z := 301.
Definition StatusBadRequest : Z := 400.
Definition StatusNotFound : Z := 404.
Definition StatusInternalServerError : Z := 500.

(** A JSON value as [encoding/json] stores it in an [interface{}]. *)
Inductive JVal :=
| JNull
| JBool (b : bool)
| JNumber (text : string)
| JString (s : string)
| JArray (l : list JVal)
| JObject (m : list (string * JVal)).

Definition jlookup (m : list (string * JVal)) (k : string) : option JVal :=
  snd <$> head (filter (λ kv, kv.1 = k) m).
(** The dynamic type in the text of a failed type assertion. *)
Definition dynamicType (v : JVal) : string :=
  match v with
  | JNull => "nil" | JBool _ => "bool" | JNumber _ => "float64" | JString _ => "string"
  | JArray _ => "[]interface {}" | JObject _ => "map[string]interface {}"
  end.

(** The transport: how much of a write is sent, and its error. *)
Class HttpConn := { conn_write : string → string → string * option error }.

Class ApiJson (T : ExtTypes) := {
  json_Map : string → res (list (string * JVal));
  json_MarshalMap : list (string * JVal) → string;
  (* the pointer that Unmarshal leaves; its error is dropped *)
  json_Request : string → option Request;
  json_Parameters : string → option ParameterObject;
  json_Result : ResultFromRequestHandler → res string }.

Section api.
Context {T : ExtTypes} {L : ExtLib T} {O : OS} {K : Kube} {S : Sigstore T K}
  {Y : ShieldYaml T} {N : HttpConn} {J : ApiJson T}.

Record Http := mkHttp { h_world : World; h_resp : HttpResponse }.

(** A call that acts on the process only. *)
Definition process {A} (c : M World A) : M Http A := λ h,
  let '(r, w) := c (h_world h) in (r, mkHttp w (h_resp h)).

(** [w.WriteHeader]: the first call counts. *)
Definition WriteHeader (status : Z) : M Http unit := modifyW (λ h,
  mkHttp (h_world h) (match rp_Status (h_resp h) with
    | Some _ => h_resp h
    | None => mkHttpResponse (Some status) (rp_Body (h_resp h)) end)).
(** [w.Write]: implies status 200 when no header was written. *)
Definition Write (data : string) : M Http (option error) :=
  _ ← WriteHeader StatusOK;
  h ← getW;
  let '(sent, err) := conn_write (rp_Body (h_resp h)) data in
  _ ← modifyW (λ h, mkHttp (h_world h)
        (mkHttpResponse (rp_Status (h_resp h)) (rp_Body (h_resp h) +:+ sent)));
  mret err.
Definition newline : string := String (ascii_of_nat 10) "".
Definition http_Error (error : string) (code : Z) : M Http unit :=
  _ ← WriteHeader code; _ ← Write (error +:+ newline); mret tt.

(** ** Handlers *)

Definition errorHandler (status : Z) : M Http unit :=
  _ ← WriteHeader status;
  if bool_decide (status = StatusNotFound)
  then _ ← Write "Custom 404"; mret tt
  else mret tt.

Definition defaultHandler (r : HttpRequest) : M Http unit := errorHandler StatusNotFound.

Definition checkLiveness (r : HttpRequest) : M Http unit :=
  let msg := "liveness ok" in _ ← Write msg; mret tt.
Definition checkReadiness (r : HttpRequest) : M Http unit :=
  let msg := "readiness ok" in _ ← Write msg; mret tt.

(** [if v != nil { m := v.(map[string]interface{}); ... }]: a nil interface leaves
    the pointer nil, a value of another type panics. *)
Definition fromObject {A} (v : JVal) (decode : string → option A) : M Http (option A) :=
  match v with
  | JNull => mret None
  | JObject m => mret (decode (json_MarshalMap m))
  | _ => panic ("interface conversion: interface {} is " +:+ dynamicType v
                +:+ ", not map[string]interface {}")
  end.

Definition requestHandler (r : HttpRequest) : M Http unit :=
  if bool_decide (hr_Method r ≠ "POST") then WriteHeader StatusBadRequest
  else if bool_decide (hr_ContentType r ≠ "application/json")
  then WriteHeader StatusBadRequest
  else
  match json_Map (hr_Body r) with
  | Bad err => http_Error ("unmarshaling input data as map[string]interface{}: "
                           +:+ Error err) StatusInternalServerError
  | Good inputMap =>
    match jlookup inputMap "request" with
    | None => http_Error "failed to find `request` key in input object"
                StatusInternalServerError
    | Some requestIf =>
      request ← fromObject requestIf json_Request;
      match request with
      | None => http_Error
          "failed to convert `request` in input object into *admission.Request"
          StatusInternalServerError
      | Some request =>
        match jlookup inputMap "parameters" with
        | None => http_Error "failed to find `parameters` key in input object"
                    StatusInternalServerError
        | Some parametersIf =>
          parameters ← fromObject parametersIf json_Parameters;
          match parameters with
          | None => http_Error
              "failed to convert `parameters` in input object into *config.ParameterObject"
              StatusInternalServerError
          | Some parameters =>
            result ← process (RequestHandler request parameters);
            match json_Result result with
            | Bad err => http_Error ("marshaling request handler result: " +:+ Error err)
                           StatusInternalServerError
            | Good resp =>
              err ← Write resp;
              match err with
              | Some err => http_Error ("could not write response: " +:+ Error err)
                              StatusInternalServerError
              | None => mret tt
              end
            end
          end
        end
      end
    end
  end.

(** ** Routes *)

(** [http.ServeMux] for patterns that do not end in a slash: an unclean path is
    redirected, otherwise the pattern must be the path. *)
Definition cleanPath (p : string) : string :=
  if bool_decide (p = "") then "/"
  else let p := if HasPrefix p "/" then p else "/" +:+ p in
       let np := Clean p in
       if HasSuffix p "/" && bool_decide (np ≠ "/") then np +:+ "/" else np.

Definition routes : list (string * (HttpRequest → M Http unit)) :=
  [ ("/api", defaultHandler);
    ("/api/request", requestHandler);
    ("/health/liveness", checkLiveness);
    ("/health/readiness", checkReadiness) ].

Definition muxMatch (path : string) : option (HttpRequest → M Http unit) :=
  snd <$> head (filter (λ kv, kv.1 = path) routes).
Definition ServeHTTP (r : HttpRequest) : M Http unit :=
  if bool_decide (hr_Method r ≠ "CONNECT") && bool_decide (cleanPath (hr_Path r) ≠ hr_Path r)
  then WriteHeader StatusMovedPermanently
  else match muxMatch (hr_Path r) with
  | Some handler => handler r
  | None => http_Error "404 page not found" StatusNotFound
  end.

(** One exchange: the server recovers a panic of the handler and drops the
    connection ([None]); a handler that wrote nothing answers 200. *)
Definition exchange (r : HttpRequest) : M World (option HttpResponse) := λ w,
  match ServeHTTP r (mkHttp w (mkHttpResponse None "")) with
  | (Ret _, h) =>
      (Ret (Some (mkHttpResponse (Some (default StatusOK (rp_Status (h_resp h))))
                    (rp_Body (h_resp h)))), h_world h)
  | (Panic _, h) => (Ret None, h_world h)
  end.

(** ** Start-up *)

Definition tlsDir := "/run/secrets/tls".
Definition tlsCertFile := "tls.crt".
Definition tlsKeyFile := "tls.key".
Definition api_Addr := ":8080".

(** [tls.LoadX509KeyPair], [ListenAndServeTLS]'s final error, and cosign's [init]
    command. *)
Class ApiTls := {
  KeyPair : Type;
  LoadX509KeyPair : Files → string → string → res KeyPair;
  cosign_init : Files → Files }.

Definition api_init `{ApiTls} : M World unit :=
  _ ← modifyW (λ w, set_log (w_level w) true w);
  modifyW (λ w, set_files (cosign_init (w_files w)) w).

(** [main] with the requests that arrive before the listener fails with [err]. *)
Definition api_main `{ApiTls} (requests : list HttpRequest) (err : error)
    : M World (list (option HttpResponse)) :=
  let tlsCertPath := JoinPath [tlsDir; tlsCertFile] in
  let tlsKeyPath := JoinPath [tlsDir; tlsKeyFile] in
  pair ← asksW (λ w, LoadX509KeyPair (w_files w) tlsCertPath tlsKeyPath);
  match pair with
  | Bad err => panic ("unable to load certs: " +:+ Error err)
  | Good _ =>
      _ ← mapMW exchange requests;
      panic ("Fail to run integrity shield api: " +:+ Error err)
  end.
End api.

(** ** What the server does *)

Section api_proofs.
Context {T : ExtTypes} {L : ExtLib T} {O : OS} {K : Kube} {S : Sigstore T K}
  {Y : ShieldYaml T} {N : HttpConn} {J : ApiJson T}.

(** A body is refused with a message, makes the handler panic, or carries a request
    and its parameters. *)
Inductive ApiInput :=
| Refused (msg : string)
| NotObject
| Ready (req : Request) (parameters : ParameterObject).

Definition objectOf {A} (v : JVal) (decode : string → option A) (msg : string)
    (k : A → ApiInput) : ApiInput :=
  match v with
  | JNull => Refused msg
  | JObject m => match decode (json_MarshalMap m) with Some a => k a | None => Refused msg end
  | _ => NotObject
  end.
Definition apiInput (body : string) : ApiInput :=
  match json_Map body with
  | Bad err => Refused ("unmarshaling input data as map[string]interface{}: " +:+ Error err)
  | Good m =>
    match jlookup m "request" with
    | None => Refused "failed to find `request` key in input object"
    | Some v =>
      objectOf v json_Request
        "failed to convert `request` in input object into *admission.Request" (λ req,
      match jlookup m "parameters" with
      | None => Refused "failed to find `parameters` key in input object"
      | Some v =>
        objectOf v json_Parameters
          "failed to convert `parameters` in input object into *config.ParameterObject"
          (λ po, Ready req po)
      end)
    end
  end.

(** The transport sends everything it is given. *)
Definition reliable : Prop := ∀ sent data, conn_write sent data = (data, None).

Definition fresh (w : World) : Http := mkHttp w (mkHttpResponse None "").

(** The response after a first write of [data] with status [code]. *)
Definition first_write (code : Z) (data : string) (p : HttpResponse) : Prop :=
  rp_Status p = Some code ∧ (reliable → rp_Body p = data).

Lemma Write_runs data h (P : option error → Http → Prop) :
  (∀ sent err p, conn_write (rp_Body (h_resp h)) data = (sent, err) →
     rp_Status p = Some (default StatusOK (rp_Status (h_resp h))) →
     rp_Body p = rp_Body (h_resp h) +:+ sent →
     P err (mkHttp (h_world h) p)) →
  runs (Write data) h P.
Proof.
  intros HP. unfold Write, WriteHeader. run_step. run_step. run_step. run_step.
  destruct h as [w [st b]]. simpl in *.
  assert (rp_Body (match st with Some _ => mkHttpResponse st b
    | None => mkHttpResponse (Some StatusOK) b end) = b) as Hb by by destruct st.
  rewrite Hb. destruct (conn_write b data) as [sent err] eqn:E.
  run_step. run_step. run_step. simpl. eapply HP; [done|by destruct st|]. simpl. by rewrite Hb.
Qed.
Lemma http_Error_runs msg code w :
  runs (http_Error msg code) (fresh w) (λ _ h,
    h_world h = w ∧ first_write code (msg +:+ newline) (h_resp h)).
Proof.
  unfold http_Error, WriteHeader, fresh. run_step. run_step. simpl.
  run_step. apply Write_runs. simpl. intros sent err p E Hs Hb. run_step. simpl.
  split; [done|]. split; [done|]. intros Hrel. rewrite Hrel in E. by simplify_eq.
Qed.
Lemma process_runs {A} (c : M World A) h (P : A → Http → Prop) :
  runs c (h_world h) (λ a w, P a (mkHttp w (h_resp h))) → runs (process c) h P.
Proof.
  intros (a & w & E & HP). exists a, (mkHttp w (h_resp h)). split; [|done].
  unfold process. by rewrite E.
Qed.
Lemma process_Ret {A} (c : M World A) h a w :
  c (h_world h) = (Ret a, w) → process c h = (Ret a, mkHttp w (h_resp h)).
Proof. unfold process. by intros ->. Qed.

(** The answer to a well-formed request for a decision. *)
Definition decision_sent (req : Request) (po : ParameterObject) (w : World) (h : Http) : Prop :=
  ∃ result, RequestHandler req po w = (Ret result, h_world h) ∧
    match json_Result result with
    | Good resp => first_write StatusOK resp (h_resp h)
    | Bad err => rp_Status (h_resp h) = Some StatusInternalServerError
    end.

Lemma decision_runs req po w :
  runs (result ← process (RequestHandler req po);
        match json_Result result with
        | Bad err => http_Error ("marshaling request handler result: " +:+ Error err)
                       StatusInternalServerError
        | Good resp =>
          err ← Write resp;
          match err with
          | Some err => http_Error ("could not write response: " +:+ Error err)
                          StatusInternalServerError
          | None => mret tt
          end
        end) (fresh w) (λ _ h, decision_sent req po w h).
Proof.
  destruct (RequestHandler_runs req po w) as (r & w' & E & _).
  run_step. eexists r, (fresh w'). split; [by apply process_Ret|].
  destruct (json_Result r) as [resp|err] eqn:Er.
  2: { run_with http_Error_runs. intros _ h [Hw [Hs _]]. exists r. by rewrite Er, Hw. }
  run_step. apply Write_runs. simpl. intros sent err p Ec Hs Hb.
  destruct err as [err|].
  - unfold http_Error, WriteHeader. run_step. run_step. run_step. apply Write_runs.
    simpl. rewrite Hs. intros sent' err' p' _ Hs' _. run_step. exists r.
    rewrite Er. split; [done|]. split; [by rewrite Hs in Hs'|]. intros Hrel. by rewrite Hrel in Ec.
  - run_step. exists r. rewrite Er. split; [done|]. split; [done|]. intros Hrel.
    rewrite Hrel in Ec. by simplify_eq.
Qed.

(** Outcome of [requestHandler] on a POST of JSON. *)
Definition input_answered (i : ApiInput) (w : World) (c : M Http unit) : Prop :=
  match i with
  | Refused msg => runs c (fresh w) (λ _ h, h_world h = w ∧
      first_write StatusInternalServerError (msg +:+ newline) (h_resp h))
  | NotObject => ∃ why, c (fresh w) = (Panic why, fresh w)
  | Ready req po => runs c (fresh w) (λ _ h, decision_sent req po w h)
  end.
Lemma fromObject_answered {A} v (decode : string → option A) msg k w (f : A → M Http unit) :
  (∀ a, input_answered (k a) w (f a)) →
  input_answered (objectOf v decode msg k) w
    (o ← fromObject v decode;
     match o with None => http_Error msg StatusInternalServerError | Some a => f a end).
Proof.
  intros Hf. assert (input_answered (Refused msg) w (http_Error msg StatusInternalServerError))
    as He by apply http_Error_runs.
  destruct v; simpl; try (eexists; reflexivity); [apply He|].
  destruct (decode (json_MarshalMap m)) as [a|]; [apply Hf|apply He].
Qed.
Lemma requestHandler_answered r w :
  hr_Method r = "POST" → hr_ContentType r = "application/json" →
  input_answered (apiInput (hr_Body r)) w (requestHandler r).
Proof.
  intros Hm Hc. unfold requestHandler, apiInput. rewrite Hm, Hc.
  rewrite !bool_decide_eq_false_2 by naive_solver.
  destruct (json_Map (hr_Body r)) as [m|err]; [|apply http_Error_runs].
  destruct (jlookup m "request") as [v|]; [|apply http_Error_runs].
  apply fromObject_answered. intros req.
  destruct (jlookup m "parameters") as [v'|]; [|apply http_Error_runs].
  apply fromObject_answered. intros po. apply decision_runs.
Qed.

Lemma exchange_of r w (P : HttpResponse → World → Prop) :
  runs (ServeHTTP r) (fresh w) (λ _ h,
    P (mkHttpResponse (Some (default StatusOK (rp_Status (h_resp h)))) (rp_Body (h_resp h)))
      (h_world h)) →
  runs (exchange r) w (λ a w', ∃ p, a = Some p ∧ P p w').
Proof.
  intros (u & h & E & HP). unfold runs, exchange. fold (fresh w). rewrite E. eauto 6.
Qed.
Lemma exchange_panic r w why h :
  ServeHTTP r (fresh w) = (Panic why, h) → exchange r w = (Ret None, h_world h).
Proof. intros E. unfold exchange. fold (fresh w). by rewrite E. Qed.

(** C31. The API answers a request for a decision exactly once.  A body that is not
    the documented object is answered 500 with the reason, or (where a value has
    the wrong JSON type) the connection is dropped, without touching the process;
    otherwise [RequestHandler] runs once, its effects are kept, and the answer is
    200 with the encoded result. *)
Theorem api_request_answered r w :
  hr_Path r = "/api/request" → hr_Method r = "POST" →
  hr_ContentType r = "application/json" →
  runs (exchange r) w (λ a w',
    match apiInput (hr_Body r) with
    | Refused msg => w' = w ∧
        ∃ p, a = Some p ∧ first_write StatusInternalServerError (msg +:+ newline) p
    | NotObject => w' = w ∧ a = None
    | Ready req po =>
        ∃ result p, RequestHandler req po w = (Ret result, w') ∧ a = Some p ∧
        match json_Result result with
        | Good resp => first_write StatusOK resp p
        | Bad _ => rp_Status p = Some StatusInternalServerError
        end
    end).
Proof.
  intros Hp Hm Hc. pose proof (requestHandler_answered r w Hm Hc) as H.
  assert (ServeHTTP r = requestHandler r) as Hr
    by (unfold ServeHTTP; rewrite Hp, Hm; reflexivity).
  rewrite <-Hr in H. destruct (apiInput (hr_Body r)) as [msg| |req po]; simpl in H.
  - eapply runs_mono; [apply exchange_of with (P := λ p w', w' = w ∧
      first_write StatusInternalServerError (msg +:+ newline) p)|].
    + run_with H. intros _ h [Hw [Hs Hb]]. split; [done|]. split; [by rewrite Hs|done].
    + naive_solver.
  - destruct H as [why H]. exists None, w. split; [|done]. by apply exchange_panic in H.
  - eapply runs_mono; [apply exchange_of with (P := λ p w',
      ∃ result, RequestHandler req po w = (Ret result, w') ∧
        match json_Result result with
        | Good resp => first_write StatusOK resp p
        | Bad _ => rp_Status p = Some StatusInternalServerError end)|].
    + run_with H. intros _ h (result & E & Hres). exists result. split; [done|].
      destruct (json_Result result); simpl in *; [|by rewrite Hres].
      destruct Hres as [Hs Hb]. split; [by rewrite Hs|done].
    + naive_solver.
Qed.

(** The status of every exchange that does not reach [RequestHandler]. *)
Definition routeStatus (r : HttpRequest) : Z :=
  if bool_decide (hr_Method r ≠ "CONNECT") && bool_decide (cleanPath (hr_Path r) ≠ hr_Path r)
  then StatusMovedPermanently
  else if bool_decide (hr_Path r = "/api/request") then StatusBadRequest
  else if bool_decide (hr_Path r ∈ ["/health/liveness"; "/health/readiness"]) then StatusOK
  else StatusNotFound.

Lemma WriteHeader_runs code w :
  runs (WriteHeader code) (fresh w) (λ _ h, h_world h = w ∧ rp_Status (h_resp h) = Some code).
Proof. unfold WriteHeader. by run_step. Qed.
Lemma first_Write_runs data w :
  runs (Write data) (fresh w) (λ _ h, h_world h = w ∧ first_write StatusOK data (h_resp h)).
Proof.
  apply Write_runs. simpl. intros sent err p E Hs Hb. split; [done|]. split; [done|].
  intros Hrel. rewrite Hrel in E. by simplify_eq.
Qed.
Lemma health_runs data w :
  runs (_ ← Write data; mret tt) (fresh w) (λ _ h, h_world h = w ∧ rp_Status (h_resp h) = Some StatusOK).
Proof. run_step. run_with first_Write_runs. intros e h [? [? _]]. by run_step. Qed.

Lemma muxMatch_None p :
  p ∉ ["/api"; "/api/request"; "/health/liveness"; "/health/readiness"] → muxMatch p = None.
Proof.
  intros Hp. unfold muxMatch, routes.
  repeat (rewrite filter_cons_False by (simpl; set_solver)). by rewrite filter_nil.
Qed.

Lemma ServeHTTP_other r w :
  hr_Path r ≠ "/api/request" ∨ hr_Method r ≠ "POST" ∨ hr_ContentType r ≠ "application/json" →
  runs (ServeHTTP r) (fresh w) (λ _ h, h_world h = w ∧ rp_Status (h_resp h) = Some (routeStatus r)).
Proof.
  intros Hr. unfold ServeHTTP, routeStatus.
  destruct (_ && _); [apply WriteHeader_runs|].
  destruct (decide (hr_Path r ∈ ["/api"; "/api/request"; "/health/liveness"; "/health/readiness"]))
    as [Hin|Hin].
  - repeat (apply elem_of_cons in Hin as [E|Hin]; [rewrite E in *|]); [..|by apply elem_of_nil in Hin].
    + unfold muxMatch. simpl. unfold defaultHandler, errorHandler, WriteHeader. run_step. run_step.
      rewrite bool_decide_eq_true_2 by done.
      run_step. apply Write_runs. intros sent err p _ Hs _. by run_step.
    + unfold muxMatch. simpl. unfold requestHandler.
      case_bool_decide; [apply WriteHeader_runs|]. case_bool_decide; [apply WriteHeader_runs|].
      naive_solver.
    + apply health_runs.
    + apply health_runs.
  - rewrite muxMatch_None by done. rewrite !bool_decide_eq_false_2 by set_solver.
    run_with http_Error_runs. intros _ h [? [? _]]. done.
Qed.

(** Nothing but a JSON POST to [/api/request] reaches the request handler: every
    other exchange leaves the process state alone and is answered with the status
    of its route (301 for an unclean path, 400 for a wrong method or content type,
    200 for the two health checks, 404 otherwise). *)
Theorem api_routes r w :
  hr_Path r ≠ "/api/request" ∨ hr_Method r ≠ "POST" ∨ hr_ContentType r ≠ "application/json" →
  runs (exchange r) w (λ a w', w' = w ∧ ∃ p, a = Some p ∧ rp_Status p = Some (routeStatus r)).
Proof.
  intros Hr. eapply runs_mono; [apply exchange_of with
    (P := λ p w', w' = w ∧ rp_Status p = Some (routeStatus r))|naive_solver].
  run_with (ServeHTTP_other r w Hr). intros _ h [Hw Hs]. simpl. by rewrite Hs.
Qed.

(** The health checks, whatever the transport does. *)
Lemma exchange_health m path ct body w :
  path ∈ ["/health/liveness"; "/health/readiness"] →
  runs (exchange (mkHttpRequest m path ct body)) w (λ a w', w' = w ∧
    ∃ p, a = Some p ∧ rp_Status p = Some StatusOK).
Proof.
  intros Hp. eapply runs_mono; [apply exchange_of with
    (P := λ p w', w' = w ∧ rp_Status p = Some StatusOK)|naive_solver].
  eapply runs_mono; [apply ServeHTTP_other; left; simpl; set_solver|].
  intros u h [Hw Hs]. simpl. rewrite Hs. split; [done|]. simpl. unfold routeStatus. simpl.
  repeat (apply elem_of_cons in Hp as [->|Hp]; [by destruct (bool_decide (m ≠ "CONNECT"))|]).
  by apply elem_of_nil in Hp.
Qed.

Lemma exchange_returns r w : ∃ a w', exchange r w = (Ret a, w').
Proof. unfold exchange. destruct (ServeHTTP r _) as [[] h]; eauto. Qed.

(** The API server never returns from [main]: without a readable key pair it
    panics before serving anything; otherwise it answers every request that arrives,
    whatever the earlier ones did, and panics when the listener fails. *)
Theorem api_main_serves `{ApiTls} requests err w :
  match LoadX509KeyPair (w_files w) "/run/secrets/tls/tls.crt" "/run/secrets/tls/tls.key" with
  | Bad e => api_main requests err w = (Panic ("unable to load certs: " +:+ Error e), w)
  | Good _ => ∃ answers w',
      mapMW exchange requests w = (Ret answers, w') ∧ length answers = length requests ∧
      api_main requests err w =
        (Panic ("Fail to run integrity shield api: " +:+ Error err), w')
  end.
Proof.
  unfold api_main.
  replace (JoinPath [tlsDir; tlsCertFile]) with "/run/secrets/tls/tls.crt"
    by (vm_compute; reflexivity).
  replace (JoinPath [tlsDir; tlsKeyFile]) with "/run/secrets/tls/tls.key"
    by (vm_compute; reflexivity).
  cbv [mbind M_bind asksW].
  destruct (LoadX509KeyPair _ _ _) as [kp|e]; [|done].
  destruct (mapMW_returns exchange requests w exchange_returns) as (l & w' & E & Hl).
  exists l, w'. by rewrite E.
Qed.
End api_proofs.

(** ** The server at concrete requests *)

Module ApiDemo.
Import Demo.

#[export] Instance conn : HttpConn := { conn_write _ data := (data, None) }.

(** A body is a list of members [key:text] separated by blanks; a text [{...}] is an
    object, ["null"] is null and everything else a string. *)
Definition member (s : string) : option (string * JVal) :=
  match Split s ":" with
  | [k; v] => Some (k, if bool_decide (v = "null") then JNull
                       else if HasPrefix v "{" then JObject [("text", JString v)]
                       else JString v)
  | _ => None
  end.
#[export] Instance json : ApiJson types := {
  json_Map s := if bool_decide (s = "") then Bad (errNew "unexpected end of JSON input")
                else Good (omap member (Split s " "));
  json_MarshalMap m := match m with [(_, JString v)] => v | _ => "" end;
  json_Request s := if bool_decide (s = "{signed}") then Some signed else Some unsigned;
  json_Parameters _ := Some param0;
  json_Result r := Good (FormatBool (Allow r)) }.

Definition post (body : string) : HttpRequest :=
  mkHttpRequest "POST" "/api/request" "application/json" body.

Lemma api_request_answered_witness :
  runs (exchange (post "request:{signed} parameters:{}")) w_enf (λ a _,
    ∃ p, a = Some p ∧ rp_Status p = Some StatusOK).
Proof.
  eapply runs_mono.
  { apply (api_request_answered (post "request:{signed} parameters:{}") w_enf); reflexivity. }
  intros a w'. simpl. intros (result & p & _ & Ha & Hs & _). exists p. split; [exact Ha|exact Hs].
Defined.

(** The bodies of the two ways to fail, and a denied request. *)
Example api_answers :
  result_of (mapMW exchange
    [post "request:{signed} parameters:{}"; post "request:{other} parameters:{}";
     post ""; post "parameters:{}"; post "request:null"; post "request:text";
     mkHttpRequest "GET" "/health/liveness" "" ""; mkHttpRequest "GET" "/api/" "" ""]) w_enf
  = Ret [Some (mkHttpResponse (Some 200%Z) "true"); Some (mkHttpResponse (Some 200%Z) "false");
         Some (mkHttpResponse (Some 500%Z) ("unmarshaling input data as map[string]interface{}: "
           +:+ "unexpected end of JSON input" +:+ newline));
         Some (mkHttpResponse (Some 500%Z)
           ("failed to find `request` key in input object" +:+ newline));
         Some (mkHttpResponse (Some 500%Z)
           ("failed to convert `request` in input object into *admission.Request" +:+ newline));
         None; Some (mkHttpResponse (Some 200%Z) "liveness ok");
         Some (mkHttpResponse (Some 404%Z) ("404 page not found" +:+ newline))].
Proof. vm_compute. reflexivity. Qed.

Lemma api_routes_witness :
  runs (exchange (mkHttpRequest "GET" "/health/readiness" "" "")) w_enf (λ a w',
    w' = w_enf ∧ ∃ p, a = Some p ∧ rp_Status p = Some 200%Z).
Proof.
  apply (api_routes (mkHttpRequest "GET" "/health/readiness" "" "") w_enf).
  left. discriminate.
Defined.
End ApiDemo.
