(* ===== verification/Admission.v ===== *)
(** * webhook/admission-controller: profiles and the admission webhook

    [pkg/apis/manifestintegrityprofile/v1/types.go] (the profile resource and its
    status), [pkg/config/admission_controller_config.go] (scope of the webhook),
    [pkg/controller/constraint.go] (matching a request against profiles, status
    updates) and [pkg/controller/webhook.go] ([ProcessRequest]). *)
From S2P Require Import Prelude GoStrings World ShieldConfig Demo ImageVerify RequestHandler.
From stdpp Require Import base gmap strings list.
From Stdlib Require Import ZArith Lia.

Local Open Scope string_scope.

(** ** The profile resource *)

Section profile_types.
Context {T : ExtTypes}.

Record Kinds := mkKinds { k_Kinds : list string; k_ApiGroups : list string }.

Record MatchCondition := mkMatch {
  m_Kinds : list Kinds;
  m_Namespaces : list string;
  m_ExcludedNamespaces : list string;
  m_LabelSelector : option LabelSelector;
  m_NamespaceSelector : option LabelSelector }.

Record ManifestIntegrityProfileSpec := mkMIPSpec {
  sp_Match : MatchCondition;
  sp_Parameters : ParameterObject }.

Record ViolationDetail := mkViolation {
  v_Namespace : string; v_Kind : string; v_Name : string; v_Message : string;
  v_Timestamp : string }.

Record ManifestIntegrityProfileStatus := mkMIPStatus {
  DenyCount : Z;                                  (* int *)
  Violations : list ViolationDetail }.

(** [ObjectMeta] by its name. *)
Record ManifestIntegrityProfile := mkMIP {
  mip_Name : string;
  mip_Spec : ManifestIntegrityProfileSpec;
  mip_Status : ManifestIntegrityProfileStatus }.
End profile_types.

Definition maxHistoryLength : nat := 10.
Definition layout := "2006-01-02 15:04:05".

Section update_status.
Context {T : ExtTypes} {O : OS} {K : Kube}.

(** The status part of [UpdateStatus] for a given time stamp. *)
Definition pushViolation (v : ViolationDetail) (st : ManifestIntegrityProfileStatus)
    : ManifestIntegrityProfileStatus :=
  let newLatestEvents := v :: Violations st in
  mkMIPStatus (int64 (DenyCount st + 1))
    (if (maxHistoryLength <? length newLatestEvents)%nat
     then take maxHistoryLength newLatestEvents else newLatestEvents).

Definition UpdateStatus (self : ManifestIntegrityProfile) (request : Request)
    (errMsg : string) : M World ManifestIntegrityProfile :=
  now ← Now;
  let violation := mkViolation (rq_Namespace request) (Kind (rq_Kind request))
    (rq_Name request) errMsg (FormatTime true layout now) in
  mret (mkMIP (mip_Name self) (mip_Spec self) (pushViolation violation (mip_Status self))).
End update_status.

(** ** Configuration of the webhook *)

Record NamespaceSelector := mkNsSelector {
  nsel_Include : list string; nsel_Exclude : list string }.
Record AllowT := mkAllow { al_Kinds : list GroupVersionKind }.
Record AdmissionControllerConfig := mkACConfig {
  InScopeNamespaceSelector : NamespaceSelector;
  ac_Allow : AllowT;
  UpdateMIPStatusForDeniedRequest : bool;         (* SideEffect *)
  Mode : string;
  ac_Options : list string }.

Class AdmissionYaml := {
  yaml_AdmissionControllerConfig :
    string → option AdmissionControllerConfig * option error }.

Section ac_config.
Context {T : ExtTypes} {L : ExtLib T}.

Definition NamespaceSelector_Match (ns : NamespaceSelector) (rns : string) : bool :=
  let excluded := if negb (length (nsel_Exclude ns) =? 0)%nat
                  then MatchWithPatternArray rns (nsel_Exclude ns) else false in
  let included := if negb (length (nsel_Include ns) =? 0)%nat
                  then MatchWithPatternArray rns (nsel_Include ns) else true in
  if included && excluded then false
  else if negb included then false
  else true.

Definition fieldMatch (pattern value : string) : bool :=
  if bool_decide (pattern = "") then true
  else if MatchSinglePattern pattern value then true else false.

Definition Allow_Match (allow : AllowT) (kind : GroupVersionKind) : bool :=
  anyb (λ k,
    let groupMatch := fieldMatch (Group k) (Group kind) in
    let kindMatch := fieldMatch (Kind k) (Kind kind) in
    let versionMatch := fieldMatch (Version k) (Version kind) in
    groupMatch && kindMatch && versionMatch) (al_Kinds allow).

Definition CheckIfDetectOnly (mode : string) : bool := bool_decide (mode = "detect").
End ac_config.

(** ** Matching a request against a profile *)

(** The profile client; profiles are cluster scoped (namespace [""]). *)
Class MipClient (T : ExtTypes) (K : Kube) := {
  mip_NewForConfig : Cluster → option error;
  mips : ResClient Cluster ManifestIntegrityProfile;
  mips_List : Cluster → res (list ManifestIntegrityProfile) }.

Section matching.
Context {T : ExtTypes} {L : ExtLib T} {K : Kube}.

Definition checkNamespaceLabelMatch (c : Cluster) (namespace : string)
    (labelSelector : option LabelSelector) : bool :=
  match labelSelector with
  | None => true
  | Some ls =>
    match GetKubeConfig c with
    | Some _ => false
    | None =>
      match NewForConfig c with
      | Some _ => false
      | None =>
        match Namespaces_Get c namespace with
        | Bad _ => false
        | Good ns =>
          match LabelSelectorAsSelector ls with
          | Bad _ => false
          | Good selector => Selector_Matches selector (ns_Labels ns)
          end
        end
      end
    end
  end.

Definition checkLabelMatch (req : Request) (labelSelector : option LabelSelector) : bool :=
  match labelSelector with
  | None => true
  | Some ls =>
    match json_Unstructured (rq_Object req) with
    | Bad _ => false
    | Good resource =>
      match LabelSelectorAsSelector ls with
      | Bad _ => false
      | Good selector => Selector_Matches selector (GetLabels resource)
      end
    end
  end.

(** The loops below set a flag and never leave early; [orElse] is one round. *)
Definition orElse {A} (p : A → bool) (matched : bool) (x : A) : bool :=
  if p x then true else matched.

Definition checkNamespaceMatch (req : Request) (matches : list string) : bool :=
  if (length matches =? 0)%nat then true
  else
    let matched := if bool_decide (rq_Namespace req = "") then true else false in
    foldl (orElse (λ ns, MatchPattern ns (rq_Namespace req))) matched matches.

Definition checkKindMatch (req : Request) (matches : list Kinds) : bool :=
  if (length matches =? 0)%nat then true
  else foldl (orElse (λ kinds,
    let kind := if (length (k_Kinds kinds) =? 0)%nat then true
                else foldl (orElse (λ k, MatchPattern k (Kind (rq_Kind req)))) false
                       (k_Kinds kinds) in
    let group := if (length (k_ApiGroups kinds) =? 0)%nat then true
                 else foldl (orElse (λ g, MatchPattern g (Group (rq_Kind req)))) false
                        (k_ApiGroups kinds) in
    kind && group)) false matches.

Definition matchCheck (c : Cluster) (req : Request) (m : MatchCondition) : bool :=
  if negb (length (m_ExcludedNamespaces m) =? 0)%nat
     && anyb (λ ens, MatchPattern ens (rq_Namespace req)) (m_ExcludedNamespaces m)
  then false
  else
    let nsMatched := checkNamespaceMatch req (m_Namespaces m) in
    let kindsMatched := checkKindMatch req (m_Kinds m) in
    let labelMatched := checkLabelMatch req (m_LabelSelector m) in
    let nslabelMatched := checkNamespaceLabelMatch c (rq_Namespace req)
                            (m_NamespaceSelector m) in
    if nsMatched && kindsMatched && nslabelMatched && labelMatched then true else false.

Lemma foldl_orElse {A} (p : A → bool) b l : foldl (orElse p) b l = b || anyb p l.
Proof.
  revert b. induction l as [|x l IH]; intros b; simpl; [by rewrite orb_false_r|].
  rewrite IH. unfold orElse. by destruct (p x), b.
Qed.
End matching.

(** ** The webhook *)

Record AccumulatedResult := mkAccumulated { ar_Allow : bool; ar_Message : string }.

(** [admission.Allowed] / [admission.Denied] *)
Inductive Response := Allowed (msg : string) | Denied (msg : string).

Definition resultLine (r : ResultFromRequestHandler) : string :=
  "[" +:+ Profile r +:+ "]" +:+ Message r.

(** The loop of [getAccumulatedResult]: deny and allow messages in order. *)
Definition collect (acc : list string * list string) (result : ResultFromRequestHandler)
    : list string * list string :=
  if negb (Allow result) then ((acc.1 ++ [resultLine result])%list, acc.2)
  else (acc.1, (acc.2 ++ [resultLine result])%list).

Definition getAccumulatedResult (results : list ResultFromRequestHandler)
    : AccumulatedResult :=
  let '(denyMessages, allowMessages) := foldl collect ([], []) results in
  if negb (length denyMessages =? 0)%nat
  then mkAccumulated false (strings_Join denyMessages ";")
  else mkAccumulated true (strings_Join allowMessages ";").

Definition webhook_defaultPodNamespace := "k8s-manifest-sigstore".
Definition defaultControllerConfigName := "admission-controller-config".

Section webhook.
Context {T : ExtTypes} {L : ExtLib T} {O : OS} {K : Kube} {S : Sigstore T K}
  {Y : ShieldYaml T} {AY : AdmissionYaml} {MC : MipClient T K}.

Definition GetParametersFromConstraint (constraint : ManifestIntegrityProfileSpec)
    : ParameterObject := sp_Parameters constraint.

(** The second component is the [error]: the code returns nil on every path. *)
Definition LoadConstraints : M World (list ManifestIntegrityProfile * option error) :=
  w ← getW;
  mret (match GetKubeConfig (w_cluster w) with
  | Some _ => ([], None)
  | None =>
    match mip_NewForConfig (w_cluster w) with
    | Some _ => ([], None)
    | None =>
      match mips_List (w_cluster w) with
      | Bad _ => ([], None)
      | Good items => (items, None)
      end
    end
  end).

Definition updateConstraintStatus (constraint : string) (req : Request) (errMsg : string)
    : M World (option error) :=
  w ← getW;
  match GetKubeConfig (w_cluster w) with
  | Some err => mret (Some err)
  | None =>
    match mip_NewForConfig (w_cluster w) with
    | Some err => mret (Some err)
    | None =>
      match rc_get mips (w_cluster w) "" constraint with
      | Bad err => mret (Some err)
      | Good mip =>
          newMIP ← UpdateStatus mip req errMsg;
          clusterM (λ c, rc_update mips c "" newMIP)
      end
    end
  end.

Definition updateConstraints (isDetectMode : bool) (req : Request)
    (results : list ResultFromRequestHandler) : M World unit :=
  forM results (λ res,
    if negb (Allow res) then
      let errMsg := if isDetectMode then "[Detection] " +:+ Message res else Message res in
      _ ← updateConstraintStatus (Profile res) req errMsg;
      mret tt
    else mret tt).

Definition loadAdmissionControllerConfig
    : M World (option AdmissionControllerConfig * option error) :=
  namespace ← env_or "POD_NAMESPACE" webhook_defaultPodNamespace;
  configName ← env_or "CONTROLLER_CONFIG_NAME" defaultControllerConfigName;
  configKey ← env_or "CONTROLLER_CONFIG_KEY" defaultConfigKeyInConfigMap;
  w ← getW;
  mret (match GetKubeConfig (w_cluster w) with
  | Some _ => (None, None)
  | None =>
    match NewForConfig (w_cluster w) with
    | Some _ => (None, None)
    | None =>
      match rc_get configmaps (w_cluster w) namespace configName with
      | Bad err => (None, Some (Wrap err ("failed to get a configmap `" +:+ configName
          +:+ "` in `" +:+ namespace +:+ "` namespace")))
      | Good cm =>
        match cm_Data cm !! configKey with
        | None => (None, Some (errNew ("`" +:+ configKey +:+ "` is not found in configmap")))
        | Some cfgBytes =>
          match yaml_AdmissionControllerConfig cfgBytes with
          | (sc, Some err) => (sc, Some (Wrap err
              "failed to unmarshal config.yaml into *config.AdmissionControllerConfig"))
          | (sc, None) => (sc, None)
          end
        end
      end
    end
  end).

Definition withProfile (name : string) (r : ResultFromRequestHandler)
    : ResultFromRequestHandler := mkResult (Allow r) (Message r) name.

(** One round of the loop over the constraints. *)
Definition processConstraint (req : Request) (constraint : ManifestIntegrityProfile)
    : M World ResultFromRequestHandler :=
  w ← getW;
  if negb (matchCheck (w_cluster w) req (sp_Match (mip_Spec constraint))) then
    mret (mkResult true "not protected" (mip_Name constraint))
  else
    let paramObj := GetParametersFromConstraint (mip_Spec constraint) in
    r ← RequestHandler req paramObj;
    mret (withProfile (mip_Name constraint) r).

Definition ProcessRequest (req : Request) : M World Response :=
  '(config, err) ← loadAdmissionControllerConfig;
  match err with
  | Some _ => mret (Allowed "error but allow for development")
  | None =>
    match config with
    | None => panic nil_dereference
    | Some config =>
      if negb (NamespaceSelector_Match (InScopeNamespaceSelector config) (rq_Namespace req))
      then mret (Allowed "this namespace is out of scope")
      else if Allow_Match (ac_Allow config) (rq_Kind req)
      then mret (Allowed "this kind is out of scope")
      else
        '(constraints, err) ← LoadConstraints;
        match err with
        | Some _ => mret (Allowed "error but allow for development")
        | None =>
          results ← mapMW (processConstraint req) constraints;
          let ar := getAccumulatedResult results in
          let isDetectMode := CheckIfDetectOnly (Mode config) in
          let ar := if negb (ar_Allow ar) && isDetectMode
                    then mkAccumulated true ("allowed by detection mode: " +:+ ar_Message ar)
                    else ar in
          _ ← (if UpdateMIPStatusForDeniedRequest config
               then updateConstraints isDetectMode req results else mret tt);
          mret (if ar_Allow ar then Allowed (ar_Message ar) else Denied (ar_Message ar))
        end
    end
  end.
End webhook.

(** ** Lemmas *)

Lemma foldl_collect results d a :
  foldl collect (d, a) results =
  ((d ++ (resultLine <$> filter (λ r, Allow r = false) results))%list,
   (a ++ (resultLine <$> filter (λ r, Allow r = true) results))%list).
Proof.
  revert d a. induction results as [|r rs IH]; intros d a; simpl.
  - by rewrite !app_nil_r.
  - destruct (Allow r) eqn:E.
    + assert (collect (d, a) r = (d, (a ++ [resultLine r])%list)) as ->
        by (unfold collect; by rewrite E).
      rewrite IH, filter_cons_False, filter_cons_True by congruence.
      by rewrite <-app_assoc.
    + assert (collect (d, a) r = ((d ++ [resultLine r])%list, a)) as ->
        by (unfold collect; by rewrite E).
      rewrite IH, filter_cons_True, filter_cons_False by congruence.
      by rewrite <-app_assoc.
Qed.

(** An invariant of profile statuses. *)
Definition status_ok (st : ManifestIntegrityProfileStatus) : Prop :=
  (length (Violations st) ≤ maxHistoryLength)%nat ∧ int64 (DenyCount st) = DenyCount st.

Lemma pushViolation_spec v st :
  pushViolation v st =
  mkMIPStatus (int64 (DenyCount st + 1)) (take maxHistoryLength (v :: Violations st)).
Proof.
  unfold pushViolation. destruct (Nat.ltb_spec maxHistoryLength (length (v :: Violations st)));
    [done|]. by rewrite take_ge.
Qed.

Lemma pushViolation_ok v st : status_ok (pushViolation v st).
Proof.
  rewrite pushViolation_spec. split; cbn [Violations DenyCount].
  - rewrite length_take. lia.
  - unfold int64. apply wrap_id; [lia|]. by apply wrap_range.
Qed.

Section webhook_lemmas.
Context {T : ExtTypes} {L : ExtLib T} {O : OS} {K : Kube} {S : Sigstore T K}
  {Y : ShieldYaml T} {AY : AdmissionYaml} {MC : MipClient T K}.
Implicit Types (req : Request) (w : World) (c : ManifestIntegrityProfile).

(** What the two loads read in [w]. *)
Definition loaded_ac w : option AdmissionControllerConfig * option error :=
  match loadAdmissionControllerConfig w with
  | (Ret r, _) => r
  | (Panic _, _) => (None, None)
  end.
Lemma loadAdmissionControllerConfig_run w :
  loadAdmissionControllerConfig w = (Ret (loaded_ac w), w).
Proof. reflexivity. Qed.

Definition loaded_constraints w : list ManifestIntegrityProfile :=
  match LoadConstraints w with
  | (Ret (l, _), _) => l
  | (Panic _, _) => []
  end.
Lemma LoadConstraints_run w : LoadConstraints w = (Ret (loaded_constraints w, None), w).
Proof.
  unfold loaded_constraints, LoadConstraints. go_unfold.
  destruct (GetKubeConfig _); [done|]. destruct (mip_NewForConfig _); [done|].
  by destruct (mips_List _).
Qed.

(** The constraint [c] matches the request in [w] and its handler denies it. *)
Definition denies req c w : Prop :=
  matchCheck (w_cluster w) req (sp_Match (mip_Spec c)) = true ∧
  ∃ r w', RequestHandler req (sp_Parameters (mip_Spec c)) w = (Ret r, w') ∧ Allow r = false.

(** [visits req w cs c w1]: the loop over [cs] started in [w] reaches [c] in [w1]. *)
Inductive visits req : World → list ManifestIntegrityProfile →
    ManifestIntegrityProfile → World → Prop :=
| visit_here w c cs : visits req w (c :: cs) c w
| visit_later w c cs r w' c1 w1 :
    processConstraint req c w = (Ret r, w') → visits req w' cs c1 w1 →
    visits req w (c :: cs) c1 w1.

Lemma visits_nil req w c w1 : ¬ visits req w [] c w1.
Proof. inversion 1. Qed.
Lemma visits_elem req w cs c w1 : visits req w cs c w1 → c ∈ cs.
Proof. induction 1; [left|by right]. Qed.

Lemma processConstraint_runs req c w :
  runs (processConstraint req c) w (λ r w', Profile r = mip_Name c ∧
    (Allow r = false ↔ denies req c w)).
Proof.
  unfold processConstraint, denies. apply runs_bind, runs_getW.
  destruct (matchCheck _ _ _); simpl; [|apply runs_ret; split; [done|naive_solver]].
  apply runs_bind. destruct (RequestHandler_runs req (sp_Parameters (mip_Spec c)) w)
    as (r & w' & E & _).
  exists r, w'. split; [exact E|]. apply runs_ret. split; [done|]. simpl. split.
  - intros Ha. split; [done|]. eauto.
  - intros (_ & r' & w'' & E' & Ha). congruence.
Qed.

Lemma constraints_loop_runs req cs w :
  runs (mapMW (processConstraint req) cs) w (λ rs _,
    Profile <$> rs = mip_Name <$> cs ∧
    ((∃ r, r ∈ rs ∧ Allow r = false) ↔ ∃ c w1, visits req w cs c w1 ∧ denies req c w1)).
Proof.
  revert w. induction cs as [|c cs IH]; intros w; simpl.
  - apply runs_ret. split; [done|]. split.
    + intros (r & Hr & _). by apply elem_of_nil in Hr.
    + intros (c & w1 & Hv & _). by apply visits_nil in Hv.
  - apply runs_bind. destruct (processConstraint_runs req c w) as (r & w' & E & Hp & Hd).
    exists r, w'. split; [exact E|]. apply runs_bind. run_with IH.
    intros rs w2 [Hps Hds]. apply runs_ret. split; [by rewrite !fmap_cons, Hp, Hps|]. split.
    + intros (r' & [->|Hin]%elem_of_cons & Ha).
      * exists c, w. split; [constructor|]. by apply Hd.
      * destruct (proj1 Hds ltac:(eauto)) as (c1 & w1 & Hv & Hd1).
        exists c1, w1. split; [by eapply visit_later|done].
    + intros (c1 & w1 & Hv & Hd1). inversion Hv as [|???? w3 ?? E3 Hv3]; simplify_eq.
      * exists r. split; [left|by apply Hd].
      * assert (w3 = w') as -> by congruence.
        destruct (proj2 Hds) as (r' & Hin & Ha); [by eauto|].
        exists r'. split; [by right|done].
Qed.

Lemma getAccumulatedResult_deny rs :
  ar_Allow (getAccumulatedResult rs) = false ↔ ∃ r, r ∈ rs ∧ Allow r = false.
Proof.
  unfold getAccumulatedResult. rewrite foldl_collect. simpl.
  assert (filter (λ r, Allow r = false) rs = [] ↔ ∀ r, r ∈ rs → Allow r ≠ false) as Hnil.
  { split.
    - intros Hf r Hr Ha. assert (r ∈ filter (λ r, Allow r = false) rs) as Hr'
        by (by apply list_elem_of_filter). rewrite Hf in Hr'. by apply elem_of_nil in Hr'.
    - intros H. destruct (filter _ rs) as [|r l] eqn:E; [done|].
      assert (r ∈ filter (λ r, Allow r = false) rs) as [? ?]%list_elem_of_filter
        by (rewrite E; left). naive_solver. }
  destruct (filter (λ r, Allow r = false) rs) as [|r l] eqn:E; simpl.
  - split; [done|]. intros (r & Hr & Ha). by destruct (proj1 Hnil eq_refl r Hr).
  - split; [|done]. intros _. exists r.
    assert (r ∈ filter (λ r, Allow r = false) rs) as [? ?]%list_elem_of_filter
      by (rewrite E; left). done.
Qed.

Lemma UpdateStatus_run self rq msg w :
  UpdateStatus self rq msg w =
  (Ret (mkMIP (mip_Name self) (mip_Spec self)
     (pushViolation (mkViolation (rq_Namespace rq) (Kind (rq_Kind rq)) (rq_Name rq) msg
        (FormatTime true layout (clock (w_ticks w)))) (mip_Status self))), tick w).
Proof. reflexivity. Qed.

Lemma updateConstraintStatus_runs n req msg w :
  runs (updateConstraintStatus n req msg) w (λ e w',
    w_env w' = w_env w ∧ w_files w' = w_files w ∧
    (w_cluster w' = w_cluster w ∧ is_Some e ∨
     ∃ mip, rc_get mips (w_cluster w) "" n = Good mip ∧
       rc_update mips (w_cluster w) "" (mkMIP (mip_Name mip) (mip_Spec mip)
         (pushViolation (mkViolation (rq_Namespace req) (Kind (rq_Kind req)) (rq_Name req) msg
            (FormatTime true layout (clock (w_ticks w)))) (mip_Status mip)))
       = (e, w_cluster w'))).
Proof.
  unfold updateConstraintStatus. apply runs_bind, runs_getW.
  destruct (GetKubeConfig _); [apply runs_ret; naive_solver|].
  destruct (mip_NewForConfig _); [apply runs_ret; naive_solver|].
  destruct (rc_get mips _ _ _) as [mip|e]; [|apply runs_ret; naive_solver].
  apply runs_bind. eexists _, _. split; [apply UpdateStatus_run|].
  apply runs_clusterM. intros e c Hc. split_and!; try done. right. by exists mip.
Qed.

Lemma updateConstraints_runs `{!ResClientLaws mip_Name mips} dm req results w :
  runs (updateConstraints dm req results) w (λ _ w', ∀ n,
    (∀ r, r ∈ results → Allow r = false → Profile r ≠ n) →
    rc_get mips (w_cluster w') "" n = rc_get mips (w_cluster w) "" n).
Proof.
  unfold updateConstraints. revert w. induction results as [|r rs IH]; intros w;
    [by apply runs_ret|]. cbn [forM]. apply runs_bind.
  destruct (Allow r) eqn:Ha; simpl.
  - apply runs_ret. run_with IH. intros [] w' H n Hn. apply H. intros. apply Hn; [by right|done].
  - apply runs_bind. run_with updateConstraintStatus_runs.
    intros e w1 (_ & _ & Hw1). apply runs_ret. run_with IH. intros [] w' H n Hn.
    rewrite H by (intros; apply Hn; [by right|done]).
    destruct Hw1 as [[-> _]|(mip & Hg & Hu)]; [done|].
    assert (Profile r ≠ n) as Hne by (apply Hn; [left|done]).
    destruct e as [e|]; [by rewrite (update_refused _ _ _ _ _ Hu)|].
    apply (update_other (name := mip_Name) _ _ _ _ _ _ Hu).
    simpl. rewrite (get_name (name := mip_Name) _ _ _ _ Hg). congruence.
Qed.
End webhook_lemmas.

(** ** Theorems *)
Section theorems.
Context {T : ExtTypes} {L : ExtLib T} {O : OS} {K : Kube} {S : Sigstore T K}
  {Y : ShieldYaml T} {AY : AdmissionYaml} {MC : MipClient T K}.
Implicit Types (req : Request) (w : World) (c : ManifestIntegrityProfile).

Lemma updateConstraints_total b req rs w :
  runs (updateConstraints b req rs) w (λ _ _, True).
Proof.
  unfold updateConstraints. revert w. induction rs as [|r rs IH]; intros w;
    [by apply runs_ret|]. cbn [forM]. apply runs_bind. destruct (negb (Allow r)).
  - apply runs_bind. run_with updateConstraintStatus_runs. intros e w2 _. by apply runs_ret.
  - by apply runs_ret.
Qed.

Lemma ProcessRequest_runs req w cfg :
  loaded_ac w = (Some cfg, None) →
  runs (ProcessRequest req) w (λ resp _,
    (∃ msg, resp = Denied msg) ↔
    NamespaceSelector_Match (InScopeNamespaceSelector cfg) (rq_Namespace req) = true ∧
    Allow_Match (ac_Allow cfg) (rq_Kind req) = false ∧
    Mode cfg ≠ "detect" ∧
    ∃ c w1, visits req w (loaded_constraints w) c w1 ∧ denies req c w1).
Proof.
  intros Hcfg. unfold ProcessRequest. apply runs_bind. eexists _, _.
  split; [apply loadAdmissionControllerConfig_run|]. rewrite Hcfg.
  destruct (NamespaceSelector_Match _ _) eqn:Ens; simpl; [|apply runs_ret; naive_solver].
  destruct (Allow_Match _ _) eqn:Eal; [apply runs_ret; naive_solver|].
  apply runs_bind. eexists _, _. split; [apply LoadConstraints_run|].
  apply runs_bind. run_with constraints_loop_runs. intros rs w1 [_ Hd]. apply runs_bind.
  eapply runs_mono; [|intros [] w2 _; apply runs_ret; rewrite <-Hd,
    <-getAccumulatedResult_deny; unfold CheckIfDetectOnly].
  { destruct (UpdateMIPStatusForDeniedRequest cfg);
      [apply updateConstraints_total|by apply runs_ret]. }
  destruct (ar_Allow (getAccumulatedResult rs)) eqn:Ea; simpl.
  - rewrite Ea. naive_solver.
  - case_bool_decide; simpl; rewrite ?Ea; naive_solver.
Qed.

(** C3.  The webhook with a readable configuration never panics, and it denies a
    request exactly when the namespace is in scope, the kind is not on the allow
    list, the mode is not ["detect"], and the loop over the profiles reaches one
    that matches the request and whose handler denies it. *)
Theorem ProcessRequest_denies_iff req w cfg :
  loaded_ac w = (Some cfg, None) →
  runs (ProcessRequest req) w (λ resp _,
    (∃ msg, resp = Denied msg) ↔
    NamespaceSelector_Match (InScopeNamespaceSelector cfg) (rq_Namespace req) = true ∧
    Allow_Match (ac_Allow cfg) (rq_Kind req) = false ∧
    Mode cfg ≠ "detect" ∧
    ∃ c w1, visits req w (loaded_constraints w) c w1 ∧ denies req c w1).
Proof. apply ProcessRequest_runs. Qed.


(** C39.  When the Kubernetes client cannot be configured the webhook panics: the
    configuration loader returns neither a configuration nor an error, and the
    missing configuration is dereferenced. *)
Theorem ProcessRequest_offline_panics req w e :
  GetKubeConfig (w_cluster w) = Some e →
  ProcessRequest req w = (Panic nil_dereference, w).
Proof.
  intros He. unfold ProcessRequest.
  rewrite (M_bind_Ret _ _ _ _ _ (loadAdmissionControllerConfig_run w)).
  assert (loaded_ac w = (None, None)) as -> by (unfold loaded_ac,
    loadAdmissionControllerConfig; go_unfold; simpl; by rewrite He). done.
Qed.

(** When the profiles cannot be listed every request in scope is allowed with an
    empty message, and nothing is written: [LoadConstraints] reports no error. *)
Theorem ProcessRequest_list_error_allows req w cfg e :
  loaded_ac w = (Some cfg, None) →
  mips_List (w_cluster w) = Bad e →
  NamespaceSelector_Match (InScopeNamespaceSelector cfg) (rq_Namespace req) = true →
  Allow_Match (ac_Allow cfg) (rq_Kind req) = false →
  ProcessRequest req w = (Ret (Allowed ""), w).
Proof.
  intros Hcfg Hl Hns Hal. unfold ProcessRequest.
  rewrite (M_bind_Ret _ _ _ _ _ (loadAdmissionControllerConfig_run w)), Hcfg, Hns, Hal. simpl.
  assert (loaded_constraints w = []) as Hnil.
  { unfold loaded_constraints, LoadConstraints. go_unfold.
    destruct (GetKubeConfig _); [done|]. destruct (mip_NewForConfig _); [done|]. by rewrite Hl. }
  rewrite (M_bind_Ret _ _ _ _ _ (LoadConstraints_run w)), Hnil. simpl.
  by destruct (UpdateMIPStatusForDeniedRequest cfg).
Qed.

(** Accumulation: the request is allowed exactly when every profile allows it, and
    the message joins, in the order of the profiles, the lines of the denying
    profiles when there are any and of all profiles otherwise. *)
Theorem getAccumulatedResult_spec rs :
  getAccumulatedResult rs =
  if decide (Forall (λ r, Allow r = true) rs)
  then mkAccumulated true (strings_Join (resultLine <$> rs) ";")
  else mkAccumulated false
         (strings_Join (resultLine <$> filter (λ r, Allow r = false) rs) ";").
Proof.
  pose proof (getAccumulatedResult_deny rs) as Hd.
  unfold getAccumulatedResult in *. rewrite foldl_collect in *. simpl in *.
  case_decide as HF.
  - assert (filter (λ r, Allow r = true) rs = rs) as ->.
    { clear Hd. induction HF as [|r rs Hr HF IH]; [done|]. by rewrite filter_cons_True, IH. }
    destruct (filter (λ r, Allow r = false) rs) eqn:E; [done|]. exfalso.
    destruct (proj1 Hd eq_refl) as (r' & Hin & Ha).
    rewrite Forall_forall in HF. specialize (HF _ Hin). congruence.
  - destruct (filter (λ r, Allow r = false) rs) eqn:E; [|done]. exfalso. apply HF.
    apply Forall_forall. intros r Hr. destruct (Allow r) eqn:Ha; [done|].
    by specialize (proj2 Hd ltac:(eauto)).
Qed.

(** A namespace is in scope exactly when it is included (an empty include list
    includes every namespace) and not excluded; exclusion wins over inclusion. *)
Theorem NamespaceSelector_Match_spec ns rns :
  NamespaceSelector_Match ns rns = true ↔
  (nsel_Include ns = [] ∨ MatchWithPatternArray rns (nsel_Include ns) = true)
  ∧ (nsel_Exclude ns = [] ∨ MatchWithPatternArray rns (nsel_Exclude ns) = false).
Proof.
  unfold NamespaceSelector_Match.
  destruct (nsel_Include ns) as [|i li], (nsel_Exclude ns) as [|x lx]; simpl;
    try destruct (MatchWithPatternArray rns (i :: li));
    try destruct (MatchWithPatternArray rns (x :: lx)); simpl; naive_solver.
Qed.

(** C38.  A profile matches a request exactly when no excluded namespace pattern covers
    the request's namespace, and namespace, kind and group, object labels and
    namespace labels are each unrestricted or matched; a cluster-scoped request
    passes the namespace list. *)
Theorem matchCheck_spec cl req m :
  matchCheck cl req m = true ↔
  (∀ p, p ∈ m_ExcludedNamespaces m → MatchPattern p (rq_Namespace req) = false) ∧
  (m_Namespaces m = [] ∨ rq_Namespace req = "" ∨
     ∃ p, p ∈ m_Namespaces m ∧ MatchPattern p (rq_Namespace req) = true) ∧
  (m_Kinds m = [] ∨ ∃ k, k ∈ m_Kinds m ∧
     (k_Kinds k = [] ∨ ∃ p, p ∈ k_Kinds k ∧ MatchPattern p (Kind (rq_Kind req)) = true) ∧
     (k_ApiGroups k = [] ∨
        ∃ p, p ∈ k_ApiGroups k ∧ MatchPattern p (Group (rq_Kind req)) = true)) ∧
  checkLabelMatch req (m_LabelSelector m) = true ∧
  checkNamespaceLabelMatch cl (rq_Namespace req) (m_NamespaceSelector m) = true.
Proof.
  assert (∀ A (p : A → bool) l,
    (if (length l =? 0)%nat then true else foldl (orElse p) false l) = true ↔
    l = [] ∨ ∃ x, x ∈ l ∧ p x = true) as Hloop.
  { intros A p l. rewrite foldl_orElse. destruct l as [|x l]; [naive_solver|].
    rewrite <-anyb_exists. simpl. naive_solver. }
  assert (negb (length (m_ExcludedNamespaces m) =? 0)%nat
     && anyb (λ ens, MatchPattern ens (rq_Namespace req)) (m_ExcludedNamespaces m) = false ↔
     ∀ p, p ∈ m_ExcludedNamespaces m → MatchPattern p (rq_Namespace req) = false) as Hex.
  { rewrite <-(anyb_false (λ p, MatchPattern p (rq_Namespace req))).
    by destruct (m_ExcludedNamespaces m). }
  assert (checkNamespaceMatch req (m_Namespaces m) = true ↔
    m_Namespaces m = [] ∨ rq_Namespace req = "" ∨
     ∃ p, p ∈ m_Namespaces m ∧ MatchPattern p (rq_Namespace req) = true) as Hns.
  { unfold checkNamespaceMatch. rewrite foldl_orElse.
    destruct (m_Namespaces m) as [|n l]; [naive_solver|].
    rewrite <-(anyb_exists (λ p, MatchPattern p (rq_Namespace req))).
    case_bool_decide; simpl; naive_solver. }
  assert (checkKindMatch req (m_Kinds m) = true ↔ m_Kinds m = [] ∨ ∃ k, k ∈ m_Kinds m ∧
     (k_Kinds k = [] ∨ ∃ p, p ∈ k_Kinds k ∧ MatchPattern p (Kind (rq_Kind req)) = true) ∧
     (k_ApiGroups k = [] ∨
        ∃ p, p ∈ k_ApiGroups k ∧ MatchPattern p (Group (rq_Kind req)) = true)) as Hk.
  { unfold checkKindMatch. rewrite Hloop. f_equiv. f_equiv. intros k. f_equiv.
    by rewrite andb_true_iff, !Hloop. }
  unfold matchCheck. rewrite <-Hex, <-Hns, <-Hk.
  destruct (negb _ && anyb _ _); [naive_solver|].
  destruct (checkNamespaceMatch _ _), (checkKindMatch _ _), (checkLabelMatch _ _),
    (checkNamespaceLabelMatch _ _ _); simpl; naive_solver.
Qed.

(** A sequence of denials recorded on one profile object. *)
Fixpoint recordAll (l : list (Request * string)) (m : ManifestIntegrityProfile)
    : M World ManifestIntegrityProfile :=
  match l with
  | [] => mret m
  | (rq, msg) :: l' => m' ← UpdateStatus m rq msg; recordAll l' m'
  end.

(** The status history: after any sequence of denials the profile keeps the ten
    most recent violations, newest first, the deny counter has advanced by the
    number of denials (as a 64-bit int), and name and spec are unchanged. *)
Theorem UpdateStatus_history l m w :
  status_ok (mip_Status m) →
  runs (recordAll l m) w (λ m' _,
    status_ok (mip_Status m') ∧ mip_Name m' = mip_Name m ∧ mip_Spec m' = mip_Spec m ∧
    DenyCount (mip_Status m') = int64 (DenyCount (mip_Status m) + Z.of_nat (length l)) ∧
    v_Message <$> Violations (mip_Status m') =
      take maxHistoryLength (reverse l.*2 ++ (v_Message <$> Violations (mip_Status m)))).
Proof.
  revert m w. induction l as [|[rq msg] l IH]; intros m w Hok; simpl.
  - apply runs_ret. destruct Hok as [Hl Hc]. split_and!; try done.
    + by rewrite Z.add_0_r.
    + by rewrite take_ge by (rewrite length_fmap; lia).
  - apply runs_bind. eexists _, _. split; [apply UpdateStatus_run|].
    eapply runs_mono; [apply IH, pushViolation_ok|].
    intros m' _ (Hok' & Hn & Hs & Hc & Hv). split_and!; try done.
    + rewrite Hc. cbn [mip_Status]. rewrite pushViolation_spec. cbn [DenyCount].
      unfold int64. rewrite wrap_wrap_add. f_equal. lia.
    + rewrite Hv. cbn [mip_Status]. rewrite pushViolation_spec. cbn [Violations].
      rewrite fmap_take, fmap_cons, take_app_take. cbn [v_Message].
      by rewrite reverse_cons, <-(app_assoc (reverse _)).
Qed.

(** Status updates touch denying profiles only: a profile that is not the one of a
    denied result reads the same afterwards, whatever the API server refuses. *)
Theorem updateConstraints_frame `{!ResClientLaws mip_Name mips} dm req results w n :
  (∀ r, r ∈ results → Allow r = false → Profile r ≠ n) →
  runs (updateConstraints dm req results) w (λ _ w',
    rc_get mips (w_cluster w') "" n = rc_get mips (w_cluster w) "" n).
Proof. intros Hn. run_with updateConstraints_runs. intros [] w' H. by apply H. Qed.

(** An accepted status update of a profile stores exactly the old profile with one
    violation for this request pushed on its history. *)
Theorem updateConstraintStatus_records `{!ResClientLaws mip_Name mips} n req msg w w' :
  updateConstraintStatus n req msg w = (Ret None, w') →
  ∃ mip v, rc_get mips (w_cluster w) "" n = Good mip ∧
    v_Name v = rq_Name req ∧ v_Namespace v = rq_Namespace req ∧
    v_Kind v = Kind (rq_Kind req) ∧ v_Message v = msg ∧
    rc_get mips (w_cluster w') "" n =
      Good (mkMIP (mip_Name mip) (mip_Spec mip) (pushViolation v (mip_Status mip))).
Proof.
  intros Hrun.
  apply (runs_inv _ _ _ _ _ (updateConstraintStatus_runs n req msg w)) in Hrun.
  destruct Hrun as (_ & _ & [[_ [? ?]]|(mip & Hg & Hu)]); [done|].
  exists mip. eexists. split; [done|]. do 4 (split; [shelve|]).
  pose proof (update_get (name := mip_Name) _ _ _ _ Hu) as H. simpl in H.
  rewrite (get_name (name := mip_Name) _ _ _ _ Hg) in H at 1. exact H.
  Unshelve. all: done.
Qed.
End theorems.

(** ** The theorems at concrete requests *)
Module AdmissionDemo.
Import Demo.

Abbreviation Mips := (gmap (string * string) (ManifestIntegrityProfile (T := types))).
Abbreviation AK := (kube (X := Mips)).

#[export] Instance mipClient : MipClient types AK := {
  mip_NewForConfig c := None;
  mips := storeClient (C := MemCluster Mips) mip_Name mc_ext set_ext;
  mips_List c := if decide (map_to_list (mc_ext (X := Mips) c) = []) then Bad offline
                 else Good (map_to_list (mc_ext (X := Mips) c)).*2;
}.
#[export] Instance mipClient_laws : ResClientLaws mip_Name (mips (K := AK)).
Proof. by apply storeClient_laws. Qed.

#[export] Instance acYaml : AdmissionYaml := {
  yaml_AdmissionControllerConfig s :=
    if bool_decide (s = "") then (None, None)
    else (Some (mkACConfig (mkNsSelector [] ["kube-*"]) (mkAllow [mkGVK "" "" "Event"])
                  true s []), None) }.

Definition anyMatch : MatchCondition (T := types) :=
  mkMatch [mkKinds ["ConfigMap"] []] ["ns*"] ["ns2"] None None.
Definition mip0 : ManifestIntegrityProfile (T := types) :=
  mkMIP "p0" (mkMIPSpec anyMatch param0) (mkMIPStatus 0 []).

Definition acWorld (mode : string) (online : bool) (ms : Mips) : World (K := AK) :=
  mkWorld (K := AK) ∅ InfoLevel false ∅ 0 (mkMem online
    {[ ("k8s-manifest-sigstore", "admission-controller-config") :=
         mkConfigMap "admission-controller-config" {[ "config.yaml" := mode ]};
       ("integrity-shield-operator-system", "request-handler-config") := cm_of "x" ]}
    ∅ ∅ ∅ ms).
Definition one : Mips := {[ ("", "p0") := mip0 ]}.

Definition acCfg (mode : string) : AdmissionControllerConfig :=
  mkACConfig (mkNsSelector [] ["kube-*"]) (mkAllow [mkGVK "" "" "Event"]) true mode [].

Example enforce_denies : ∃ m,
  result_of (ProcessRequest (K := AK) unsigned) (acWorld "enforce" true one) = Ret (Denied m).
Proof. eexists. vm_compute. reflexivity. Qed.
Example detect_allows : ∃ m,
  result_of (ProcessRequest (K := AK) unsigned) (acWorld "detect" true one) = Ret (Allowed m).
Proof. eexists. vm_compute. reflexivity. Qed.

Lemma ProcessRequest_denies_iff_witness :
  runs (ProcessRequest (K := AK) unsigned) (acWorld "enforce" true one) (λ resp _,
    (∃ msg, resp = Denied msg) →
    ∃ c w1, visits unsigned (acWorld "enforce" true one)
              (loaded_constraints (acWorld "enforce" true one)) c w1 ∧ denies unsigned c w1).
Proof.
  eapply runs_mono.
  - apply (ProcessRequest_denies_iff unsigned (acWorld "enforce" true one) (acCfg "enforce")).
    vm_compute. reflexivity.
  - intros resp w' H Hd. apply H in Hd. apply Hd.
Defined.

Definition denyMsg : string :=
  match result_of (ProcessRequest (K := AK) unsigned) (acWorld "enforce" true one) with
  | Ret (Denied m) => m | _ => "" end.

Lemma ProcessRequest_offline_panics_witness :
  ProcessRequest unsigned (acWorld "enforce" false one)
  = (Panic nil_dereference, acWorld "enforce" false one).
Proof.
  apply (ProcessRequest_offline_panics unsigned (acWorld "enforce" false one) offline).
  vm_compute. reflexivity.
Defined.

Lemma ProcessRequest_list_error_allows_witness :
  ProcessRequest unsigned (acWorld "enforce" true ∅)
  = (Ret (Allowed ""), acWorld "enforce" true ∅).
Proof.
  apply (ProcessRequest_list_error_allows unsigned (acWorld "enforce" true ∅)
    (acCfg "enforce") offline); vm_compute; reflexivity.
Defined.

Lemma UpdateStatus_history_witness :
  runs (recordAll [(unsigned, "a"); (unsigned, "b")] mip0) (acWorld "enforce" true one)
    (λ m' _, v_Message <$> Violations (mip_Status m') = ["b"; "a"]).
Proof.
  eapply runs_mono.
  - apply (UpdateStatus_history [(unsigned, "a"); (unsigned, "b")] mip0
             (acWorld "enforce" true one)).
    split; [apply Nat.leb_le; reflexivity|vm_compute; reflexivity].
  - intros m' w' (_ & _ & _ & _ & ->). vm_compute. reflexivity.
Defined.

Lemma updateConstraints_frame_witness :
  runs (updateConstraints (K := AK) false unsigned [mkResult false "no" "other"])
    (acWorld "enforce" true one) (λ _ w',
    rc_get mips (w_cluster w') "" "p0" = rc_get mips (w_cluster (acWorld "enforce" true one)) "" "p0").
Proof.
  apply (updateConstraints_frame false unsigned [mkResult false "no" "other"]
    (acWorld "enforce" true one) "p0").
  intros r Hr _. apply list_elem_of_singleton in Hr as ->. discriminate.
Defined.

Lemma updateConstraintStatus_records_witness :
  ∃ mip, rc_get mips (w_cluster (state_of (updateConstraintStatus (K := AK) "p0" unsigned "no")
           (acWorld "enforce" true one))) "" "p0" = Good mip.
Proof.
  assert (updateConstraintStatus "p0" unsigned "no" (acWorld "enforce" true one) =
    (Ret None, state_of (updateConstraintStatus "p0" unsigned "no")
                 (acWorld "enforce" true one))) as H1
    by (apply run_eta; vm_compute; reflexivity).
  destruct (updateConstraintStatus_records "p0" unsigned "no" (acWorld "enforce" true one)
    _ H1) as (mip & v & _ & _ & _ & _ & _ & H).
  eexists. exact H.
Defined.
End AdmissionDemo.
