(* ===== verification/Observer.v ===== *)
(** * observer: the continuous check of the resources in the cluster

    [pkg/observer/observer.go] (discovery, constraints, the observation run, the
    exported results), [pkg/observer/verify_resource.go] (verification of one
    resource) and [pkg/apis/manifestintegritystate/v1/types.go] (the resource
    that holds the result of a constraint). *)
From S2P Require Import Prelude GoStrings World ShieldConfig Demo ImageVerify RequestHandler Admission.
From stdpp Require Import base gmap strings list.
From Stdlib Require Import ZArith Lia.

Local Open Scope string_scope.

(** ** Constants *)

Definition timeFormat := "2006-01-02 15:04:05".
Definition exportDetailResult := "ENABLE_DETAIL_RESULT".
Definition detailResultConfigName := "OBSERVER_RESULT_CONFIG_NAME".
Definition detailResultConfigKey := "OBSERVER_RESULT_CONFIG_KEY".
Definition defaultKeyInConfigMap := "config.yaml".
Definition defaultExportDetailResult := true.
Definition defaultObserverResultDetailConfigName := "verify-result-detail".
Definition logLevelEnvKey := "LOG_LEVEL".
Definition provenanceEnvKey := "ENABLE_PROVENANCE_RESULT".
Definition VerifyResourceViolationLabel := "integrityshield.io/verifyResourceViolation".
Definition VerifyResourceIgnoreLabel := "integrityshield.io/verifyResourceIgnored".

(** ** Discovery data *)

(** [metav1.APIResource] with the fields the observer reads. *)
Record APIResource := mkAPIResource {
  res_Name : string; res_Kind : string; Namespaced : bool; Verbs : list string }.
Record APIResourceList := mkAPIResourceList {
  GroupVersion : string; arl_APIResources : list APIResource }.
Record GroupVersionResource := mkGVR {
  gvr_Group : string; gvr_Version : string; gvr_Resource : string }.

Record groupResource := mkGroupResource {
  APIGroup : string; APIVersion : string; gr_APIResource : APIResource }.
Record groupResourceWithTargetNS := mkTarget {
  tg_groupResource : groupResource; TargetNamespaces : list string }.

(** [dynamicClient] is a nil interface until [Init] sets it. *)
Record Observer := mkObserver {
  APIResources : list groupResource; dynamicClient : bool }.

Definition NewObserver : Observer := mkObserver [] false.

(** ** Results *)

Section types.
Context {T : ExtTypes}.

Record ConstraintSpec := mkConstraintSpec {
  cs_Match : MatchCondition; cs_Parameters : ParameterObject }.

Record VerifyResultDetail := mkDetail {
  vd_Time : string;
  vd_Namespace : string;
  vd_Name : string;
  vd_Kind : string;
  vd_ApiGroup : string;
  vd_ApiVersion : string;
  vd_Error : bool;
  vd_Message : string;
  vd_Violation : bool;
  vd_VerifyResourceResult : option VerifyResourceResult }.

Record ConstraintResult := mkConstraintResult {
  cr_ConstraintName : string;
  cr_Violation : bool;
  cr_TotalViolations : Z;
  cr_Results : list VerifyResultDetail;
  cr_Constraint : ConstraintSpec }.

Record ObservationDetailResults := mkObservation {
  ob_Time : string; ob_ConstraintResults : list ConstraintResult }.
End types.

Record VerifyResult := mkVerifyResult {
  r_Namespace : string;
  r_Name : string;
  r_Kind : string;
  r_ApiGroup : string;
  r_ApiVersion : string;
  r_Result : string;
  r_Signer : string;
  r_SignedTime : option Z;
  r_SigRef : string }.

Record ManifestIntegrityStateSpec := mkMISSpec {
  s_ConstraintName : string;
  s_Violation : bool;
  s_TotalViolations : Z;
  s_Violations : list VerifyResult;
  s_NonViolations : list VerifyResult;
  s_ObservationTime : string }.

(** [ObjectMeta] by its name and labels. *)
Record ManifestIntegrityState := mkMIS {
  mis_Name : string;
  mis_Labels : gmap string string;
  mis_Spec : ManifestIntegrityStateSpec }.

(** ** Libraries of the observer

    A [bool] argument says whether the kube config handed over is non-nil. *)
Class ObserverExt (T : ExtTypes) (K : Kube) := {
  OptionRest_zero : OptionRest;
  SpecValue : Type;
  Object_spec : Unstructured → option SpecValue;           (* obj.Object[spec] *)
  json_Marshal_spec : option SpecValue → string * option error;
  json_ConstraintSpec : string → ConstraintSpec * option error;
  json_Observation : ObservationDetailResults → string;
  ParseGroupVersion : string → res (string * string);
  NewDiscoveryClientForConfig : Cluster → bool → outcome (option error);
  ServerPreferredResources : Cluster → res (list APIResourceList);
  dynamic_NewForConfig : Cluster → bool → outcome (option error);
  dynamic_List : Cluster → GroupVersionResource → option string → res (list Unstructured);
  mis_NewForConfig : Cluster → option error;
  states : ResClient Cluster ManifestIntegrityState;
  cosign_Init : Files → Files }.

Section observer.
Context {T : ExtTypes} {L : ExtLib T} {O : OS} {K : Kube} {S : Sigstore T K}
  {Y : ShieldYaml T} {X : ObserverExt T K}.

(** A library call that may itself panic. *)
Definition callM {A} (f : Cluster → outcome A) : M World A := λ w, (f (w_cluster w), w).

(** ** Initialisation *)

Definition groupResources (apiResourceList : APIResourceList) : list groupResource :=
  if (length (arl_APIResources apiResourceList) =? 0)%nat then []
  else match ParseGroupVersion (GroupVersion apiResourceList) with
  | Bad _ => []
  | Good (group, version) =>
      omap (λ resource, if (length (Verbs resource) =? 0)%nat then None
                        else Some (mkGroupResource group version resource))
        (arl_APIResources apiResourceList)
  end.

Definition getAPIResources (self : Observer) (kubeconfig : bool)
    : M World (option error * Observer) :=
  err ← callM (λ c, NewDiscoveryClientForConfig c kubeconfig);
  match err with
  | Some err => mret (Some err, self)
  | None =>
      lists ← asksW (λ w, ServerPreferredResources (w_cluster w));
      mret (match lists with
            | Bad err => (Some err, self)
            | Good apiResourceLists =>
                (None, mkObserver (mjoin (groupResources <$> apiResourceLists))
                         (dynamicClient self))
            end)
  end.

Definition Init (self : Observer) : M World (option error * Observer) :=
  kubeconf ← asksW (λ w, match GetKubeConfig (w_cluster w) with
                         | Some _ => false | None => true end);
  '(err, self) ← getAPIResources self kubeconf;
  match err with
  | Some err => mret (Some err, self)
  | None =>
      err ← callM (λ c, dynamic_NewForConfig c kubeconf);
      match err with
      | Some err => mret (Some err, self)
      | None =>
          let self := mkObserver (APIResources self) true in
          format ← Getenv "LOG_FORMAT";
          logLevelStr ← env_or logLevelEnvKey "info";
          let logLevel := default InfoLevel (logLevelMap !! logLevelStr) in
          _ ← modifyW (λ w, set_log (w_level w)
                (if bool_decide (format = "json") then true else w_jsonlog w) w);
          _ ← Setenv k8sLogLevelEnvKey logLevelStr;
          _ ← modifyW (λ w, set_log logLevel (w_jsonlog w) w);
          _ ← modifyW (λ w, set_files (cosign_Init (w_files w)) w);
          mret (None, self)
      end
  end.

(** ** Which resources a constraint covers *)

Definition getLabelMatchedNamespace (c : Cluster) (labelSelector : option LabelSelector)
    : list string :=
  match labelSelector with
  | None => []
  | Some ls =>
    match GetKubeConfig c with
    | Some _ => []
    | None =>
      match NewForConfig c with
      | Some _ => []
      | None =>
        match Namespaces_List c with
        | Bad _ => []
        | Good namespaces =>
          match LabelSelectorAsSelector ls with
          | Bad _ => []
          | Good selector =>
              omap (λ ns, if Selector_Matches selector (ns_Labels ns)
                          then Some (ns_Name ns) else None) namespaces
          end
        end
      end
    end
  end.

Definition observer_Contains (pattern : list string) (value : string) : bool :=
  anyb (λ p, bool_decide (p = value)) pattern.

(** The test of one entry of [match.Kinds]; both halves look at [ApiGroups]. *)
Definition kindsRuleMatch (kinds : Kinds) (apiResource : groupResource) : bool :=
  let agmatch := if negb (length (k_ApiGroups kinds) =? 0)%nat
                 then observer_Contains (k_ApiGroups kinds) (APIGroup apiResource)
                 else true in
  let kmatch := if negb (length (k_ApiGroups kinds) =? 0)%nat
                then observer_Contains (k_Kinds kinds) (res_Kind (gr_APIResource apiResource))
                else true in
  kmatch && agmatch.

Definition targetNamespaces (c : Cluster) (m : MatchCondition) : list string :=
  match m_NamespaceSelector m with
  | Some ls => (m_Namespaces m ++ getLabelMatchedNamespace c (Some ls))%list
  | None => m_Namespaces m
  end.

Definition checkIfRuleMatchWithGVK (c : Cluster) (m : MatchCondition)
    (apiResource : groupResource) : bool * list groupResourceWithTargetNS :=
  if (length (m_Kinds m) =? 0)%nat then (false, [])
  else foldl (λ acc kinds,
    if kindsRuleMatch kinds apiResource
    then (true, (acc.2 ++ [mkTarget apiResource (targetNamespaces c m)])%list)
    else acc) (false, []) (m_Kinds m).

(** The loop of [getPossibleProtectedGVKs] with its [break]. *)
Fixpoint firstProtected (c : Cluster) (m : MatchCondition) (l : list groupResource)
    : list groupResourceWithTargetNS :=
  match l with
  | [] => []
  | apiResource :: l' =>
      let '(matched, tmpGvks) := checkIfRuleMatchWithGVK c m apiResource in
      if matched then tmpGvks else firstProtected c m l'
  end.

(** [None] is the nil slice. *)
Definition getPossibleProtectedGVKs (c : Cluster) (self : Observer) (m : MatchCondition)
    : option (list groupResourceWithTargetNS) :=
  Some (firstProtected c m (APIResources self)).

(** The loop over the target namespaces: it stops at the first error. *)
Fixpoint listNamespaces (c : Cluster) (gvr : GroupVersionResource) (nss : list string)
    (resources : list Unstructured) : list Unstructured * option error :=
  match nss with
  | [] => (resources, None)
  | ns :: nss' =>
      match dynamic_List c gvr (Some ns) with
      | Bad err => (resources, Some err)
      | Good items => listNamespaces c gvr nss' (resources ++ items)%list
      end
  end.

Definition gvrOf (g : groupResource) : GroupVersionResource :=
  mkGVR (APIGroup g) (APIVersion g) (res_Name (gr_APIResource g)).

Definition getAllResoucesByGroupResource (self : Observer) (t : groupResourceWithTargetNS)
    : M World (list Unstructured * option error) :=
  if negb (dynamicClient self) then panic nil_dereference else
  let gResource := tg_groupResource t in
  let gvr := gvrOf gResource in
  w ← getW;
  '(resources, err) ←
    (if Namespaced (gr_APIResource gResource) then
       mret (listNamespaces (w_cluster w) gvr (TargetNamespaces t) [])
     else
       match dynamic_List (w_cluster w) gvr None with
       | Bad _ => panic nil_dereference        (* tmpResourceList.Items of a nil list *)
       | Good items => mret (items, None)
       end);
  mret (match err with
        | Some _ => ([], None)
        | None => (resources, None)
        end).

(** ** Constraints *)

Definition constraintGVR : GroupVersionResource :=
  mkGVR "constraints.gatekeeper.sh" "v1beta1" "manifestintegrityconstraint".

(** A constraint whose [spec] is missing or malformed is decoded as far as it goes. *)
Definition decodeConstraint (unstructed : Unstructured) : ConstraintSpec :=
  let spec := Object_spec unstructed in
  let '(jsonStr, _) := json_Marshal_spec spec in
  let '(mic, _) := json_ConstraintSpec jsonStr in
  mic.

Definition loadConstraints (self : Observer) : M World (res (list ConstraintSpec)) :=
  if negb (dynamicClient self) then panic nil_dereference else
  asksW (λ w, match dynamic_List (w_cluster w) constraintGVR None with
              | Bad err => Bad err
              | Good items => Good (decodeConstraint <$> items)
              end).

(** ** One resource *)

Definition observeOption (namespace : string) (prov : bool) (resource : Unstructured)
    (signatureRef : SignatureRef) (ignoreFields : list ObjectFieldBinding)
    (skipObjects : list ObjectReference) : VerifyResourceOption :=
  let domain := match GetAnnotations resource !! ImageRefAnnotationKeyShield with
                | Some _ => AnnotationKeyDomain | None => "" end in
  withSignatureRef signatureRef
    (mkVO "" "" "" namespace domain "" (if prov then true else false)
       ignoreFields skipObjects OptionRest_zero).

(** The observer's own [LoadKeySecret] is the function of [shield/pkg/config]
    statement for statement. *)
Definition observer_LoadKeySecret (keySecertNamespace keySecertName : string)
    : M World (res string) := LoadKeySecret keySecertNamespace keySecertName.

(** The first key secret of the resource's namespace; a failure leaves no key. *)
Fixpoint observeKeyPath (secrets : list KeyConfig) (ns : string) : M World string :=
  match secrets with
  | [] => mret ""
  | s :: secrets' =>
      if bool_decide (KeySecretNamespace s = ns) then
        r ← observer_LoadKeySecret (KeySecretNamespace s) (KeySecretName s);
        mret (match r with Good pubkey => pubkey | Bad _ => "" end)
      else observeKeyPath secrets' ns
  end.

Definition withKeyPath (keyPath : string) (vo : VerifyResourceOption)
    : VerifyResourceOption :=
  mkVO (vo_ImageRef vo) (vo_SignatureResourceRef vo) (vo_ProvenanceResourceRef vo)
    (vo_DryRunNamespace vo) (vo_AnnotationKeyDomain vo) keyPath (vo_Provenance vo)
    (vo_IgnoreFields vo) (vo_SkipObjects vo) (vo_rest vo).

Definition observeMessage (result : VerifyResourceResult) : string :=
  if vr_InScope result then
    if vr_Verified result then "singed by a valid signer: " +:+ vr_Signer result
    else match vr_Diff result with
    | Some d =>
        if (0 <? Diff_Size d)%nat then "diff found: " +:+ Diff_String d
        else if bool_decide (vr_Signer result ≠ "")
        then "signer config not matched, this is signed by " +:+ vr_Signer result
        else "no signature found"
    | None =>
        if bool_decide (vr_Signer result ≠ "")
        then "signer config not matched, this is signed by " +:+ vr_Signer result
        else "no signature found"
    end
  else "not protected".

Definition cutRequest (message : string) : string :=
  match Split message " (Request: {" with [] => "" | m :: _ => m end.

Definition ObserveResource (resource : Unstructured) (signatureRef : SignatureRef)
    (ignoreFields : list ObjectFieldBinding) (skipObjects : list ObjectReference)
    (secrets : list KeyConfig) : M World VerifyResultDetail :=
  namespace ← env_or "POD_NAMESPACE" defaultPodNamespace;
  provStr ← Getenv provenanceEnvKey;
  let vo := observeOption namespace (ParseBool_value provStr) resource signatureRef
              ignoreFields skipObjects in
  pubkey ← observeKeyPath secrets (GetNamespace resource);
  let vo := withKeyPath pubkey vo in
  w ← getW;
  now ← Now;
  let gvk := GetGVK resource in
  mret (match VerifyResource (w_env w) (w_files w) (w_cluster w) resource vo with
  | Bad err =>
      mkDetail (FormatTime false timeFormat now) (GetNamespace resource) (GetName resource)
        (Kind gvk) (Group gvk) (Version gvk) true (Error err) true None
  | Good result =>
      mkDetail (FormatTime false timeFormat now) (GetNamespace resource) (GetName resource)
        (Kind gvk) "" "" false (cutRequest (observeMessage result))
        (if vr_Verified result then false else true) (Some result)
  end).

Definition ObserveImage (resource : Unstructured) (profile : ImageProfile)
    : M World (bool * string) :=
  let imageVerifyResults := [] in
  if ImageProfile_Enabled profile then
    '(_, err) ← VerifyImageInManifest resource profile;
    mret (match err with
          | Some e => (false,
              "Image signature verification is required, but failed to verify signature: "
                +:+ Error e)
          | None => imageResultsVerdict imageVerifyResults
          end)
  else mret (true, "").

(** ** Exported results *)

Definition stateLabels (ignored violated : bool) : gmap string string :=
  {[ VerifyResourceViolationLabel := if violated then "true" else "false";
     VerifyResourceIgnoreLabel := if ignored then "true" else "false" ]}.

Definition exportVerifyResult (vrr : ManifestIntegrityStateSpec) (ignored violated : bool)
    : M World (option error) :=
  w ← getW;
  match GetKubeConfig (w_cluster w) with
  | Some err => mret (Some err)
  | None =>
    match mis_NewForConfig (w_cluster w) with
    | Some err => mret (Some err)
    | None =>
      namespace ← env_or "POD_NAMESPACE" defaultPodNamespace;
      let labels := stateLabels ignored violated in
      match rc_get states (w_cluster w) namespace (s_ConstraintName vrr) with
      | Bad _ => clusterM (λ c, rc_create states c namespace
                   (mkMIS (s_ConstraintName vrr) labels vrr))
      | Good obj => clusterM (λ c, rc_update states c namespace
                      (mkMIS (mis_Name obj) labels vrr))
      end
    end
  end.

Definition exportResultDetail (results : ObservationDetailResults) : M World (option error) :=
  exportStr ← Getenv exportDetailResult;
  let export := if bool_decide (exportStr ≠ "") then ParseBool_value exportStr
                else defaultExportDetailResult in
  if negb export then mret None
  else if (length (ob_ConstraintResults results) =? 0)%nat then mret None
  else
    namespace ← env_or "POD_NAMESPACE" defaultPodNamespace;
    configName ← env_or detailResultConfigName defaultObserverResultDetailConfigName;
    configKey ← env_or detailResultConfigKey defaultKeyInConfigMap;
    w ← getW;
    match GetKubeConfig (w_cluster w) with
    | Some _ => mret None
    | None =>
      match NewForConfig (w_cluster w) with
      | Some _ => mret None
      | None =>
        let data := {[ configKey := json_Observation results ]} in
        match rc_get configmaps (w_cluster w) namespace configName with
        | Bad _ => clusterM (λ c, rc_create configmaps c namespace (mkConfigMap configName data))
        | Good cm => clusterM (λ c, rc_update configmaps c namespace (mkConfigMap (cm_Name cm) data))
        end
      end
    end.

(** ** A run *)

(** Signature and images of one resource, the body of the loop over resources. *)
Definition observeOne (p : ParameterObject) (ignoreFields : list ObjectFieldBinding)
    (skipObjects : list ObjectReference) (resource : Unstructured)
    : M World VerifyResultDetail :=
  result ← ObserveResource resource (po_SignatureRef p) ignoreFields skipObjects
             (po_KeyConfigs p);
  '(imgAllow, imgMsg) ← ObserveImage resource (po_ImageProfile p);
  mret (if negb imgAllow then
          let message := if negb (vd_Violation result) then imgMsg
                         else vd_Message result +:+ ", [Image]" +:+ imgMsg in
          mkDetail (vd_Time result) (vd_Namespace result) (vd_Name result) (vd_Kind result)
            (vd_ApiGroup result) (vd_ApiVersion result) (vd_Error result) message true
            (vd_VerifyResourceResult result)
        else result).

(** The simple form of a result; a non-violation reads its verification result. *)
Definition violationOf (res : VerifyResultDetail) : VerifyResult :=
  mkVerifyResult (vd_Namespace res) (vd_Name res) (vd_Kind res) (vd_ApiGroup res)
    (vd_ApiVersion res) (vd_Message res) "" None "".
Definition nonViolationOf (res : VerifyResultDetail) (r : VerifyResourceResult)
    : VerifyResult :=
  mkVerifyResult (vd_Namespace res) (vd_Name res) (vd_Kind res) (vd_ApiGroup res)
    (vd_ApiVersion res) (vd_Message res) (vr_Signer r) (vr_SignedTime r) (vr_SigRef r).

Fixpoint sortResults (results : list VerifyResultDetail)
    (violations nonViolations : list VerifyResult)
    : M World (list VerifyResult * list VerifyResult) :=
  match results with
  | [] => mret (violations, nonViolations)
  | res :: results' =>
      if vd_Violation res
      then sortResults results' (violations ++ [violationOf res])%list nonViolations
      else match vd_VerifyResourceResult res with
      | None => panic nil_dereference
      | Some r => sortResults results' violations
                    (nonViolations ++ [nonViolationOf res r])%list
      end
  end.

Definition listAll (self : Observer) (l : list groupResourceWithTargetNS)
    : M World (list Unstructured) :=
  lists ← mapMW (λ t, r ← getAllResoucesByGroupResource self t; mret r.1) l;
  mret (mjoin lists).

Definition informs (constraint : ConstraintSpec) (rhconfig : RequestHandlerConfig) : bool :=
  match po_Action (cs_Parameters constraint) with
  | None => Audit_Inform (DefaultConstraintAction rhconfig)
  | Some a => Audit_Inform a
  end.

(** The body of the loop over constraints; [None] is the early return of [Run]. *)
Definition observeConstraint (self : Observer) (rhconfig : RequestHandlerConfig)
    (constraint : ConstraintSpec) : M World (option ConstraintResult) :=
  let p := cs_Parameters constraint in
  gvks ← asksW (λ w, getPossibleProtectedGVKs (w_cluster w) self (cs_Match constraint));
  match gvks with
  | None => mret None
  | Some narrowedGVKList =>
      resources ← listAll self narrowedGVKList;
      let ignoreFields := (vo_IgnoreFields (po_VerifyResourceOption p)
                           ++ rf_IgnoreFields (rhc_Filter rhconfig))%list in
      let skipObjects := (rf_SkipObjects (rhc_Filter rhconfig)
                          ++ vo_SkipObjects (po_VerifyResourceOption p))%list in
      results ← mapMW (observeOne p ignoreFields skipObjects) resources;
      '(violations, nonViolations) ← sortResults results [] [];
      let violated := negb (length violations =? 0)%nat in
      let count := Z.of_nat (length violations) in
      now ← Now;
      let vrr := mkMISSpec (ConstraintName p) violated count violations nonViolations
                   (FormatTime false timeFormat now) in
      let ignored := negb (informs constraint rhconfig) in
      _ ← exportVerifyResult vrr ignored violated;
      mret (Some (mkConstraintResult (ConstraintName p) violated count results constraint))
  end.

Fixpoint observeAll (self : Observer) (rhconfig : RequestHandlerConfig)
    (l : list ConstraintSpec) : M World (option (list ConstraintResult)) :=
  match l with
  | [] => mret (Some [])
  | constraint :: l' =>
      r ← observeConstraint self rhconfig constraint;
      match r with
      | None => mret None
      | Some cres =>
          rest ← observeAll self rhconfig l';
          mret ((cons cres) <$> rest)
      end
  end.

(** The part of [Run] that needs the configuration. *)
Definition runConstraints (self : Observer) (rhconfig : RequestHandlerConfig)
    (constraints : list ConstraintSpec) : M World unit :=
  _ ← setupRekor rhconfig;
  r ← observeAll self rhconfig constraints;
  match r with
  | None => mret tt
  | Some constraintResults =>
      now ← Now;
      _ ← exportResultDetail
            (mkObservation (FormatTime false timeFormat now) constraintResults);
      mret tt
  end.

Definition noConstraintKind := "the server could not find the requested resource".

Definition Run (self : Observer) : M World unit :=
  '(rhconfig, _) ← LoadRequestHandlerConfig;
  cs ← loadConstraints self;
  match cs with
  | Bad err =>
      if bool_decide (Error err = noConstraintKind) then mret tt
      else match rhconfig with
      | None => panic nil_dereference
      | Some rhconfig => runConstraints self rhconfig []
      end
  | Good constraints =>
      match rhconfig with
      | None => panic nil_dereference
      | Some rhconfig => runConstraints self rhconfig constraints
      end
  end.
End observer.

(** ** Lemmas *)

Section lemmas.
Context {T : ExtTypes} {L : ExtLib T} {O : OS} {K : Kube} {S : Sigstore T K}
  {Y : ShieldYaml T} {X : ObserverExt T K}.
Implicit Types (w : World) (resource : Unstructured) (p : ParameterObject).

Lemma observeKeyPath_runs secrets ns w :
  runs (observeKeyPath secrets ns) w (λ _ w', files_only w w').
Proof.
  induction secrets as [|s secrets IH]; simpl; [by apply runs_ret|].
  case_bool_decide; [|exact IH]. run_step. run_with LoadKeySecret_runs.
  intros r w1 [? _]. by apply runs_ret.
Qed.

(** No image profile, or cosign accepts the images of the manifest in [w]. *)
Definition images_ok resource (profile : ImageProfile) w : bool :=
  negb (ImageProfile_Enabled profile) ||
  match VerifyImageInManifest resource profile w with
  | (Ret (ok, _), _) => ok
  | (Panic _, _) => false
  end.

Lemma ObserveImage_runs resource prof w :
  runs (ObserveImage resource prof) w (λ r w',
    files_only w w' ∧ r.1 = images_ok resource prof w).
Proof. exact (imageVerdict_runs resource prof w). Qed.

(** The option [ObserveResource] builds, for the key file [key]. *)
Definition option_for w p ign skip resource (key : string) : VerifyResourceOption :=
  withKeyPath key (observeOption (envor w "POD_NAMESPACE" defaultPodNamespace)
    (ParseBool_value (getenv w provenanceEnvKey)) resource (po_SignatureRef p) ign skip).

(** What [d] says of a resource with outcome [v] of sigstore and [img] of the images. *)
Definition describes resource (v : res VerifyResourceResult) (img : bool)
    (d : VerifyResultDetail) : Prop :=
  vd_Name d = GetName resource ∧ vd_Namespace d = GetNamespace resource ∧
  vd_Kind d = Kind (GetGVK resource) ∧
  (vd_Violation d = false ↔ (∃ r, v = Good r ∧ vr_Verified r = true) ∧ img = true) ∧
  match v with
  | Good r => vd_VerifyResourceResult d = Some r ∧ vd_Error d = false
              ∧ vd_ApiGroup d = "" ∧ vd_ApiVersion d = ""
  | Bad _ => vd_VerifyResourceResult d = None ∧ vd_Error d = true
              ∧ vd_ApiGroup d = Group (GetGVK resource)
              ∧ vd_ApiVersion d = Version (GetGVK resource)
  end.

Lemma observeOne_runs p ign skip resource w :
  runs (observeOne p ign skip resource) w (λ d w', files_only w w' ∧
    ∃ key w1, observeKeyPath (po_KeyConfigs p) (GetNamespace resource) w = (Ret key, w1) ∧
      describes resource
        (VerifyResource (w_env w) (w_files w1) (w_cluster w) resource
           (option_for w p ign skip resource key))
        (images_ok resource (po_ImageProfile p) (tick w1)) d).
Proof.
  unfold observeOne, ObserveResource. apply runs_bind, runs_bind, runs_env_or.
  apply runs_bind, runs_asksW, runs_bind.
  destruct (observeKeyPath_runs (po_KeyConfigs p) (GetNamespace resource) w)
    as (key & w1 & E & Hw1). exists key, w1. split; [exact E|].
  apply runs_bind, runs_getW, runs_bind, runs_Now, runs_ret, runs_bind.
  run_with ObserveImage_runs. intros [img msg] w2 [Hw2 Himg]. simpl in Himg. apply runs_ret.
  split. { etrans; [exact Hw1|]. etrans; [apply files_only_tick|exact Hw2]. }
  exists key, w1. split; [exact E|]. fold (option_for w p ign skip resource key).
  destruct Hw1 as (-> & _ & _ & ->). rewrite <-Himg.
  unfold describes. destruct (VerifyResource _ _ _ _ _) as [r|e]; destruct img; simpl;
    split_and!; try done; destruct_and?; try (destruct (vr_Verified r) eqn:?; naive_solver);
    naive_solver.
Qed.

Lemma sortResults_runs results vs nvs w :
  (∀ d, d ∈ results → vd_Violation d = false → is_Some (vd_VerifyResourceResult d)) →
  runs (sortResults results vs nvs) w (λ r w', w' = w ∧
    r.1 = (vs ++ (violationOf <$> filter (λ d, vd_Violation d = true) results))%list ∧
    r.2 = (nvs ++ omap (λ d, if vd_Violation d then None
                             else nonViolationOf d <$> vd_VerifyResourceResult d) results)%list).
Proof.
  revert vs nvs. induction results as [|d l IH]; intros vs nvs Hd; simpl.
  { apply runs_ret. by rewrite !app_nil_r. }
  assert (∀ d', d' ∈ l → vd_Violation d' = false → is_Some (vd_VerifyResourceResult d')) as Hl.
  { intros d' Hd'. apply Hd. by right. }
  destruct (vd_Violation d) eqn:E.
  - eapply runs_mono; [by apply IH|]. intros r w' (-> & -> & ->).
    rewrite filter_cons_True by done. by rewrite <-!app_assoc.
  - destruct (Hd d ltac:(left) E) as [r Hr]. rewrite Hr. simpl.
    eapply runs_mono; [by apply IH|]. intros r' w' (-> & -> & ->).
    rewrite filter_cons_False by congruence. by rewrite <-!app_assoc.
Qed.

(** The API server answers every list of a cluster-scoped resource of [self]. *)
Definition cluster_lists_ok (self : Observer) (c : Cluster) : Prop :=
  ∀ g, g ∈ APIResources self → Namespaced (gr_APIResource g) = false →
    is_good (dynamic_List c (gvrOf g) None) = true.

(** What listing one target yields. *)
Definition listed (c : Cluster) (t : groupResourceWithTargetNS) : list Unstructured :=
  let g := tg_groupResource t in
  if Namespaced (gr_APIResource g) then
    match listNamespaces c (gvrOf g) (TargetNamespaces t) [] with
    | (items, None) => items
    | (_, Some _) => []
    end
  else match dynamic_List c (gvrOf g) None with Good items => items | Bad _ => [] end.

Lemma getAll_run self t w :
  dynamicClient self = true →
  (Namespaced (gr_APIResource (tg_groupResource t)) = false →
     is_good (dynamic_List (w_cluster w) (gvrOf (tg_groupResource t)) None) = true) →
  getAllResoucesByGroupResource self t w = (Ret (listed (w_cluster w) t, None), w).
Proof.
  intros Hd Hg. unfold getAllResoucesByGroupResource, listed. rewrite Hd. go_unfold. simpl.
  destruct (Namespaced _); simpl.
  - by destruct (listNamespaces _ _ _ _) as [items [e|]].
  - specialize (Hg eq_refl). by destruct (dynamic_List _ _ _).
Qed.

Lemma listAll_run self ts w :
  dynamicClient self = true → cluster_lists_ok self (w_cluster w) →
  (∀ t, t ∈ ts → tg_groupResource t ∈ APIResources self) →
  listAll self ts w = (Ret (mjoin (listed (w_cluster w) <$> ts)), w).
Proof.
  intros Hd Hc Hin. unfold listAll.
  assert (mapMW (λ t, r ← getAllResoucesByGroupResource self t; mret r.1) ts w
          = (Ret (listed (w_cluster w) <$> ts), w)) as E.
  { induction ts as [|t ts IH]; [done|]. simpl.
    assert ((r ← getAllResoucesByGroupResource self t; mret r.1) w
            = (Ret (listed (w_cluster w) t), w)) as E.
    { eapply eq_trans; [apply M_bind_Ret, getAll_run; [done|]|done].
      apply Hc, Hin. by left. }
    rewrite (M_bind_Ret _ _ _ _ _ E). erewrite M_bind_Ret; [done|].
    apply IH. intros t' ?. apply Hin. by right. }
  by rewrite (M_bind_Ret _ _ _ _ _ E).
Qed.

(** A constraint covers an API resource when one entry of its kinds does. *)
Definition covers (m : MatchCondition) (g : groupResource) : Prop :=
  ∃ k, k ∈ m_Kinds m ∧ (k_ApiGroups k = [] ∨
    (APIGroup g ∈ k_ApiGroups k ∧ res_Kind (gr_APIResource g) ∈ k_Kinds k)).

Lemma kindsRuleMatch_spec k g :
  kindsRuleMatch k g = true ↔ k_ApiGroups k = [] ∨
    (APIGroup g ∈ k_ApiGroups k ∧ res_Kind (gr_APIResource g) ∈ k_Kinds k).
Proof.
  unfold kindsRuleMatch. destruct (k_ApiGroups k) as [|a l] eqn:E; simpl; [naive_solver|].
  rewrite andb_true_iff, !(containsb_spec _ _ : observer_Contains _ _ = true ↔ _).
  naive_solver.
Qed.

Lemma checkIfRuleMatchWithGVK_run c m g :
  checkIfRuleMatchWithGVK c m g =
  (anyb (λ k, kindsRuleMatch k g) (m_Kinds m),
   replicate (length (filter (λ k, kindsRuleMatch k g = true) (m_Kinds m)))
     (mkTarget g (targetNamespaces c m))).
Proof.
  unfold checkIfRuleMatchWithGVK. destruct (m_Kinds m) as [|k0 l0] eqn:E0; [done|].
  simpl length at 1. cbn [Nat.eqb]. rewrite <-E0. clear E0.
  assert (∀ b ts l, foldl (λ acc kinds, if kindsRuleMatch kinds g
      then (true, (acc.2 ++ [mkTarget g (targetNamespaces c m)])%list) else acc) (b, ts) l
    = (b || anyb (λ k, kindsRuleMatch k g) l,
       (ts ++ replicate (length (filter (λ k, kindsRuleMatch k g = true) l))
         (mkTarget g (targetNamespaces c m)))%list)) as H; [|by rewrite H].
  intros b ts l. revert b ts. induction l as [|k l IH]; intros b ts; simpl.
  { by rewrite orb_false_r, app_nil_r. }
  destruct (kindsRuleMatch k g) eqn:E.
  - rewrite filter_cons_True by done. rewrite IH. simpl. rewrite orb_true_r.
    by rewrite <-app_assoc.
  - rewrite filter_cons_False by congruence. apply IH.
Qed.

Lemma covers_anyb m g :
  anyb (λ k, kindsRuleMatch k g) (m_Kinds m) = true ↔ covers m g.
Proof.
  rewrite anyb_exists. unfold covers. by setoid_rewrite kindsRuleMatch_spec.
Qed.

Lemma firstProtected_in c m l t :
  t ∈ firstProtected c m l → tg_groupResource t ∈ l.
Proof.
  induction l as [|g l IH]; simpl; [by intros ?%elem_of_nil|].
  rewrite checkIfRuleMatchWithGVK_run. simpl. destruct (anyb _ _).
  - intros [-> _]%elem_of_replicate. left.
  - intros H. right. by apply IH.
Qed.

Definition same_object resource (d : VerifyResultDetail) : Prop :=
  vd_Name d = GetName resource ∧ vd_Namespace d = GetNamespace resource ∧
  vd_Kind d = Kind (GetGVK resource).

(** The resources a constraint covers in cluster [c]. *)
Definition covered_resources (c : Cluster) (self : Observer) (con : ConstraintSpec)
    : list Unstructured :=
  mjoin (listed c <$> firstProtected c (cs_Match con) (APIResources self)).

Lemma observe_results_runs p ign skip resources w :
  runs (mapMW (observeOne p ign skip) resources) w (λ ds w', files_only w w' ∧
    Forall2 same_object resources ds ∧
    ∀ d, d ∈ ds → vd_Violation d = false → is_Some (vd_VerifyResourceResult d)).
Proof.
  eapply runs_mono; [apply (mapMW_runs files_only (λ resource d, same_object resource d ∧
    (vd_Violation d = false → is_Some (vd_VerifyResourceResult d))))|].
  - intros resource w0. run_with observeOne_runs.
    intros d w' [Hf (key & w1 & _ & Hn & Hns & Hk & Hv & Hr)]. split; [done|].
    split; [done|]. intros Hd. apply Hv in Hd as [(r & Hr' & _) _]. rewrite Hr' in Hr.
    destruct Hr as [-> _]. eauto.
  - intros ds w' [Hf HF]. split; [done|]. split.
    + eapply Forall2_impl; [exact HF|]. naive_solver.
    + apply Forall2_Forall_r with (Q := λ d, vd_Violation d = false → is_Some (vd_VerifyResourceResult d)) in HF.
      * by rewrite Forall_forall in HF.
      * apply Forall_true. naive_solver.
Qed.

Lemma exportVerifyResult_runs vrr ign v w :
  runs (exportVerifyResult vrr ign v) w (λ _ w', w_env w' = w_env w ∧ w_files w' = w_files w).
Proof.
  unfold exportVerifyResult. apply runs_bind, runs_getW.
  destruct (GetKubeConfig _); [by apply runs_ret|]. destruct (mis_NewForConfig _); [by apply runs_ret|].
  apply runs_bind, runs_env_or. destruct (rc_get _ _ _ _); apply runs_clusterM; by intros.
Qed.

Lemma exportResultDetail_runs rs w :
  runs (exportResultDetail rs) w (λ _ w', w_env w' = w_env w ∧ w_files w' = w_files w).
Proof.
  unfold exportResultDetail. apply runs_bind, runs_asksW. destruct (negb _); [by apply runs_ret|].
  destruct (length _ =? 0)%nat; [by apply runs_ret|].
  do 3 (apply runs_bind, runs_env_or). apply runs_bind, runs_getW.
  destruct (GetKubeConfig _); [by apply runs_ret|]. destruct (NewForConfig _); [by apply runs_ret|].
  destruct (rc_get _ _ _ _); apply runs_clusterM; by intros.
Qed.

(** The report of one constraint: [results] are the details, [vrr] the exported spec. *)
Definition reports (con : ConstraintSpec) (results : list VerifyResultDetail)
    (vrr : ManifestIntegrityStateSpec) : Prop :=
  s_ConstraintName vrr = ConstraintName (cs_Parameters con) ∧
  s_Violations vrr = violationOf <$> filter (λ d, vd_Violation d = true) results ∧
  (length (s_Violations vrr) + length (s_NonViolations vrr) = length results)%nat ∧
  s_TotalViolations vrr = Z.of_nat (length (s_Violations vrr)) ∧
  (s_Violation vrr = true ↔ ∃ d, d ∈ results ∧ vd_Violation d = true).

Lemma sorted_lengths (results : list VerifyResultDetail) :
  (∀ d, d ∈ results → vd_Violation d = false → is_Some (vd_VerifyResourceResult d)) →
  (length (filter (λ d, vd_Violation d = true) results) +
   length (omap (λ d, if vd_Violation d then None
      else nonViolationOf d <$> vd_VerifyResourceResult d) results) = length results)%nat.
Proof.
  induction results as [|d l IH]; intros Hd; [done|].
  assert (∀ d', d' ∈ l → vd_Violation d' = false → is_Some (vd_VerifyResourceResult d')) as Hl.
  { intros d' Hd'. apply Hd. by right. }
  specialize (IH Hl). simpl. destruct (vd_Violation d) eqn:E.
  - rewrite filter_cons_True by done. simpl. f_equal. exact IH.
  - rewrite filter_cons_False by congruence.
    destruct (Hd d ltac:(left) E) as [r ->]. simpl. rewrite Nat.add_succ_r. f_equal. exact IH.
Qed.

Lemma observeConstraint_runs self rc con w :
  dynamicClient self = true → cluster_lists_ok self (w_cluster w) →
  runs (observeConstraint self rc con) w (λ r w', ∃ results vrr w1 e,
    r = Some (mkConstraintResult (ConstraintName (cs_Parameters con)) (s_Violation vrr)
                (s_TotalViolations vrr) results con) ∧
    Forall2 same_object (covered_resources (w_cluster w) self con) results ∧
    reports con results vrr ∧ files_only w w1 ∧
    exportVerifyResult vrr (negb (informs con rc)) (s_Violation vrr) w1 = (Ret e, w')).
Proof.
  intros Hd Hc. unfold observeConstraint, getPossibleProtectedGVKs.
  apply runs_bind, runs_asksW, runs_bind. eexists _, _. split.
  { apply listAll_run; [done|done|]. intros t. apply firstProtected_in. }
  apply runs_bind. run_with observe_results_runs. intros ds w1 (Hw1 & HF & Hv).
  apply runs_bind. eapply runs_mono; [by apply sortResults_runs|].
  intros [vs nvs] w2 (-> & Hvs & Hnvs). simpl in Hvs, Hnvs. subst vs nvs.
  apply runs_bind, runs_Now, runs_bind.
  match goal with |- runs (exportVerifyResult ?v ?i ?b) ?w0 _ =>
    destruct (exportVerifyResult_runs v i b w0) as (e & w3 & E & _) end.
  eexists _, _. split; [exact E|]. apply runs_ret.
  match type of E with exportVerifyResult ?v _ _ _ = _ => exists ds, v, (tick w1), e end.
  split; [reflexivity|]. split; [exact HF|]. split; [|split; [|exact E]].
  - unfold reports. simpl. rewrite !length_fmap. split_and!; try done.
    + by apply sorted_lengths.
    + rewrite negb_true_iff, Nat.eqb_neq. rewrite length_zero_iff_nil. split.
      * intros H. destruct (filter (λ d, vd_Violation d = true) ds) as [|d l] eqn:Ef; [done|].
        assert (d ∈ filter (λ d, vd_Violation d = true) ds) as Hin by (rewrite Ef; left).
        apply list_elem_of_filter in Hin. naive_solver.
      * intros (d & Hin & Hdv) Ef. apply (elem_of_nil d). rewrite <-Ef.
        by apply list_elem_of_filter.
  - etrans; [exact Hw1|apply files_only_tick].
Qed.

Lemma observeAll_runs self rc l w :
  dynamicClient self = true → (∀ c, cluster_lists_ok self c) →
  runs (observeAll self rc l) w (λ r w', w_env w' = w_env w ∧
    ∃ crs, r = Some crs ∧ cr_Constraint <$> crs = l ∧
      cr_ConstraintName <$> crs = (ConstraintName ∘ cs_Parameters) <$> l).
Proof.
  intros Hd Hc. revert w. induction l as [|con l IH]; intros w; simpl.
  { apply runs_ret. split; [done|]. by exists []. }
  apply runs_bind. eapply runs_mono; [by apply observeConstraint_runs|].
  intros r w1 (results & vrr & w0 & e & -> & _ & _ & (Henv & _) & E).
  apply (runs_inv _ _ _ _ _ (exportVerifyResult_runs _ _ _ _)) in E as [E _].
  apply runs_bind. run_with IH. intros r w2 (Henv2 & crs & -> & H1 & H2). apply runs_ret.
  split; [congruence|]. eexists. split; [reflexivity|].
  by rewrite !fmap_cons, H1, H2.
Qed.
End lemmas.

(** ** Theorems *)
Section theorems.
Context {T : ExtTypes} {L : ExtLib T} {O : OS} {K : Kube} {S : Sigstore T K}
  {Y : ShieldYaml T} {X : ObserverExt T K}.
Implicit Types (w : World) (resource : Unstructured) (p : ParameterObject).

(** The verdict on one resource.  Observing a resource always returns and
    changes nothing but files; the detail names the resource, and it is a
    violation unless sigstore verifies the resource (with the key of the first key
    secret of its namespace) and the images are accepted.  A non-error detail never
    carries the API group and version of the resource, an error detail does. *)
Theorem observeOne_verdict p ign skip resource w :
  runs (observeOne p ign skip resource) w (λ d w', files_only w w' ∧
    ∃ key w1, observeKeyPath (po_KeyConfigs p) (GetNamespace resource) w = (Ret key, w1) ∧
      describes resource
        (VerifyResource (w_env w) (w_files w1) (w_cluster w) resource
           (option_for w p ign skip resource key))
        (images_ok resource (po_ImageProfile p) (tick w1)) d).
Proof. apply observeOne_runs. Qed.


Lemma exportVerifyResult_upsert_run `{!ResClientLaws mis_Name states} vrr ign v w r w' :
  exportVerifyResult vrr ign v w = (Ret r, w') →
  let ns := envor w "POD_NAMESPACE" defaultPodNamespace in
  match r with
  | None =>
      rc_get states (w_cluster w') ns (s_ConstraintName vrr)
        = Good (mkMIS (s_ConstraintName vrr) (stateLabels ign v) vrr) ∧
      ∀ ns' n, (ns', n) ≠ (ns, s_ConstraintName vrr) →
        rc_get states (w_cluster w') ns' n = rc_get states (w_cluster w) ns' n
  | Some _ => w_cluster w' = w_cluster w
  end.
Proof.
  intros Hrun ns. unfold exportVerifyResult in Hrun.
  rewrite (M_bind_Ret getW _ w w w eq_refl) in Hrun.
  destruct (GetKubeConfig _); [by go_unfold; simplify_eq|].
  destruct (mis_NewForConfig _); [by go_unfold; simplify_eq|].
  rewrite (M_bind_Ret _ _ _ _ _ (env_or_run _ _ w)) in Hrun. fold ns in Hrun.
  destruct (rc_get states (w_cluster w) ns (s_ConstraintName vrr)) as [obj|e0] eqn:Eg;
    unfold clusterM in Hrun.
  - destruct (rc_update _ _ _ _) as [e c] eqn:Eu. simplify_eq/=.
    rewrite (get_name (name := mis_Name) _ _ _ _ Eg) in Eu. destruct r as [e|].
    + by apply update_refused in Eu.
    + split; [by apply (update_get (name := mis_Name)) in Eu|].
      intros ns' n Hne. by eapply (update_other (name := mis_Name)); [exact Eu|].
  - destruct (rc_create _ _ _ _) as [e c] eqn:Eu. simplify_eq/=. destruct r as [e|].
    + by apply create_refused in Eu.
    + split; [by apply (create_get (name := mis_Name)) in Eu|].
      intros ns' n Hne. by eapply (create_other (name := mis_Name)); [exact Eu|].
Qed.

(** Exporting the state of a constraint is an upsert: on success the state
    named after the constraint holds exactly the new spec and the two labels, and
    all other states are untouched; on failure the cluster is unchanged. *)
Theorem exportVerifyResult_upserts `{!ResClientLaws mis_Name states} vrr ign v w r w' :
  exportVerifyResult vrr ign v w = (Ret r, w') →
  let ns := envor w "POD_NAMESPACE" defaultPodNamespace in
  match r with
  | None =>
      rc_get states (w_cluster w') ns (s_ConstraintName vrr)
        = Good (mkMIS (s_ConstraintName vrr) (stateLabels ign v) vrr) ∧
      ∀ ns' n, (ns', n) ≠ (ns, s_ConstraintName vrr) →
        rc_get states (w_cluster w') ns' n = rc_get states (w_cluster w) ns' n
  | Some _ => w_cluster w' = w_cluster w
  end.
Proof. apply exportVerifyResult_upsert_run. Qed.

(** An initialised observer completes a run: with a loaded configuration and
    answered cluster-scoped lists, [Run] returns for every list of constraints, and
    unless the constraint kind is unknown to the server the Rekor server of the
    configuration is the one in the environment. *)
Theorem Run_returns self w rc e :
  dynamicClient self = true → (∀ c, cluster_lists_ok self c) →
  loaded_config w = (Some rc, e) →
  runs (Run self) w (λ _ w',
    w' = w ∨ getenv w' rekorServerEnvKey = RekorServer rc).
Proof.
  intros Hd Hc Hl. unfold Run. apply runs_bind. eexists _, _.
  split; [apply LoadRequestHandlerConfig_run|]. rewrite Hl. apply runs_bind.
  unfold loadConstraints. rewrite Hd. apply runs_asksW.
  assert (∀ cs, runs (runConstraints self rc cs) w (λ _ w',
    w' = w ∨ getenv w' rekorServerEnvKey = RekorServer rc)) as Hrun.
  { intros cs. unfold runConstraints. apply runs_bind. eexists tt, _. split.
    { instantiate (1 := set_env rekorServerEnvKey (RekorServer rc) w).
      unfold setupRekor. case_bool_decide as Hr; [done|].
      assert (RekorServer rc = "") as -> by by destruct (decide (RekorServer rc = "")). done. }
    apply runs_bind. eapply runs_mono; [by apply observeAll_runs|].
    intros r w1 (Henv & crs & -> & _). apply runs_bind, runs_Now, runs_bind.
    run_with exportResultDetail_runs. intros r w2 [Henv2 _]. apply runs_ret. right.
    unfold getenv. rewrite Henv2. simpl. rewrite Henv. simpl. by rewrite lookup_insert_eq. }
  destruct (dynamic_List _ _ _) as [items|err]; [apply Hrun|].
  case_bool_decide; [apply runs_ret; by left|apply Hrun].
Qed.

(** A run without configuration crashes: when the handler configuration cannot
    be loaded, the error is logged and the nil configuration dereferenced, so an
    observer that can list constraints panics. *)
Theorem Run_without_config_panics self w e items :
  dynamicClient self = true → loaded_config w = (None, e) →
  dynamic_List (w_cluster w) constraintGVR None = Good items →
  Run self w = (Panic nil_dereference, w).
Proof.
  intros Hd Hl Hi. unfold Run.
  rewrite (M_bind_Ret _ _ _ _ _ (LoadRequestHandlerConfig_run w)), Hl.
  unfold loadConstraints. rewrite Hd. go_unfold. simpl. by rewrite Hi.
Qed.

(** Only the first API resource that a constraint covers is observed, once per
    covering entry of its kinds; later covered resources are not, and an entry
    without API groups covers every resource whatever its kinds. *)
Theorem getPossibleProtectedGVKs_first c self m :
  (getPossibleProtectedGVKs c self m = Some [] ∧ ∀ g, g ∈ APIResources self → ¬ covers m g) ∨
  ∃ pre g post n,
    APIResources self = (pre ++ g :: post)%list ∧ (∀ g', g' ∈ pre → ¬ covers m g') ∧
    covers m g ∧ (0 < n ≤ length (m_Kinds m))%nat ∧
    getPossibleProtectedGVKs c self m =
      Some (replicate n (mkTarget g (targetNamespaces c m))).
Proof.
  unfold getPossibleProtectedGVKs.
  induction (APIResources self) as [|g l IH]; simpl.
  { left. split; [done|]. by intros g ?%elem_of_nil. }
  rewrite checkIfRuleMatchWithGVK_run. simpl.
  destruct (anyb (λ k, kindsRuleMatch k g) (m_Kinds m)) eqn:E.
  - right. exists [], g, l, (length (filter (λ k, kindsRuleMatch k g = true) (m_Kinds m))).
    split_and!; try reflexivity.
    + by intros g' ?%elem_of_nil.
    + by apply covers_anyb.
    + apply anyb_exists in E as (k & Hk & Hm). 
      assert (k ∈ filter (λ k, kindsRuleMatch k g = true) (m_Kinds m)) as Hin
        by by apply list_elem_of_filter.
      destruct (filter _ (m_Kinds m)); [by apply elem_of_nil in Hin|simpl; lia].
    + apply length_filter.
  - assert (¬ covers m g) as Hg by (rewrite <-covers_anyb; congruence).
    destruct IH as [[IH Hn]|(pre & g0 & post & n & -> & Hpre & Hg0 & Hnn & IH)].
    + left. split; [exact IH|]. intros g' [->|?]%elem_of_cons; [done|by apply Hn].
    + right. exists (g :: pre), g0, post, n. split_and!; try done; try lia.
      intros g' [->|?]%elem_of_cons; [done|by apply Hpre].
Qed.

(** Listing the resources of a target.  A namespaced kind yields the items of
    all target namespaces in order, or nothing when one of the lists fails; without
    target namespaces it yields nothing.  A cluster-scoped kind yields its items,
    and a failing list crashes the observer. *)
Theorem getAllResoucesByGroupResource_spec self t w :
  dynamicClient self = true →
  let g := tg_groupResource t in
  if Namespaced (gr_APIResource g) then
    getAllResoucesByGroupResource self t w =
      (Ret (match mapM (λ ns, match dynamic_List (w_cluster w) (gvrOf g) (Some ns) with
                              | Good items => Some items | Bad _ => None end)
                       (TargetNamespaces t) with
            | Some lists => mjoin lists
            | None => []
            end, None), w)
  else match dynamic_List (w_cluster w) (gvrOf g) None with
  | Good items => getAllResoucesByGroupResource self t w = (Ret (items, None), w)
  | Bad _ => getAllResoucesByGroupResource self t w = (Panic nil_dereference, w)
  end.
Proof.
  intros Hd g. destruct (Namespaced (gr_APIResource g)) eqn:En.
  - rewrite getAll_run; [|done|fold g; congruence]. unfold listed. fold g. rewrite En.
    do 3 f_equal.
    set (okItems := λ ns, match dynamic_List (w_cluster w) (gvrOf g) (Some ns) with
                          | Good items => Some items | Bad _ => None end).
    assert (∀ acc, match listNamespaces (w_cluster w) (gvrOf g) (TargetNamespaces t) acc with
        | (items, None) => Some items | (_, Some _) => None end =
      (λ l, (acc ++ mjoin l)%list) <$> (mapM okItems (TargetNamespaces t))) as H.
    { induction (TargetNamespaces t) as [|ns l IH]; intros acc; simpl.
      { by rewrite app_nil_r. }
      destruct (dynamic_List _ _ (Some ns)) as [items|e] eqn:Ed.
      2: { assert (okItems ns = None) as -> by (unfold okItems; by rewrite Ed). done. }
      assert (okItems ns = Some items) as -> by (unfold okItems; by rewrite Ed).
      simpl. rewrite IH.
      destruct (mapM okItems l); simpl; [|done]. by rewrite app_assoc. }
    specialize (H []). destruct (listNamespaces _ _ _ _) as [items [e|]], (mapM _ _); naive_solver.
  - unfold getAllResoucesByGroupResource. fold g. rewrite Hd, En. go_unfold. simpl.
    by destruct (dynamic_List _ _ _).
Qed.
End theorems.

(** ** The theorems on a small cluster *)
Module ObserverDemo.
Import Demo.

Record Ext := mkExt {
  x_states : gmap (string * string) ManifestIntegrityState; x_objects : list obj }.
Abbreviation OK := (kube (X := Ext)).

Definition constraint_named (n : string) : ConstraintSpec (T := types) :=
  mkConstraintSpec (mkMatch [mkKinds ["ConfigMap"] [""]] ["ns1"] [] None None)
    (mkParam n (mkSignatureRef "" (mkResourceRef "" "") (mkResourceRef "" "")) []
       [] [] [] (mkImageProfile [] [] []) vo0 None).

#[export] Instance observerExt : ObserverExt types OK := {
  OptionRest_zero := ["alice"];
  SpecValue := string;
  Object_spec o := Some (o_name o);
  json_Marshal_spec s := (default "null" s, None);
  json_ConstraintSpec s := (constraint_named s, None);
  json_Observation r := strings_Join (cr_ConstraintName <$> ob_ConstraintResults r) ",";
  ParseGroupVersion gv := Good ("", gv);
  NewDiscoveryClientForConfig c b := if b then Ret None else Panic nil_dereference;
  ServerPreferredResources c := Good [mkAPIResourceList "v1"
    [mkAPIResource "nodes" "Node" false ["list"];
     mkAPIResource "configmaps" "ConfigMap" true ["list"]]];
  dynamic_NewForConfig c b := if b then Ret None else Panic nil_dereference;
  dynamic_List c g ns :=
    if bool_decide (ns = Some "secret") then Bad (errNew "forbidden")
    else Good (filter (λ o, o_kind o = gvr_Resource g ∧
                            (ns = None ∨ ns = Some (o_ns o))) (x_objects (mc_ext (X := Ext) c)));
  mis_NewForConfig c := None;
  states := storeClient (C := MemCluster Ext) mis_Name (x_states ∘ mc_ext)
    (λ m c, set_ext (mkExt m (x_objects (mc_ext c))) c);
  cosign_Init fs := fs;
}.
#[export] Instance states_laws : ResClientLaws mis_Name (states (K := OK)).
Proof. by apply storeClient_laws. Qed.

Definition thing (kind ns n sig : string) : obj := mkObj kind ns n {[ "sig" := sig ]}.
Definition obsWorld (cfg : string) : World (K := OK) :=
  mkWorld (K := OK) ∅ InfoLevel false ∅ 0 (mkMem true
    {[ ("integrity-shield-operator-system", "request-handler-config") := cm_of cfg ]}
    ∅ ∅ ∅ (mkExt ∅ [thing "manifestintegrityconstraint" "" "c1" "";
                    thing "configmaps" "ns1" "good" "alice";
                    thing "configmaps" "ns1" "bad" "mallory";
                    thing "configmaps" "ns2" "elsewhere" "mallory"])).

Definition observer0 : Observer :=
  match result_of (Init (K := OK) NewObserver) (obsWorld "x") with
  | Ret (None, o) => o
  | _ => NewObserver
  end.
Definition rc0 : RequestHandlerConfig (T := types) :=
  match loaded_config (obsWorld "x") with (Some rc, _) => rc | _ => RequestHandlerConfig_zero end.

Example Run_reports_bad : ∃ st,
  rc_get states (w_cluster (state_of (Run (K := OK) observer0) (obsWorld "x")))
    "integrity-shield-operator-system" "c1" = Good st ∧
  s_TotalViolations (mis_Spec st) = 1%Z ∧
  (r_Name <$> s_Violations (mis_Spec st)) = ["bad"] ∧
  (r_Name <$> s_NonViolations (mis_Spec st)) = ["good"].
Proof. eexists. split; [vm_compute; reflexivity|]. by split_and!. Qed.

Lemma lists_ok c : cluster_lists_ok (K := OK) observer0 c.
Proof. by intros g _ _. Qed.


Definition spec0 : ManifestIntegrityStateSpec := mkMISSpec "c1" true 0 [] [] "".
Lemma exportVerifyResult_upserts_witness :
  rc_get states (w_cluster (state_of (exportVerifyResult (K := OK) spec0 false true)
    (obsWorld "x"))) "integrity-shield-operator-system" "c1"
  = Good (mkMIS "c1" (stateLabels false true) spec0).
Proof.
  assert (exportVerifyResult (K := OK) spec0 false true (obsWorld "x") =
    (Ret None, state_of (exportVerifyResult (K := OK) spec0 false true) (obsWorld "x"))) as H1
    by (apply run_eta; vm_compute; reflexivity).
  destruct (exportVerifyResult_upserts (K := OK) spec0 false true (obsWorld "x") _ _ H1) as [H _].
  exact H.
Defined.

Lemma Run_returns_witness :
  runs (Run (K := OK) observer0) (obsWorld "x") (λ _ w',
    w' = obsWorld "x" ∨ getenv w' rekorServerEnvKey = "rekor.local").
Proof.
  apply (Run_returns (K := OK) observer0 (obsWorld "x") rc0 None);
    [vm_compute; reflexivity|apply lists_ok|vm_compute; reflexivity].
Defined.

Lemma Run_without_config_panics_witness :
  Run (K := OK) observer0 (obsWorld "bad") = (Panic nil_dereference, obsWorld "bad").
Proof.
  eapply (Run_without_config_panics (K := OK) observer0 (obsWorld "bad"));
    vm_compute; reflexivity.
Defined.

Definition target0 : groupResourceWithTargetNS :=
  mkTarget (mkGroupResource "" "v1" (mkAPIResource "configmaps" "ConfigMap" true ["list"]))
    ["ns1"; "ns2"].
Lemma getAllResoucesByGroupResource_spec_witness :
  result_of (getAllResoucesByGroupResource (K := OK) observer0 target0) (obsWorld "x")
  = Ret ([thing "configmaps" "ns1" "good" "alice"; thing "configmaps" "ns1" "bad" "mallory";
          thing "configmaps" "ns2" "elsewhere" "mallory"], None).
Proof.
  pose proof (getAllResoucesByGroupResource_spec (K := OK) observer0 target0 (obsWorld "x")
    ltac:(vm_compute; reflexivity)) as H. simpl in H. unfold result_of. rewrite H.
  vm_compute. reflexivity.
Defined.
End ObserverDemo.
