(* ===== verification/ObserverMain.v ===== *)
(** * observer/main.go: the observation loop

    The entry point of the observer as a state machine: start-up, then one [Run] per
    tick of a ticker, while others act on the cluster.  The file also proves what a
    whole [Run] leaves behind (the exported states, an untouched configuration),
    which is what the loop relies on. *)
From S2P Require Import Prelude GoStrings World ShieldConfig Demo ImageVerify RequestHandler.
From S2P Require Import Admission Observer.
From stdpp Require Import base gmap strings list relations pretty.
From Stdlib Require Import ZArith Lia.

Local Open Scope string_scope.

(** ** The entry point *)

(** [time.Duration] is an [int64] of nanoseconds. *)
Definition Minute : Z := 60000000000.
Definition NewTicker {W} (d : Z) : M W Z :=
  if (d <=? 0)%Z then panic "non-positive interval for NewTicker" else mret d.

Section main.
Context {T : ExtTypes} {L : ExtLib T} {O : OS} {K : Kube} {S : Sigstore T K}
  {Y : ShieldYaml T} {X : ObserverExt T K}.

(** [main] up to its loop: [None] when [Init] fails, otherwise the observer and the
    period of the ticker. *)
Definition observer_start : M World (option (Observer * Z)) :=
  '(err, insp) ← Init NewObserver;
  match err with
  | Some _ => mret None
  | None =>
      interval ← Getenv "INTERVAL";
      let intervalInt := (Atoi interval).1 in
      _ ← Run insp;
      ticker ← NewTicker (int64 (intervalInt * Minute));
      mret (Some (insp, ticker))
  end.

Inductive phase :=
| Starting
| Waiting (insp : Observer) (ticker : Z)      (* in the select statement *)
| Exited                                      (* main has returned *)
| Crashed (why : string).

(** The process and its environment.  [outside] is what others may do to the world
    between two steps of the observer; the channel [abort] is never closed, so the
    loop has the tick as its only event. *)
Inductive obs_step (outside : relation World) : relation (phase * World) :=
| step_start w insp ticker w' :
    observer_start w = (Ret (Some (insp, ticker)), w') →
    obs_step outside (Starting, w) (Waiting insp ticker, w')
| step_exit w w' :
    observer_start w = (Ret None, w') → obs_step outside (Starting, w) (Exited, w')
| step_start_crash w why w' :
    observer_start w = (Panic why, w') → obs_step outside (Starting, w) (Crashed why, w')
| step_tick insp ticker w w' :
    Run insp w = (Ret tt, w') →
    obs_step outside (Waiting insp ticker, w) (Waiting insp ticker, w')
| step_tick_crash insp ticker w why w' :
    Run insp w = (Panic why, w') →
    obs_step outside (Waiting insp ticker, w) (Crashed why, w')
| step_outside ph w w' :
    outside w w' → obs_step outside (ph, w) (ph, w').
End main.

(** ** Stores of different kinds do not interfere *)

Class ObserverStoreLaws {T : ExtTypes} {K : Kube} (X : ObserverExt T K) : Prop := {
  states_apart c ns x e c' :
    rc_create states c ns x = (e, c') ∨ rc_update states c ns x = (e, c') →
    (∀ ns' n, rc_get configmaps c' ns' n = rc_get configmaps c ns' n) ∧
    GetKubeConfig c' = GetKubeConfig c ∧ NewForConfig c' = NewForConfig c ∧
    mis_NewForConfig c' = mis_NewForConfig c;
  configmaps_apart c ns x e c' :
    rc_create configmaps c ns x = (e, c') ∨ rc_update configmaps c ns x = (e, c') →
    (∀ ns' n, rc_get states c' ns' n = rc_get states c ns' n) ∧
    GetKubeConfig c' = GetKubeConfig c ∧ NewForConfig c' = NewForConfig c ∧
    mis_NewForConfig c' = mis_NewForConfig c;
  (* the client constructors panic on a nil configuration only *)
  discovery_returns c : ∃ r, NewDiscoveryClientForConfig c true = Ret r;
  dynamic_returns c : ∃ r, dynamic_NewForConfig c true = Ret r }.

Section frames.
Context {T : ExtTypes} {L : ExtLib T} {O : OS} {K : Kube} {S : Sigstore T K}
  {Y : ShieldYaml T} {X : ObserverExt T K}.
Context `{!ResClientLaws cm_Name configmaps} `{!ResClientLaws mis_Name states}
  {XL : ObserverStoreLaws X}.
Implicit Types (w : World) (c : Cluster).

(** Nothing that decides the configuration has changed. *)
Record config_frame (ns n : string) (w w' : World) : Prop := {
  cf_env k : k ≠ rekorServerEnvKey → k ≠ k8sLogLevelEnvKey → w_env w' !! k = w_env w !! k;
  cf_kube : GetKubeConfig (w_cluster w') = GetKubeConfig (w_cluster w);
  cf_client : NewForConfig (w_cluster w') = NewForConfig (w_cluster w);
  cf_map : rc_get configmaps (w_cluster w') ns n = rc_get configmaps (w_cluster w) ns n }.
#[export] Instance config_frame_preorder ns n : PreOrder (config_frame ns n).
Proof.
  split; [by split|]. intros w1 w2 w3 [] []. split; try congruence.
  intros k Hk Hk'. by rewrite cf_env1, cf_env0.
Qed.

Lemma config_frame_files ns n w w' : files_only w w' → config_frame ns n w w'.
Proof. intros (He & _ & _ & Hc). split; by rewrite ?He, ?Hc. Qed.
Lemma config_frame_envor ns n w w' k d :
  config_frame ns n w w' → k ≠ rekorServerEnvKey → k ≠ k8sLogLevelEnvKey →
  envor w' k d = envor w k d.
Proof. intros [He _ _ _] Hk Hk'. unfold envor, getenv. by rewrite He. Qed.

(** The names under which the configuration is stored. *)
Definition podNamespace w := envor w "POD_NAMESPACE" defaultPodNamespace.
Definition handlerConfigName w :=
  envor w "REQUEST_HANDLER_CONFIG_NAME" defaultHandlerConfigMapName.
Definition detailConfigName w :=
  envor w detailResultConfigName defaultObserverResultDetailConfigName.

Lemma config_frame_loaded w w' :
  config_frame (podNamespace w) (handlerConfigName w) w w' → loaded_config w' = loaded_config w.
Proof.
  intros Hf. unfold loaded_config, LoadRequestHandlerConfig. cbv [mbind M_bind].
  rewrite !env_or_run, !(config_frame_envor _ _ _ _ _ _ Hf) by done.
  destruct Hf as [_ Hk Hc Hm]. unfold getW, mret, M_ret. rewrite Hk, Hc.
  unfold podNamespace, handlerConfigName in Hm. by rewrite Hm.
Qed.

Lemma exportVerifyResult_frame ns n vrr ign v w :
  runs (exportVerifyResult vrr ign v) w (λ _ w', config_frame ns n w w').
Proof using XL.
  unfold exportVerifyResult. run_step. run_step.
  destruct (GetKubeConfig _); [by run_step|]. destruct (mis_NewForConfig _); [by run_step|].
  run_step. apply runs_env_or.
  destruct (rc_get _ _ _ _); apply runs_clusterM; intros e1 c Hw;
    destruct (states_apart (w_cluster w) _ _ _ _ ltac:(eauto)) as (Hm & Hk & Hc & _);
    by split.
Qed.

Lemma exportResultDetail_frame rs w ns n :
  (podNamespace w, detailConfigName w) ≠ (ns, n) →
  runs (exportResultDetail rs) w (λ _ w', config_frame ns n w w').
Proof using All.
  intros Hne. unfold exportResultDetail. run_step. apply runs_asksW. destruct (negb _); [by run_step|].
  destruct (length _ =? 0)%nat; [by run_step|].
  do 3 (run_step; apply runs_env_or). run_step. run_step.
  destruct (GetKubeConfig _); [by run_step|]. destruct (NewForConfig _); [by run_step|].
  destruct (rc_get _ _ _ _) as [cm|e0] eqn:Eg; apply runs_clusterM; intros e c Hw;
    destruct (configmaps_apart (w_cluster w) _ _ _ _ ltac:(eauto)) as (_ & Hk & Hc & _);
    split; try done; destruct e as [e|].
  - apply update_refused in Hw. simpl. by rewrite Hw.
  - rewrite (get_name (name := cm_Name) _ _ _ _ Eg) in Hw.
    eapply (update_other (name := cm_Name)); [exact Hw|]. simpl.
    intros [= -> ->]. apply Hne. done.
  - apply create_refused in Hw. simpl. by rewrite Hw.
  - eapply (create_other (name := cm_Name)); [exact Hw|]. simpl.
    intros [= -> ->]. apply Hne. done.
Qed.

Lemma observeConstraint_frame self rc con w ns n :
  dynamicClient self = true → cluster_lists_ok self (w_cluster w) →
  runs (observeConstraint self rc con) w (λ r w', is_Some r ∧ config_frame ns n w w').
Proof using XL.
  intros Hd Hc. run_with (observeConstraint_runs self rc con w Hd Hc).
  intros r w' (results & vrr & w1 & e & -> & _ & _ & Hf & E). split; [by eexists|].
  etrans; [by apply config_frame_files|].
  exact (runs_inv _ _ _ _ _ (exportVerifyResult_frame _ _ _ _ _ _) E).
Qed.
Lemma observeAll_frame self rc l w ns n :
  dynamicClient self = true → (∀ c, cluster_lists_ok self c) →
  runs (observeAll self rc l) w (λ r w', is_Some r ∧ config_frame ns n w w').
Proof using XL.
  intros Hd Hc. revert w. induction l as [|con l IH]; intros w; simpl.
  { run_step. split; [by eexists|done]. }
  run_step. run_with (observeConstraint_frame self rc con w ns n Hd (Hc _)).
  intros r w1 [[cres ->] H1]. run_step. run_with (IH w1). intros r w2 [[rest ->] H2].
  run_step. split; [by eexists|]. by etrans.
Qed.

Lemma setupRekor_run rc w :
  setupRekor rc w = (Ret tt, set_env rekorServerEnvKey (RekorServer rc) w).
Proof.
  unfold setupRekor. case_bool_decide as Hr; [done|].
  assert (RekorServer rc = "") as -> by by destruct (decide (RekorServer rc = "")). done.
Qed.
Lemma config_frame_rekor ns n v w : config_frame ns n w (set_env rekorServerEnvKey v w).
Proof. split; try done. intros k Hk _. simpl. by rewrite lookup_insert_ne. Qed.

Lemma runConstraints_frame self rc l w ns n :
  dynamicClient self = true → (∀ c, cluster_lists_ok self c) →
  (podNamespace w, detailConfigName w) ≠ (ns, n) →
  runs (runConstraints self rc l) w (λ _ w', config_frame ns n w w').
Proof using All.
  intros Hd Hc Hne. unfold runConstraints. run_step. eexists tt, _.
  split; [apply setupRekor_run|]. run_step.
  run_with (observeAll_frame self rc l (set_env rekorServerEnvKey (RekorServer rc) w) ns n Hd Hc).
  intros r w1 [[crs ->] H1]. run_step. apply runs_Now. run_step.
  assert (config_frame ns n w (tick w1)) as Hw1.
  { etrans; [apply config_frame_rekor|]. etrans; [exact H1|]. by apply config_frame_files. }
  run_with (exportResultDetail_frame (mkObservation
    (FormatTime false timeFormat (clock (w_ticks w1))) crs) (tick w1) ns n).
  - unfold podNamespace, detailConfigName.
    by rewrite !(config_frame_envor _ _ _ _ _ _ Hw1) by done.
  - intros r w2 H2. run_step. by etrans.
Qed.

Lemma Run_frame self w rc e ns n :
  dynamicClient self = true → (∀ c, cluster_lists_ok self c) →
  loaded_config w = (Some rc, e) → (podNamespace w, detailConfigName w) ≠ (ns, n) →
  runs (Run self) w (λ _ w', config_frame ns n w w').
Proof using All.
  intros Hd Hc Hl Hne. unfold Run. run_step. eexists _, _.
  split; [apply LoadRequestHandlerConfig_run|]. rewrite Hl. run_step.
  unfold loadConstraints. rewrite Hd. apply runs_asksW.
  destruct (dynamic_List _ _ _) as [items|err]; [by apply runConstraints_frame|].
  case_bool_decide; [by run_step|by apply runConstraints_frame].
Qed.

(** ** The loop *)

(** The configuration can be loaded and the results are stored under another name. *)
Definition configured w : Prop :=
  (∃ rc e, loaded_config w = (Some rc, e)) ∧ detailConfigName w ≠ handlerConfigName w.

Lemma configured_frame w w' :
  config_frame (podNamespace w) (handlerConfigName w) w w' → configured w → configured w'.
Proof.
  intros Hf [Hl Hn]. split; [by rewrite (config_frame_loaded _ _ Hf)|].
  unfold detailConfigName, handlerConfigName in *.
  by rewrite !(config_frame_envor _ _ _ _ _ _ Hf) by done.
Qed.
Lemma configured_kube w : configured w → GetKubeConfig (w_cluster w) = None.
Proof.
  intros [(rc & e & Hl) _]. unfold loaded_config, LoadRequestHandlerConfig in Hl.
  cbv [mbind M_bind] in Hl. rewrite !env_or_run in Hl. unfold getW, mret, M_ret in Hl.
  by destruct (GetKubeConfig (w_cluster w)).
Qed.

Lemma Run_configured self w :
  dynamicClient self = true → (∀ c, cluster_lists_ok self c) → configured w →
  runs (Run self) w (λ _ w', configured w' ∧ loaded_config w' = loaded_config w).
Proof using All.
  intros Hd Hc Hw. pose proof Hw as [(rc & e & Hl) Hn].
  run_with (Run_frame self w rc e (podNamespace w) (handlerConfigName w) Hd Hc Hl).
  - intros [=]. done.
  - intros a w' Hf. split; [by apply (configured_frame w)|by apply config_frame_loaded].
Qed.

Lemma Init_configured w :
  configured w →
  runs (Init NewObserver) w (λ '(err, insp) w',
    (err = None → dynamicClient insp = true) ∧ configured w' ∧
    getenv w' "INTERVAL" = getenv w "INTERVAL").
Proof using XL.
  intros Hw. unfold Init, getAPIResources. run_step. apply runs_asksW.
  rewrite (configured_kube w Hw). run_step. run_step. unfold callM at 1.
  destruct (discovery_returns (w_cluster w)) as [[e|] E]; eexists _, _;
    (split; [by rewrite E|]); simpl; [by do 2 run_step|].
  run_step. apply runs_asksW.
  destruct (ServerPreferredResources _) as [lists|e]; simpl; [|by do 2 run_step].
  run_step. run_step. unfold callM.
  destruct (dynamic_returns (w_cluster w)) as [[e|] E']; eexists _, _;
    (split; [by rewrite E'|]); simpl; [by run_step|].
  run_step. apply runs_asksW. run_step. apply runs_env_or. unfold Setenv. do 9 run_step. simpl.
  assert (∀ f b l, config_frame (podNamespace w) (handlerConfigName w) w
    (set_files f (set_log l b (set_env k8sLogLevelEnvKey (envor w logLevelEnvKey "info")
       (set_log (w_level w) b w))))) as Hf.
  { intros f b l. split; try done. intros k _ Hk. simpl. by rewrite lookup_insert_ne. }
  split; [done|]. split; [by eapply configured_frame; [apply Hf|]|].
  unfold getenv. simpl. by rewrite lookup_insert_ne.
Qed.

(** The period that [main] hands to the ticker. *)
Definition period w : Z := int64 ((Atoi (getenv w "INTERVAL")).1 * Minute).

Lemma observer_start_runs w :
  (∀ insp c, cluster_lists_ok insp c) → configured w → (0 < period w)%Z →
  runs observer_start w (λ r w', configured w' ∧
    match r with
    | Some (insp, ticker) => dynamicClient insp = true ∧ ticker = period w
    | None => True
    end).
Proof using All.
  intros Hc Hw Hp. unfold observer_start. run_step. run_with (Init_configured w Hw).
  intros [[err|] insp] w1 (Hd & Hw1 & He); [by run_step|].
  run_step. apply runs_asksW. run_step.
  run_with (Run_configured insp w1 (Hd eq_refl) (Hc insp) Hw1). intros u w2 [Hw2 _].
  run_step. rewrite He. fold (period w). unfold NewTicker.
  rewrite (proj2 (Z.leb_gt _ _) Hp). run_step. run_step. auto.
Qed.

(** What holds in every reachable state. *)
Definition up (t : Z) (s : phase * World) : Prop :=
  match s.1 with
  | Starting => configured s.2 ∧ period s.2 = t
  | Waiting insp ticker => dynamicClient insp = true ∧ ticker = t ∧ configured s.2
  | Exited => True
  | Crashed _ => False
  end.

Section reachable.
Context (outside : relation World) (t : Z).
Hypothesis lists : ∀ insp c, cluster_lists_ok insp c.
Hypothesis outside_ok : ∀ w w', outside w w' → configured w →
  configured w' ∧ getenv w' "INTERVAL" = getenv w "INTERVAL".
Hypothesis t_pos : (0 < t)%Z.

Lemma up_step s s' : up t s → obs_step outside s s' → up t s'.
Proof using All.
  intros Hup Hs. destruct Hs as [w insp tk w' E|w w' E|w why w' E|insp tk w w' E|insp tk w why w' E|ph w w' Ho];
    unfold up in *; simpl in *.
  - destruct Hup as [Hw <-]. apply (runs_inv _ _ _ _ _ (observer_start_runs w lists Hw t_pos)) in E.
    naive_solver.
  - done.
  - destruct Hup as [Hw <-]. destruct (observer_start_runs w lists Hw t_pos) as (a & w1 & E' & _).
    congruence.
  - destruct Hup as (Hd & -> & Hw). split_and!; [done|done|].
    exact (proj1 (runs_inv _ _ _ _ _ (Run_configured insp w Hd (lists insp) Hw) E)).
  - destruct Hup as (Hd & -> & Hw).
    destruct (Run_configured insp w Hd (lists insp) Hw) as (a & w1 & E' & _). congruence.
  - destruct ph; try done.
    + destruct Hup as [Hw <-]. destruct (outside_ok _ _ Ho Hw) as [Hw' He]. split; [done|].
      unfold period. by rewrite He.
    + destruct Hup as (Hd & -> & Hw). destruct (outside_ok _ _ Ho Hw) as [Hw' _]. done.
Qed.
Lemma up_reachable s s' : rtc (obs_step outside) s s' → up t s → up t s'.
Proof using All. induction 1; eauto using up_step. Qed.
End reachable.

End frames.

(** ** The interval *)

(** The longest interval whose number of nanoseconds is an [int64]. *)
Definition maxInterval : Z := 153722867.

Lemma interval_product n :
  (- maxInterval ≤ n ≤ maxInterval)%Z →
  Atoi (pretty n) = (n, None) ∧ int64 (n * Minute) = (n * Minute)%Z.
Proof.
  unfold maxInterval. intros Hn. split; [apply Atoi_pretty; lia|].
  apply wrap_id; unfold Minute; lia.
Qed.
Lemma interval_period n :
  (1 ≤ n ≤ maxInterval)%Z → int64 ((Atoi (pretty n)).1 * Minute) = (n * Minute)%Z.
Proof. intros Hn. destruct (interval_product n) as [-> E]; [lia|exact E]. Qed.
Lemma Atoi_syntax_zero s : (Atoi s).2 = Some ErrSyntax → (Atoi s).1 = 0%Z.
Proof.
  unfold Atoi. destruct (signOf s) as [neg body]. case_bool_decide; [done|].
  destruct (digits 0 body); [|done].
  destruct neg; [destruct (_ <? _)%Z|destruct (_ <=? _)%Z]; done.
Qed.


(** Beyond the bound the product wraps around: 585 years become 26 seconds. *)
Example ticker_interval_wraps :
  NewTicker (W := unit) (int64 ((Atoi "307445735").1 * Minute)) tt
  = (Ret 26290448384%Z, tt)
  ∧ NewTicker (W := unit) (int64 ((Atoi "153722868").1 * Minute)) tt
    = (Panic "non-positive interval for NewTicker", tt).
Proof. split; vm_compute; reflexivity. Qed.

(** ** What a run exports *)

Section exports.
Context {T : ExtTypes} {L : ExtLib T} {O : OS} {K : Kube} {S : Sigstore T K}
  {Y : ShieldYaml T} {X : ObserverExt T K}.
Context `{!ResClientLaws cm_Name configmaps} `{!ResClientLaws mis_Name states}
  {XL : ObserverStoreLaws X}.
Context (self : Observer) (rc : RequestHandlerConfig).
Implicit Types (w : World) (c : Cluster) (con : ConstraintSpec).

(** The API server accepts states: updates of existing ones, new ones otherwise. *)
Definition states_accept : Prop := ∀ c ns x,
  match rc_get states c ns (mis_Name x) with
  | Good _ => (rc_update states c ns x).1 = None
  | Bad _ => (rc_create states c ns x).1 = None
  end.
Definition connected c : Prop := GetKubeConfig c = None ∧ mis_NewForConfig c = None.
Definition nameOf con : string := ConstraintName (cs_Parameters con).

(** The state of [con] in [c] reports on the resources it covered when it was
    observed. *)
Definition exported ns c con : Prop := ∃ c0 results vrr,
  Forall2 same_object (covered_resources c0 self con) results ∧ reports con results vrr ∧
  rc_get states c ns (nameOf con) =
    Good (mkMIS (nameOf con) (stateLabels (negb (informs con rc)) (s_Violation vrr)) vrr).
Lemma exported_get ns c c' con :
  rc_get states c' ns (nameOf con) = rc_get states c ns (nameOf con) →
  exported ns c con → exported ns c' con.
Proof. intros E (c0 & rs & v & ? & ? & ?). exists c0, rs, v. by rewrite E. Qed.

Lemma export_accepted vrr ign v w :
  states_accept → connected (w_cluster w) →
  runs (exportVerifyResult vrr ign v) w (λ _ w', w_env w' = w_env w ∧ connected (w_cluster w') ∧
    rc_get states (w_cluster w') (podNamespace w) (s_ConstraintName vrr) =
      Good (mkMIS (s_ConstraintName vrr) (stateLabels ign v) vrr) ∧
    ∀ n, n ≠ s_ConstraintName vrr →
      rc_get states (w_cluster w') (podNamespace w) n = rc_get states (w_cluster w) (podNamespace w) n).
Proof using All.
  intros Hacc [Hk Hm].
  destruct (exportVerifyResult_runs vrr ign v w) as (r & w' & E & Henv & _).
  exists r, w'. split; [done|]. pose proof (exportVerifyResult_upsert_run _ _ _ _ _ _ E) as H.
  simpl in H. fold (podNamespace w) in H. unfold exportVerifyResult in E.
  rewrite (M_bind_Ret getW _ w w w eq_refl), Hk, Hm in E.
  rewrite (M_bind_Ret _ _ _ _ _ (env_or_run _ _ w)) in E. fold (podNamespace w) in E.
  assert (r = None ∧ connected (w_cluster w')) as [-> Hc].
  { pose proof (Hacc (w_cluster w) (podNamespace w) (mkMIS (s_ConstraintName vrr) (stateLabels ign v) vrr)) as Ha.
    simpl in Ha. unfold clusterM in E.
    destruct (rc_get states _ _ _) as [obj|e0] eqn:Eg.
    - rewrite (get_name (name := mis_Name) _ _ _ _ Eg) in E.
      destruct (rc_update _ _ _ _) as [e c] eqn:Eu. simplify_eq/=.
      destruct (states_apart _ _ _ _ _ (or_intror Eu)) as (_ & ? & _ & ?).
      split; [done|]. split; congruence.
    - destruct (rc_create _ _ _ _) as [e c] eqn:Eu. simplify_eq/=.
      destruct (states_apart _ _ _ _ _ (or_introl Eu)) as (_ & ? & _ & ?).
      split; [done|]. split; congruence. }
  destruct H as [Hg Ho]. split_and!; try done. intros n Hn. apply Ho. congruence.
Qed.

Lemma observeAll_exports l w :
  dynamicClient self = true → (∀ c, cluster_lists_ok self c) → states_accept →
  NoDup (nameOf <$> l) → connected (w_cluster w) →
  runs (observeAll self rc l) w (λ r w', is_Some r ∧ w_env w' = w_env w ∧
    connected (w_cluster w') ∧ (∀ con, con ∈ l → exported (podNamespace w) (w_cluster w') con) ∧
    ∀ n, n ∉ nameOf <$> l →
      rc_get states (w_cluster w') (podNamespace w) n = rc_get states (w_cluster w) (podNamespace w) n).
Proof using All.
  intros Hd Hc Hacc. revert w. induction l as [|con l IH]; intros w Hnd Hcon; simpl.
  { run_step. split_and!; [by eexists|done..| |done]. by intros con ?%elem_of_nil. }
  apply NoDup_cons in Hnd as [Hn Hnd].
  run_step. run_with (observeConstraint_runs self rc con w Hd (Hc _)).
  intros r w1 (results & vrr & w0 & e & -> & HF & Hrep & (Henv & _ & _ & Hcl) & E).
  rewrite <-Hcl in Hcon.
  destruct (runs_inv _ _ _ _ _ (export_accepted vrr (negb (informs con rc)) (s_Violation vrr) w0
    Hacc Hcon) E) as (Henv1 & Hcon1 & Hg1 & Ho1).
  pose proof Hrep as [Hname _].
  assert (podNamespace w0 = podNamespace w) as Hp0
    by (unfold podNamespace, envor, getenv; by rewrite Henv).
  assert (podNamespace w1 = podNamespace w) as Hp1
    by (unfold podNamespace, envor, getenv; by rewrite Henv1, Henv).
  rewrite Hp0, Hname in *. fold (nameOf con) in *.
  run_step. run_with (IH w1 Hnd Hcon1). rewrite Hp1.
  intros r w2 ([rest ->] & Henv2 & Hcon2 & Hex & Ho2). run_step.
  split_and!; [by eexists|congruence|done| |].
  - intros con' [->|Hin]%elem_of_cons; [|by apply Hex].
    eapply exported_get; [by apply Ho2|]. by exists (w_cluster w), results, vrr.
  - intros n [Hne Hnin]%not_elem_of_cons. rewrite (Ho2 n Hnin), (Ho1 n Hne). by rewrite Hcl.
Qed.

Lemma exportResultDetail_states rs w ns n :
  runs (exportResultDetail rs) w (λ _ w',
    rc_get states (w_cluster w') ns n = rc_get states (w_cluster w) ns n).
Proof using XL.
  unfold exportResultDetail. run_step. apply runs_asksW. destruct (negb _); [by run_step|].
  destruct (length _ =? 0)%nat; [by run_step|].
  do 3 (run_step; apply runs_env_or). run_step. run_step.
  destruct (GetKubeConfig _); [by run_step|]. destruct (NewForConfig _); [by run_step|].
  destruct (rc_get _ _ _ _) as [cm|e0]; apply runs_clusterM; intros e c Hw;
    destruct (configmaps_apart (w_cluster w) _ _ _ _ ltac:(eauto)) as (Hs & _); apply Hs.
Qed.

End exports.

(** ** A concrete observer *)

Module ObserverMainDemo.
Import Demo ObserverDemo.

#[export] Instance store_laws : ObserverStoreLaws observerExt.
Proof.
  split; try (intros c; by eexists); intros c ns x e c'; simpl; intros [H|H];
    destruct (storeGet _ _ _ _); by simplify_eq.
Qed.
Lemma demo_lists insp c : cluster_lists_ok (K := OK) insp c.
Proof. by intros g _ _. Qed.

(** The world of [obsWorld] with an interval of five minutes. *)
Definition mainWorld : World (K := OK) := set_env "INTERVAL" "5" (obsWorld "x").
Lemma mainWorld_configured : configured (K := OK) mainWorld.
Proof. split; [eexists _, _; vm_compute; reflexivity|vm_compute; discriminate]. Qed.

(** Others replace the observed objects. *)
Definition replace_objects (w w' : World (K := OK)) : Prop :=
  ∃ l, w' = set_cluster (K := OK)
    (set_ext (mkExt (x_states (mc_ext (X := Ext) (w_cluster w))) l) (w_cluster w)) w.
Lemma replace_objects_ok w w' :
  replace_objects w w' → configured w →
  configured w' ∧ getenv w' "INTERVAL" = getenv w "INTERVAL".
Proof.
  intros [l ->] Hw. split; [|done]. eapply configured_frame; [|exact Hw]. by split.
Qed.


(** The loop is reached from [mainWorld]. *)
Example main_starts : result_of (observer_start (K := OK)) mainWorld = Ret (Some (observer0, 300000000000%Z)).
Proof. vm_compute. reflexivity. Qed.
Example main_without_interval :
  result_of (observer_start (K := OK)) (obsWorld "x") = Panic "non-positive interval for NewTicker".
Proof. vm_compute. reflexivity. Qed.

Lemma demo_accept : states_accept (K := OK).
Proof. intros c ns x. simpl. by destruct (storeGet _ _ _ _). Qed.


End ObserverMainDemo.
