(* ===== verification/Concurrency.v ===== *)
(** * Concurrent reports

    Three functions of the repository read an object of the cluster, compute and
    write it back: [createOrUpdateEvent] of the shield (request_handler.go), which
    the shield API and the admission controller run once per denied request,
    [updateConstraintStatus] of the admission controller (constraint.go) and
    [exportVerifyResult] of the observer (observer.go).  Requests are served
    concurrently and by several replicas, so their calls interleave.  Here each
    of them is cut at its client calls ([Interleaving.proc]).
    - Run alone, the cut version is the sequential definition of its component.
    - Interleaved in any way, the stored objects are those of the calls that
      returned nil, run one after the other: no report is lost silently, counters
      count exactly, histories and states are never mixed.
    - Every interleaving ends, and per object at least one call succeeds.  A call
      that loses returns the conflict error; the callers only log it. *)
From S2P Require Import Prelude GoStrings World Interleaving ShieldConfig Demo ImageVerify.
From S2P Require Import RequestHandler Admission Observer.
From stdpp Require Import base gmap strings list relations.
From Stdlib Require Import ZArith Lia.

Local Open Scope string_scope.

Ltac run_unfold := repeat (progress (simpl; go_unfold; unfold Now, env_or, Getenv, clusterM)).

(** ** Deny events *)

(** A call of [createOrUpdateEvent]. *)
Record Denial := mkDenial {
  d_req : Request; d_res : ResultFromRequestHandler; d_constraint : string }.

Section events.
Context {T : ExtTypes} {L : ExtLib T} {O : OS} {K : Kube}.
Context (evk : VerClient Cluster Event).

Definition createOrUpdateEvent_proc (d : Denial) : proc Event :=
  let '(mkDenial req ar constraintName) := d in
  if Allow ar then Done None else
  Local (asksW (λ w, GetKubeConfig (w_cluster w))) (λ err,
  match err with
  | Some err => Done (Some err)
  | None =>
    Local (asksW (λ w, NewForConfig (w_cluster w))) (λ err,
    match err with
    | Some err => Done (Some err)
    | None =>
      Local (env_or "POD_NAMESPACE" defaultPodNamespace) (λ namespace,
      let evtNamespace := denyEventNamespace req namespace in
      Local Now (λ now,
      let tmpMessage := denyMessage constraintName (Message ar) in
      Read evtNamespace (denyEventName req) (λ r,
      match r with
      | Good (resourceVersion, current) =>
          Update evtNamespace resourceVersion (stampEvent tmpMessage now current) Done
      | Bad _ =>
          Create evtNamespace
            (stampEvent tmpMessage now (newDenyEvent req evtNamespace now)) Done
      end)))
    end)
  end).

(** The event a call writes, in a process with the environment of [w]. *)
Definition event_cell (w : World) (d : Denial) : string * string :=
  (denyEventNamespace (d_req d) (envor w "POD_NAMESPACE" defaultPodNamespace),
   denyEventName (d_req d)).

Definition event_count (c : Cluster) (κ : string * string) : Z :=
  default 0%Z (ev_Count <$> cellval evk c κ).

(** What a call makes of the event it finds. *)
Definition event_tx (P : Cluster → Prop) (w0 : World) (d : Denial) : txspec Event :=
  mkTx (event_cell w0 d)
    (λ o y, ∃ now, y = stampEvent (denyMessage (d_constraint d) (Message (d_res d))) now
                         (default (newDenyEvent (d_req d) (event_cell w0 d).1 now) o))
    (λ e, ∃ c, P c ∧ (GetKubeConfig c = Some e ∨ NewForConfig c = Some e)).

Lemma createOrUpdateEvent_txn P w0 d :
  Allow (d_res d) = false →
  txn ev_Name (steady P w0) (event_tx P w0 d) None (createOrUpdateEvent_proc d).
Proof.
  destruct d as [req ar cn]. simpl. intros ->. simpl.
  intros w Hw. apply runs_asksW. split_and!; [done..|].
  destruct (GetKubeConfig (w_cluster w)) as [e|] eqn:E1.
  { exists e. split; [done|]. exists (w_cluster w). split; [apply Hw|by left]. }
  clear w Hw E1. intros w Hw. apply runs_asksW. split_and!; [done..|].
  destruct (NewForConfig (w_cluster w)) as [e|] eqn:E1.
  { exists e. split; [done|]. exists (w_cluster w). split; [apply Hw|by right]. }
  clear w Hw E1. intros w Hw. apply runs_env_or. split_and!; [done..|].
  rewrite (steady_envor _ _ _ _ _ Hw). clear w Hw.
  intros w Hw. apply runs_Now. split_and!; [done..|].
  split_and!; [done..| |].
  - intros v x Hx. exists x. split_and!; [done| |by eexists|done].
    unfold event_cell. simpl. by rewrite Hx.
  - intros e. split_and!; [done..|by eexists|done].
Qed.

Context (rev : Cluster → nat) `{!VerClientLaws ev_Name rev evk}.

Lemma denials_txn P w0 ds :
  Forall (λ d, Allow (d_res d) = false) ds →
  Forall2 (λ t p, txn ev_Name (steady P w0) t None p)
    (event_tx P w0 <$> ds) (createOrUpdateEvent_proc <$> ds).
Proof.
  intros Hds. apply Forall2_fmap, Forall_Forall2_diag.
  eapply Forall_impl; [exact Hds|]. intros d Hd. by apply createOrUpdateEvent_txn.
Qed.

Lemma event_cells P w0 (ds : list Denial) :
  tx_cell <$> (event_tx P w0 <$> ds) = event_cell w0 <$> ds.
Proof. by rewrite <-list_fmap_compose. Qed.

(** Cut at its client calls and run alone, [createOrUpdateEvent] is the
    function of the request handler's model: the version it sends is the one the
    read just returned, so the server compares it with itself. *)
Lemma createOrUpdateEvent_proc_run d w :
  events = unversioned ev_Name evk →
  run_proc evk (createOrUpdateEvent_proc d) w
  = createOrUpdateEvent (d_req d) (d_res d) (d_constraint d) w.
Proof.
  intros He. destruct d as [req ar cn]. unfold createOrUpdateEvent. simpl.
  destruct (Allow ar); [done|]. run_unfold.
  destruct (GetKubeConfig (w_cluster w)); [done|]. run_unfold.
  destruct (NewForConfig (w_cluster w)); [done|]. run_unfold.
  rewrite He. set (ns := denyEventNamespace _ _). simpl.
  destruct (vc_get evk (w_cluster w) ns (denyEventName req)) as [[v cur]|e] eqn:E; run_unfold.
  - pose proof (vget_name _ _ _ _ _ E) as Hn. rewrite Hn, E.
    by destruct (vc_update _ _ _ _).
  - by destruct (vc_create _ _ _ _).
Qed.

Lemma denials_count P w0 (ds : list Denial) κ i t o y :
  (event_tx P w0 <$> ds) !! i = Some t → tx_cell t = κ → tx_rel t o y →
  ev_Count y = int32 (default 0%Z (ev_Count <$> o) + 1).
Proof.
  intros (d & -> & _)%list_lookup_fmap_Some _ [now ->]. by destruct o.
Qed.

(** C13.  Deny events count exactly under any interleaving of any number of
    denied requests: at every moment the count stored in an event is the count at
    the start plus the number of calls for that event that returned nil (int32),
    and if any did, the event carries the message of one of them. *)
Theorem deny_events_counted ds w0 ps w κ :
  Forall (λ d, Allow (d_res d) = false) ds →
  rtc (step evk) (createOrUpdateEvent_proc <$> ds, w0) (ps, w) →
  int32 (event_count (w_cluster w0) κ) = event_count (w_cluster w0) κ →
  let ws := writers κ (event_cell w0 <$> ds) ps in
  event_count (w_cluster w) κ
    = int32 (event_count (w_cluster w0) κ + Z.of_nat (length ws))
  ∧ (ws ≠ [] → ∃ i d evt, i ∈ ws ∧ ds !! i = Some d
       ∧ cellval evk (w_cluster w) κ = Some evt
       ∧ ev_Message evt = denyMessage (d_constraint d) (Message (d_res d))).
Proof.
  intros Hds Hsteps H0 ws.
  destruct (steady_serializable ev_Name rev evk (λ _, True) _ w0 _ _ _ κ Logic.I
    (denials_txn _ w0 ds Hds) Hsteps) as (log & Hw & Hser).
  rewrite event_cells in Hw. fold ws in Hw. split.
  - unfold event_count in *.
    rewrite (serial_measure _ _ _ _ _ ev_Count (λ z, int32 (z + 1)) 0%Z
      (denials_count _ _ _ _) Hser), (Permutation_length Hw).
    by apply iter_wrap.
  - intros Hne. destruct (serial_last _ _ _ _ _ Hser) as [[Hnil _]|(i & t & o & y & Hi & Ht & HR & Hy)].
    { rewrite Hnil in Hw. by apply Permutation_nil in Hw. }
    rewrite Hw in Hi. apply list_lookup_fmap_Some in Ht as (d & -> & Hd).
    destruct HR as [now ->]. eauto 10.
Qed.

(** The clients of the shield can be built. *)
Definition reachable (c : Cluster) : Prop :=
  GetKubeConfig c = None ∧ NewForConfig c = None.

Lemma createOrUpdateEvent_within d : within (createOrUpdateEvent_proc d) 6.
Proof.
  destruct d as [req ar cn]. simpl. destruct (Allow ar); [done|].
  intros [e|]; [done|]. intros [e|]; [done|]. intros ns now [[v x]|e] r; done.
Qed.

Lemma denials_within ds :
  Forall2 within (createOrUpdateEvent_proc <$> ds) (replicate (length ds) 6).
Proof.
  apply Forall2_replicate_r; [by rewrite length_fmap|].
  apply Forall_fmap, Forall_true. intros d. apply createOrUpdateEvent_within.
Qed.

(** C24.  Any interleaving of denied requests ends: at most six actions per
    request are possible, and when none is left every call has returned.  With a
    server that refuses only conflicting writes, every event for which a request
    was denied has then been written by at least one of them, whatever happened
    to the others. *)
Theorem deny_events_finish ds w0 :
  VerClientLive ev_Name evk → Keeps evk reachable → reachable (w_cluster w0) →
  Forall (λ d, Allow (d_res d) = false) ds →
  (∀ n ps w, nsteps (step evk) n (createOrUpdateEvent_proc <$> ds, w0) (ps, w) →
     n ≤ 6 * length ds)%nat
  ∧ ∀ ps w, rtc (step evk) (createOrUpdateEvent_proc <$> ds, w0) (ps, w) →
      (∀ cfg, ¬ step evk (ps, w) cfg) →
      ∀ i d, ds !! i = Some d →
        (∃ r, ps !! i = Some (Done r))
        ∧ writers (event_cell w0 d) (event_cell w0 <$> ds) ps ≠ [].
Proof.
  intros Hlive Hkeep Hr Hds. split.
  - intros n ps w Hn.
    destruct (bounded_steps evk n _ _ _ _ _ (denials_within ds) Hn) as (ds' & _ & Hs).
    rewrite sum_list_replicate in Hs. lia.
  - intros ps w Hsteps Hend i d Hi.
    destruct (steady_finished ev_Name rev evk reachable (event_tx reachable w0 <$> ds)
      w0 _ ps w i (event_tx reachable w0 d) Hr (denials_txn _ w0 ds Hds) Hsteps Hend)
      as [Hdone Hw].
    + by rewrite list_lookup_fmap, Hi.
    + intros e (c & [Hc1 Hc2] & [?|?]); congruence.
    + rewrite event_cells in Hw. done.
Qed.
End events.

(** ** Profile status *)

(** A call of [updateConstraintStatus]. *)
Record StatusCall := mkStatusCall { u_constraint : string; u_req : Request; u_msg : string }.

Section profiles.
Context {T : ExtTypes} {L : ExtLib T} {O : OS} {K : Kube} {MC : MipClient T K}.
Context (mipk : VerClient Cluster ManifestIntegrityProfile).

Definition updateConstraintStatus_proc (u : StatusCall) : proc ManifestIntegrityProfile :=
  let '(mkStatusCall constraint req errMsg) := u in
  Local (asksW (λ w, GetKubeConfig (w_cluster w))) (λ err,
  match err with
  | Some err => Done (Some err)
  | None =>
    Local (asksW (λ w, mip_NewForConfig (w_cluster w))) (λ err,
    match err with
    | Some err => Done (Some err)
    | None =>
      Read "" constraint (λ r,
      match r with
      | Bad err => Done (Some err)
      | Good (resourceVersion, mip) =>
          Local (UpdateStatus mip req errMsg) (λ newMIP,
          Update "" resourceVersion newMIP Done)
      end)
    end)
  end).

Definition profile_cell (u : StatusCall) : string * string := ("", u_constraint u).

(** The violation a call reports. *)
Definition reports (u : StatusCall) (v : ViolationDetail) : Prop :=
  v_Namespace v = rq_Namespace (u_req u) ∧ v_Kind v = Kind (rq_Kind (u_req u))
  ∧ v_Name v = rq_Name (u_req u) ∧ v_Message v = u_msg u.

Definition profile_tx (u : StatusCall) : txspec ManifestIntegrityProfile :=
  mkTx (profile_cell u)
    (λ o y, ∃ m v, o = Some m ∧ reports u v
       ∧ y = mkMIP (mip_Name m) (mip_Spec m) (pushViolation v (mip_Status m)))
    (λ _, True).

Lemma updateConstraintStatus_txn w0 u :
  txn mip_Name (steady (λ _, True) w0) (profile_tx u) None (updateConstraintStatus_proc u).
Proof.
  destruct u as [cn req msg]. simpl.
  intros w Hw. apply runs_asksW. split_and!; [done..|].
  destruct (GetKubeConfig (w_cluster w)) as [e|]; [by eexists|].
  clear w Hw. intros w Hw. apply runs_asksW. split_and!; [done..|].
  destruct (mip_NewForConfig (w_cluster w)) as [e|]; [by eexists|].
  split_and!; [done..| |by eexists].
  intros v x Hx. clear w Hw. intros w Hw.
  eexists _, _. split; [apply UpdateStatus_run|]. split_and!; [done..|].
  exists x. split_and!; [done| | |done].
  - unfold profile_cell. simpl. by rewrite Hx.
  - eexists x, _. split_and!; [done| |done]. by repeat split.
Qed.

Context (rev : Cluster → nat) `{!VerClientLaws mip_Name rev mipk}.

(** Cut at its client calls and run alone, [updateConstraintStatus] is the
    function of the admission controller's model. *)
Lemma updateConstraintStatus_proc_run u w :
  mips = unversioned mip_Name mipk →
  run_proc mipk (updateConstraintStatus_proc u) w
  = updateConstraintStatus (u_constraint u) (u_req u) (u_msg u) w.
Proof.
  intros He. destruct u as [cn req msg]. unfold updateConstraintStatus. run_unfold.
  destruct (GetKubeConfig (w_cluster w)); [done|]. run_unfold.
  destruct (mip_NewForConfig (w_cluster w)); [done|]. run_unfold.
  rewrite He. simpl.
  destruct (vc_get mipk (w_cluster w) "" cn) as [[v cur]|e] eqn:E; run_unfold; [|done].
  pose proof (vget_name _ _ _ _ _ E) as Hn. rewrite Hn, E.
  by destruct (vc_update _ _ _ _).
Qed.

(** The history of a profile after the calls of [log] (latest first). *)
Lemma profile_serial us κ m0 log o :
  status_ok (mip_Status m0) →
  serial (profile_tx <$> us) κ (Some m0) log o →
  ∃ m vs, o = Some m ∧ mip_Name m = mip_Name m0 ∧ mip_Spec m = mip_Spec m0
    ∧ Forall2 (λ i v, ∃ u, us !! i = Some u ∧ reports u v)
        (at_cell (profile_tx <$> us) κ log) vs
    ∧ DenyCount (mip_Status m) = int64 (DenyCount (mip_Status m0) + Z.of_nat (length vs))
    ∧ Violations (mip_Status m)
      = take maxHistoryLength (vs ++ Violations (mip_Status m0))%list.
Proof.
  intros [Hlen Hint]. unfold at_cell.
  induction 1 as [|i t log o Ht Hne _ IH|i t log o y Ht Heq HR _ IH].
  - exists m0, []. split_and!; try done.
    + simpl. by rewrite Z.add_0_r.
    + simpl. by rewrite take_ge.
  - rewrite filter_cons_False by (rewrite Ht; simpl; congruence). exact IH.
  - rewrite filter_cons_True by (rewrite Ht; simpl; congruence).
    destruct IH as (m & vs & -> & Hn & Hs & Hvs & Hc & Hv).
    apply list_lookup_fmap_Some in Ht as (u & -> & Hu).
    destruct HR as (m' & v & [= <-] & Hrep & ->).
    eexists _, (v :: vs). split_and!; try done.
    + constructor; [by eauto|done].
    + cbn [mip_Status]. rewrite pushViolation_spec. cbn [DenyCount]. rewrite Hc.
      unfold int64. rewrite wrap_wrap_add. f_equal. simpl. lia.
    + cbn [mip_Status]. rewrite pushViolation_spec. cbn [Violations]. rewrite Hv.
      exact (take_app_take maxHistoryLength [v] _).
Qed.

Lemma status_calls_txn w0 us :
  Forall2 (λ t p, txn mip_Name (steady (λ _, True) w0) t None p)
    (profile_tx <$> us) (updateConstraintStatus_proc <$> us).
Proof.
  apply Forall2_fmap, Forall_Forall2_diag, Forall_true. apply updateConstraintStatus_txn.
Qed.

Lemma profile_cells (us : list StatusCall) :
  tx_cell <$> (profile_tx <$> us) = profile_cell <$> us.
Proof. by rewrite <-list_fmap_compose. Qed.

(** C14.  Denials that several requests report on the same profiles at the same
    time: at every moment a profile's deny counter has advanced by the number of
    reports on it that returned nil (64-bit int), its history holds exactly the
    violations of those reports, newest first and cut to ten, before what was
    there; its name and specification are as at the start. *)
Theorem profile_status_serializable us w0 ps w n m0 :
  rtc (step mipk) (updateConstraintStatus_proc <$> us, w0) (ps, w) →
  cellval mipk (w_cluster w0) ("", n) = Some m0 → status_ok (mip_Status m0) →
  let ws := writers ("", n) (profile_cell <$> us) ps in
  ∃ m order vs, cellval mipk (w_cluster w) ("", n) = Some m
    ∧ mip_Name m = mip_Name m0 ∧ mip_Spec m = mip_Spec m0
    ∧ DenyCount (mip_Status m)
      = int64 (DenyCount (mip_Status m0) + Z.of_nat (length ws))
    ∧ order ≡ₚ ws ∧ Forall2 (λ i v, ∃ u, us !! i = Some u ∧ reports u v) order vs
    ∧ Violations (mip_Status m)
      = take maxHistoryLength (vs ++ Violations (mip_Status m0))%list.
Proof.
  intros Hsteps H0 Hok ws.
  destruct (steady_serializable mip_Name rev mipk (λ _, True) _ w0 _ _ _ ("", n) Logic.I
    (status_calls_txn w0 us) Hsteps) as (log & Hw & Hser).
  rewrite profile_cells in Hw. fold ws in Hw. rewrite H0 in Hser.
  destruct (profile_serial us _ m0 log _ Hok Hser) as (m & vs & Hm & Hn & Hs & Hvs & Hc & Hv).
  exists m, (at_cell (profile_tx <$> us) ("", n) log), vs. split_and!; try done.
  by rewrite Hc, <-(Forall2_length _ _ _ Hvs), (Permutation_length Hw).
Qed.
End profiles.

(** ** Integrity states *)

(** A call of [exportVerifyResult]. *)
Record ExportCall := mkExport {
  x_spec : ManifestIntegrityStateSpec; x_ignored : bool; x_violated : bool }.

Section exports.
Context {T : ExtTypes} {K : Kube} {X : ObserverExt T K}.
Context (misk : VerClient Cluster ManifestIntegrityState).

Definition exportVerifyResult_proc (x : ExportCall) : proc ManifestIntegrityState :=
  let '(mkExport vrr ignored violated) := x in
  Local (asksW (λ w, GetKubeConfig (w_cluster w))) (λ err,
  match err with
  | Some err => Done (Some err)
  | None =>
    Local (asksW (λ w, mis_NewForConfig (w_cluster w))) (λ err,
    match err with
    | Some err => Done (Some err)
    | None =>
      Local (env_or "POD_NAMESPACE" defaultPodNamespace) (λ namespace,
      let labels := stateLabels ignored violated in
      Read namespace (s_ConstraintName vrr) (λ r,
      match r with
      | Bad _ => Create namespace (mkMIS (s_ConstraintName vrr) labels vrr) Done
      | Good (resourceVersion, obj) =>
          Update namespace resourceVersion (mkMIS (mis_Name obj) labels vrr) Done
      end))
    end)
  end).

Definition state_cell (w : World) (x : ExportCall) : string * string :=
  (envor w "POD_NAMESPACE" defaultPodNamespace, s_ConstraintName (x_spec x)).
(** The state a call exports. *)
Definition exported (x : ExportCall) : ManifestIntegrityState :=
  mkMIS (s_ConstraintName (x_spec x)) (stateLabels (x_ignored x) (x_violated x)) (x_spec x).
Definition state_tx (w0 : World) (x : ExportCall) : txspec ManifestIntegrityState :=
  mkTx (state_cell w0 x) (λ _ y, y = exported x) (λ _, True).

Lemma exportVerifyResult_txn w0 x :
  txn mis_Name (steady (λ _, True) w0) (state_tx w0 x) None (exportVerifyResult_proc x).
Proof.
  destruct x as [vrr ign viol]. simpl.
  intros w Hw. apply runs_asksW. split_and!; [done..|].
  destruct (GetKubeConfig (w_cluster w)) as [e|]; [by eexists|].
  clear w Hw. intros w Hw. apply runs_asksW. split_and!; [done..|].
  destruct (mis_NewForConfig (w_cluster w)) as [e|]; [by eexists|].
  clear w Hw. intros w Hw. apply runs_env_or. split_and!; [done..|].
  rewrite (steady_envor _ _ _ _ _ Hw). split_and!; [done..| |done].
  intros v x Hx. exists x. rewrite Hx. done.
Qed.

Context (rev : Cluster → nat) `{!VerClientLaws mis_Name rev misk}.

(** Cut at its client calls and run alone, [exportVerifyResult] is the
    function of the observer's model. *)
Lemma exportVerifyResult_proc_run x w :
  states = unversioned mis_Name misk →
  run_proc misk (exportVerifyResult_proc x) w
  = exportVerifyResult (x_spec x) (x_ignored x) (x_violated x) w.
Proof.
  intros He. destruct x as [vrr ign viol]. unfold exportVerifyResult. run_unfold.
  destruct (GetKubeConfig (w_cluster w)); [done|]. run_unfold.
  destruct (mis_NewForConfig (w_cluster w)); [done|]. run_unfold.
  rewrite He. set (ns := if bool_decide _ then _ else _). simpl.
  destruct (vc_get misk (w_cluster w) ns (s_ConstraintName vrr)) as [[v cur]|e] eqn:E; run_unfold.
  - pose proof (vget_name _ _ _ _ _ E) as Hn. rewrite Hn, E.
    by destruct (vc_update _ _ _ _).
  - by destruct (vc_create _ _ _ _).
Qed.

(** C25.  Observers that export states at the same time (two replicas, or a new
    run before the old one ended) never mix their results: at every moment the
    state of a constraint is the one at the start, if no export of it returned
    nil, and otherwise the complete result (specification and labels together) of
    one export that did. *)
Theorem exported_states_whole xs w0 ps w κ :
  rtc (step misk) (exportVerifyResult_proc <$> xs, w0) (ps, w) →
  let ws := writers κ (state_cell w0 <$> xs) ps in
  (ws = [] ∧ cellval misk (w_cluster w) κ = cellval misk (w_cluster w0) κ)
  ∨ ∃ i x, i ∈ ws ∧ xs !! i = Some x
      ∧ cellval misk (w_cluster w) κ = Some (exported x).
Proof.
  intros Hsteps ws.
  destruct (steady_serializable mis_Name rev misk (λ _, True) (state_tx w0 <$> xs) w0
    (exportVerifyResult_proc <$> xs) ps w κ Logic.I
    ltac:(apply Forall2_fmap, Forall_Forall2_diag, Forall_true, exportVerifyResult_txn)
    Hsteps) as (log & Hw & Hser).
  rewrite <-list_fmap_compose in Hw.
  change (at_cell (state_tx w0 <$> xs) κ log ≡ₚ ws) in Hw.
  destruct (serial_last _ _ _ _ _ Hser) as [[Hnil Ho]|(i & t & o & y & Hi & Ht & HR & Hy)].
  - left. rewrite Hnil in Hw. split; [by apply Permutation_nil|done].
  - right. rewrite Hw in Hi. apply list_lookup_fmap_Some in Ht as (x & -> & Hx).
    simpl in HR. subst y. eauto.
Qed.
End exports.

(** ** The link to the sequential models *)

Section alone.
Context {T : ExtTypes} {L : ExtLib T} {O : OS} {K : Kube} {MC : MipClient T K}
  {X : ObserverExt T K}.

End alone.

(** ** Concrete interleavings *)

Module ConcurrencyDemo.
Import Demo AdmissionDemo ObserverDemo VerStore.

(** The in-memory cluster with a store of versioned objects beside it. *)
Abbreviation Mip := (ManifestIntegrityProfile (T := types)).
Abbreviation Mis := ManifestIntegrityState.
Record Stores := mkStores { s_events : store Event; s_mips : store Mip; s_mis : store Mis }.
Abbreviation VC := (MemCluster Stores).

Definition evc : VerClient VC Event := storeVerClient ev_Name (s_events ∘ mc_ext)
  (λ s c, set_ext (mkStores s (s_mips (mc_ext c)) (s_mis (mc_ext c))) c).
Definition mipc : VerClient VC Mip := storeVerClient mip_Name (s_mips ∘ mc_ext)
  (λ s c, set_ext (mkStores (s_events (mc_ext c)) s (s_mis (mc_ext c))) c).
Definition misc : VerClient VC Mis := storeVerClient mis_Name (s_mis ∘ mc_ext)
  (λ s c, set_ext (mkStores (s_events (mc_ext c)) (s_mips (mc_ext c)) s) c).
Abbreviation revOf f := (VerStore.rev (C := VC) (f ∘ mc_ext)).

#[export] Instance evc_laws : VerClientLaws ev_Name (revOf s_events) evc.
Proof. by apply storeVer_laws. Qed.
#[export] Instance mipc_laws : VerClientLaws mip_Name (revOf s_mips) mipc.
Proof. by apply storeVer_laws. Qed.
#[export] Instance misc_laws : VerClientLaws mis_Name (revOf s_mis) misc.
Proof. by apply storeVer_laws. Qed.
#[export] Instance evc_live : VerClientLive ev_Name evc.
Proof. apply storeVer_live. Qed.

#[export] Instance VK : Kube :=
  let K0 := kube (X := Stores) in
  {| Cluster := VC; GetKubeConfig := @GetKubeConfig K0; NewForConfig := @NewForConfig K0;
     configmaps := @configmaps K0; events := unversioned ev_Name evc;
     GetSecret := @GetSecret K0; Namespaces_Get := @Namespaces_Get K0;
     Namespaces_List := @Namespaces_List K0 |}.
#[export] Instance vmipClient : MipClient types VK := {
  mip_NewForConfig _ := None;
  mips := unversioned mip_Name mipc;
  mips_List c := Good (map_to_list (s_mips (mc_ext (X := Stores) c))).*2.*2 }.
#[export] Instance vobserverExt : ObserverExt types VK := {
  OptionRest_zero := ["alice"];
  SpecValue := string;
  Object_spec o := Some (o_name o);
  json_Marshal_spec s := (default "null" s, None);
  json_ConstraintSpec s := (constraint_named s, None);
  json_Observation r := strings_Join (cr_ConstraintName <$> ob_ConstraintResults r) ",";
  ParseGroupVersion gv := Good ("", gv);
  NewDiscoveryClientForConfig c b := if b then Ret None else Panic nil_dereference;
  ServerPreferredResources c := Good [];
  dynamic_NewForConfig c b := if b then Ret None else Panic nil_dereference;
  dynamic_List c g ns := Good [];
  mis_NewForConfig c := None;
  states := unversioned mis_Name misc;
  cosign_Init fs := fs }.

Definition vworld (s : Stores) : World (K := VK) :=
  mkWorld (K := VK) ∅ InfoLevel false ∅ 0 (mkMem true ∅ ∅ ∅ ∅ s).

(** Three requests for the same object are denied: the first two read before
    either writes, the third runs after them. *)
Definition ew0 : World (K := VK) := vworld (mkStores ∅ ∅ ∅).
Definition ds0 : list Denial :=
  [mkDenial unsigned denied "c0"; mkDenial unsigned denied "c1"; mkDenial unsigned denied "c2"].
Definition overlap : list nat :=
  [0; 0; 0; 0; 0; 1; 1; 1; 1; 1; 0; 1; 2; 2; 2; 2; 2; 2]%nat.
Definition ecfg := exec (K := VK) evc overlap (createOrUpdateEvent_proc (K := VK) <$> ds0, ew0).

Example overlap_results :
  (λ p, match p with Done r => Some (e_reason <$> r) | _ => None end) <$> ecfg.1
  = [Some None; Some (Some AlreadyExists); Some None].
Proof. vm_compute. reflexivity. Qed.

Definition κ0 : string * string := ("ns1", "ishield-deny-create-configmap-cm1").
Lemma deny_events_counted_witness :
  event_count (K := VK) evc (w_cluster ecfg.2) κ0 = 2%Z.
Proof.
  destruct (deny_events_counted (K := VK) evc (revOf s_events) ds0 ew0 ecfg.1 ecfg.2 κ0
    ltac:(repeat constructor) (exec_steps_pair (K := VK) evc overlap _) ltac:(vm_compute; reflexivity))
    as [H _].
  rewrite H. vm_compute. reflexivity.
Defined.

#[export] Instance evc_keeps : Keeps (K := VK) evc reachable.
Proof.
  split; unfold reachable; simpl.
  - intros c ns y e c' HP. destruct (sget _ _ _ _); intros [= <- <-]; exact HP.
  - intros c ns v y e c' HP. destruct (sget _ _ _ _) as [[? ?]|]; [|by intros [= <- <-]].
    case_bool_decide; intros [= <- <-]; exact HP.
Qed.
Lemma deny_events_finish_witness :
  (∃ r, ecfg.1 !! 1%nat = Some (Done r))
  ∧ writers κ0 (event_cell (K := VK) ew0 <$> ds0) ecfg.1 ≠ [].
Proof.
  destruct (deny_events_finish (K := VK) evc (revOf s_events) ds0 ew0
    _ _ ltac:(split; reflexivity) ltac:(repeat constructor)) as [_ H].
  apply (H ecfg.1 ecfg.2 (exec_steps_pair (K := VK) evc overlap _)
    (λ cfg, returned_stuck (K := VK) evc ecfg.1 ecfg.2 cfg ltac:(vm_compute; reflexivity))
    1%nat (mkDenial unsigned denied "c1")).
  reflexivity.
Defined.

(** Two denials reported on one profile; the second reads what the first wrote. *)
Definition pw0 : World (K := VK) :=
  vworld (mkStores ∅ {[ ("", "p0") := (1%nat, mip0) ]} ∅).
Definition us0 : list StatusCall :=
  [mkStatusCall "p0" unsigned "a"; mkStatusCall "p0" unsigned "b"; mkStatusCall "p0" unsigned "c"].
Definition pcfg := exec (K := VK) mipc [0; 1; 0; 1; 0; 1; 0; 1; 0; 1; 2; 2; 2; 2; 2]%nat
  (updateConstraintStatus_proc (K := VK) <$> us0, pw0).

Lemma profile_status_serializable_witness :
  ∃ m, cellval mipc (w_cluster pcfg.2) ("", "p0") = Some m ∧ DenyCount (mip_Status m) = 2%Z.
Proof.
  destruct (profile_status_serializable (K := VK) mipc (revOf s_mips) us0 pw0
    pcfg.1 pcfg.2 "p0" mip0 (exec_steps_pair (K := VK) mipc _ _)
    ltac:(vm_compute; reflexivity) ltac:(split; vm_compute; [lia|reflexivity]))
    as (m & order & vs & Hm & _ & _ & Hc & _).
  exists m. split; [exact Hm|]. rewrite Hc. vm_compute. reflexivity.
Defined.

(** Two observers export different results for one constraint; both find no state. *)
Definition xs0 : list ExportCall :=
  [mkExport spec0 false true; mkExport spec0 false false].
Definition xcfg := exec (K := VK) misc [0; 1; 0; 1; 0; 1; 0; 1; 1; 0]%nat
  (exportVerifyResult_proc (K := VK) <$> xs0, ew0).
Lemma exported_states_whole_witness :
  ∃ x, cellval misc (w_cluster xcfg.2) (state_cell (K := VK) ew0 (mkExport spec0 false true))
       = Some (exported x).
Proof.
  destruct (exported_states_whole (K := VK) misc (revOf s_mis) xs0 ew0 xcfg.1 xcfg.2
    (state_cell (K := VK) ew0 (mkExport spec0 false true)) (exec_steps_pair (K := VK) misc _ _))
    as [[H _]|(i & x & _ & _ & H)].
  - vm_compute in H. discriminate.
  - exists x. exact H.
Defined.

End ConcurrencyDemo.
