(* ===== verification/Overlap.v ===== *)
(** * Requests that overlap inside one process

    The shield API and the admission controller serve every request in a
    goroutine of its own, and the request handler works on state that belongs to
    the process: it sets the environment variables REKOR_SERVER and
    K8S_MANIFEST_SIGSTORE_LOG_LEVEL and the logger, it stores key secrets as files
    /tmp/namespace/name/key, and it writes the manifest of a request into a
    temporary directory.  Here the handler is cut at every access to that state
    ([Threads.prog]); a file is written in two actions, because ioutil.WriteFile
    truncates the file when it opens it and fills it afterwards.
    Run alone, the cut handler is [RequestHandler]; what overlapping handlers do is
    the subject of [Isolation]. *)
From S2P Require Import Prelude GoStrings World Interleaving Threads ShieldConfig Demo.
From S2P Require Import ImageVerify RequestHandler Admission Concurrency.
From stdpp Require Import base gmap strings list relations.
From Stdlib Require Import ZArith Lia.

Local Open Scope string_scope.

(** ** The handler, cut at its accesses to shared state *)

Section programs.
Context {T : ExtTypes} {L : ExtLib T} {O : OS} {K : Kube} {S : Sigstore T K}
  {Y : ShieldYaml T}.

(** [os.OpenFile(path, O_WRONLY|O_CREATE|O_TRUNC, perm)] *)
Definition openTrunc (path : string) : M World (option error) := λ w,
  match fs_write_err (w_files w) path with
  | Some e => (Ret (Some e), w)
  | None => (Ret None, set_files (<[path := ""]> (w_files w)) w)
  end.
(** [f.Write(data)] *)
Definition fill (path data : string) : M World unit :=
  modifyW (λ w, set_files (<[path := data]> (w_files w)) w).

Definition WriteFile_prog (path data : string) : prog (option error) :=
  e ← atom (openTrunc path);
  match e with
  | Some err => Return (Some err)
  | None => _ ← atom (fill path data); Return None
  end.

Definition SetupLogger_prog (config : LogConfig) : prog unit :=
  let '(logLevelStr, k8sLogLevelStr) := logLevels config in
  _ ← atom (Setenv k8sLogLevelEnvKey k8sLogLevelStr);
  let logLevel := default InfoLevel (logLevelMap !! logLevelStr) in
  _ ← atom (modifyW (λ w, set_log logLevel (w_jsonlog w) w));
  if bool_decide (lc_Format config = "json")
  then atom (modifyW (λ w, set_log (w_level w) true w)) else Return tt.

Fixpoint saveKeyFile_prog (keyDir : string) (l : list (string * string))
    (sumErr : list string) : prog (string * list string) :=
  match l with
  | [] => Return ("", sumErr)
  | (fname, keyData) :: l' =>
      let fpath := JoinPath [keyDir; fname] in
      e ← WriteFile_prog fpath keyData;
      match e with
      | Some err => saveKeyFile_prog keyDir l' (sumErr ++ [Error err])
      | None => Return (fpath, sumErr)
      end
  end.

Definition LoadKeySecret_prog (keySecretNamespace keySecretName : string)
    : prog (res string) :=
  obj ← atom (asksW (λ w, GetSecret (w_cluster w) keySecretNamespace keySecretName));
  match obj with
  | Bad err => Return (Bad (Wrap err ("failed to get a secret `" +:+ keySecretName
      +:+ "` in `" +:+ keySecretNamespace +:+ "` namespace")))
  | Good secret =>
      order ← atom (RangeMap (sec_Data secret));
      '(keyPath, sumErr) ←
        saveKeyFile_prog (keyDirOf keySecretNamespace keySecretName) order [];
      Return (if bool_decide (keyPath = "") && (0 <? length sumErr)%nat then
                Bad (errNew ("failed to save secret data as a file; "
                             +:+ strings_Join sumErr "; "))
              else if bool_decide (keyPath = "") then
                Bad (errNew ("no key files are found in the secret `" +:+ keySecretName
                  +:+ "` in `" +:+ keySecretNamespace +:+ "` namespace"))
              else Good keyPath)
  end.

Definition LoadRequestHandlerConfig_prog
    : prog (option RequestHandlerConfig * option error) :=
  namespace ← atom (env_or "POD_NAMESPACE" defaultPodNamespace);
  configName ← atom (env_or "REQUEST_HANDLER_CONFIG_NAME" defaultHandlerConfigMapName);
  configKey ← atom (env_or "REQUEST_HANDLER_CONFIG_KEY" defaultConfigKeyInConfigMap);
  err ← atom (asksW (λ w, GetKubeConfig (w_cluster w)));
  match err with
  | Some _ => Return (None, None)
  | None =>
    err ← atom (asksW (λ w, NewForConfig (w_cluster w)));
    match err with
    | Some _ => Return (None, None)
    | None =>
      r ← atom (asksW (λ w, rc_get configmaps (w_cluster w) namespace configName));
      Return (match r with
      | Bad err => (None, Some (Wrap err ("failed to get a configmap `" +:+ configName
          +:+ "` in `" +:+ namespace +:+ "` namespace")))
      | Good cm =>
        match cm_Data cm !! configKey with
        | None => (None, Some (errNew ("`" +:+ configKey
            +:+ "` is not found in configmap")))
        | Some cfgBytes =>
          match yaml_RequestHandlerConfig cfgBytes with
          | (sc, Some err) => (sc, Some (Wrap err
              "failed to unmarshal config.yaml into *config.RequestHandlerConfig"))
          | (sc, None) => (sc, None)
          end
        end
      end)
    end
  end.

(** *** Images *)

Fixpoint loadImageKeys_prog (l : list KeyConfig) : prog (res (list string)) :=
  match l with
  | [] => Return (Good [])
  | kc :: l' =>
      if bool_decide (KeySecretName kc ≠ "") then
        r ← LoadKeySecret_prog (KeySecretNamespace kc) (KeySecretName kc);
        match r with
        | Bad err => Return (Bad (Wrap err "failed to load a key secret for image verification"))
        | Good keyPath =>
            rest ← loadImageKeys_prog l';
            Return (match rest with
                    | Good ks => Good (keyPath :: ks)
                    | Bad e => Bad e
                    end)
        end
      else loadImageKeys_prog l'
  end.

(** Every execution of cosign reads the files anew. *)
Fixpoint verifyWithKeys_prog (manifestPath : string) (keyPathList : list string)
    (failReason : string) : prog (bool * string) :=
  match keyPathList with
  | [] => Return (false, failReason)
  | keyPath :: l' =>
      iErr ← atom (asksW (λ w, VerifyManifest (w_env w) (w_files w) keyPath manifestPath));
      match iErr with
      | None => Return (true, failReason)
      | Some iErr => verifyWithKeys_prog manifestPath l' (Error iErr)
      end
  end.

Definition verifyInDir_prog (tmpDir yamlBytes : string) (profile : ImageProfile)
    : prog (bool * option error) :=
  let manifestPath := JoinPath [tmpDir; "manifest.yaml"] in
  e ← WriteFile_prog manifestPath yamlBytes;
  match e with
  | Some err => Return (false, Some (errNew ("failed to create temp manifest file: "
                                             +:+ Error err)))
  | None =>
      keys ← loadImageKeys_prog (ip_KeyConfigs profile);
      match keys with
      | Bad err => Return (false, Some err)
      | Good ks =>
          let keyPathList := if (length ks =? 0)%nat then [""] else ks in
          '(allImagesVerified, failReason) ←
            verifyWithKeys_prog manifestPath keyPathList "";
          Return (allImagesVerified,
                  if negb allImagesVerified then Some (errNew failReason) else None)
      end
  end.

Definition VerifyImageInManifest_prog (resource : Unstructured) (profile : ImageProfile)
    : prog (bool * option error) :=
  match yaml_Marshal resource with
  | Bad err => Return (false, Some (Wrap err "failed to yaml.Marshal() the resource"))
  | Good yamlBytes =>
      d ← atom (TempDir "verify-image");
      match d with
      | Bad err => Return (false, Some (errNew ("failed to create temp dir: " +:+ Error err)))
      | Good tmpDir =>
          r ← verifyInDir_prog tmpDir yamlBytes profile;
          _ ← atom (RemoveAll tmpDir);
          Return r
      end
  end.

(** *** The decision *)

Fixpoint keyPathsOf_prog (l : list KeyConfig) : prog (list string) :=
  match l with
  | [] => Return []
  | keyconfig :: l' =>
      if bool_decide (KeySecretName keyconfig ≠ "") then
        r ← LoadKeySecret_prog (KeySecretNamespace keyconfig) (KeySecretName keyconfig);
        let keyPath := match r with Good p => p | Bad _ => "" end in
        rest ← keyPathsOf_prog l';
        Return (keyPath :: rest)
      else keyPathsOf_prog l'
  end.

(** The option, once the namespace and the key paths are known. *)
Definition verifyOption (paramObj : ParameterObject) (config : RequestHandlerConfig)
    (signatureAnnotationType namespace : string) (keyPathList : list string)
    : VerifyResourceOption :=
  let vo := withSignatureRef (po_SignatureRef paramObj)
              (po_VerifyResourceOption paramObj) in
  let domain := if bool_decide (signatureAnnotationType = SignatureAnnotationTypeShield)
                then AnnotationKeyDomain else vo_AnnotationKeyDomain vo in
  let keyPathString := strings_Join keyPathList "," in
  let keyPath := if bool_decide (keyPathString ≠ "") then keyPathString
                 else vo_KeyPath vo in
  let ignore := if (length (rf_IgnoreFields (rhc_Filter config)) =? 0)%nat
                then vo_IgnoreFields vo
                else (vo_IgnoreFields vo ++ rf_IgnoreFields (rhc_Filter config))%list in
  withKeys domain namespace keyPath ignore vo.

Definition setVerifyOption_prog (paramObj : ParameterObject) (config : RequestHandlerConfig)
    (signatureAnnotationType : string) : prog VerifyResourceOption :=
  namespace ← atom (env_or "POD_NAMESPACE" defaultPodNamespace);
  keyPathList ← keyPathsOf_prog (po_KeyConfigs paramObj);
  Return (verifyOption paramObj config signatureAnnotationType namespace keyPathList).

Definition imageVerdict_prog (resource : Unstructured) (profile : ImageProfile)
    : prog (bool * string) :=
  let imageVerifyResults := [] in
  if ImageProfile_Enabled profile then
    '(_, err) ← VerifyImageInManifest_prog resource profile;
    Return (match err with
            | Some e => (false,
                "Image signature verification is required, but failed to verify signature: "
                  +:+ Error e)
            | None => imageResultsVerdict imageVerifyResults
            end)
  else Return (true, "").

Definition setupRekor_prog (rhconfig : RequestHandlerConfig) : prog unit :=
  atom (setupRekor rhconfig).

Section with_events.
Context (evk : VerClient Cluster Event).

Definition denyEvent_prog (req : Request) (r : ResultFromRequestHandler)
    (paramObj : ParameterObject) (rhconfig : RequestHandlerConfig) : prog (option error) :=
  if CreateDenyEvent rhconfig
  then prog_of evk (createOrUpdateEvent_proc (mkDenial req r (ConstraintName paramObj)))
  else Return None.

Definition verifyBranch_prog (req : Request) (paramObj : ParameterObject)
    (rhconfig : RequestHandlerConfig) (resource : Unstructured) (enforce : bool)
    : prog (bool * string + ResultFromRequestHandler) :=
  vo ← setVerifyOption_prog paramObj rhconfig (annotationType resource);
  v ← atom (asksW (λ w, VerifyResource (w_env w) (w_files w) (w_cluster w) resource vo));
  match v with
  | Bad err =>
      let r := makeResultFromRequestHandler false (Error err) enforce in
      _ ← denyEvent_prog req r paramObj rhconfig;
      Return (inr r)
  | Good result =>
      let '(allow, message) := signatureVerdict result in
      '(imageAllow, imageMessage) ← imageVerdict_prog resource (po_ImageProfile paramObj);
      Return (inl (if allow && negb imageAllow then (false, imageMessage)
                   else (allow, message)))
  end.

Definition decide_request_prog (req : Request) (paramObj : ParameterObject)
    (rhconfig : RequestHandlerConfig) (resource : Unstructured) (enforce : bool)
    : prog ResultFromRequestHandler :=
  let user := rq_Username req in
  let commonSkipUserMatched :=
    ObjectUserBindingList_Match (rf_SkipUsers (rhc_Filter rhconfig)) resource user in
  let skipObjectMatched := skipObjectsMatch (rf_SkipObjects (rhc_Filter rhconfig)) resource in
  let skipUserMatched := ObjectUserBindingList_Match (po_SkipUsers paramObj) resource user in
  let inScopeUserMatched := ObjectUserBindingList_Match (InScopeUsers paramObj) resource user in
  let inScopeObjMatched := ObjectReferenceList_Match (InScopeObjects paramObj) resource in
  v ← (if (skipUserMatched || commonSkipUserMatched) && negb inScopeUserMatched then
         Return (inl (true, "SkipUsers rule matched."))
       else if negb inScopeObjMatched then
         Return (inl (true, "ObjectSelector rule did not match. Out of scope of verification."))
       else if skipObjectMatched then
         Return (inl (true, "SkipObjects rule matched."))
       else verifyBranch_prog req paramObj rhconfig resource enforce);
  match v with
  | inr r => Return r
  | inl (allow, message) =>
      let r := makeResultFromRequestHandler allow message enforce in
      _ ← denyEvent_prog req r paramObj rhconfig;
      Return r
  end.

Definition RequestHandler_prog (req : Request) (paramObj : ParameterObject)
    : prog ResultFromRequestHandler :=
  match json_Unstructured (rq_Object req) with
  | Bad err =>
      Return (makeResultFromRequestHandler false
        ("IntegrityShield failed to decide the response. Failed to Unmarshal a requested object: "
           +:+ Error err) false)
  | Good resource =>
      '(rhconfig, err) ← LoadRequestHandlerConfig_prog;
      match err with
      | Some err =>
          Return (makeResultFromRequestHandler false
            ("IntegrityShield failed to decide the response. Failed to load request handler config: "
               +:+ Error err) false)
      | None =>
          let rhconfig := default RequestHandlerConfig_zero rhconfig in
          _ ← SetupLogger_prog (rhc_Log rhconfig);
          let enforce := enforceAction paramObj rhconfig in
          _ ← setupRekor_prog rhconfig;
          if isUpdateRequest (rq_Operation req) then
            let ignoreFields := getMatchedIgnoreFields
              (vo_IgnoreFields (po_VerifyResourceOption paramObj))
              (rf_IgnoreFields (rhc_Filter rhconfig)) resource in
            match mutationCheck (rq_OldObject req) (rq_Object req) ignoreFields with
            | (_, Some err) =>
                Return (makeResultFromRequestHandler false
                  ("IntegrityShield failed to decide the response. Failed to check mutation: "
                     +:+ Error err) enforce)
            | (mutated, None) =>
                if negb mutated
                then Return (makeResultFromRequestHandler true "no mutation found" enforce)
                else decide_request_prog req paramObj rhconfig resource enforce
            end
          else decide_request_prog req paramObj rhconfig resource enforce
      end
  end.
End with_events.
End programs.

(** ** Run alone, the cut handler is the handler *)

Section alone.
Context {T : ExtTypes} {L : ExtLib T} {O : OS} {K : Kube} {S : Sigstore T K}
  {Y : ShieldYaml T}.
Implicit Types (w : World).

(** Two computations of the handler that agree in every state. *)
Definition same {A} (p : prog A) (m : M World A) : Prop := ∀ w, run_prog p w = m w.

Lemma same_ret {A} (a : A) : same (Return a) (mret a).
Proof. done. Qed.
Lemma same_atom {A} (m : M World A) : same (atom m) m.
Proof. intros w. apply run_atom. Qed.
Lemma same_bind {A B} (p : prog A) (m : M World A) (f : A → prog B) (g : A → M World B) :
  same p m → (∀ a, same (f a) (g a)) → same (p ≫= f) (m ≫= g).
Proof.
  intros Hp Hf w. unfold mbind at 1, prog_mbind. rewrite run_pbind.
  unfold mbind, M_bind. rewrite Hp. destruct (m w) as [[a|e] w1]; [apply Hf|done].
Qed.
(** A step the sequential definition does together with the next one. *)
Lemma same_read {A B} (f : World → A) (p : A → prog B) (m : M World B) :
  (∀ w, run_prog (p (f w)) w = m w) → same (atom (asksW f) ≫= p) m.
Proof. intros H w. apply H. Qed.
Lemma same_ask {A B} (f : World → A) (p : A → prog B) (m : World → M World B) :
  (∀ w, same (p (f w)) (m w)) → same (atom (asksW f) ≫= p) (getW ≫= m).
Proof. intros H w. apply H. Qed.
End alone.
Create HintDb same.
#[export] Hint Resolve same_ret same_atom : same.
Ltac same_step :=
  repeat first [ apply same_bind; [solve [eauto with same]|intros ?]
               | apply same_ret | case_match | solve [eauto with same] ].

Section alone_parts.
Context {T : ExtTypes} {L : ExtLib T} {O : OS} {K : Kube} {S : Sigstore T K}
  {Y : ShieldYaml T}.

Lemma WriteFile_same p d : same (WriteFile_prog p d) (WriteFile p d).
Proof.
  intros w. unfold WriteFile_prog, WriteFile, openTrunc, fill. go_unfold. simpl. go_unfold.
  destruct (fs_write_err (w_files w) p); [done|]. simpl. go_unfold.
  unfold set_files. simpl. by rewrite insert_insert_eq.
Qed.
Hint Resolve WriteFile_same : same.

Lemma SetupLogger_same config : same (SetupLogger_prog config) (SetupLogger config).
Proof.
  intros w. unfold SetupLogger_prog, SetupLogger. destruct (logLevels config) as [l k].
  case_bool_decide; reflexivity.
Qed.
Lemma saveKeyFile_same keyDir l errs :
  same (saveKeyFile_prog keyDir l errs) (saveKeyFile keyDir l errs).
Proof.
  revert errs. induction l as [|[f d] l IH]; intros errs; cbn [saveKeyFile_prog saveKeyFile]; same_step.
Qed.
Hint Resolve saveKeyFile_same : same.
Lemma LoadKeySecret_same ns n : same (LoadKeySecret_prog ns n) (LoadKeySecret ns n).
Proof. unfold LoadKeySecret_prog, LoadKeySecret. same_step. Qed.
Hint Resolve LoadKeySecret_same : same.
Lemma LoadRequestHandlerConfig_same :
  same LoadRequestHandlerConfig_prog LoadRequestHandlerConfig.
Proof.
  unfold LoadRequestHandlerConfig_prog, LoadRequestHandlerConfig.
  do 3 (apply same_bind; [eauto with same|intros ?]).
  apply same_read. intros w. go_unfold. destruct (GetKubeConfig (w_cluster w)); [done|].
  simpl. go_unfold. by destruct (NewForConfig (w_cluster w)).
Qed.
Lemma loadImageKeys_same l : same (loadImageKeys_prog l) (loadImageKeys l).
Proof. induction l as [|kc l IH]; cbn [loadImageKeys_prog loadImageKeys]; same_step. Qed.
Lemma keyPathsOf_same l : same (keyPathsOf_prog l) (keyPathsOf l).
Proof. induction l as [|kc l IH]; cbn [keyPathsOf_prog keyPathsOf]; same_step. Qed.
Lemma verifyWithKeys_same p ks fr :
  same (verifyWithKeys_prog p ks fr) (asksW (λ w, verifyWithKeys w p ks fr)).
Proof.
  revert fr. induction ks as [|k ks IH]; intros fr; simpl; [done|].
  apply same_read. intros w. unfold asksW.
  destruct (VerifyManifest (w_env w) (w_files w) k p); [apply IH|done].
Qed.
Hint Resolve loadImageKeys_same keyPathsOf_same verifyWithKeys_same : same.
Lemma verifyInDir_same d y prof : same (verifyInDir_prog d y prof) (verifyInDir d y prof).
Proof.
  unfold verifyInDir_prog, verifyInDir. apply same_bind; [eauto with same|intros [e|]];
    [apply same_ret|]. apply same_bind; [eauto with same|intros [ks|e]]; [|apply same_ret].
  set (ks' := if (length ks =? 0)%nat then [""] else ks). intros w.
  unfold mbind at 1, prog_mbind. rewrite run_pbind. unfold mbind, M_bind. rewrite (verifyWithKeys_same _ _ _ w). unfold asksW, getW.
  by destruct (verifyWithKeys w _ ks' "").
Qed.
Hint Resolve verifyInDir_same : same.
Lemma VerifyImageInManifest_same res prof :
  same (VerifyImageInManifest_prog res prof) (VerifyImageInManifest res prof).
Proof. unfold VerifyImageInManifest_prog, VerifyImageInManifest. same_step. Qed.
Hint Resolve VerifyImageInManifest_same : same.
Lemma setVerifyOption_same po rc sat :
  same (setVerifyOption_prog po rc sat) (setVerifyOption po rc sat).
Proof.
  unfold setVerifyOption_prog, setVerifyOption.
  apply same_bind; [eauto with same|intros ns]. intros w.
  rewrite (same_bind _ _ _ (λ ks, mret (verifyOption po rc sat ns ks))
             (keyPathsOf_same (po_KeyConfigs po)) (λ ks, same_ret _) w).
  destruct (po_KeyConfigs po) as [|kc l]; [done|]. simpl (negb _). cbv iota.
  rewrite M_bind_assoc. by apply M_bind_ext.
Qed.
Lemma imageVerdict_same res prof :
  same (imageVerdict_prog res prof) (imageVerdict res prof).
Proof. unfold imageVerdict_prog, imageVerdict. same_step. Qed.
Hint Resolve setVerifyOption_same imageVerdict_same : same.

Context (evk : VerClient Cluster Event) (rev : Cluster → nat).
Context `{!VerClientLaws ev_Name rev evk} (Hev : events = unversioned ev_Name evk).

Lemma denyEvent_same req r po rc :
  same (denyEvent_prog evk req r po rc)
    (if CreateDenyEvent rc then createOrUpdateEvent req r (ConstraintName po) else mret None).
Proof.
  unfold denyEvent_prog. destruct (CreateDenyEvent rc); [|apply same_ret].
  intros w. rewrite run_prog_of. by apply (createOrUpdateEvent_proc_run evk rev).
Qed.
Hint Resolve denyEvent_same SetupLogger_same LoadRequestHandlerConfig_same : same.

Lemma verifyBranch_same req po rc res enforce :
  same (verifyBranch_prog evk req po rc res enforce) (verifyBranch req po rc res enforce).
Proof.
  unfold verifyBranch_prog, verifyBranch. apply same_bind; [eauto with same|intros vo].
  apply same_ask. intros w. same_step.
Qed.
Hint Resolve verifyBranch_same : same.

Lemma decide_request_same req po rc res enforce :
  same (decide_request_prog evk req po rc res enforce)
    (decide_request req po rc res enforce).
Proof.
  unfold decide_request_prog, decide_request. apply same_bind.
  - do 3 (lazymatch goal with |- same (if ?b then _ else _) _ => destruct b end;
          [apply same_ret|]). apply verifyBranch_same.
  - intros [[allow message]|r]; [|apply same_ret].
    apply same_bind; [apply denyEvent_same|intros _; apply same_ret].
Qed.
Hint Resolve decide_request_same : same.

Lemma RequestHandler_same req po :
  same (RequestHandler_prog evk req po) (RequestHandler req po).
Proof. unfold RequestHandler_prog, RequestHandler, setupRekor_prog. same_step. Qed.
End alone_parts.
