(* ===== verification/Isolation.v ===== *)
(** * Overlapping requests do not disturb each other

    Rely/guarantee proof ([Threads.ok]) of the cut request handler of [Overlap].
    While several requests are served, a goroutine relies on this: the files of its
    temporary directory and the environment variables it has set keep their values,
    and a key file it has stored holds its key, or is empty for a moment when others
    store the same secret ([shared]).  It guarantees the same to the others.  The
    environment variables are shared; they keep their values because all handlers
    write the same ones, those of the configuration.
    - Without a common key secret every handler decides by the policy on facts it
      collected undisturbed ([overlapping_requests_isolated]).
    - With common key secrets an allowed request is still justified
      ([overlapping_allow_sound]), but a request can be denied that is allowed alone
      ([key_file_race]).
    - Across a change of the configuration a request can be verified with the rekor
      server of another ([rekor_race]). *)
From S2P Require Import Prelude GoStrings World Interleaving Threads ShieldConfig Demo.
From S2P Require Import ImageVerify RequestHandler Admission Concurrency Overlap.
From stdpp Require Import base gmap strings list relations.
From Stdlib Require Import Ascii ZArith Lia.

Local Open Scope string_scope.

(** ** Temporary directories *)

(** Names of the directories that ioutil.TempDir makes for the handler. *)
Definition temp_prefix : string := "/tmp/verify-image".
Definition temp_name (d : string) : Prop :=
  ∃ s, d = temp_prefix +:+ s ∧ Contains s "/" = false.
Definition below (d p : string) : Prop := HasPrefix p (d +:+ "/") = true.
Lemma slash_free_inj s s' u u' :
  Contains s "/" = false → Contains s' "/" = false →
  s +:+ String "/"%char u = s' +:+ String "/"%char u' → s = s'.
Proof.
  intros Hs Hs' E. pose proof (split_aux_char "/"%char "" s u Hs) as H1.
  pose proof (split_aux_char "/"%char "" s' u' Hs') as H2. rewrite E, H2 in H1.
  by injection H1 as ? _.
Qed.
Lemma below_prefix d p : temp_name d → below d p → HasPrefix p temp_prefix = true.
Proof.
  intros (s & -> & _) Hb. unfold below in Hb. apply HasPrefix_spec in Hb as [u ->].
  apply HasPrefix_spec. exists (s +:+ "/" +:+ u). by rewrite !sapp_assoc.
Qed.
Lemma below_inj d d' p : temp_name d → temp_name d' → below d p → below d' p → d = d'.
Proof.
  intros (s & -> & Hs) (s' & -> & Hs') Hb Hb'. unfold below in *.
  apply HasPrefix_spec in Hb as [u ->]. apply HasPrefix_spec in Hb' as [u' E].
  rewrite <-!sapp_assoc in E. f_equal.
  apply (slash_free_inj s s' u u' Hs Hs'). injection E as E. exact E.
Qed.
Lemma below_dir d : below d (d +:+ "/").
Proof. apply HasPrefix_spec. exists "". by rewrite sapp_nil_r. Qed.
Lemma manifest_path d :
  temp_name d → JoinPath [d; "manifest.yaml"] = d +:+ "/manifest.yaml".
Proof.
  intros (s & -> & Hs). unfold JoinPath. rewrite !filter_cons_True by done.
  rewrite filter_nil. unfold Clean.
  change (strings_Join [temp_prefix +:+ s; "manifest.yaml"] "/")
    with ((temp_prefix +:+ s) +:+ String "/"%char "manifest.yaml").
  assert (Split ((temp_prefix +:+ s) +:+ String "/"%char "manifest.yaml") "/"
          = [""; "tmp"; "verify-image" +:+ s; "manifest.yaml"]) as ->.
  { unfold Split. rewrite <-sapp_assoc.
    change (split_aux "/" 0 "" (temp_prefix +:+ (s +:+ String "/"%char "manifest.yaml")))
      with ("" :: "tmp" :: split_aux "/" 0 "verify-image" (s +:+ String "/"%char "manifest.yaml")).
    by rewrite split_aux_char. }
  reflexivity.
Qed.

(** ** What the handlers rely on in the code they call *)

(** The documented behaviour of ioutil.TempDir: the directory is new and its name
    is the pattern with a suffix, directly below the system's directory. *)
Class TempDirLaws (O : OS) : Prop := {
  tempdir_fresh fs d q : fs_tempdir fs "verify-image" = Good d → below d q → fs !! q = None;
  tempdir_name fs d : fs_tempdir fs "verify-image" = Good d → temp_name d }.

(** [eqc] relates clusters that differ in events only: writing an event stays
    within it, and nothing else the handler reads depends on events. *)
Class EventsApart {T : ExtTypes} {K : Kube} {S : Sigstore T K}
    (evk : VerClient Cluster Event) (eqc : relation Cluster) : Prop := {
  eqc_equivalence :: Equivalence eqc;
  event_create_eqc c ns y e c' : vc_create evk c ns y = (e, c') → eqc c' c;
  event_update_eqc c ns v y e c' : vc_update evk c ns (v, y) = (e, c') → eqc c' c;
  GetKubeConfig_proper :: Proper (eqc ==> eq) GetKubeConfig;
  NewForConfig_proper :: Proper (eqc ==> eq) NewForConfig;
  configmaps_proper :: Proper (eqc ==> eq ==> eq ==> eq) (rc_get configmaps);
  GetSecret_proper :: Proper (eqc ==> eq ==> eq ==> eq) GetSecret;
  VerifyResource_proper ::
    Proper (eq ==> eq ==> eqc ==> eq ==> eq ==> eq) VerifyResource }.

(** ** Ownership *)

Section ownership.
Context {T : ExtTypes} {K : Kube}.

(** The files a key configuration can be stored in, with their contents. *)
Definition secret_files (c : Cluster) (kc : KeyConfig) : list (string * string) :=
  if bool_decide (KeySecretName kc ≠ "") then
    match GetSecret c (KeySecretNamespace kc) (KeySecretName kc) with
    | Good sec => (λ fd, (JoinPath [keyDirOf (KeySecretNamespace kc) (KeySecretName kc); fd.1],
                          fd.2)) <$> map_to_list (sec_Data sec)
    | Bad _ => []
    end
  else [].
Definition key_files (c : Cluster) (po : ParameterObject) : list (string * string) :=
  (po_KeyConfigs po ++ ip_KeyConfigs (po_ImageProfile po))%list ≫= secret_files c.

(** A path stands for one key and lies in no temporary directory; unless key files
    are [shared], it belongs to one goroutine only. *)
Definition apart (shared : bool) (own : nat → list (string * string)) : Prop :=
  (∀ i j p d d', (p, d) ∈ own i → (p, d') ∈ own j → d = d' ∧ (shared = false → i = j))
  ∧ ∀ i p d, (p, d) ∈ own i → HasPrefix p temp_prefix = false.

Lemma apart_shared own : apart false own → apart true own.
Proof.
  intros [H Ht]. split; [|done]. intros i j p d d' Hi Hj.
  by destruct (H i j p d d' Hi Hj) as [-> _].
Qed.

(** The content of a file that was stored for the key [d]: the key, or nothing when
    another goroutine that shares the file is just storing it again. *)
Definition holds (shared : bool) (x : option string) (d : string) : Prop :=
  x = Some d ∨ shared = true ∧ x = Some "".
End ownership.

(** What a handler with the configuration [rc] publishes in the environment. *)
Definition published {T : ExtTypes} (rc : RequestHandlerConfig) : Env :=
  <[rekorServerEnvKey := RekorServer rc]>
    {[ k8sLogLevelEnvKey := (logLevels (rhc_Log rc)).2 ]}.

Section isolation.
Context {T : ExtTypes} {L : ExtLib T} {O : OS} {K : Kube} {S : Sigstore T K}
  {Y : ShieldYaml T}.
Context (evk : VerClient Cluster Event) (eqc : relation Cluster).
Context `{HE : !EventsApart evk eqc, HT : !TempDirLaws O}.
Context (w0 : World) (rc : RequestHandlerConfig) (shared : bool).
Context (own : nat → list (string * string)) (Hapart : apart shared own).

(** The state of the process and, as auxiliary state, the temporary directory
    each goroutine is using. *)
Abbreviation st := (World * gmap nat string)%type.
Implicit Types (σ : st) (P : string → Prop).
Abbreviation files σ := (w_files (fst σ)).
Abbreviation env σ := (w_env (fst σ)).
Abbreviation c0 := (w_cluster w0).

(** [p] is in the temporary directory of goroutine [i]. *)
Definition in_dir (i : nat) σ (p : string) : Prop :=
  ∃ d, σ.2 !! i = Some d ∧ temp_name d ∧ below d p.

Record Inv σ : Prop := {
  inv_cluster : eqc (w_cluster σ.1) c0;
  inv_env k : published rc !! k = None → env σ !! k = w_env w0 !! k;
  inv_dirs i d : σ.2 !! i = Some d → temp_name d ∧ is_Some (files σ !! (d +:+ "/"));
  inv_inj i j d : σ.2 !! i = Some d → σ.2 !! j = Some d → i = j }.

(** Outside [P], the temporary files of goroutine [i] and its stored keys are kept,
    and so are the published variables it found. *)
Record keeps P (i : nat) σ σ' : Prop := {
  keeps_dir : σ'.2 !! i = σ.2 !! i;
  keeps_temp p : in_dir i σ p → ¬ P p → files σ' !! p = files σ !! p;
  keeps_keys p d : (p, d) ∈ own i → ¬ P p →
    holds shared (files σ !! p) d → holds shared (files σ' !! p) d;
  keeps_env k v : published rc !! k = Some v → env σ !! k = Some v → env σ' !! k = Some v }.

Definition rely (i : nat) : relation st := keeps (λ _, False) i.
Definition guar (i : nat) : relation st := λ σ σ', ∀ j, j ≠ i → rely j σ σ'.

Lemma in_dir_keeps P i σ σ' p : keeps P i σ σ' → in_dir i σ p → in_dir i σ' p.
Proof. intros Hk (d & Hd & ?). exists d. by rewrite (keeps_dir _ _ _ _ Hk). Qed.
#[export] Instance keeps_preorder P i : PreOrder (keeps P i).
Proof.
  split; [by split|]. intros σ1 σ2 σ3 H12 H23. split.
  - by rewrite (keeps_dir _ _ _ _ H23), (keeps_dir _ _ _ _ H12).
  - intros p Hp HP. rewrite (keeps_temp _ _ _ _ H23 p), (keeps_temp _ _ _ _ H12 p); try done.
    by eapply in_dir_keeps.
  - intros p d Hp HP Hh. eapply keeps_keys; [done..|]. by eapply keeps_keys.
  - intros k v Hk Hv. eapply keeps_env; [done..|]. by eapply keeps_env.
Qed.
#[export] Instance rely_preorder i : PreOrder (rely i) := keeps_preorder _ i.
Lemma keeps_weaken P P' i σ σ' : keeps P i σ σ' → (∀ p, P p → P' p) → keeps P' i σ σ'.
Proof. intros [] HP. split; auto. Qed.
Lemma rely_temp i σ σ' p : rely i σ σ' → in_dir i σ p → files σ' !! p = files σ !! p.
Proof. intros Hr Hp. apply (keeps_temp _ _ _ _ Hr p Hp). by intros []. Qed.
Lemma rely_keys i σ σ' p d : rely i σ σ' → (p, d) ∈ own i →
  holds shared (files σ !! p) d → holds shared (files σ' !! p) d.
Proof. intros Hr Hp. apply (keeps_keys _ _ _ _ Hr p d Hp). by intros []. Qed.

(** The published variables have been set. *)
Definition set_up σ : Prop := ∀ k v, published rc !! k = Some v → env σ !! k = Some v.
Lemma set_up_keeps P i σ σ' : keeps P i σ σ' → set_up σ → set_up σ'.
Proof. intros Hk Hs k v Hkv. eapply keeps_env; [done..|]. by apply Hs. Qed.

(** The environment in which the handler would run its verification alone. *)
Abbreviation env1 := (w_env (prepared rc w0)).
Lemma prepared_env : env1 = published rc ∪ w_env w0.
Proof.
  unfold prepared, state_of, published. rewrite SetupLogger_run. simpl.
  by rewrite <-insert_union_l, <-insert_union_singleton_l.
Qed.
Lemma set_up_env σ : Inv σ → set_up σ → env σ = env1.
Proof.
  intros HI Hs. rewrite prepared_env. apply map_eq. intros k.
  destruct (published rc !! k) as [v|] eqn:E.
  - rewrite (Hs _ _ E). symmetry. by apply lookup_union_Some_l.
  - rewrite (inv_env _ HI _ E). symmetry. by apply lookup_union_r.
Qed.

(** Temporary files belong to one goroutine and are no key files. *)
Lemma in_dir_inj i j σ p : Inv σ → in_dir i σ p → in_dir j σ p → i = j.
Proof.
  intros HI (d & Hd & Hn & Hb) (d' & Hd' & Hn' & Hb'). rewrite (below_inj _ _ _ Hn Hn' Hb Hb') in Hd. by eapply inv_inj.
Qed.
Lemma key_not_below i p x d : (p, x) ∈ own i → temp_name d → ¬ below d p.
Proof.
  intros Hp Hn Hb. apply (below_prefix _ _ Hn) in Hb. by rewrite (proj2 Hapart _ _ _ Hp) in Hb.
Qed.
Lemma key_not_temp i j σ p x : (p, x) ∈ own i → ¬ in_dir j σ p.
Proof. intros Hp (d & Hd & Hn & Hb). by eapply key_not_below. Qed.

(** ** The actions *)

Lemma guar_same i σ w' :
  w_env w' = env σ → w_files w' = files σ → guar i σ (w', σ.2).
Proof. intros He Hf j _. split; simpl; rewrite ?He, ?Hf; done. Qed.
Lemma guar_refl i σ : guar i σ σ.
Proof. intros j _. done. Qed.
Lemma Inv_same σ w' :
  Inv σ → w_env w' = env σ → w_files w' = files σ → eqc (w_cluster w') c0 → Inv (w', σ.2).
Proof. intros [H1 H2 H3 H4] He Hf Hc. split; simpl; rewrite ?He, ?Hf; done. Qed.

Lemma Inv_write σ p x : Inv σ → Inv (set_files (<[p := x]> (files σ)) σ.1, σ.2).
Proof.
  intros HI. split; [apply HI..| |apply HI]. intros j d Hd. simpl.
  destruct (inv_dirs _ HI _ _ Hd) as [? Hs]. split; [done|].
  by apply lookup_insert_is_Some'; right.
Qed.

(** The files goroutine [i] may write, and what: the key of a key file or nothing,
    anything in its temporary directory. *)
Definition may_write (i : nat) σ (p x : string) : Prop :=
  in_dir i σ p ∨ ∃ d, (p, d) ∈ own i ∧ (x = d ∨ x = "").

Lemma own_write i σ p x :
  Inv σ → may_write i σ p x →
  let σ' := (set_files (<[p := x]> (files σ)) σ.1, σ.2) in
  guar i σ σ' ∧ Inv σ' ∧ keeps (eq p) i σ σ' ∧ files σ' !! p = Some x.
Proof.
  intros HI Hp σ'. split_and!.
  - intros j Hj. split; simpl; [done| | |done].
    + intros q Hq _. apply lookup_insert_ne. intros <-.
      destruct Hp as [Hp|(d & Hp & _)]; [by apply Hj, (in_dir_inj j i σ p)|].
      by eapply key_not_temp.
    + intros q dq Hq _ Hh. destruct (decide (p = q)) as [<-|?]; [|by rewrite lookup_insert_ne].
      rewrite lookup_insert_eq. destruct Hp as [Hp|(d & Hp & Hx)].
      { by destruct (key_not_temp _ _ _ _ _ Hq Hp). }
      destruct (proj1 Hapart i j p d dq Hp Hq) as [<- Hij]. unfold holds.
      destruct shared; [|by destruct Hj; symmetry; apply Hij].
      destruct Hx as [->| ->]; [by left|by right].
  - by apply Inv_write.
  - split; simpl; [done| | |done].
    + intros q _ Hne. by apply lookup_insert_ne.
    + intros q dq _ Hne. by rewrite lookup_insert_ne.
  - simpl. apply lookup_insert_eq.
Qed.

Abbreviation ok i p Q σ := (Threads.ok Inv rely guar i p Q σ).

(** Reading. *)
Lemma ask_ok {A} i (f : World → A) σ :
  ok i (atom (asksW f)) (λ x σ', rely i σ σ' ∧ Inv σ' ∧ x = f σ'.1) σ.
Proof. apply ok_ask; [apply guar_refl|done]. Qed.
Lemma env_or_ok i k d σ :
  published rc !! k = None →
  ok i (atom (env_or k d)) (λ x σ', rely i σ σ' ∧ x = envor w0 k d) σ.
Proof.
  intros Hk σ' Hr HI. apply runs_env_or. exists σ'.2. rewrite <-surjective_pairing.
  split_and!; [apply guar_refl|done|]. simpl. split; [done|].
  unfold envor, getenv. by rewrite (inv_env _ HI _ Hk).
Qed.

Lemma tick_rely i σ : rely i σ (tick σ.1, σ.2).
Proof. by split. Qed.
Lemma tick_guar i σ : Inv σ → guar i σ (tick σ.1, σ.2) ∧ Inv (tick σ.1, σ.2).
Proof. intros HI. split; [by apply guar_same|]. apply Inv_same; [done..|]. apply HI. Qed.
Lemma RangeMap_ok i m σ :
  ok i (atom (RangeMap m)) (λ l σ', rely i σ σ' ∧ l ≡ₚ map_to_list m) σ.
Proof.
  intros σ' Hr HI. apply runs_RangeMap. intros l Hl. exists σ'.2.
  destruct (tick_guar i σ' HI). split_and!; [done..|]. simpl. split; [|done].
  etrans; [exact Hr|apply tick_rely].
Qed.

Lemma may_write_keeps P i σ σ' p x : keeps P i σ σ' → may_write i σ p x → may_write i σ' p x.
Proof. intros Hk [?|?]; [left; by eapply in_dir_keeps|by right]. Qed.

Lemma WriteFile_ok i p x σ :
  may_write i σ p "" → may_write i σ p x →
  ok i (WriteFile_prog p x) (λ r σ', keeps (eq p) i σ σ' ∧
    match r with
    | None => files σ' !! p = Some x
    | Some e => rely i σ σ' ∧ ∃ fs, fs_write_err fs p = Some e
    end) σ.
Proof.
  intros Hp0 Hp. apply ok_bind. intros σ1 Hr HI. unfold openTrunc.
  destruct (fs_write_err (files σ1) p) as [e|] eqn:E.
  - eexists _, _. split; [by rewrite E|]. exists σ1.2. rewrite <-surjective_pairing.
    split_and!; [apply guar_refl|done|]. simpl. split_and!; [|done|by eauto].
    eapply keeps_weaken; [exact Hr|done].
  - eexists _, _. split; [by rewrite E|]. exists σ1.2.
    destruct (own_write i σ1 p "" HI) as (Hg & HI2 & Hk & _); [by eapply may_write_keeps|].
    split_and!; [exact Hg|exact HI2|]. intros σ3 Hr3 HI3. apply runs_modifyW. exists σ3.2.
    assert (keeps (eq p) i σ σ3) as Hk3.
    { etrans; [eapply keeps_weaken; [exact Hr|done]|].
      etrans; [exact Hk|]. eapply keeps_weaken; [exact Hr3|done]. }
    destruct (own_write i σ3 p x HI3) as (Hg4 & HI4 & Hk4 & Hx); [by eapply may_write_keeps|].
    split_and!; [exact Hg4|exact HI4|]. split; [by etrans|exact Hx].
Qed.

(** ** Set-up *)

Lemma Setenv_ok i k v σ :
  published rc !! k = Some v →
  ok i (atom (Setenv k v)) (λ _ σ', rely i σ σ' ∧ env σ' !! k = Some v) σ.
Proof.
  intros Hk σ1 Hr HI. apply runs_modifyW. exists σ1.2.
  assert (∀ j, rely j σ1 (set_env k v σ1.1, σ1.2)) as Hs.
  { intros j. split; [done..|]. intros k' v' Hk' Hv'. simpl.
    destruct (decide (k = k')) as [<-|?]; [|by rewrite lookup_insert_ne].
    rewrite lookup_insert_eq. congruence. }
  split_and!; [by intros ? _| |].
  - split; [apply HI| |apply HI..]. intros k' Hk'. simpl.
    rewrite lookup_insert_ne by congruence. by apply HI.
  - split; [etrans; [exact Hr|apply Hs]|]. simpl. apply lookup_insert_eq.
Qed.

Lemma set_log_ok i (f : World → World) σ :
  (∀ w, w_env (f w) = w_env w ∧ w_files (f w) = w_files w ∧ w_cluster (f w) = w_cluster w) →
  ok i (atom (modifyW f)) (λ _, rely i σ) σ.
Proof.
  intros Hf σ1 Hr HI. apply runs_modifyW. exists σ1.2. destruct (Hf σ1.1) as (He & Hfs & Hc).
  split_and!; [by apply guar_same| |].
  - apply Inv_same; [done..|]. rewrite Hc. apply HI.
  - change (rely i σ (f σ1.1, σ1.2)). etrans; [exact Hr|].
    split; simpl; rewrite ?He, ?Hfs; done.
Qed.

Lemma published_k8s : published rc !! k8sLogLevelEnvKey = Some (logLevels (rhc_Log rc)).2.
Proof.
  unfold published. rewrite lookup_insert_ne by done. apply lookup_singleton_eq.
Qed.
Lemma published_rekor : published rc !! rekorServerEnvKey = Some (RekorServer rc).
Proof. apply lookup_insert_eq. Qed.

Lemma SetupLogger_ok i σ :
  ok i (SetupLogger_prog (rhc_Log rc)) (λ _ σ',
    env σ' !! k8sLogLevelEnvKey = Some (logLevels (rhc_Log rc)).2) σ.
Proof.
  unfold SetupLogger_prog. pose proof published_k8s as Hk.
  destruct (logLevels (rhc_Log rc)) as [l k]. cbn [fst snd] in *.
  apply ok_bind. eapply ok_mono; [by apply Setenv_ok|]. intros _ σ1 [_ H1].
  apply ok_bind. eapply ok_mono; [by apply set_log_ok|]. intros ? σ2 H2.
  assert (env σ2 !! k8sLogLevelEnvKey = Some k) as H3 by by eapply (keeps_env _ _ _ _ H2).
  destruct (bool_decide _); [|done].
  eapply ok_mono; [by apply set_log_ok|]. intros ? σ3 H4. by eapply (keeps_env _ _ _ _ H4).
Qed.

Lemma setupRekor_ok i σ :
  env σ !! k8sLogLevelEnvKey = Some (logLevels (rhc_Log rc)).2 →
  ok i (setupRekor_prog rc) (λ _, set_up) σ.
Proof.
  intros Hk. unfold setupRekor_prog.
  assert (ok i (atom (Setenv rekorServerEnvKey (RekorServer rc))) (λ _, set_up) σ) as Hok.
  { eapply ok_mono; [by apply Setenv_ok, published_rekor|]. intros _ σ1 [Hr H1] k v.
    unfold published. intros [[<- <-]|[Hne Hv]]%lookup_insert_Some; [done|].
    apply lookup_singleton_Some in Hv as [<- <-].
    by eapply (keeps_env _ _ _ _ Hr), Hk; apply published_k8s. }
  unfold setupRekor. case_bool_decide as E; [done|]. by rewrite E in Hok.
Qed.

Lemma loaded_config_eq w :
  loaded_config w =
  match GetKubeConfig (w_cluster w) with
  | Some _ => (None, None)
  | None =>
    match NewForConfig (w_cluster w) with
    | Some _ => (None, None)
    | None =>
      let namespace := envor w "POD_NAMESPACE" defaultPodNamespace in
      let configName := envor w "REQUEST_HANDLER_CONFIG_NAME" defaultHandlerConfigMapName in
      let configKey := envor w "REQUEST_HANDLER_CONFIG_KEY" defaultConfigKeyInConfigMap in
      match rc_get configmaps (w_cluster w) namespace configName with
      | Bad err => (None, Some (Wrap err ("failed to get a configmap `" +:+ configName
          +:+ "` in `" +:+ namespace +:+ "` namespace")))
      | Good cm =>
        match cm_Data cm !! configKey with
        | None => (None, Some (errNew ("`" +:+ configKey
            +:+ "` is not found in configmap")))
        | Some cfgBytes =>
          match yaml_RequestHandlerConfig cfgBytes with
          | (sc, Some err) => (sc, Some (Wrap err
              "failed to unmarshal config.yaml into *config.RequestHandlerConfig"))
          | (sc, None) => (sc, None)
          end
        end
      end
    end
  end.
Proof. reflexivity. Qed.

(** The configuration is the one of [w0]. *)
Lemma config_ok i σ :
  ok i LoadRequestHandlerConfig_prog (λ r _, r = loaded_config w0) σ.
Proof.
  unfold LoadRequestHandlerConfig_prog.
  do 3 (apply ok_bind; eapply ok_mono;
    [by apply env_or_ok; vm_compute|]; intros ? ? [_ ->]).
  apply ok_bind. eapply ok_mono; [apply ask_ok|]. intros ? τ1 (_ & HI1 & ->).
  rewrite (inv_cluster _ HI1). destruct (GetKubeConfig c0) eqn:E1.
  { by rewrite (loaded_config_eq w0), E1. }
  apply ok_bind. eapply ok_mono; [apply ask_ok|]. intros ? τ2 (_ & HI2 & ->).
  rewrite (inv_cluster _ HI2). destruct (NewForConfig c0) eqn:E2.
  { by rewrite (loaded_config_eq w0), E1, E2. }
  apply ok_bind. eapply ok_mono; [apply ask_ok|]. intros ? τ3 (_ & HI3 & ->).
  rewrite (inv_cluster _ HI3), (loaded_config_eq w0), E1, E2. done.
Qed.

(** ** Key files *)

Lemma WriteKey_ok i p d σ :
  (p, d) ∈ own i →
  ok i (WriteFile_prog p d) (λ r σ', rely i σ σ' ∧
    match r with
    | None => holds shared (files σ' !! p) d
    | Some e => ∃ fs, fs_write_err fs p = Some e
    end) σ.
Proof.
  intros Hp. eapply ok_mono; [apply WriteFile_ok; right; eauto|].
  intros [e|] σ' [Hk H]; [done|].
  split; [|by left]. split; [apply Hk| | |apply Hk].
  - intros q Hq _. apply (keeps_temp _ _ _ _ Hk q Hq). intros <-. by eapply key_not_temp.
  - intros q dq Hq _ Hh. destruct (decide (p = q)) as [<-|Hne].
    + destruct (proj1 Hapart i i p d dq Hp Hq) as [<- _]. by left.
    + by apply (keeps_keys _ _ _ _ Hk q dq Hq).
Qed.

(** The key configuration [kc] cannot be stored. *)
Definition no_key (kc : KeyConfig) : Prop :=
  ∀ p d, (p, d) ∈ secret_files c0 kc → ∃ fs, is_Some (fs_write_err fs p).
(** The file [p] holds a key of [kc]. *)
Definition key_in (fs : Files) (kc : KeyConfig) (p : string) : Prop :=
  ∃ d, (p, d) ∈ secret_files c0 kc ∧ holds shared (fs !! p) d.
Definition named (l : list KeyConfig) : list KeyConfig :=
  filter (λ kc, KeySecretName kc ≠ "") l.
Definition mine (i : nat) (l : list KeyConfig) : Prop :=
  ∀ kc pd, kc ∈ l → pd ∈ secret_files c0 kc → pd ∈ own i.

Lemma saveKeyFile_ok i keyDir l errs σ :
  Forall (λ fd, (JoinPath [keyDir; fd.1], fd.2) ∈ own i) l →
  ok i (saveKeyFile_prog keyDir l errs) (λ r σ', rely i σ σ' ∧
    ((∃ fd, fd ∈ l ∧ r.1 = JoinPath [keyDir; fd.1] ∧ holds shared (files σ' !! r.1) fd.2)
     ∨ r.1 = "" ∧ Forall (λ fd, ∃ fs, is_Some (fs_write_err fs (JoinPath [keyDir; fd.1]))) l)) σ.
Proof.
  intros Hl. revert errs σ. induction Hl as [|[f d] l Hf _ IH]; intros errs σ.
  { apply ok_ret. split; [done|]. by right. }
  cbn [saveKeyFile_prog]. apply ok_bind. eapply ok_mono; [by apply WriteKey_ok|].
  intros [e|] σ1 [Hr H].
  - destruct H as [fs He]. eapply ok_mono; [apply IH|]. intros r σ2 [Hh Hres].
    split; [by etrans|].
    destruct Hres as [([f' d'] & ? & ?)|[? Hall]].
    + left. exists (f', d'). split; [by right|done].
    + right. split; [done|]. constructor; [|done]. exists fs. simpl. by rewrite He.
  - split; [done|]. left. exists (f, d). split; [left|done].
Qed.

Lemma secret_files_elem kc sec fd :
  KeySecretName kc ≠ "" →
  GetSecret c0 (KeySecretNamespace kc) (KeySecretName kc) = Good sec →
  fd ∈ map_to_list (sec_Data sec) →
  (JoinPath [keyDirOf (KeySecretNamespace kc) (KeySecretName kc); fd.1], fd.2)
    ∈ secret_files c0 kc.
Proof.
  intros Hn Hs Hin. unfold secret_files. rewrite bool_decide_eq_true_2 by done. rewrite Hs.
  apply list_elem_of_fmap. eauto.
Qed.

Lemma LoadKeySecret_ok i kc σ :
  KeySecretName kc ≠ "" → mine i [kc] →
  ok i (LoadKeySecret_prog (KeySecretNamespace kc) (KeySecretName kc)) (λ r σ', rely i σ σ' ∧
    match r with Good p => key_in (files σ') kc p | Bad _ => no_key kc end) σ.
Proof.
  intros Hn Hm. unfold LoadKeySecret_prog.
  apply ok_bind. eapply ok_mono; [apply ask_ok|]. intros ? σ1 (Hr1 & HI1 & ->).
  rewrite (inv_cluster _ HI1).
  destruct (GetSecret c0 _ _) as [sec|e] eqn:Hs.
  2: { split; [done|]. intros p d. unfold secret_files.
       rewrite Hs. by destruct (bool_decide _); intros ?%elem_of_nil. }
  apply ok_bind. eapply ok_mono; [apply RangeMap_ok|]. intros l σ2 [Hr2 Hl].
  apply ok_bind. eapply ok_mono; [apply saveKeyFile_ok|].
  { apply Forall_forall. intros fd Hin. apply (Hm kc); [left|].
    eapply secret_files_elem; [done..|]. by rewrite <-Hl. }
  intros [kp errs'] σ3 [Hh Hres]. cbn [fst] in Hres.
  assert (rely i σ σ3) as Hh3 by (etrans; [exact Hr1|by etrans]).
  destruct Hres as [(fd & Hfd & -> & Hx)|[-> Hall]].
  - rewrite (bool_decide_eq_false_2 (JoinPath _ = "")) by by apply JoinPath_nonempty.
    split; [done|]. exists fd.2. split; [|done]. eapply secret_files_elem; [done..|].
    by rewrite <-Hl.
  - rewrite bool_decide_eq_true_2 by done.
    assert (no_key kc).
    { intros p d. unfold secret_files. rewrite Hs, bool_decide_eq_true_2 by done.
      intros ([f' d'] & [= -> ->] & Hin)%list_elem_of_fmap. rewrite <-Hl in Hin.
      rewrite Forall_forall in Hall. exact (Hall _ Hin). }
    by destruct (0 <? length errs')%nat.
Qed.

Lemma mine_cons i kc l : mine i (kc :: l) → mine i [kc] ∧ mine i l.
Proof. unfold mine. split; intros; eapply H; try done; set_solver. Qed.
Lemma mine_app i l k : mine i (l ++ k) → mine i l ∧ mine i k.
Proof. unfold mine. split; intros; eapply H; try done; set_solver. Qed.
Lemma key_in_held i σ σ' kc p :
  mine i [kc] → rely i σ σ' → key_in (files σ) kc p → key_in (files σ') kc p.
Proof.
  intros Hm Hr (d & Hd & Hx). exists d. split; [done|]. eapply rely_keys; [done| |done].
  eapply Hm; [by left|done].
Qed.

(** A path with which the resource is verified. *)
Definition key_path (fs : Files) (kc : KeyConfig) (p : string) : Prop :=
  key_in fs kc p ∨ p = "" ∧ no_key kc.

Lemma keyPathsOf_ok i l σ :
  mine i l →
  ok i (keyPathsOf_prog l) (λ ps σ', rely i σ σ' ∧
    Forall2 (key_path (files σ')) (named l) ps) σ.
Proof.
  revert σ. induction l as [|kc l IH]; intros σ Hm; [by apply ok_ret|].
  apply mine_cons in Hm as [Hkc Hl]. cbn [keyPathsOf_prog]. unfold named.
  case_bool_decide as Hn; [|rewrite filter_cons_False by auto; by apply IH].
  rewrite filter_cons_True by done. apply ok_bind.
  eapply ok_mono; [by apply LoadKeySecret_ok|]. intros r σ1 [Hh1 Hr].
  apply ok_bind. eapply ok_mono; [by apply IH|]. intros ps σ2 [Hh2 Hps].
  split; [by etrans|]. constructor; [|done].
  destruct r as [p|e]; [left; by eapply key_in_held|by right].
Qed.

Lemma loadImageKeys_ok i l σ :
  mine i l →
  ok i (loadImageKeys_prog l) (λ r σ', rely i σ σ' ∧
    match r with
    | Good ks => Forall2 (key_in (files σ')) (named l) ks
    | Bad _ => ∃ kc, kc ∈ named l ∧ no_key kc
    end) σ.
Proof.
  revert σ. induction l as [|kc l IH]; intros σ Hm; [by apply ok_ret|].
  apply mine_cons in Hm as [Hkc Hl]. cbn [loadImageKeys_prog]. unfold named.
  case_bool_decide as Hn; [|rewrite filter_cons_False by auto; by apply IH].
  rewrite filter_cons_True by done. apply ok_bind.
  eapply ok_mono; [by apply LoadKeySecret_ok|]. intros [p|e] σ1 [Hh1 Hr].
  2: { split; [done|]. exists kc. split; [left|done]. }
  apply ok_bind. eapply ok_mono; [by apply IH|]. intros [ks|e] σ2 [Hh2 Hks].
  - split; [by etrans|]. constructor; [|done]. by eapply key_in_held.
  - split; [by etrans|]. destruct Hks as (kc' & ? & ?). exists kc'. split; [by right|done].
Qed.

Lemma named_held i (Φ : Files → KeyConfig → string → Prop) σ σ' l ps :
  (∀ kc p, mine i [kc] → Φ (files σ) kc p → Φ (files σ') kc p) → mine i l →
  Forall2 (Φ (files σ)) (named l) ps → Forall2 (Φ (files σ')) (named l) ps.
Proof.
  intros HΦ Hm Hps. apply Forall2_same_length_lookup. split; [by eapply Forall2_length|].
  intros n kc p Hkc Hp. eapply HΦ; [|by eapply (Forall2_lookup_lr _ _ _ _ _ _ Hps)].
  intros kc' pd ->%list_elem_of_singleton. apply Hm.
  apply list_elem_of_lookup_2 in Hkc. by apply list_elem_of_filter in Hkc as [_ ?].
Qed.
Lemma keys_in_held i σ σ' l ks :
  mine i l → rely i σ σ' →
  Forall2 (key_in (files σ)) (named l) ks → Forall2 (key_in (files σ')) (named l) ks.
Proof.
  intros Hm Hr. apply (named_held i key_in); [|done]. intros kc p ? ?. by eapply key_in_held.
Qed.
Lemma key_paths_held i σ σ' l ps :
  mine i l → rely i σ σ' →
  Forall2 (key_path (files σ)) (named l) ps → Forall2 (key_path (files σ')) (named l) ps.
Proof.
  intros Hm Hr. apply (named_held i key_path); [|done].
  intros kc p ? [?|?]; [left; by eapply key_in_held|by right].
Qed.

(** The namespace of the dry run. *)
Abbreviation ns1 := (envor w0 "POD_NAMESPACE" defaultPodNamespace).

Lemma setVerifyOption_ok i po sat σ :
  mine i (po_KeyConfigs po) →
  ok i (setVerifyOption_prog po rc sat) (λ vo σ', rely i σ σ' ∧
    ∃ ps, vo = verifyOption po rc sat ns1 ps
      ∧ Forall2 (key_path (files σ')) (named (po_KeyConfigs po)) ps) σ.
Proof.
  intros Hm. unfold setVerifyOption_prog.
  apply ok_bind. eapply ok_mono; [by apply env_or_ok; vm_compute|]. intros ? σ1 [Hr ->].
  apply ok_bind. eapply ok_mono; [by apply keyPathsOf_ok|]. intros ps σ2 [Hh Hps].
  split; [by etrans|]. by exists ps.
Qed.

(** ** Images *)

(** [P] is what the goroutine knows about its files whenever cosign reads them. *)
Lemma verifyWithKeys_ok i m ks fr (P : st → Prop) σ :
  (∀ σ σ', P σ → rely i σ σ' → P σ') → set_up σ → P σ →
  ok i (verifyWithKeys_prog m ks fr) (λ r σ', rely i σ σ' ∧
    if r.1 then ∃ k σ1, k ∈ ks ∧ P σ1 ∧ VerifyManifest env1 (files σ1) k m = None
    else ∀ k, k ∈ ks → ∃ σ1, P σ1 ∧ is_Some (VerifyManifest env1 (files σ1) k m)) σ.
Proof.
  intros HP. revert fr σ. induction ks as [|k ks IH]; intros fr σ Hs Hp.
  { apply ok_ret. split; [done|]. by intros k ?%elem_of_nil. }
  cbn [verifyWithKeys_prog].
  apply ok_bind. eapply ok_mono; [apply ask_ok|]. intros ? σ1 (Hr & HI1 & ->).
  assert (set_up σ1) as Hs1 by by eapply set_up_keeps.
  assert (P σ1) as Hp1 by by eapply HP.
  rewrite (set_up_env _ HI1 Hs1).
  destruct (VerifyManifest env1 (files σ1) k m) as [e|] eqn:E.
  2: { split; [done|]. exists k, σ1. split; [left|done]. }
  eapply ok_mono; [by apply IH|]. intros [b fr'] σ2 [Hr2 Hb]. split; [by etrans|].
  simpl in *. destruct b.
  - destruct Hb as (k' & σ3 & ? & ?). exists k', σ3. split; [by right|done].
  - intros k' [->|Hk']%elem_of_cons; [|by apply Hb]. exists σ1. by rewrite E.
Qed.

Abbreviation manifest d := (d +:+ "/manifest.yaml").

(** The images could not be checked: no directory, no manifest file, no key. *)
Definition images_blocked (profile : ImageProfile) : Prop :=
  (∃ fs e, fs_tempdir fs "verify-image" = Bad e)
  ∨ (∃ fs d, temp_name d ∧ is_Some (fs_write_err fs (manifest d)))
  ∨ ∃ kc, kc ∈ named (ip_KeyConfigs profile) ∧ no_key kc.

(** The manifest file holds the object, the key files the keys of the profile. *)
Definition ready (y : string) (profile : ImageProfile) (d : string) (ks : list string)
    (fs : Files) : Prop :=
  fs !! manifest d = Some y ∧ Forall2 (key_in fs) (named (ip_KeyConfigs profile)) ks.

(** The verdict of cosign on such files: with one of the keys (or without a key, when
    the profile has none) it accepts the manifest, or with none of them. *)
Definition images_checked (y : string) (profile : ImageProfile) (b : bool) : Prop :=
  ∃ d ks, temp_name d ∧ let ks' := if (length ks =? 0)%nat then [""] else ks in
    if b then ∃ k fs, k ∈ ks' ∧ ready y profile d ks fs
                      ∧ VerifyManifest env1 fs k (manifest d) = None
    else ∀ k, k ∈ ks' → ∃ fs, ready y profile d ks fs
                      ∧ is_Some (VerifyManifest env1 fs k (manifest d)).

Definition images_found (resource : Unstructured) (profile : ImageProfile) (b : bool)
    : Prop :=
  match yaml_Marshal resource with
  | Bad _ => b = false
  | Good y => b = false ∧ images_blocked profile ∨ images_checked y profile b
  end.

Lemma ready_rely i y profile d ks σ σ' :
  mine i (ip_KeyConfigs profile) → in_dir i σ (manifest d) → rely i σ σ' →
  ready y profile d ks (files σ) → ready y profile d ks (files σ').
Proof.
  intros Hm Hd Hr [Hy Hks]. split; [by rewrite (rely_temp _ _ _ _ Hr Hd)|].
  by eapply keys_in_held.
Qed.

Lemma verifyInDir_ok i d y profile σ :
  σ.2 !! i = Some d → temp_name d → set_up σ → mine i (ip_KeyConfigs profile) →
  ok i (verifyInDir_prog d y profile) (λ r σ', σ'.2 !! i = Some d ∧ (r.1 = true ↔ r.2 = None) ∧
    (r.1 = false ∧ images_blocked profile ∨ images_checked y profile r.1)) σ.
Proof.
  intros Hd Hn Hs Hm. unfold verifyInDir_prog. rewrite (manifest_path _ Hn).
  assert (∀ τ, τ.2 !! i = Some d → in_dir i τ (manifest d)) as Hin.
  { intros τ Hτ. exists d. split_and!; [done..|]. apply HasPrefix_spec.
    exists "manifest.yaml". by rewrite <-sapp_assoc. }
  apply ok_bind. eapply ok_mono; [apply WriteFile_ok; left; by apply Hin|].
  intros [e|] σ1 [Hk1 H1].
  { destruct H1 as [_ [fs He]]. split_and!; [by rewrite (keeps_dir _ _ _ _ Hk1)|done|].
    left. split; [done|]. right. left. exists fs, d. by rewrite He. }
  assert (σ1.2 !! i = Some d) as Hd1 by by rewrite (keeps_dir _ _ _ _ Hk1).
  assert (set_up σ1) as Hs1 by by eapply set_up_keeps.
  apply ok_bind. eapply ok_mono; [by apply loadImageKeys_ok|]. intros [ks|e] σ2 [Hr2 H2].
  2: { split_and!; [by rewrite (keeps_dir _ _ _ _ Hr2)|done|].
       left. split; [done|]. by right; right. }
  assert (σ2.2 !! i = Some d) as Hd2 by by rewrite (keeps_dir _ _ _ _ Hr2).
  apply ok_bind. eapply ok_mono.
  { apply (verifyWithKeys_ok i (manifest d) _ _
      (λ τ, τ.2 !! i = Some d ∧ ready y profile d ks (files τ))).
    - intros τ τ' [Hτ Hy] Hr. split; [by rewrite (keeps_dir _ _ _ _ Hr)|].
      eapply ready_rely; [done|by apply Hin|done..].
    - by eapply set_up_keeps.
    - split; [done|]. split; [|done]. by rewrite (rely_temp _ _ _ _ Hr2 (Hin _ Hd1)). }
  intros [b fr] σ3 [Hr3 Hb3]. simpl in Hb3. split_and!.
  - by rewrite (keeps_dir _ _ _ _ Hr3).
  - by destruct b.
  - right. exists d, ks. split; [done|]. destruct b; naive_solver.
Qed.

Lemma TempDir_ok i σ :
  set_up σ →
  ok i (atom (TempDir "verify-image")) (λ r σ',
    match r with
    | Good d => σ'.2 !! i = Some d ∧ temp_name d ∧ set_up σ'
    | Bad _ => ∃ fs e, fs_tempdir fs "verify-image" = Bad e
    end) σ.
Proof.
  intros Hs σ1 Hr HI. apply runs_TempDir; [intros d Hd|intros e He].
  2: { exists σ1.2. rewrite <-surjective_pairing. split_and!; [apply guar_refl|done|]. simpl. eauto. }
  pose proof (tempdir_name _ _ Hd) as Hn.
  assert (∀ j d', σ1.2 !! j = Some d' → d ≠ d') as Hnew.
  { intros j d' Hj <-. destruct (inv_dirs _ HI _ _ Hj) as [_ [x Hx]].
    by rewrite (tempdir_fresh _ _ _ Hd (below_dir d)) in Hx. }
  exists (<[i := d]> σ1.2). split_and!.
  - intros j Hj. split; simpl; [by apply lookup_insert_ne| | |done].
    + intros p (d' & Hd' & Hn' & Hb) _. apply lookup_insert_ne. intros <-.
      apply (Hnew _ _ Hd'). exact (below_inj _ _ _ Hn Hn' (below_dir d) Hb).
    + intros p x Hx _. rewrite lookup_insert_ne; [done|]. intros <-.
      by eapply key_not_below, below_dir.
  - split; [apply HI..| |].
    + simpl. intros j d' [[<- <-]|[_ Hj]]%lookup_insert_Some; simpl.
      * split; [done|]. by rewrite lookup_insert_eq.
      * destruct (inv_dirs _ HI _ _ Hj) as [? Hx]. split; [done|].
        by apply lookup_insert_is_Some'; right.
    + simpl. intros j j' d' [[<- <-]|[_ Hj]]%lookup_insert_Some [[<- ?]|[_ Hj']]%lookup_insert_Some;
        [done| | |by eapply inv_inj].
      * by destruct (Hnew _ _ Hj').
      * subst. by destruct (Hnew _ _ Hj).
  - simpl. split_and!; [apply lookup_insert_eq|done|].
    intros k v Hk. exact (set_up_keeps _ _ _ _ Hr Hs k v Hk).
Qed.

Lemma RemoveAll_ok i d σ :
  σ.2 !! i = Some d → ok i (atom (RemoveAll d)) (λ _ _, True) σ.
Proof.
  intros Hd σ1 Hr HI. apply runs_modifyW.
  assert (σ1.2 !! i = Some d) as Hd1 by by rewrite (keeps_dir _ _ _ _ Hr).
  destruct (inv_dirs _ HI _ _ Hd1) as [Hn _].
  set (fs' := filter _ (files σ1)).
  assert (∀ p, ¬ below d p → fs' !! p = files σ1 !! p) as Hfs.
  { intros p Hp. subst fs'. unfold below in Hp. apply not_true_is_false in Hp.
    rewrite map_lookup_filter. destruct (files σ1 !! p); simpl; [|done].
    by rewrite option_guard_True. }
  exists (delete i σ1.2). split_and!; [..|done].
  - intros j Hj. split; simpl; [by apply lookup_delete_ne| | |done].
    + intros p Hp _. apply Hfs. intros Hb. apply Hj, (in_dir_inj j i σ1 p HI Hp).
      by exists d.
    + intros p x Hx _. rewrite Hfs; [done|]. by eapply key_not_below.
  - split; [apply HI..| |].
    + simpl. intros j d' [Hne Hj]%lookup_delete_Some.
      destruct (inv_dirs _ HI _ _ Hj) as [Hn' Hx]. split; [done|]. simpl. rewrite Hfs; [done|].
      intros Hb. apply Hne. eapply (inv_inj _ HI); [exact Hd1|].
      by rewrite (below_inj _ _ _ Hn Hn' Hb (below_dir d')).
    + simpl. intros j j' d' [_ Hj]%lookup_delete_Some [_ Hj']%lookup_delete_Some.
      by eapply inv_inj.
Qed.

Lemma VerifyImageInManifest_ok i resource profile σ :
  set_up σ → mine i (ip_KeyConfigs profile) →
  ok i (VerifyImageInManifest_prog resource profile) (λ r _,
    (r.1 = true ↔ r.2 = None) ∧ images_found resource profile r.1) σ.
Proof.
  intros Hs Hm. unfold VerifyImageInManifest_prog, images_found.
  destruct (yaml_Marshal resource) as [y|e]; [|by apply ok_ret].
  apply ok_bind. eapply ok_mono; [by apply TempDir_ok|]. intros [d|e] σ1 H1.
  2: { split; [done|]. left. split; [done|]. by left. }
  destruct H1 as (Hd & Hn & Hs1).
  apply ok_bind. eapply ok_mono; [by apply verifyInDir_ok|]. intros r σ2 (Hd2 & Hr & Hf).
  apply ok_bind. eapply ok_mono; [by apply RemoveAll_ok|]. done.
Qed.

(** ** The decision *)

Definition sig_of (r : res VerifyResourceResult) : SigFact :=
  match r with
  | Bad _ => SigError
  | Good r => if vr_InScope r then if vr_Verified r then SigVerified else SigUnverified
              else SigOutOfScope
  end.

(** What sigstore says about the resource, with key files that hold the keys of
    the constraint, in the environment the handler set up. *)
Definition sig_found (po : ParameterObject) (resource : Unstructured) (sf : SigFact) : Prop :=
  ∃ fs ps, Forall2 (key_path fs) (named (po_KeyConfigs po)) ps
    ∧ sf = sig_of (VerifyResource env1 fs c0 resource
                     (verifyOption po rc (annotationType resource) ns1 ps)).

(** Signature and images: after an error of sigstore the images are not checked. *)
Definition found (po : ParameterObject) (resource : Unstructured) (sf : SigFact) (im : bool)
    : Prop :=
  sig_found po resource sf
  ∧ (sf ≠ SigError →
     if ImageProfile_Enabled (po_ImageProfile po)
     then images_found resource (po_ImageProfile po) im else im = true).

Definition facts_with (req : Request) (po : ParameterObject) (resource : Unstructured)
    (sf : SigFact) (im : bool) : Facts := mkFacts
  (mut_fact req po rc resource)
  (ObjectUserBindingList_Match (po_SkipUsers po) resource (rq_Username req)
   || ObjectUserBindingList_Match (rf_SkipUsers (rhc_Filter rc)) resource (rq_Username req))
  (ObjectUserBindingList_Match (InScopeUsers po) resource (rq_Username req))
  (ObjectReferenceList_Match (InScopeObjects po) resource)
  (skipObjectsMatch (rf_SkipObjects (rhc_Filter rc)) resource)
  sf im.

(** The decision depends on the verification. *)
Definition reaches (f : Facts) : bool :=
  match f_mut f with NoCheck | Mutated => true | MutError | NotMutated => false end
  && negb (f_skipUser f && negb (f_inScopeUser f)) && f_inScopeObj f && negb (f_skipObj f).

(** [r] is the decision of the policy on such facts. *)
Definition decided_as (req : Request) (po : ParameterObject) (resource : Unstructured)
    (r : ResultFromRequestHandler) : Prop :=
  ∃ sf im, let f := facts_with req po resource sf im in
    (reaches f = true → found po resource sf im)
    ∧ Allow r = negb (enforceAction po rc) || policy f.

(** The answer of a handler that nobody disturbed. *)
Definition answered (req : Request) (po : ParameterObject) (r : ResultFromRequestHandler)
    : Prop :=
  match json_Unstructured (rq_Object req) with
  | Bad _ => Allow r = true
  | Good resource => decided_as req po resource r
  end.

Lemma cluster_ok i f σ :
  (∀ c e c', f c = (e, c') → eqc c' c) → ok i (atom (clusterM f)) (λ _ _, True) σ.
Proof.
  intros Hf σ1 Hr HI. apply runs_clusterM. intros e c Ec. exists σ1.2.
  split_and!; [by apply guar_same| |done]. apply Inv_same; [done..|]. simpl.
  etrans; [by eapply Hf|apply HI].
Qed.

Lemma denyEvent_ok i req r po σ :
  ok i (denyEvent_prog evk req r po rc) (λ _ _, True) σ.
Proof.
  unfold denyEvent_prog. destruct (CreateDenyEvent rc); [|done].
  simpl. destruct (Allow r); [done|].
  intros σ1 _ HI1. apply runs_asksW. exists σ1.2. rewrite <-surjective_pairing.
  split_and!; [apply guar_refl|done|]. destruct (GetKubeConfig _); [done|]. clear σ HI1.
  intros σ2 _ HI2. apply runs_asksW. exists σ2.2. rewrite <-surjective_pairing.
  split_and!; [apply guar_refl|done|]. destruct (NewForConfig _); [done|].
  intros σ3 _ HI3. apply runs_env_or. exists σ3.2. rewrite <-surjective_pairing.
  split_and!; [apply guar_refl|done|].
  intros σ4 _ HI4. apply runs_Now. exists σ4.2. destruct (tick_guar i σ4 HI4).
  split_and!; [done..|].
  intros σ5 _ HI5. apply runs_asksW. exists σ5.2. rewrite <-surjective_pairing.
  split_and!; [apply guar_refl|done|]. destruct (vc_get _ _ _ _) as [[v x]|e].
  - apply (cluster_ok i). intros c e c'. apply event_update_eqc.
  - apply (cluster_ok i). intros c e' c'. apply event_create_eqc.
Qed.

Lemma imageVerdict_ok i resource profile σ :
  set_up σ → mine i (ip_KeyConfigs profile) →
  ok i (imageVerdict_prog resource profile) (λ r _,
    if ImageProfile_Enabled profile then images_found resource profile r.1 else r.1 = true) σ.
Proof.
  intros Hs Hm. unfold imageVerdict_prog. destruct (ImageProfile_Enabled profile); [|done].
  apply ok_bind. eapply ok_mono; [by apply VerifyImageInManifest_ok|].
  intros [b e] σ1 [Hb Hf]. simpl in *. destruct e, b; naive_solver.
Qed.

Lemma verifyBranch_ok i req po resource enforce σ :
  set_up σ → mine i (po_KeyConfigs po) → mine i (ip_KeyConfigs (po_ImageProfile po)) →
  ok i (verifyBranch_prog evk req po rc resource enforce) (λ v _,
    ∃ sf im, found po resource sf im ∧
      let f := facts_with req po resource sf im in
      match v with
      | inl (allow, _) => allow = verified f
      | inr r => Allow r = negb enforce || verified f
      end) σ.
Proof.
  intros Hs Hk Hi. unfold verifyBranch_prog.
  apply ok_bind. eapply ok_mono; [by apply setVerifyOption_ok|].
  intros ? σ1 (Hk1 & ps & -> & Hps).
  assert (set_up σ1) as Hs1 by by eapply set_up_keeps.
  apply ok_bind. eapply ok_mono; [apply ask_ok|]. intros ? σ2 (Hr2 & HI2 & ->).
  assert (set_up σ2) as Hs2 by by eapply set_up_keeps.
  rewrite (set_up_env _ HI2 Hs2), (inv_cluster _ HI2).
  set (r := VerifyResource _ _ _ _ _).
  assert (sig_found po resource (sig_of r)) as Hsf.
  { exists (files σ2), ps. split; [|done]. by eapply key_paths_held. }
  clearbody r. destruct r as [result|err].
  - destruct (signatureVerdict result) as [allow message] eqn:Ev.
    apply ok_bind. eapply ok_mono; [by apply imageVerdict_ok|]. intros [ia im] σ3 Him.
    exists (sig_of (Good result)), ia. split; [by split|].
    unfold signatureVerdict in Ev. unfold verified. simpl.
    destruct (vr_InScope result), (vr_Verified result); simplify_eq; destruct ia; done.
  - apply ok_bind. eapply ok_mono; [apply denyEvent_ok|]. intros _ σ3 _.
    exists SigError, false. split; [split; done|]. simpl. by destruct enforce.
Qed.

(** A decision that the filters take, whatever the verification would say. *)
Lemma filter_decided req po resource m :
  (∀ sf im, let f := facts_with req po resource sf im in
     policy f = true ∧ reaches f = false) →
  decided_as req po resource (makeResultFromRequestHandler true m (enforceAction po rc)).
Proof.
  intros H. destruct (H SigError false) as [Hp Hr]. exists SigError, false.
  split; [intros Hc; congruence|]. rewrite Hp. by destruct (enforceAction po rc).
Qed.

Lemma decide_request_ok i req po resource σ :
  set_up σ → mine i (po_KeyConfigs po) → mine i (ip_KeyConfigs (po_ImageProfile po)) →
  mut_fact req po rc resource = NoCheck ∨ mut_fact req po rc resource = Mutated →
  ok i (decide_request_prog evk req po rc resource (enforceAction po rc))
    (λ r _, decided_as req po resource r) σ.
Proof.
  intros Hs Hk Hi Hmut.
  assert (∀ sf im, policy (facts_with req po resource sf im)
                   = decision (facts_with req po resource sf im)) as Hpol.
  { intros sf im. unfold policy. simpl. by destruct Hmut as [->| ->]. }
  assert (∀ r σ', decided_as req po resource r →
      ok i (_ ← denyEvent_prog evk req r po rc; Return r)
        (λ r _, decided_as req po resource r) σ') as Hend.
  { intros r σ' Hr. apply ok_bind. eapply ok_mono; [apply denyEvent_ok|].
    intros _ σ1 _. exact Hr. }
  unfold decide_request_prog. apply ok_bind.
  destruct ((_ || _) && _) eqn:E1.
  { apply Hend, filter_decided. intros sf im f. subst f. rewrite Hpol.
    unfold decision, reaches. simpl. by rewrite E1, andb_false_r. }
  destruct (ObjectReferenceList_Match _ _) eqn:E2.
  2: { apply Hend, filter_decided. intros sf im f. subst f. rewrite Hpol.
       unfold decision, reaches. simpl. by rewrite E1, E2, andb_false_r. }
  destruct (skipObjectsMatch _ _) eqn:E3.
  { apply Hend, filter_decided. intros sf im f. subst f. rewrite Hpol.
    unfold decision, reaches. simpl. by rewrite E1, E2, E3, andb_false_r. }
  cbn [negb].
  assert (∀ sf im, policy (facts_with req po resource sf im)
                   = verified (facts_with req po resource sf im)) as Hver.
  { intros sf im. rewrite Hpol. unfold decision. simpl. by rewrite E1, E2, E3. }
  eapply ok_mono; [by apply verifyBranch_ok|]. intros [[allow m]|r] σ1 (sf & im & Hf & Hv).
  - apply Hend. exists sf, im. split; [done|]. rewrite Hver, <-Hv.
    by destruct allow, (enforceAction po rc).
  - exists sf, im. split; [done|]. by rewrite Hver, <-Hv.
Qed.

Lemma RequestHandler_ok i req po rc' σ :
  loaded_config w0 = (rc', None) → rc = default RequestHandlerConfig_zero rc' →
  mine i (po_KeyConfigs po ++ ip_KeyConfigs (po_ImageProfile po)) →
  ok i (RequestHandler_prog evk req po) (λ r _, answered req po r) σ.
Proof.
  intros Hl Hrc [Hk Hi]%mine_app. unfold RequestHandler_prog, answered.
  destruct (json_Unstructured (rq_Object req)) as [resource|e]; [|by apply ok_ret].
  apply ok_bind. eapply ok_mono; [apply config_ok|]. intros ? σ1 ->. rewrite Hl, <-Hrc.
  apply ok_bind. eapply ok_mono; [apply SetupLogger_ok|]. intros ? σ2 Hs2.
  apply ok_bind. eapply ok_mono; [by apply setupRekor_ok|]. intros ? σ3 Hs3.
  pose proof (decide_request_ok i req po resource σ3 Hs3 Hk Hi) as Hd.
  assert (∀ r b, (mut_fact req po rc resource = if b : bool then NotMutated else MutError) →
      Allow r = negb (enforceAction po rc) || b → decided_as req po resource r) as Hpure.
  { intros r1 b Hm Ha. exists SigError, false. unfold reaches, policy. simpl. rewrite Hm.
    by destruct b. }
  unfold mut_fact in Hd, Hpure. destruct (isUpdateRequest (rq_Operation req)); [|auto].
  destruct (mutationCheck _ _ _) as [[] [e|]]; [| |..].
  - apply (Hpure _ false); [done|]. by destruct (enforceAction po rc).
  - auto.
  - apply (Hpure _ false); [done|]. by destruct (enforceAction po rc).
  - apply (Hpure _ true); [done|]. by destruct (enforceAction po rc).
Qed.
End isolation.

(** ** Shared key files cannot let a request through *)

(** Whether the result of sigstore lets a resource pass. *)
Definition accepted {T : ExtTypes} (r : VerifyResourceResult) : bool :=
  negb (vr_InScope r) || vr_Verified r.

(** Some files that were empty have been filled. *)
Definition refill (fs fs' : Files) : Prop := ∀ p, fs' !! p = fs !! p ∨ fs !! p = Some "".

(** An empty file is no key: what sigstore and cosign accept while a key file is
    empty they also accept when the file holds its key. *)
Class EmptyKeys {T : ExtTypes} {K : Kube} (S : Sigstore T K) : Prop := {
  VerifyResource_refill env fs fs' c o vo r :
    refill fs fs' → VerifyResource env fs c o vo = Good r → accepted r = true →
    ∃ r', VerifyResource env fs' c o vo = Good r' ∧ accepted r' = true;
  VerifyManifest_refill env fs fs' k m :
    refill fs fs' → fs' !! m = fs !! m → VerifyManifest env fs k m = None →
    VerifyManifest env fs' k m = None }.

Section refilled.
Context (keys : list (string * string)).

(** The empty files of [keys] hold their key again. *)
Definition refilled (fs : Files) : Files :=
  map_imap (λ p x, Some (if bool_decide (x = "")
                         then default "" ((list_to_map keys : gmap string string) !! p)
                         else x)) fs.

Lemma lookup_refilled fs p : refilled fs !! p =
  (λ x, if bool_decide (x = "") then default "" ((list_to_map keys : gmap string string) !! p)
        else x) <$> fs !! p.
Proof. unfold refilled. rewrite map_lookup_imap. by destruct (fs !! p). Qed.
Lemma refilled_refill fs : refill fs (refilled fs).
Proof.
  intros p. rewrite lookup_refilled. destruct (fs !! p) as [x|]; simpl; [|by left].
  case_bool_decide; [right; by subst|by left].
Qed.
Lemma refilled_other fs p : (∀ d, (p, d) ∉ keys) → refilled fs !! p = fs !! p.
Proof.
  intros Hp. rewrite lookup_refilled. destruct (fs !! p) as [x|]; simpl; [|done].
  case_bool_decide as Hx; [|done]. rewrite not_elem_of_list_to_map_1; [by subst|].
  intros ([? d] & Hd & Hin)%list_elem_of_fmap. simpl in Hd. subst. by apply (Hp d).
Qed.

Context (Hfun : ∀ p d d', (p, d) ∈ keys → (p, d') ∈ keys → d = d').
Lemma refilled_key fs p d :
  (p, d) ∈ keys → holds true (fs !! p) d → holds false (refilled fs !! p) d.
Proof.
  intros Hp Hh. left. rewrite lookup_refilled.
  assert ((list_to_map keys : gmap string string) !! p = Some d) as E.
  { apply elem_of_list_to_map_1'; [|done]. intros d' Hd'. by eapply Hfun. }
  rewrite E. destruct Hh as [->|[_ ->]]; simpl; [|done]. by case_bool_decide; subst.
Qed.
End refilled.

Section sound.
Context {T : ExtTypes} {L : ExtLib T} {O : OS} {K : Kube} {S : Sigstore T K}
  {Y : ShieldYaml T} `{HK : !EmptyKeys S}.
Context (w0 : World) (rc : RequestHandlerConfig) (po : ParameterObject).
Abbreviation keys := (key_files (w_cluster w0) po).
Context (Hfun : ∀ p d d', (p, d) ∈ keys → (p, d') ∈ keys → d = d').
Context (Htemp : ∀ p d, (p, d) ∈ keys → HasPrefix p temp_prefix = false).

Lemma key_in_refilled fs kc p :
  kc ∈ (po_KeyConfigs po ++ ip_KeyConfigs (po_ImageProfile po))%list →
  key_in w0 true fs kc p → key_in w0 false (refilled keys fs) kc p.
Proof.
  intros Hkc (d & Hd & Hh). exists d. split; [done|]. apply refilled_key; [done| |done].
  apply list_elem_of_bind. eauto.
Qed.
Lemma named_refilled (Φ Ψ : KeyConfig → string → Prop) l ps :
  (∀ kc p, kc ∈ l → Φ kc p → Ψ kc p) → Forall2 Φ (named l) ps → Forall2 Ψ (named l) ps.
Proof.
  intros HΦ Hps. apply Forall2_same_length_lookup. split; [by eapply Forall2_length|].
  intros n kc p Hkc Hp. apply HΦ; [|by eapply (Forall2_lookup_lr _ _ _ _ _ _ Hps)].
  apply list_elem_of_lookup_2 in Hkc. by apply list_elem_of_filter in Hkc as [_ ?].
Qed.

Lemma sig_refilled resource sf :
  sig_found w0 rc true po resource sf → sf = SigVerified ∨ sf = SigOutOfScope →
  ∃ sf', sig_found w0 rc false po resource sf' ∧ (sf' = SigVerified ∨ sf' = SigOutOfScope).
Proof.
  intros (fs & ps & Hps & Hsf) Hok. set (vo := verifyOption _ _ _ _ _) in Hsf.
  destruct (VerifyResource (w_env (prepared rc w0)) fs (w_cluster w0) resource vo)
    as [r|e] eqn:E; [|by subst sf; destruct Hok].
  assert (accepted r = true) as Ha.
  { unfold sig_of in Hsf. unfold accepted. destruct (vr_InScope r), (vr_Verified r);
      try done. subst sf. by destruct Hok. }
  destruct (VerifyResource_refill _ _ _ _ _ _ _ (refilled_refill keys fs) E Ha)
    as (r' & E' & Ha').
  exists (sig_of (Good r')). split.
  - exists (refilled keys fs), ps. split; [|by fold vo; rewrite E'].
    eapply named_refilled; [|exact Hps]. intros kc p Hkc [Hin|?]; [left|by right].
    apply key_in_refilled; [|done]. set_solver.
  - unfold accepted in Ha'. simpl. destruct (vr_InScope r'), (vr_Verified r'); auto; done.
Qed.

Lemma images_refilled resource :
  images_found w0 rc true resource (po_ImageProfile po) true →
  images_found w0 rc false resource (po_ImageProfile po) true.
Proof.
  unfold images_found. destruct (yaml_Marshal resource) as [y|e]; [|done].
  intros [[? _]|(d & ks & Hn & k & fs & Hk & [Hy Hks] & Hv)]; [done|]. right.
  assert (refilled keys fs !! (d +:+ "/manifest.yaml") = fs !! (d +:+ "/manifest.yaml")) as E.
  { apply refilled_other. intros x Hx. pose proof (Htemp _ _ Hx) as Hp.
    rewrite (below_prefix d) in Hp; [done|done|]. apply HasPrefix_spec.
    exists "manifest.yaml". by rewrite <-sapp_assoc. }
  exists d, ks. split; [done|]. exists k, (refilled keys fs). split_and!; [done| |].
  - split; [by rewrite E|]. eapply named_refilled; [|exact Hks].
    intros kc p Hkc. apply key_in_refilled. set_solver.
  - by eapply VerifyManifest_refill; [apply refilled_refill|..].
Qed.

Lemma reaches_policy f : reaches f = true → policy f = true →
  (f_sig f = SigVerified ∨ f_sig f = SigOutOfScope) ∧ f_images f = true.
Proof.
  unfold reaches, policy, decision, verified.
  destruct f as [[] [] [] [] [] [] []]; simpl; try done; auto.
Qed.

(** An allowed request under enforcement is justified by facts as collected with
    complete key files. *)
Lemma answered_sound req resource r :
  answered w0 rc true req po r → json_Unstructured (rq_Object req) = Good resource →
  enforceAction po rc = true → Allow r = true →
  ∃ sf im, let f := facts_with rc req po resource sf im in
    (reaches f = true → found w0 rc false po resource sf im) ∧ justified f.
Proof.
  unfold answered. intros Hans Hj He Ha. rewrite Hj in Hans. destruct Hans as (sf & im & Hf & Hr).
  rewrite He, Ha in Hr. simpl in Hr. symmetry in Hr.
  destruct (reaches (facts_with rc req po resource sf im)) eqn:Er.
  2: { exists sf, im. split; [congruence|]. by apply policy_justified. }
  destruct (Hf eq_refl) as [Hs Hi].
  assert ((sf = SigVerified ∨ sf = SigOutOfScope) ∧ im = true) as [Hsf ->].
  { exact (reaches_policy _ Er Hr). }
  destruct (sig_refilled resource sf Hs Hsf) as (sf' & Hs' & Hsf').
  exists sf', true. split; [|by apply by_signature].
  intros _. split; [done|]. intros _.
  assert (sf ≠ SigError) as Hne by (destruct Hsf as [->| ->]; done).
  specialize (Hi Hne). destruct (ImageProfile_Enabled (po_ImageProfile po)); [|done].
  by apply images_refilled.
Qed.
End sound.

(** ** Any number of overlapping requests *)

Section theorems.
Context {T : ExtTypes} {L : ExtLib T} {O : OS} {K : Kube} {S : Sigstore T K}
  {Y : ShieldYaml T}.
Context (evk : VerClient Cluster Event) (eqc : relation Cluster).
Context `{HE : !EventsApart evk eqc, HT : !TempDirLaws O}.
Implicit Types (rs : list (Request * ParameterObject)) (w : World) (shared : bool).

(** The handlers of the requests [rs], and the key files of each. *)
Definition handlers rs : list (prog ResultFromRequestHandler) :=
  (λ rp, RequestHandler_prog evk rp.1 rp.2) <$> rs.
Definition keys_of (c : Cluster) rs (i : nat) : list (string * string) :=
  match rs !! i with Some rp => key_files c rp.2 | None => [] end.

Lemma guar_rely rc shared own i j σ σ' :
  i ≠ j → guar rc shared own j σ σ' → rely rc shared own i σ σ'.
Proof. intros Hij Hg. by apply Hg. Qed.

Lemma Inv_init w0 rc : Inv eqc w0 rc (w0, ∅).
Proof. split; simpl; [done|done|..]; intros; simplify_map_eq. Qed.

Lemma handlers_ok rs w0 rc' shared i p :
  loaded_config w0 = (rc', None) → apart shared (keys_of (w_cluster w0) rs) →
  let rc := default RequestHandlerConfig_zero rc' in
  let own := keys_of (w_cluster w0) rs in
  handlers rs !! i = Some p →
  ok (Inv eqc w0 rc) (rely rc shared own) (guar rc shared own) i p
    (λ r _, ∀ req po, rs !! i = Some (req, po) → answered w0 rc shared req po r) (w0, ∅).
Proof.
  intros Hl Ha rc own Hp. apply list_lookup_fmap_Some in Hp as ([req po] & -> & Hi).
  eapply ok_mono; [eapply (RequestHandler_ok evk eqc w0 rc shared own Ha); [exact Hl|done|]|].
  - intros kc pd Hkc Hpd. subst own. unfold keys_of. rewrite Hi.
    apply list_elem_of_bind. eauto.
  - intros r σ Hr req' po' Hi'. simpl in Hr. by simplify_eq.
Qed.

(** Every handler that has returned, key files shared or not. *)
Lemma handlers_answered rs w0 rc' shared ps w i req po r :
  loaded_config w0 = (rc', None) → apart shared (keys_of (w_cluster w0) rs) →
  rtc tstep (handlers rs, w0) (ps, w) →
  rs !! i = Some (req, po) → ps !! i = Some (Return r) →
  answered w0 (default RequestHandlerConfig_zero rc') shared req po r.
Proof.
  intros Hl Ha Hsteps Hi Hr.
  destruct (ok_steps _ _ _ (guar_rely (default RequestHandlerConfig_zero rc') shared _)
    (λ i r _, ∀ req po, rs !! i = Some (req, po) →
       answered w0 (default RequestHandlerConfig_zero rc') shared req po r)
    (λ i r, stable_const _ _ i _) _ _ _ _ _ (Inv_init w0 _)
    (λ i p, handlers_ok rs w0 rc' shared i p Hl Ha) Hsteps) as (g & _ & Hok).
  exact (Hok _ _ Hr _ _ Hi).
Qed.

(** C11.  Overlapping requests do not disturb each other: any number of request
    handlers run in one process, their accesses to its environment variables, logger,
    key files, temporary directories and to the cluster interleaved in any way.
    As long as the configuration can be loaded and no two requests use the same
    key secret, every handler that has returned decided as the policy says on facts
    collected undisturbed: its verification ran with the environment of its
    configuration, with key files that held the keys of its own constraint and
    with a manifest file that held its own object. *)
Theorem overlapping_requests_isolated rs w0 rc' ps w i req po r :
  loaded_config w0 = (rc', None) → apart false (keys_of (w_cluster w0) rs) →
  rtc tstep (handlers rs, w0) (ps, w) →
  rs !! i = Some (req, po) → ps !! i = Some (Return r) →
  answered w0 (default RequestHandlerConfig_zero rc') false req po r.
Proof. apply handlers_answered. Qed.

(** C12.  Overlap lets no request through that should not pass: whatever key secrets
    the overlapping requests share, a request that is allowed under enforcement is
    justified by one of the documented reasons, on facts as sigstore and cosign find
    them with complete key files.  All that is assumed of the key files is that one
    path does not stand for two different keys; an empty file is no key. *)
Theorem overlapping_allow_sound `{!EmptyKeys S} rs w0 rc' ps w i req po r resource :
  loaded_config w0 = (rc', None) → apart true (keys_of (w_cluster w0) rs) →
  rtc tstep (handlers rs, w0) (ps, w) →
  rs !! i = Some (req, po) → ps !! i = Some (Return r) →
  json_Unstructured (rq_Object req) = Good resource →
  let rc := default RequestHandlerConfig_zero rc' in
  enforceAction po rc = true → Allow r = true →
  ∃ sf im, let f := facts_with rc req po resource sf im in
    (reaches f = true → found w0 rc false po resource sf im) ∧ justified f.
Proof.
  intros Hl Ha Hsteps Hi Hr Hj rc He Hal.
  assert (∀ pd, pd ∈ key_files (w_cluster w0) po → pd ∈ keys_of (w_cluster w0) rs i) as Hin.
  { intros pd Hpd. unfold keys_of. by rewrite Hi. }
  eapply answered_sound; [..|done|exact He|exact Hal].
  - intros p d d' Hd Hd'. by eapply (proj1 Ha i i); apply Hin.
  - intros p d Hd. eapply (proj2 Ha i). by apply Hin.
  - by eapply handlers_answered.
Qed.

(** Overlapping requests are all answered: every interleaving of the handlers ends,
    no handler panics or waits for another, and when no action is left each of them
    has returned a result. *)
Theorem overlapping_requests_answered rs w0 rc' shared :
  loaded_config w0 = (rc', None) → apart shared (keys_of (w_cluster w0) rs) →
  Acc (λ cfg' cfg, tstep cfg cfg') (handlers rs, w0) ∧
  ∀ ps w, rtc tstep (handlers rs, w0) (ps, w) → (∀ cfg, ¬ tstep (ps, w) cfg) →
    length ps = length rs ∧ Forall (λ p, is_Some (answer p)) ps.
Proof.
  intros Hl Ha. split; [apply tstep_terminates|]. intros ps w Hsteps Hend. split.
  { apply tsteps_length in Hsteps. simpl in Hsteps. rewrite Hsteps. apply length_fmap. }
  apply Forall_lookup. intros i p Hp.
  destruct (ok_progress _ _ _ (guar_rely (default RequestHandlerConfig_zero rc') shared _)
    (λ i r _, ∀ req po, rs !! i = Some (req, po) →
       answered w0 (default RequestHandlerConfig_zero rc') shared req po r)
    (λ i r, stable_const _ _ i _) _ _ _ _ _ i p (Inv_init w0 _)
    (λ i p, handlers_ok rs w0 rc' shared i p Hl Ha) Hsteps Hp) as [?|[cfg' Hs]]; [done|].
  by destruct (Hend cfg').
Qed.
End theorems.

(** ** Concrete interleavings *)

Module IsolationDemo.
Import Demo AdmissionDemo ConcurrencyDemo VerStore.
Abbreviation VK := ConcurrencyDemo.VK.

(** A sigstore that looks at the key files and at the rekor server: with a key
    path, a resource is verified when its ["sig"] field is the key in one of the
    files (an empty key file is an error); a ["log"] field must name the server. *)
Definition keysOf (fs : Files) (paths : string) : list string :=
  (λ p, default "" (fs !! p)) <$> Split paths ",".
#[export] Instance keyed : Sigstore types VK := {
  VerifyResource env fs c o vo :=
    let logged := match o_fields o !! "log" with
                  | Some s => bool_decide (default "" (env !! rekorServerEnvKey) = s)
                  | None => true end in
    let ks := if bool_decide (vo_KeyPath vo = "") then vo_rest vo
              else keysOf fs (vo_KeyPath vo) in
    if containsb ks "" then Bad (errNew "failed to load public key")
    else let s := default "" (o_fields o !! "sig") in
      Good (mkVR (T := types) (containsb ks s && logged) true s None "" None tt);
  VerifyManifest env fs key path :=
    match fs !! path with
    | None => Some (errNew "no such file")
    | Some y => if Contains y "evil" then Some (errNew "no matching signatures") else None
    end }.

#[export] Instance tempdirs : TempDirLaws os.
Proof.
  assert (∀ fs d, fs_tempdir (OS := os) fs "verify-image" = Good d →
    map_Forall (λ q _, HasPrefix q (d +:+ "/") = false) fs
    ∧ d ∈ String.append temp_prefix <$> ["0"; "1"; "2"; "3"]) as Hdir.
  { intros fs d. unfold fs_tempdir, os. destruct (filter _ _) as [|d' l] eqn:E; [done|].
    intros [= ->]. assert (d ∈ d :: l) as Hin by left. rewrite <-E in Hin.
    apply list_elem_of_filter in Hin as [Hf Hin]. split; [|exact Hin].
    by apply bool_decide_unpack in Hf. }
  split.
  - intros fs d q [Hf _]%Hdir Hb. apply eq_None_not_Some. intros [x Hx]. apply Hf in Hx.
    unfold below in Hb. congruence.
  - intros fs d [_ Hin]%Hdir. apply list_elem_of_fmap in Hin as (s & -> & Hs).
    exists s. split; [done|]. set_unfold in Hs. by destruct Hs as [->|[->|[->|[->|[]]]]].
Qed.
#[export] Instance empty_keys : EmptyKeys keyed.
Proof.
  split.
  - intros env fs fs' c o vo r Hf E Ha. exists r. split; [|done].
    rewrite <-E. simpl in *. case_bool_decide as Hv; [done|].
    destruct (containsb (keysOf fs (vo_KeyPath vo)) "") eqn:Ek; [done|].
    assert (keysOf fs' (vo_KeyPath vo) = keysOf fs (vo_KeyPath vo)) as ->; [|by rewrite Ek].
    apply list_fmap_ext. intros i p Hp. destruct (Hf p) as [->|Hp0]; [done|].
    apply not_true_iff_false in Ek. destruct Ek. apply containsb_spec, list_elem_of_fmap.
    exists p. rewrite Hp0. split; [done|]. by eapply list_elem_of_lookup_2.
  - intros env fs fs' k m _ Hm. simpl. by rewrite Hm.
Qed.

(** Clusters that differ in events only. *)
Definition noevents (c : VC) : VC :=
  set_ext (mkStores ∅ (s_mips (mc_ext c)) (s_mis (mc_ext c))) c.
Definition eqc : relation VC := λ c c', noevents c = noevents c'.
#[export] Instance eqc_equiv : Equivalence eqc.
Proof. split; unfold eqc; intros ?; [done|intros ? ?; done|intros ? ? ? ?; by etrans]. Qed.
Lemma eqc_fields c c' : eqc c c' →
  mc_online c = mc_online c' ∧ mc_configmaps c = mc_configmaps c'
  ∧ mc_secrets c = mc_secrets c'.
Proof. by intros [= ]. Qed.
#[export] Instance demo_apart : EventsApart (S := keyed) evc eqc.
Proof.
  split; try apply _; simpl.
  - intros c ns y e c'. destruct (sget _ _ _ _); by intros [= <- <-].
  - intros c ns v y e c'. destruct (sget _ _ _ _) as [[? ?]|]; [|by intros [= <- <-]].
    case_bool_decide; by intros [= <- <-].
  - intros c c' (H & _)%eqc_fields. simpl. by rewrite H.
  - intros c c' (_ & H & _)%eqc_fields ns ? <- n ? <-. simpl. by rewrite H.
  - intros c c' (_ & _ & H)%eqc_fields ns ? <- n ? <-. simpl. by rewrite H.
  - by intros env ? <- fs ? <- c c' _ o ? <- vo ? <-.
Qed.

(** Two constraints with a key secret each. *)
Definition secrets : gmap (string * string) Secret :=
  {[ ("ns1", "key1") := mkSecret {[ "key.pub" := "alice" ]};
     ("ns1", "key2") := mkSecret {[ "key.pub" := "bob" ]} ]}.
Definition iworld (data : string) : World (K := VK) :=
  mkWorld (K := VK) ∅ InfoLevel false ∅ 0 (mkMem true
    {[ ("integrity-shield-operator-system", "request-handler-config") := cm_of data ]}
    ∅ secrets ∅ (mkStores ∅ ∅ ∅)).
Definition param (key : string) : ParameterObject :=
  mkParam "c0" (po_SignatureRef param0) [mkKeyConfig key "ns1"] [("ConfigMap", "")]
    [] [] (mkImageProfile [] ["*"] []) vo0 None.
Definition byAlice : Request := req0 "CREATE" "eve" "" "ConfigMap/ns1/cm1/sig=alice".
Definition byBob : Request := req0 "CREATE" "eve" "" "ConfigMap/ns1/cm2/sig=bob".
Definition w1 : World (K := VK) := iworld "events".

(** The requests overlap completely: every handler acts in turn. *)
Definition rs1 : list (Request * ParameterObject) :=
  [(byAlice, param "key1"); (byBob, param "key2")].
Definition turns (n k : nat) : list nat := mjoin (replicate k (seq 0 n)).
Definition cfg1 := texec (turns 2 40) (handlers (S := keyed) evc rs1, w1).
Example overlap_allowed :
  fmap Allow ∘ answer <$> cfg1.1 = [Some true; Some true].
Proof. vm_compute. reflexivity. Qed.

Definition rc1 : option RequestHandlerConfig := (yaml_RequestHandlerConfig "events").1.
Definition allowedBy (s : string) : ResultFromRequestHandler :=
  mkResult true ("singed by a valid signer: " +:+ s) "".

(** Two goroutines with one key file each, the others with none. *)
Lemma apart_two (own : nat → list (string * string)) p1 d1 p2 d2 :
  own 0%nat = [(p1, d1)] → own 1%nat = [(p2, d2)] → (∀ i, own (S (S i)) = []) → p1 ≠ p2 →
  HasPrefix p1 temp_prefix = false → HasPrefix p2 temp_prefix = false → apart false own.
Proof.
  intros E0 E1 E2 Hne H1 H2.
  assert (∀ i p d, (p, d) ∈ own i →
    i = 0%nat ∧ p = p1 ∧ d = d1 ∨ i = 1%nat ∧ p = p2 ∧ d = d2) as H.
  { intros [|[|i]] p d; rewrite ?E0, ?E1, ?E2, ?list_elem_of_singleton.
    - intros [= -> ->]. auto.
    - intros [= -> ->]. auto.
    - intros Hin. destruct (not_elem_of_nil _ Hin). }
  split; [intros i j p d d' Hi%H Hj%H|intros i p d Hi%H]; naive_solver.
Qed.

Lemma rs1_apart : apart false (keys_of (K := VK) (w_cluster w1) rs1).
Proof.
  apply (apart_two _ "/tmp/ns1/key1/key.pub" "alice" "/tmp/ns1/key2/key.pub" "bob");
    [vm_compute; reflexivity..|done|done|done].
Qed.

Lemma overlapping_requests_isolated_witness :
  answered (S := keyed) w1 (default RequestHandlerConfig_zero rc1) false byAlice (param "key1") (allowedBy "alice")
  ∧ answered (S := keyed) w1 (default RequestHandlerConfig_zero rc1) false byBob (param "key2") (allowedBy "bob").
Proof.
  split.
  - apply (overlapping_requests_isolated (S := keyed) evc eqc rs1 w1 rc1 cfg1.1 cfg1.2 0).
    + vm_compute. reflexivity.
    + exact rs1_apart.
    + exact (texec_steps_pair (turns 2 40) (handlers (S := keyed) evc rs1, w1)).
    + reflexivity.
    + vm_compute. reflexivity.
  - apply (overlapping_requests_isolated (S := keyed) evc eqc rs1 w1 rc1 cfg1.1 cfg1.2 1).
    + vm_compute. reflexivity.
    + exact rs1_apart.
    + exact (texec_steps_pair (turns 2 40) (handlers (S := keyed) evc rs1, w1)).
    + reflexivity.
    + vm_compute. reflexivity.
Defined.

Lemma overlapping_requests_answered_witness :
  Acc (λ cfg' cfg, tstep cfg cfg') (handlers (S := keyed) evc rs1, w1).
Proof.
  apply (overlapping_requests_answered (S := keyed) evc eqc rs1 w1 rc1 false);
    [vm_compute; reflexivity|exact rs1_apart].
Defined.

(** *** One key secret for two requests *)

Definition rs2 : list (Request * ParameterObject) :=
  [(byAlice, param "key1"); (byAlice, param "key1")].
(** The first handler has stored its key, the second opens the file to store the
    same key, the first verifies, both run to their end. *)
Definition race : list nat :=
  (replicate 15 0 ++ replicate 14 1 ++ replicate 40 0 ++ replicate 40 1)%nat%list.
Definition cfg2 := texec race (handlers (S := keyed) evc rs2, w1).

(** The key file of a secret is shared by all requests that use it: two
    requests for the same signed object, each of which is allowed when it runs
    alone, can overlap so that one of them is denied, because it read the key file
    just after the other had truncated it. *)
Theorem key_file_race :
  result_of (RequestHandler (S := keyed) byAlice (param "key1")) w1 = Ret (allowedBy "alice")
  ∧ fmap Allow ∘ answer <$> cfg2.1 = [Some false; Some true].
Proof. split; vm_compute; reflexivity. Qed.

(** Goroutines that store one key between them. *)
Lemma apart_one (own : nat → list (string * string)) p0 d0 :
  (∀ i, own i = [(p0, d0)] ∨ own i = []) → HasPrefix p0 temp_prefix = false → apart true own.
Proof.
  intros Ho Hp. assert (∀ i p d, (p, d) ∈ own i → p = p0 ∧ d = d0) as H.
  { intros i p d Hin. destruct (Ho i) as [E|E]; rewrite E in Hin.
    - apply list_elem_of_singleton in Hin. by injection Hin.
    - destruct (not_elem_of_nil _ Hin). }
  split; [intros i j p d d' Hi%H Hj%H|intros i p d Hi%H]; naive_solver.
Qed.
Lemma rs2_apart : apart true (keys_of (K := VK) (w_cluster w1) rs2).
Proof.
  apply (apart_one _ "/tmp/ns1/key1/key.pub" "alice"); [|vm_compute; reflexivity].
  intros [|[|i]]; [left; vm_compute; reflexivity..|right; vm_compute; reflexivity].
Qed.

(** The request that was not hit in the same interleaving. *)
Lemma overlapping_allow_sound_witness :
  ∃ sf im, justified (facts_with (default RequestHandlerConfig_zero rc1) byAlice (param "key1")
    (mkObj "ConfigMap" "ns1" "cm1" {["sig" := "alice"]}) sf im).
Proof.
  destruct (overlapping_allow_sound (L := lib) (O := os) (Y := yaml) (S := keyed) evc eqc rs2 w1 rc1 cfg2.1 cfg2.2 1
    byAlice (param "key1") (allowedBy "alice")
    (mkObj "ConfigMap" "ns1" "cm1" {["sig" := "alice"]})
    ltac:(vm_compute; reflexivity) rs2_apart
    (texec_steps_pair race (handlers (S := keyed) evc rs2, w1))
    ltac:(reflexivity) ltac:(vm_compute; reflexivity) ltac:(vm_compute; reflexivity)
    ltac:(vm_compute; reflexivity) ltac:(reflexivity)) as (sf & im & _ & Hj).
  exists sf, im. exact Hj.
Defined.

(** *** A change of the configuration between two requests *)

(** The text of the configuration names the rekor server. *)
Definition rekorYaml : ShieldYaml types := {|
  yaml_RequestHandlerConfig s :=
    (Some (mkRHC [] s (mkFilterProfile [] [] []) (mkLogConfig "" "" "") false
             (mkAction false true) []), None) |}.
(** The administrator replaces the configuration. *)
Definition reconfigure (data : string) : prog (K := VK) ResultFromRequestHandler :=
  Atom (clusterM (λ c, rc_update configmaps c "integrity-shield-operator-system" (cm_of data)))
    (λ _, Return (mkResult true "" "")).
Definition logged : Request := req0 "CREATE" "eve" "" "ConfigMap/ns1/cm1/sig=alice;log=rekor-a".
Definition cfg3 := texec (replicate 9 0 ++ [1] ++ replicate 9 2 ++ replicate 30 0)%nat%list
  ([RequestHandler_prog (S := keyed) (Y := rekorYaml) evc logged (param "key1");
    reconfigure "rekor-b";
    RequestHandler_prog (S := keyed) (Y := rekorYaml) evc byBob (param "key2")],
   iworld "rekor-a").

(** The first request loaded the configuration with [rekor-a], the log its object
    is in, and is verified with the server that the last request has set. *)
Example rekor_race :
  result_of (RequestHandler (S := keyed) (Y := rekorYaml) logged (param "key1")) (iworld "rekor-a")
    = Ret (allowedBy "alice")
  ∧ fmap Allow ∘ answer <$> cfg3.1 !! 0%nat = Some (Some false).
Proof. split; vm_compute; reflexivity. Qed.
End IsolationDemo.
