(* ===== verification/AdmissionOverlap.v ===== *)
(** * Admission requests that overlap inside the admission controller

    [ProcessRequest] (webhook.go) loads the controller's configuration, lists the
    profiles, runs the request handler for every profile that matches and records
    denials in the status of the profiles.  Here the whole of it is cut at its
    accesses to shared state, with the cut handler of [Overlap] inside; the status
    updates are a sequence of read-modify-write calls on versioned profiles.
    - Run alone, the cut version is [ProcessRequest].
    - Any number of admission requests, interleaved in any way, are all answered; the
      status updates of one request do not disturb the decisions of the others.
    - Without common key secrets the answers are those the profiles call for, each by
      the policy on undisturbed facts; with common key secrets a request that passes
      is still justified under every profile that matches it. *)
From S2P Require Import Prelude GoStrings World Interleaving Threads ShieldConfig Demo.
From S2P Require Import ImageVerify RequestHandler Admission Concurrency Overlap Isolation.
From stdpp Require Import base gmap strings list relations.
From Stdlib Require Import ZArith Lia.

Local Open Scope string_scope.

Fixpoint mapMP {K : Kube} {A B} (f : A → prog B) (l : list A) : prog (list B) :=
  match l with
  | [] => Return []
  | x :: l' => y ← f x; ys ← mapMP f l'; Return (y :: ys)
  end.
Fixpoint forMP {K : Kube} {A} (l : list A) (f : A → prog unit) : prog unit :=
  match l with
  | [] => Return tt
  | x :: l' => _ ← f x; forMP l' f
  end.

(** ** The webhook, cut at its accesses to shared state *)

(** The response to the results of the profiles. *)
Definition respond (config : AdmissionControllerConfig)
    (results : list ResultFromRequestHandler) : Response :=
  let ar := getAccumulatedResult results in
  let isDetectMode := CheckIfDetectOnly (Mode config) in
  let ar := if negb (ar_Allow ar) && isDetectMode
            then mkAccumulated true ("allowed by detection mode: " +:+ ar_Message ar)
            else ar in
  if ar_Allow ar then Allowed (ar_Message ar) else Denied (ar_Message ar).

Section programs.
Context {T : ExtTypes} {L : ExtLib T} {O : OS} {K : Kube} {S : Sigstore T K}
  {Y : ShieldYaml T} {AY : AdmissionYaml} {MC : MipClient T K}.
Context (evk : VerClient Cluster Event) (mipk : VerClient Cluster ManifestIntegrityProfile).

Definition loadAdmissionControllerConfig_prog
    : prog (option AdmissionControllerConfig * option error) :=
  namespace ← atom (env_or "POD_NAMESPACE" webhook_defaultPodNamespace);
  configName ← atom (env_or "CONTROLLER_CONFIG_NAME" defaultControllerConfigName);
  configKey ← atom (env_or "CONTROLLER_CONFIG_KEY" defaultConfigKeyInConfigMap);
  err ← atom (asksW (λ w, GetKubeConfig (w_cluster w)));
  match err with
  | Some _ => Return (None, None)
  | None =>
    err ← atom (asksW (λ w, NewForConfig (w_cluster w)));
    match err with
    | Some _ => Return (None, None)
    | None =>
      r ← atom (asksW (λ w, rc_get configmaps (w_cluster w) namespace configName));
      Return (match r with
      | Bad err => (None, Some (Wrap err ("failed to get a configmap `" +:+ configName
          +:+ "` in `" +:+ namespace +:+ "` namespace")))
      | Good cm =>
        match cm_Data cm !! configKey with
        | None => (None, Some (errNew ("`" +:+ configKey +:+ "` is not found in configmap")))
        | Some cfgBytes =>
          match yaml_AdmissionControllerConfig cfgBytes with
          | (sc, Some err) => (sc, Some (Wrap err
              "failed to unmarshal config.yaml into *config.AdmissionControllerConfig"))
          | (sc, None) => (sc, None)
          end
        end
      end)
    end
  end.

Definition LoadConstraints_prog : prog (list ManifestIntegrityProfile * option error) :=
  err ← atom (asksW (λ w, GetKubeConfig (w_cluster w)));
  match err with
  | Some _ => Return ([], None)
  | None =>
    err ← atom (asksW (λ w, mip_NewForConfig (w_cluster w)));
    match err with
    | Some _ => Return ([], None)
    | None =>
      r ← atom (asksW (λ w, mips_List (w_cluster w)));
      Return (match r with Bad _ => ([], None) | Good items => (items, None) end)
    end
  end.

Definition processConstraint_prog (req : Request) (constraint : ManifestIntegrityProfile)
    : prog ResultFromRequestHandler :=
  matched ← atom (asksW (λ w, matchCheck (w_cluster w) req (sp_Match (mip_Spec constraint))));
  if negb matched then Return (mkResult true "not protected" (mip_Name constraint))
  else
    let paramObj := GetParametersFromConstraint (mip_Spec constraint) in
    r ← RequestHandler_prog evk req paramObj;
    Return (withProfile (mip_Name constraint) r).

Definition updateConstraints_prog (isDetectMode : bool) (req : Request)
    (results : list ResultFromRequestHandler) : prog unit :=
  forMP results (λ res,
    if negb (Allow res) then
      let errMsg := if isDetectMode then "[Detection] " +:+ Message res else Message res in
      _ ← prog_of mipk (updateConstraintStatus_proc (mkStatusCall (Profile res) req errMsg));
      Return tt
    else Return tt).

Definition ProcessRequest_prog (req : Request) : prog Response :=
  '(config, err) ← loadAdmissionControllerConfig_prog;
  match err with
  | Some _ => Return (Allowed "error but allow for development")
  | None =>
    match config with
    | None => atom (panic nil_dereference)
    | Some config =>
      if negb (NamespaceSelector_Match (InScopeNamespaceSelector config) (rq_Namespace req))
      then Return (Allowed "this namespace is out of scope")
      else if Allow_Match (ac_Allow config) (rq_Kind req)
      then Return (Allowed "this kind is out of scope")
      else
        '(constraints, err) ← LoadConstraints_prog;
        match err with
        | Some _ => Return (Allowed "error but allow for development")
        | None =>
          results ← mapMP (processConstraint_prog req) constraints;
          _ ← (if UpdateMIPStatusForDeniedRequest config
               then updateConstraints_prog (CheckIfDetectOnly (Mode config)) req results
               else Return tt);
          Return (respond config results)
        end
    end
  end.
End programs.

(** ** Run alone *)

Section alone.
Context {T : ExtTypes} {L : ExtLib T} {O : OS} {K : Kube} {S : Sigstore T K}
  {Y : ShieldYaml T} {AY : AdmissionYaml} {MC : MipClient T K}.
Context (evk : VerClient Cluster Event) (mipk : VerClient Cluster ManifestIntegrityProfile).
Context (rev rev' : Cluster → nat).
Context `{!VerClientLaws ev_Name rev evk, !VerClientLaws mip_Name rev' mipk}.
Context (Hev : events = unversioned ev_Name evk) (Hmip : mips = unversioned mip_Name mipk).

Lemma mapMP_same {A B} (f : A → prog B) (g : A → M World B) l :
  (∀ x, same (f x) (g x)) → same (mapMP f l) (mapMW g l).
Proof.
  intros Hf. induction l as [|x l IH]; [done|]. cbn [mapMP mapMW].
  apply same_bind; [done|intros y]. apply same_bind; [done|intros ys]. apply same_ret.
Qed.
Lemma forMP_same {A} (f : A → prog unit) (g : A → M World unit) l :
  (∀ x, same (f x) (g x)) → same (forMP l f) (forM l g).
Proof.
  intros Hf. induction l as [|x l IH]; [done|]. cbn [forMP forM].
  by apply same_bind; [|intros _].
Qed.

Lemma loadAdmissionControllerConfig_same :
  same loadAdmissionControllerConfig_prog loadAdmissionControllerConfig.
Proof.
  unfold loadAdmissionControllerConfig_prog, loadAdmissionControllerConfig.
  do 3 (apply same_bind; [eauto with same|intros ?]).
  apply same_read. intros w. go_unfold. destruct (GetKubeConfig (w_cluster w)); [done|].
  simpl. go_unfold. by destruct (NewForConfig (w_cluster w)).
Qed.
Lemma LoadConstraints_same : same LoadConstraints_prog LoadConstraints.
Proof.
  unfold LoadConstraints_prog, LoadConstraints.
  apply same_read. intros w. go_unfold. destruct (GetKubeConfig (w_cluster w)); [done|].
  simpl. go_unfold. by destruct (mip_NewForConfig (w_cluster w)).
Qed.
Lemma processConstraint_same req c :
  same (processConstraint_prog evk req c) (processConstraint req c).
Proof.
  unfold processConstraint_prog, processConstraint. apply same_ask. intros w.
  destruct (negb _); [apply same_ret|].
  apply same_bind; [by apply (RequestHandler_same evk rev)|intros r]. apply same_ret.
Qed.
Lemma updateConstraints_same b req rs :
  same (updateConstraints_prog mipk b req rs) (updateConstraints b req rs).
Proof.
  apply forMP_same. intros res. destruct (negb _); [|apply same_ret].
  apply same_bind; [|intros _; apply same_ret].
  intros w. rewrite run_prog_of. by apply (updateConstraintStatus_proc_run mipk rev').
Qed.

Lemma ProcessRequest_same req :
  same (ProcessRequest_prog evk mipk req) (ProcessRequest req).
Proof.
  unfold ProcessRequest_prog, ProcessRequest.
  apply same_bind; [apply loadAdmissionControllerConfig_same|intros [[config|] [err|]]];
    [apply same_ret| |apply same_ret|apply same_atom].
  do 2 (case_match; [apply same_ret|]).
  apply same_bind; [apply LoadConstraints_same|intros [cs [err|]]]; [apply same_ret|].
  apply same_bind; [apply mapMP_same; intros c; apply processConstraint_same|intros results].
  apply same_bind; [|intros _; apply same_ret].
  case_match; [apply updateConstraints_same|apply same_ret].
Qed.
End alone.

(** ** The controller's requests do not disturb each other *)

(** The part of a profile that decides. *)
Definition spec_of {T : ExtTypes} (m : ManifestIntegrityProfile)
    : string * ManifestIntegrityProfileSpec := (mip_Name m, mip_Spec m).

(** Clusters related by [eqc] have the same profiles up to their status: an update
    that keeps the specification of the profile stays within it. *)
Class ProfilesApart {T : ExtTypes} {K : Kube} {MC : MipClient T K}
    (mipk : VerClient Cluster ManifestIntegrityProfile) (eqc : relation Cluster) : Prop := {
  mip_NewForConfig_proper :: Proper (eqc ==> eq) mip_NewForConfig;
  Namespaces_Get_proper :: Proper (eqc ==> eq ==> eq) Namespaces_Get;
  mips_List_specs c c' : eqc c c' →
    match mips_List c, mips_List c' with
    | Good l, Good l' => spec_of <$> l = spec_of <$> l'
    | Bad _, Bad _ => True
    | _, _ => False
    end;
  profile_get_spec c c' n v x : eqc c c' → vc_get mipk c "" n = Good (v, x) →
    ∃ v' x', vc_get mipk c' "" n = Good (v', x') ∧ mip_Spec x' = mip_Spec x;
  profile_update_eqc c v y e c' : vc_update mipk c "" (v, y) = (e, c') →
    (∀ v0 x0, vc_get mipk c "" (mip_Name y) = Good (v0, x0) → mip_Spec x0 = mip_Spec y) →
    eqc c' c }.

Section isolation.
Context {T : ExtTypes} {L : ExtLib T} {O : OS} {K : Kube} {S : Sigstore T K}
  {Y : ShieldYaml T} {AY : AdmissionYaml} {MC : MipClient T K}.
Context (evk : VerClient Cluster Event) (mipk : VerClient Cluster ManifestIntegrityProfile).
Context (rev' : Cluster → nat) `{!VerClientLaws mip_Name rev' mipk}.
Context (eqc : relation Cluster).
Context `{HE : !EventsApart evk eqc, HP : !ProfilesApart mipk eqc}.
Context `{HT : !TempDirLaws O}.
Context (w0 : World) (rc' : option RequestHandlerConfig)
  (config : AdmissionControllerConfig).
Context (Hrc : loaded_config w0 = (rc', None)) (Hac : loaded_ac w0 = (Some config, None)).
Context (shared : bool) (own : nat → list (string * string)) (Hapart : apart shared own).
Abbreviation rc := (default RequestHandlerConfig_zero rc').
Abbreviation c0 := (w_cluster w0).
Abbreviation Inv := (Inv eqc w0 rc).
Abbreviation ok i p Q σ := (Threads.ok Inv (rely rc shared own) (guar rc shared own) i p Q σ).
Implicit Types (req : Request) (σ : World * gmap nat string).

Definition matches req (m : ManifestIntegrityProfile) : bool :=
  matchCheck c0 req (sp_Match (mip_Spec m)).

(** The key files of the profiles that match a request. *)
Definition admission_keys req : list (string * string) :=
  filter (λ m, matches req m = true) (loaded_constraints w0) ≫= λ m,
    key_files c0 (sp_Parameters (mip_Spec m)).

(** The result for one profile. *)
Definition profile_result req (m : ManifestIntegrityProfile)
    (r : ResultFromRequestHandler) : Prop :=
  if matches req m
  then ∃ r0, answered w0 rc shared req (sp_Parameters (mip_Spec m)) r0
             ∧ r = withProfile (mip_Name m) r0
  else r = mkResult true "not protected" (mip_Name m).

(** The response to a request nobody disturbed. *)
Definition responded req (resp : Response) : Prop :=
  if negb (NamespaceSelector_Match (InScopeNamespaceSelector config) (rq_Namespace req))
  then resp = Allowed "this namespace is out of scope"
  else if Allow_Match (ac_Allow config) (rq_Kind req)
  then resp = Allowed "this kind is out of scope"
  else ∃ results, Forall2 (profile_result req) (loaded_constraints w0) results
         ∧ resp = respond config results.

Lemma matchCheck_eqc c req m : eqc c c0 → matchCheck c req m = matchCheck c0 req m.
Proof.
  intros Hc. unfold matchCheck, checkNamespaceLabelMatch.
  rewrite (GetKubeConfig_proper _ _ Hc), (NewForConfig_proper _ _ Hc).
  by rewrite (Namespaces_Get_proper _ _ Hc _ _ eq_refl).
Qed.

Lemma loaded_ac_eq (w : World) :
  loaded_ac w =
  match GetKubeConfig (w_cluster w) with
  | Some _ => (None, None)
  | None =>
    match NewForConfig (w_cluster w) with
    | Some _ => (None, None)
    | None =>
      let namespace := envor w "POD_NAMESPACE" webhook_defaultPodNamespace in
      let configName := envor w "CONTROLLER_CONFIG_NAME" defaultControllerConfigName in
      let configKey := envor w "CONTROLLER_CONFIG_KEY" defaultConfigKeyInConfigMap in
      match rc_get configmaps (w_cluster w) namespace configName with
      | Bad err => (None, Some (Wrap err ("failed to get a configmap `" +:+ configName
          +:+ "` in `" +:+ namespace +:+ "` namespace")))
      | Good cm =>
        match cm_Data cm !! configKey with
        | None => (None, Some (errNew ("`" +:+ configKey +:+ "` is not found in configmap")))
        | Some cfgBytes =>
          match yaml_AdmissionControllerConfig cfgBytes with
          | (sc, Some err) => (sc, Some (Wrap err
              "failed to unmarshal config.yaml into *config.AdmissionControllerConfig"))
          | (sc, None) => (sc, None)
          end
        end
      end
    end
  end.
Proof. reflexivity. Qed.

Lemma loadAC_ok i σ :
  ok i loadAdmissionControllerConfig_prog (λ r _, r = loaded_ac w0) σ.
Proof.
  pose proof (loaded_ac_eq w0) as E.
  unfold loadAdmissionControllerConfig_prog.
  do 3 (apply ok_bind; eapply ok_mono;
    [by apply env_or_ok; vm_compute|]; intros ? ? [_ ->]).
  apply ok_bind. eapply ok_mono; [apply ask_ok|]. intros ? τ1 (_ & HI1 & ->).
  rewrite (inv_cluster _ _ _ _ HI1). destruct (GetKubeConfig c0); [by rewrite E|].
  apply ok_bind. eapply ok_mono; [apply ask_ok|]. intros ? τ2 (_ & HI2 & ->).
  rewrite (inv_cluster _ _ _ _ HI2). destruct (NewForConfig c0); [by rewrite E|].
  apply ok_bind. eapply ok_mono; [apply ask_ok|]. intros ? τ3 (_ & HI3 & ->).
  by rewrite (inv_cluster _ _ _ _ HI3), E.
Qed.

Lemma LoadConstraints_ok i σ :
  ok i LoadConstraints_prog (λ r _, r.2 = None ∧
    spec_of <$> r.1 = spec_of <$> loaded_constraints w0) σ.
Proof.
  assert (loaded_constraints w0 =
    match GetKubeConfig c0 with
    | Some _ => []
    | None => match mip_NewForConfig c0 with
              | Some _ => []
              | None => match mips_List c0 with Bad _ => [] | Good l => l end
              end
    end) as E.
  { unfold loaded_constraints, LoadConstraints. go_unfold.
    destruct (GetKubeConfig c0); [done|]. destruct (mip_NewForConfig c0); [done|].
    by destruct (mips_List c0). }
  rewrite E. unfold LoadConstraints_prog.
  apply ok_bind. eapply ok_mono; [apply ask_ok|]. intros ? τ1 (_ & HI1 & ->).
  rewrite (inv_cluster _ _ _ _ HI1). destruct (GetKubeConfig c0); [done|].
  apply ok_bind. eapply ok_mono; [apply ask_ok|]. intros ? τ2 (_ & HI2 & ->).
  rewrite (inv_cluster _ _ _ _ HI2). destruct (mip_NewForConfig c0); [done|].
  apply ok_bind. eapply ok_mono; [apply ask_ok|]. intros ? τ3 (_ & HI3 & ->).
  pose proof (mips_List_specs _ _ (inv_cluster _ _ _ _ HI3)) as Hl.
  by destruct (mips_List (w_cluster τ3.1)), (mips_List c0).
Qed.

Lemma processConstraint_ok i req m σ :
  (matches req m = true → mine w0 own i (po_KeyConfigs (sp_Parameters (mip_Spec m))
     ++ ip_KeyConfigs (po_ImageProfile (sp_Parameters (mip_Spec m))))) →
  ok i (processConstraint_prog evk req m) (λ r _, profile_result req m r) σ.
Proof.
  intros Hm. unfold processConstraint_prog, profile_result.
  apply ok_bind. eapply ok_mono; [apply ask_ok|]. intros ? τ1 (_ & HI1 & ->).
  rewrite (matchCheck_eqc _ _ _ (inv_cluster _ _ _ _ HI1)). fold (matches req m).
  destruct (matches req m) eqn:E; [|done]. cbn [negb].
  apply ok_bind. eapply ok_mono; [by eapply (RequestHandler_ok evk eqc w0 rc shared own); eauto|].
  intros r τ2 Hr. exists r. by split.
Qed.

Lemma mapMP_ok {A B} i (f : A → prog B) (P : A → B → Prop) l σ :
  (∀ x σ, x ∈ l → ok i (f x) (λ y _, P x y) σ) →
  ok i (mapMP f l) (λ ys _, Forall2 P l ys) σ.
Proof.
  revert σ. induction l as [|x l IH]; intros σ Hf; [by apply ok_ret|]. cbn [mapMP].
  apply ok_bind. eapply ok_mono; [apply Hf; left|]. intros y σ1 Hy.
  apply ok_bind. eapply ok_mono; [apply IH; intros z τ Hz; apply Hf; by right|].
  intros ys σ2 Hys. by constructor.
Qed.

Lemma updateConstraintStatus_ok i u σ :
  ok i (prog_of mipk (updateConstraintStatus_proc u)) (λ _ _, True) σ.
Proof.
  destruct u as [cn req msg]. simpl.
  intros σ1 _ HI1. apply runs_asksW. exists σ1.2. rewrite <-surjective_pairing.
  split_and!; [apply guar_refl|done|]. destruct (GetKubeConfig _); [done|].
  intros σ2 _ HI2. apply runs_asksW. exists σ2.2. rewrite <-surjective_pairing.
  split_and!; [apply guar_refl|done|]. destruct (mip_NewForConfig _); [done|].
  intros σ3 _ HI3. apply runs_asksW. exists σ3.2. rewrite <-surjective_pairing.
  split_and!; [apply guar_refl|done|].
  destruct (vc_get mipk (w_cluster σ3.1) "" cn) as [[v m]|e] eqn:Eg; [|done].
  intros σ4 _ HI4. eexists _, _. split; [apply UpdateStatus_run|]. exists σ4.2.
  destruct (tick_guar eqc w0 rc shared own i σ4 HI4). split_and!; [done..|].
  intros σ5 _ HI5. apply runs_clusterM. intros e c Eu. exists σ5.2.
  split_and!; [by apply guar_same| |done]. apply (Inv_same _ _ _ σ5); [done..|]. simpl.
  etrans; [|apply HI5]. eapply profile_update_eqc; [exact Eu|]. simpl. intros v0 x0 Hx0.
  rewrite (vget_name (name := mip_Name) _ _ _ _ _ Eg) in Hx0.
  assert (eqc (w_cluster σ5.1) (w_cluster σ3.1)) as H53.
  { etrans; [apply HI5|]. symmetry. apply HI3. }
  destruct (profile_get_spec _ _ _ _ _ H53 Hx0) as (v' & x' & Hx' & Hs). congruence.
Qed.

Lemma updateConstraints_ok i b req rs σ :
  ok i (updateConstraints_prog mipk b req rs) (λ _ _, True) σ.
Proof.
  unfold updateConstraints_prog. revert σ. induction rs as [|r rs IH]; intros σ; [done|].
  cbn [forMP]. apply ok_bind. destruct (negb (Allow r)); [|apply ok_ret, IH].
  apply ok_bind. eapply ok_mono; [apply updateConstraintStatus_ok|]. intros _ σ1 _. apply IH.
Qed.

(** The status of a profile plays no role in its result. *)
Lemma profile_results_specs req cs l rs :
  spec_of <$> cs = spec_of <$> l →
  Forall2 (profile_result req) cs rs → Forall2 (profile_result req) l rs.
Proof.
  intros Hs Hrs. revert l Hs. induction Hrs as [|m r cs rs Hr _ IH]; intros [|m' l]; try done.
  intros [= Hn Hsp Hl]. constructor; [|by apply IH].
  unfold profile_result, matches in *. by rewrite <-Hn, <-Hsp.
Qed.

Lemma ProcessRequest_ok i req σ :
  (∀ pd, pd ∈ admission_keys req → pd ∈ own i) →
  ok i (ProcessRequest_prog evk mipk req) (λ resp _, responded req resp) σ.
Proof.
  intros Hkeys. unfold ProcessRequest_prog, responded.
  apply ok_bind. eapply ok_mono; [apply loadAC_ok|]. intros ? σ1 ->. rewrite Hac.
  do 2 (case_match; [by apply ok_ret|]).
  apply ok_bind. eapply ok_mono; [apply LoadConstraints_ok|]. intros [cs err] σ2 [He Hcs].
  simpl in He, Hcs. subst err.
  apply ok_bind. eapply ok_mono; [apply (mapMP_ok _ _ (profile_result req))|].
  { intros m τ Hm. apply processConstraint_ok. intros Hmatch kc pd Hkc Hpd. apply Hkeys.
    assert (spec_of m ∈ spec_of <$> loaded_constraints w0) as Hin.
    { rewrite <-Hcs. apply list_elem_of_fmap. eauto. }
    apply list_elem_of_fmap in Hin as (m' & Hs & Hm'). injection Hs as Hn Hs.
    apply list_elem_of_bind. exists m'. split.
    - apply list_elem_of_bind. rewrite <-Hs. eauto.
    - apply list_elem_of_filter. split; [|done]. unfold matches in *. by rewrite <-Hs. }
  intros results σ3 Hres. apply ok_bind.
  apply (profile_results_specs _ _ _ _ Hcs) in Hres.
  destruct (UpdateMIPStatusForDeniedRequest config).
  - eapply ok_mono; [apply updateConstraints_ok|]. intros _ σ4 _. exists results. by split.
  - exists results. by split.
Qed.
End isolation.

Lemma respond_denied config results msg :
  respond config results = Denied msg →
  CheckIfDetectOnly (Mode config) = false ∧ ∃ r, r ∈ results ∧ Allow r = false.
Proof.
  unfold respond. destruct (ar_Allow (getAccumulatedResult results)) eqn:E; simpl;
    [by rewrite E|]. destruct (CheckIfDetectOnly (Mode config)); [done|]. intros _.
  split; [done|]. by apply getAccumulatedResult_deny.
Qed.

Lemma respond_allowed config results msg r :
  CheckIfDetectOnly (Mode config) = false → respond config results = Allowed msg →
  r ∈ results → Allow r = true.
Proof.
  intros Hd. unfold respond. rewrite Hd, andb_false_r.
  destruct (ar_Allow (getAccumulatedResult results)) eqn:E; [|done]. intros _ Hin.
  destruct (Allow r) eqn:Er; [done|].
  assert (ar_Allow (getAccumulatedResult results) = false); [|congruence].
  apply getAccumulatedResult_deny. eauto.
Qed.

Section theorems.
Context {T : ExtTypes} {L : ExtLib T} {O : OS} {K : Kube} {S : Sigstore T K}
  {Y : ShieldYaml T} {AY : AdmissionYaml} {MC : MipClient T K}.
Context (evk : VerClient Cluster Event) (mipk : VerClient Cluster ManifestIntegrityProfile).
Context (rev' : Cluster → nat) `{!VerClientLaws mip_Name rev' mipk}.
Context (eqc : relation Cluster).
Context `{HE : !EventsApart evk eqc, HP : !ProfilesApart mipk eqc}.
Context `{HT : !TempDirLaws O}.
Implicit Types (reqs : list Request) (w : World).

Definition webhooks reqs : list (prog Response) := ProcessRequest_prog evk mipk <$> reqs.
Definition webhook_keys w0 reqs (i : nat) : list (string * string) :=
  match reqs !! i with Some req => admission_keys w0 req | None => [] end.

Lemma webhooks_ok reqs w0 rc' config shared i p :
  loaded_config w0 = (rc', None) → loaded_ac w0 = (Some config, None) →
  apart shared (webhook_keys w0 reqs) →
  let rc := default RequestHandlerConfig_zero rc' in
  let own := webhook_keys w0 reqs in
  webhooks reqs !! i = Some p →
  ok (Inv eqc w0 rc) (rely rc shared own) (guar rc shared own) i p
    (λ resp _, ∀ req, reqs !! i = Some req → responded w0 rc' config shared req resp) (w0, ∅).
Proof.
  intros Hl Hac Ha rc own Hp. apply list_lookup_fmap_Some in Hp as (req & -> & Hi).
  eapply ok_mono;
    [eapply (ProcessRequest_ok evk mipk rev' eqc w0 rc' config Hl Hac shared own Ha)|].
  - intros pd Hpd. subst own. unfold webhook_keys. by rewrite Hi.
  - intros r σ Hr req' Hi'. simpl in Hr. by simplify_eq.
Qed.

(** Every response that has been given, key files shared or not. *)
Lemma webhooks_responded reqs w0 rc' config shared ps w i req resp :
  loaded_config w0 = (rc', None) → loaded_ac w0 = (Some config, None) →
  apart shared (webhook_keys w0 reqs) →
  rtc tstep (webhooks reqs, w0) (ps, w) →
  reqs !! i = Some req → ps !! i = Some (Return resp) →
  responded w0 rc' config shared req resp.
Proof.
  intros Hl Hac Ha Hsteps Hi Hr.
  destruct (ok_steps _ _ _ (guar_rely (default RequestHandlerConfig_zero rc') shared _)
    (λ i resp _, ∀ req, reqs !! i = Some req → responded w0 rc' config shared req resp)
    (λ i r, stable_const _ _ i _) _ _ _ _ _ (Inv_init evk eqc w0 _)
    (λ i p, webhooks_ok reqs w0 rc' config shared i p Hl Hac Ha) Hsteps) as (g & _ & Hok).
  exact (Hok _ _ Hr _ Hi).
Qed.

(** C5.  The admission controller answers overlapping requests as if each were
    alone: any number of calls of ProcessRequest in one process, with all their
    accesses to the process and to the cluster interleaved in any way.  As long as
    both configurations can be loaded and no two requests are matched by profiles
    with a common key secret, the response to every request is the one its profiles
    call for: the results of the profiles listed at the start, each by the policy
    on facts collected undisturbed.  The status updates and deny events written
    meanwhile change no decision, and a request is denied only when the controller
    enforces and a profile that matches it denies. *)
Theorem admission_requests_isolated reqs w0 rc' config ps w i req resp :
  loaded_config w0 = (rc', None) → loaded_ac w0 = (Some config, None) →
  apart false (webhook_keys w0 reqs) →
  rtc tstep (webhooks reqs, w0) (ps, w) →
  reqs !! i = Some req → ps !! i = Some (Return resp) →
  responded w0 rc' config false req resp
  ∧ ∀ msg, resp = Denied msg →
      CheckIfDetectOnly (Mode config) = false
      ∧ ∃ m r, m ∈ loaded_constraints w0 ∧ matches w0 req m = true
          ∧ answered w0 (default RequestHandlerConfig_zero rc') false req
              (sp_Parameters (mip_Spec m)) r ∧ Allow r = false.
Proof.
  intros Hl Hac Ha Hsteps Hi Hr.
  pose proof (webhooks_responded _ _ _ _ _ _ _ _ _ _ Hl Hac Ha Hsteps Hi Hr) as Hresp.
  split; [exact Hresp|].
  intros msg ->. unfold responded in Hresp. do 2 (case_match; [done|]).
  destruct Hresp as (results & Hres & Hm). symmetry in Hm.
  apply respond_denied in Hm as (Hd & r & Hin & Hallow). split; [done|].
  apply list_elem_of_lookup in Hin as [n Hn].
  destruct (Forall2_lookup_r _ _ _ _ _ Hres Hn) as (m & Hm & Hp).
  unfold profile_result in Hp. destruct (matches w0 req m) eqn:E; [|by subst r].
  destruct Hp as (r0 & Hr0 & ->). exists m, r0. split_and!; try done.
  by eapply list_elem_of_lookup_2.
Qed.

(** C4.  Complete mediation of overlapping admission requests: when the controller
    enforces and lets an in-scope request pass, then every profile that matches it
    and enforces is satisfied, that is, one of the documented reasons holds on facts
    as sigstore and cosign find them with complete key files.  Any number of
    requests may overlap in any way and share key secrets. *)
Theorem admission_allow_sound `{!EmptyKeys S} reqs w0 rc' config ps w i req msg m resource :
  loaded_config w0 = (rc', None) → loaded_ac w0 = (Some config, None) →
  apart true (webhook_keys w0 reqs) →
  rtc tstep (webhooks reqs, w0) (ps, w) →
  reqs !! i = Some req → ps !! i = Some (Return (Allowed msg)) →
  CheckIfDetectOnly (Mode config) = false →
  NamespaceSelector_Match (InScopeNamespaceSelector config) (rq_Namespace req) = true →
  Allow_Match (ac_Allow config) (rq_Kind req) = false →
  m ∈ loaded_constraints w0 → matches w0 req m = true →
  let rc := default RequestHandlerConfig_zero rc' in
  let po := sp_Parameters (mip_Spec m) in
  enforceAction po rc = true → json_Unstructured (rq_Object req) = Good resource →
  ∃ sf im, let f := facts_with rc req po resource sf im in
    (reaches f = true → found w0 rc false po resource sf im) ∧ justified f.
Proof.
  intros Hl Hac Ha Hsteps Hi Hr Hdet Hns Hkind Hm Hmatch rc po He Hj.
  pose proof (webhooks_responded _ _ _ _ _ _ _ _ _ _ Hl Hac Ha Hsteps Hi Hr) as Hresp.
  unfold responded in Hresp. rewrite Hns, Hkind in Hresp. simpl in Hresp.
  destruct Hresp as (results & Hres & Hresp). symmetry in Hresp.
  apply list_elem_of_lookup in Hm as [n Hn].
  destruct (Forall2_lookup_l _ _ _ _ _ Hres Hn) as (r & Hrn & Hp).
  pose proof (respond_allowed _ _ _ _ Hdet Hresp (list_elem_of_lookup_2 _ _ _ Hrn)) as Hal.
  unfold profile_result in Hp. rewrite Hmatch in Hp. destruct Hp as (r0 & Hr0 & ->).
  assert (∀ pd, pd ∈ key_files (w_cluster w0) po → pd ∈ webhook_keys w0 reqs i) as Hin.
  { intros pd Hpd. unfold webhook_keys. rewrite Hi. apply list_elem_of_bind. exists m.
    split; [done|]. apply list_elem_of_filter. split; [done|].
    by eapply list_elem_of_lookup_2. }
  eapply answered_sound; [..|exact Hr0|exact Hj|exact He|exact Hal].
  - intros p d d' Hd Hd'. by eapply (proj1 Ha i i); apply Hin.
  - intros p d Hd. eapply (proj2 Ha i). by apply Hin.
Qed.

(** C22.  Overlapping admission requests are all answered: every interleaving ends,
    no call panics or waits for another, and when no action is left every request
    has its response. *)
Theorem admission_requests_answered reqs w0 rc' config :
  loaded_config w0 = (rc', None) → loaded_ac w0 = (Some config, None) →
  apart true (webhook_keys w0 reqs) →
  Acc (λ cfg' cfg, tstep cfg cfg') (webhooks reqs, w0) ∧
  ∀ ps w, rtc tstep (webhooks reqs, w0) (ps, w) → (∀ cfg, ¬ tstep (ps, w) cfg) →
    length ps = length reqs ∧ Forall (λ p, is_Some (answer p)) ps.
Proof.
  intros Hl Hac Ha. split; [apply tstep_terminates|]. intros ps w Hsteps Hend. split.
  { apply tsteps_length in Hsteps. simpl in Hsteps. rewrite Hsteps. apply length_fmap. }
  apply Forall_lookup. intros i p Hp.
  destruct (ok_progress _ _ _ (guar_rely (default RequestHandlerConfig_zero rc') true _)
    (λ i resp _, ∀ req, reqs !! i = Some req → responded w0 rc' config true req resp)
    (λ i r, stable_const _ _ i _) _ _ _ _ _ i p (Inv_init evk eqc w0 _)
    (λ i p, webhooks_ok reqs w0 rc' config true i p Hl Hac Ha) Hsteps Hp) as [?|[cfg' Hs]];
    [done|].
  by destruct (Hend cfg').
Qed.

End theorems.

(** ** Concrete admission requests *)

Module AdmissionOverlapDemo.
Import Demo AdmissionDemo ConcurrencyDemo IsolationDemo VerStore.
Abbreviation VK := ConcurrencyDemo.VK.

(** The profiles of the store, listed by name. *)
#[export] Instance amipClient : MipClient types VK := {
  mip_NewForConfig _ := None;
  mips := unversioned mip_Name mipc;
  mips_List c := Good (omap (λ n, snd <$> (s_mips (mc_ext (X := Stores) c) !! ("", n)))
                         ["p1"; "p2"]) }.

(** Clusters that differ in events and in the status of profiles only. *)
Definition bare (vm : nat * Mip) : string * ManifestIntegrityProfileSpec := spec_of vm.2.
Definition same_specs : relation VC := λ c c',
  mc_online c = mc_online c' ∧ mc_configmaps c = mc_configmaps c'
  ∧ mc_secrets c = mc_secrets c' ∧ mc_namespaces c = mc_namespaces c'
  ∧ bare <$> s_mips (mc_ext c) = bare <$> s_mips (mc_ext c').
#[export] Instance same_specs_equiv : Equivalence same_specs.
Proof.
  split; unfold same_specs.
  - done.
  - intros c c' (?&?&?&?&?). by split_and!.
  - intros c1 c2 c3 (?&?&?&?&?) (?&?&?&?&?). split_and!; by etrans.
Qed.
#[export] Instance reports_apart : EventsApart (S := keyed) evc same_specs.
Proof.
  split; try apply _; simpl.
  - intros c ns y e c'. destruct (sget _ _ _ _); by intros [= <- <-].
  - intros c ns v y e c'. destruct (sget _ _ _ _) as [[? ?]|]; [|by intros [= <- <-]].
    case_bool_decide; by intros [= <- <-].
  - intros c c' (H & _). simpl. by rewrite H.
  - intros c c' (_ & H & _) ns ? <- n ? <-. simpl. by rewrite H.
  - intros c c' (_ & _ & H & _) ns ? <- n ? <-. simpl. by rewrite H.
  - by intros env ? <- fs ? <- c c' _ o ? <- vo ? <-.
Qed.

Lemma same_specs_lookup c c' κ : same_specs c c' →
  bare <$> s_mips (mc_ext c) !! κ = bare <$> s_mips (mc_ext c') !! κ.
Proof. intros (_ & _ & _ & _ & H). by rewrite <-!lookup_fmap, H. Qed.

Lemma listed_specs c c' (l : list string) : same_specs c c' →
  spec_of <$> omap (λ n, snd <$> (s_mips (mc_ext (X := Stores) c) !! ("", n))) l
  = spec_of <$> omap (λ n, snd <$> (s_mips (mc_ext (X := Stores) c') !! ("", n))) l.
Proof.
  intros Hs. induction l as [|n l IH]; [done|]. simpl.
  pose proof (same_specs_lookup c c' ("", n) Hs) as H.
  destruct (s_mips (mc_ext c) !! _) as [[v m]|], (s_mips (mc_ext c') !! _) as [[v' m']|];
    try done. simpl. injection H as Hn Hsp. f_equal; [|exact IH].
  unfold spec_of. by rewrite Hn, Hsp.
Qed.

#[export] Instance profiles_apart : ProfilesApart (MC := amipClient) mipc same_specs.
Proof.
  split.
  - by intros c c' _.
  - intros c c' (_ & _ & _ & H & _) n ? <-. simpl. by rewrite H.
  - intros c c' H. exact (listed_specs c c' ["p1"; "p2"] H).
  - intros c c' n v x H Hg. simpl in *. unfold sget in *.
    pose proof (same_specs_lookup c c' ("", n) H) as E.
    destruct (s_mips (mc_ext c) !! _) as [[v1 x1]|]; [|done].
    case_bool_decide; [|done]. injection Hg as -> ->.
    destruct (s_mips (mc_ext c') !! _) as [[v' x']|]; [|done].
    injection E as En Es. rewrite bool_decide_eq_true_2 by congruence. eauto.
  - intros c v y e c' Hu Hs. simpl in Hu, Hs. unfold sget in *.
    destruct (s_mips (mc_ext c) !! _) as [[v1 x1]|] eqn:E; [|by injection Hu as _ <-].
    destruct (bool_decide (mip_Name x1 = mip_Name y)) eqn:En; [|by injection Hu as _ <-].
    destruct (bool_decide (v1 = v)); [|by injection Hu as _ <-].
    injection Hu as _ <-. specialize (Hs _ _ eq_refl). apply bool_decide_eq_true in En.
    split_and!; try done. simpl. unfold sput. rewrite fmap_insert. apply insert_id.
    rewrite lookup_fmap, E. simpl. unfold bare, spec_of. simpl. by rewrite En, Hs.
Qed.

Definition profile (n ns key : string) : Mip :=
  mkMIP n (mkMIPSpec (mkMatch [mkKinds ["ConfigMap"] []] [ns] [] None None) (param key))
    (mkMIPStatus 0 []).
Definition aw : World (K := VK) :=
  mkWorld (K := VK) ∅ InfoLevel false ∅ 0 (mkMem true
    {[ ("k8s-manifest-sigstore", "admission-controller-config") :=
         mkConfigMap "admission-controller-config" {[ "config.yaml" := "enforce" ]};
       ("integrity-shield-operator-system", "request-handler-config") := cm_of "events" ]}
    ∅ secrets ∅
    (mkStores ∅ {[ ("", "p1") := (1%nat, profile "p1" "ns1" "key1");
                   ("", "p2") := (1%nat, profile "p2" "ns2" "key2") ]} ∅)).
Definition areq (ns sig : string) : Request :=
  mkRequest ns "cm1" (mkGVK "" "v1" "ConfigMap") "CREATE" "eve"
    ("ConfigMap/" +:+ ns +:+ "/cm1/sig=" +:+ sig) "".

(** Signed, unsigned and unprotected: the three requests act in turn. *)
Definition areqs : list Request := [areq "ns1" "alice"; areq "ns2" "mallory"; areq "ns3" "eve"].
Definition acfg := texec (turns 3 80) (webhooks (S := keyed) (MC := amipClient) evc mipc areqs, aw).
Example acfg_allows :
  (λ p, match answer p with Some (Allowed _) => Some true | Some (Denied _) => Some false
        | None => None end) <$> acfg.1 = [Some true; Some false; Some true].
Proof. vm_compute. reflexivity. Qed.
(** The denial is recorded while the other requests are being served. *)
Example acfg_status :
  DenyCount ∘ mip_Status ∘ snd <$> s_mips (mc_ext (X := Stores) (w_cluster acfg.2)) !! ("", "p2")
  = Some 1%Z.
Proof. vm_compute. reflexivity. Qed.

Definition acfg0 : AdmissionControllerConfig := acCfg "enforce".
Lemma areqs_apart : apart false (webhook_keys (MC := amipClient) aw areqs).
Proof.
  apply (apart_two _ "/tmp/ns1/key1/key.pub" "alice" "/tmp/ns1/key2/key.pub" "bob");
    [vm_compute; reflexivity..| |done|done|done].
  intros [|i]; vm_compute; reflexivity.
Qed.

Lemma aw_config : loaded_config aw = (rc1, None).
Proof. vm_compute. reflexivity. Qed.
Lemma aw_controller : loaded_ac aw = (Some acfg0, None).
Proof. vm_compute. reflexivity. Qed.

Definition aresp (i : nat) : Response :=
  default (Allowed "") (acfg.1 !! i ≫= answer).
Lemma admission_requests_isolated_witness :
  responded (MC := amipClient) (S := keyed) aw rc1 acfg0 false (areq "ns2" "mallory") (aresp 1)
  ∧ ∃ m r, m ∈ loaded_constraints (MC := amipClient) aw
      ∧ answered (S := keyed) aw (default RequestHandlerConfig_zero rc1) false
          (areq "ns2" "mallory") (sp_Parameters (mip_Spec m)) r ∧ Allow r = false.
Proof.
  destruct (admission_requests_isolated (S := keyed) (MC := amipClient) evc mipc
    (revOf s_mips) same_specs areqs aw rc1 acfg0 acfg.1 acfg.2 1
    (areq "ns2" "mallory") (aresp 1) aw_config aw_controller areqs_apart
    (texec_steps_pair (turns 3 80) (webhooks (S := keyed) (MC := amipClient) evc mipc areqs, aw))
    eq_refl ltac:(vm_compute; reflexivity)) as [H1 H2].
  split; [exact H1|].
  destruct (H2 (match aresp 1 with Denied m => m | Allowed m => m end)
    ltac:(vm_compute; reflexivity)) as (_ & m & r & Hm & _ & Ha & Hr).
  exists m, r. exact (conj Hm (conj Ha Hr)).
Defined.

(** Two requests under one profile, and so with one key file. *)
Definition areqs2 : list Request := [areq "ns1" "alice"; areq "ns1" "alice"].
Definition acfg2 := texec (turns 2 80)
  (webhooks (S := keyed) (MC := amipClient) evc mipc areqs2, aw).
Lemma areqs2_apart : apart true (webhook_keys (MC := amipClient) aw areqs2).
Proof.
  apply (apart_one _ "/tmp/ns1/key1/key.pub" "alice"); [|vm_compute; reflexivity].
  intros [|[|i]]; [left; vm_compute; reflexivity..|right; vm_compute; reflexivity].
Qed.
Lemma admission_allow_sound_witness :
  ∃ sf im, justified (facts_with (default RequestHandlerConfig_zero rc1) (areq "ns1" "alice")
    (param "key1") (mkObj "ConfigMap" "ns1" "cm1" {["sig" := "alice"]}) sf im).
Proof.
  destruct (admission_allow_sound (L := lib) (O := os) (Y := yaml) (AY := acYaml) (S := keyed)
    (MC := amipClient) evc mipc (revOf s_mips) same_specs areqs2 aw rc1 acfg0 acfg2.1 acfg2.2 1
    (areq "ns1" "alice") "[p1]singed by a valid signer: alice;[p2]not protected"
    (profile "p1" "ns1" "key1") (mkObj "ConfigMap" "ns1" "cm1" {["sig" := "alice"]})
    aw_config aw_controller areqs2_apart
    (texec_steps_pair (turns 2 80) (webhooks (S := keyed) (MC := amipClient) evc mipc areqs2, aw))
    ltac:(reflexivity) ltac:(vm_compute; reflexivity) ltac:(vm_compute; reflexivity)
    ltac:(vm_compute; reflexivity) ltac:(vm_compute; reflexivity)
    ltac:(by apply (list_elem_of_lookup_2 _ 0); vm_compute) ltac:(vm_compute; reflexivity)
    ltac:(vm_compute; reflexivity) ltac:(vm_compute; reflexivity)) as (sf & im & _ & Hj).
  exists sf, im. exact Hj.
Defined.

Lemma admission_requests_answered_witness :
  Acc (λ cfg' cfg, tstep cfg cfg') (webhooks (S := keyed) (MC := amipClient) evc mipc areqs, aw).
Proof.
  apply (admission_requests_answered (S := keyed) (MC := amipClient) evc mipc
    (revOf s_mips) same_specs areqs aw rc1 acfg0);
    [exact aw_config|exact aw_controller|exact (apart_shared _ areqs_apart)].
Defined.

End AdmissionOverlapDemo.
