(* ===== verification/RestClients.v ===== *)
(** * The generated API clients

    The clientsets of [observer/pkg/client/manifestintegritystate] and
    [webhook/admission-controller/pkg/client/manifestintegrityprofile]: the typed
    clients (namespaced integrity states, cluster-wide integrity profiles in the
    packages v1 and v1alpha1), their constructors, the scheme registration, and the
    fake clients for tests.

    The request of client-go is the record [rest_Request]; the builder methods are
    its setters, so a method of a typed client reads like the chain of calls of the
    source.  What happens to a request ([DoInto] and the like) and to the action of a
    fake client ([Invokes]) is a parameter; [ApiStore] is the store behind both and
    [RestServes], [FakeServes] say that requests and actions reach it. *)
From S2P Require Import Prelude GoStrings World.
From stdpp Require Import base gmap strings list.
From Stdlib Require Import ZArith Lia.

Local Open Scope string_scope.

(** ** Names of the API *)

Record GroupVersion := mkGV { gv_Group : string; gv_Version : string }.
#[export] Instance GroupVersion_eq_dec : EqDecision GroupVersion.
Proof. solve_decision. Defined.
Record GroupVersionResource := mkGVR {
  gvr_Group : string; gvr_Version : string; gvr_Resource : string }.
#[export] Instance GroupVersionResource_eq_dec : EqDecision GroupVersionResource.
Proof. solve_decision. Defined.
Record GroupResource := mkGR { gr_Group : string; gr_Resource : string }.
Definition WithResource (gv : GroupVersion) (r : string) : GroupVersionResource :=
  mkGVR (gv_Group gv) (gv_Version gv) r.
Definition WithKind (gv : GroupVersion) (k : string) : GroupVersionKind :=
  mkGVK (gv_Group gv) (gv_Version gv) k.
Definition gvr_GroupResource (r : GroupVersionResource) : GroupResource :=
  mkGR (gvr_Group r) (gvr_Resource r).

(** [register.go] of the two API packages. *)
Definition mis_GroupName : string := "apis.integrityshield.io".
Definition mis_SchemeGroupVersion : GroupVersion := mkGV mis_GroupName "v1".
Definition mip_GroupName : string := "apis.integrityshield.io".
Definition mip_SchemeGroupVersion : GroupVersion := mkGV mip_GroupName "v1".
Definition mis_Resource (r : string) : GroupResource :=
  gvr_GroupResource (WithResource mis_SchemeGroupVersion r).
Definition mip_Resource (r : string) : GroupResource :=
  gvr_GroupResource (WithResource mip_SchemeGroupVersion r).

Record GroupKind := mkGK { gk_Group : string; gk_Kind : string }.
Definition gvk_GroupKind (k : GroupVersionKind) : GroupKind := mkGK (Group k) (Kind k).
Definition mis_Kind (kind : string) : GroupKind :=
  gvk_GroupKind (WithKind mis_SchemeGroupVersion kind).
Definition mip_Kind (kind : string) : GroupKind :=
  gvk_GroupKind (WithKind mip_SchemeGroupVersion kind).

(** A scheme: the kinds it can encode.  [AddToGroupVersion] of apimachinery adds the
    option kinds of a group version. *)
Abbreviation Scheme := (list GroupVersionKind).
Class SchemeLib := { AddToGroupVersion : Scheme → GroupVersion → Scheme }.
Definition AddKnownTypes (s : Scheme) (gv : GroupVersion) (kinds : list string) : Scheme :=
  s ++ (WithKind gv <$> kinds).
Definition mis_addKnownTypes `{SchemeLib} (scheme : Scheme) : option error * Scheme :=
  let scheme := AddKnownTypes scheme mis_SchemeGroupVersion
                  ["ManifestIntegrityState"; "ManifestIntegrityStateList"] in
  (None, AddToGroupVersion scheme mis_SchemeGroupVersion).
Definition mip_addKnownTypes `{SchemeLib} (scheme : Scheme) : option error * Scheme :=
  let scheme := AddKnownTypes scheme mip_SchemeGroupVersion
                  ["ManifestIntegrityProfile"; "ManifestIntegrityProfileList"] in
  (None, AddToGroupVersion scheme mip_SchemeGroupVersion).
(** [init] of the clientset's scheme package; [utilruntime.Must] panics on an error. *)
Definition scheme_init `{SchemeLib} (addKnownTypes : Scheme → option error * Scheme)
    : M Scheme unit :=
  modifyW (λ s, AddToGroupVersion s (mkGV "" "v1"));;
  s ← getW;
  match addKnownTypes s with
  | (None, s') => putW s'
  | (Some e, s') => putW s';; panic (Error e)
  end.

Definition mip_scheme_init `{SchemeLib} : M Scheme unit := scheme_init mip_addKnownTypes.

(** ** Requests *)

Class RestTypes := {
  GetOptions : Type; ListRest : Type; CreateOptions : Type; UpdateOptions : Type;
  DeleteOptions : Type; PatchOptions : Type;
  Watcher : Type;                                 (* watch.Interface *)
  LabelSelectors : Type;                          (* labels.Selector *)
  RateLimiter : Type; float32 : Type }.

Inductive Verb := GET | POST | PUT | PATCH (pt : string) | DELETE.

Section clients.
Context {RT : RestTypes}.

(** [metav1.ListOptions] *)
Record ListOptions := mkListOptions {
  lo_TimeoutSeconds : option Z; lo_Watch : bool; lo_rest : ListRest }.
Definition set_Watch (b : bool) (o : ListOptions) : ListOptions :=
  mkListOptions (lo_TimeoutSeconds o) b (lo_rest o).
(** [time.Duration( *opts.TimeoutSeconds) * time.Second] *)
Definition Second : Z := 1000000000.
Definition timeoutOf (o : ListOptions) : Z :=
  match lo_TimeoutSeconds o with None => 0%Z | Some s => int64 (s * Second) end.

Inductive Params :=
| GetParams (o : GetOptions) | ListParams (o : ListOptions) | CreateParams (o : CreateOptions)
| UpdateParams (o : UpdateOptions) | PatchParams (o : PatchOptions).

Section typed.
Context {A : Type}.                               (* the resource *)

Inductive Payload := ObjectBody (a : A) | DeleteBody (o : DeleteOptions) | BytesBody (d : string).

Record rest_Request := mkRest {
  r_gv : GroupVersion;
  r_verb : Verb;
  r_namespace : option string;
  r_resource : string;
  r_name : option string;
  r_sub : list string;
  r_params : option Params;
  r_timeout : Z;
  r_body : option Payload }.

(** The client of a configuration; a nil [rest.Interface] is [None] and its methods
    panic. *)
Record RESTClient := mkRESTClient { rcl_GroupVersion : GroupVersion; rcl_APIPath : string }.
Definition rest_Verb {S} (v : Verb) (c : option RESTClient) : M S rest_Request :=
  match c with
  | None => panic nil_dereference
  | Some c => mret (mkRest (rcl_GroupVersion c) v None "" None [] None 0 None)
  end.
Definition Namespace (ns : string) (r : rest_Request) : rest_Request :=
  mkRest (r_gv r) (r_verb r) (Some ns) (r_resource r) (r_name r) (r_sub r) (r_params r)
    (r_timeout r) (r_body r).
Definition Resource (res : string) (r : rest_Request) : rest_Request :=
  mkRest (r_gv r) (r_verb r) (r_namespace r) res (r_name r) (r_sub r) (r_params r)
    (r_timeout r) (r_body r).
Definition Name (n : string) (r : rest_Request) : rest_Request :=
  mkRest (r_gv r) (r_verb r) (r_namespace r) (r_resource r) (Some n) (r_sub r) (r_params r)
    (r_timeout r) (r_body r).
Definition SubResource (l : list string) (r : rest_Request) : rest_Request :=
  mkRest (r_gv r) (r_verb r) (r_namespace r) (r_resource r) (r_name r) l (r_params r)
    (r_timeout r) (r_body r).
Definition VersionedParams (p : Params) (r : rest_Request) : rest_Request :=
  mkRest (r_gv r) (r_verb r) (r_namespace r) (r_resource r) (r_name r) (r_sub r) (Some p)
    (r_timeout r) (r_body r).
Definition Timeout (t : Z) (r : rest_Request) : rest_Request :=
  mkRest (r_gv r) (r_verb r) (r_namespace r) (r_resource r) (r_name r) (r_sub r) (r_params r)
    t (r_body r).
Definition Body (b : Payload) (r : rest_Request) : rest_Request :=
  mkRest (r_gv r) (r_verb r) (r_namespace r) (r_resource r) (r_name r) (r_sub r) (r_params r)
    (r_timeout r) (Some b).
End typed.
End clients.
Arguments Payload {RT} A.
Arguments rest_Request {RT} A.

Declare Scope rest_scope.
Notation "r |> f" := (f r) (at level 50, left associativity, only parsing) : rest_scope.
Local Open Scope rest_scope.

(** A list of resources. *)
Record ResourceList (A : Type) := mkList { rl_ListMeta : string; rl_Items : list A }.
Arguments mkList {A}.
Arguments rl_ListMeta {A}.
Arguments rl_Items {A}.

(** Sending a request: [Do(ctx).Into(result)] for an object and for a list (from the
    initial content of the result), [Do(ctx).Error()] and [Watch(ctx)]. *)
Class Transport {RT : RestTypes} (S A : Type) := {
  DoInto : rest_Request A → A → S → (A * option error) * S;
  DoIntoList : rest_Request A → ResourceList A → S → (ResourceList A * option error) * S;
  DoError : rest_Request A → S → option error * S;
  DoWatch : rest_Request A → S → res Watcher * S }.

Section methods.
Context {RT : RestTypes} {S A : Type} `{!Transport S A}.
Context (objName : A → string) (zero : A).        (* metadata.name, [&T{}] *)

Definition sendInto (r : rest_Request A) : M S (A * option error) := λ s,
  let '(x, s') := DoInto r zero s in (Ret x, s').
Definition sendIntoList (r : rest_Request A) : M S (ResourceList A * option error) := λ s,
  let '(x, s') := DoIntoList r (mkList "" []) s in (Ret x, s').
Definition sendError (r : rest_Request A) : M S (option error) := λ s,
  let '(x, s') := DoError r s in (Ret x, s').
Definition sendWatch (r : rest_Request A) : M S (res Watcher) := λ s,
  let '(x, s') := DoWatch r s in (Ret x, s').

(** ** Typed clients *)

(** [ApisV1Client]: a pointer that may be nil. *)
Record ApisV1Client := mkApisV1Client { restClient : option RESTClient }.
Definition ApisV1Client_RESTClient (c : option ApisV1Client) : option RESTClient :=
  match c with None => None | Some c => restClient c end.

(** *** Integrity states, namespaced *)

Record manifestIntegrityStates := mkMIS { mis_client : option RESTClient; mis_ns : string }.
Definition newManifestIntegrityStates (c : option ApisV1Client) (namespace : string)
    : manifestIntegrityStates := mkMIS (ApisV1Client_RESTClient c) namespace.

Definition MIS_Get (c : manifestIntegrityStates) (name : string) (options : GetOptions)
    : M S (A * option error) :=
  r ← rest_Verb GET (mis_client c);
  sendInto (r
    |> Namespace (mis_ns c)
    |> Resource "manifestintegritystates"
    |> Name name
    |> VersionedParams (GetParams options)).
Definition MIS_List (c : manifestIntegrityStates) (opts : ListOptions)
    : M S (ResourceList A * option error) :=
  r ← rest_Verb GET (mis_client c);
  sendIntoList (r
    |> Namespace (mis_ns c)
    |> Resource "manifestintegritystates"
    |> VersionedParams (ListParams opts)
    |> Timeout (timeoutOf opts)).
Definition MIS_Watch (c : manifestIntegrityStates) (opts : ListOptions) : M S (res Watcher) :=
  let timeout := timeoutOf opts in
  let opts := set_Watch true opts in
  r ← rest_Verb GET (mis_client c);
  sendWatch (r
    |> Namespace (mis_ns c)
    |> Resource "manifestintegritystates"
    |> VersionedParams (ListParams opts)
    |> Timeout timeout).
Definition MIS_Create (c : manifestIntegrityStates) (x : A) (opts : CreateOptions)
    : M S (A * option error) :=
  r ← rest_Verb POST (mis_client c);
  sendInto (r
    |> Namespace (mis_ns c)
    |> Resource "manifestintegritystates"
    |> VersionedParams (CreateParams opts)
    |> Body (ObjectBody x)).
Definition MIS_Update (c : manifestIntegrityStates) (x : A) (opts : UpdateOptions)
    : M S (A * option error) :=
  r ← rest_Verb PUT (mis_client c);
  sendInto (r
    |> Namespace (mis_ns c)
    |> Resource "manifestintegritystates"
    |> Name (objName x)
    |> VersionedParams (UpdateParams opts)
    |> Body (ObjectBody x)).
Definition MIS_Delete (c : manifestIntegrityStates) (name : string) (opts : DeleteOptions)
    : M S (option error) :=
  r ← rest_Verb DELETE (mis_client c);
  sendError (r
    |> Namespace (mis_ns c)
    |> Resource "manifestintegritystates"
    |> Name name
    |> Body (DeleteBody opts)).
Definition MIS_DeleteCollection (c : manifestIntegrityStates) (opts : DeleteOptions)
    (listOpts : ListOptions) : M S (option error) :=
  r ← rest_Verb DELETE (mis_client c);
  sendError (r
    |> Namespace (mis_ns c)
    |> Resource "manifestintegritystates"
    |> VersionedParams (ListParams listOpts)
    |> Timeout (timeoutOf listOpts)
    |> Body (DeleteBody opts)).
Definition MIS_Patch (c : manifestIntegrityStates) (name pt data : string)
    (opts : PatchOptions) (subresources : list string) : M S (A * option error) :=
  r ← rest_Verb (PATCH pt) (mis_client c);
  sendInto (r
    |> Namespace (mis_ns c)
    |> Resource "manifestintegritystates"
    |> Name name
    |> SubResource subresources
    |> VersionedParams (PatchParams opts)
    |> Body (BytesBody data)).

(** *** Integrity profiles, cluster-wide *)

Record manifestIntegrityProfiles := mkMIPs { mip_client : option RESTClient }.
Definition newManifestIntegrityProfiles (c : option ApisV1Client) : manifestIntegrityProfiles :=
  mkMIPs (ApisV1Client_RESTClient c).

Definition MIP_Get (c : manifestIntegrityProfiles) (name : string) (options : GetOptions)
    : M S (A * option error) :=
  r ← rest_Verb GET (mip_client c);
  sendInto (r
    |> Resource "manifestintegrityprofiles"
    |> Name name
    |> VersionedParams (GetParams options)).
Definition MIP_List (c : manifestIntegrityProfiles) (opts : ListOptions)
    : M S (ResourceList A * option error) :=
  r ← rest_Verb GET (mip_client c);
  sendIntoList (r
    |> Resource "manifestintegrityprofiles"
    |> VersionedParams (ListParams opts)
    |> Timeout (timeoutOf opts)).
Definition MIP_Watch (c : manifestIntegrityProfiles) (opts : ListOptions) : M S (res Watcher) :=
  let timeout := timeoutOf opts in
  let opts := set_Watch true opts in
  r ← rest_Verb GET (mip_client c);
  sendWatch (r
    |> Resource "manifestintegrityprofiles"
    |> VersionedParams (ListParams opts)
    |> Timeout timeout).
Definition MIP_Create (c : manifestIntegrityProfiles) (x : A) (opts : CreateOptions)
    : M S (A * option error) :=
  r ← rest_Verb POST (mip_client c);
  sendInto (r
    |> Resource "manifestintegrityprofiles"
    |> VersionedParams (CreateParams opts)
    |> Body (ObjectBody x)).
Definition MIP_Update (c : manifestIntegrityProfiles) (x : A) (opts : UpdateOptions)
    : M S (A * option error) :=
  r ← rest_Verb PUT (mip_client c);
  sendInto (r
    |> Resource "manifestintegrityprofiles"
    |> Name (objName x)
    |> VersionedParams (UpdateParams opts)
    |> Body (ObjectBody x)).
Definition MIP_UpdateStatus (c : manifestIntegrityProfiles) (x : A) (opts : UpdateOptions)
    : M S (A * option error) :=
  r ← rest_Verb PUT (mip_client c);
  sendInto (r
    |> Resource "manifestintegrityprofiles"
    |> Name (objName x)
    |> SubResource ["status"]
    |> VersionedParams (UpdateParams opts)
    |> Body (ObjectBody x)).
Definition MIP_Delete (c : manifestIntegrityProfiles) (name : string) (opts : DeleteOptions)
    : M S (option error) :=
  r ← rest_Verb DELETE (mip_client c);
  sendError (r
    |> Resource "manifestintegrityprofiles"
    |> Name name
    |> Body (DeleteBody opts)).
Definition MIP_DeleteCollection (c : manifestIntegrityProfiles) (opts : DeleteOptions)
    (listOpts : ListOptions) : M S (option error) :=
  r ← rest_Verb DELETE (mip_client c);
  sendError (r
    |> Resource "manifestintegrityprofiles"
    |> VersionedParams (ListParams listOpts)
    |> Timeout (timeoutOf listOpts)
    |> Body (DeleteBody opts)).
Definition MIP_Patch (c : manifestIntegrityProfiles) (name pt data : string)
    (opts : PatchOptions) (subresources : list string) : M S (A * option error) :=
  r ← rest_Verb (PATCH pt) (mip_client c);
  sendInto (r
    |> Resource "manifestintegrityprofiles"
    |> Name name
    |> SubResource subresources
    |> VersionedParams (PatchParams opts)
    |> Body (BytesBody data)).
End methods.

(** The packages of the admission controller. *)
Definition mip_ApisV1Client_RESTClient (c : option ApisV1Client) : option RESTClient :=
  ApisV1Client_RESTClient c.
Definition mip_alpha_RESTClient (c : option ApisV1Client) : option RESTClient :=
  ApisV1Client_RESTClient c.

(** *** Configuration *)

(** [rest.Config], with the fields the constructors read or write. *)
Section configs.
Context {RT : RestTypes}.
Record rest_Config := mkConfig {
  cfg_GroupVersion : option GroupVersion;
  cfg_APIPath : string;
  cfg_NegotiatedSerializer : option Scheme;       (* Codecs.WithoutConversion() of a scheme *)
  cfg_UserAgent : string;
  cfg_QPS : float32;
  cfg_Burst : Z;
  cfg_RateLimiter : option RateLimiter;
  cfg_Host : string }.
Class ConfigLib (Discovery : Type) := {
  RESTClientFor : rest_Config → res RESTClient;
  NewDiscoveryClientForConfig : rest_Config → res Discovery;
  NewDiscoveryClient : option RESTClient → Discovery;
  DefaultKubernetesUserAgent : string;
  NewTokenBucketRateLimiter : float32 → Z → RateLimiter;
  fpositive : float32 → bool }.                   (* x > 0 *)
(** client-go: a client needs a group version and a serializer and sends its requests
    to that group version below that path. *)
Class ConfigLaws (D : Type) `{!ConfigLib D} : Prop := {
  RESTClientFor_gv c r : RESTClientFor c = Good r →
    cfg_GroupVersion c = Some (rcl_GroupVersion r) ∧ cfg_APIPath c = rcl_APIPath r }.

Context {D : Type} `{!ConfigLib D}.
Context (Codecs : Scheme).                        (* scheme.Scheme after its init *)

(** [setConfigDefaults]; [gv] is the [SchemeGroupVersion] of the package. *)
Definition setConfigDefaults (gv : GroupVersion) (config : rest_Config)
    : option error * rest_Config :=
  let config := mkConfig (Some gv) "/apis" (Some Codecs) (cfg_UserAgent config)
                  (cfg_QPS config) (cfg_Burst config) (cfg_RateLimiter config)
                  (cfg_Host config) in
  let config := if bool_decide (cfg_UserAgent config = "")
                then mkConfig (cfg_GroupVersion config) (cfg_APIPath config)
                       (cfg_NegotiatedSerializer config) DefaultKubernetesUserAgent
                       (cfg_QPS config) (cfg_Burst config) (cfg_RateLimiter config)
                       (cfg_Host config)
                else config in
  (None, config).
Definition mip_setConfigDefaults (config : rest_Config) : option error * rest_Config :=
  setConfigDefaults mip_SchemeGroupVersion config.
(** v1alpha1's [SchemeGroupVersion] is that of v1, imported under its name. *)
Definition mip_alpha_setConfigDefaults (config : rest_Config) : option error * rest_Config :=
  setConfigDefaults mip_SchemeGroupVersion config.
(** [NewForConfig] of a typed package: the caller's configuration is copied. *)
Definition typed_NewForConfig (gv : GroupVersion) (c : rest_Config) : res ApisV1Client :=
  let '(err, config) := setConfigDefaults gv c in
  match err with
  | Some err => Bad err
  | None => match RESTClientFor config with
            | Bad err => Bad err
            | Good client => Good (mkApisV1Client (Some client))
            end
  end.
Definition mis_NewForConfig (c : rest_Config) : res ApisV1Client :=
  typed_NewForConfig mis_SchemeGroupVersion c.
Definition mip_NewForConfig (c : rest_Config) : res ApisV1Client :=
  typed_NewForConfig mip_SchemeGroupVersion c.
(** The package v1alpha1 imports the types of v1 under the name v1alpha1. *)
Definition mip_alpha_NewForConfig (c : rest_Config) : res ApisV1Client :=
  typed_NewForConfig mip_SchemeGroupVersion c.
Definition OrDie {S B} (r : res B) : M S B :=
  match r with Good b => mret b | Bad e => panic (Error e) end.
Definition mis_NewForConfigOrDie {S} (c : rest_Config) : M S ApisV1Client :=
  OrDie (mis_NewForConfig c).
Definition mip_NewForConfigOrDie {S} (c : rest_Config) : M S ApisV1Client :=
  OrDie (mip_NewForConfig c).
Definition mip_alpha_NewForConfigOrDie {S} (c : rest_Config) : M S ApisV1Client :=
  OrDie (mip_alpha_NewForConfig c).
Definition typed_New (c : option RESTClient) : ApisV1Client := mkApisV1Client c.

Definition mip_typed_New (c : option RESTClient) : ApisV1Client := mkApisV1Client c.
Definition mip_alpha_New (c : option RESTClient) : ApisV1Client := mkApisV1Client c.

(** The clientsets. *)
Record Clientset := mkClientset { cs_DiscoveryClient : D; cs_apisV1 : ApisV1Client }.
Definition mis_clientset_ApisV1 (c : Clientset) : ApisV1Client := cs_apisV1 c.
Definition mip_clientset_ApisV1 (c : Clientset) : ApisV1Client := cs_apisV1 c.
(** A nil clientset has a nil discovery client. *)
Definition mis_clientset_Discovery (c : option Clientset) : option D := cs_DiscoveryClient <$> c.
Definition mip_clientset_Discovery (c : option Clientset) : option D := cs_DiscoveryClient <$> c.
Definition mis_clientset_New (c : option RESTClient) : Clientset :=
  mkClientset (NewDiscoveryClient c) (typed_New c).
Definition mip_clientset_New (c : option RESTClient) : Clientset :=
  mkClientset (NewDiscoveryClient c) (mip_typed_New c).
Definition burst_required : error := errNew
  "burst is required to be greater than 0 when RateLimiter is not set and QPS is set to greater than 0".
Definition set_RateLimiter (l : RateLimiter) (c : rest_Config) : rest_Config :=
  mkConfig (cfg_GroupVersion c) (cfg_APIPath c) (cfg_NegotiatedSerializer c)
    (cfg_UserAgent c) (cfg_QPS c) (cfg_Burst c) (Some l) (cfg_Host c).
Definition withRateLimiter (c : rest_Config) : res rest_Config :=
  if bool_decide (cfg_RateLimiter c = None ∧ fpositive (cfg_QPS c) = true)
  then if (cfg_Burst c <=? 0)%Z then Bad burst_required
       else Good (set_RateLimiter (NewTokenBucketRateLimiter (cfg_QPS c) (cfg_Burst c)) c)
  else Good c.
Definition clientset_NewForConfig (newTyped : rest_Config → res ApisV1Client) (c : rest_Config)
    : res Clientset :=
  match withRateLimiter c with
  | Bad err => Bad err
  | Good configShallowCopy =>
      match newTyped configShallowCopy with
      | Bad err => Bad err
      | Good apisV1 =>
          match NewDiscoveryClientForConfig configShallowCopy with
          | Bad err => Bad err
          | Good d => Good (mkClientset d apisV1)
          end
      end
  end.
Definition mis_clientset_NewForConfig (c : rest_Config) : res Clientset :=
  clientset_NewForConfig mis_NewForConfig c.
Definition mip_clientset_NewForConfig (c : rest_Config) : res Clientset :=
  clientset_NewForConfig mip_NewForConfig c.
Definition mis_clientset_NewForConfigOrDie {S} (c : rest_Config) : M S Clientset :=
  apisV1 ← mis_NewForConfigOrDie c;
  d ← OrDie (NewDiscoveryClientForConfig c);
  mret (mkClientset d apisV1).
Definition mip_clientset_NewForConfigOrDie {S} (c : rest_Config) : M S Clientset :=
  apisV1 ← mip_NewForConfigOrDie c;
  d ← OrDie (NewDiscoveryClientForConfig c);
  mret (mkClientset d apisV1).
End configs.

(** ** The interfaces of the clients *)

Section interfaces.
Context {RT : RestTypes} {S A : Type}.

(** [ManifestIntegrityStateInterface]; the pointers returned may be nil. *)
Record ResourceInterface := mkInterface {
  i_Create : A → CreateOptions → M S (option A * option error);
  i_Update : A → UpdateOptions → M S (option A * option error);
  i_Delete : string → DeleteOptions → M S (option error);
  i_DeleteCollection : DeleteOptions → ListOptions → M S (option error);
  i_Get : string → GetOptions → M S (option A * option error);
  i_List : ListOptions → M S (option (ResourceList A) * option error);
  i_Watch : ListOptions → M S (res Watcher);
  i_Patch : string → string → string → PatchOptions → list string →
            M S (option A * option error) }.
(** [ManifestIntegrityProfileInterface] *)
Record ProfileInterface := mkProfileInterface {
  pi_resource : ResourceInterface;
  pi_UpdateStatus : A → UpdateOptions → M S (option A * option error) }.
End interfaces.
Arguments ResourceInterface {RT} S A.
Arguments ProfileInterface {RT} S A.

Section typed_interfaces.
Context {RT : RestTypes} {S A : Type} `{!Transport S A}.
Context (objName : A → string) (zero : A).

(** The typed clients return a pointer to a new object in every case. *)
Definition pointer {B} (m : M S (B * option error)) : M S (option B * option error) :=
  '(b, e) ← m; mret (Some b, e).

Definition ApisV1_ManifestIntegrityStates (c : option ApisV1Client) (namespace : string)
    : ResourceInterface S A :=
  let c := newManifestIntegrityStates c namespace in
  {| i_Create x o := pointer (MIS_Create zero c x o);
     i_Update x o := pointer (MIS_Update objName zero c x o);
     i_Delete := MIS_Delete c;
     i_DeleteCollection := MIS_DeleteCollection c;
     i_Get n o := pointer (MIS_Get zero c n o);
     i_List o := pointer (MIS_List c o);
     i_Watch := MIS_Watch c;
     i_Patch n pt d o subs := pointer (MIS_Patch zero c n pt d o subs) |}.
Definition ApisV1_ManifestIntegrityProfiles (c : option ApisV1Client) : ProfileInterface S A :=
  let c := newManifestIntegrityProfiles c in
  mkProfileInterface
  {| i_Create x o := pointer (MIP_Create zero c x o);
     i_Update x o := pointer (MIP_Update objName zero c x o);
     i_Delete := MIP_Delete c;
     i_DeleteCollection := MIP_DeleteCollection c;
     i_Get n o := pointer (MIP_Get zero c n o);
     i_List o := pointer (MIP_List c o);
     i_Watch := MIP_Watch c;
     i_Patch n pt d o subs := pointer (MIP_Patch zero c n pt d o subs) |}
  (λ x o, pointer (MIP_UpdateStatus objName zero c x o)).
(** The package v1alpha1: the same methods on the types of v1. *)
Definition ApisV1alpha1_ManifestIntegrityProfiles (c : option ApisV1Client)
    : ProfileInterface S A := ApisV1_ManifestIntegrityProfiles c.
End typed_interfaces.

(** ** Fake clients *)

(** The actions of [k8s.io/client-go/testing]; an action without a namespace
    ([NewRoot...]) has the empty one. *)
Inductive Action {RT : RestTypes} {A : Type} :=
| NewGetAction (gvr : GroupVersionResource) (ns name : string)
| NewListAction (gvr : GroupVersionResource) (gvk : GroupVersionKind) (ns : string)
    (opts : ListOptions)
| NewWatchAction (gvr : GroupVersionResource) (ns : string) (opts : ListOptions)
| NewCreateAction (gvr : GroupVersionResource) (ns : string) (x : A)
| NewUpdateAction (gvr : GroupVersionResource) (ns : string) (x : A)
| NewUpdateSubresourceAction (gvr : GroupVersionResource) (sub ns : string) (x : A)
| NewDeleteAction (gvr : GroupVersionResource) (ns name : string)
| NewDeleteCollectionAction (gvr : GroupVersionResource) (ns : string) (opts : ListOptions)
| NewPatchSubresourceAction (gvr : GroupVersionResource) (ns name pt data : string)
    (subs : list string).
Arguments Action {RT} A.
Definition Root {B} (f : string → B) : B := f "".

(** [testing.Fake], and the label selectors of list options ([nil] when they do not
    parse). *)
Class Fake {RT : RestTypes} (S A : Type) := {
  Invokes : Action A → A → S → (option A * option error) * S;
  InvokesList : Action A → ResourceList A → S → (option (ResourceList A) * option error) * S;
  InvokesWatch : Action A → S → res Watcher * S;
  ExtractLabels : ListOptions → option LabelSelectors;
  Everything : LabelSelectors;
  LabelMatches : LabelSelectors → A → bool }.

Section fakes.
Context {RT : RestTypes} {S A : Type} `{!Fake S A}.
Context (objName : A → string) (zero : A).

Definition invoke (a : Action A) : M S (option A * option error) := λ s,
  let '(obj, err, s') := Invokes a zero s in
  match obj with
  | None => (Ret (None, err), s')
  | Some x => (Ret (Some x, err), s')
  end.
Definition invokeErr (a : Action A) : M S (option error) := λ s,
  let '(_, err, s') := Invokes a zero s in (Ret err, s').
Definition invokeListErr (a : Action A) : M S (option error) := λ s,
  let '(_, err, s') := InvokesList a (mkList "" []) s in (Ret err, s').
(** The items that match the label selector. *)
Fixpoint matching (label : LabelSelectors) (items : list A) : list A :=
  match items with
  | [] => []
  | item :: items' => if LabelMatches label item then item :: matching label items'
                      else matching label items'
  end.
Definition invokeList (a : Action A) (opts : ListOptions)
    : M S (option (ResourceList A) * option error) := λ s,
  let '(obj, err, s') := InvokesList a (mkList "" []) s in
  match obj with
  | None => (Ret (None, err), s')
  | Some l =>
      let label := default Everything (ExtractLabels opts) in
      (Ret (Some (mkList (rl_ListMeta l) (matching label (rl_Items l))), err), s')
  end.
Definition invokeWatch (a : Action A) : M S (res Watcher) := λ s,
  let '(x, s') := InvokesWatch a s in (Ret x, s').

Definition manifestintegritystatesResource : GroupVersionResource :=
  mkGVR "apis.integrityshield.io" "v1" "manifestintegritystates".
Definition manifestintegritystatesKind : GroupVersionKind :=
  mkGVK "apis.integrityshield.io" "v1" "ManifestIntegrityState".
Definition FakeManifestIntegrityStates (ns : string) : ResourceInterface S A :=
  {| i_Create x o := invoke (NewCreateAction manifestintegritystatesResource ns x);
     i_Update x o := invoke (NewUpdateAction manifestintegritystatesResource ns x);
     i_Delete name o := invokeErr (NewDeleteAction manifestintegritystatesResource ns name);
     i_DeleteCollection o listOpts :=
       invokeListErr (NewDeleteCollectionAction manifestintegritystatesResource ns listOpts);
     i_Get name o := invoke (NewGetAction manifestintegritystatesResource ns name);
     i_List opts := invokeList (NewListAction manifestintegritystatesResource
                                  manifestintegritystatesKind ns opts) opts;
     i_Watch opts := invokeWatch (NewWatchAction manifestintegritystatesResource ns opts);
     i_Patch name pt data o subs :=
       invoke (NewPatchSubresourceAction manifestintegritystatesResource ns name pt data subs) |}.

(** The fake profile clients of v1 and v1alpha1 differ in two package variables. *)
Section profile.
Context (resource : GroupVersionResource) (kind : GroupVersionKind).
Definition FakeProfiles : ProfileInterface S A := mkProfileInterface
  {| i_Create x o := invoke (Root (λ ns, NewCreateAction resource ns x));
     i_Update x o := invoke (Root (λ ns, NewUpdateAction resource ns x));
     i_Delete name o := invokeErr (Root (λ ns, NewDeleteAction resource ns name));
     i_DeleteCollection o listOpts :=
       invokeListErr (Root (λ ns, NewDeleteCollectionAction resource ns listOpts));
     i_Get name o := invoke (Root (λ ns, NewGetAction resource ns name));
     i_List opts := invokeList (Root (λ ns, NewListAction resource kind ns opts)) opts;
     i_Watch opts := invokeWatch (Root (λ ns, NewWatchAction resource ns opts));
     i_Patch name pt data o subs :=
       invoke (Root (λ ns, NewPatchSubresourceAction resource ns name pt data subs)) |}
  (λ x o, invoke (Root (λ ns, NewUpdateSubresourceAction resource "status" ns x))).
End profile.
Definition manifestintegrityprofilesResource : GroupVersionResource :=
  mkGVR "apis.integrityshield.io" "v1" "manifestintegrityprofiles".
Definition manifestintegrityprofilesKind : GroupVersionKind :=
  mkGVK "apis.integrityshield.io" "v1" "ManifestIntegrityProfile".
Definition alpha_profilesResource : GroupVersionResource :=
  mkGVR "apis.integrityshield.io" "v1alpha1" "manifestintegrityprofiles".
Definition alpha_profilesKind : GroupVersionKind :=
  mkGVK "apis.integrityshield.io" "v1alpha1" "ManifestIntegrityProfile".
Definition FakeManifestIntegrityProfiles : ProfileInterface S A :=
  FakeProfiles manifestintegrityprofilesResource manifestintegrityprofilesKind.
Definition FakeAlphaProfiles : ProfileInterface S A :=
  FakeProfiles alpha_profilesResource alpha_profilesKind.
End fakes.

(** ** The store behind the clients *)

(** What the API server does for a resource, and which names it accepts. *)
Class ApiStore {RT : RestTypes} (S A : Type) := {
  api_get : GroupVersionResource → string → string → S → res A;
  api_list : GroupVersionResource → string → ListOptions → S → res (ResourceList A);
  api_watch : GroupVersionResource → string → ListOptions → S → res Watcher;
  api_create : GroupVersionResource → string → A → S → res A * S;
  api_update : GroupVersionResource → string → string → list string → A → S → res A * S;
  api_delete : GroupVersionResource → string → string → S → option error * S;
  api_deletecollection : GroupVersionResource → string → ListOptions → S → option error * S;
  api_patch : GroupVersionResource → string → string → string → string → list string → S →
              res A * S;
  validSegment : string → bool }.

Definition into {S B} (z : B) (r : res B * S) : (B * option error) * S :=
  match r with (Good b, s) => (b, None, s) | (Bad e, s) => (z, Some e, s) end.
Definition found {S B} (r : res B * S) : (option B * option error) * S :=
  match r with (Good b, s) => (Some b, None, s) | (Bad e, s) => (None, Some e, s) end.

Section serves.
Context {RT : RestTypes} {S A : Type} (objName : A → string).
Context `{!ApiStore S A, !Transport S A, !Fake S A}.
Implicit Types (gv : GroupVersion) (gvr : GroupVersionResource) (s : S) (nso : option string).

(** Requests reach the store: the verb, the resource, the namespace and the name of the
    request select the operation (the API conventions of Kubernetes); client-go refuses
    invalid names and empty namespaces of named resources. *)
Class RestServes : Prop := {
  rs_get gv nso rs n p t z s : validSegment n = true → nso ≠ Some "" →
    DoInto (mkRest gv GET nso rs (Some n) [] p t None) z s =
    into z (api_get (WithResource gv rs) (default "" nso) n s, s);
  rs_create gv nso rs p t x z s : nso ≠ Some "" →
    DoInto (mkRest gv POST nso rs None [] p t (Some (ObjectBody x))) z s =
    into z (api_create (WithResource gv rs) (default "" nso) x s);
  rs_update gv nso rs n sub p t x z s : validSegment n = true → nso ≠ Some "" →
    DoInto (mkRest gv PUT nso rs (Some n) sub p t (Some (ObjectBody x))) z s =
    into z (api_update (WithResource gv rs) (default "" nso) n sub x s);
  rs_patch gv nso rs n pt sub p t d z s : validSegment n = true → nso ≠ Some "" →
    DoInto (mkRest gv (PATCH pt) nso rs (Some n) sub p t (Some (BytesBody d))) z s =
    into z (api_patch (WithResource gv rs) (default "" nso) n pt d sub s);
  rs_list gv nso rs o t z s :
    DoIntoList (mkRest gv GET nso rs None [] (Some (ListParams o)) t None) z s =
    into z (api_list (WithResource gv rs) (default "" nso) o s, s);
  rs_watch gv nso rs o t s :
    DoWatch (mkRest gv GET nso rs None [] (Some (ListParams (set_Watch true o))) t None) s =
    (api_watch (WithResource gv rs) (default "" nso) o s, s);
  rs_delete gv nso rs n t o s : validSegment n = true → nso ≠ Some "" →
    DoError (mkRest gv DELETE nso rs (Some n) [] None t (Some (DeleteBody o))) s =
    api_delete (WithResource gv rs) (default "" nso) n s;
  rs_deletecollection gv nso rs lo t o s :
    DoError (mkRest gv DELETE nso rs None [] (Some (ListParams lo)) t (Some (DeleteBody o))) s =
    api_deletecollection (WithResource gv rs) (default "" nso) lo s;
  rs_refused gv v nso rs n sub p t b :
    validSegment n = false ∨ nso = Some "" →
    ∃ e, ∀ z s, DoInto (mkRest gv v nso rs (Some n) sub p t b) z s = (z, Some e, s);
  rs_no_namespace gv rs p t b :
    ∃ e, ∀ z s, DoInto (mkRest gv POST (Some "") rs None [] p t b) z s = (z, Some e, s) }.

(** The object tracker of a fake client is such a store, and it does not filter
    lists. *)
Class FakeServes : Prop := {
  fs_get gvr ns n z s : Invokes (NewGetAction gvr ns n) z s = found (api_get gvr ns n s, s);
  fs_create gvr ns x z s : Invokes (NewCreateAction gvr ns x) z s = found (api_create gvr ns x s);
  fs_update gvr ns x z s :
    Invokes (NewUpdateAction gvr ns x) z s = found (api_update gvr ns (objName x) [] x s);
  fs_updatesub gvr ns sub x z s :
    Invokes (NewUpdateSubresourceAction gvr sub ns x) z s =
    found (api_update gvr ns (objName x) [sub] x s);
  fs_patch gvr ns n pt d subs z s :
    Invokes (NewPatchSubresourceAction gvr ns n pt d subs) z s =
    found (api_patch gvr ns n pt d subs s);
  fs_delete gvr ns n z s : ∃ y,
    Invokes (NewDeleteAction gvr ns n) z s =
    ((y, (api_delete gvr ns n s).1), (api_delete gvr ns n s).2);
  fs_list gvr k ns o z s : ∃ l,
    InvokesList (NewListAction gvr k ns o) z s = found (l, s) ∧
    (∀ e, l = Bad e ↔ api_list gvr ns o s = Bad e) ∧
    (∀ x y, l = Good x → api_list gvr ns o s = Good y →
       rl_ListMeta y = rl_ListMeta x ∧
       rl_Items y = matching (default Everything (ExtractLabels o)) (rl_Items x));
  fs_deletecollection gvr ns o z s : ∃ y,
    InvokesList (NewDeleteCollectionAction gvr ns o) z s =
    ((y, (api_deletecollection gvr ns o s).1), (api_deletecollection gvr ns o s).2);
  fs_watch gvr ns o s : InvokesWatch (NewWatchAction gvr ns o) s = (api_watch gvr ns o s, s) }.

(** Two clients give the same answers: the same state and error, and the same object
    when there is no error (the typed client returns a zero object with an error, the
    fake client nil). *)
Definition same_pointer {B} (m1 m2 : M S (option B * option error)) : Prop := ∀ s,
  ∃ x y e s', m1 s = (Ret (Some x, e), s') ∧ m2 s = (Ret (y, e), s') ∧
    y = match e with None => Some x | Some _ => None end.
Record same_client (i j : ResourceInterface S A) : Prop := {
  same_create x o : same_pointer (i_Create i x o) (i_Create j x o);
  same_update x o : validSegment (objName x) = true →
    same_pointer (i_Update i x o) (i_Update j x o);
  same_delete n o s : validSegment n = true → i_Delete i n o s = i_Delete j n o s;
  same_deletecollection o lo s : i_DeleteCollection i o lo s = i_DeleteCollection j o lo s;
  same_get n o : validSegment n = true → same_pointer (i_Get i n o) (i_Get j n o);
  same_list o : same_pointer (i_List i o) (i_List j o);
  same_watch o s : i_Watch i o s = i_Watch j o s;
  same_patch n pt d o subs : validSegment n = true →
    same_pointer (i_Patch i n pt d o subs) (i_Patch j n pt d o subs) }.
End serves.

(** ** Typed and fake clients agree *)

Section equivalence.
Context {RT : RestTypes} {S A : Type} (objName : A → string) (zero : A).
Context `{!ApiStore S A, !Transport S A, !Fake S A}.
Context `{!RestServes (S := S) (A := A), !FakeServes (S := S) objName}.

Lemma same_into (m : M S (A * option error)) (r : rest_Request A) a :
  (∀ s, m s = sendInto zero r s) →
  (∀ s, ∃ q, DoInto r zero s = into zero q ∧ Invokes a zero s = found q) →
  same_pointer (pointer m) (invoke zero a).
Proof.
  intros Hm H s. destruct (H s) as ([b s'] & E1 & E2).
  unfold pointer, mbind, M_bind, invoke. rewrite Hm. unfold sendInto. rewrite E1, E2.
  destruct b as [b|e]; simpl; by eexists _, _, _, _.
Qed.
Lemma same_intoList (m : M S (ResourceList A * option error)) (r : rest_Request A) gvr k ns o :
  (∀ s, m s = sendIntoList r s) →
  (∀ s z, DoIntoList r z s = into z (api_list gvr ns o s, s)) →
  same_pointer (pointer m) (invokeList (NewListAction gvr k ns o) o).
Proof.
  intros Hm E1 s. unfold pointer, mbind, M_bind, invokeList. rewrite Hm. unfold sendIntoList.
  destruct (fs_list objName gvr k ns o (mkList "" []) s) as (l & E & Hb & Hg).
  rewrite E, (E1 s). destruct l as [x|e]; simpl.
  - destruct (api_list gvr ns o s) as [y|e] eqn:Ea; simpl.
    + destruct (Hg x y eq_refl eq_refl) as [Hm' Hi].
      eexists _, _, _, _. split; [reflexivity|]. split; [reflexivity|]. simpl.
      destruct y as [my iy]. simpl in Hm', Hi. by subst.
    + by destruct (Hb e) as [_ Hb']; specialize (Hb' eq_refl).
  - destruct (Hb e) as [Hb' _]. rewrite (Hb' eq_refl). simpl. by eexists _, _, _, _.
Qed.

Lemma same_error (m : M S (option error)) (r : rest_Request A) gvr ns n :
  (∀ s, m s = sendError r s) →
  (∀ s, DoError r s = api_delete gvr ns n s) →
  ∀ s, m s = invokeErr zero (NewDeleteAction gvr ns n) s.
Proof.
  intros Hm E1 s. rewrite Hm. unfold sendError, invokeErr.
  destruct (fs_delete objName gvr ns n zero s) as (y & ->). rewrite E1.
  by destruct (api_delete _ _ _ _).
Qed.
Lemma same_errorList (m : M S (option error)) (r : rest_Request A) gvr ns o :
  (∀ s, m s = sendError r s) →
  (∀ s, DoError r s = api_deletecollection gvr ns o s) →
  ∀ s, m s = invokeListErr (NewDeleteCollectionAction gvr ns o) s.
Proof.
  intros Hm E1 s. rewrite Hm. unfold sendError, invokeListErr.
  destruct (fs_deletecollection objName gvr ns o (mkList "" []) s) as (y & ->). rewrite E1.
  by destruct (api_deletecollection _ _ _ _).
Qed.
Lemma same_watcher (m : M S (res Watcher)) (r : rest_Request A) gvr ns o :
  (∀ s, m s = sendWatch r s) →
  (∀ s, DoWatch r s = (api_watch gvr ns o s, s)) →
  ∀ s, m s = invokeWatch (NewWatchAction gvr ns o) s.
Proof.
  intros Hm E1 s. rewrite Hm. unfold sendWatch, invokeWatch.
  by rewrite E1, (fs_watch objName).
Qed.

(** The request of a generated method has the shape of the law [rs], the action of its
    fake that of [fs]. *)
Ltac same_by rs fs :=
  eapply same_into; [reflexivity|]; intros ?; eexists; split; [by apply rs|apply fs].
Ltac same_methods :=
  split; intros;
  [ same_by rs_create (fs_create objName)
  | same_by rs_update (fs_update objName)
  | eapply same_error; [reflexivity|]; intros ?; by apply rs_delete
  | eapply same_errorList; [reflexivity|]; intros ?; apply rs_deletecollection
  | same_by rs_get (fs_get objName)
  | eapply same_intoList; [reflexivity|]; intros ? ?; apply rs_list
  | eapply same_watcher; [reflexivity|]; intros ?; apply rs_watch
  | same_by rs_patch (fs_patch objName) ].

End equivalence.

(** ** The typed clients implement the client contract *)

Section refinement.
Context {RT : RestTypes} {S A : Type} (objName : A → string) (zero : A).
Context `{!ApiStore S A, !Transport S A, !RestServes (S := S) (A := A)}.
Context (go : GetOptions) (co : CreateOptions) (uo : UpdateOptions).

(** The store of one resource: reads return what was written last. *)
Class ApiStoreLaws (gvr : GroupVersionResource) : Prop := {
  as_get_name ns n s x : api_get gvr ns n s = Good x → objName x = n;
  as_create ns x s y s' : api_create gvr ns x s = (Good y, s') →
    validSegment (objName x) = true ∧ api_get gvr ns (objName x) s' = Good x ∧
    ∀ ns' n, (ns', n) ≠ (ns, objName x) → api_get gvr ns' n s' = api_get gvr ns' n s;
  as_update ns n x s y s' : api_update gvr ns n [] x s = (Good y, s') → objName x = n →
    api_get gvr ns n s' = Good x ∧
    ∀ ns' n', (ns', n') ≠ (ns, n) → api_get gvr ns' n' s' = api_get gvr ns' n' s;
  as_create_refused ns x s e s' : api_create gvr ns x s = (Bad e, s') → s' = s;
  as_update_refused ns n x s e s' : api_update gvr ns n [] x s = (Bad e, s') → s' = s }.

(** What a caller of the interface sees: the object, or the error. *)
Definition read_of (m : M S (option A * option error)) (s : S) : res A :=
  match (m s).1 with
  | Ret (Some x, None) => Good x
  | Ret (_, Some e) => Bad e
  | _ => Bad (errNew nil_dereference)
  end.
Definition write_of (m : M S (option A * option error)) (s : S) : option error * S :=
  match m s with
  | (Ret (_, e), s') => (e, s')
  | (Panic why, s') => (Some (errNew why), s')
  end.
(** A namespaced and a cluster-wide client as a [ResClient]; the latter has the empty
    namespace only. *)
Definition namespaced (i : string → ResourceInterface S A) : ResClient S A :=
  mkClient (λ s ns n, read_of (i_Get (i ns) n go) s)
           (λ s ns x, write_of (i_Create (i ns) x co) s)
           (λ s ns x, write_of (i_Update (i ns) x uo) s).
Definition noNamespace : error := errNew "the resource is cluster-wide".
Definition clusterwide (i : ResourceInterface S A) : ResClient S A :=
  mkClient (λ s ns n, if bool_decide (ns = "") then read_of (i_Get i n go) s else Bad noNamespace)
           (λ s ns x, if bool_decide (ns = "") then write_of (i_Create i x co) s
                      else (Some noNamespace, s))
           (λ s ns x, if bool_decide (ns = "") then write_of (i_Update i x uo) s
                      else (Some noNamespace, s)).

Lemma read_into (m : M S (A * option error)) r s v s' :
  m s = sendInto zero r s → DoInto r zero s = into zero (v, s') → read_of (pointer m) s = v.
Proof.
  intros Hm E. unfold read_of, pointer, mbind, M_bind. rewrite Hm. unfold sendInto. rewrite E.
  by destruct v.
Qed.
Lemma write_into (m : M S (A * option error)) r s q :
  m s = sendInto zero r s → DoInto r zero s = into zero q →
  write_of (pointer m) s = (match q.1 with Good _ => None | Bad e => Some e end, q.2).
Proof.
  intros Hm E. unfold write_of, pointer, mbind, M_bind. rewrite Hm. unfold sendInto. rewrite E.
  by destruct q as [[x|e] s'].
Qed.

(** What the three operations do to the store: a read of a valid name, a write, or a
    refusal by client-go; [ok] are the namespaces the client accepts. *)
Record addresses (gvr : GroupVersionResource) (ok : string → Prop) (k : ResClient S A)
    : Prop := {
  ad_get ns n : (ok ns ∧ validSegment n = true ∧ ∀ s, rc_get k s ns n = api_get gvr ns n s) ∨
    ((¬ ok ns ∨ validSegment n = false) ∧ ∃ e, ∀ s, rc_get k s ns n = Bad e);
  ad_create s ns x : (∃ e, rc_create k s ns x = (Some e, s)) ∨
    ok ns ∧ rc_create k s ns x =
      (match (api_create gvr ns x s).1 with Good _ => None | Bad e => Some e end,
       (api_create gvr ns x s).2);
  ad_update s ns x : (∃ e, rc_update k s ns x = (Some e, s)) ∨
    ok ns ∧ validSegment (objName x) = true ∧ rc_update k s ns x =
      (match (api_update gvr ns (objName x) [] x s).1 with Good _ => None | Bad e => Some e end,
       (api_update gvr ns (objName x) [] x s).2) }.

Lemma addresses_write gvr ok k s s' ns n x :
  addresses gvr ok k → ok ns → validSegment (objName x) = true →
  api_get gvr ns (objName x) s' = Good x ∧
  (∀ ns' n, (ns', n) ≠ (ns, objName x) → api_get gvr ns' n s' = api_get gvr ns' n s) →
  rc_get k s' ns (objName x) = Good x ∧
  ((∀ ns', (ns', n) ≠ (ns, objName x) → rc_get k s' ns' n = rc_get k s ns' n)).
Proof.
  intros Ha Hok Hv [Hg Ho]. split.
  - destruct (ad_get _ _ _ Ha ns (objName x)) as [(_ & _ & E)|[[?|?] _]]; [by rewrite E|done|congruence].
  - intros ns' Hne. destruct (ad_get _ _ _ Ha ns' n) as [(_ & _ & E)|(_ & e & E)]; rewrite !E; auto.
Qed.
Lemma addresses_laws gvr ok k : ApiStoreLaws gvr → addresses gvr ok k → ResClientLaws objName k.
Proof.
  intros Hs Ha.
  assert (∀ s ns x s', rc_create k s ns x = (None, s') → ok ns ∧ validSegment (objName x) = true ∧
    api_get gvr ns (objName x) s' = Good x ∧
    ∀ ns' n, (ns', n) ≠ (ns, objName x) → api_get gvr ns' n s' = api_get gvr ns' n s) as Hc.
  { intros s ns x s' E. destruct (ad_create _ _ _ Ha s ns x) as [[e E']|[Hok E']]; [congruence|].
    rewrite E' in E. destruct (api_create gvr ns x s) as [[y|e] s1] eqn:Ec; simplify_eq/=.
    apply as_create in Ec. naive_solver. }
  assert (∀ s ns x s', rc_update k s ns x = (None, s') → ok ns ∧ validSegment (objName x) = true ∧
    api_get gvr ns (objName x) s' = Good x ∧
    ∀ ns' n, (ns', n) ≠ (ns, objName x) → api_get gvr ns' n s' = api_get gvr ns' n s) as Hu.
  { intros s ns x s' E. destruct (ad_update _ _ _ Ha s ns x) as [[e E']|(Hok & Hv & E')]; [congruence|].
    rewrite E' in E. destruct (api_update gvr ns (objName x) [] x s) as [[y|e] s1] eqn:Ec; simplify_eq/=.
    apply as_update in Ec; [|done]. naive_solver. }
  split.
  - intros s ns n x E. destruct (ad_get _ _ _ Ha ns n) as [(_ & _ & E')|(_ & e & E')];
      rewrite E' in E; [by eapply as_get_name|done].
  - intros s ns x s' (? & ? & ?)%Hc. by eapply (addresses_write _ _ _ s s' ns "" x).
  - intros s ns x s' (? & ? & ?)%Hu. by eapply (addresses_write _ _ _ s s' ns "" x).
  - intros s ns x s' ns' n (? & ? & ?)%Hc Hne. by eapply (addresses_write _ _ _ s s' ns n x).
  - intros s ns x s' ns' n (? & ? & ?)%Hu Hne. by eapply (addresses_write _ _ _ s s' ns n x).
  - intros s ns x e s' E. destruct (ad_create _ _ _ Ha s ns x) as [[e' E']|[_ E']]; [congruence|].
    rewrite E' in E. destruct (api_create gvr ns x s) as [[y|e1] s1] eqn:Ec; simplify_eq/=.
    by eapply as_create_refused.
  - intros s ns x e s' E. destruct (ad_update _ _ _ Ha s ns x) as [[e' E']|(_ & _ & E')]; [congruence|].
    rewrite E' in E. destruct (api_update gvr ns _ [] x s) as [[y|e1] s1] eqn:Ec; simplify_eq/=.
    by eapply as_update_refused.
Qed.

Lemma read_refused (m : M S (A * option error)) r s e :
  m s = sendInto zero r s → DoInto r zero s = (zero, Some e, s) → read_of (pointer m) s = Bad e.
Proof. intros Hm E. by apply (read_into m r s (Bad e) s). Qed.
Lemma write_refused (m : M S (A * option error)) r s e :
  m s = sendInto zero r s → DoInto r zero s = (zero, Some e, s) →
  write_of (pointer m) s = (Some e, s).
Proof. intros Hm E. by apply (write_into m r s (Bad e, s)). Qed.

Lemma states_address (c : RESTClient) :
  addresses (WithResource (rcl_GroupVersion c) "manifestintegritystates") (λ ns, ns ≠ "")
    (namespaced (ApisV1_ManifestIntegrityStates objName zero (Some (mkApisV1Client (Some c))))).
Proof.
  destruct c as [gv path]. split; simpl.
  - intros ns n. destruct (decide (ns = "")) as [->|Hns]; [right|].
    { destruct (rs_refused gv GET (Some "") "manifestintegritystates" n [] (Some (GetParams go)) 0
        None (or_intror eq_refl)) as [e He].
      split; [by left; intros H|]. exists e. intros s. by eapply read_refused; [reflexivity|apply He]. }
    assert (Some ns ≠ Some "") by congruence.
    destruct (validSegment n) eqn:Hv; [left|right].
    + split_and!; [done|done|]. intros s. eapply read_into; [reflexivity|]. by apply rs_get.
    + destruct (rs_refused gv GET (Some ns) "manifestintegritystates" n [] (Some (GetParams go)) 0
        None (or_introl Hv)) as [e He].
      split; [by right|]. exists e. intros s. by eapply read_refused; [reflexivity|apply He].
  - intros s ns x. destruct (decide (ns = "")) as [->|Hns]; [left|right].
    { destruct (rs_no_namespace gv "manifestintegritystates" (Some (CreateParams co)) 0
        (Some (ObjectBody x))) as [e He].
      exists e. by eapply write_refused; [reflexivity|apply He]. }
    split; [done|]. eapply write_into; [reflexivity|]. apply rs_create. by intros [= ->].
  - intros s ns x. destruct (decide (ns = "" ∨ validSegment (objName x) = false)) as [Hb|Hg];
      [left|right].
    { destruct (rs_refused gv PUT (Some ns) "manifestintegritystates" (objName x) []
        (Some (UpdateParams uo)) 0 (Some (ObjectBody x))) as [e He].
      { destruct Hb as [->|]; auto. }
      exists e. by eapply write_refused; [reflexivity|apply He]. }
    apply Decidable.not_or in Hg as [Hns Hv%not_false_is_true].
    split_and!; [done|done|]. eapply write_into; [reflexivity|]. apply rs_update; [done|by intros [= ->]].
Qed.
Lemma profiles_address (c : RESTClient) :
  addresses (WithResource (rcl_GroupVersion c) "manifestintegrityprofiles") (λ ns, ns = "")
    (clusterwide (pi_resource
       (ApisV1_ManifestIntegrityProfiles objName zero (Some (mkApisV1Client (Some c)))))).
Proof.
  destruct c as [gv path]. split; simpl.
  - intros ns n. case_bool_decide as Hns; [subst|by right; split; [left|exists noNamespace]].
    destruct (validSegment n) eqn:Hv; [left|right].
    + split_and!; [done|done|]. intros s. eapply read_into; [reflexivity|]. by apply rs_get.
    + destruct (rs_refused gv GET None "manifestintegrityprofiles" n [] (Some (GetParams go)) 0
        None (or_introl Hv)) as [e He].
      split; [by right|]. exists e. intros s. by eapply read_refused; [reflexivity|apply He].
  - intros s ns x. case_bool_decide as Hns; [subst; right|by left; exists noNamespace].
    split; [done|]. eapply write_into; [reflexivity|]. by apply rs_create.
  - intros s ns x. case_bool_decide as Hns; [subst|by left; exists noNamespace].
    destruct (validSegment (objName x)) eqn:Hv; [right|left].
    + split_and!; [done|done|]. eapply write_into; [reflexivity|]. by apply rs_update.
    + destruct (rs_refused gv PUT None "manifestintegrityprofiles" (objName x) []
        (Some (UpdateParams uo)) 0 (Some (ObjectBody x)) (or_introl Hv)) as [e He].
      exists e. by eapply write_refused; [reflexivity|apply He].
Qed.

(** C19. The generated clients satisfy the contract that the observer and the admission
    controller rely on.  Over an API server whose store keeps what was written, the
    typed client of integrity states (namespaced) and that of profiles (cluster-wide)
    read back accepted writes, touch no other name and change nothing when refused. *)
Theorem typed_clients_lawful (c : RESTClient) :
  ApiStoreLaws (WithResource (rcl_GroupVersion c) "manifestintegritystates") →
  ApiStoreLaws (WithResource (rcl_GroupVersion c) "manifestintegrityprofiles") →
  let typed := Some (mkApisV1Client (Some c)) in
  ResClientLaws objName (namespaced (ApisV1_ManifestIntegrityStates objName zero typed)) ∧
  ResClientLaws objName
    (clusterwide (pi_resource (ApisV1_ManifestIntegrityProfiles objName zero typed))).
Proof.
  intros Hs Hp. split.
  - by eapply addresses_laws; [|apply states_address].
  - by eapply addresses_laws; [|apply profiles_address].
Qed.
End refinement.

(** ** Configuration of the clients *)

Section config_theorems.
Context {RT : RestTypes} {D : Type} `{!ConfigLib D, !ConfigLaws D} (Codecs : Scheme).

Lemma typed_NewForConfig_gv gv c cl : typed_NewForConfig Codecs gv c = Good cl →
  ∃ r, restClient cl = Some r ∧ rcl_GroupVersion r = gv ∧ rcl_APIPath r = "/apis".
Proof.
  unfold typed_NewForConfig, setConfigDefaults. intros H.
  destruct (RESTClientFor _) as [r|e] eqn:E; [|done]. simplify_eq/=.
  exists r. split; [done|]. apply RESTClientFor_gv in E as [E1 E2].
  destruct (bool_decide _); simplify_eq/=; auto.
Qed.

(** Every client that [NewForConfig] returns, also that of the package v1alpha1,
    sends its requests to [/apis/apis.integrityshield.io/v1]; the fake client of the
    package v1alpha1 uses the version v1alpha1 instead. *)
Theorem client_group_version c cl :
  cl ∈ [mis_NewForConfig Codecs c; mip_NewForConfig Codecs c; mip_alpha_NewForConfig Codecs c] →
  (∀ e, cl ≠ Bad e) →
  ∃ client r, cl = Good client ∧ restClient client = Some r ∧
    rcl_GroupVersion r = mkGV "apis.integrityshield.io" "v1" ∧ rcl_APIPath r = "/apis" ∧
    WithResource (rcl_GroupVersion r) "manifestintegritystates" = manifestintegritystatesResource ∧
    WithResource (rcl_GroupVersion r) "manifestintegrityprofiles"
      = manifestintegrityprofilesResource ∧
    WithResource (rcl_GroupVersion r) "manifestintegrityprofiles" ≠ alpha_profilesResource.
Proof.
  intros Hin Hb. assert (∃ client, cl = Good client) as [client ->].
  { destruct cl as [client|e]; [by exists client|by destruct (Hb e)]. }
  assert (typed_NewForConfig Codecs (mkGV "apis.integrityshield.io" "v1") c = Good client) as E.
  { rewrite !elem_of_cons in Hin. destruct Hin as [H|[H|[H|H]]]; [done..|].
    by apply elem_of_nil in H. }
  apply typed_NewForConfig_gv in E as (r & Hr & Hgv & Hp).
  exists client, r. split_and!; [done|done|done|done|by rewrite Hgv|by rewrite Hgv|].
  by rewrite Hgv.
Qed.

(** Rate limits.  A configuration with a positive rate, no limiter and no positive
    burst is refused by [NewForConfig] before any client is made, and any other
    configuration is not refused for that reason; [NewForConfigOrDie] does not look at
    the burst: it returns a clientset for such a configuration whenever its two clients
    can be made. *)
Theorem clientset_burst_check c :
  let refused := cfg_RateLimiter c = None ∧ fpositive (cfg_QPS c) = true ∧ (cfg_Burst c ≤ 0)%Z in
  (refused → mis_clientset_NewForConfig Codecs c = Bad burst_required ∧
     mip_clientset_NewForConfig Codecs c = Bad burst_required) ∧
  (¬ refused → ∃ c', cfg_Burst c' = cfg_Burst c ∧ cfg_QPS c' = cfg_QPS c ∧
     (cfg_RateLimiter c' = None → fpositive (cfg_QPS c) = false) ∧
     ∀ newTyped, clientset_NewForConfig newTyped c =
       match newTyped c', NewDiscoveryClientForConfig c' with
       | Good t, Good d => Good (mkClientset d t)
       | Bad e, _ | Good _, Bad e => Bad e
       end) ∧
  (∀ (S : Type) (s : S) t d, mis_NewForConfig Codecs c = Good t →
     NewDiscoveryClientForConfig c = Good d →
     runs (mis_clientset_NewForConfigOrDie Codecs c) s (λ cs s', cs = mkClientset d t ∧ s' = s)).
Proof.
  intros refused. split_and!.
  - intros (Hr & Hq & Hb). unfold mis_clientset_NewForConfig, mip_clientset_NewForConfig,
      clientset_NewForConfig, withRateLimiter.
    rewrite bool_decide_eq_true_2 by done. apply Z.leb_le in Hb. by rewrite Hb.
  - intros Hn. unfold clientset_NewForConfig, withRateLimiter. case_bool_decide as Hc.
    + destruct Hc as [Hr Hq]. destruct (cfg_Burst c <=? 0)%Z eqn:Hb.
      { destruct Hn. split_and!; [done|done|]. by apply Z.leb_le. }
      exists (set_RateLimiter (NewTokenBucketRateLimiter (cfg_QPS c) (cfg_Burst c)) c).
      split_and!; [done|done|done|]. intros newTyped. destruct (newTyped _); [|done].
      by destruct (NewDiscoveryClientForConfig _).
    + exists c. split_and!; [done|done| |].
      { intros Hr. destruct (fpositive _) eqn:E; [|done]. by destruct Hc. }
      intros newTyped. destruct (newTyped _); [|done]. by destruct (NewDiscoveryClientForConfig _).
  - intros S s t d Ht Hd. unfold mis_clientset_NewForConfigOrDie, mis_NewForConfigOrDie.
    rewrite Ht, Hd. by eexists _, _.
Qed.
End config_theorems.

(** ** A concrete server *)

Module RestDemo.
#[export] Instance types : RestTypes := {|
  GetOptions := unit; ListRest := option string; CreateOptions := unit; UpdateOptions := unit;
  DeleteOptions := unit; PatchOptions := unit; Watcher := unit; LabelSelectors := string;
  RateLimiter := Z; float32 := Z |}.
(** An object is a name and a label; the store is keyed by version and resource,
    namespace and name. *)
Definition obj : Type := string * string.
Abbreviation store := (gmap (string * (string * string)) obj).
Definition key (r : GroupVersionResource) (ns n : string) : string * (string * string) :=
  (gvr_Version r +:+ "/" +:+ gvr_Resource r, (ns, n)).
Definition missing : error := mkError NotFound "not found".
Definition exists_ : error := mkError AlreadyExists "already exists".
Definition invalid : error := errNew "invalid name".

Definition get (r : GroupVersionResource) (ns n : string) (s : store) : res obj :=
  match s !! key r ns n with
  | Some x => if bool_decide (x.1 = n) then Good x else Bad invalid
  | None => Bad missing
  end.
Definition create (r : GroupVersionResource) (ns : string) (x : obj) (s : store)
    : res obj * store :=
  if bool_decide (x.1 = "") then (Bad invalid, s)
  else match s !! key r ns x.1 with
       | Some _ => (Bad exists_, s)
       | None => (Good x, <[key r ns x.1 := x]> s)
       end.
Definition update (r : GroupVersionResource) (ns n : string) (sub : list string) (x : obj)
    (s : store) : res obj * store :=
  match s !! key r ns n with
  | None => (Bad missing, s)
  | Some _ => match sub with
              | [] => (Good x, <[key r ns n := x]> s)
              | _ => (Bad missing, s)
              end
  end.
Definition remove (r : GroupVersionResource) (ns n : string) (s : store) : option error * store :=
  match s !! key r ns n with None => (Some missing, s) | Some _ => (None, delete (key r ns n) s) end.
Definition items (s : store) : list obj := snd <$> map_to_list s.

#[export] Instance fake : Fake store obj := {|
  Invokes a z s := match a with
    | NewGetAction r ns n => found (get r ns n s, s)
    | NewCreateAction r ns x => found (create r ns x s)
    | NewUpdateAction r ns x => found (update r ns x.1 [] x s)
    | NewUpdateSubresourceAction r sub ns x => found (update r ns x.1 [sub] x s)
    | NewDeleteAction r ns n => let '(e, s') := remove r ns n s in ((None, e), s')
    | NewPatchSubresourceAction r ns n _ _ _ => found (get r ns n s, s)
    | _ => ((None, Some invalid), s)
    end;
  InvokesList a z s := match a with
    | NewListAction r _ ns o => found (Good (mkList "" (items s)), s)
    | NewDeleteCollectionAction r ns o => ((None, None), ∅)
    | _ => ((None, Some invalid), s)
    end;
  InvokesWatch a s := (Good tt, s);
  ExtractLabels o := lo_rest o;
  Everything := "";
  LabelMatches l x := bool_decide (l = "" ∨ l = x.2) |}.
#[export] Instance api : ApiStore store obj := {|
  api_get := get;
  api_list r ns o s := Good (mkList "" (matching (default "" (lo_rest o)) (items s)));
  api_watch _ _ _ _ := Good tt;
  api_create := create;
  api_update := update;
  api_delete := remove;
  api_deletecollection _ _ _ _ := (None, ∅);
  api_patch r ns n _ _ _ s := (get r ns n s, s);
  validSegment n := bool_decide (n ≠ "") |}.
Definition badAddress (r : rest_Request obj) : bool :=
  match r_name r, r_verb r with
  | Some n, _ => bool_decide (n = "" ∨ r_namespace r = Some "")
  | None, POST => bool_decide (r_namespace r = Some "")
  | None, _ => false
  end.
#[export] Instance transport : Transport store obj := {|
  DoInto r z s :=
    let gvr := WithResource (r_gv r) (r_resource r) in
    let ns := default "" (r_namespace r) in
    if badAddress r then (z, Some invalid, s)
    else match r_verb r, r_name r, r_body r with
         | GET, Some n, _ => into z (get gvr ns n s, s)
         | POST, None, Some (ObjectBody x) => into z (create gvr ns x s)
         | PUT, Some n, Some (ObjectBody x) => into z (update gvr ns n (r_sub r) x s)
         | PATCH _, Some n, _ => into z (get gvr ns n s, s)
         | _, _, _ => (z, Some invalid, s)
         end;
  DoIntoList r z s := match r_params r with
    | Some (ListParams o) => (mkList "" (matching (default "" (lo_rest o)) (items s)), None, s)
    | _ => (z, Some invalid, s)
    end;
  DoError r s :=
    let gvr := WithResource (r_gv r) (r_resource r) in
    match r_name r with
    | Some n => remove gvr (default "" (r_namespace r)) n s
    | None => (None, ∅)
    end;
  DoWatch r s := (Good tt, s) |}.

Lemma named_ok n nso : bool_decide (n ≠ "") = true → nso ≠ Some "" →
  bool_decide (n = "" ∨ nso = Some "") = false.
Proof. intros ?%bool_decide_eq_true Hn. apply bool_decide_eq_false. naive_solver. Qed.
#[export] Instance rest_serves : RestServes (S := store) (A := obj).
Proof.
  split; intros; cbn -[bool_decide]; unfold badAddress; cbn -[bool_decide];
    rewrite ?named_ok by done; try done.
  - by rewrite bool_decide_eq_false_2.
  - exists invalid. intros z s. cbn -[bool_decide]. unfold badAddress. cbn -[bool_decide].
    rewrite bool_decide_eq_true_2; [done|]. destruct H as [H|H]; [left|by right].
    apply bool_decide_eq_false in H. by apply dec_stable.
  - by exists invalid.
Qed.
#[export] Instance fake_serves : FakeServes (S := store) (fst : obj → string).
Proof.
  split; intros; try done.
  - exists None. cbn. by destruct (remove gvr ns n s).
  - exists (Good (mkList "" (items s))). split_and!; [done|done|].
    intros x y [= <-] [= <-]. done.
  - by exists None.
Qed.
Lemma key_inj r ns n ns' n' : key r ns n = key r ns' n' → (ns, n) = (ns', n').
Proof. unfold key. congruence. Qed.
#[export] Instance store_laws r : ApiStoreLaws (S := store) (fst : obj → string) r.
Proof.
  split; cbn -[bool_decide]; unfold get, create, update.
  - intros ns n s x. destruct (s !! _) as [y|]; [|done]. case_bool_decide; [|done]. naive_solver.
  - intros ns x s y s'. case_bool_decide as Hx; [done|]. destruct (s !! _); [done|].
    intros [= <- <-]. split; [by apply bool_decide_eq_true|]. rewrite lookup_insert_eq.
    rewrite bool_decide_eq_true_2 by done. split; [done|]. intros ns' n Hne.
    rewrite lookup_insert_ne; [done|]. intros ?%key_inj. congruence.
  - intros ns n x s y s'. destruct (s !! _); [|done]. intros [= <- <-] <-.
    rewrite lookup_insert_eq, bool_decide_eq_true_2 by done. split; [done|]. intros ns' n Hne.
    rewrite lookup_insert_ne; [done|]. intros ?%key_inj. congruence.
  - intros ns x s e s'. case_bool_decide; [naive_solver|]. destruct (s !! _); naive_solver.
  - intros ns n x s e s'. destruct (s !! _); naive_solver.
Qed.

Definition client : RESTClient := mkRESTClient (mkGV "apis.integrityshield.io" "v1") "/apis".
Definition typed : option ApisV1Client := Some (mkApisV1Client (Some client)).
Definition states (ns : string) : ResourceInterface store obj :=
  ApisV1_ManifestIntegrityStates fst ("", "") typed ns.

Lemma typed_clients_lawful_witness :
  ResClientLaws fst (namespaced tt tt tt states) ∧
  (rc_create (namespaced tt tt tt states) ∅ "is" ("c", "l")).1 = None.
Proof.
  split; [|vm_compute; reflexivity].
  apply (typed_clients_lawful (RT := types) (S := store) (A := obj) fst ("", "") tt tt tt client); apply store_laws.
Defined.

#[export] Instance config_lib : ConfigLib (RT := types) unit := {|
  RESTClientFor c := match cfg_GroupVersion c with
    | Some gv => Good (mkRESTClient gv (cfg_APIPath c))
    | None => Bad (errNew "GroupVersion is required when initializing a RESTClient")
    end;
  NewDiscoveryClientForConfig _ := Good tt;
  NewDiscoveryClient _ := tt;
  DefaultKubernetesUserAgent := "shield";
  NewTokenBucketRateLimiter q _ := q;
  fpositive q := (0 <? q)%Z |}.
#[export] Instance config_laws : ConfigLaws (RT := types) unit.
Proof. split. intros c r. cbn. destruct (cfg_GroupVersion c); naive_solver. Qed.
Definition config : rest_Config (RT := types) :=
  mkConfig (RT := types) None "" None "" 5%Z 0 None "https://kubernetes".
Lemma client_group_version_witness : ∃ cl r,
  mip_alpha_NewForConfig (D := unit) [] config = Good cl ∧ restClient cl = Some r ∧
  gv_Version (rcl_GroupVersion r) = "v1".
Proof.
  destruct (client_group_version (D := unit) [] config (mip_alpha_NewForConfig (D := unit) [] config))
    as (cl & r & H1 & H2 & H3 & _); [set_solver|by vm_compute|].
  exists cl, r. rewrite H3. split; [exact H1|]. split; [exact H2|reflexivity].
Defined.
Lemma clientset_burst_check_witness :
  mis_clientset_NewForConfig (D := unit) [] config = Bad burst_required ∧
  mip_clientset_NewForConfig (D := unit) [] config = Bad burst_required.
Proof.
  apply (clientset_burst_check (D := unit) [] config).
  split; [reflexivity|]. split; [reflexivity|]. cbn. lia.
Defined.
End RestDemo.
