(* ===== verification/FakeClientset.v ===== *)
(** * The generated fake clientsets

    [clientset/versioned/fake] of the observer and of the admission controller
    ([clientset_generated.go], [register.go]) and the fake group clients
    ([typed/*/fake/fake_*_client.go]): [NewSimpleClientset] fills an object tracker
    with the given objects and answers every action from it.  The tracker, its
    reaction and the dispatch of actions to reactors belong to
    [k8s.io/client-go/testing] and are parameters ([TestingLib]) with their
    documented behaviour ([TestingLaws]).  The state [S] is the tracker. *)
From S2P Require Import Prelude GoStrings World RestClients.
From stdpp Require Import base gmap strings list.
From Stdlib Require Import ZArith Lia.

Local Open Scope string_scope.

Section testing.
Context {RT : RestTypes} (S A : Type).

(** [ReactionFunc] and [WatchReactionFunc]: handled, result, error. *)
Definition Reaction (B : Type) : Type := Action A → S → (bool * (option B * option error)) * S.

(** [testing.Fake] is [FakeT]; the reaction of a reactor is given at the types of
    objects and of lists. *)
Class TestingLib := {
  FakeT : Type;
  Fake_zero : FakeT;
  AddReactor : string → string → Reaction A → Reaction (ResourceList A) → FakeT → FakeT;
  AddWatchReactor : string → Reaction Watcher → FakeT → FakeT;
  fake_Invokes : FakeT → Action A → A → S → (option A * option error) * S;
  fake_InvokesList : FakeT → Action A → ResourceList A → S →
                     (option (ResourceList A) * option error) * S;
  fake_InvokesWatch : FakeT → Action A → S → res Watcher * S;
  NewObjectTracker : Scheme → S;
  tracker_Add : A → S → option error * S;
  tracker_get : GroupVersionResource → string → string → S → res A;
  tracker_Watch : GroupVersionResource → string → S → res Watcher * S;
  ObjectReaction : Reaction A;                     (* testing.ObjectReaction(o) *)
  ObjectReaction_list : Reaction (ResourceList A);
  ExtractFromListOptions : ListOptions → option LabelSelectors;
  labels_Everything : LabelSelectors;
  labels_Matches : LabelSelectors → A → bool }.
End testing.
Arguments Reaction {RT S A} B.
Arguments FakeT {RT S A TestingLib}.
Arguments Fake_zero {RT S A TestingLib}.
Arguments AddReactor {RT S A TestingLib}.
Arguments AddWatchReactor {RT S A TestingLib}.
Arguments fake_Invokes {RT S A TestingLib}.
Arguments fake_InvokesList {RT S A TestingLib}.
Arguments fake_InvokesWatch {RT S A TestingLib}.
Arguments NewObjectTracker {RT S A TestingLib}.
Arguments tracker_get {RT S A TestingLib}.
Arguments tracker_Add {RT S A TestingLib}.
Arguments tracker_Watch {RT S A TestingLib}.
Arguments ObjectReaction {RT S A TestingLib}.
Arguments ObjectReaction_list {RT S A TestingLib}.
Arguments ExtractFromListOptions {RT S A TestingLib}.
Arguments labels_Everything {RT S A TestingLib}.
Arguments labels_Matches {RT S A TestingLib}.

(** [GetResource] and [GetNamespace] of an action. *)
Definition action_Resource {RT : RestTypes} {A} (a : Action A) : GroupVersionResource :=
  match a with
  | NewGetAction r _ _ | NewListAction r _ _ _ | NewWatchAction r _ _
  | NewCreateAction r _ _ | NewUpdateAction r _ _ | NewUpdateSubresourceAction r _ _ _
  | NewDeleteAction r _ _ | NewDeleteCollectionAction r _ _
  | NewPatchSubresourceAction r _ _ _ _ _ => r
  end.
Definition action_Namespace {RT : RestTypes} {A} (a : Action A) : string :=
  match a with
  | NewGetAction _ ns _ | NewListAction _ _ ns _ | NewWatchAction _ ns _
  | NewCreateAction _ ns _ | NewUpdateAction _ ns _ | NewUpdateSubresourceAction _ _ ns _
  | NewDeleteAction _ ns _ | NewDeleteCollectionAction _ ns _
  | NewPatchSubresourceAction _ ns _ _ _ _ => ns
  end.

(** ** Clientsets *)

Section clientset.
Context {RT : RestTypes} {S A : Type} `{!TestingLib S A} `{!SchemeLib}.
Context (zero : A).

(** The discovery client holds a pointer to the embedded [Fake], the tracker is the
    state. *)
Record FakeClientset := mkFakeClientset { fc_Fake : FakeT (S := S) (A := A) }.
Definition fake_Discovery (c : FakeClientset) : FakeT := fc_Fake c.
Definition fake_Tracker (c : FakeClientset) : M S S := getW.

(** [init] of [register.go], as in the scheme packages of the clientsets. *)
Definition mis_fake_init : M Scheme unit := scheme_init mis_addKnownTypes.
Definition mip_fake_init : M Scheme unit := scheme_init mip_addKnownTypes.

Definition addObject (obj : A) : M S unit :=
  err ← (λ s, let '(e, s') := tracker_Add obj s in (Ret e, s'));
  match err with
  | Some e => panic (Error e)
  | None => mret tt
  end.
Definition watchReaction : Reaction (S := S) (A := A) Watcher := λ action s,
  let gvr := action_Resource action in
  let ns := action_Namespace action in
  match tracker_Watch gvr ns s with
  | (Bad err, s') => ((false, (None, Some err)), s')
  | (Good watch, s') => ((true, (Some watch, None)), s')
  end.
Definition NewSimpleClientset (scheme : Scheme) (objects : list A) : M S FakeClientset :=
  putW (NewObjectTracker scheme);;
  forM objects addObject;;
  let cs := Fake_zero in
  let cs := AddReactor "*" "*" ObjectReaction ObjectReaction_list cs in
  let cs := AddWatchReactor "*" watchReaction cs in
  mret (mkFakeClientset cs).
(** The same text in the package of the admission controller. *)
Definition mip_NewSimpleClientset (scheme : Scheme) (objects : list A) : M S FakeClientset :=
  NewSimpleClientset scheme objects.

(** The group clients share the clientset's [Fake]. *)
#[local] Instance fakeOf (f : FakeT (S := S) (A := A)) : Fake S A := {|
  Invokes := fake_Invokes f;
  InvokesList := fake_InvokesList f;
  InvokesWatch := fake_InvokesWatch f;
  ExtractLabels := ExtractFromListOptions (S := S) (A := A);
  Everything := labels_Everything (S := S) (A := A);
  LabelMatches := labels_Matches |}.
Record FakeApis := mkFakeApis { fa_Fake : FakeT (S := S) (A := A) }.
Definition mis_fake_ApisV1 (c : FakeClientset) : FakeApis := mkFakeApis (fc_Fake c).
Definition mip_fake_ApisV1 (c : FakeClientset) : FakeApis := mkFakeApis (fc_Fake c).
Definition FakeApisV1_ManifestIntegrityStates (c : FakeApis) (namespace : string)
    : ResourceInterface S A :=
  FakeManifestIntegrityStates (Fake0 := fakeOf (fa_Fake c)) zero namespace.
Definition FakeApisV1_ManifestIntegrityProfiles (c : FakeApis) : ProfileInterface S A :=
  FakeManifestIntegrityProfiles (Fake0 := fakeOf (fa_Fake c)) zero.
Definition FakeApisV1alpha1_ManifestIntegrityProfiles (c : FakeApis) : ProfileInterface S A :=
  FakeAlphaProfiles (Fake0 := fakeOf (fa_Fake c)) zero.
(** A nil pointer: a request built on it panics. *)
Definition mis_fake_RESTClient (c : FakeApis) : option RESTClient := None.
Definition mip_fake_RESTClient (c : FakeApis) : option RESTClient := None.
Definition alpha_fake_RESTClient (c : FakeApis) : option RESTClient := None.
End clientset.

(** ** The contract of the testing library *)

Section laws.
Context {RT : RestTypes} {S A : Type} `{!TestingLib S A}.
(* resource, namespace and name under which the tracker keeps an object *)
Context (resourceOf : A → GroupVersionResource) (namespaceOf nameOf : A → string).

Definition addressOf (x : A) : GroupVersionResource * string * string :=
  (resourceOf x, namespaceOf x, nameOf x).

(** A fake whose only reactors match everything answers with what they handle; the
    tracker starts empty, refuses a second object of an address and answers reads. *)
Class TestingLaws : Prop := {
  only_reactor f fl g a z s x s' :
    f a s = ((true, x), s') →
    fake_Invokes (AddWatchReactor "*" g (AddReactor "*" "*" f fl Fake_zero)) a z s = (x, s');
  only_watch_reactor f fl g a s x s' :
    g a s = ((true, (Some x, None)), s') →
    fake_InvokesWatch (AddWatchReactor "*" g (AddReactor "*" "*" f fl Fake_zero)) a s
    = (Good x, s');
  tracker_empty scheme r ns n : ∃ e, tracker_get r ns n (NewObjectTracker scheme) = Bad e;
  tracker_add_free x s e :
    tracker_get (resourceOf x) (namespaceOf x) (nameOf x) s = Bad e →
    ∃ s', tracker_Add x s = (None, s')
      ∧ tracker_get (resourceOf x) (namespaceOf x) (nameOf x) s' = Good x
      ∧ ∀ r ns n, (r, ns, n) ≠ addressOf x → tracker_get r ns n s' = tracker_get r ns n s;
  tracker_add_taken x s y :
    tracker_get (resourceOf x) (namespaceOf x) (nameOf x) s = Good y →
    ∃ e s', tracker_Add x s = (Some e, s');
  ObjectReaction_get r ns n s :
    ObjectReaction (NewGetAction r ns n) s
    = ((true, match tracker_get r ns n s with
              | Good x => (Some x, None) | Bad e => (None, Some e) end), s) }.

Context `{!TestingLaws} (zero : A).

(** The tracker holds exactly the objects added so far. *)
Definition tracks (s : S) (xs : list A) : Prop :=
  (∀ x, x ∈ xs → tracker_get (resourceOf x) (namespaceOf x) (nameOf x) s = Good x)
  ∧ ∀ r ns n, (r, ns, n) ∉ (addressOf <$> xs) → ∃ e, tracker_get r ns n s = Bad e.

Lemma addObject_free x s xs :
  tracks s xs → addressOf x ∉ (addressOf <$> xs) →
  ∃ s', addObject x s = (Ret tt, s') ∧ tracks s' (x :: xs).
Proof.
  intros [Hin Hout] Hnew. destruct (Hout _ _ _ Hnew) as [e He].
  destruct (tracker_add_free x s e He) as (s' & Ha & Hget & Hother).
  exists s'. unfold addObject, mbind, M_bind. rewrite Ha. split; [done|]. split.
  - intros y [->|Hy]%elem_of_cons; [done|]. rewrite Hother; [by apply Hin|].
    intros E. destruct Hnew. change (addressOf y = addressOf x) in E. rewrite <-E.
    by apply list_elem_of_fmap_2.
  - intros r ns n Hn. rewrite fmap_cons, not_elem_of_cons in Hn. destruct Hn as [Hne Hn].
    rewrite Hother by done. by apply Hout.
Qed.
Lemma addObject_taken x s xs :
  tracks s xs → addressOf x ∈ (addressOf <$> xs) →
  ∃ e s', addObject x s = (Panic e, s').
Proof.
  intros [Hin _] (y & Hxy & Hy)%list_elem_of_fmap. apply Hin in Hy.
  unfold addressOf in Hxy. injection Hxy as E1 E2 E3. rewrite <-E1, <-E2, <-E3 in Hy.
  destruct (tracker_add_taken x s y Hy) as (e & s' & Ha).
  exists (Error e), s'. unfold addObject, mbind, M_bind. by rewrite Ha.
Qed.

Lemma addObjects_free objects s xs :
  tracks s xs → NoDup (addressOf <$> (reverse objects ++ xs)%list) →
  ∃ s', forM objects addObject s = (Ret tt, s') ∧ tracks s' (reverse objects ++ xs)%list.
Proof.
  revert s xs. induction objects as [|x objects IH]; intros s xs Ht Hnd; simpl.
  { by exists s. }
  rewrite reverse_cons, <-(assoc_L (++)) in Hnd |- *. simpl in Hnd |- *.
  destruct (addObject_free x s xs Ht) as (s1 & E1 & Ht1).
  { rewrite fmap_app, NoDup_app in Hnd. destruct Hnd as (_ & _ & Hnd).
    rewrite fmap_cons, NoDup_cons in Hnd. apply Hnd. }
  destruct (IH s1 (x :: xs) Ht1 Hnd) as (s' & E & Ht').
  exists s'. by rewrite (M_bind_Ret _ _ _ _ _ E1).
Qed.
Lemma addObjects_taken objects s xs :
  tracks s xs → NoDup (addressOf <$> xs) → ¬ NoDup (addressOf <$> (reverse objects ++ xs)%list) →
  ∃ e s', forM objects addObject s = (Panic e, s').
Proof.
  revert s xs. induction objects as [|x objects IH]; intros s xs Ht Hd Hnd; simpl; [done|].
  rewrite reverse_cons, <-(assoc_L (++)) in Hnd. simpl in Hnd.
  destruct (decide (addressOf x ∈ (addressOf <$> xs))) as [Hx|Hx].
  - destruct (addObject_taken x s xs Ht Hx) as (e & s' & E).
    exists e, s'. by apply M_bind_Panic.
  - destruct (addObject_free x s xs Ht Hx) as (s1 & E1 & Ht1).
    destruct (IH s1 (x :: xs) Ht1) as (e & s' & E); [by constructor|done|].
    exists e, s'. by rewrite (M_bind_Ret _ _ _ _ _ E1).
Qed.

Lemma NewSimpleClientset_run scheme objects s :
  NewSimpleClientset scheme objects s =
  (forM objects addObject ≫= λ _, mret (mkFakeClientset (AddWatchReactor "*" watchReaction
     (AddReactor "*" "*" ObjectReaction ObjectReaction_list Fake_zero))))
    (NewObjectTracker scheme).
Proof. reflexivity. Qed.

(** [NewSimpleClientset] returns a clientset that responds with the provided
    objects: when no two of them have the same resource, namespace and name it
    returns, the client of integrity states finds every state it was given and the
    client of profiles every profile, without changing the tracker; and when two of
    them collide it panics.  The REST client of a fake group client is nil, and
    using it panics. *)
Theorem NewSimpleClientset_responds scheme objects s :
  match decide (NoDup (addressOf <$> objects)) with
  | left _ => ∃ cs s', NewSimpleClientset scheme objects s = (Ret cs, s')
      ∧ (∀ x o, x ∈ objects → resourceOf x = manifestintegritystatesResource →
           i_Get (FakeApisV1_ManifestIntegrityStates zero (mis_fake_ApisV1 cs) (namespaceOf x))
             (nameOf x) o s' = (Ret (Some x, None), s'))
      ∧ (∀ x o, x ∈ objects → resourceOf x = manifestintegrityprofilesResource →
           namespaceOf x = "" →
           i_Get (pi_resource (FakeApisV1_ManifestIntegrityProfiles zero (mip_fake_ApisV1 cs)))
             (nameOf x) o s' = (Ret (Some x, None), s'))
      ∧ (∀ v (w : S), rest_Verb (A := A) v (mis_fake_RESTClient (mis_fake_ApisV1 cs)) w
           = (Panic nil_dereference, w))
  | right _ => ∃ e s', NewSimpleClientset scheme objects s = (Panic e, s')
  end.
Proof.
  assert (tracks (NewObjectTracker scheme) []) as Hinit.
  { split; [by intros x ?%elem_of_nil|]. intros r ns n _. apply tracker_empty. }
  assert (NoDup (addressOf <$> objects) ↔ NoDup (addressOf <$> (reverse objects ++ [])%list)) as Hrev.
  { by rewrite app_nil_r, reverse_Permutation. }
  destruct (decide _) as [Hnd|Hnd].
  - destruct (addObjects_free objects _ [] Hinit (proj1 Hrev Hnd)) as (s' & E & [Hin _]).
    rewrite app_nil_r in Hin.
    eexists _, s'. split.
    { rewrite NewSimpleClientset_run. rewrite (M_bind_Ret _ _ _ _ _ E). reflexivity. }
    split_and!.
    + intros x o Hx Hr. rewrite <-elem_of_reverse in Hx. apply Hin in Hx. rewrite Hr in Hx.
      cbn. unfold invoke. cbn. erewrite only_reactor; [|apply ObjectReaction_get].
      by rewrite Hx.
    + intros x o Hx Hr Hns. rewrite <-elem_of_reverse in Hx. apply Hin in Hx.
      rewrite Hr, Hns in Hx.
      cbn. unfold invoke. cbn. erewrite only_reactor; [|apply ObjectReaction_get].
      by rewrite Hx.
    + done.
  - destruct (addObjects_taken objects _ [] Hinit) as (e & s' & E); [by constructor|tauto|].
    exists e, s'. rewrite NewSimpleClientset_run. by apply M_bind_Panic.
Qed.
End laws.

(** ** A concrete tracker *)

Module FakeDemo.
#[local] Existing Instance RestDemo.types.
(** An object is its address; the tracker is the list of objects. *)
Abbreviation obj := (GroupVersionResource * string * string)%type.
Definition react {B} (chain : list (Reaction (S := list obj) (A := obj) B)) (a : Action obj)
    (s : list obj) : option ((option B * option error) * list obj) :=
  match chain with
  | [] => None
  | f :: _ => match f a s with
              | ((true, x), s') => Some (x, s')
              | _ => None
              end
  end.
Definition lookup (r : GroupVersionResource) (ns n : string) (s : list obj) : res obj :=
  if decide ((r, ns, n) ∈ s) then Good (r, ns, n) else Bad RestDemo.missing.
#[export] Instance testingLib : TestingLib (list obj) obj := {|
  FakeT := list (Reaction (S := list obj) (A := obj) obj) *
           list (Reaction (S := list obj) (A := obj) (ResourceList obj)) *
           list (Reaction (S := list obj) (A := obj) Watcher);
  Fake_zero := ([], [], []);
  AddReactor _ _ f fl c := ((c.1.1 ++ [f])%list, (c.1.2 ++ [fl])%list, c.2);
  AddWatchReactor _ g c := (c.1, (c.2 ++ [g])%list);
  fake_Invokes c a z s := default (Some z, None, s) (react c.1.1 a s);
  fake_InvokesList c a z s := default (Some z, None, s) (react c.1.2 a s);
  fake_InvokesWatch c a s := match react c.2 a s with
    | Some ((Some x, None), s') => (Good x, s')
    | _ => (Bad (errNew "unhandled watch"), s)
    end;
  NewObjectTracker _ := [];
  tracker_get := lookup;
  tracker_Add x s := if decide (x ∈ s) then (Some RestDemo.exists_, s) else (None, x :: s);
  tracker_Watch _ _ s := (Good tt, s);
  ObjectReaction a s := match a with
    | NewGetAction r ns n => ((true, match lookup r ns n s with
        | Good x => (Some x, None) | Bad e => (None, Some e) end), s)
    | _ => ((false, (None, None)), s)
    end;
  ObjectReaction_list _ s := ((true, (Some (mkList "" s), None)), s);
  ExtractFromListOptions _ := None;
  labels_Everything := "";
  labels_Matches _ _ := true |}.
Definition res_of (x : obj) : GroupVersionResource := x.1.1.
Definition ns_of (x : obj) : string := x.1.2.
Definition name_of (x : obj) : string := x.2.
#[export] Instance testingLaws : TestingLaws res_of ns_of name_of.
Proof.
  split; simpl.
  - intros f fl g a z s x s' H. unfold react. simpl. by rewrite H.
  - intros f fl g a s x s' H. unfold react. simpl. by rewrite H.
  - intros _ r ns n. unfold lookup. rewrite decide_False by set_solver. eauto.
  - intros [[r ns] n] s e. unfold lookup, res_of, ns_of, name_of. simpl.
    destruct (decide _) as [|Hn]; [done|]. intros _. eexists. split; [done|].
    rewrite decide_True by set_solver. split; [done|]. intros r' ns' n' Hne.
    destruct (decide _) as [[?|?]%elem_of_cons|Ho]; [done|by rewrite decide_True|].
    rewrite decide_False; [done|]. set_solver.
  - intros [[r ns] n] s y. unfold lookup, res_of, ns_of, name_of. simpl.
    destruct (decide _); [|done]. eauto.
  - done.
Qed.
Definition given : list obj :=
  [(manifestintegritystatesResource, "is", "c1"); (manifestintegrityprofilesResource, "", "p1")].
Lemma NewSimpleClientset_responds_witness :
  ∃ cs s', NewSimpleClientset [] given [] = (Ret cs, s')
    ∧ i_Get (FakeApisV1_ManifestIntegrityStates (manifestintegritystatesResource, "", "")
               (mis_fake_ApisV1 cs) "is") "c1" tt s'
      = (Ret (Some (manifestintegritystatesResource, "is", "c1"), None), s').
Proof.
  pose proof (NewSimpleClientset_responds res_of ns_of name_of
    (manifestintegritystatesResource, "", "") [] given []) as H.
  destruct (decide _) as [_|Hn] in H.
  - destruct H as (cs & s' & E & Hs & _). exists cs, s'. split; [exact E|].
    apply (Hs (manifestintegritystatesResource, "is", "c1") tt); [left|reflexivity].
  - exfalso. apply Hn. cbn. apply NoDup_cons. split; [set_solver|apply NoDup_singleton].
Defined.
End FakeDemo.
