(* ===== verification/Informers.v ===== *)
(** * The generated informers and listers

    [informers/externalversions] and [listers] of
    [observer/pkg/client/manifestintegritystate] and
    [webhook/admission-controller/pkg/client/manifestintegrityprofile].  The factory
    ([factory.go], the same text in both packages) keeps one informer per type and
    starts each of them once; its methods hold the factory's lock, so the calls of
    concurrent goroutines are a sequence of calls.  The state [FW] is the factory
    together with the informers that were made and the goroutines that were started.
    An informer is a pointer: its index in the list of those made.

    A [reflect.Type] is its name.  The order in which [range] visits the map of
    informers is a parameter of each call of [Start]. *)
From S2P Require Import Prelude GoStrings World RestClients.
From stdpp Require Import base gmap strings list.
From Stdlib Require Import ZArith Lia Ascii.

Local Open Scope string_scope.

Section factory.
Context {RT : RestTypes} {S A : Type} {Client : Type}.   (* versioned.Interface *)

Abbreviation TweakListOptionsFunc := (ListOptions → ListOptions).

(** [cache.SharedIndexInformer], as it is constructed. *)
Record SharedIndexInformer := mkInformer {
  inf_List : ListOptions → M S (option (ResourceList A) * option error);
  inf_Watch : ListOptions → M S (res Watcher);
  inf_Type : string;
  inf_resyncPeriod : Z;
  inf_indexers : list string }.

Record sharedInformerFactory := mkFactory {
  f_client : Client;
  f_namespace : string;
  f_tweakListOptions : option TweakListOptionsFunc;
  f_defaultResync : Z;
  f_customResync : gmap string Z;
  f_informers : gmap string nat;
  f_startedInformers : gmap string bool }.
Record FW := mkFW {
  fw_factory : sharedInformerFactory;
  fw_made : list SharedIndexInformer;
  fw_runs : list nat }.                           (* go informer.Run(stopCh) *)

Definition set_informer (t : string) (i : nat) (w : FW) : FW :=
  let f := fw_factory w in
  mkFW (mkFactory (f_client f) (f_namespace f) (f_tweakListOptions f) (f_defaultResync f)
          (f_customResync f) (<[t := i]> (f_informers f)) (f_startedInformers f))
    (fw_made w) (fw_runs w).
Definition set_started (t : string) (w : FW) : FW :=
  let f := fw_factory w in
  mkFW (mkFactory (f_client f) (f_namespace f) (f_tweakListOptions f) (f_defaultResync f)
          (f_customResync f) (f_informers f) (<[t := true]> (f_startedInformers f)))
    (fw_made w) (fw_runs w).
Definition go_Run (i : nat) (w : FW) : FW :=
  mkFW (fw_factory w) (fw_made w) (fw_runs w ++ [i]).
Definition NewSharedIndexInformer (x : SharedIndexInformer) : M FW nat := λ w,
  (Ret (length (fw_made w)), mkFW (fw_factory w) (fw_made w ++ [x]) (fw_runs w)).

(** ** Construction *)

Abbreviation SharedInformerOption := (sharedInformerFactory → sharedInformerFactory).
(** The map of resync periods is visited in the order of the list. *)
Definition WithCustomResyncConfig (resyncConfig : list (string * Z)) : SharedInformerOption :=
  λ f, mkFactory (f_client f) (f_namespace f) (f_tweakListOptions f) (f_defaultResync f)
         (foldl (λ m kv, <[kv.1 := kv.2]> m) (f_customResync f) resyncConfig)
         (f_informers f) (f_startedInformers f).
Definition WithTweakListOptions (tweak : option TweakListOptionsFunc) : SharedInformerOption :=
  λ f, mkFactory (f_client f) (f_namespace f) tweak (f_defaultResync f)
         (f_customResync f) (f_informers f) (f_startedInformers f).
Definition WithNamespace (namespace : string) : SharedInformerOption :=
  λ f, mkFactory (f_client f) namespace (f_tweakListOptions f) (f_defaultResync f)
         (f_customResync f) (f_informers f) (f_startedInformers f).
Definition NewSharedInformerFactoryWithOptions (client : Client) (defaultResync : Z)
    (options : list SharedInformerOption) : sharedInformerFactory :=
  let factory := mkFactory client "" None defaultResync ∅ ∅ ∅ in
  foldl (λ factory opt, opt factory) factory options.
Definition NewSharedInformerFactory (client : Client) (defaultResync : Z)
    : sharedInformerFactory := NewSharedInformerFactoryWithOptions client defaultResync [].
Definition NewFilteredSharedInformerFactory (client : Client) (defaultResync : Z)
    (namespace : string) (tweak : option TweakListOptionsFunc) : sharedInformerFactory :=
  NewSharedInformerFactoryWithOptions client defaultResync
    [WithNamespace namespace; WithTweakListOptions tweak].

(** ** Methods *)

(** An order in which the map of informers may be visited. *)
Definition visits (m : gmap string nat) : Type :=
  { l : list (string * nat) | l ≡ₚ map_to_list m }.

Definition start_one (ti : string * nat) : M FW unit :=
  w ← getW;
  if default false (f_startedInformers (fw_factory w) !! ti.1) then mret tt
  else modifyW (go_Run ti.2);; modifyW (set_started ti.1).
Definition Start (order : ∀ m, visits m) : M FW unit :=
  w ← getW;
  forM (proj1_sig (order (f_informers (fw_factory w)))) start_one.

(** [hasSynced i] is the answer of [cache.WaitForCacheSync] for the informer [i]. *)
Definition WaitForCacheSync (hasSynced : nat → bool) : M FW (gmap string bool) :=
  asksW (λ w,
    let f := fw_factory w in
    let informers := filter (λ ti, default false (f_startedInformers f !! ti.1) = true)
                       (f_informers f) in
    hasSynced <$> informers).

Definition InformerFor (informerType : string) (newFunc : Client → Z → M FW nat) : M FW nat :=
  w ← getW;
  let f := fw_factory w in
  match f_informers f !! informerType with
  | Some informer => mret informer
  | None =>
      let resyncPeriod := default (f_defaultResync f) (f_customResync f !! informerType) in
      informer ← newFunc (f_client f) resyncPeriod;
      modifyW (set_informer informerType informer);;
      mret informer
  end.
End factory.
Arguments SharedIndexInformer {RT} S A.
Arguments sharedInformerFactory {RT} Client.
Arguments FW {RT} S A Client.

(** ** The informers of the two packages *)

(** [group], [version] and the typed informers hold a pointer to the factory, here the
    state, and a namespace and list options. *)
Record access {RT : RestTypes} := mkAccess {
  ac_namespace : string; ac_tweakListOptions : option (ListOptions → ListOptions) }.
Arguments mkAccess {RT}.
Record genericInformer := mkGeneric { gi_informer : nat; gi_resource : GroupResource }.
(** [cache.NamespaceIndex] *)
Definition NamespaceIndex : string := "namespace".
Definition tweaked {RT : RestTypes} (tweak : option (ListOptions → ListOptions))
    (options : ListOptions) : ListOptions :=
  match tweak with Some t => t options | None => options end.

Section states.
Context {RT : RestTypes} {S A : Type} (gvr_String : GroupVersionResource → string).
(** [client.ApisV1().ManifestIntegrityStates(namespace)] *)
Abbreviation Client := (string → ResourceInterface S A).
Abbreviation W := (FW S A Client).

Definition mis_Apis (f : sharedInformerFactory Client) : access :=
  mkAccess (f_namespace f) (f_tweakListOptions f).
Definition mis_V1 (g : access) : access := mkAccess (ac_namespace g) (ac_tweakListOptions g).
Definition mis_ManifestIntegrityStates (v : access) : access :=
  mkAccess (ac_namespace v) (ac_tweakListOptions v).

Definition NewFilteredManifestIntegrityStateInformer (client : Client) (namespace : string)
    (resyncPeriod : Z) (indexers : list string) (tweak : option (ListOptions → ListOptions))
    : M W nat :=
  NewSharedIndexInformer (mkInformer
    (λ options, i_List (client namespace) (tweaked tweak options))
    (λ options, i_Watch (client namespace) (tweaked tweak options))
    "*v1.ManifestIntegrityState" resyncPeriod indexers).
Definition NewManifestIntegrityStateInformer (client : Client) (namespace : string)
    (resyncPeriod : Z) (indexers : list string) : M W nat :=
  NewFilteredManifestIntegrityStateInformer client namespace resyncPeriod indexers None.
Definition mis_defaultInformer (a : access) (client : Client) (resyncPeriod : Z) : M W nat :=
  NewFilteredManifestIntegrityStateInformer client (ac_namespace a) resyncPeriod
    [NamespaceIndex] (ac_tweakListOptions a).
Definition mis_Informer (a : access) : M W nat :=
  InformerFor "*v1.ManifestIntegrityState" (mis_defaultInformer a).
(** A lister reads the indexer of its informer. *)
Definition mis_Lister (a : access) : M W nat := mis_Informer a.
Definition mis_ForResource (resource : GroupVersionResource) : M W (res genericInformer) :=
  if bool_decide (resource = WithResource mis_SchemeGroupVersion "manifestintegritystates") then
    w ← getW;
    i ← mis_Informer (mis_ManifestIntegrityStates (mis_V1 (mis_Apis (fw_factory w))));
    mret (Good (mkGeneric i (gvr_GroupResource resource)))
  else mret (Bad (errNew ("no informer found for " +:+ gvr_String resource))).
End states.

Section profiles.
Context {RT : RestTypes} {S A : Type} (gvr_String : GroupVersionResource → string).
(** [client.ApisV1().ManifestIntegrityProfiles()] *)
Abbreviation Client := (ProfileInterface S A).
Abbreviation W := (FW S A Client).

Definition mip_Apis (f : sharedInformerFactory Client) : access :=
  mkAccess (f_namespace f) (f_tweakListOptions f).
Definition mip_V1 (g : access) : access := mkAccess (ac_namespace g) (ac_tweakListOptions g).
Definition mip_ManifestIntegrityProfiles (v : access) : access :=
  mkAccess (ac_namespace v) (ac_tweakListOptions v).

Definition NewFilteredManifestIntegrityProfileInformer (client : Client)
    (resyncPeriod : Z) (indexers : list string) (tweak : option (ListOptions → ListOptions))
    : M W nat :=
  NewSharedIndexInformer (mkInformer
    (λ options, i_List (pi_resource client) (tweaked tweak options))
    (λ options, i_Watch (pi_resource client) (tweaked tweak options))
    "*v1.ManifestIntegrityProfile" resyncPeriod indexers).
Definition NewManifestIntegrityProfileInformer (client : Client)
    (resyncPeriod : Z) (indexers : list string) : M W nat :=
  NewFilteredManifestIntegrityProfileInformer client resyncPeriod indexers None.
Definition mip_defaultInformer (a : access) (client : Client) (resyncPeriod : Z) : M W nat :=
  NewFilteredManifestIntegrityProfileInformer client resyncPeriod
    [NamespaceIndex] (ac_tweakListOptions a).
Definition mip_Informer (a : access) : M W nat :=
  InformerFor "*v1.ManifestIntegrityProfile" (mip_defaultInformer a).
Definition mip_Lister (a : access) : M W nat := mip_Informer a.
Definition mip_ForResource (resource : GroupVersionResource) : M W (res genericInformer) :=
  if bool_decide (resource = WithResource mip_SchemeGroupVersion "manifestintegrityprofiles") then
    w ← getW;
    i ← mip_Informer (mip_ManifestIntegrityProfiles (mip_V1 (mip_Apis (fw_factory w))));
    mret (Good (mkGeneric i (gvr_GroupResource resource)))
  else mret (Bad (errNew ("no informer found for " +:+ gvr_String resource))).
End profiles.

(** ** The packages

    [SharedInformerFactory], the interface of a factory, and its implementation in
    each package; the text of [factory.go] is the same in both, at the client type of
    the package. *)

(** [genericInformer]'s methods; a generic lister is the indexer and the resource. *)
Definition generic_Informer (f : genericInformer) : nat := gi_informer f.
Definition generic_Lister (f : genericInformer) : nat * GroupResource :=
  (generic_Informer f, gi_resource f).

Record SharedInformerFactory {RT : RestTypes} {S A Client : Type} := mkFactoryInterface {
  if_InformerFor : string → (Client → Z → M (FW S A Client) nat) → M (FW S A Client) nat;
  if_Start : (∀ m, visits m) → M (FW S A Client) unit;
  if_WaitForCacheSync : (nat → bool) → M (FW S A Client) (gmap string bool);
  if_ForResource : GroupVersionResource → M (FW S A Client) (res genericInformer);
  if_Apis : M (FW S A Client) access }.
Arguments SharedInformerFactory {RT} S A Client.

Section packages.
Context {RT : RestTypes} {S A : Type} (gvr_String : GroupVersionResource → string).
Abbreviation StateClient := (string → ResourceInterface S A).
Abbreviation ProfileClient := (ProfileInterface S A).

Definition mis_SharedInformerFactory : SharedInformerFactory S A StateClient :=
  mkFactoryInterface _ _ _ _ InformerFor Start WaitForCacheSync (mis_ForResource gvr_String)
    (asksW (λ w, mis_Apis (fw_factory w))).

(** *** The package of the admission controller *)

Definition mip_sharedInformerFactory : Type := sharedInformerFactory ProfileClient.
Abbreviation mip_Option := (mip_sharedInformerFactory → mip_sharedInformerFactory).
Definition mip_WithCustomResyncConfig (resyncConfig : list (string * Z)) : mip_Option :=
  WithCustomResyncConfig resyncConfig.
Definition mip_WithTweakListOptions (tweak : option (ListOptions → ListOptions)) : mip_Option :=
  WithTweakListOptions tweak.
Definition mip_WithNamespace (namespace : string) : mip_Option := WithNamespace namespace.
Definition mip_NewSharedInformerFactoryWithOptions (client : ProfileClient) (defaultResync : Z)
    (options : list mip_Option) : mip_sharedInformerFactory :=
  NewSharedInformerFactoryWithOptions client defaultResync options.
Definition mip_NewSharedInformerFactory (client : ProfileClient) (defaultResync : Z)
    : mip_sharedInformerFactory :=
  mip_NewSharedInformerFactoryWithOptions client defaultResync [].
Definition mip_NewFilteredSharedInformerFactory (client : ProfileClient) (defaultResync : Z)
    (namespace : string) (tweak : option (ListOptions → ListOptions))
    : mip_sharedInformerFactory :=
  mip_NewSharedInformerFactoryWithOptions client defaultResync
    [mip_WithNamespace namespace; mip_WithTweakListOptions tweak].
Definition mip_Start (order : ∀ m, visits m) : M (FW S A ProfileClient) unit := Start order.
Definition mip_WaitForCacheSync (hasSynced : nat → bool)
    : M (FW S A ProfileClient) (gmap string bool) := WaitForCacheSync hasSynced.
Definition mip_InformerFor (informerType : string)
    (newFunc : ProfileClient → Z → M (FW S A ProfileClient) nat)
    : M (FW S A ProfileClient) nat := InformerFor informerType newFunc.
Definition mip_SharedInformerFactory : SharedInformerFactory S A ProfileClient :=
  mkFactoryInterface _ _ _ _ mip_InformerFor mip_Start mip_WaitForCacheSync
    (mip_ForResource gvr_String) (asksW (λ w, mip_Apis (fw_factory w))).
End packages.

(** ** Listers *)

(** [cache.Indexer] and the helpers of its package; [ListAll] gives the objects it
    passes to the callback. *)
Class Indexer (I Sel A : Type) := {
  GetByKey : I → string → (option A * option error);
  ListAll : I → Sel → list A * option error;
  ListAllByNamespace : I → string → Sel → list A * option error;
  NewNotFound : GroupResource → string → error }.

Section listers.
Context {I Sel A : Type} `{!Indexer I Sel A}.

(** [ret = append(ret, m)] for every object. *)
Definition appended (l : list A) : list A := foldl (λ ret m, (ret ++ [m])%list) [] l.
Definition lister_List (indexer : I) (selector : Sel) : list A * option error :=
  let '(l, err) := ListAll indexer selector in (appended l, err).
Definition namespaceLister_List (indexer : I) (namespace : string) (selector : Sel)
    : list A * option error :=
  let '(l, err) := ListAllByNamespace indexer namespace selector in (appended l, err).
Definition mip_lister_List (indexer : I) (selector : Sel) : list A * option error :=
  let '(l, err) := ListAll indexer selector in (appended l, err).
Definition namespaceLister_Get (indexer : I) (namespace name : string) : res A :=
  match GetByKey indexer (namespace +:+ "/" +:+ name) with
  | (_, Some err) => Bad err
  | (None, None) => Bad (NewNotFound (mis_Resource "manifestintegritystate") name)
  | (Some obj, None) => Good obj
  end.
Definition mip_lister_Get (indexer : I) (name : string) : res A :=
  match GetByKey indexer name with
  | (_, Some err) => Bad err
  | (None, None) => Bad (NewNotFound (mip_Resource "manifestintegrityprofile") name)
  | (Some obj, None) => Good obj
  end.
(** The lister of the package v1alpha1 has the text of v1; its types are those of v1. *)
Definition alpha_lister_List (indexer : I) (selector : Sel) : list A * option error :=
  let '(l, err) := ListAll indexer selector in (appended l, err).
Definition alpha_lister_Get (indexer : I) (name : string) : res A :=
  match GetByKey indexer name with
  | (_, Some err) => Bad err
  | (None, None) => Bad (NewNotFound (mip_Resource "manifestintegrityprofile") name)
  | (Some obj, None) => Good obj
  end.

(** The listers as the interfaces that clients see. *)
Record NamespaceLister := mkNamespaceLister {
  nl_List : Sel → list A * option error; nl_Get : string → res A }.
Record StateLister := mkStateLister {
  sl_List : Sel → list A * option error; sl_ManifestIntegrityStates : string → NamespaceLister }.
Record ProfileLister := mkProfileLister {
  pl_List : Sel → list A * option error; pl_Get : string → res A }.
Definition lister_ManifestIntegrityStates (indexer : I) (namespace : string) : NamespaceLister :=
  mkNamespaceLister (namespaceLister_List indexer namespace) (namespaceLister_Get indexer namespace).
Definition NewManifestIntegrityStateLister (indexer : I) : StateLister :=
  mkStateLister (lister_List indexer) (lister_ManifestIntegrityStates indexer).
Definition NewManifestIntegrityProfileLister (indexer : I) : ProfileLister :=
  mkProfileLister (mip_lister_List indexer) (mip_lister_Get indexer).
Definition alpha_NewManifestIntegrityProfileLister (indexer : I) : ProfileLister :=
  mkProfileLister (alpha_lister_List indexer) (alpha_lister_Get indexer).
End listers.

(** ** The factory's invariant *)

Section factory_theorems.
Context {RT : RestTypes} {S A Client : Type}.
Implicit Types (w : FW S A Client) (t : string) (i : nat).

(** Informers have been made, for one type each; the started ones are exactly those
    that run, each in one goroutine. *)
Record fw_ok w : Prop := {
  ok_made t i : f_informers (fw_factory w) !! t = Some i → i < length (fw_made w);
  ok_inj t t' i : f_informers (fw_factory w) !! t = Some i →
    f_informers (fw_factory w) !! t' = Some i → t = t';
  ok_started t : f_startedInformers (fw_factory w) !! t = Some true →
    is_Some (f_informers (fw_factory w) !! t);
  ok_runs i : i ∈ fw_runs w ↔ ∃ t, f_informers (fw_factory w) !! t = Some i ∧
    f_startedInformers (fw_factory w) !! t = Some true;
  ok_once : NoDup (fw_runs w) }.

Definition running t w : Prop := f_startedInformers (fw_factory w) !! t = Some true.
(** What a call leaves alone: the known informers, and that one runs. *)
Definition grows w w' : Prop :=
  f_informers (fw_factory w) ⊆ f_informers (fw_factory w') ∧ (∀ t, running t w → running t w').
#[export] Instance grows_preorder : PreOrder grows.
Proof.
  split; [by intros w; split|]. intros w1 w2 w3 [H1 H2] [H3 H4]. split; [by etrans|eauto].
Qed.

Lemma InformerFor_ok t mk w : fw_ok w →
  runs (InformerFor t (λ c r, NewSharedIndexInformer (mk c r))) w (λ i w',
    fw_ok w' ∧ grows w w' ∧ f_informers (fw_factory w') !! t = Some i ∧
    (f_informers (fw_factory w) !! t = Some i ∧ w' = w ∨
     f_informers (fw_factory w) !! t = None ∧
     fw_made w' !! i = Some (mk (f_client (fw_factory w))
       (default (f_defaultResync (fw_factory w)) (f_customResync (fw_factory w) !! t))))).
Proof.
  intros Hok. unfold InformerFor. run_step. run_step. cbv zeta. destruct (f_informers (fw_factory w) !! t) as [i|] eqn:E.
  { run_step. split_and!; [done|done|done|by left]. }
  run_step. eexists _, _. split; [reflexivity|]. run_step. run_step. run_step.
  assert (f_startedInformers (fw_factory w) !! t ≠ Some true) as Hns.
  { intros [? ?]%(ok_started w Hok). congruence. }
  assert (∀ i, i ∈ fw_runs w → i < length (fw_made w)) as Hlt.
  { intros i (t' & Ht' & _)%(ok_runs w Hok). by eapply ok_made. }
  split_and!.
  - split; simpl.
    + intros t' i. rewrite length_app. simpl. destruct (decide (t = t')) as [->|Hne].
      * rewrite lookup_insert_eq. intros [= <-]. lia.
      * rewrite lookup_insert_ne by done. intros ?%(ok_made w Hok). lia.
    + intros t1 t2 i. rewrite !lookup_insert_Some.
      intros [[<- <-]|[? H1]] [[<- H2]|[? H2]]; [done| | |by eapply ok_inj].
      * apply (ok_made w Hok) in H2. lia.
      * subst i. apply (ok_made w Hok) in H1. lia.
    + intros t' Ht. destruct (decide (t = t')) as [->|]; [by rewrite lookup_insert_eq|].
      rewrite lookup_insert_ne by done. by apply ok_started.
    + intros i. rewrite (ok_runs w Hok). split; intros (t' & H1 & H2); exists t';
        (split; [|done]); destruct (decide (t = t')) as [->|]; try congruence.
      * by rewrite lookup_insert_ne.
      * by rewrite lookup_insert_ne in H1.
    + apply (ok_once w Hok).
  - split; [|done]. simpl. by apply insert_subseteq.
  - simpl. by rewrite lookup_insert_eq.
  - right. split; [done|]. simpl. rewrite lookup_app_r by lia. by rewrite Nat.sub_diag.
Qed.

Lemma start_one_ok t i w : fw_ok w → f_informers (fw_factory w) !! t = Some i →
  runs (start_one (t, i)) w (λ _ w',
    fw_ok w' ∧ f_informers (fw_factory w') = f_informers (fw_factory w) ∧
    running t w' ∧ ∀ t', running t' w → running t' w').
Proof.
  intros Hok Ht. unfold start_one. run_step. run_step. simpl.
  destruct (f_startedInformers (fw_factory w) !! t) as [[|]|] eqn:Es; simpl.
  1: { run_step. done. }
  all: run_step; run_step; run_step.
  all: assert (i ∉ fw_runs w) as Hni by
    (rewrite (ok_runs w Hok); intros (t' & H1 & H2);
     assert (t = t') as <- by (by eapply ok_inj); congruence).
  all: split_and!; [|done|unfold running; simpl; by rewrite lookup_insert_eq|
    intros t' Hr; unfold running in *; simpl; by rewrite lookup_insert_Some; destruct (decide (t = t')); auto].
  all: split; simpl; [by apply ok_made|by apply ok_inj| | |].
  all: try (intros t'; rewrite lookup_insert_Some; intros [[<- _]|[_ H]]; [by rewrite Ht|by apply ok_started]).
  all: try (apply NoDup_app; split_and!; [apply ok_once, Hok|set_solver|apply NoDup_singleton]).
  all: intros j; rewrite elem_of_app, list_elem_of_singleton, (ok_runs w Hok); split.
  all: try (intros [(t' & H1 & H2)| ->];
    [exists t'; split; [done|]; rewrite lookup_insert_Some; destruct (decide (t = t')); auto
    |exists t; by rewrite lookup_insert_eq]).
  all: intros (t' & H1 & [[<- _]|[_ H2]]%lookup_insert_Some); [right; congruence|left; eauto].
Qed.

Lemma Start_ok order w : fw_ok w →
  runs (Start order) w (λ _ w', fw_ok w' ∧
    f_informers (fw_factory w') = f_informers (fw_factory w) ∧
    (∀ t, running t w → running t w') ∧
    ∀ t i, f_informers (fw_factory w) !! t = Some i → running t w').
Proof.
  intros Hok. unfold Start. run_step. run_step. destruct (order _) as [l Hl]. simpl.
  assert (∀ t i, (t, i) ∈ l ↔ f_informers (fw_factory w) !! t = Some i) as Hin.
  { intros t i. by rewrite Hl, elem_of_map_to_list. }
  assert (∀ l w, fw_ok w → (∀ t i, (t, i) ∈ l → f_informers (fw_factory w) !! t = Some i) →
    runs (forM l start_one) w (λ _ w', fw_ok w' ∧
      f_informers (fw_factory w') = f_informers (fw_factory w) ∧
      (∀ t, running t w → running t w') ∧ ∀ t i, (t, i) ∈ l → running t w')) as Hloop.
  { clear. intros l. induction l as [|[t i] l IH]; intros w Hok Hl; simpl.
    { run_step. split_and!; [done|done|done|]. by intros t i ?%elem_of_nil. }
    run_step. run_with (start_one_ok t i w Hok (Hl t i ltac:(left))).
    intros u w1 (Hok1 & E1 & Ht & Hr). run_with (IH w1 Hok1).
    { intros t' i' H. rewrite E1. apply Hl. by right. }
    intros u' w2 (Hok2 & E2 & Hr2 & Hl2). split_and!; [done|congruence|auto|].
    intros t' i' [[= -> ->]|H]%elem_of_cons; eauto. }
  run_with (Hloop l w Hok (λ t i, proj1 (Hin t i))).
  intros u w' (Hok' & E & Hr & Hs). split_and!; [done|done|done|]. intros t i H. by eapply Hs, Hin.
Qed.

(** Calls of the factory, in the order in which they take its lock. *)
Inductive factory_call :=
| CallInformerFor (t : string) (mk : Client → Z → SharedIndexInformer S A)
| CallStart (order : ∀ m, visits m)
| CallWaitForCacheSync (hasSynced : nat → bool).
Definition execute (c : factory_call) : M (FW S A Client) unit :=
  match c with
  | CallInformerFor t mk =>
      _ ← InformerFor t (λ c r, NewSharedIndexInformer (mk c r)); mret tt
  | CallStart order => Start order
  | CallWaitForCacheSync hasSynced => _ ← WaitForCacheSync hasSynced; mret tt
  end.
(** The options of the package. *)
Inductive is_option : (sharedInformerFactory Client → sharedInformerFactory Client) → Prop :=
| opt_resync l : is_option (WithCustomResyncConfig l)
| opt_tweak f : is_option (WithTweakListOptions f)
| opt_namespace ns : is_option (WithNamespace ns).

Lemma execute_ok c w : fw_ok w → runs (execute c) w (λ _ w', fw_ok w' ∧ grows w w').
Proof.
  intros Hok. destruct c as [t mk|order|hs]; simpl.
  - run_step. run_with (InformerFor_ok t mk w Hok). intros i w' (? & ? & _). by run_step.
  - run_with (Start_ok order w Hok). intros u w' (? & E & Hr & _). split; [done|].
    split; [by rewrite E|done].
  - run_step. unfold WaitForCacheSync. run_step. by run_step.
Qed.
Lemma execute_all calls w : fw_ok w → runs (forM calls execute) w (λ _ w', fw_ok w' ∧ grows w w').
Proof.
  revert w. induction calls as [|c calls IH]; intros w Hok; simpl; [by run_step|].
  run_step. run_with (execute_ok c w Hok). intros u w1 [Hok1 H1].
  run_with (IH w1 Hok1). intros u' w2 [Hok2 H2]. split; [done|by etrans].
Qed.

(** The state after [NewSharedInformerFactoryWithOptions]. *)
Definition initial client resync opts : FW S A Client :=
  mkFW (NewSharedInformerFactoryWithOptions client resync opts) [] [].
Lemma initial_ok client resync opts : Forall is_option opts → fw_ok (initial client resync opts).
Proof.
  intros Ho. unfold initial, NewSharedInformerFactoryWithOptions.
  assert (∀ f : sharedInformerFactory Client, f_informers f = ∅ ∧ f_startedInformers f = ∅ →
    let g := foldl (λ factory opt, opt factory) f opts in
    f_informers g = ∅ ∧ f_startedInformers g = ∅) as H.
  { induction Ho as [|o opts Hopt _ IH]; intros f Hf; [done|]. apply IH. by destruct Hopt. }
  destruct (H (mkFactory client "" None resync ∅ ∅ ∅) (conj eq_refl eq_refl)) as [E1 E2].
  set (g := foldl _ _ _) in *. clearbody g. destruct g. simpl in *. subst. split; simpl.
  - by intros t i ?%lookup_empty_Some.
  - by intros t t' i ?%lookup_empty_Some.
  - by intros t ?%lookup_empty_Some.
  - intros i. rewrite elem_of_nil. split; [done|]. intros (t & H1 & _). by rewrite lookup_empty in H1.
  - apply NoDup_nil_2.
Qed.

(** C27. Every informer runs once.  After any sequence of calls on a new factory no
    informer has been started twice; one more [Start] starts every informer that was
    requested, and again none twice; and [WaitForCacheSync] then reports on exactly the
    informers that run. *)
Theorem informers_run_once client resync opts calls :
  Forall is_option opts →
  runs (forM calls execute) (initial client resync opts) (λ _ w,
    NoDup (fw_runs w) ∧
    ∀ order, runs (Start order) w (λ _ w', NoDup (fw_runs w') ∧
      (∀ t i, f_informers (fw_factory w) !! t = Some i → i ∈ fw_runs w') ∧
      ∀ hasSynced, runs (WaitForCacheSync hasSynced) w' (λ m w'', w'' = w' ∧
        ∀ t b, m !! t = Some b ↔ ∃ i, f_informers (fw_factory w') !! t = Some i ∧
          i ∈ fw_runs w' ∧ b = hasSynced i))).
Proof.
  intros Ho. run_with (execute_all calls _ (initial_ok client resync opts Ho)).
  intros u w [Hok _]. split; [apply ok_once, Hok|]. intros order.
  run_with (Start_ok order w Hok). intros u' w' (Hok' & E & _ & Hs).
  split; [apply ok_once, Hok'|]. split.
  { intros t i Ht. apply (ok_runs w' Hok'). exists t. rewrite E. split; [done|by eapply Hs]. }
  intros hasSynced. unfold WaitForCacheSync. run_step. split; [done|]. intros t b.
  rewrite lookup_fmap, fmap_Some. split.
  - intros (i & [Hi Hd]%map_lookup_filter_Some & ->). exists i. split_and!; [done| |done].
    apply (ok_runs w' Hok'). exists t. split; [done|]. simpl in Hd.
    by destruct (f_startedInformers _ !! t) as [[]|].
  - intros (i & Hi & (t' & Ht' & Hst)%(ok_runs w' Hok') & ->). exists i. split; [|done].
    apply map_lookup_filter_Some. split; [done|]. simpl.
    assert (t = t') as <- by (by eapply ok_inj). by rewrite Hst.
Qed.

(** Informers are shared.  Two requests for the informer of a type, with any calls
    before, between and after them, give the same informer, and the one that was made
    has the resync period of its type, or else the factory's default. *)
Theorem informers_shared client resync opts calls t mk between mk' :
  Forall is_option opts →
  runs (forM calls execute) (initial client resync opts) (λ _ w,
    runs (i ← InformerFor t (λ c r, NewSharedIndexInformer (mk c r));
          forM between execute;;
          j ← InformerFor t (λ c r, NewSharedIndexInformer (mk' c r));
          mret (i, j)) w (λ '(i, j) _, i = j ∧
      (f_informers (fw_factory w) !! t = None → ∀ i' w',
         InformerFor t (λ c r, NewSharedIndexInformer (mk c r)) w = (Ret i', w') → i' = i ∧
         fw_made w' !! i' = Some (mk (f_client (fw_factory w))
           (default (f_defaultResync (fw_factory w)) (f_customResync (fw_factory w) !! t)))))).
Proof.
  intros Ho. run_with (execute_all calls _ (initial_ok client resync opts Ho)). intros u w [Hok _].
  pose proof (InformerFor_ok t mk w Hok) as Hi.
  destruct Hi as (i & w1 & E1 & Hok1 & Hg1 & Ht1 & Hc).
  run_step. exists i, w1. split; [done|].
  run_step. run_with (execute_all between w1 Hok1). intros u' w2 [Hok2 [Hg2 _]].
  run_step. run_with (InformerFor_ok t mk' w2 Hok2). intros j w3 (_ & _ & Ht3 & Hc3). run_step.
  assert (f_informers (fw_factory w2) !! t = Some i) as Ht2 by (by eapply lookup_weaken).
  split; [destruct Hc3 as [[? ->]|[? _]]; congruence|].
  intros Hn i' w' E. rewrite E1 in E. injection E as <- <-. split; [done|].
  destruct Hc as [[? _]|[_ ?]]; [congruence|done].
Qed.
End factory_theorems.

(** ** Generic access *)

Section generic.
Context {RT : RestTypes} {S A : Type} (gvr_String : GroupVersionResource → string).

(** [ForResource] knows one resource.  For the integrity states it gives the shared
    informer: a new one lists and watches the states of the factory's namespace through
    the client, with the factory's list options applied; every other resource is an
    error, and then no informer is made. *)
Theorem ForResource_spec (w : FW S A (string → ResourceInterface S A)) resource :
  fw_ok w →
  runs (mis_ForResource gvr_String resource) w (λ r w',
    let f := fw_factory w in
    (resource ≠ mkGVR "apis.integrityshield.io" "v1" "manifestintegritystates" →
       r = Bad (errNew ("no informer found for " +:+ gvr_String resource)) ∧ w' = w) ∧
    (resource = mkGVR "apis.integrityshield.io" "v1" "manifestintegritystates" → ∃ i,
       r = Good (mkGeneric i (mkGR "apis.integrityshield.io" "manifestintegritystates")) ∧
       f_informers (fw_factory w') !! "*v1.ManifestIntegrityState" = Some i ∧
       (f_informers f !! "*v1.ManifestIntegrityState" = None → ∃ x,
          fw_made w' !! i = Some x ∧ inf_indexers x = [NamespaceIndex] ∧
          ∀ o, inf_List x o = i_List (f_client f (f_namespace f)) (tweaked (f_tweakListOptions f) o) ∧
               inf_Watch x o = i_Watch (f_client f (f_namespace f)) (tweaked (f_tweakListOptions f) o)))).
Proof.
  intros Hok. unfold mis_ForResource, WithResource. simpl. case_bool_decide as Hr.
  - subst. run_step. run_step. run_step. unfold mis_Informer.
    eapply runs_mono; [exact (InformerFor_ok _ (λ client resync, mkInformer
      (λ o, i_List (client (f_namespace (fw_factory w))) (tweaked (f_tweakListOptions (fw_factory w)) o))
      (λ o, i_Watch (client (f_namespace (fw_factory w))) (tweaked (f_tweakListOptions (fw_factory w)) o))
      _ resync [NamespaceIndex]) w Hok)|].
    intros i w' (_ & _ & Hi & Hc). run_step. cbv zeta. split; [done|]. intros _.
    exists i. split; [done|]. split; [done|]. intros Hn. destruct Hc as [[? _]|[_ Hm]]; [congruence|].
    eexists. split; [exact Hm|]. done.
  - run_step. cbv zeta. by split.
Qed.
End generic.

(** ** Generic and typed access of both packages *)

(** What a package promises: generic access to its resource and typed access give
    the informer that the factory keeps for its type. *)
Record package_contract {RT : RestTypes} {S A Client : Type} (f : SharedInformerFactory S A Client)
    (resource : GroupVersionResource) (type : string)
    (typed : access → M (FW S A Client) nat) : Prop := {
  pk_generic w : fw_ok w → runs (if_ForResource f resource) w (λ r w', ∃ g,
    r = Good g ∧ gi_resource g = gvr_GroupResource resource ∧ fw_ok w' ∧ grows w w'
    ∧ f_informers (fw_factory w') !! type = Some (generic_Informer g)
    ∧ (f_informers (fw_factory w) !! type = Some (generic_Informer g)
       ∨ f_informers (fw_factory w) !! type = None));
  pk_typed w : fw_ok w → runs (a ← if_Apis f; typed a) w (λ i w',
    fw_ok w' ∧ grows w w' ∧ f_informers (fw_factory w') !! type = Some i
    ∧ (f_informers (fw_factory w) !! type = Some i ∨ f_informers (fw_factory w) !! type = None));
  pk_other w r : r ≠ resource → ∃ e, if_ForResource f r w = (Ret (Bad e), w);
  pk_start order : if_Start f order = Start order }.

Section contract.
Context {RT : RestTypes} {S A : Type} (gvr_String : GroupVersionResource → string).

Lemma mis_Informer_ok a (w : FW S A (string → ResourceInterface S A)) : fw_ok w →
  runs (mis_Informer a) w (λ i w', fw_ok w' ∧ grows w w'
    ∧ f_informers (fw_factory w') !! "*v1.ManifestIntegrityState" = Some i
    ∧ (f_informers (fw_factory w) !! "*v1.ManifestIntegrityState" = Some i
       ∨ f_informers (fw_factory w) !! "*v1.ManifestIntegrityState" = None)).
Proof.
  intros Hok. eapply runs_mono; [exact (InformerFor_ok _ (λ client resync, mkInformer
    (λ o, i_List (client (ac_namespace a)) (tweaked (ac_tweakListOptions a) o))
    (λ o, i_Watch (client (ac_namespace a)) (tweaked (ac_tweakListOptions a) o))
    _ resync [NamespaceIndex]) w Hok)|]. naive_solver.
Qed.
Lemma mip_Informer_ok a (w : FW S A (ProfileInterface S A)) : fw_ok w →
  runs (mip_Informer a) w (λ i w', fw_ok w' ∧ grows w w'
    ∧ f_informers (fw_factory w') !! "*v1.ManifestIntegrityProfile" = Some i
    ∧ (f_informers (fw_factory w) !! "*v1.ManifestIntegrityProfile" = Some i
       ∨ f_informers (fw_factory w) !! "*v1.ManifestIntegrityProfile" = None)).
Proof.
  intros Hok. eapply runs_mono; [exact (InformerFor_ok _ (λ client resync, mkInformer
    (λ o, i_List (pi_resource client) (tweaked (ac_tweakListOptions a) o))
    (λ o, i_Watch (pi_resource client) (tweaked (ac_tweakListOptions a) o))
    _ resync [NamespaceIndex]) w Hok)|]. naive_solver.
Qed.

Lemma mis_contract :
  package_contract (mis_SharedInformerFactory (S := S) (A := A) gvr_String)
    manifestintegritystatesResource "*v1.ManifestIntegrityState"
    (λ a, mis_Informer (mis_ManifestIntegrityStates (mis_V1 a))).
Proof.
  split; simpl.
  - intros w Hok. unfold mis_ForResource. rewrite bool_decide_eq_true_2 by done.
    run_step. run_step. run_step. eapply runs_mono; [by apply mis_Informer_ok|].
    intros i w' (? & ? & ? & ?). run_step. eexists. split; [reflexivity|]. done.
  - intros w Hok. run_step. run_step. by apply mis_Informer_ok.
  - intros w r Hr. unfold mis_ForResource. rewrite bool_decide_eq_false_2 by done. by eexists.
  - done.
Qed.
Lemma mip_contract :
  package_contract (mip_SharedInformerFactory (S := S) (A := A) gvr_String)
    manifestintegrityprofilesResource "*v1.ManifestIntegrityProfile"
    (λ a, mip_Informer (mip_ManifestIntegrityProfiles (mip_V1 a))).
Proof.
  split; simpl.
  - intros w Hok. unfold mip_ForResource. rewrite bool_decide_eq_true_2 by done.
    run_step. run_step. run_step. eapply runs_mono; [by apply mip_Informer_ok|].
    intros i w' (? & ? & ? & ?). run_step. eexists. split; [reflexivity|]. done.
  - intros w Hok. run_step. run_step. by apply mip_Informer_ok.
  - intros w r Hr. unfold mip_ForResource. rewrite bool_decide_eq_false_2 by done. by eexists.
  - done.
Qed.
End contract.

(** A user of the interface: generic access, other calls, typed access, [Start]. *)
Definition session {RT : RestTypes} {S A Client : Type} (f : SharedInformerFactory S A Client)
    resource (typed : access → M (FW S A Client) nat) (between : list factory_call)
    (order : ∀ m, visits m) : M (FW S A Client) (res genericInformer * nat) :=
  r ← if_ForResource f resource;
  forM between execute;;
  i ← (a ← if_Apis f; typed a);
  if_Start f order;;
  mret (r, i).

Lemma session_shares {RT : RestTypes} {S A Client : Type} (f : SharedInformerFactory S A Client)
    resource type typed between order w :
  package_contract f resource type typed → fw_ok w →
  runs (session f resource typed between order) w (λ '(r, i) w',
    (∃ g, r = Good g ∧ generic_Informer g = i) ∧ i ∈ fw_runs w' ∧ NoDup (fw_runs w')).
Proof.
  intros Hc Hok. unfold session. run_step. run_with (pk_generic _ _ _ _ Hc w Hok).
  intros r w1 (g & -> & _ & Hok1 & Hg1 & Hi1 & _).
  run_step. run_with (execute_all between w1 Hok1). intros u w2 [Hok2 [Hg2 _]].
  run_step. run_with (pk_typed _ _ _ _ Hc w2 Hok2). intros i w3 (Hok3 & _ & Hi3 & Hold).
  run_step. rewrite (pk_start _ _ _ _ Hc). run_with (Start_ok order w3 Hok3).
  intros u' w4 (Hok4 & E4 & _ & Hs). run_step.
  assert (f_informers (fw_factory w2) !! type = Some (generic_Informer g)) as Hi2
    by (by eapply lookup_weaken).
  split_and!.
  - exists g. split; [done|]. destruct Hold; congruence.
  - apply (ok_runs _ Hok4). exists type. rewrite E4. split; [done|]. by eapply Hs.
  - apply (ok_once _ Hok4).
Qed.

Section generic_typed.
Context {RT : RestTypes} {S A : Type} (gvr_String : GroupVersionResource → string).

(** Both generated packages implement the factory interface so that generic
    and typed access agree.  On a new factory, after any calls, [ForResource] of the
    package's resource and [Apis().V1()...Informer()] give the same informer whatever
    is called in between, and [Start] then runs it, once; [ForResource] of any other
    resource is an error and changes nothing. *)
Theorem generic_typed_agree sc pc resync mis_opts mip_opts mis_calls mip_calls
    between between' order :
  Forall is_option mis_opts → Forall is_option mip_opts →
  let mis := mis_SharedInformerFactory (S := S) (A := A) gvr_String in
  let mip := mip_SharedInformerFactory (S := S) (A := A) gvr_String in
  runs (forM mis_calls execute) (initial sc resync mis_opts) (λ _ w,
    runs (session mis manifestintegritystatesResource
            (λ a, mis_Informer (mis_ManifestIntegrityStates (mis_V1 a))) between order) w
      (λ '(r, i) w', (∃ g, r = Good g ∧ generic_Informer g = i) ∧ i ∈ fw_runs w'
                     ∧ NoDup (fw_runs w')))
  ∧ runs (forM mip_calls execute)
      (mkFW (mip_NewSharedInformerFactoryWithOptions pc resync mip_opts) [] []) (λ _ w,
    runs (session mip manifestintegrityprofilesResource
            (λ a, mip_Informer (mip_ManifestIntegrityProfiles (mip_V1 a))) between' order) w
      (λ '(r, i) w', (∃ g, r = Good g ∧ generic_Informer g = i) ∧ i ∈ fw_runs w'
                     ∧ NoDup (fw_runs w')))
  ∧ (∀ w r, r ≠ manifestintegritystatesResource →
       ∃ e, if_ForResource mis r w = (Ret (Bad e), w))
  ∧ (∀ w r, r ≠ manifestintegrityprofilesResource →
       ∃ e, if_ForResource mip r w = (Ret (Bad e), w)).
Proof.
  intros Ho Ho' mis mip. split_and!.
  - run_with (execute_all mis_calls _ (initial_ok sc resync mis_opts Ho)). intros u w [Hok _].
    eapply session_shares; [apply mis_contract|done].
  - run_with (execute_all mip_calls _ (initial_ok pc resync mip_opts Ho')). intros u w [Hok _].
    eapply session_shares; [apply mip_contract|done].
  - apply (pk_other _ _ _ _ (mis_contract gvr_String)).
  - apply (pk_other _ _ _ _ (mip_contract gvr_String)).
Qed.
End generic_typed.

(** ** Listers find exactly the named object *)

Section lister_theorems.
Context {I Sel A : Type} `{!Indexer I Sel A} (objNamespace objName : A → string).

(** [cache.MetaNamespaceKeyFunc] *)
Definition MetaNamespaceKeyFunc (x : A) : string :=
  if bool_decide (objNamespace x = "") then objName x
  else objNamespace x +:+ "/" +:+ objName x.
(** The indexer of an informer holds objects under their keys; one per key. *)
Record holds (indexer : I) (objs : list A) : Prop := {
  holds_get k x : GetByKey indexer k = (Some x, None) ↔ x ∈ objs ∧ MetaNamespaceKeyFunc x = k;
  holds_none k : (∀ x, x ∈ objs → MetaNamespaceKeyFunc x ≠ k) → GetByKey indexer k = (None, None) }.
Definition noSlash (s : string) : Prop :=
  forallb_string (λ c, negb (bool_decide (c = "/"%char))) s = true.

#[local] Arguments String.append _ _ : simpl nomatch.
Lemma noSlash_split a b a' b' : noSlash a → noSlash a' →
  a +:+ "/" +:+ b = a' +:+ "/" +:+ b' → a = a' ∧ b = b'.
Proof.
  unfold noSlash. revert a'. induction a as [|c a IH]; intros [|c' a']; simpl.
  - by intros _ _ [= ->].
  - intros _ Hc [= <- _]. done.
  - intros Hc _ [= -> _]. done.
  - intros [_ Ha]%andb_true_iff [_ Ha']%andb_true_iff [= <- E].
    by destruct (IH a' Ha Ha' E) as [-> ->].
Qed.
Lemma noSlash_key a b : ¬ noSlash (a +:+ "/" +:+ b).
Proof. unfold noSlash. rewrite forallb_string_app. simpl. by rewrite andb_false_r. Qed.

(** The listers.  When the names in the cache have no slash, the lister of a
    namespace finds an integrity state exactly when the cache holds it in that
    namespace under that name, the lister of profiles exactly when it holds that
    cluster-wide profile, and otherwise both say [NotFound]. *)
Theorem lister_get_spec (indexer : I) objs ns name :
  holds indexer objs → ns ≠ "" → noSlash ns → noSlash name →
  (∀ x, x ∈ objs → noSlash (objNamespace x) ∧ noSlash (objName x)) →
  (∀ x, namespaceLister_Get indexer ns name = Good x ↔
        x ∈ objs ∧ objNamespace x = ns ∧ objName x = name) ∧
  (∀ x, mip_lister_Get indexer name = Good x ↔
        x ∈ objs ∧ objNamespace x = "" ∧ objName x = name) ∧
  ((¬ ∃ x, x ∈ objs ∧ objNamespace x = ns ∧ objName x = name) →
     namespaceLister_Get indexer ns name
       = Bad (NewNotFound (mkGR "apis.integrityshield.io" "manifestintegritystate") name)) ∧
  ((¬ ∃ x, x ∈ objs ∧ objNamespace x = "" ∧ objName x = name) →
     mip_lister_Get indexer name
       = Bad (NewNotFound (mkGR "apis.integrityshield.io" "manifestintegrityprofile") name)).
Proof.
  intros Hh Hne Hns Hn Hobjs.
  assert (∀ x, x ∈ objs → MetaNamespaceKeyFunc x = ns +:+ "/" +:+ name ↔
    objNamespace x = ns ∧ objName x = name) as Hk1.
  { intros x [Hx1 Hx2]%Hobjs. unfold MetaNamespaceKeyFunc. case_bool_decide as Hb.
    - split; [intros E|naive_solver]. rewrite E in Hx2. by apply noSlash_key in Hx2.
    - split; [by apply noSlash_split|by intros [-> ->]]. }
  assert (∀ x, x ∈ objs → MetaNamespaceKeyFunc x = name ↔
    objNamespace x = "" ∧ objName x = name) as Hk2.
  { intros x [Hx1 Hx2]%Hobjs. unfold MetaNamespaceKeyFunc. case_bool_decide as Hb; [naive_solver|].
    split; [intros <-; by apply noSlash_key in Hn|naive_solver]. }
  assert (∀ k gr (P : A → Prop), (∀ x, x ∈ objs → MetaNamespaceKeyFunc x = k ↔ P x) →
    let r := match GetByKey indexer k with
             | (_, Some err) => Bad err | (None, None) => Bad (NewNotFound gr name)
             | (Some obj, None) => Good obj end in
    (∀ x, r = Good x ↔ x ∈ objs ∧ P x) ∧
    ((¬ ∃ x, x ∈ objs ∧ P x) → r = Bad (NewNotFound gr name))) as Hget.
  { intros k gr P HP. split.
    - intros x. transitivity (GetByKey indexer k = (Some x, None)).
      + destruct (GetByKey indexer k) as [[y|] [e|]]; naive_solver.
      + rewrite (holds_get _ _ Hh). naive_solver.
    - intros Hno. rewrite (holds_none _ _ Hh k); [done|]. naive_solver. }
  destruct (Hget _ (mis_Resource "manifestintegritystate") _ Hk1) as [H1 H2].
  destruct (Hget _ (mip_Resource "manifestintegrityprofile") _ Hk2) as [H3 H4].
  by split_and!.
Qed.
End lister_theorems.

(** ** A concrete cache *)

Module InformersDemo.
Import RestDemo.
Abbreviation DClient := (string → ResourceInterface store obj).
Definition inOrder (m : gmap string nat) : visits m := exist _ (map_to_list m) (Permutation_refl _).
Definition mkDemo (c : DClient) (r : Z) : SharedIndexInformer store obj :=
  mkInformer (i_List (c "is")) (i_Watch (c "is")) "*v1.ManifestIntegrityState" r [].
Definition demoCalls : list factory_call :=
  [CallInformerFor "*v1.ManifestIntegrityState" mkDemo; CallStart inOrder;
   CallInformerFor "*v1.ManifestIntegrityState" mkDemo; CallStart inOrder].
Definition demoOptions : list (sharedInformerFactory DClient → sharedInformerFactory DClient) :=
  [WithNamespace "is"; WithCustomResyncConfig [("*v1.ManifestIntegrityState", 30%Z)]].
Definition demoWorld : FW store obj DClient := initial states 10 demoOptions.

Lemma informers_run_once_witness :
  ∃ w, forM demoCalls execute demoWorld = (Ret tt, w) ∧ NoDup (fw_runs w) ∧ fw_runs w = [0].
Proof.
  destruct (informers_run_once states 10 demoOptions demoCalls) as (u & w & E & Hn & _).
  { repeat constructor. }
  destruct u. exists w. split; [exact E|]. split; [exact Hn|].
  assert (w = state_of (forM demoCalls execute) demoWorld) as ->
    by (unfold state_of, demoWorld; by rewrite E).
  vm_compute. reflexivity.
Defined.
Lemma informers_shared_witness :
  runs (forM demoCalls execute) demoWorld (λ _ w,
    runs (i ← InformerFor "*v1.ManifestIntegrityState" (λ c r, NewSharedIndexInformer (mkDemo c r));
          j ← InformerFor "*v1.ManifestIntegrityState" (λ c r, NewSharedIndexInformer (mkDemo c r));
          mret (i, j)) w (λ '(i, j) _, i = j)).
Proof.
  eapply runs_mono.
  { apply (informers_shared states 10 demoOptions demoCalls "*v1.ManifestIntegrityState" mkDemo []
             mkDemo). repeat constructor. }
  intros u w Hw. eapply runs_mono; [exact Hw|]. intros [i j] w' [E _]. exact E.
Defined.
Definition demoProfiles : ProfileInterface store obj :=
  ApisV1_ManifestIntegrityProfiles fst ("", "") typed.
Lemma generic_typed_agree_witness :
  runs (session (mis_SharedInformerFactory gvr_Resource) manifestintegritystatesResource
          (λ a, mis_Informer (mis_ManifestIntegrityStates (mis_V1 a))) [] inOrder) demoWorld
    (λ '(r, i) w', (∃ g, r = Good g ∧ generic_Informer g = i) ∧ i ∈ fw_runs w'
                   ∧ NoDup (fw_runs w')).
Proof.
  destruct (generic_typed_agree gvr_Resource states demoProfiles 10 demoOptions [] [] [] [] []
    inOrder) as [(u & w & [= <- <-] & H) _]; [repeat constructor..|]. exact H.
Defined.
Lemma ForResource_spec_witness : ∃ i w',
  mis_ForResource gvr_Resource (mkGVR "apis.integrityshield.io" "v1" "manifestintegritystates")
    demoWorld
  = (Ret (Good (mkGeneric i (mkGR "apis.integrityshield.io" "manifestintegritystates"))), w').
Proof.
  destruct (ForResource_spec gvr_Resource demoWorld
    (mkGVR "apis.integrityshield.io" "v1" "manifestintegritystates")) as (r & w' & E & _ & H).
  { apply initial_ok. repeat constructor. }
  destruct (H eq_refl) as (i & -> & _). by exists i, w'.
Defined.

(** An indexer: objects (namespace, name) under their keys. *)
#[export] Instance indexer : Indexer (gmap string (string * string)) unit (string * string) := {|
  GetByKey m k := (m !! k, None);
  ListAll m _ := (snd <$> map_to_list m, None);
  ListAllByNamespace m ns _ := (filter (λ x, x.1 = ns) (snd <$> map_to_list m), None);
  NewNotFound _ n := mkError NotFound n |}.
Definition cached : gmap string (string * string) :=
  {[ "is/c" := ("is", "c"); "p" := ("", "p") ]}.
Lemma cached_holds : holds fst snd cached [("is", "c"); ("", "p")].
Proof.
  split.
  - intros k x. cbn. unfold cached. split.
    + intros [= H]. apply lookup_insert_Some in H as [[<- <-]|[_ H]].
      { split; [set_solver|reflexivity]. }
      apply lookup_singleton_Some in H as [<- <-]. split; [set_solver|reflexivity].
    + intros [Hx <-]. rewrite !elem_of_cons in Hx. destruct Hx as [->|[->|Hx]]; [reflexivity..|].
      by apply elem_of_nil in Hx.
  - intros k Hk. cbn. f_equal. unfold cached. apply lookup_insert_None. split.
    + apply lookup_singleton_None. intros E. apply (Hk ("", "p")); [set_solver|exact E].
    + intros E. apply (Hk ("is", "c")); [set_solver|exact E].
Qed.
Lemma lister_get_spec_witness : namespaceLister_Get cached "is" "c" = Good ("is", "c").
Proof.
  apply (lister_get_spec fst snd cached [("is", "c"); ("", "p")] "is" "c"); try reflexivity.
  - exact cached_holds.
  - discriminate.
  - intros x Hx. rewrite !elem_of_cons in Hx. destruct Hx as [->|[->|Hx]]; [done|done|].
    by apply elem_of_nil in Hx.
  - split; [left|]. split; reflexivity.
Defined.
End InformersDemo.
