(* ===== verification/OperatorResources.v ===== *)
(** * integrity-shield-operator: the custom resource and the objects built from it

    [api/v1/integrityshield_types.go] (the [IntegrityShield] resource) and
    [resources/]: [deploy.go], [role.go], [webhook.go], [config.go],
    [secret.go], [crd.go], [gatekeeper.go].  Kubernetes objects are records with
    the fields the operator sets; [Rest] stands for the fields it leaves at their
    zero value. *)
From S2P Require Import Prelude GoStrings.
From stdpp Require Import base gmap strings list.
From Stdlib Require Import Ascii ZArith Lia.

Local Open Scope string_scope.

(** ** Types of the Kubernetes API that the operator only passes on *)

Class OpTypes := {
  SecurityContext : Type;
  SecurityContext_eq :: EqDecision SecurityContext;
  PodSecurityContext : Type;
  ResourceRequirements : Type;
  Affinity : Type;
  Toleration : Type;
  Rest : Type;
  Rest_eq :: EqDecision Rest;
  Rest_zero : Rest }.

(** A Go map: [None] is the nil map, which [reflect.DeepEqual] tells apart from
    the empty one. *)
Abbreviation StringMap := (option (gmap string string)).

Inductive IntOrString := IntVal (z : Z) | StrVal (s : string).
#[export] Instance IntOrString_eq_dec : EqDecision IntOrString.
Proof. solve_decision. Defined.

Section objects.
Context {OT : OpTypes}.

(** [DeletionTimestamp] is [None] when it is nil or zero. *)
Record ObjectMeta := mkMeta {
  Name : string;
  Namespace : string;
  Labels : StringMap;
  Annotations : StringMap;
  Finalizers : list string;
  DeletionTimestamp : option Z;
  OwnerReferences : list string;
  om_rest : Rest }.

(** [metav1.ObjectMeta] with name, namespace and labels. *)
Definition newMeta (name namespace : string) (labels : StringMap) : ObjectMeta :=
  mkMeta name namespace labels None [] None [] Rest_zero.

(** *** Pods and deployments *)
Record EnvVar := mkEnv { env_Name : string; env_Value : string; env_rest : Rest }.
Record VolumeMount := mkMount {
  MountPath : string; vm_Name : string; ReadOnly : bool; vm_rest : Rest }.
Record ContainerPort := mkPort {
  cp_Name : string; cp_ContainerPort : Z; Protocol : string; cp_rest : Rest }.
#[export] Instance EnvVar_eq_dec : EqDecision EnvVar.
Proof. solve_decision. Defined.
#[export] Instance VolumeMount_eq_dec : EqDecision VolumeMount.
Proof. solve_decision. Defined.
#[export] Instance ContainerPort_eq_dec : EqDecision ContainerPort.
Proof. solve_decision. Defined.

Inductive Handler :=
| HTTPGet (path : string) (port : IntOrString) (scheme : string)
| Exec (command : list string).
Record Probe := mkProbe {
  InitialDelaySeconds : Z; PeriodSeconds : Z; pr_Handler : Handler }.

Record Container := mkContainer {
  c_Name : string;
  c_Command : list string;
  c_Args : list string;
  c_Image : string;
  c_ImagePullPolicy : string;
  c_SecurityContext : option SecurityContext;
  c_ReadinessProbe : option Probe;
  c_LivenessProbe : option Probe;
  c_Ports : list ContainerPort;
  c_VolumeMounts : list VolumeMount;
  c_Env : list EnvVar;
  c_Resources : ResourceRequirements }.

Inductive VolumeSource :=
| SecretVolumeSource (secretName : string) (defaultMode : Z)
| EmptyDirVolumeSource.
Record Volume := mkVolume { vol_Name : string; vol_Source : VolumeSource }.

Record PodSpec := mkPodSpec {
  ServiceAccountName : string;
  ps_SecurityContext : option PodSecurityContext;
  Containers : list Container;
  ps_NodeSelector : StringMap;
  ps_Affinity : option Affinity;
  ps_Tolerations : list Toleration;
  Volumes : list Volume }.

Record PodTemplateSpec := mkTemplate {
  pt_Labels : StringMap; pt_Annotations : StringMap; pt_Spec : PodSpec }.

Record DeploymentSpec := mkDeploymentSpec {
  ds_MaxSurge : option IntOrString;
  ds_MaxUnavailable : option IntOrString;
  Replicas : option Z;
  ds_MatchLabels : StringMap;
  Template : PodTemplateSpec }.

Record Deployment := mkDeployment {
  dp_Spec : DeploymentSpec; AvailableReplicas : Z }.

(** *** Access control *)
Record PolicyRule := mkPolicyRule {
  pr_APIGroups : list string; pr_Resources : list string; pr_Verbs : list string }.
Record Subject := mkSubject {
  sub_Kind : string; sub_Name : string; sub_Namespace : string }.
Record RoleRef := mkRoleRef { ref_APIGroup : string; ref_Kind : string; ref_Name : string }.
Record RoleBindingT := mkRoleBinding { Subjects : list Subject; rb_RoleRef : RoleRef }.

(** *** Services, webhooks, secrets *)
Record ServicePort := mkServicePort { sp_Port : Z; sp_TargetPort : IntOrString }.
Record ServiceT := mkService { svc_Ports : list ServicePort; svc_Selector : StringMap }.

Record Rule := mkRule {
  ru_APIGroups : list string; ru_APIVersions : list string; ru_Resources : list string;
  ru_Scope : option string }.
Record RuleWithOperations := mkRuleOps { ro_Operations : list string; ro_Rule : Rule }.
Record ValidatingWebhook := mkWebhook {
  wh_Name : string;
  wh_ServiceName : string;
  wh_ServiceNamespace : string;
  wh_Path : option string;
  CABundle : string;
  wh_Rules : list RuleWithOperations;
  SideEffects : option string;
  TimeoutSeconds : option Z;
  AdmissionReviewVersions : list string }.

Record SecretT := mkSecretT { s_Data : gmap string string; s_Type : string }.

(** *** Custom resource definitions and constraint templates *)
Record CRDNames := mkCRDNames {
  crd_Kind : string; Plural : string; ListKind : string; Singular : string;
  ShortNames : list string }.
Record CRDVersion := mkCRDVersion {
  ver_Name : string; Served : bool; Storage : bool; PreserveUnknown : option bool }.
Record CRDSpec := mkCRDSpec {
  crd_Group : string; crd_Names : CRDNames; crd_Scope : string;
  crd_Versions : list CRDVersion; crd_rest : Rest }.
#[export] Instance CRDNames_eq_dec : EqDecision CRDNames.
Proof. solve_decision. Defined.
#[export] Instance CRDVersion_eq_dec : EqDecision CRDVersion.
Proof. solve_decision. Defined.
#[export] Instance CRDSpec_eq_dec : EqDecision CRDSpec.
Proof. solve_decision. Defined.

Record ConstraintTemplateT := mkConstraintTemplate {
  ct_Kind : string; ct_PreserveUnknown : option bool; Targets : list (string * string) }.

(** [corev1.Event] without its metadata. *)
Record EventT := mkEventT {
  e_InvolvedNamespace : string; e_InvolvedAPIVersion : string; e_InvolvedKind : string;
  e_InvolvedName : string;
  e_Type : string;
  e_Component : string;
  e_ReportingController : string;
  e_ReportingInstance : string;
  e_Action : string;
  e_FirstTimestamp : Z;
  e_LastTimestamp : Z;
  e_EventTime : Z;
  e_Message : string;
  e_Reason : string;
  e_Count : Z }.

(** *** The custom resource *)
Record APIContainer := mkAPIContainer {
  api_Name : string; api_SelectorLabels : StringMap;
  api_SecurityContext : option SecurityContext; api_ImagePullPolicy : string;
  api_Image : string; api_Tag : string; api_Port : Z; api_Resources : ResourceRequirements }.
Record ControllerContainerT := mkControllerContainer {
  cc_Name : string; cc_SelectorLabels : StringMap;
  cc_SecurityContext : option SecurityContext; cc_ImagePullPolicy : string;
  cc_Image : string; cc_Tag : string; cc_Port : Z; cc_Resources : ResourceRequirements;
  cc_LogLevel : string; cc_LogFormat : string }.
Record SecurityConfig := mkSecurityConfig {
  APIServiceAccountName : string; ObserverServiceAccountName : string;
  ObserverRole : string; ObserverRoleBinding : string;
  APIRole : string; APIRoleBinding : string;
  PodSecurityPolicyName : string; sc_PodSecurityContext : option PodSecurityContext }.
Record ObserverT := mkObserverT {
  Enabled : bool; obs_Name : string; obs_SelectorLabels : StringMap;
  obs_ImagePullPolicy : string; obs_Image : string; obs_Tag : string;
  obs_SecurityContext : option SecurityContext; obs_LogLevel : string; Interval : string;
  ExportDetailResult : bool; Provenanece : bool;
  ResultDetailConfigName : string; ResultDetailConfigKey : string;
  obs_Resources : ResourceRequirements }.

Record IntegrityShieldSpec := mkISSpec {
  MaxSurge : option IntOrString;
  MaxUnavailable : option IntOrString;
  ReplicaCount : option Z;
  MetaLabels : StringMap;
  NodeSelector : StringMap;
  is_Affinity : option Affinity;
  Tolerations : list Toleration;
  Security : SecurityConfig;
  API : APIContainer;
  RequestHandlerConfigKey : string;
  RequestHandlerConfigName : string;
  RequestHandlerConfigText : string;            (* RequestHandlerConfig *)
  ApiServiceName : string;
  ApiServicePort : Z;
  ControllerContainer : ControllerContainerT;
  AdmissionControllerConfigKey : string;
  AdmissionControllerConfigName : string;
  AdmissionControllerConfigText : string;       (* AdmissionControllerConfig *)
  is_Observer : ObserverT;
  APITlsSecretName : string;
  WebhookServerTlsSecretName : string;
  WebhookServiceName : string;
  WebhookConfigName : string;
  WebhookNamespacedResource : Rule;
  WebhookClusterResource : Rule;
  UseGatekeeper : bool;
  Rego : string }.

(** The resource with its type and object metadata (its status is empty). *)
Record IntegrityShield := mkIS {
  is_APIVersion : string; is_Kind : string; is_Meta : ObjectMeta; Spec : IntegrityShieldSpec }.

(** ** Kinds and objects *)

Inductive kind :=
| KCRD | KConfigMap | KServiceAccount | KClusterRole | KClusterRoleBinding | KRole
| KRoleBinding | KSecret | KDeployment | KService | KWebhook | KTemplate | KEvent.

Definition BodyOf (k : kind) : Type :=
  match k with
  | KCRD => CRDSpec
  | KConfigMap => gmap string string
  | KServiceAccount => unit
  | KClusterRole | KRole => list PolicyRule
  | KClusterRoleBinding | KRoleBinding => RoleBindingT
  | KSecret => SecretT
  | KDeployment => Deployment
  | KService => ServiceT
  | KWebhook => list ValidatingWebhook
  | KTemplate => ConstraintTemplateT
  | KEvent => EventT
  end.

Record Object (k : kind) := mkObject { o_Meta : ObjectMeta; o_Body : BodyOf k }.
Arguments mkObject k o_Meta o_Body : clear implicits.
Arguments o_Meta {k}.
Arguments o_Body {k}.
End objects.
#[export] Instance kind_eq_dec : EqDecision kind.
Proof. solve_decision. Defined.
Arguments mkObject {OT} k o_Meta o_Body.
Arguments o_Meta {OT k}.
Arguments o_Body {OT k}.

(** ** Constants of api/v1 *)
Definition DefaultIShieldWebhookTimeout : Z := 10.
Definition CleanupFinalizerName := "cleanup.finalizers.integrityshield.io".
Definition CsvPath := "./bundle/manifests/integrity-shield-operator.clusterserviceversion.yaml".

(** ** Configuration maps, secrets, definitions (config.go, secret.go, crd.go) *)
Section builders.
Context {OT : OpTypes}.
Implicit Type cr : IntegrityShield.

Definition is_Name cr : string := Name (is_Meta cr).
Definition is_Namespace cr : string := Namespace (is_Meta cr).

Definition BuildReqConfigForIShield cr : Object KConfigMap :=
  let data := {[ RequestHandlerConfigKey (Spec cr) := RequestHandlerConfigText (Spec cr) ]} in
  mkObject KConfigMap
    (newMeta (RequestHandlerConfigName (Spec cr)) (is_Namespace cr) None) data.

Definition BuildACConfigForIShield cr : Object KConfigMap :=
  let data := {[ AdmissionControllerConfigKey (Spec cr)
                 := AdmissionControllerConfigText (Spec cr) ]} in
  mkObject KConfigMap
    (newMeta (AdmissionControllerConfigName (Spec cr)) (is_Namespace cr) None) data.

Definition emptyTls : SecretT :=
  mkSecretT {[ "tls.crt" := ""; "tls.key" := ""; "ca.crt" := "" ]} "kubernetes.io/tls".

Definition BuildTlsSecretForIShield cr : Object KSecret :=
  mkObject KSecret (newMeta (APITlsSecretName (Spec cr)) (is_Namespace cr) None) emptyTls.

Definition BuildAPITlsSecretForIShield cr : Object KSecret :=
  mkObject KSecret
    (newMeta (WebhookServerTlsSecretName (Spec cr)) (is_Namespace cr) None) emptyTls.

Definition buildCRD (name namespace : string) (crdNames : CRDNames) (namespaced : bool)
    : Object KCRD :=
  let trueVar := true in
  let scope := if negb namespaced then "Cluster" else "Namespaced" in
  mkObject KCRD (newMeta name namespace None)
    (mkCRDSpec "apis.integrityshield.io" crdNames scope
       [mkCRDVersion "v1" true true (Some trueVar)] Rest_zero).

Definition BuildManifestIntegrityProfileCRD cr : Object KCRD :=
  let crdNames := mkCRDNames "ManifestIntegrityProfile" "manifestintegrityprofiles"
    "ManifestIntegrityProfileList" "manifestintegrityprofile" ["mip"; "mips"] in
  buildCRD "manifestintegrityprofiles.apis.integrityshield.io" (is_Namespace cr) crdNames false.

Definition BuildObserverResultCRD cr : Object KCRD :=
  let crdNames := mkCRDNames "ManifestIntegrityState" "manifestintegritystates"
    "ManifestIntegrityStateList" "manifestintegritystate" ["mis"] in
  buildCRD "manifestintegritystates.apis.integrityshield.io" (is_Namespace cr) crdNames true.

(** ** Gatekeeper (gatekeeper.go) *)

Definition BuildConstraintTemplateForIShield cr : Object KTemplate :=
  let rego := Replace1 (Rego (Spec cr)) "REPLACE_WITH_SERVER_NAMESPSCE" (is_Namespace cr) in
  mkObject KTemplate (newMeta "manifestintegrityconstraint" (is_Namespace cr) None)
    (mkConstraintTemplate "ManifestIntegrityConstraint" (Some true)
       [("admission.k8s.gatekeeper.sh", rego)]).

(** ** Access control (role.go) *)

Definition securityLabels cr : StringMap := Some {[
  "app" := is_Name cr;
  "app.kubernetes.io/name" := is_Name cr;
  "app.kubernetes.io/managed-by" := "operator";
  "role" := "security" ]}.

Definition BuildServiceAccountForIShield cr : Object KServiceAccount :=
  mkObject KServiceAccount (newMeta (APIServiceAccountName (Security (Spec cr)))
    (is_Namespace cr) (securityLabels cr)) tt.

Definition BuildServiceAccountForObserver cr : Object KServiceAccount :=
  mkObject KServiceAccount (newMeta (ObserverServiceAccountName (Security (Spec cr)))
    (is_Namespace cr) (securityLabels cr)) tt.

Definition BuildClusterRoleForIShield cr : Object KClusterRole :=
  mkObject KClusterRole (newMeta (APIRole (Security (Spec cr))) (is_Namespace cr)
    (securityLabels cr))
    [mkPolicyRule ["apis.integrityshield.io"] ["manifestintegrityprofiles"]
       ["get"; "list"; "watch"; "patch"; "update"];
     mkPolicyRule [""] ["events"] ["create"; "update"; "get"];
     mkPolicyRule ["*"] ["*"] ["get"; "list"]].

Definition BuildClusterRoleBindingForIShield cr : Object KClusterRoleBinding :=
  mkObject KClusterRoleBinding (newMeta (APIRoleBinding (Security (Spec cr)))
    (is_Namespace cr) (securityLabels cr))
    (mkRoleBinding
       [mkSubject "ServiceAccount" (APIServiceAccountName (Security (Spec cr))) (is_Namespace cr)]
       (mkRoleRef "rbac.authorization.k8s.io" "ClusterRole" (APIRole (Security (Spec cr))))).

Definition BuildRoleForIShield cr : Object KRole :=
  mkObject KRole (newMeta (APIRole (Security (Spec cr))) (is_Namespace cr) (securityLabels cr))
    [mkPolicyRule ["*"] ["*"] ["get"; "list"; "create"; "update"]].

Definition BuildClusterRoleForObserver cr : Object KClusterRole :=
  mkObject KClusterRole (newMeta (ObserverRole (Security (Spec cr))) (is_Namespace cr)
    (securityLabels cr))
    [mkPolicyRule ["*"] ["*"] ["get"; "list"]].

Definition BuildRoleForObserver cr : Object KRole :=
  mkObject KRole (newMeta (ObserverRole (Security (Spec cr))) (is_Namespace cr)
    (securityLabels cr))
    [mkPolicyRule ["apis.integrityshield.io"; ""] ["manifestintegritystates"; "configmaps"]
       ["get"; "list"; "create"; "watch"; "patch"; "update"]].

Definition BuildRoleBindingForIShield cr : Object KRoleBinding :=
  mkObject KRoleBinding (newMeta (APIRoleBinding (Security (Spec cr))) (is_Namespace cr)
    (securityLabels cr))
    (mkRoleBinding
       [mkSubject "ServiceAccount" (APIServiceAccountName (Security (Spec cr))) (is_Namespace cr);
        mkSubject "ServiceAccount" (ObserverServiceAccountName (Security (Spec cr)))
          (is_Namespace cr)]
       (mkRoleRef "rbac.authorization.k8s.io" "Role" (APIRole (Security (Spec cr))))).

Definition BuildRoleBindingForObserver cr : Object KRoleBinding :=
  mkObject KRoleBinding (newMeta (ObserverRoleBinding (Security (Spec cr)))
    (is_Namespace cr) (securityLabels cr))
    (mkRoleBinding
       [mkSubject "ServiceAccount" (ObserverServiceAccountName (Security (Spec cr)))
          (is_Namespace cr)]
       (mkRoleRef "rbac.authorization.k8s.io" "Role" (ObserverRole (Security (Spec cr))))).

Definition BuildClusterRoleBindingForObserver cr : Object KClusterRoleBinding :=
  mkObject KClusterRoleBinding (newMeta (ObserverRoleBinding (Security (Spec cr)))
    (is_Namespace cr) (securityLabels cr))
    (mkRoleBinding
       [mkSubject "ServiceAccount" (ObserverServiceAccountName (Security (Spec cr)))
          (is_Namespace cr)]
       (mkRoleRef "rbac.authorization.k8s.io" "ClusterRole" (ObserverRole (Security (Spec cr))))).

(** ** Services and the webhook (webhook.go) *)

Definition BuildServiceForIShield cr : Object KService :=
  let targetport := StrVal "validator-port" in
  mkObject KService (newMeta (WebhookServiceName (Spec cr)) (is_Namespace cr) None)
    (mkService [mkServicePort 443 targetport]
       (cc_SelectorLabels (ControllerContainer (Spec cr)))).

Definition BuildAPIServiceForIShield cr : Object KService :=
  let targetport := StrVal "ishield-api" in
  mkObject KService (newMeta (ApiServiceName (Spec cr)) (is_Namespace cr) None)
    (mkService [mkServicePort (ApiServicePort (Spec cr)) targetport]
       (api_SelectorLabels (API (Spec cr)))).

Definition withScope (scope : string) (r : Rule) : Rule :=
  mkRule (ru_APIGroups r) (ru_APIVersions r) (ru_Resources r) (Some scope).

Definition BuildValidatingWebhookConfigurationForIShield cr : Object KWebhook :=
  let namespacedRule := withScope "Namespaced" (WebhookNamespacedResource (Spec cr)) in
  let clusterRule := withScope "Cluster" (WebhookClusterResource (Spec cr)) in
  let path := Some "/validate-resource" in
  let sideEffect := "NoneOnDryRun" in
  let timeoutSeconds := int32 DefaultIShieldWebhookTimeout in
  let rules := [mkRuleOps ["CREATE"; "UPDATE"] namespacedRule;
                mkRuleOps ["CREATE"; "UPDATE"] clusterRule] in
  mkObject KWebhook (newMeta (WebhookConfigName (Spec cr)) (is_Namespace cr) None)
    [mkWebhook ("ac-server." +:+ is_Namespace cr +:+ ".svc")
       (WebhookServiceName (Spec cr)) (is_Namespace cr) path "" rules (Some sideEffect)
       (Some timeoutSeconds) ["v1beta1"]].

(** ** Images and deployments (deploy.go) *)

Definition SetImageVersion (image version name : string) : string :=
  let slice := Split image "/" in
  let tmpImage := default "" (last slice) in
  let registry := Replace1 image tmpImage "" in
  let img := if Contains tmpImage ":" then default "" (head (Split tmpImage ":"))
             else tmpImage in
  registry +:+ img +:+ ":" +:+ version.
End builders.

(** A decoded YAML value, as far as [GetVersion] looks at it. *)
Inductive YVal := YString (s : string) | YMap (l : list (string * YVal)) | YOther.

(** The value of a key; a missing key reads as the nil interface. *)
Definition ymap_get (l : list (string * YVal)) (k : string) : YVal :=
  default YOther (snd <$> head (filter (λ kv, kv.1 = k) l)).

(** [ioutil.ReadFile] and [yaml.Unmarshal] into a map; [[]] is the nil map. *)
Class OpFiles := {
  ReadFile : string → res string;
  yaml_map : string → list (string * YVal) }.

Section deployments.
Context {OT : OpTypes} {OF : OpFiles}.
Implicit Type cr : IntegrityShield.

Definition GetVersion (name : string) : string :=
  let fpath := Clean CsvPath in
  let tmpBytes := match ReadFile fpath with Good b => b | Bad _ => "" end in
  let tmpCsv := yaml_map tmpBytes in
  let spec := match ymap_get tmpCsv "spec" with YMap m => m | _ => [] end in
  match ymap_get spec "version" with YString v => v | _ => "" end.

(** The image of a container: its tag, or the version of the bundle. *)
Definition imageOf (image tag name : string) : string :=
  if bool_decide (tag ≠ "") then SetImageVersion image tag name
  else let version := GetVersion name in SetImageVersion image version name.

Definition int420Var : Z := 420.
Definition SecretVolume (name secretName : string) : Volume :=
  mkVolume name (SecretVolumeSource secretName int420Var).
Definition EmptyDirVolume (name : string) : Volume := mkVolume name EmptyDirVolumeSource.

Definition newEnv (name value : string) : EnvVar := mkEnv name value Rest_zero.

(** The deployment around one container; the three builders below share it. *)
Definition deploymentOf cr (name : string) (selector : StringMap) (serviceAccount : string)
    (containers : list Container) (volumes : list Volume) : Object KDeployment :=
  mkObject KDeployment (newMeta name (is_Namespace cr) (MetaLabels (Spec cr)))
    (mkDeployment
       (mkDeploymentSpec (MaxSurge (Spec cr)) (MaxUnavailable (Spec cr))
          (ReplicaCount (Spec cr)) selector
          (mkTemplate selector None
             (mkPodSpec serviceAccount (sc_PodSecurityContext (Security (Spec cr))) containers
                (NodeSelector (Spec cr)) (is_Affinity (Spec cr)) (Tolerations (Spec cr))
                volumes)))
       0).

Definition apiEnv cr : list EnvVar := [
  newEnv "POD_NAMESPACE" (is_Namespace cr);
  newEnv "REQUEST_HANDLER_CONFIG_KEY" (RequestHandlerConfigKey (Spec cr));
  newEnv "REQUEST_HANDLER_CONFIG_NAME" (RequestHandlerConfigName (Spec cr)) ].

Definition BuildDeploymentForIShieldAPI cr : Object KDeployment :=
  let a := API (Spec cr) in
  let volumes := [SecretVolume "ishield-api-certs" (APITlsSecretName (Spec cr));
                  EmptyDirVolume "tmp"] in
  let volumemounts := [mkMount "/run/secrets/tls" "ishield-api-certs" true Rest_zero;
                       mkMount "/tmp" "tmp" false Rest_zero] in
  let image := imageOf (api_Image a) (api_Tag a) (api_Name a) in
  let apiContainer := mkContainer (api_Name a) [] [] image (api_ImagePullPolicy a)
    (api_SecurityContext a)
    (Some (mkProbe 10 10 (HTTPGet "/health/readiness" (IntVal 8080) "HTTPS")))
    (Some (mkProbe 10 10 (HTTPGet "/health/liveness" (IntVal 8080) "HTTPS")))
    [mkPort "ishield-api" (api_Port a) "TCP" Rest_zero]
    volumemounts (apiEnv cr) (api_Resources a) in
  deploymentOf cr (api_Name a) (api_SelectorLabels a)
    (APIServiceAccountName (Security (Spec cr))) [apiContainer] volumes.

Definition controllerEnv cr : list EnvVar := [
  newEnv "POD_NAMESPACE" (is_Namespace cr);
  newEnv "LOG_LEVEL" (cc_LogLevel (ControllerContainer (Spec cr)));
  newEnv "LOG_FORMAT" (cc_LogFormat (ControllerContainer (Spec cr)));
  newEnv "CONTROLLER_CONFIG_KEY" (AdmissionControllerConfigKey (Spec cr));
  newEnv "CONTROLLER_CONFIG_NAME" (AdmissionControllerConfigName (Spec cr));
  newEnv "REQUEST_HANDLER_CONFIG_KEY" (RequestHandlerConfigKey (Spec cr));
  newEnv "REQUEST_HANDLER_CONFIG_NAME" (RequestHandlerConfigName (Spec cr)) ].

Definition BuildDeploymentForAdmissionController cr : Object KDeployment :=
  let c := ControllerContainer (Spec cr) in
  let volumes := [SecretVolume "webhook-tls" (WebhookServerTlsSecretName (Spec cr));
                  EmptyDirVolume "tmp"] in
  let servervolumemounts := [mkMount "/run/secrets/tls" "webhook-tls" true Rest_zero;
                             mkMount "/tmp" "tmp" false Rest_zero] in
  let image := imageOf (cc_Image c) (cc_Tag c) (cc_Name c) in
  let serverContainer := mkContainer (cc_Name c) ["/myapp/k8s-manifest-sigstore"] [] image
    (cc_ImagePullPolicy c) (cc_SecurityContext c)
    (Some (mkProbe 0 0 (Exec ["ls"]))) (Some (mkProbe 0 0 (Exec ["ls"])))
    [mkPort "validator-port" (cc_Port c) "TCP" Rest_zero]
    servervolumemounts (controllerEnv cr) (cc_Resources c) in
  deploymentOf cr (cc_Name c) (cc_SelectorLabels c)
    (APIServiceAccountName (Security (Spec cr))) [serverContainer] volumes.

Definition observerEnv cr : list EnvVar := [
  newEnv "POD_NAMESPACE" (is_Namespace cr);
  newEnv "LOG_LEVEL" (obs_LogLevel (is_Observer (Spec cr)));
  newEnv "REQUEST_HANDLER_CONFIG_KEY" (RequestHandlerConfigKey (Spec cr));
  newEnv "REQUEST_HANDLER_CONFIG_NAME" (RequestHandlerConfigName (Spec cr));
  newEnv "ENABLE_DETAIL_RESULT" (FormatBool (ExportDetailResult (is_Observer (Spec cr))));
  newEnv "ENABLE_PROVENANCE_RESULT" (FormatBool (Provenanece (is_Observer (Spec cr))));
  newEnv "OBSERVER_RESULT_CONFIG_NAME" (ResultDetailConfigName (is_Observer (Spec cr)));
  newEnv "OBSERVER_RESULT_CONFIG_KEY" (ResultDetailConfigKey (is_Observer (Spec cr)));
  newEnv "INTERVAL" (Interval (is_Observer (Spec cr))) ].

Definition BuildDeploymentForObserver cr : Object KDeployment :=
  let o := is_Observer (Spec cr) in
  let volumes := [EmptyDirVolume "tmp"] in
  let servervolumemounts := [mkMount "/tmp" "tmp" false Rest_zero] in
  let image := imageOf (obs_Image o) (obs_Tag o) (obs_Name o) in
  let serverContainer := mkContainer (obs_Name o) [] [] image (obs_ImagePullPolicy o)
    (obs_SecurityContext o) None None [] servervolumemounts (observerEnv cr)
    (obs_Resources o) in
  deploymentOf cr (obs_Name o) (obs_SelectorLabels o)
    (ObserverServiceAccountName (Security (Spec cr))) [serverContainer] volumes.

(** *** Comparison of deployments *)

Definition EqualLabels (found expected : StringMap) : bool := bool_decide (found = expected).
Definition EqualAnnotations (found expected : StringMap) : bool :=
  bool_decide (found = expected).

Definition EqualContainers (expected found : Container) : bool :=
  bool_decide (c_Name found = c_Name expected)
  && bool_decide (c_Image found = c_Image expected)
  && bool_decide (c_ImagePullPolicy found = c_ImagePullPolicy expected)
  && bool_decide (c_VolumeMounts found = c_VolumeMounts expected)
  && bool_decide (c_SecurityContext found = c_SecurityContext expected)
  && bool_decide (c_Ports found = c_Ports expected)
  && bool_decide (c_Args found = c_Args expected)
  && bool_decide (c_Env found = c_Env expected).

(** Containers[0] of an empty list is an index error. *)
Definition EqualPods (expected found : PodTemplateSpec) : outcome bool :=
  if negb (EqualLabels (pt_Labels found) (pt_Labels expected)) then Ret false
  else if negb (EqualAnnotations (pt_Annotations found) (pt_Annotations expected)) then Ret false
  else if negb (bool_decide (ServiceAccountName (pt_Spec found)
                             = ServiceAccountName (pt_Spec expected))) then Ret false
  else if negb (length (Containers (pt_Spec found))
                =? length (Containers (pt_Spec expected)))%nat then Ret false
  else match Containers (pt_Spec expected), Containers (pt_Spec found) with
  | e :: _, f :: _ => if negb (EqualContainers e f) then Ret false else Ret true
  | _, _ => Panic "index out of range [0] with length 0"
  end.

Definition EqualDeployments (expected found : Object KDeployment) : outcome bool :=
  if negb (EqualLabels (Labels (o_Meta found)) (Labels (o_Meta expected))) then Ret false
  else match EqualPods (Template (dp_Spec (o_Body expected)))
                       (Template (dp_Spec (o_Body found))) with
  | Ret false => Ret false
  | Ret true => Ret true
  | Panic e => Panic e
  end.
End deployments.

(** ** Image names *)

(** The image of a deployment: for an image reference [registry/name:tag] whose
    last component occurs nowhere earlier in the reference, the result is the same
    registry and name with the requested version as tag. *)
Theorem SetImageVersion_spec reg base tag v nm :
  (reg = "" ∨ ∃ r, reg = r +:+ "/") →
  Contains (base +:+ tag) "/" = false → Contains base ":" = false →
  (tag = "" ∨ ∃ t, tag = ":" +:+ t) →
  (∀ p q, reg +:+ (base +:+ tag) = p +:+ (base +:+ tag) +:+ q → q = "") →
  SetImageVersion (reg +:+ (base +:+ tag)) v nm = reg +:+ base +:+ ":" +:+ v.
Proof.
  intros Hreg Hslash Hcolon Htag Hq. unfold SetImageVersion.
  assert (default "" (last (Split (reg +:+ (base +:+ tag)) "/")) = base +:+ tag) as ->.
  { unfold Split. destruct Hreg as [->|[r ->]].
    - change ("" +:+ (base +:+ tag)) with (base +:+ tag).
      by rewrite (split_aux_char_none "/"%char "" _ Hslash).
    - rewrite <-sapp_assoc. change ("/" +:+ (base +:+ tag)) with (String "/"%char (base +:+ tag)).
      by rewrite last_split_aux_char. }
  rewrite Replace1_suffix by done. f_equal.
  destruct Htag as [->|[t ->]].
  - rewrite sapp_nil_r, Hcolon. done.
  - change (base +:+ (":" +:+ t)) with (base +:+ String ":"%char t).
    rewrite Contains_char_app. unfold Split. by rewrite split_aux_char.
Qed.

(** An image whose name equals an earlier component loses that component. *)
Example SetImageVersion_repeated_name :
  SetImageVersion "nginx/nginx" "1.0" "c" = "/nginxnginx:1.0".
Proof. reflexivity. Qed.
