(* ===== verification/Managers.v ===== *)
(** * The programs that run on controller-runtime

    [webhook/admission-controller/main.go] with the initialiser of
    [pkg/controller/webhook.go], and [integrity-shield-operator/main.go] with
    [SetupWithManager].  The manager of controller-runtime is the parameter
    [CtrlRuntime]: which of its calls fail.  What a program has registered when it
    starts the manager is recorded in [Manager].  Command-line flags are taken as
    parsed. *)
From S2P Require Import Prelude GoStrings World ShieldConfig Demo ImageVerify RequestHandler.
From S2P Require Import Admission OperatorResources.
From stdpp Require Import base gmap strings list.
From Stdlib Require Import ZArith Lia.

Local Open Scope string_scope.

(** ** The manager *)

(** [ctrl.Options]; an unset field has Go's zero value. *)
Record ManagerOptions := mkOptions {
  MetricsBindAddress : string;
  mo_Port : Z;
  HealthProbeBindAddress : string;
  LeaderElection : bool;
  LeaderElectionID : string;
  CertDir : string }.

Record Manager (H : Type) := mkManager {
  mg_Options : ManagerOptions;
  mg_Webhooks : list (string * H);            (* GetWebhookServer().Register *)
  mg_Controllers : list string;               (* kinds reconciled *)
  mg_Healthz : list string;
  mg_Readyz : list string }.
Arguments mkManager {H}.
Arguments mg_Options {H}.
Arguments mg_Webhooks {H}.
Arguments mg_Controllers {H}.
Arguments mg_Healthz {H}.
Arguments mg_Readyz {H}.

Class CtrlRuntime := {
  rt_GetConfig : option error;
  rt_NewManager : ManagerOptions → option error;
  rt_AddToScheme : string → option error;     (* by Go package *)
  rt_Complete : string → option error;        (* For(kind).Complete *)
  rt_AddHealthzCheck : string → option error;
  rt_AddReadyzCheck : string → option error;
  rt_Start : option error }.                  (* nil after a termination signal *)

(** How a program ends: the exit code, and the manager it started, if it did. *)
Record ending (H : Type) := mkEnding { exit_code : Z; started : option (Manager H) }.
Arguments mkEnding {H}.
Arguments exit_code {H}.
Arguments started {H}.

(** ** The admission controller *)

Section webhook_program.
Context {T : ExtTypes} {L : ExtLib T} {O : OS} {K : Kube} {S : Sigstore T K}
  {Y : ShieldYaml T} {AY : AdmissionYaml} {MC : MipClient T K} {R : CtrlRuntime}.

(** [init] of package controller: the logger from the environment, cosign's keys. *)
Definition webhook_init (cosign_Init : Files → Files) : M World unit :=
  format ← Getenv "LOG_FORMAT";
  _ ← (if bool_decide (format = "json")
       then modifyW (λ w, set_log (w_level w) true w) else mret tt);
  logLevelStr ← env_or "LOG_LEVEL" "info";
  let logLevel := default InfoLevel (logLevelMap !! logLevelStr) in
  _ ← modifyW (λ w, set_log logLevel (w_jsonlog w) w);
  modifyW (λ w, set_files (cosign_Init (w_files w)) w).

Definition webhook_tlsDir := "/run/secrets/tls".

(** [k8sManifestHandler.Handle] *)
Definition Handle (req : Request) : M World Response :=
  res ← ProcessRequest req; mret res.

Definition webhook_main (metricsAddr : string) (enableLeaderElection : bool)
    : ending (Request → M World Response) :=
  match rt_GetConfig with
  | Some _ => mkEnding 1 None                          (* GetConfigOrDie *)
  | None =>
    let options := mkOptions metricsAddr 9443 "" enableLeaderElection
                     "22a603b9.sigstore.dev" webhook_tlsDir in
    match rt_NewManager options with
    | Some _ => mkEnding 1 None
    | None =>
      let mgr := mkManager options [("/validate-resource", Handle)] [] [] [] in
      match rt_Start with
      | Some _ => mkEnding 1 (Some mgr)
      | None => mkEnding 0 (Some mgr)
      end
    end
  end.

Lemma webhook_main_cases metricsAddr lead :
  let e := webhook_main metricsAddr lead in
  (exit_code e = 0 ∨ exit_code e = 1)%Z ∧
  (exit_code e = 0%Z ↔ rt_GetConfig = None ∧ started e ≠ None ∧ rt_Start = None) ∧
  (∀ mgr, started e = Some mgr →
     mg_Webhooks mgr = [("/validate-resource", Handle)] ∧ mo_Port (mg_Options mgr) = 9443%Z ∧
     CertDir (mg_Options mgr) = webhook_tlsDir).
Proof.
  unfold webhook_main. destruct rt_GetConfig; [naive_solver|].
  destruct (rt_NewManager _); [naive_solver|].
  destruct rt_Start; simpl; (split; [lia|]); split; naive_solver.
Qed.
Lemma Handle_run req w : Handle req w = ProcessRequest req w.
Proof. apply M_bind_ret_r. Qed.

(** The initialiser of the webhook always returns; it sets the level named by
    [LOG_LEVEL] (info when unset or unknown), switches to JSON exactly when
    [LOG_FORMAT] asks for it, and leaves environment and cluster alone. *)
Theorem webhook_init_spec cosign w :
  runs (webhook_init cosign) w (λ _ w',
    w_level w' = (if bool_decide (getenv w "LOG_LEVEL" = "") then InfoLevel
                  else default InfoLevel (logLevelMap !! getenv w "LOG_LEVEL")) ∧
    w_jsonlog w' = bool_decide (getenv w "LOG_FORMAT" = "json") || w_jsonlog w ∧
    w_env w' = w_env w ∧ w_cluster w' = w_cluster w ∧ w_files w' = cosign (w_files w)).
Proof.
  unfold webhook_init. run_step. apply runs_asksW. run_step.
  case_bool_decide; run_step; run_step; apply runs_env_or; run_step; run_step; run_step; simpl;
    unfold envor; change (getenv (set_log (w_level w) true w) "LOG_LEVEL") with (getenv w "LOG_LEVEL");
    case_bool_decide; done.
Qed.
End webhook_program.

(** ** The operator *)

Section operator_program.
Context {R : CtrlRuntime}.

(** The packages whose types [init] adds to the scheme. *)
Definition operator_schemes : list string :=
  [ "k8s.io/client-go/kubernetes/scheme";
    "github.com/IBM/integrity-shield/integrity-shield-operator/api/v1";
    "k8s.io/apiextensions-apiserver/pkg/apis/apiextensions/v1";
    "k8s.io/apiextensions-apiserver/pkg/apis/apiextensions/v1beta1";
    "github.com/openshift/api/security/v1";
    "github.com/open-policy-agent/frameworks/constraint/pkg/apis/templates/v1beta1" ].

(** [utilruntime.Must(AddToScheme(scheme))] for each of them; the state is the list
    of the packages added so far. *)
Definition operator_init : M (list string) unit :=
  forM operator_schemes (λ pkg,
    match rt_AddToScheme pkg with
    | Some err => panic (Error err)
    | None => modifyW (λ s, s ++ [pkg])%list
    end).

(** [IntegrityShieldReconciler.SetupWithManager] *)
Definition SetupWithManager {H} (mgr : Manager H) : res (Manager H) :=
  match rt_Complete "IntegrityShield" with
  | Some err => Bad err
  | None => Good (mkManager (mg_Options mgr) (mg_Webhooks mgr)
                    (mg_Controllers mgr ++ ["IntegrityShield"])%list
                    (mg_Healthz mgr) (mg_Readyz mgr))
  end.

Definition operator_main (metricsAddr probeAddr : string) (enableLeaderElection : bool)
    : ending unit :=
  match rt_GetConfig with
  | Some _ => mkEnding 1 None
  | None =>
    let options := mkOptions metricsAddr 9443 probeAddr enableLeaderElection
                     "0a5e7a77.integrityshield.io" "" in
    match rt_NewManager options with
    | Some _ => mkEnding 1 None
    | None =>
      match SetupWithManager (mkManager options [] [] [] []) with
      | Bad _ => mkEnding 1 None
      | Good mgr =>
        match rt_AddHealthzCheck "healthz" with
        | Some _ => mkEnding 1 None
        | None =>
          match rt_AddReadyzCheck "readyz" with
          | Some _ => mkEnding 1 None
          | None =>
            let mgr := mkManager (mg_Options mgr) (mg_Webhooks mgr) (mg_Controllers mgr)
                         ["healthz"] ["readyz"] in
            match rt_Start with
            | Some _ => mkEnding 1 (Some mgr)
            | None => mkEnding 0 (Some mgr)
            end
          end
        end
      end
    end
  end.

(** The package that declares the Go type of a kind. *)
Definition packageOf (k : kind) : string :=
  match k with
  | KCRD => "k8s.io/apiextensions-apiserver/pkg/apis/apiextensions/v1"
  | KTemplate => "github.com/open-policy-agent/frameworks/constraint/pkg/apis/templates/v1beta1"
  | _ => "k8s.io/client-go/kubernetes/scheme"
  end.


Lemma SetupWithManager_Good {H} (mgr mgr' : Manager H) :
  SetupWithManager mgr = Good mgr' →
  mg_Options mgr' = mg_Options mgr ∧ mg_Controllers mgr' = (mg_Controllers mgr ++ ["IntegrityShield"])%list.
Proof. unfold SetupWithManager. destruct (rt_Complete _); by intros; simplify_eq/=. Qed.

(** The operator exits with 0 exactly when every step of its start-up and the
    manager's run succeed; whenever the manager is started, the reconciler of the
    custom resource and both probes are registered. *)
Theorem operator_main_ending metricsAddr probeAddr lead :
  let e := operator_main metricsAddr probeAddr lead in
  (exit_code e = 0 ∨ exit_code e = 1)%Z ∧
  (exit_code e = 0%Z ↔ started e ≠ None ∧ rt_Start = None) ∧
  (∀ mgr, started e = Some mgr →
     mg_Controllers mgr = ["IntegrityShield"] ∧ mg_Healthz mgr = ["healthz"] ∧
     mg_Readyz mgr = ["readyz"] ∧ HealthProbeBindAddress (mg_Options mgr) = probeAddr).
Proof.
  unfold operator_main. destruct rt_GetConfig; [naive_solver|].
  destruct (rt_NewManager _); [naive_solver|].
  destruct (SetupWithManager _) as [mgr|e] eqn:Es; [|naive_solver].
  apply SetupWithManager_Good in Es as [Ho Hc]. simpl in Hc.
  destruct (rt_AddHealthzCheck _); [naive_solver|]. destruct (rt_AddReadyzCheck _); [naive_solver|].
  destruct rt_Start; simpl; (split; [lia|]); split; try naive_solver;
    intros mgr' [= <-]; simpl; by rewrite Ho, Hc.
Qed.
End operator_program.

(** ** A runtime whose calls all succeed *)

Module ManagersDemo.
Definition calmRuntime : CtrlRuntime := {|
  rt_GetConfig := None; rt_NewManager _ := None; rt_AddToScheme _ := None;
  rt_Complete _ := None; rt_AddHealthzCheck _ := None; rt_AddReadyzCheck _ := None;
  rt_Start := None |}.
End ManagersDemo.
