(* ===== verification/Operator.v ===== *)
(** * integrity-shield-operator: the reconciler

    [controllers/integrityshield.go] (create, update and delete of every owned
    resource), [controllers/integrityshield_controller.go] ([Reconcile] and the
    finalizer) and [cert/cert.go] (the serving certificates).  The client of
    controller-runtime is the interface [OpClient]; [OpClientLaws] states what
    its documentation promises. *)
From S2P Require Import Prelude GoStrings OperatorResources.
From stdpp Require Import base gmap strings list.
From Stdlib Require Import ZArith Lia.

Local Open Scope string_scope.

(** ** The Kubernetes API and the other libraries *)

(** [x509.Certificate] templates, with the fields [GenerateCert] sets. *)
Record CertTemplate := mkCertTemplate {
  SerialNumber : Z; CommonName : string; IsCA : bool;
  ExtKeyUsage : list string; KeyUsage : list string; BasicConstraintsValid : bool;
  NotBefore : Z; NotAfter : Z; DNSNames : list string }.

Class OpClient (OT : OpTypes) := {
  OC : Type;
  cl_Get : OC → ∀ k, string → string → res (Object k);           (* namespace, name *)
  cl_Create : OC → ∀ k, Object k → option error * OC;
  cl_Update : OC → ∀ k, Object k → option error * OC;
  cl_Delete : OC → ∀ k, Object k → option error * OC;
  is_Get : OC → string → string → res IntegrityShield;
  is_Update : OC → IntegrityShield → option error * OC;
  (* controllerutil.SetControllerReference on the metadata of the owned object *)
  SetControllerReference : IntegrityShield → ObjectMeta → res ObjectMeta;
  op_clock : nat → Z;
  AddYears : Z → Z → Z;
  (* crypto/rsa, crypto/x509, encoding/pem; the first argument is the entropy *)
  PrivateKey : Type;
  rsa_GenerateKey : nat → res PrivateKey;
  MarshalPKCS1PrivateKey : PrivateKey → string;
  CreateCertificate : nat → CertTemplate → CertTemplate → PrivateKey → PrivateKey → res string;
  pem_Encode : string → string → res string }.

Section operator.
Context {OT : OpTypes} {OF : OpFiles} {C : OpClient OT}.

Record OpWorld := mkOpWorld { ow_cluster : OC; ow_ticks : nat }.

Definition op_tick : M OpWorld nat := λ w, (Ret (ow_ticks w), mkOpWorld (ow_cluster w) (S (ow_ticks w))).
Definition op_Now : M OpWorld Z := n ← op_tick; mret (op_clock n).

Definition opGet (k : kind) (ns name : string) : M OpWorld (res (Object k)) :=
  asksW (λ w, cl_Get (ow_cluster w) k ns name).
Definition opWrite (f : OC → option error * OC) : M OpWorld (option error) := λ w,
  let '(e, c) := f (ow_cluster w) in (Ret e, mkOpWorld c (ow_ticks w)).
Definition opCreate {k} (o : Object k) : M OpWorld (option error) :=
  opWrite (λ c, cl_Create c k o).
Definition opUpdate {k} (o : Object k) : M OpWorld (option error) :=
  opWrite (λ c, cl_Update c k o).
Definition opDelete {k} (o : Object k) : M OpWorld (option error) :=
  opWrite (λ c, cl_Delete c k o).

(** ** Results of a step *)

(** [ctrl.Result]; [RequeueAfter] in seconds. *)
Record Result := mkResult { Requeue : bool; RequeueAfter : Z }.
Definition done_ : Result := mkResult false 0.
Definition again : Result := mkResult true 0.
Definition soon : Result := mkResult true 1.

Abbreviation Step := (M OpWorld (Result * option error)).

(** ** Create and update *)

(** The skeleton of every [createOrUpdate...]: own the object, look it up under
    [ns], create it when it is missing, hand over to [onFound] otherwise. *)
Definition getOrCreate {k} (instance : IntegrityShield) (expected : Object k) (ns : string)
    (onFound : Object k → Object k → Step) : Step :=
  match SetControllerReference instance (o_Meta expected) with
  | Bad err => mret (done_, Some err)
  | Good meta =>
      let expected := mkObject k meta (o_Body expected) in
      r ← opGet k ns (Name meta);
      match r with
      | Bad err =>
          if IsNotFound err then
            e ← opCreate expected;
            mret (match e with
                  | Some err => if IsAlreadyExists err then (again, None) else (done_, Some err)
                  | None => (soon, None)
                  end)
          else mret (done_, Some err)
      | Good found => onFound expected found
      end
  end.

(** No reconcile was necessary. *)
Definition keepFound {k} (expected found : Object k) : Step := mret (done_, None).

Definition updateCRD (expected found : Object KCRD) : Step :=
  if negb (bool_decide (o_Body expected = o_Body found)) then
    e ← opUpdate (mkObject KCRD (o_Meta found) (o_Body expected));
    mret (match e with Some err => (done_, Some err) | None => (done_, None) end)
  else mret (done_, None).

Definition createOrUpdateCRD (instance : IntegrityShield) (expected : Object KCRD) : Step :=
  getOrCreate instance expected "" updateCRD.
Definition createOrUpdateConfigMap (instance : IntegrityShield)
    (expected : Object KConfigMap) : Step :=
  getOrCreate instance expected (Namespace (o_Meta expected)) keepFound.
Definition createOrUpdateServiceAccount (instance : IntegrityShield)
    (expected : Object KServiceAccount) : Step :=
  getOrCreate instance expected (is_Namespace instance) keepFound.
Definition createOrUpdateClusterRole (instance : IntegrityShield)
    (expected : Object KClusterRole) : Step :=
  getOrCreate instance expected "" keepFound.
Definition createOrUpdateClusterRoleBinding (instance : IntegrityShield)
    (expected : Object KClusterRoleBinding) : Step :=
  getOrCreate instance expected "" keepFound.
Definition createOrUpdateRole (instance : IntegrityShield) (expected : Object KRole) : Step :=
  getOrCreate instance expected (is_Namespace instance) keepFound.
Definition createOrUpdateRoleBinding (instance : IntegrityShield)
    (expected : Object KRoleBinding) : Step :=
  getOrCreate instance expected (is_Namespace instance) keepFound.
Definition createOrUpdateSecret (instance : IntegrityShield) (expected : Object KSecret) : Step :=
  getOrCreate instance expected (is_Namespace instance) keepFound.
Definition createOrUpdateService (instance : IntegrityShield) (expected : Object KService) : Step :=
  getOrCreate instance expected (is_Namespace instance) keepFound.

Definition withLabels (m : ObjectMeta) (l : StringMap) : ObjectMeta :=
  mkMeta (Name m) (Namespace m) l (Annotations m) (Finalizers m) (DeletionTimestamp m)
    (OwnerReferences m) (om_rest m).

(** The found deployment with the labels and the spec of the expected one. *)
Definition redeploy (expected found : Object KDeployment) : Object KDeployment :=
  mkObject KDeployment (withLabels (o_Meta found) (Labels (o_Meta expected)))
    (mkDeployment (dp_Spec (o_Body expected)) (AvailableReplicas (o_Body found))).

Definition updateDeployment (expected found : Object KDeployment) : Step :=
  match EqualDeployments expected found with
  | Panic why => panic why
  | Ret true => mret (done_, None)
  | Ret false =>
      e ← opUpdate (redeploy expected found);
      mret (match e with Some err => (done_, Some err) | None => (again, None) end)
  end.

Definition createOrUpdateDeployment (instance : IntegrityShield)
    (expected : Object KDeployment) : Step :=
  getOrCreate instance expected (is_Namespace instance) updateDeployment.

(** *** Certificates *)

Definition certUsages : list string := ["ClientAuth"; "ServerAuth"].

(** [ca.crt], [tls.key], [tls.crt] and the error; the bytes are empty on error. *)
Definition GenerateCert (svcName NS : string) : M OpWorld (string * string * string * option error) :=
  let fail err := (("", "", ""), Some err) in
  s1 ← op_tick;
  match rsa_GenerateKey s1 with
  | Bad err => mret (fail err)
  | Good caKey =>
    now1 ← op_Now;
    now2 ← op_Now;
    let ca := mkCertTemplate 2020 (svcName +:+ "_ca") true certUsages
                ["DigitalSignature"; "CertSign"] true now1 (AddYears now2 2) [] in
    s2 ← op_tick;
    match CreateCertificate s2 ca ca caKey caKey with
    | Bad err => mret (fail err)
    | Good caBytes =>
      match pem_Encode "CERTIFICATE" caBytes with
      | Bad err => mret (fail err)
      | Good caPEM =>
        match pem_Encode "RSA PRIVATE KEY" (MarshalPKCS1PrivateKey caKey) with
        | Bad err => mret (fail err)
        | Good _ =>
          s3 ← op_tick;
          match rsa_GenerateKey s3 with
          | Bad err => mret (fail err)
          | Good tlsKey =>
            match pem_Encode "RSA PRIVATE KEY" (MarshalPKCS1PrivateKey tlsKey) with
            | Bad err => mret (fail err)
            | Good tlsPrivKeyPEM =>
              let cn := svcName +:+ "." +:+ NS +:+ ".svc" in
              now3 ← op_Now;
              now4 ← op_Now;
              let cert := mkCertTemplate 2020 cn false certUsages ["DigitalSignature"] false
                            now3 (AddYears now4 2) [cn] in
              s4 ← op_tick;
              match CreateCertificate s4 cert ca tlsKey caKey with
              | Bad err => mret (fail err)
              | Good certBytes =>
                match pem_Encode "CERTIFICATE" certBytes with
                | Bad err => mret (fail err)
                | Good certPEM => mret ((caPEM, tlsPrivKeyPEM, certPEM), None)
                end
              end
            end
          end
        end
      end
    end
  end.

Definition addCertValues (instance : IntegrityShield) (expected : Object KSecret)
    (serviceName : string) : M OpWorld (Object KSecret) :=
  '((ca, tlsKey, tlsCert), _) ← GenerateCert serviceName (is_Namespace instance);
  let data := s_Data (o_Body expected) in
  mret (if bool_decide (is_Some (data !! "ca.crt")) && bool_decide (is_Some (data !! "tls.crt"))
           && bool_decide (is_Some (data !! "tls.key"))
        then mkObject KSecret (o_Meta expected)
               (mkSecretT (<["ca.crt" := ca]> (<["tls.key" := tlsKey]> (<["tls.crt" := tlsCert]> data)))
                  (s_Type (o_Body expected)))
        else expected).

(** ** Deletion *)

(** The skeleton of every [delete...]: a missing object is no error. *)
Definition deleteFound (k : kind) (name : string) : Step :=
  r ← opGet k "" name;
  match r with
  | Good found =>
      e ← opDelete found;
      mret (match e with Some err => (done_, Some err) | None => (soon, None) end)
  | Bad err => if IsNotFound err then mret (soon, None) else mret (done_, Some err)
  end.

Definition deleteCRD (instance : IntegrityShield) (expected : Object KCRD) : Step :=
  deleteFound KCRD (Name (o_Meta expected)).
Definition deleteClusterRole (instance : IntegrityShield) (expected : Object KClusterRole) : Step :=
  deleteFound KClusterRole (Name (o_Meta expected)).
Definition deleteClusterRoleBinding (instance : IntegrityShield)
    (expected : Object KClusterRoleBinding) : Step :=
  deleteFound KClusterRoleBinding (Name (o_Meta expected)).
Definition deleteWebhook (instance : IntegrityShield) : Step :=
  deleteFound KWebhook (Name (o_Meta (BuildValidatingWebhookConfigurationForIShield instance))).
Definition deleteConstraintTemplate (instance : IntegrityShield) : Step :=
  deleteFound KTemplate (Name (o_Meta (BuildConstraintTemplateForIShield instance))).

(** ** One step per owned resource *)

Definition createOrUpdateManifestIntegrityProfileCRD (instance : IntegrityShield) : Step :=
  createOrUpdateCRD instance (BuildManifestIntegrityProfileCRD instance).
Definition deleteManifestIntegrityProfileCRD (instance : IntegrityShield) : Step :=
  deleteCRD instance (BuildManifestIntegrityProfileCRD instance).
Definition createOrUpdateObserverResultCRD (instance : IntegrityShield) : Step :=
  createOrUpdateCRD instance (BuildObserverResultCRD instance).
Definition deleteObserverResultCRD (instance : IntegrityShield) : Step :=
  deleteCRD instance (BuildObserverResultCRD instance).
Definition createOrUpdateRequestHandlerConfig (instance : IntegrityShield) : Step :=
  createOrUpdateConfigMap instance (BuildReqConfigForIShield instance).
Definition createOrUpdateACConfig (instance : IntegrityShield) : Step :=
  createOrUpdateConfigMap instance (BuildACConfigForIShield instance).
Definition createOrUpdateIShieldApiServiceAccount (instance : IntegrityShield) : Step :=
  createOrUpdateServiceAccount instance (BuildServiceAccountForIShield instance).
Definition createOrUpdateObserverServiceAccount (instance : IntegrityShield) : Step :=
  createOrUpdateServiceAccount instance (BuildServiceAccountForObserver instance).
Definition createOrUpdateClusterRoleBindingForIShield (instance : IntegrityShield) : Step :=
  createOrUpdateClusterRoleBinding instance (BuildClusterRoleBindingForIShield instance).
Definition deleteClusterRoleBindingForIShield (instance : IntegrityShield) : Step :=
  deleteClusterRoleBinding instance (BuildClusterRoleBindingForIShield instance).
Definition createOrUpdateClusterRoleBindingForObserver (instance : IntegrityShield) : Step :=
  createOrUpdateClusterRoleBinding instance (BuildClusterRoleBindingForObserver instance).
Definition deleteClusterRoleBindingForObserver (instance : IntegrityShield) : Step :=
  deleteClusterRoleBinding instance (BuildClusterRoleBindingForObserver instance).
Definition createOrUpdateClusterRoleForIShield (instance : IntegrityShield) : Step :=
  createOrUpdateClusterRole instance (BuildClusterRoleForIShield instance).
Definition deleteClusterRoleForIShield (instance : IntegrityShield) : Step :=
  deleteClusterRole instance (BuildClusterRoleForIShield instance).
Definition createOrUpdateClusterRoleForObserver (instance : IntegrityShield) : Step :=
  createOrUpdateClusterRole instance (BuildClusterRoleForObserver instance).
Definition deleteClusterRoleForObserver (instance : IntegrityShield) : Step :=
  deleteClusterRole instance (BuildClusterRoleForObserver instance).
Definition createOrUpdateRoleBindingForIShield (instance : IntegrityShield) : Step :=
  createOrUpdateRoleBinding instance (BuildRoleBindingForIShield instance).
Definition createOrUpdateRoleBindingForObserver (instance : IntegrityShield) : Step :=
  createOrUpdateRoleBinding instance (BuildRoleBindingForObserver instance).
Definition createOrUpdateRoleForIShield (instance : IntegrityShield) : Step :=
  createOrUpdateRole instance (BuildRoleForIShield instance).
Definition createOrUpdateRoleForObserver (instance : IntegrityShield) : Step :=
  createOrUpdateRole instance (BuildRoleForObserver instance).

Definition createOrUpdateTlsSecret (instance : IntegrityShield) : Step :=
  expected ← addCertValues instance (BuildTlsSecretForIShield instance)
               (ApiServiceName (Spec instance));
  createOrUpdateSecret instance expected.
Definition createOrUpdateACTlsSecret (instance : IntegrityShield) : Step :=
  expected ← addCertValues instance (BuildAPITlsSecretForIShield instance)
               (WebhookServiceName (Spec instance));
  createOrUpdateSecret instance expected.

Definition createOrUpdateIShieldAPIDeployment (instance : IntegrityShield) : Step :=
  createOrUpdateDeployment instance (BuildDeploymentForIShieldAPI instance).
Definition createOrUpdateAdmissionControllerDeployment (instance : IntegrityShield) : Step :=
  createOrUpdateDeployment instance (BuildDeploymentForAdmissionController instance).
Definition createOrUpdateObserverDeployment (instance : IntegrityShield) : Step :=
  createOrUpdateDeployment instance (BuildDeploymentForObserver instance).
Definition createOrUpdateWebhookService (instance : IntegrityShield) : Step :=
  createOrUpdateService instance (BuildServiceForIShield instance).
Definition createOrUpdateAPIService (instance : IntegrityShield) : Step :=
  createOrUpdateService instance (BuildAPIServiceForIShield instance).

(** ** The webhook configuration *)

Definition webhookMessage (webhookName : string) : string :=
  "[IntegrityShieldEvent] IntegrityShield reconciled MutatingWebhookConfiguration "
    +:+ bytes [34%nat] +:+ webhookName +:+ bytes [34%nat].

Definition newWebhookEvent (instance : IntegrityShield) (evtName webhookName : string) (now : Z)
    : Object KEvent :=
  mkObject KEvent
    (mkMeta evtName (is_Namespace instance) None
       (Some {[ "integrityshield.io/eventType" := "integrityshield.io/eventType" ]})
       [] None [] Rest_zero)
    (mkEventT (is_Namespace instance) (is_APIVersion instance) (is_Kind instance)
       (is_Name instance) "IntegrityShield" "IntegrityShield" "IntegrityShield" evtName evtName
       now now now (webhookMessage webhookName) "webhook-reconciled" 1).

Definition stampWebhookEvent (evtName msg : string) (now : Z) (found : EventT) : EventT :=
  mkEventT (e_InvolvedNamespace found) (e_InvolvedAPIVersion found) (e_InvolvedKind found)
    (e_InvolvedName found) (e_Type found) (e_Component found) "IntegrityShield" evtName
    (e_Action found) (e_FirstTimestamp found) now now msg "webhook-reconciled"
    (int32 (e_Count found + 1)).

Definition createOrUpdateWebhookEvent (instance : IntegrityShield)
    (evtName webhookName : string) : M OpWorld (option error) :=
  now ← op_Now;
  let expected := newWebhookEvent instance evtName webhookName now in
  r ← opGet KEvent (is_Namespace instance) evtName;
  match r with
  | Bad err =>
      if IsNotFound err then
        e ← opCreate expected;
        mret (match e with
              | Some err => if IsAlreadyExists err then None else Some err
              | None => None
              end)
      else mret (Some err)
  | Good found =>
      opUpdate (mkObject KEvent (o_Meta found)
        (stampWebhookEvent evtName (webhookMessage webhookName) now (o_Body (k := KEvent) found)))
  end.

(** [expected.Webhooks[0].ClientConfig.CABundle = cabundle] *)
Definition withCABundle (cabundle : string) (l : list ValidatingWebhook)
    : list ValidatingWebhook :=
  match l with
  | [] => []
  | w :: l' => mkWebhook (wh_Name w) (wh_ServiceName w) (wh_ServiceNamespace w) (wh_Path w)
                 cabundle (wh_Rules w) (SideEffects w) (TimeoutSeconds w)
                 (AdmissionReviewVersions w) :: l'
  end.

Definition createOrUpdateWebhook (instance : IntegrityShield) : Step :=
  let expected := BuildValidatingWebhookConfigurationForIShield instance in
  match SetControllerReference instance (o_Meta expected) with
  | Bad err => mret (done_, Some err)
  | Good meta =>
      r ← opGet KWebhook "" (Name meta);
      match r with
      | Bad err =>
          if IsNotFound err then
            secret ← opGet KSecret (is_Namespace instance)
                       (WebhookServerTlsSecretName (Spec instance));
            let data := match secret with Good s => s_Data (o_Body (k := KSecret) s) | Bad _ => ∅ end in
            let body := match data !! "ca.crt" with
                        | Some cabundle => withCABundle cabundle (o_Body expected)
                        | None => o_Body expected
                        end in
            e ← opCreate (mkObject KWebhook meta body);
            match e with
            | Some err => mret (if IsAlreadyExists err then (again, None) else (done_, Some err))
            | None =>
                _ ← createOrUpdateWebhookEvent instance "ishield-webhook-reconciled" (Name meta);
                mret (soon, None)
            end
          else mret (done_, Some err)
      | Good _ => mret (done_, None)
      end
  end.

Definition isDeploymentAvailable (instance : IntegrityShield) : M OpWorld bool :=
  let expected := BuildDeploymentForAdmissionController instance in
  r ← opGet KDeployment (Namespace (o_Meta expected)) (Name (o_Meta expected));
  mret (match r with
        | Bad _ => false
        | Good found => if (0 <? AvailableReplicas (o_Body (k := KDeployment) found))%Z then true else false
        end).

Definition createOrUpdateConstraintTemplate (instance : IntegrityShield) : Step :=
  getOrCreate instance (BuildConstraintTemplateForIShield instance) (is_Namespace instance)
    keepFound.

Definition gatekeeperCRD := "constrainttemplates.templates.gatekeeper.sh".
Definition isGatekeeperAvailable (instance : IntegrityShield) : M OpWorld bool :=
  r ← opGet KCRD "" gatekeeperCRD;
  mret (match r with Bad _ => false | Good _ => true end).

(** ** Reconcile *)

Definition containsString (slice : list string) (s : string) : bool :=
  anyb (λ item, bool_decide (item = s)) slice.
Fixpoint removeString (slice : list string) (s : string) : list string :=
  match slice with
  | [] => []
  | item :: slice' =>
      if bool_decide (item = s) then removeString slice' s
      else item :: removeString slice' s
  end.

(** [if recErr != nil || recResult.Requeue { return recResult, recErr }] *)
Definition andThen (s rest : Step) : Step :=
  '(recResult, recErr) ← s;
  if bool_decide (is_Some recErr) || Requeue recResult then mret (recResult, recErr) else rest.
Fixpoint runSteps (l : list Step) : Step :=
  match l with
  | [] => mret (done_, None)
  | s :: l' => andThen s (runSteps l')
  end.

(** [_, err = f(instance); if err != nil { return err }] *)
Fixpoint runDeletes (l : list Step) : M OpWorld (option error) :=
  match l with
  | [] => mret None
  | s :: l' =>
      '(_, err) ← s;
      match err with
      | Some err => mret (Some err)
      | None => runDeletes l'
      end
  end.

Definition deleteClusterScopedChildrenResources (instance : IntegrityShield)
    : M OpWorld (option error) :=
  err ← runDeletes [deleteClusterRoleForIShield instance;
                    deleteClusterRoleBindingForIShield instance];
  match err with
  | Some err => mret (Some err)
  | None =>
      err ← (if UseGatekeeper (Spec instance) then
               available ← isGatekeeperAvailable instance;
               if (available : bool) then runDeletes [deleteConstraintTemplate instance]
               else mret None
             else runDeletes [deleteWebhook instance;
                              deleteManifestIntegrityProfileCRD instance]);
      match err with
      | Some err => mret (Some err)
      | None =>
          if Enabled (is_Observer (Spec instance)) then
            runDeletes [deleteClusterRoleForObserver instance;
                        deleteClusterRoleBindingForObserver instance;
                        deleteObserverResultCRD instance]
          else mret None
      end
  end.

Definition commonSteps (instance : IntegrityShield) : list Step := [
  createOrUpdateRequestHandlerConfig instance;
  createOrUpdateIShieldApiServiceAccount instance;
  createOrUpdateRoleForIShield instance;
  createOrUpdateRoleBindingForIShield instance;
  createOrUpdateClusterRoleForIShield instance;
  createOrUpdateClusterRoleBindingForIShield instance ].

Definition observerSteps (instance : IntegrityShield) : list Step := [
  createOrUpdateObserverResultCRD instance;
  createOrUpdateObserverServiceAccount instance;
  createOrUpdateClusterRoleForObserver instance;
  createOrUpdateClusterRoleBindingForObserver instance;
  createOrUpdateRoleForObserver instance;
  createOrUpdateRoleBindingForObserver instance;
  createOrUpdateObserverDeployment instance ].

Definition templateStep (instance : IntegrityShield) : Step :=
  available ← isGatekeeperAvailable instance;
  if (available : bool) then createOrUpdateConstraintTemplate instance else mret (again, None).
Definition gatekeeperSteps (instance : IntegrityShield) : list Step := [
  createOrUpdateTlsSecret instance;
  createOrUpdateIShieldAPIDeployment instance;
  createOrUpdateAPIService instance;
  templateStep instance ].

Definition webhookStep (instance : IntegrityShield) : Step :=
  available ← isDeploymentAvailable instance;
  if (available : bool) then createOrUpdateWebhook instance else deleteWebhook instance.
Definition controllerSteps (instance : IntegrityShield) : list Step := [
  createOrUpdateManifestIntegrityProfileCRD instance;
  createOrUpdateACConfig instance;
  createOrUpdateACTlsSecret instance;
  createOrUpdateAdmissionControllerDeployment instance;
  createOrUpdateWebhookService instance;
  webhookStep instance ].

Definition allSteps (instance : IntegrityShield) : list Step :=
  commonSteps instance
  ++ (if Enabled (is_Observer (Spec instance)) then observerSteps instance else [])
  ++ (if UseGatekeeper (Spec instance) then gatekeeperSteps instance
      else controllerSteps instance).

Definition withFinalizers (instance : IntegrityShield) (f : list string) : IntegrityShield :=
  let m := is_Meta instance in
  mkIS (is_APIVersion instance) (is_Kind instance)
    (mkMeta (Name m) (Namespace m) (Labels m) (Annotations m) f (DeletionTimestamp m)
       (OwnerReferences m) (om_rest m)) (Spec instance).

(** The finalizer branch. *)
Definition finalize (instance : IntegrityShield) : Step :=
  if containsString (Finalizers (is_Meta instance)) CleanupFinalizerName then
    err ← deleteClusterScopedChildrenResources instance;
    match err with
    | Some err => mret (done_, Some err)
    | None =>
        e ← opWrite (λ c, is_Update c (withFinalizers instance
               (removeString (Finalizers (is_Meta instance)) CleanupFinalizerName)));
        match e with
        | Some err => mret (done_, Some err)
        | None => mret (done_, None)
        end
    end
  else mret (done_, None).

(** The closing [time.Sleep] does not change any state and is left out. *)
Definition Reconcile (ns name : string) : Step :=
  r ← asksW (λ w, is_Get (ow_cluster w) ns name);
  match r with
  | Bad err => if IsNotFound err then mret (done_, None) else mret (done_, Some err)
  | Good instance =>
      match DeletionTimestamp (is_Meta instance) with
      | Some _ => finalize instance
      | None => runSteps (allSteps instance)
      end
  end.
End operator.
