(* ===== verification/OperatorProofs.v ===== *)
(** * The operator: laws of the client and the theorems about [Reconcile]

    A [goal] is what one step of [Reconcile] works towards: an object exists, or a
    deployment agrees with the expected one.  Every step either finds its goal met
    and changes nothing relevant, or reaches it and asks for a requeue; the
    convergence theorem counts the unmet goals. *)
From S2P Require Import Prelude GoStrings OperatorResources Operator.
From stdpp Require Import base gmap strings list.
From Stdlib Require Import ZArith Lia.

Local Open Scope string_scope.

(** ** What the API server promises *)

(** Objects of a cluster-scoped kind are found whatever namespace is given. *)
Definition clusterScoped (k : kind) : bool :=
  match k with
  | KCRD | KClusterRole | KClusterRoleBinding | KWebhook | KTemplate => true
  | _ => false
  end.
Definition okey (k : kind) (ns n : string) : kind * string * string :=
  (k, if clusterScoped k then "" else ns, n).

Section laws.
Context {OT : OpTypes} {C : OpClient OT}.

Definition keyOf {k} (o : Object k) : kind * string * string :=
  okey k (Namespace (o_Meta o)) (Name (o_Meta o)).

(** An accepted write of [o]. *)
Definition accepted (c : OC) {k} (o : Object k) (c' : OC) : Prop :=
  cl_Create c k o = (None, c') ∨ cl_Update c k o = (None, c').

(** The object is absent, or marked for deletion. *)
Definition gone (c : OC) (k : kind) (n : string) : Prop :=
  match cl_Get c k "" n with
  | Bad e => IsNotFound e = true
  | Good o => is_Some (DeletionTimestamp (o_Meta o))
  end.
End laws.

(** [defaulted] is what the server stores for an object it is given (it fills in
    defaults). *)
Class OpClientLaws (OT : OpTypes) (C : OpClient OT) := {
  defaulted : ∀ k, Object k → Object k;
  get_key c k ns ns' n : okey k ns n = okey k ns' n → cl_Get c k ns n = cl_Get c k ns' n;
  get_key_of c k ns n o : cl_Get c k ns n = Good o → keyOf o = okey k ns n;
  write_get c k (o : Object k) c' :
    accepted c o c' → cl_Get c' k (Namespace (o_Meta o)) (Name (o_Meta o)) = Good (defaulted k o);
  write_frame c k (o : Object k) c' k' ns n :
    accepted c o c' → okey k' ns n ≠ keyOf o → cl_Get c' k' ns n = cl_Get c k' ns n;
  delete_gone c k (o : Object k) c' :
    cl_Delete c k o = (None, c') → clusterScoped k = true → gone c' k (Name (o_Meta o));
  delete_frame c k (o : Object k) c' k' ns n :
    cl_Delete c k o = (None, c') → okey k' ns n ≠ keyOf o →
    cl_Get c' k' ns n = cl_Get c k' ns n;
  create_keeps_instances c k (o : Object k) e c' ns n :
    cl_Create c k o = (e, c') → is_Get c' ns n = is_Get c ns n;
  update_keeps_instances c k (o : Object k) e c' ns n :
    cl_Update c k o = (e, c') → is_Get c' ns n = is_Get c ns n;
  create_refused c k (o : Object k) e c' : cl_Create c k o = (Some e, c') → c' = c;
  update_refused c k (o : Object k) e c' : cl_Update c k o = (Some e, c') → c' = c;
  delete_refused c k (o : Object k) e c' : cl_Delete c k o = (Some e, c') → c' = c;
  delete_keeps_instances c k (o : Object k) e c' ns n :
    cl_Delete c k o = (e, c') → is_Get c' ns n = is_Get c ns n;
  is_update_refused c i e c' : is_Update c i = (Some e, c') → c' = c;
  owner_keeps i m m' : SetControllerReference i m = Good m' →
    Name m' = Name m ∧ Namespace m' = Namespace m ∧ Labels m' = Labels m }.

(** A server that answers: a read fails only for a missing object, a missing object
    can be created, an existing one updated; a fresh object of the instance's
    namespace can be owned; defaulting leaves the compared deployment fields alone. *)
Class Healthy (OT : OpTypes) (C : OpClient OT) {L : OpClientLaws OT C} : Prop := {
  read_or_missing c k ns n e : cl_Get c k ns n = Bad e → IsNotFound e = true;
  create_missing c k (o : Object k) e :
    cl_Get c k (Namespace (o_Meta o)) (Name (o_Meta o)) = Bad e →
    ∃ c', cl_Create c k o = (None, c');
  update_existing c k (o o' : Object k) :
    cl_Get c k (Namespace (o_Meta o)) (Name (o_Meta o)) = Good o' →
    ∃ c', cl_Update c k o = (None, c');
  own_fresh i m : OwnerReferences m = [] → Namespace m = is_Namespace i →
    ∃ m', SetControllerReference i m = Good m';
  defaulted_equal e d : EqualDeployments e d = Ret true →
    EqualDeployments e (defaulted KDeployment d) = Ret true }.

(** ** Deployments *)
Section equal.
Context {OT : OpTypes}.
Implicit Types (e d : Object KDeployment).

(** The fields [EqualDeployments] looks at agree. *)
Definition same_container (e f : Container) : Prop :=
  c_Name f = c_Name e ∧ c_Image f = c_Image e ∧ c_ImagePullPolicy f = c_ImagePullPolicy e ∧
  c_VolumeMounts f = c_VolumeMounts e ∧ c_SecurityContext f = c_SecurityContext e ∧
  c_Ports f = c_Ports e ∧ c_Args f = c_Args e ∧ c_Env f = c_Env e.
Definition podOf d : PodTemplateSpec := Template (dp_Spec (o_Body d)).
Definition agrees e d : Prop :=
  Labels (o_Meta d) = Labels (o_Meta e) ∧
  pt_Labels (podOf d) = pt_Labels (podOf e) ∧
  pt_Annotations (podOf d) = pt_Annotations (podOf e) ∧
  ServiceAccountName (pt_Spec (podOf d)) = ServiceAccountName (pt_Spec (podOf e)) ∧
  length (Containers (pt_Spec (podOf d))) = length (Containers (pt_Spec (podOf e))) ∧
  ∃ c f, head (Containers (pt_Spec (podOf e))) = Some c ∧
    head (Containers (pt_Spec (podOf d))) = Some f ∧ same_container c f.

Lemma EqualContainers_true c f : EqualContainers c f = true ↔ same_container c f.
Proof.
  unfold EqualContainers, same_container. rewrite !andb_true_iff, !bool_decide_eq_true. tauto.
Qed.

Lemma EqualDeployments_true e d : EqualDeployments e d = Ret true ↔ agrees e d.
Proof.
  unfold EqualDeployments, EqualPods, agrees, EqualLabels, EqualAnnotations, podOf.
  destruct (bool_decide_reflect (Labels (o_Meta d) = Labels (o_Meta e))); [|naive_solver].
  simpl. repeat (case_bool_decide; simpl; [|naive_solver]).
  destruct (Nat.eqb_spec (length (Containers (pt_Spec (Template (dp_Spec (o_Body d))))))
    (length (Containers (pt_Spec (Template (dp_Spec (o_Body e))))))) as [Hl|]; simpl; [|naive_solver].
  destruct (Containers (pt_Spec (Template (dp_Spec (o_Body e))))) as [|c l],
    (Containers (pt_Spec (Template (dp_Spec (o_Body d))))) as [|f l']; try done; simpl.
  - split; [done|]. naive_solver.
  - pose proof (EqualContainers_true c f). destruct (EqualContainers c f); simpl; naive_solver.
Qed.

(** The comparison crashes exactly when both pods are without containers and
    everything before the containers agrees. *)
Lemma EqualDeployments_total e d :
  Containers (pt_Spec (podOf e)) ≠ [] → ∃ b, EqualDeployments e d = Ret b.
Proof.
  unfold EqualDeployments, EqualPods, podOf. intros He.
  destruct (negb _); [eauto|]. destruct (negb _); [eauto|]. destruct (negb _); [eauto|].
  destruct (negb _); [eauto|].
  destruct (Nat.eqb_spec (length (Containers (pt_Spec (Template (dp_Spec (o_Body d))))))
    (length (Containers (pt_Spec (Template (dp_Spec (o_Body e))))))) as [Hl|]; simpl; [|eauto].
  destruct (Containers (pt_Spec (Template (dp_Spec (o_Body e))))), (Containers _); try done.
  destruct (EqualContainers _ _); simpl; eauto.
Qed.

Lemma agrees_labels e e' d :
  Labels (o_Meta e') = Labels (o_Meta e) → o_Body e' = o_Body e → agrees e d → agrees e' d.
Proof. unfold agrees, podOf. intros -> ->. done. Qed.

Lemma agrees_self e d :
  Containers (pt_Spec (podOf e)) ≠ [] → Labels (o_Meta d) = Labels (o_Meta e) →
  dp_Spec (o_Body d) = dp_Spec (o_Body e) → agrees e d.
Proof.
  intros He HL HS. unfold agrees, podOf in *. rewrite HS, HL.
  destruct (Containers _) as [|c l]; [done|]. split_and!; try done. by exists c, c.
Qed.
End equal.

(** ** Goals *)
Section goals.
Context {OT : OpTypes} {OF : OpFiles} {C : OpClient OT} {L : OpClientLaws OT C}.
Implicit Types (w : OpWorld) (i : IntegrityShield).

Inductive goal :=
| Exists_ (k : kind) (ns n : string)
| Deployed (e : Object KDeployment)
| Available (ns n : string)
| Stored (ns n : string) (o : Object KConfigMap).

#[export] Instance ObjectMeta_eq_dec : EqDecision ObjectMeta.
Proof. solve_decision. Defined.
#[export] Instance ConfigMapObject_eq_dec : EqDecision (Object KConfigMap).
Proof.
  intros [m1 b1] [m2 b2]. destruct (decide (m1 = m2)) as [->|]; [|right; congruence].
  destruct (decide ((b1 : gmap string string) = b2)) as [->|]; [by left|right; congruence].
Defined.

Definition met (g : goal) (c : OC) : bool :=
  match g with
  | Exists_ k ns n => is_good (cl_Get c k ns n)
  | Deployed e =>
      match cl_Get c KDeployment (Namespace (o_Meta e)) (Name (o_Meta e)) with
      | Good d => match EqualDeployments e d with Ret b => b | Panic _ => false end
      | Bad _ => false
      end
  | Available ns n =>
      match cl_Get c KDeployment ns n with
      | Good d => (0 <? AvailableReplicas (o_Body d))%Z
      | Bad _ => false
      end
  | Stored ns n o =>
      match cl_Get c KConfigMap ns n with
      | Good o' => bool_decide (o' = o)
      | Bad _ => false
      end
  end.

Definition goalKey (g : goal) : kind * string * string :=
  match g with
  | Exists_ k ns n => okey k ns n
  | Deployed e => keyOf e
  | Available ns n => okey KDeployment ns n
  | Stored ns n _ => okey KConfigMap ns n
  end.
(** An existence goal survives any write, the others a write elsewhere. *)
Definition survives (g : goal) (k : kind * string * string) : Prop :=
  match g with Exists_ _ _ _ => True | _ => goalKey g ≠ k end.

Definition keeps (P : goal → Prop) w w' : Prop :=
  ∀ g, P g → met g (ow_cluster w) = true → met g (ow_cluster w') = true.
#[export] Instance keeps_preorder P : PreOrder (keeps P).
Proof. split; [by intros w g|]. intros w1 w2 w3 H1 H2 g Hg Hm. auto. Qed.
Definition same_instances w w' : Prop :=
  ∀ ns n, is_Get (ow_cluster w') ns n = is_Get (ow_cluster w) ns n.
#[export] Instance same_instances_preorder : PreOrder same_instances.
Proof. split; [by intros w|]. intros w1 w2 w3 H1 H2 ns n. by rewrite H2, H1. Qed.

Lemma okey_kind k ns n k' ns' n' : okey k ns n = okey k' ns' n' → k = k' ∧ n = n'.
Proof. unfold okey. naive_solver. Qed.

Lemma write_preserves c k (o : Object k) c' g :
  accepted c o c' → survives g (keyOf o) → met g c = true → met g c' = true.
Proof.
  intros Ha Hs Hm. destruct g as [k' ns n|e|ns n|ns n o']; simpl in *.
  - destruct (decide (okey k' ns n = keyOf o)) as [E|E].
    + destruct (okey_kind _ _ _ _ _ _ E) as [-> ->].
      rewrite (get_key c' k ns (Namespace (o_Meta o))) by exact E.
      by rewrite (write_get _ _ _ _ Ha).
    + by rewrite (write_frame _ _ _ _ _ _ _ Ha E).
  - by rewrite (write_frame _ _ _ _ _ _ _ Ha Hs).
  - by rewrite (write_frame _ _ _ _ _ _ _ Ha Hs).
  - by rewrite (write_frame _ _ _ _ _ _ _ Ha Hs).
Qed.

(** A goal met in [c] has its key occupied, so creating at a free key keeps it. *)
Lemma met_occupied g c : met g c = true →
  ∃ k ns n, goalKey g = okey k ns n ∧ is_good (cl_Get c k ns n) = true.
Proof.
  destruct g as [k ns n|e|ns n|ns n o]; simpl; intros Hm; eexists _, _, _;
    (split; [reflexivity|]); by destruct (cl_Get _ _ _ _).
Qed.

Lemma create_preserves c k (o : Object k) c' g e :
  cl_Create c k o = (None, c') →
  cl_Get c k (Namespace (o_Meta o)) (Name (o_Meta o)) = Bad e →
  met g c = true → met g c' = true.
Proof.
  intros Hc Hg Hm. apply (write_preserves c k o); [by left| |done].
  destruct (met_occupied g c Hm) as (k' & ns & n & Ek & Hgood).
  assert (goalKey g ≠ keyOf o) as Hne.
  { intros E. rewrite Ek in E. destruct (okey_kind _ _ _ _ _ _ E) as [-> ->].
    rewrite (get_key c k ns (Namespace (o_Meta o))), Hg in Hgood by exact E. done. }
  by destruct g.
Qed.

(** ** Steps *)

(** A step towards [g] in a state where the goals [base] are met: it does not fail
    and does not spoil the goals of [P]; it ends with "done" when [g] is met,
    otherwise it reaches [g] and asks for a requeue. *)
Definition step_ok (base : list goal) (P : goal → Prop) (s : M OpWorld (Result * option error))
    (g : goal) : Prop :=
  ∀ w, (∀ b, b ∈ base → met b (ow_cluster w) = true) →
  runs s w (λ r w', keeps P w w' ∧ same_instances w w' ∧
    if met g (ow_cluster w) then r = (done_, None)
    else Requeue r.1 = true ∧ r.2 = None ∧ met g (ow_cluster w') = true).

Definition ready (base : list goal) w : Prop := ∀ b, b ∈ base → met b (ow_cluster w) = true.

Lemma runSteps_ok base P steps gs w :
  (∀ b, b ∈ base → P b) → (∀ g, g ∈ gs → P g) →
  Forall2 (step_ok base P) steps gs → ready base w →
  runs (runSteps steps) w (λ r w', keeps P w w' ∧ same_instances w w' ∧
    ((r = (done_, None) ∧ ∀ g, g ∈ gs → met g (ow_cluster w') = true) ∨
     (Requeue r.1 = true ∧ r.2 = None ∧ ∃ g, g ∈ gs ∧
        met g (ow_cluster w) = false ∧ met g (ow_cluster w') = true))).
Proof.
  intros HbP HgP HF. revert w HgP.
  induction HF as [|s g steps gs Hs HF IH]; intros w HgP Hb; simpl.
  { apply runs_ret. split; [done|]. split; [done|]. left. split; [done|].
    by intros g ?%elem_of_nil. }
  apply runs_bind. eapply runs_mono; [by apply Hs|].
  intros [r e] w1 (Hk & Hi & Hr). destruct (met g (ow_cluster w)) eqn:Em.
  - simplify_eq. simpl. eapply runs_mono.
    { apply IH; [set_solver|]. intros b Hbb. by apply Hk; auto. }
    intros r w2 (Hk2 & Hi2 & H). split; [by etrans|]. split; [by etrans|].
    destruct H as [[-> Hall]|(H1 & H2 & g' & Hg' & Hm1 & Hm2)].
    + left. split; [done|]. intros g' [->|?]%elem_of_cons; [|by apply Hall].
      apply Hk2, Hk; try done; apply HgP; by left.
    + right. split; [done|]. split; [done|]. exists g'. split; [by right|]. split; [|done].
      destruct (met g' (ow_cluster w)) eqn:E; [|done].
      rewrite (Hk g') in Hm1; [done|set_solver|done].
  - destruct Hr as (Hq & He & Hm). simpl in Hq, He. subst e. rewrite Hq.
    rewrite orb_true_r. apply runs_ret. split; [done|]. split; [done|]. right.
    split; [done|]. split; [done|]. exists g. split; [left|done].
Qed.

(** *** The skeletons *)

Section healthy.
Context {H : Healthy OT C}.

Definition fresh {k} i (o : Object k) : Prop :=
  OwnerReferences (o_Meta o) = [] ∧ Namespace (o_Meta o) = is_Namespace i.

(** [getOrCreate] on a healthy server, for an object looked up under its own key. *)
Lemma getOrCreate_runs {k} i (expected : Object k) ns onFound w P :
  fresh i expected → okey k ns (Name (o_Meta expected)) = keyOf expected →
  (∀ meta found, SetControllerReference i (o_Meta expected) = Good meta →
     cl_Get (ow_cluster w) k ns (Name (o_Meta expected)) = Good found →
     runs (onFound (mkObject k meta (o_Body expected)) found) w P) →
  (∀ meta e c', SetControllerReference i (o_Meta expected) = Good meta →
     cl_Get (ow_cluster w) k (Namespace meta) (Name meta) = Bad e →
     cl_Create (ow_cluster w) k (mkObject k meta (o_Body expected)) = (None, c') →
     P (soon, None) (mkOpWorld c' (ow_ticks w))) →
  runs (getOrCreate i expected ns onFound) w P.
Proof.
  intros [Hown Hns] Hkey HF HC. unfold getOrCreate.
  destruct (own_fresh i (o_Meta expected) Hown Hns) as [meta Hm]. rewrite Hm.
  destruct (owner_keeps _ _ _ Hm) as (Hn & Hns' & _).
  apply runs_bind, runs_asksW. rewrite Hn.
  destruct (cl_Get (ow_cluster w) k ns (Name (o_Meta expected))) as [found|e] eqn:E.
  - by apply HF.
  - rewrite (read_or_missing _ _ _ _ _ E).
    assert (cl_Get (ow_cluster w) k (Namespace meta) (Name meta) = Bad e) as E'.
    { rewrite Hn, Hns', <-E. apply get_key. by rewrite Hkey. }
    destruct (create_missing (ow_cluster w) k (mkObject k meta (o_Body expected)) e E')
      as [c' Hc]. apply runs_bind. exists None, (mkOpWorld c' (ow_ticks w)).
    split; [unfold opCreate, opWrite; by rewrite Hc|]. apply runs_ret. by eapply HC.
Qed.

(** What a successful creation gives. *)
Lemma created_spec {k} i (expected : Object k) meta e c c' :
  SetControllerReference i (o_Meta expected) = Good meta →
  cl_Get c k (Namespace meta) (Name meta) = Bad e →
  cl_Create c k (mkObject k meta (o_Body expected)) = (None, c') →
  cl_Get c' k (Namespace (o_Meta expected)) (Name (o_Meta expected))
    = Good (defaulted k (mkObject k meta (o_Body expected)))
  ∧ (∀ g, met g c = true → met g c' = true) ∧ ∀ ns n, is_Get c' ns n = is_Get c ns n.
Proof.
  intros Hm Hg Hc. destruct (owner_keeps _ _ _ Hm) as (Hn & Hns & _). split_and!.
  - rewrite <-Hn, <-Hns. by apply (write_get c k (mkObject k meta (o_Body expected))); left.
  - intros g. by eapply (create_preserves c k (mkObject k meta (o_Body expected))).
  - intros ns n. by eapply create_keeps_instances.
Qed.

(** A step that only makes sure that its object exists. *)
Lemma keepFound_ok {k} base P i (expected : Object k) ns :
  fresh i expected → okey k ns (Name (o_Meta expected)) = keyOf expected →
  step_ok base P (getOrCreate i expected ns keepFound) (Exists_ k ns (Name (o_Meta expected))).
Proof.
  intros Hf Hkey w _. apply getOrCreate_runs; [done|done| |].
  - intros meta found _ E. apply runs_ret. split; [done|]. split; [done|]. simpl. by rewrite E.
  - intros meta e c' Hm Hg Hc. destruct (created_spec _ _ _ _ _ _ Hm Hg Hc) as (Hget & Hk & Hi).
    split; [by intros g _; apply Hk|]. split; [exact Hi|]. simpl.
    destruct (owner_keeps _ _ _ Hm) as (Hn & Hns & _).
    assert (cl_Get (ow_cluster w) k ns (Name (o_Meta expected)) = Bad e) as ->.
    { rewrite <-Hg, Hn, Hns. apply get_key. by rewrite Hkey. }
    simpl. split; [done|]. split; [done|].
    rewrite (get_key c' k ns (Namespace (o_Meta expected))) by exact Hkey. by rewrite Hget.
Qed.
End healthy.
End goals.

Section steps.
Context {OT : OpTypes} {OF : OpFiles} {C : OpClient OT} {L : OpClientLaws OT C}
  {H : Healthy OT C}.
Implicit Types (w : OpWorld) (i : IntegrityShield).

(** An accepted update of an existing object that spoils no goal of [P]. *)
Lemma opUpdate_runs {k} (o o' : Object k) w (Q : option error → OpWorld → Prop) :
  cl_Get (ow_cluster w) k (Namespace (o_Meta o)) (Name (o_Meta o)) = Good o' →
  (∀ c', accepted (ow_cluster w) o c' → (∀ ns n, is_Get c' ns n = is_Get (ow_cluster w) ns n) →
     Q None (mkOpWorld c' (ow_ticks w))) →
  runs (opUpdate o) w Q.
Proof.
  intros Hg HQ. destruct (update_existing _ _ _ _ Hg) as [c' Hc].
  exists None, (mkOpWorld c' (ow_ticks w)). split; [unfold opUpdate, opWrite; by rewrite Hc|].
  apply HQ; [by right|]. intros ns n. by eapply update_keeps_instances.
Qed.

Lemma found_under_own_key {k} c (o : Object k) ns n :
  cl_Get c k ns n = Good o → cl_Get c k (Namespace (o_Meta o)) (Name (o_Meta o)) = Good o.
Proof.
  intros Hg. pose proof (get_key_of _ _ _ _ _ Hg) as Hk.
  destruct (okey_kind _ _ _ _ _ _ Hk) as [_ Hn]. rewrite Hn, <-Hg. apply get_key.
  by rewrite <-Hn at 1.
Qed.

Lemma createOrUpdateCRD_ok base P i (expected : Object KCRD) :
  fresh i expected →
  step_ok base P (createOrUpdateCRD i expected) (Exists_ KCRD "" (Name (o_Meta expected))).
Proof.
  intros Hf w Hb. unfold createOrUpdateCRD. apply getOrCreate_runs; [done|done| |].
  - intros meta found Hm E. simpl. rewrite E. simpl. unfold updateCRD.
    destruct (negb _); [|by apply runs_ret].
    apply runs_bind. eapply opUpdate_runs; [simpl; by eapply found_under_own_key|].
    intros c' Ha Hi. apply runs_ret. split; [|by split].
    intros g _. apply (write_preserves _ _ _ _ g Ha). by destruct g.
  - intros meta e c' Hm Hg Hc.
    destruct (created_spec _ _ _ _ _ _ Hm Hg Hc) as (Hget & Hk & Hi).
    split; [by intros g _; apply Hk|]. split; [exact Hi|]. simpl.
    destruct (owner_keeps _ _ _ Hm) as (Hn & Hns & _).
    rewrite (get_key _ KCRD "" (Namespace meta)) by done. rewrite <-Hn, Hg. simpl.
    split; [done|]. split; [done|].
    rewrite (get_key c' KCRD "" (Namespace (o_Meta expected))) by done.
    by rewrite Hn, Hget.
Qed.

Definition has_containers (e : Object KDeployment) : Prop :=
  Containers (pt_Spec (podOf e)) ≠ [].

Lemma met_Deployed e c : met (Deployed e) c = true ↔
  ∃ d, cl_Get c KDeployment (Namespace (o_Meta e)) (Name (o_Meta e)) = Good d ∧ agrees e d.
Proof.
  simpl. destruct (cl_Get _ _ _ _) as [d|]; [|naive_solver].
  pose proof (EqualDeployments_true e d) as Ht.
  destruct (EqualDeployments e d) as [[]|]; naive_solver.
Qed.

(** Goals other than [Deployed e] that look at the deployment of [e]. *)
Definition no_conflict (P : goal → Prop) (e : Object KDeployment) : Prop :=
  ∀ g, P g → g = Deployed e ∨ survives g (keyOf e).

Lemma updateDeployment_runs P i e meta found w :
  SetControllerReference i (o_Meta e) = Good meta → has_containers e → no_conflict P e →
  cl_Get (ow_cluster w) KDeployment (Namespace (o_Meta e)) (Name (o_Meta e)) = Good found →
  runs (updateDeployment (mkObject KDeployment meta (o_Body e)) found) w (λ r w',
    keeps P w w' ∧ same_instances w w' ∧
    if met (Deployed e) (ow_cluster w) then r = (done_, None)
    else Requeue r.1 = true ∧ r.2 = None ∧ met (Deployed e) (ow_cluster w') = true).
Proof.
  intros Hm Hc Hnc Hg. destruct (owner_keeps _ _ _ Hm) as (Hn & Hns & HL).
  set (e' := mkObject KDeployment meta (o_Body e)). unfold updateDeployment.
  destruct (EqualDeployments_total e' found Hc) as [b Eb]. rewrite Eb. destruct b.
  - apply EqualDeployments_true in Eb. assert (met (Deployed e) (ow_cluster w) = true) as ->.
    { apply met_Deployed. exists found. split; [done|]. by apply (agrees_labels e' e). }
    apply runs_ret. by split.
  - destruct (met (Deployed e) (ow_cluster w)) eqn:Em.
    { apply met_Deployed in Em as (d & Hd & Ha). rewrite Hg in Hd. simplify_eq.
      apply (agrees_labels e e') in Ha; [|done|done]. apply EqualDeployments_true in Ha. congruence. }
    pose proof (get_key_of _ _ _ _ _ Hg) as Hk. apply runs_bind.
    assert (keyOf (redeploy e' found) = keyOf e) as Ekey by exact Hk.
    eapply opUpdate_runs; [exact (found_under_own_key _ _ _ _ Hg)|].
    intros c' Ha Hi. apply runs_ret. split; [|split; [exact Hi|split; [done|split; [done|]]]].
    + intros g Hg' Hmet. destruct (Hnc g Hg') as [->|Hs]; [congruence|].
      apply (write_preserves _ _ _ _ g Ha); [by rewrite Ekey|done].
    + apply met_Deployed. exists (defaulted _ (redeploy e' found)). split.
      * rewrite <-(write_get _ _ _ _ Ha). simpl.
        destruct (okey_kind _ _ _ _ _ _ Hk) as [_ Hname]. rewrite Hname. apply get_key.
        rewrite <-Hk. unfold keyOf. by rewrite Hname.
      * apply EqualDeployments_true, defaulted_equal, EqualDeployments_true.
        by apply (agrees_labels e'); [| |apply agrees_self].
Qed.

Lemma createOrUpdateDeployment_ok base P i e :
  fresh i e → has_containers e → no_conflict P e →
  step_ok base P (createOrUpdateDeployment i e) (Deployed e).
Proof.
  intros Hf Hc Hnc w Hb. unfold createOrUpdateDeployment.
  assert (is_Namespace i = Namespace (o_Meta e)) as Ens by by destruct Hf.
  apply getOrCreate_runs; [done|by rewrite Ens| |].
  - intros meta found Hm E. rewrite Ens in E. by eapply updateDeployment_runs.
  - intros meta e0 c' Hm Hg Hcr.
    destruct (created_spec _ _ _ _ _ _ Hm Hg Hcr) as (Hget & Hk & Hi).
    destruct (owner_keeps _ _ _ Hm) as (Hn & Hns & HL).
    split; [by intros g _; apply Hk|]. split; [exact Hi|].
    destruct (met (Deployed e) (ow_cluster w)) eqn:Em.
    { apply met_Deployed in Em as (d & Hd & _). rewrite <-Hn, <-Hns in Hd. congruence. }
    split; [done|]. split; [done|]. apply met_Deployed.
    eexists. split; [exact Hget|].
    apply EqualDeployments_true, defaulted_equal, EqualDeployments_true. by apply agrees_self.
Qed.

(** A deployment step whose goal is among the goals known to be met. *)
Lemma createOrUpdateDeployment_base base P i e :
  fresh i e → has_containers e → Deployed e ∈ base →
  step_ok base P (createOrUpdateDeployment i e) (Deployed e).
Proof.
  intros Hf Hc Hb w Hready. specialize (Hready _ Hb).
  unfold createOrUpdateDeployment.
  assert (is_Namespace i = Namespace (o_Meta e)) as Ens by by destruct Hf.
  pose proof Hready as (d & Hd & Ha)%met_Deployed. rewrite Hready.
  apply getOrCreate_runs; [done|by rewrite Ens| |].
  - intros meta found Hm E. rewrite Ens, Hd in E. simplify_eq. unfold updateDeployment.
    destruct (owner_keeps _ _ _ Hm) as (Hn & Hns & HL).
    assert (EqualDeployments (mkObject KDeployment meta (o_Body e)) found = Ret true) as ->.
    { apply EqualDeployments_true. by apply (agrees_labels e). }
    by apply runs_ret.
  - intros meta e0 c' Hm Hg Hcr. destruct (owner_keeps _ _ _ Hm) as (Hn & Hns & HL).
    rewrite Hn, Hns in Hg. congruence.
Qed.

(** The certificates are generated without touching the cluster. *)
Lemma GenerateCert_runs svc ns w :
  runs (GenerateCert svc ns) w (λ _ w', ow_cluster w' = ow_cluster w).
Proof.
  unfold GenerateCert.
  repeat match goal with
  | |- runs (op_tick ≫= _) _ _ => apply runs_bind; eexists _, _; split; [reflexivity|]
  | |- runs (op_Now ≫= _) _ _ => apply runs_bind; eexists _, _; split; [reflexivity|]
  | |- runs (mret _) _ _ => by apply runs_ret
  | |- context [match ?x with Good _ => _ | Bad _ => _ end] => destruct x
  end.
Qed.

Lemma addCertValues_runs i (s : Object KSecret) svc w :
  runs (addCertValues i s svc) w (λ s' w', ow_cluster w' = ow_cluster w ∧ o_Meta s' = o_Meta s).
Proof.
  unfold addCertValues. apply runs_bind. run_with GenerateCert_runs.
  intros [[[ca key] crt] e] w' Hw. apply runs_ret. split; [done|]. by destruct (_ && _).
Qed.

Lemma secret_ok base P i (s : Object KSecret) svc :
  fresh i s →
  step_ok base P (expected ← addCertValues i s svc; createOrUpdateSecret i expected)
    (Exists_ KSecret (is_Namespace i) (Name (o_Meta s))).
Proof.
  intros Hf w Hb. apply runs_bind. run_with addCertValues_runs. intros s' w1 [Hw Hm].
  assert (fresh i s') as Hf' by (unfold fresh; by rewrite Hm).
  assert (is_Namespace i = Namespace (o_Meta s')) as Ens by by destruct Hf'.
  eapply runs_mono.
  - apply (keepFound_ok base P i s' (is_Namespace i)); [done|by rewrite Ens|].
    intros b. rewrite Hw. apply Hb.
  - intros r w2. rewrite Hm, Hw. unfold keeps, same_instances. by rewrite Hw.
Qed.
End steps.

Section reconcile.
Context {OT : OpTypes} {OF : OpFiles} {C : OpClient OT} {L : OpClientLaws OT C}
  {H : Healthy OT C}.
Implicit Types (w : OpWorld) (i : IntegrityShield).

Lemma templateStep_ok base P i :
  Exists_ KCRD "" gatekeeperCRD ∈ base →
  step_ok base P (templateStep i)
    (Exists_ KTemplate (is_Namespace i) (Name (o_Meta (BuildConstraintTemplateForIShield i)))).
Proof.
  intros Hb w Hready. pose proof (Hready _ Hb) as Hgk. simpl in Hgk.
  unfold templateStep, isGatekeeperAvailable.
  apply runs_bind, runs_bind, runs_asksW, runs_ret.
  destruct (cl_Get (ow_cluster w) KCRD "" gatekeeperCRD); [|done].
  by apply (keepFound_ok base P i (BuildConstraintTemplateForIShield i) (is_Namespace i)).
Qed.

Lemma createOrUpdateWebhookEvent_runs P i evt name w :
  runs (createOrUpdateWebhookEvent i evt name) w (λ _ w', keeps P w w' ∧ same_instances w w').
Proof.
  unfold createOrUpdateWebhookEvent. apply runs_bind. eexists _, _. split; [reflexivity|].
  apply runs_bind, runs_asksW. simpl.
  destruct (cl_Get (ow_cluster w) KEvent (is_Namespace i) evt) as [found|e] eqn:E.
  - eapply opUpdate_runs; [simpl; by eapply found_under_own_key|].
    intros c' Ha Hi. split; [|exact Hi]. intros g _.
    apply (write_preserves _ _ _ _ g Ha). by destruct g.
  - rewrite (read_or_missing _ _ _ _ _ E). simpl.
    destruct (create_missing (ow_cluster w) KEvent
      (newWebhookEvent i evt name (op_clock (ow_ticks w))) e E) as [c' Hc].
    apply runs_bind. eexists None, _. split; [unfold opCreate, opWrite; simpl; by rewrite Hc|].
    apply runs_ret. split; [|intros ns n; by eapply create_keeps_instances].
    intros g _. by eapply create_preserves.
Qed.

Definition webhookName i : string := WebhookConfigName (Spec i).

Lemma createOrUpdateWebhook_ok base P i :
  step_ok base P (createOrUpdateWebhook i) (Exists_ KWebhook "" (webhookName i)).
Proof.
  intros w _. unfold createOrUpdateWebhook.
  set (expected := BuildValidatingWebhookConfigurationForIShield i).
  destruct (own_fresh i (o_Meta expected)) as [meta Hm]; [done|done|]. rewrite Hm.
  destruct (owner_keeps _ _ _ Hm) as (Hn & Hns & _). rewrite Hn.
  apply runs_bind, runs_asksW. simpl.
  destruct (cl_Get (ow_cluster w) KWebhook "" (WebhookConfigName (Spec i))) as [found|e] eqn:E.
  { apply runs_ret. unfold webhookName. by rewrite E. }
  rewrite (read_or_missing _ _ _ _ _ E). apply runs_bind, runs_asksW, runs_bind.
  match goal with |- runs (opCreate (mkObject _ _ ?b)) _ _ => set (body := b) end.
  assert (cl_Get (ow_cluster w) KWebhook (Namespace meta) (Name meta) = Bad e) as E'.
  { rewrite Hn, <-E. by apply get_key. }
  destruct (create_missing (ow_cluster w) KWebhook (mkObject KWebhook meta body) e E') as [c' Hc].
  eexists None, _. split; [unfold opCreate, opWrite; by rewrite Hc|].
  apply runs_bind. eapply runs_mono; [apply (createOrUpdateWebhookEvent_runs (λ _, True))|].
  intros _ w2 [Hk2 Hi2]. apply runs_ret. unfold webhookName. rewrite E. simpl.
  assert (keeps (λ _, True) w w2) as Hk.
  { etrans; [|exact Hk2]. intros g _. by eapply create_preserves. }
  split; [intros g _; by apply Hk|]. split.
  { etrans; [|exact Hi2]. intros ns n. by eapply create_keeps_instances. }
  split; [done|]. split; [done|].
  apply (Hk2 (Exists_ KWebhook "" (WebhookConfigName (Spec i)))); [done|]. simpl.
  rewrite (get_key c' KWebhook "" (Namespace meta)) by done.
  change (WebhookConfigName (Spec i)) with (Name (o_Meta expected)). rewrite <-Hn.
  pose proof (write_get (ow_cluster w) KWebhook (mkObject KWebhook meta body) c'
    ltac:(by left)) as Hget. simpl in Hget. by rewrite Hget.
Qed.

Lemma webhookStep_ok base P i :
  Available (is_Namespace i) (cc_Name (ControllerContainer (Spec i))) ∈ base →
  step_ok base P (webhookStep i) (Exists_ KWebhook "" (webhookName i)).
Proof.
  intros Hb w Hready. pose proof (Hready _ Hb) as Hav. simpl in Hav.
  unfold webhookStep, isDeploymentAvailable. simpl.
  apply runs_bind, runs_bind, runs_asksW, runs_ret.
  destruct (cl_Get (ow_cluster w) KDeployment _ _); [|done]. rewrite Hav.
  exact (createOrUpdateWebhook_ok base P i w Hready).
Qed.

(** ** The goals of an instance *)

Definition commonGoals i : list goal := let ns := is_Namespace i in [
  Exists_ KConfigMap ns (RequestHandlerConfigName (Spec i));
  Exists_ KServiceAccount ns (APIServiceAccountName (Security (Spec i)));
  Exists_ KRole ns (APIRole (Security (Spec i)));
  Exists_ KRoleBinding ns (APIRoleBinding (Security (Spec i)));
  Exists_ KClusterRole "" (APIRole (Security (Spec i)));
  Exists_ KClusterRoleBinding "" (APIRoleBinding (Security (Spec i))) ].
Definition observerGoals i : list goal := let ns := is_Namespace i in [
  Exists_ KCRD "" "manifestintegritystates.apis.integrityshield.io";
  Exists_ KServiceAccount ns (ObserverServiceAccountName (Security (Spec i)));
  Exists_ KClusterRole "" (ObserverRole (Security (Spec i)));
  Exists_ KClusterRoleBinding "" (ObserverRoleBinding (Security (Spec i)));
  Exists_ KRole ns (ObserverRole (Security (Spec i)));
  Exists_ KRoleBinding ns (ObserverRoleBinding (Security (Spec i)));
  Deployed (BuildDeploymentForObserver i) ].
Definition gatekeeperGoals i : list goal := let ns := is_Namespace i in [
  Exists_ KSecret ns (APITlsSecretName (Spec i));
  Deployed (BuildDeploymentForIShieldAPI i);
  Exists_ KService ns (ApiServiceName (Spec i));
  Exists_ KTemplate ns "manifestintegrityconstraint" ].
Definition controllerGoals i : list goal := let ns := is_Namespace i in [
  Exists_ KCRD "" "manifestintegrityprofiles.apis.integrityshield.io";
  Exists_ KConfigMap ns (AdmissionControllerConfigName (Spec i));
  Exists_ KSecret ns (WebhookServerTlsSecretName (Spec i));
  Deployed (BuildDeploymentForAdmissionController i);
  Exists_ KService ns (WebhookServiceName (Spec i));
  Exists_ KWebhook "" (webhookName i) ].
Definition allGoals i : list goal :=
  commonGoals i
  ++ (if Enabled (is_Observer (Spec i)) then observerGoals i else [])
  ++ (if UseGatekeeper (Spec i) then gatekeeperGoals i else controllerGoals i).

(** What others must have provided: Gatekeeper's definition, or a running
    admission controller deployment. *)
Definition prerequisites i : list goal :=
  if UseGatekeeper (Spec i) then [Exists_ KCRD "" gatekeeperCRD]
  else [Deployed (BuildDeploymentForAdmissionController i);
        Available (is_Namespace i) (cc_Name (ControllerContainer (Spec i)))].

(** The observer's deployment has a name of its own. *)
Definition distinct_names i : Prop :=
  Enabled (is_Observer (Spec i)) = true →
  obs_Name (is_Observer (Spec i)) ≠
    (if UseGatekeeper (Spec i) then api_Name (API (Spec i))
     else cc_Name (ControllerContainer (Spec i))).

(** The goals a run must not spoil; config maps must not change at all. *)
Definition relevant i (g : goal) : Prop :=
  g ∈ (allGoals i ++ prerequisites i)%list ∨ ∃ ns n o, g = Stored ns n o.

Lemma observer_no_conflict i :
  distinct_names i → Enabled (is_Observer (Spec i)) = true →
  no_conflict (relevant i) (BuildDeploymentForObserver i).
Proof.
  intros Hd He g [Hg|(? & ? & ? & ->)]; [|by right]. specialize (Hd He). unfold relevant, allGoals, prerequisites in Hg.
  rewrite He in Hg. rewrite !elem_of_app in Hg. unfold survives, keyOf, okey. simpl.
  destruct (UseGatekeeper (Spec i)); decompose [or] Hg; clear Hg;
    repeat match goal with
    | X : _ ∈ _ |- _ => apply elem_of_cons in X as [->|X]
    | X : _ ∈ [] |- _ => by apply elem_of_nil in X
    end; simpl; try (by right); try (by left); right;
    unfold goalKey, keyOf, okey; simpl; congruence.
Qed.
Lemma api_no_conflict i :
  distinct_names i → UseGatekeeper (Spec i) = true →
  no_conflict (relevant i) (BuildDeploymentForIShieldAPI i).
Proof.
  intros Hd Hu g [Hg|(? & ? & ? & ->)]; [|by right]. unfold distinct_names in Hd. unfold relevant, allGoals, prerequisites in Hg.
  rewrite Hu in *. rewrite !elem_of_app in Hg. unfold survives, keyOf, okey. simpl.
  destruct (Enabled (is_Observer (Spec i))); [specialize (Hd eq_refl)|];
    decompose [or] Hg; clear Hg;
    repeat match goal with
    | X : _ ∈ _ |- _ => apply elem_of_cons in X as [->|X]
    | X : _ ∈ [] |- _ => by apply elem_of_nil in X
    end; simpl; try (by right); try (by left); right;
    unfold goalKey, keyOf, okey; simpl; congruence.
Qed.

Lemma allSteps_ok i :
  distinct_names i →
  Forall2 (step_ok (prerequisites i) (relevant i)) (allSteps i) (allGoals i).
Proof.
  intros Hd. unfold allSteps, allGoals. apply Forall2_app; [|apply Forall2_app].
  - repeat constructor; by apply keepFound_ok.
  - destruct (Enabled (is_Observer (Spec i))) eqn:He; [|constructor].
    repeat constructor; try (by apply keepFound_ok).
    + by apply (createOrUpdateCRD_ok _ _ i (BuildObserverResultCRD i)).
    + apply createOrUpdateDeployment_ok; [done|done|by apply observer_no_conflict].
  - destruct (UseGatekeeper (Spec i)) eqn:Hu;
      repeat constructor; try (by apply keepFound_ok).
    + by apply (secret_ok _ _ i (BuildTlsSecretForIShield i)).
    + apply createOrUpdateDeployment_ok; [done|done|by apply api_no_conflict].
    + apply templateStep_ok. unfold prerequisites. rewrite Hu. left.
    + by apply (createOrUpdateCRD_ok _ _ i (BuildManifestIntegrityProfileCRD i)).
    + by apply (secret_ok _ _ i (BuildAPITlsSecretForIShield i)).
    + apply createOrUpdateDeployment_base; [done|done|].
      unfold prerequisites. rewrite Hu. left.
    + apply webhookStep_ok. unfold prerequisites. rewrite Hu. right. left.
Qed.
End reconcile.

(** ** The requeue loop of the controller *)
Section settle.
Context {OT : OpTypes} {OF : OpFiles} {C : OpClient OT} {L : OpClientLaws OT C}
  {H : Healthy OT C}.
Implicit Types (w : OpWorld) (i : IntegrityShield).

(** The controller calls [Reconcile] again while it asks for a requeue. *)
Fixpoint settle (fuel : nat) (ns n : string) : M OpWorld (Result * option error) :=
  '(r, e) ← Reconcile ns n;
  if bool_decide (e = None) && Requeue r then
    match fuel with
    | O => mret (r, e)
    | S fuel' => settle fuel' ns n
    end
  else mret (r, e).

Definition unmet (gs : list goal) w : nat :=
  length (filter (λ g, met g (ow_cluster w) = false) gs).

Lemma unmet_le gs w w' :
  (∀ g, g ∈ gs → met g (ow_cluster w) = true → met g (ow_cluster w') = true) →
  (unmet gs w' ≤ unmet gs w)%nat.
Proof.
  unfold unmet. induction gs as [|g gs IH]; intros Hk; [done|].
  assert (∀ g, g ∈ gs → met g (ow_cluster w) = true → met g (ow_cluster w') = true) as Hk'
    by (intros g' ?; apply Hk; by right).
  specialize (IH Hk'). destruct (met g (ow_cluster w)) eqn:E.
  - assert (met g (ow_cluster w') = true) as E' by (apply Hk; [left|done]).
    by rewrite !filter_cons_False by congruence.
  - rewrite (filter_cons_True (λ g, met g (ow_cluster w) = false)) by done.
    destruct (met g (ow_cluster w')) eqn:E'.
    + rewrite filter_cons_False by congruence. simpl. lia.
    + rewrite filter_cons_True by done. simpl. lia.
Qed.

Lemma unmet_lt gs w w' g :
  (∀ g, g ∈ gs → met g (ow_cluster w) = true → met g (ow_cluster w') = true) →
  g ∈ gs → met g (ow_cluster w) = false → met g (ow_cluster w') = true →
  (unmet gs w' < unmet gs w)%nat.
Proof.
  intros Hk (l1 & l2 & ->)%list_elem_of_split Hm Hm'.
  pose proof (unmet_le l1 w w' ltac:(intros; apply Hk; set_solver)).
  pose proof (unmet_le l2 w w' ltac:(intros; apply Hk; set_solver)).
  unfold unmet in *. rewrite !filter_app, !length_app.
  rewrite (filter_cons_True (λ g, met g (ow_cluster w) = false)) by done.
  rewrite filter_cons_False by congruence. simpl. lia.
Qed.

(** One reconciliation of a live instance. *)
Lemma Reconcile_runs ns n i w :
  is_Get (ow_cluster w) ns n = Good i → DeletionTimestamp (is_Meta i) = None →
  distinct_names i → ready (prerequisites i) w →
  runs (Reconcile ns n) w (λ r w', keeps (relevant i) w w' ∧ same_instances w w' ∧
    ((r = (done_, None) ∧ ready (allGoals i) w') ∨
     (Requeue r.1 = true ∧ r.2 = None ∧ (unmet (allGoals i) w' < unmet (allGoals i) w)%nat))).
Proof.
  intros Hi Hdt Hd Hr. unfold Reconcile. apply runs_bind, runs_asksW. rewrite Hi, Hdt.
  eapply runs_mono.
  - apply (runSteps_ok (prerequisites i) (relevant i) (allSteps i) (allGoals i));
      [|..|by apply allSteps_ok|done]; intros g Hg; left; set_solver.
  - intros r w' (Hk & Hs & Hres). split; [done|]. split; [done|].
    destruct Hres as [?|(Hq & He & g & Hg & Hm & Hm')]; [by left|right].
    split; [done|]. split; [done|]. eapply unmet_lt; [|exact Hg|done|done].
    intros g' Hg'. apply Hk. left. set_solver.
Qed.

Lemma settle_runs fuel ns n i w :
  is_Get (ow_cluster w) ns n = Good i → DeletionTimestamp (is_Meta i) = None →
  distinct_names i → ready (prerequisites i) w → (unmet (allGoals i) w ≤ fuel)%nat →
  runs (settle fuel ns n) w (λ r w', r = (done_, None) ∧ ready (allGoals i) w' ∧
    ready (prerequisites i) w' ∧ keeps (relevant i) w w' ∧ same_instances w w').
Proof.
  intros Hi Hdt Hd. revert w Hi. induction fuel as [|fuel IH]; intros w Hi Hr Hf; simpl;
    apply runs_bind; (eapply runs_mono; [by apply Reconcile_runs|]);
    intros [r e] w1 (Hk & Hs & Hres);
    (assert (ready (prerequisites i) w1) as Hr1
      by (intros b Hb; apply Hk; [left; set_solver|by apply Hr]));
    (destruct Hres as [[? Hall]|(Hq & He & Hlt)];
      [simplify_eq/=; by apply runs_ret|simpl in Hq, He; subst e]).
  - lia.
  - rewrite bool_decide_eq_true_2 by done. rewrite Hq. simpl. eapply runs_mono.
    + apply IH; [by rewrite Hs|done|lia].
    + intros r' w2 (-> & Hall & Hr2 & Hk2 & Hs2). split_and!; try done; by etrans.
Qed.

Lemma length_allGoals i : length (allGoals i) = length (allSteps i).
Proof.
  unfold allGoals, allSteps. by destruct (Enabled _), (UseGatekeeper _).
Qed.

(** ** Deletion *)

Definition same_others (k : kind) (n : string) w w' : Prop :=
  ∀ k' n', clusterScoped k' = true → (k', n') ≠ (k, n) →
    cl_Get (ow_cluster w') k' "" n' = cl_Get (ow_cluster w) k' "" n'.
End settle.

Section deletion.
Context {OT : OpTypes} {OF : OpFiles} {C : OpClient OT} {L : OpClientLaws OT C}.
Implicit Types (w : OpWorld) (i : IntegrityShield).

Lemma deleteFound_runs k n w :
  clusterScoped k = true →
  runs (deleteFound k n) w (λ r w', same_instances w w' ∧ same_others k n w w' ∧
    match r.2 with
    | None => gone (ow_cluster w') k n ∧ Requeue r.1 = true
    | Some _ => w' = w
    end).
Proof.
  intros Hc. unfold deleteFound. apply runs_bind, runs_asksW.
  destruct (cl_Get (ow_cluster w) k "" n) as [found|e] eqn:E.
  - pose proof (get_key_of _ _ _ _ _ E) as Hk. destruct (okey_kind _ _ _ _ _ _ Hk) as [_ Hn].
    apply runs_bind. unfold opDelete, opWrite.
    destruct (cl_Delete (ow_cluster w) k found) as [[e|] c'] eqn:Ed.
    + pose proof (delete_refused _ _ _ _ _ Ed) as ->.
      exists (Some e), w. split; [rewrite Ed; by destruct w|]. apply runs_ret. done.
    + eexists None, _. split; [by rewrite Ed|]. apply runs_ret. simpl. split_and!; try done.
      * intros ns0 n0. by eapply delete_keeps_instances.
      * intros k' n' Hc' Hne. eapply delete_frame; [exact Ed|]. rewrite Hk. unfold okey.
        rewrite Hc, Hc'. congruence.
      * rewrite <-Hn. by apply (delete_gone _ _ _ _ Ed).
  - destruct (IsNotFound e) eqn:Ee; apply runs_ret; split_and!; try done.
    simpl. split; [|done]. unfold gone. by rewrite E.
Qed.

Definition deleteStep (kn : kind * string) : M OpWorld (Result * option error) :=
  deleteFound kn.1 kn.2.

Lemma runDeletes_runs (l : list (kind * string)) (done_before : list (kind * string)) w :
  Forall (λ kn, clusterScoped kn.1 = true) (done_before ++ l) →
  (∀ kn, kn ∈ done_before → gone (ow_cluster w) kn.1 kn.2) →
  runs (runDeletes (deleteStep <$> l)) w (λ e w', same_instances w w' ∧
    (∀ k n, clusterScoped k = true → (k, n) ∉ l →
       cl_Get (ow_cluster w') k "" n = cl_Get (ow_cluster w) k "" n) ∧
    (e = None → ∀ kn, kn ∈ (done_before ++ l)%list → gone (ow_cluster w') kn.1 kn.2)).
Proof.
  revert done_before w. induction l as [|[k n] l IH]; intros db w Hc Hb; simpl.
  { apply runs_ret. rewrite app_nil_r. done. }
  assert (clusterScoped k = true) as Hck.
  { rewrite Forall_forall in Hc. apply (Hc (k, n)). set_solver. }
  apply runs_bind. unfold deleteStep at 1. simpl.
  eapply runs_mono; [by apply deleteFound_runs|].
  intros [r e] w1 (Hs & Ho & Hr). simpl in Hr. destruct e as [e|].
  - subst w1. by apply runs_ret.
  - destruct Hr as [Hg _]. eapply runs_mono.
    + apply (IH (db ++ [(k, n)])%list); [by rewrite <-app_assoc|].
      intros [k' n'] [Hkn|Hkn]%elem_of_app; simpl.
      * destruct (decide ((k', n') = (k, n))) as [?|Hne]; [by simplify_eq|].
        unfold gone. rewrite Ho; [by apply (Hb (k', n'))| |done].
        rewrite Forall_forall in Hc. apply (Hc (k', n')). set_solver.
      * apply list_elem_of_singleton in Hkn. by simplify_eq.
    + intros e w2 (Hs2 & Ho2 & Hg2). split_and!.
      * by etrans.
      * intros k' n' Hc' Hne. rewrite Ho2, Ho by set_solver. done.
      * intros -> kn Hkn. apply Hg2; [done|]. rewrite <-app_assoc. exact Hkn.
Qed.
End deletion.

Section children.
Context {OT : OpTypes} {OF : OpFiles} {C : OpClient OT} {L : OpClientLaws OT C}.
Implicit Types (w : OpWorld) (i : IntegrityShield).

(** The cluster-scoped objects of an instance; [gk]: Gatekeeper is installed. *)
Definition ownedRoles i : list (kind * string) :=
  [(KClusterRole, APIRole (Security (Spec i)));
   (KClusterRoleBinding, APIRoleBinding (Security (Spec i)))].
Definition ownedFront i (gk : bool) : list (kind * string) :=
  if UseGatekeeper (Spec i) then
    if gk then [(KTemplate, "manifestintegrityconstraint")] else []
  else [(KWebhook, webhookName i);
        (KCRD, "manifestintegrityprofiles.apis.integrityshield.io")].
Definition observerOwned i : list (kind * string) :=
  [(KClusterRole, ObserverRole (Security (Spec i)));
   (KClusterRoleBinding, ObserverRoleBinding (Security (Spec i)));
   (KCRD, "manifestintegritystates.apis.integrityshield.io")].
Definition ownedObserver i : list (kind * string) :=
  if Enabled (is_Observer (Spec i)) then observerOwned i else [].
Definition children i (gk : bool) : list (kind * string) :=
  (ownedRoles i ++ ownedFront i gk ++ ownedObserver i)%list.

Lemma children_scoped i gk : Forall (λ kn, clusterScoped kn.1 = true) (children i gk).
Proof.
  unfold children, ownedRoles, ownedFront, ownedObserver.
  destruct (UseGatekeeper _), gk, (Enabled _); repeat constructor.
Qed.

(** The middle part of the deletion, for the two front ends. *)
Lemma deleteFront_runs i w db gk :
  gk = is_good (cl_Get (ow_cluster w) KCRD "" gatekeeperCRD) →
  Forall (λ kn, clusterScoped kn.1 = true) (db ++ ownedFront i gk) →
  (∀ kn, kn ∈ db → gone (ow_cluster w) kn.1 kn.2) →
  runs (if UseGatekeeper (Spec i) then
          available ← isGatekeeperAvailable i;
          if (available : bool) then runDeletes [deleteConstraintTemplate i] else mret None
        else runDeletes [deleteWebhook i; deleteManifestIntegrityProfileCRD i]) w
    (λ e w', same_instances w w' ∧
      (e = None → ∀ kn, kn ∈ (db ++ ownedFront i gk)%list → gone (ow_cluster w') kn.1 kn.2)).
Proof.
  intros -> Hc Hb. unfold ownedFront in *. destruct (UseGatekeeper (Spec i)).
  - unfold isGatekeeperAvailable. apply runs_bind, runs_bind, runs_asksW, runs_ret.
    destruct (cl_Get (ow_cluster w) KCRD "" gatekeeperCRD); simpl in *.
    + eapply runs_mono; [by apply (runDeletes_runs _ db w Hc Hb)|]. naive_solver.
    + apply runs_ret. rewrite app_nil_r. done.
  - eapply runs_mono; [by apply (runDeletes_runs _ db w Hc Hb)|]. naive_solver.
Qed.

Lemma deleteChildren_runs i w gk :
  gk = is_good (cl_Get (ow_cluster w) KCRD "" gatekeeperCRD) →
  runs (deleteClusterScopedChildrenResources i) w (λ e w', same_instances w w' ∧
    (e = None → ∀ kn, kn ∈ children i gk → gone (ow_cluster w') kn.1 kn.2)).
Proof.
  intros Hgk. pose proof (children_scoped i gk) as Hall. unfold children in *.
  unfold deleteClusterScopedChildrenResources. apply runs_bind. eapply runs_mono.
  { apply (runDeletes_runs (ownedRoles i) [] w); [|by intros kn ?%elem_of_nil].
    by apply Forall_app in Hall as [? _]. }
  intros e w1 (Hs1 & Ho1 & Hg1). destruct e as [e|]; [by apply runs_ret|].
  specialize (Hg1 eq_refl). simpl in Hg1. apply runs_bind. eapply runs_mono.
  { apply (deleteFront_runs i w1 (ownedRoles i) gk); [|by rewrite app_assoc, Forall_app in Hall; destruct Hall|done].
    rewrite Ho1; [done|done|]. unfold ownedRoles. set_solver. }
  intros e w2 (Hs2 & Hg2). destruct e as [e|]; [apply runs_ret; split; [by etrans|done]|].
  specialize (Hg2 eq_refl). unfold ownedObserver in *.
  destruct (Enabled (is_Observer (Spec i))).
  - eapply runs_mono; [apply (runDeletes_runs (observerOwned i) (ownedRoles i ++ ownedFront i gk)%list w2)|].
    + by rewrite <-app_assoc.
    + done.
    + intros e w3 (Hs3 & _ & Hg3). split; [etrans; [exact Hs1|by etrans]|].
      intros He kn Hkn. apply Hg3; [done|]. by rewrite <-app_assoc.
  - apply runs_ret. split; [by etrans|]. intros _. rewrite app_nil_r. done.
Qed.

(** A write leaves every other key alone, accepted or not. *)
Definition frame_except (key : kind * string * string) w w' : Prop :=
  ∀ k ns n, okey k ns n ≠ key →
    cl_Get (ow_cluster w') k ns n = cl_Get (ow_cluster w) k ns n.
Lemma opCreate_frame {k} (o : Object k) w :
  runs (opCreate o) w (λ _ w', frame_except (keyOf o) w w').
Proof.
  unfold opCreate, opWrite, runs. destruct (cl_Create (ow_cluster w) k o) as [[e|] c'] eqn:E;
    eexists _, _; (split; [reflexivity|]); intros k' ns n Hne; simpl.
  - by rewrite (create_refused _ _ _ _ _ E).
  - eapply write_frame; [by left|done].
Qed.
Lemma opUpdate_frame {k} (o : Object k) w :
  runs (opUpdate o) w (λ _ w', frame_except (keyOf o) w w').
Proof.
  unfold opUpdate, opWrite, runs. destruct (cl_Update (ow_cluster w) k o) as [[e|] c'] eqn:E;
    eexists _, _; (split; [reflexivity|]); intros k' ns n Hne; simpl.
  - by rewrite (update_refused _ _ _ _ _ E).
  - eapply write_frame; [by right|done].
Qed.

Lemma createOrUpdateWebhookEvent_frame i evt name w :
  runs (createOrUpdateWebhookEvent i evt name) w (λ _ w', ∀ k ns n, k ≠ KEvent →
    cl_Get (ow_cluster w') k ns n = cl_Get (ow_cluster w) k ns n).
Proof.
  unfold createOrUpdateWebhookEvent. apply runs_bind. eexists _, _. split; [reflexivity|].
  apply runs_bind, runs_asksW. simpl. destruct (cl_Get _ _ _ _) as [found|e].
  - run_with @opUpdate_frame. intros r w' Hf k ns n Hk.
    rewrite Hf; [done|]. unfold keyOf, okey. congruence.
  - destruct (IsNotFound e); [|by apply runs_ret]. apply runs_bind.
    run_with @opCreate_frame. intros r w' Hf. apply runs_ret. intros k ns n Hk.
    rewrite Hf; [done|]. unfold keyOf, okey. congruence.
Qed.

Lemma removeString_spec l s :
  removeString l s = filter (λ x, x ≠ s) l ∧ containsString (removeString l s) s = false.
Proof.
  induction l as [|x l [IH1 IH2]]; [done|]. simpl. case_bool_decide as E.
  - rewrite filter_cons_False by naive_solver. done.
  - rewrite filter_cons_True by done. rewrite <-IH1. split; [done|].
    unfold containsString in *. simpl. by rewrite bool_decide_eq_false_2.
Qed.
End children.

(** ** Theorems *)
Section theorems.
Context {OT : OpTypes} {OF : OpFiles} {C : OpClient OT} {L : OpClientLaws OT C}.
Implicit Types (w : OpWorld) (i : IntegrityShield).



(** C8.  The finalizer.  For an instance that is being deleted and still has the
    clean-up finalizer, [Reconcile] returns; on success every cluster-scoped object
    of the instance was gone (or marked for deletion) when the instance was updated
    to exactly its other finalizers; on an error the stored instances are unchanged,
    so the clean-up is tried again. *)
Theorem Reconcile_finalizer ns n i w t gk :
  is_Get (ow_cluster w) ns n = Good i → DeletionTimestamp (is_Meta i) = Some t →
  containsString (Finalizers (is_Meta i)) CleanupFinalizerName = true →
  gk = is_good (cl_Get (ow_cluster w) KCRD "" gatekeeperCRD) →
  runs (Reconcile ns n) w (λ r w', Requeue r.1 = false ∧
    match r.2 with
    | None => ∃ c1, (∀ k m, (k, m) ∈ children i gk → gone c1 k m) ∧
        is_Update c1 (withFinalizers i
          (filter (λ f, f ≠ CleanupFinalizerName) (Finalizers (is_Meta i))))
        = (None, ow_cluster w')
    | Some _ => ∀ ns' n', is_Get (ow_cluster w') ns' n' = is_Get (ow_cluster w) ns' n'
    end).
Proof.
  intros Hi Ht Hf Hgk. unfold Reconcile. apply runs_bind, runs_asksW. rewrite Hi, Ht.
  unfold finalize. rewrite Hf. apply runs_bind.
  eapply runs_mono; [by apply (deleteChildren_runs i w gk)|].
  intros e w1 (Hs & Hg). destruct e as [e|]; [apply runs_ret; split; [done|exact Hs]|].
  rewrite (proj1 (removeString_spec _ _)). apply runs_bind. unfold opWrite.
  match goal with |- context [is_Update _ ?j] => set (i' := j) end.
  destruct (is_Update (ow_cluster w1) i') as [[e|] c'] eqn:Eu.
  - eexists _, _. split; [by rewrite Eu|]. apply runs_ret. split; [done|]. simpl.
    pose proof (is_update_refused _ _ _ _ Eu) as ->. exact Hs.
  - eexists _, _. split; [by rewrite Eu|]. apply runs_ret. split; [done|].
    exists (ow_cluster w1). split; [|exact Eu]. intros k m Hkm. by apply (Hg eq_refl (k, m)).
Qed.

(** No webhook without a server.  When the admission controller deployment is
    not available, the webhook step asks for another round and leaves no webhook
    configuration behind (unless the API refuses, in which case nothing changed). *)
Theorem webhookStep_unavailable i w :
  isDeploymentAvailable i w = (Ret false, w) →
  runs (webhookStep i) w (λ r w',
    match r.2 with
    | None => Requeue r.1 = true ∧ gone (ow_cluster w') KWebhook (webhookName i)
    | Some _ => w' = w
    end).
Proof.
  intros Hav. unfold webhookStep. apply runs_bind. eexists _, _. split; [exact Hav|].
  unfold deleteWebhook. eapply runs_mono; [by apply deleteFound_runs|].
  intros r w' (_ & _ & Hr). destruct r.2; naive_solver.
Qed.

(** The comparison of deployments.  For an expected deployment with a container
    it never crashes, and it holds exactly when the labels, the pod's labels and
    annotations, the service account, the number of containers and the compared
    fields of the first container agree; in particular replicas, resources, probes
    and further containers are not compared. *)
Theorem EqualDeployments_spec (e d : Object KDeployment) :
  Containers (pt_Spec (podOf e)) ≠ [] →
  ∃ b, EqualDeployments e d = Ret b ∧ (b = true ↔ agrees e d).
Proof.
  intros He. destruct (EqualDeployments_total e d He) as [b Hb]. exists b. split; [done|].
  rewrite <-EqualDeployments_true, Hb. naive_solver.
Qed.

(** The webhook trusts the server's certificate authority: when the webhook
    configuration is missing, the one that is created carries the [ca.crt] of the
    webhook's TLS secret as CA bundle and points at the webhook service. *)
Theorem createOrUpdateWebhook_trusts i w meta e sec ca c' :
  SetControllerReference i (o_Meta (BuildValidatingWebhookConfigurationForIShield i)) = Good meta →
  cl_Get (ow_cluster w) KWebhook "" (webhookName i) = Bad e → IsNotFound e = true →
  cl_Get (ow_cluster w) KSecret (is_Namespace i) (WebhookServerTlsSecretName (Spec i)) = Good sec →
  s_Data (o_Body sec) !! "ca.crt" = Some ca →
  cl_Create (ow_cluster w) KWebhook (mkObject KWebhook meta
    (withCABundle ca (o_Body (BuildValidatingWebhookConfigurationForIShield i)))) = (None, c') →
  runs (createOrUpdateWebhook i) w (λ r w', r = (soon, None) ∧
    ∃ wh rest, withCABundle ca (o_Body (BuildValidatingWebhookConfigurationForIShield i)) = wh :: rest ∧
      CABundle wh = ca ∧ wh_ServiceName wh = WebhookServiceName (Spec i) ∧
      cl_Get (ow_cluster w') KWebhook "" (webhookName i) = Good (defaulted KWebhook
        (mkObject KWebhook meta (wh :: rest)))).
Proof.
  intros Hm He Hnf Hs Hca Hc. unfold createOrUpdateWebhook. rewrite Hm.
  destruct (owner_keeps _ _ _ Hm) as (Hn & Hns & _). rewrite Hn. simpl in Hn.
  apply runs_bind, runs_asksW. simpl. unfold webhookName in *. rewrite He, Hnf.
  apply runs_bind, runs_asksW. rewrite Hs, Hca. apply runs_bind.
  eexists None, _. split; [unfold opCreate, opWrite; simpl; simpl in Hc; by rewrite Hc|].
  assert (cl_Get c' KWebhook "" (WebhookConfigName (Spec i)) = Good (defaulted KWebhook
    (mkObject KWebhook meta (withCABundle ca
      (o_Body (BuildValidatingWebhookConfigurationForIShield i)))))) as Hget.
  { rewrite (get_key c' KWebhook "" (Namespace meta)) by done. rewrite <-Hn.
    by apply (write_get (ow_cluster w) KWebhook (mkObject KWebhook meta _)); left. }
  apply runs_bind. run_with createOrUpdateWebhookEvent_frame. intros r w' Hf.
  apply runs_ret. split; [done|]. eexists _, _. split; [reflexivity|]. split; [done|].
  split; [done|]. rewrite Hf by done. exact Hget.
Qed.
End theorems.
