(* ===== verification/OperatorDemo.v ===== *)
(** * A concrete API server for the operator, and its theorems on examples

    An in-memory store per kind that stamps every object it is given with a
    resource version; it satisfies the laws of the client and is healthy. *)
From S2P Require Import Prelude GoStrings OperatorResources Operator OperatorProofs.
From stdpp Require Import base gmap strings list.
From Stdlib Require Import ZArith Lia.

Local Open Scope string_scope.

Module OperatorDemo.

#[export] Instance opTypes : OpTypes := {
  SecurityContext := unit; PodSecurityContext := unit; ResourceRequirements := unit;
  Affinity := unit; Toleration := unit; Rest := nat; Rest_zero := 0%nat }.

Abbreviation Shelf := (λ k : kind, gmap (string * string) (Object k)).
Record Store := mkStore {
  st_objects : ∀ k, Shelf k; st_instances : gmap (string * string) IntegrityShield }.

Definition upd (f : ∀ k, Shelf k) (k : kind) (m : Shelf k) : ∀ k, Shelf k := λ k',
  match decide (k = k') with
  | left E => eq_rect k Shelf m k' E
  | right _ => f k'
  end.
Lemma upd_eq f k m : upd f k m k = m.
Proof. unfold upd. destruct (decide (k = k)) as [E|]; [|done]. by rewrite (proof_irrel E eq_refl). Qed.
Lemma upd_ne f k m k' : k ≠ k' → upd f k m k' = f k'.
Proof. unfold upd. by destruct (decide (k = k')). Qed.

Definition slot (k : kind) (ns n : string) : string * string :=
  (if clusterScoped k then "" else ns, n).
Definition missing (n : string) : error := mkError NotFound (n +:+ " not found").

Definition stamp (k : kind) (o : Object k) : Object k :=
  let m := o_Meta o in
  mkObject k (mkMeta (Name m) (Namespace m) (Labels m) (Annotations m) (Finalizers m)
    (DeletionTimestamp m) (OwnerReferences m) 1%nat) (o_Body o).

Definition sGet (c : Store) (k : kind) (ns n : string) : res (Object k) :=
  match st_objects c k !! slot k ns n with
  | Some o => if bool_decide (keyOf o = okey k ns n) then Good o else Bad (missing n)
  | None => Bad (missing n)
  end.
Definition sOwn (c : Store) (k : kind) (o : Object k) : res (Object k) :=
  sGet c k (Namespace (o_Meta o)) (Name (o_Meta o)).
Definition sPut (c : Store) (k : kind) (o : Object k) : Store :=
  mkStore (upd (st_objects c) k
    (<[slot k (Namespace (o_Meta o)) (Name (o_Meta o)) := stamp k o]> (st_objects c k)))
    (st_instances c).
Definition sDrop (c : Store) (k : kind) (o : Object k) : Store :=
  mkStore (upd (st_objects c) k
    (delete (slot k (Namespace (o_Meta o)) (Name (o_Meta o))) (st_objects c k)))
    (st_instances c).

#[export] Instance opClient : OpClient opTypes := {
  OC := Store;
  cl_Get := sGet;
  cl_Create c k o := match sOwn c k o with
    | Good _ => (Some (mkError AlreadyExists "already exists"), c)
    | Bad _ => (None, sPut c k o) end;
  cl_Update c k o := match sOwn c k o with
    | Good _ => (None, sPut c k o)
    | Bad e => (Some e, c) end;
  cl_Delete c k o := match sOwn c k o with
    | Good _ => (None, sDrop c k o)
    | Bad e => (Some e, c) end;
  is_Get c ns n := match st_instances c !! (ns, n) with
    | Some i => Good i | None => Bad (missing n) end;
  is_Update c i := match st_instances c !! (is_Namespace i, is_Name i) with
    | Some _ => (None, mkStore (st_objects c)
                  (<[(is_Namespace i, is_Name i) := i]> (st_instances c)))
    | None => (Some (missing (is_Name i)), c) end;
  SetControllerReference i m :=
    if decide (OwnerReferences m = []) then
      Good (mkMeta (Name m) (Namespace m) (Labels m) (Annotations m) (Finalizers m)
              (DeletionTimestamp m) [is_Name i] (om_rest m))
    else Bad (errNew "already owned");
  op_clock n := Z.of_nat n;
  AddYears t y := (t + 31536000 * y)%Z;
  PrivateKey := nat;
  rsa_GenerateKey n := Good n;
  MarshalPKCS1PrivateKey _ := "key";
  CreateCertificate _ t _ _ _ := Good (CommonName t);
  pem_Encode t b := Good (t +:+ " " +:+ b) }.

Lemma slot_okey k ns n k' ns' n' :
  slot k ns n = slot k' ns' n' → k = k' → okey k ns n = okey k' ns' n'.
Proof. unfold slot, okey. intros E ->. congruence. Qed.
Lemma okey_slot k ns n ns' n' : okey k ns n = okey k ns' n' → slot k ns n = slot k ns' n'.
Proof. unfold slot, okey. congruence. Qed.

Lemma sGet_put c k (o : Object k) :
  sGet (sPut c k o) k (Namespace (o_Meta o)) (Name (o_Meta o)) = Good (stamp k o).
Proof.
  unfold sGet, sPut. simpl. rewrite upd_eq, lookup_insert_eq.
  by rewrite bool_decide_eq_true_2.
Qed.
Lemma sGet_put_ne c k (o : Object k) k' ns n :
  okey k' ns n ≠ keyOf o → sGet (sPut c k o) k' ns n = sGet c k' ns n.
Proof.
  intros Hne. unfold sGet, sPut. simpl. destruct (decide (k = k')) as [<-|Hk].
  - rewrite upd_eq, lookup_insert_ne; [done|]. intros E. apply Hne.
    symmetry. by apply slot_okey.
  - by rewrite upd_ne.
Qed.
Lemma sGet_drop_ne c k (o : Object k) k' ns n :
  okey k' ns n ≠ keyOf o → sGet (sDrop c k o) k' ns n = sGet c k' ns n.
Proof.
  intros Hne. unfold sGet, sDrop. simpl. destruct (decide (k = k')) as [<-|Hk].
  - rewrite upd_eq, lookup_delete_ne; [done|]. intros E. apply Hne.
    symmetry. by apply slot_okey.
  - by rewrite upd_ne.
Qed.
Lemma sGet_drop c k (o : Object k) :
  clusterScoped k = true → gone (sDrop c k o) k (Name (o_Meta o)).
Proof.
  intros Hc. unfold gone. simpl. unfold sGet, sDrop. simpl. rewrite upd_eq.
  unfold slot. rewrite Hc. by rewrite lookup_delete_eq.
Qed.

Lemma accepted_put (c : OC) k (o : Object k) c' : accepted c o c' → c' = sPut c k o.
Proof. unfold accepted. simpl. destruct (sOwn c k o); naive_solver. Qed.

#[export] Instance opLaws : OpClientLaws opTypes opClient.
Proof.
  refine {| defaulted := stamp |}.
  - intros c k ns ns' n E. simpl. unfold sGet. by rewrite (okey_slot _ _ _ _ _ E), E.
  - intros c k ns n o. simpl. unfold sGet. destruct (_ !! _); [|done].
    case_bool_decide; naive_solver.
  - intros c k o c' ->%accepted_put. apply sGet_put.
  - intros c k o c' k' ns n ->%accepted_put. apply sGet_put_ne.
  - intros c k o c'. simpl. destruct (sOwn c k o); [|done]. intros ? Hc. simplify_eq.
    by apply sGet_drop.
  - intros c k o c' k' ns n. simpl. destruct (sOwn c k o); [|done]. intros ?. simplify_eq.
    apply sGet_drop_ne.
  - intros c k o e c' ns n. simpl. destruct (sOwn c k o); intros ?; by simplify_eq.
  - intros c k o e c' ns n. simpl. destruct (sOwn c k o); intros ?; by simplify_eq.
  - intros c k o e c'. simpl. destruct (sOwn c k o); intros ?; by simplify_eq.
  - intros c k o e c'. simpl. destruct (sOwn c k o); intros ?; by simplify_eq.
  - intros c k o e c'. simpl. destruct (sOwn c k o); intros ?; by simplify_eq.
  - intros c k o e c' ns n. simpl. destruct (sOwn c k o); intros ?; by simplify_eq.
  - intros c i e c'. simpl. destruct (_ !! _); intros ?; by simplify_eq.
  - intros i m m'. simpl. case_decide; intros ?; by simplify_eq.
Defined.

#[export] Instance opHealthy : Healthy opTypes opClient.
Proof.
  split.
  - intros c k ns n e. simpl. unfold sGet. repeat case_match; naive_solver.
  - intros c k o e Hg. simpl in *. unfold sOwn. rewrite Hg. eauto.
  - intros c k o o' Hg. simpl in *. unfold sOwn. rewrite Hg. eauto.
  - intros i m Hm _. simpl. rewrite decide_True by done. eauto.
  - intros e d. rewrite !EqualDeployments_true. done.
Qed.

#[export] Instance opFiles : OpFiles := {
  ReadFile _ := Good "csv";
  yaml_map _ := [("spec", YMap [("version", YString "0.3.2")])] }.

(** ** Two instances *)

Definition spec_with (gk : bool) : IntegrityShieldSpec :=
  mkISSpec None None (Some 1%Z) None None None []
    (mkSecurityConfig "ishield-sa" "observer-sa" "observer-role" "observer-rb"
       "ishield-role" "ishield-rb" "psp" None)
    (mkAPIContainer "ishield-api" (Some {[ "app" := "api" ]}) None "Always" "quay.io/api" "" 8080 tt)
    "config.yaml" "request-handler-config" "mode: enforce" "ishield-api-svc" 8123
    (mkControllerContainer "ac-server" (Some {[ "app" := "ac" ]}) None "Always"
       "quay.io/ac:old" "1.0" 8443 tt "info" "json")
    "config.yaml" "ac-config" "mode: detect"
    (mkObserverT true "observer" (Some {[ "app" := "obs" ]}) "Always" "quay.io/obs" "" None
       "info" "5" true false "detail" "config.yaml" tt)
    "api-tls" "webhook-tls" "ac-svc" "ac-webhook"
    (mkRule ["*"] ["*"] ["*"] None) (mkRule ["*"] ["*"] ["*"] None) gk "rego".
Definition cr_with (gk : bool) (deleted : option Z) : IntegrityShield :=
  mkIS "v1" "IntegrityShield"
    (mkMeta "ishield" "is" None None ["keep"; CleanupFinalizerName] deleted [] 0%nat) (spec_with gk).

Definition empty_store : Store := mkStore (λ _, ∅) ∅.
Definition world_of (i : IntegrityShield) (c : Store) : OpWorld :=
  mkOpWorld (mkStore (st_objects c) {[ ("is", "ishield") := i ]}) 0.
Definition gk_crd : Object KCRD :=
  buildCRD gatekeeperCRD "" (mkCRDNames "ConstraintTemplate" "" "" "" []) false.
Definition gk_world : OpWorld := world_of (cr_with true None) (sPut empty_store KCRD gk_crd).

Example first_reconcile_requeues :
  result_of (Reconcile "is" "ishield") gk_world = Ret (soon, None).
Proof. vm_compute. reflexivity. Qed.
Example settles :
  result_of (settle 17 "is" "ishield") gk_world = Ret (done_, None).
Proof. vm_compute. reflexivity. Qed.

Lemma gk_ready : ready (prerequisites (cr_with true None)) gk_world.
Proof. intros b Hb. apply list_elem_of_singleton in Hb as ->. vm_compute. reflexivity. Qed.
Lemma gk_distinct : distinct_names (cr_with true None).
Proof. intros _. discriminate. Qed.


Definition old_config : Object KConfigMap :=
  mkObject KConfigMap (newMeta "request-handler-config" "is" None) {[ "config.yaml" := "old" ]}.
Definition old_world : OpWorld :=
  world_of (cr_with true None) (sPut (sPut empty_store KCRD gk_crd) KConfigMap old_config).

Definition dying_world : OpWorld := world_of (cr_with true (Some 7%Z)) (sPut empty_store KCRD gk_crd).
Lemma Reconcile_finalizer_witness :
  runs (Reconcile "is" "ishield") dying_world (λ r w', Requeue r.1 = false).
Proof.
  eapply runs_mono.
  - apply (Reconcile_finalizer "is" "ishield" (cr_with true (Some 7%Z)) dying_world 7 true);
      vm_compute; reflexivity.
  - intros r w' (Hq & _). exact Hq.
Defined.
Example finalizer_removed :
  match is_Get (ow_cluster (state_of (Reconcile "is" "ishield") dying_world)) "is" "ishield" with
  | Good i => Finalizers (is_Meta i) = ["keep"]
  | Bad _ => False
  end.
Proof. vm_compute. reflexivity. Qed.

Definition ac_world : OpWorld := world_of (cr_with false None) empty_store.
Lemma webhookStep_unavailable_witness :
  runs (webhookStep (cr_with false None)) ac_world (λ r w',
    match r.2 with
    | None => Requeue r.1 = true ∧ gone (ow_cluster w') KWebhook "ac-webhook"
    | Some _ => w' = ac_world
    end).
Proof.
  apply (webhookStep_unavailable (cr_with false None) ac_world).
  apply run_eta. vm_compute. reflexivity.
Defined.

Lemma EqualDeployments_spec_witness :
  ∃ b, EqualDeployments (BuildDeploymentForObserver (cr_with true None))
         (BuildDeploymentForIShieldAPI (cr_with true None)) = Ret b.
Proof.
  destruct (EqualDeployments_spec (BuildDeploymentForObserver (cr_with true None))
    (BuildDeploymentForIShieldAPI (cr_with true None)) ltac:(discriminate)) as (b & Hb & _).
  exists b. exact Hb.
Defined.

Definition tls_secret : Object KSecret :=
  mkObject KSecret (newMeta "webhook-tls" "is" None)
    (mkSecretT {[ "ca.crt" := "CA"; "tls.crt" := "C"; "tls.key" := "K" ]} "kubernetes.io/tls").
Definition hook_world : OpWorld :=
  world_of (cr_with false None) (sPut empty_store KSecret tls_secret).
Definition hook_meta : ObjectMeta :=
  mkMeta "ac-webhook" "is" None None [] None ["ishield"] 0%nat.
Lemma createOrUpdateWebhook_trusts_witness :
  runs (createOrUpdateWebhook (cr_with false None)) hook_world (λ r w', r = (soon, None)).
Proof.
  eapply runs_mono.
  - apply (createOrUpdateWebhook_trusts (cr_with false None) hook_world hook_meta
      (missing "ac-webhook") (stamp KSecret tls_secret) "CA"
      (sPut (ow_cluster hook_world) KWebhook (mkObject KWebhook hook_meta (withCABundle "CA"
         (o_Body (BuildValidatingWebhookConfigurationForIShield (cr_with false None)))))));
      vm_compute; reflexivity.
  - intros r w' (Hr & _). exact Hr.
Defined.

Lemma name_only_at_end p q :
  "quay.io/" +:+ ("api" +:+ ":old") = p +:+ ("api" +:+ ":old") +:+ q → q = "".
Proof.
  intros E. do 8 (destruct p as [|? p]; [vm_compute in E; discriminate E|];
    match type of E with _ = String ?a ?p +:+ ?t =>
      change (String a p +:+ t) with (String a (p +:+ t)) in E end;
    injection E as _ E).
  apply (f_equal len) in E. rewrite !len_app in E. unfold len in E. simpl in E.
  destruct q; [done|]. simpl in E. lia.
Qed.
Lemma SetImageVersion_spec_witness :
  SetImageVersion "quay.io/api:old" "1.0" "c" = "quay.io/api:1.0".
Proof.
  apply (SetImageVersion_spec "quay.io/" "api" ":old" "1.0" "c").
  - right. exists "quay.io". reflexivity.
  - reflexivity.
  - reflexivity.
  - right. exists "old". reflexivity.
  - exact name_only_at_end.
Defined.
End OperatorDemo.
