(* ===== verification/Access.v ===== *)
(** * Access of the servers to the API

    The operator creates the custom resource definitions, service accounts, roles and
    bindings ([resources/crd.go], [resources/role.go]); the servers reach the API
    through the generated clients.  This file relates the two: the requests that the
    clients send are served by the definitions and granted by the roles, and what the
    roles grant beyond the operator's namespace is stated exactly.

    [allows] is the rule of Kubernetes' role based access control: a rule of a bound
    role covers verb, group and resource; a cluster role binding holds everywhere, a
    role binding in its namespace. *)
From S2P Require Import Prelude GoStrings World RestClients OperatorResources Operator OperatorProofs OperatorDemo.
From stdpp Require Import base gmap strings list.
From Stdlib Require Import ZArith Lia.

Local Open Scope string_scope.

(** ** Role based access control *)

Record Access := mkAccessTo {
  at_Verb : string; at_Group : string; at_Resource : string;
  at_Namespace : string }.                        (* empty: cluster-wide *)

#[export] Instance Subject_eq_dec : EqDecision Subject.
Proof. solve_decision. Defined.

Definition covers (r : PolicyRule) (a : Access) : bool :=
  let has l x := containsb l "*" || containsb l x in
  has (pr_APIGroups r) (at_Group a) && has (pr_Resources r) (at_Resource a) &&
  has (pr_Verbs r) (at_Verb a).

Section access.
Context {OT : OpTypes} {OF : OpFiles}.
Implicit Types (cr : IntegrityShield) (a : Access).

(** A binding, of a subject, to a role, that covers the access. *)
Definition binds (b : RoleBindingT) (account : string * string) (kind role : string) : bool :=
  anyb (λ s, bool_decide (s = mkSubject "ServiceAccount" account.1 account.2)) (Subjects b) &&
  bool_decide (ref_Kind (rb_RoleRef b) = kind ∧ ref_Name (rb_RoleRef b) = role).
Definition clusterGrant (b : Object KClusterRoleBinding) (r : Object KClusterRole)
    (account : string * string) a : bool :=
  binds (o_Body b) account "ClusterRole" (Name (o_Meta r)) && anyb (λ p, covers p a) (o_Body r).
Definition namespaceGrant (b : Object KRoleBinding) (r : Object KRole)
    (account : string * string) a : bool :=
  bool_decide (Namespace (o_Meta b) = at_Namespace a ∧ Namespace (o_Meta r) = at_Namespace a) &&
  binds (o_Body b) account "Role" (Name (o_Meta r)) && anyb (λ p, covers p a) (o_Body r).
(** The roles and bindings that the operator creates. *)
Definition clusterRoles cr := [BuildClusterRoleForIShield cr; BuildClusterRoleForObserver cr].
Definition clusterBindings cr :=
  [BuildClusterRoleBindingForIShield cr; BuildClusterRoleBindingForObserver cr].
Definition roles cr := [BuildRoleForIShield cr; BuildRoleForObserver cr].
Definition bindings cr := [BuildRoleBindingForIShield cr; BuildRoleBindingForObserver cr].
Definition allows cr (account : string * string) a : bool :=
  anyb (λ b, anyb (λ r, clusterGrant b r account a) (clusterRoles cr)) (clusterBindings cr) ||
  anyb (λ b, anyb (λ r, namespaceGrant b r account a) (roles cr)) (bindings cr).

(** The service account of the pods of a deployment. *)
Definition accountOf (d : Object KDeployment) : string * string :=
  (ServiceAccountName (pt_Spec (podOf d)), Namespace (o_Meta d)).

(** ** What the roles grant *)

Lemma covers_spec (r : PolicyRule) a : covers r a = true ↔
  ("*" ∈ pr_APIGroups r ∨ at_Group a ∈ pr_APIGroups r) ∧
  ("*" ∈ pr_Resources r ∨ at_Resource a ∈ pr_Resources r) ∧
  ("*" ∈ pr_Verbs r ∨ at_Verb a ∈ pr_Verbs r).
Proof.
  unfold covers. rewrite !andb_true_iff, !orb_true_iff, !containsb_spec. tauto.
Qed.
Lemma binds_spec (b : RoleBindingT) account kind role : binds b account kind role = true ↔
  mkSubject "ServiceAccount" account.1 account.2 ∈ Subjects b ∧
  ref_Kind (rb_RoleRef b) = kind ∧ ref_Name (rb_RoleRef b) = role.
Proof.
  unfold binds. rewrite andb_true_iff, anyb_exists, bool_decide_eq_true. apply and_iff_compat_r.
  split; [by intros (x & Hx & ->%bool_decide_eq_true)|]. intros H. eexists. split; [exact H|].
  by apply bool_decide_eq_true.
Qed.
Lemma allows_spec cr account a : allows cr account a = true ↔
  (∃ b r, b ∈ clusterBindings cr ∧ r ∈ clusterRoles cr ∧
     binds (o_Body b) account "ClusterRole" (Name (o_Meta r)) = true ∧
     ∃ p, p ∈ o_Body r ∧ covers p a = true) ∨
  (∃ b r, b ∈ bindings cr ∧ r ∈ roles cr ∧
     (Namespace (o_Meta b) = at_Namespace a ∧ Namespace (o_Meta r) = at_Namespace a) ∧
     binds (o_Body b) account "Role" (Name (o_Meta r)) = true ∧
     ∃ p, p ∈ o_Body r ∧ covers p a = true).
Proof.
  unfold allows. rewrite orb_true_iff, !anyb_exists. apply Morphisms_Prop.or_iff_morphism; split.
  - intros (b & Hb & (r & Hr & [H1 H2]%andb_true_iff)%anyb_exists). exists b, r.
    split_and!; [done|done|done|by apply anyb_exists].
  - intros (b & r & Hb & Hr & H1 & H2%anyb_exists). exists b. split; [done|].
    apply anyb_exists. exists r. split; [done|]. by apply andb_true_iff.
  - intros (b & Hb & (r & Hr & [[H0 H1]%andb_true_iff H2]%andb_true_iff)%anyb_exists). exists b, r.
    apply bool_decide_eq_true in H0. split; [done|]. split; [done|]. split; [done|].
    split; [done|]. by apply anyb_exists.
  - intros (b & r & Hb & Hr & H0 & H1 & H2%anyb_exists). exists b.
    split; [done|]. apply anyb_exists. exists r. split; [done|].
    unfold namespaceGrant. rewrite !andb_true_iff. split; [|done]. split; [|done]. by apply bool_decide_eq_true.
Qed.

(** Accounts, roles and bindings that are told apart by their names. *)
Definition distinct cr : Prop :=
  APIServiceAccountName (Security (Spec cr)) ≠ ObserverServiceAccountName (Security (Spec cr)) ∧
  APIRole (Security (Spec cr)) ≠ ObserverRole (Security (Spec cr)).
Definition shieldAccount cr := accountOf (BuildDeploymentForIShieldAPI cr).
Definition observerAccount cr := accountOf (BuildDeploymentForObserver cr).

(** Every pair of a binding and a role, with the membership facts reduced. *)
Ltac rbac_cases :=
  repeat match goal with
  | H : _ ∈ clusterBindings _ |- _ => unfold clusterBindings in H
  | H : _ ∈ clusterRoles _ |- _ => unfold clusterRoles in H
  | H : _ ∈ bindings _ |- _ => unfold bindings in H
  | H : _ ∈ roles _ |- _ => unfold roles in H
  | H : _ ∈ _ :: _ |- _ => apply elem_of_cons in H as [H|H]
  | H : _ ∈ [] |- _ => apply elem_of_nil in H; destruct H
  end.

Lemma shield_cluster_rights cr b r : distinct cr →
  b ∈ clusterBindings cr → r ∈ clusterRoles cr →
  binds (o_Body b) (shieldAccount cr) "ClusterRole" (Name (o_Meta r)) = true →
  r = BuildClusterRoleForIShield cr.
Proof.
  intros [Ha Hr] Hb Hr' (Hs & _ & Hn)%binds_spec. rbac_cases; subst; try done; simpl in *;
    rbac_cases; congruence.
Qed.
Lemma observer_cluster_rights cr b r : distinct cr →
  b ∈ clusterBindings cr → r ∈ clusterRoles cr →
  binds (o_Body b) (observerAccount cr) "ClusterRole" (Name (o_Meta r)) = true →
  r = BuildClusterRoleForObserver cr.
Proof.
  intros [Ha Hr] Hb Hr' (Hs & _ & Hn)%binds_spec. rbac_cases; subst; try done; simpl in *;
    rbac_cases; congruence.
Qed.

Lemma shield_role_rights cr b r : distinct cr →
  b ∈ bindings cr → r ∈ roles cr →
  binds (o_Body b) (shieldAccount cr) "Role" (Name (o_Meta r)) = true →
  r = BuildRoleForIShield cr.
Proof.
  intros [Ha Hr] Hb Hr' (Hs & _ & Hn)%binds_spec. rbac_cases; subst; try done; simpl in *;
    rbac_cases; congruence.
Qed.

(** A right from a binding and a role that belong together. *)
Lemma cluster_right cr account b r p a :
  b ∈ clusterBindings cr → r ∈ clusterRoles cr →
  binds (o_Body b) account "ClusterRole" (Name (o_Meta r)) = true →
  p ∈ o_Body r → covers p a = true → allows cr account a = true.
Proof. intros. apply allows_spec. left. eauto 10. Qed.
Lemma namespace_right cr account b r p a :
  b ∈ bindings cr → r ∈ roles cr → at_Namespace a = is_Namespace cr →
  binds (o_Body b) account "Role" (Name (o_Meta r)) = true →
  p ∈ o_Body r → covers p a = true → allows cr account a = true.
Proof.
  intros Hb Hr Hns Hbind Hp Hc. apply allows_spec. right. exists b, r. split_and!; eauto.
  - rbac_cases; subst; by rewrite Hns.
  - clear Hb Hbind Hp Hc. rbac_cases; subst; by rewrite Hns.
Qed.

(** A binding that has the account as a subject. *)
Ltac bound := apply binds_spec; split_and!; [simpl; first [left | right; left]|done|done].
Ltac granted H := apply covers_spec; simpl; clear -H; set_solver.

Lemma shield_rights cr a : distinct cr →
  allows cr (shieldAccount cr) a = true ↔
    at_Verb a ∈ ["get"; "list"] ∨
    (at_Group a = "apis.integrityshield.io" ∧ at_Resource a = "manifestintegrityprofiles" ∧
     at_Verb a ∈ ["watch"; "patch"; "update"]) ∨
    (at_Group a = "" ∧ at_Resource a = "events" ∧ at_Verb a ∈ ["create"; "update"]) ∨
    (at_Namespace a = is_Namespace cr ∧ at_Verb a ∈ ["create"; "update"]).
Proof.
  intros Hd. split.
  - intros [(b & r & Hb & Hr & Hbind & p & Hp & Hc)|(b & r & Hb & Hr & [Hn _] & Hbind & p & Hp & Hc)]%allows_spec.
    + assert (r = BuildClusterRoleForIShield cr) as -> by (by eapply shield_cluster_rights).
      apply covers_spec in Hc. simpl in Hp. rbac_cases; subst; simpl in Hc; set_solver.
    + assert (r = BuildRoleForIShield cr) as -> by (by eapply shield_role_rights).
      apply covers_spec in Hc. simpl in Hp.
      assert (at_Namespace a = is_Namespace cr) by (rbac_cases; subst; by rewrite <-Hn).
      rbac_cases; subst; simpl in Hc; set_solver.
  - pose proof (cluster_right cr (shieldAccount cr) (BuildClusterRoleBindingForIShield cr)
      (BuildClusterRoleForIShield cr)) as Hcl.
    intros [H|[H|[H|[Hns H]]]].
    + eapply Hcl; [left|left|bound|right; right; left|granted H].
    + eapply Hcl; [left|left|bound|left|granted H].
    + eapply Hcl; [left|left|bound|right; left|granted H].
    + eapply (namespace_right cr _ (BuildRoleBindingForIShield cr) (BuildRoleForIShield cr));
        [left|left|done|bound|left|granted H].
Qed.

Lemma observer_rights cr a : distinct cr →
  allows cr (observerAccount cr) a = true ↔
    at_Verb a ∈ ["get"; "list"] ∨
    (at_Namespace a = is_Namespace cr ∧
     (at_Verb a ∈ ["create"; "update"] ∨
      (at_Group a ∈ ["apis.integrityshield.io"; ""] ∧
       at_Resource a ∈ ["manifestintegritystates"; "configmaps"] ∧
       at_Verb a ∈ ["watch"; "patch"]))).
Proof.
  intros Hd. split.
  - intros [(b & r & Hb & Hr & Hbind & p & Hp & Hc)|(b & r & Hb & Hr & [Hn _] & _ & p & Hp & Hc)]%allows_spec.
    + assert (r = BuildClusterRoleForObserver cr) as -> by (by eapply observer_cluster_rights).
      apply covers_spec in Hc. simpl in Hp. rbac_cases; subst; simpl in Hc; set_solver.
    + assert (at_Namespace a = is_Namespace cr) by (rbac_cases; subst; by rewrite <-Hn).
      apply covers_spec in Hc. rbac_cases; subst; simpl in Hp; rbac_cases; subst; simpl in Hc;
        set_solver.
  - intros [H|[Hns [H|H]]].
    + eapply (cluster_right cr _ (BuildClusterRoleBindingForObserver cr)
        (BuildClusterRoleForObserver cr)); [right; left|right; left|bound|left|granted H].
    + eapply (namespace_right cr _ (BuildRoleBindingForIShield cr) (BuildRoleForIShield cr));
        [left|left|done|bound|left|granted H].
    + eapply (namespace_right cr _ (BuildRoleBindingForObserver cr) (BuildRoleForObserver cr));
        [right; left|right; left|done|bound|left|granted H].
Qed.

(** C17. What the roles grant, exactly.  The account of the shield API and of the
    admission controller may read everything, watch, patch and update profiles,
    create and update events, and create and update anything in the operator's
    namespace; the observer's account may read everything and, in the operator's
    namespace, create and update anything (it is a subject of the API's binding too)
    and watch and patch states and config maps.  Neither may do anything else: no
    account may delete, and outside the namespace the observer cannot write. *)
Theorem rights_exact cr a :
  distinct cr →
  (allows cr (shieldAccount cr) a = true ↔
     at_Verb a ∈ ["get"; "list"] ∨
     (at_Group a = "apis.integrityshield.io" ∧ at_Resource a = "manifestintegrityprofiles" ∧
      at_Verb a ∈ ["watch"; "patch"; "update"]) ∨
     (at_Group a = "" ∧ at_Resource a = "events" ∧ at_Verb a ∈ ["create"; "update"]) ∨
     (at_Namespace a = is_Namespace cr ∧ at_Verb a ∈ ["create"; "update"])) ∧
  (allows cr (observerAccount cr) a = true ↔
     at_Verb a ∈ ["get"; "list"] ∨
     (at_Namespace a = is_Namespace cr ∧
      (at_Verb a ∈ ["create"; "update"] ∨
       (at_Group a ∈ ["apis.integrityshield.io"; ""] ∧
        at_Resource a ∈ ["manifestintegritystates"; "configmaps"] ∧
        at_Verb a ∈ ["watch"; "patch"])))).
Proof. intros Hd. split; [by apply shield_rights|by apply observer_rights]. Qed.

(** Outside the operator's namespace. *)
Theorem rights_outside cr a :
  distinct cr → at_Namespace a ≠ is_Namespace cr →
  (allows cr (shieldAccount cr) a = true ↔
     at_Verb a ∈ ["get"; "list"] ∨
     (at_Group a = "apis.integrityshield.io" ∧ at_Resource a = "manifestintegrityprofiles" ∧
      at_Verb a ∈ ["watch"; "patch"; "update"]) ∨
     (at_Group a = "" ∧ at_Resource a = "events" ∧ at_Verb a ∈ ["create"; "update"])) ∧
  (allows cr (observerAccount cr) a = true ↔ at_Verb a ∈ ["get"; "list"]).
Proof. intros Hd Hns. rewrite shield_rights, observer_rights by done. tauto. Qed.

(** What the servers need for their reports. *)
Lemma observer_may cr verb : verb ∈ ["get"; "create"; "update"] →
  allows cr (observerAccount cr)
    (mkAccessTo verb "apis.integrityshield.io" "manifestintegritystates" (is_Namespace cr)) = true.
Proof.
  intros Hv. apply allows_spec. right.
  exists (BuildRoleBindingForObserver cr), (BuildRoleForObserver cr).
  split; [right; left|]. split; [right; left|]. split; [done|].
  split; [apply binds_spec; split_and!; [left|done|done]|].
  eexists. split; [left|]. apply covers_spec. simpl. set_solver.
Qed.
Lemma shield_may cr verb : verb ∈ ["list"; "get"; "update"] →
  allows cr (shieldAccount cr)
    (mkAccessTo verb "apis.integrityshield.io" "manifestintegrityprofiles" "") = true.
Proof.
  intros Hv. apply allows_spec. left.
  exists (BuildClusterRoleBindingForIShield cr), (BuildClusterRoleForIShield cr).
  split; [left|]. split; [left|]. split; [apply binds_spec; split_and!; [left|done|done]|].
  eexists. split; [left|]. apply covers_spec. simpl. set_solver.
Qed.
End access.

(** ** Requests of the clients *)

Section clients.
Context {OT : OpTypes} {OF : OpFiles}.
Implicit Types (cr : IntegrityShield).
Context {RT : RestTypes} {A : Type} (objName : A → string) (zero : A).

(** A transport that only records what it is asked to send. *)
#[local] Instance recorder : Transport (list (rest_Request A)) A := {|
  DoInto r z s := ((z, None), (s ++ [r])%list);
  DoIntoList r z s := ((z, None), (s ++ [r])%list);
  DoError r s := (None, (s ++ [r])%list);
  DoWatch r s := (Bad (errNew "recorded"), (s ++ [r])%list) |}.
Definition requests {X} (m : M (list (rest_Request A)) X) : list (rest_Request A) := (m []).2.

(** The access that a request stands for (the request attributes of Kubernetes). *)
Definition verbOf (r : rest_Request A) : string :=
  match r_verb r, r_name r with
  | GET, Some _ => "get"
  | GET, None => match r_params r with
                 | Some (ListParams o) => if lo_Watch o then "watch" else "list"
                 | _ => "list"
                 end
  | POST, _ => "create"
  | PUT, _ => "update"
  | PATCH _, _ => "patch"
  | DELETE, Some _ => "delete"
  | DELETE, None => "deletecollection"
  end.
Definition accessOf (r : rest_Request A) : Access :=
  mkAccessTo (verbOf r) (gv_Group (r_gv r)) (r_resource r) (default "" (r_namespace r)).
(** A definition serves the group, version and resource, in its scope. *)
Definition serves (crd : Object KCRD) (r : rest_Request A) : Prop :=
  let spec := o_Body crd in
  crd_Group spec = gv_Group (r_gv r) ∧ Plural (crd_Names spec) = r_resource r ∧
  (∃ v, v ∈ crd_Versions spec ∧ ver_Name v = gv_Version (r_gv r) ∧ Served v = true) ∧
  crd_Scope spec = (match r_namespace r with Some _ => "Namespaced" | None => "Cluster" end) ∧
  Name (o_Meta crd) = Plural (crd_Names spec) +:+ "." +:+ crd_Group spec.

(** The requests of the observer ([exportVerifyResult]) and of the
    admission controller ([constraint.go]), with the client of [NewForConfig]. *)
Definition v1Client : option ApisV1Client :=
  Some (mkApisV1Client (Some (mkRESTClient mis_SchemeGroupVersion "/apis"))).
Definition observerRequests (ns name : string) (x : A) (go : GetOptions) (co : CreateOptions)
    (uo : UpdateOptions) : list (rest_Request A) :=
  let i := ApisV1_ManifestIntegrityStates objName zero v1Client ns in
  (requests (i_Get i name go) ++ requests (i_Create i x co) ++ requests (i_Update i x uo))%list.
Definition controllerRequests (name : string) (x : A) (go : GetOptions) (lo : ListOptions)
    (uo : UpdateOptions) : list (rest_Request A) :=
  let i := pi_resource (ApisV1_ManifestIntegrityProfiles objName zero v1Client) in
  (requests (i_List i lo) ++ requests (i_Get i name go) ++ requests (i_Update i x uo))%list.

(** The requests of the servers are served and granted.  Every request that the
    observer's generated client sends to read, create or update an integrity state in
    the operator's namespace, and every request of the admission controller's client
    to list, read or update a profile, is for a group, version, resource and scope that
    the operator's definition serves, and is granted to the service account of the
    pod that sends it. *)
Theorem client_requests_granted cr name x go co uo lo :
  lo_Watch lo = false →
  Forall (λ r, serves (BuildObserverResultCRD cr) r ∧
               allows cr (accountOf (BuildDeploymentForObserver cr)) (accessOf r) = true)
    (observerRequests (is_Namespace cr) name x go co uo) ∧
  Forall (λ r, serves (BuildManifestIntegrityProfileCRD cr) r ∧
               allows cr (accountOf (BuildDeploymentForAdmissionController cr)) (accessOf r) = true)
    (controllerRequests name x go lo uo).
Proof.
  intros Hw. split; repeat (apply Forall_cons; split); try apply Forall_nil_2; (split;
    [unfold serves; simpl; split_and!; try done; eexists; (split; [left|done])|]).
  1-3: apply observer_may; simpl; set_solver.
  - unfold accessOf, verbOf. simpl. rewrite Hw. apply shield_may. set_solver.
  - apply shield_may. simpl. set_solver.
  - apply shield_may. simpl. set_solver.
Qed.
End clients.

Section witness.
Import OperatorDemo.
Lemma rights_exact_witness :
  allows (cr_with false None) (observerAccount (cr_with false None))
    (mkAccessTo "update" "" "secrets" "kube-system") = false.
Proof.
  apply not_true_iff_false. intros H.
  apply (rights_exact (cr_with false None) (mkAccessTo "update" "" "secrets" "kube-system"))
    in H; [|split; discriminate].
  simpl in H. destruct H as [H|[H _]]; [|discriminate H].
  repeat (apply elem_of_cons in H as [H|H]; [discriminate H|]). by apply elem_of_nil in H.
Defined.
Lemma client_requests_granted_witness :
  Forall (λ r : rest_Request (RT := RestDemo.types) (string * string),
      serves (BuildManifestIntegrityProfileCRD (cr_with false None)) r ∧
      allows (cr_with false None)
        (accountOf (BuildDeploymentForAdmissionController (cr_with false None))) (accessOf r) = true)
    (controllerRequests (RT := RestDemo.types) fst ("", "") "p" ("p", "") tt
       (mkListOptions (RT := RestDemo.types) None false None) tt).
Proof.
  apply (client_requests_granted (RT := RestDemo.types) fst ("", "") (cr_with false None) "p"
    ("p", "") tt tt tt (mkListOptions (RT := RestDemo.types) None false None)). reflexivity.
Defined.
End witness.
