(* ===== verification/Integration.v ===== *)
(** * Operator and servers together

    The pods that the operator deploys read their configuration through
    environment variables and config maps that the operator writes as well, and are
    reached through services, probes and a webhook that the operator registers.  The
    theorems relate the two sides: builders of [resources/] on one side, the entry
    points and configuration loaders of the servers on the other. *)
From S2P Require Import Prelude GoStrings World ShieldConfig Demo ImageVerify RequestHandler Admission.
From S2P Require Import ApiServer Observer ObserverMain OperatorResources Managers.
From S2P Require Import Operator OperatorProofs OperatorDemo.
From stdpp Require Import base gmap strings list pretty.
From Stdlib Require Import ZArith Lia.

Local Open Scope string_scope.

Section integration.
Context {OT : OpTypes} {OF : OpFiles}.
Context {T : ExtTypes} {L : ExtLib T} {O : OS} {K : Kube} {Y : ShieldYaml T} {AY : AdmissionYaml}.
Implicit Types (cr : IntegrityShield) (w : World).

(** The environment of a container that declares [l]. *)
Definition podEnv (l : list EnvVar) : Env :=
  foldl (λ m e, <[env_Name e := env_Value e]> m) ∅ l.

(** The process of [w] runs in the first container of the deployment [d]. *)
Definition runs_in (d : Object KDeployment) w : Prop :=
  ∃ c, head (Containers (pt_Spec (podOf d))) = Some c ∧ w_env w = podEnv (c_Env c).

(** The cluster of [w] has the config map [o]. *)
Definition provides w (o : Object KConfigMap) : Prop :=
  GetKubeConfig (w_cluster w) = None ∧ NewForConfig (w_cluster w) = None ∧
  rc_get configmaps (w_cluster w) (OperatorResources.Namespace (o_Meta o)) (Name (o_Meta o))
  = Good (mkConfigMap (Name (o_Meta o)) (o_Body o)).

Lemma envor_lookup w k d v : w_env w !! k = Some v → v ≠ "" → envor w k d = v.
Proof.
  intros Hk Hv. unfold envor, getenv. rewrite Hk. simpl. by rewrite bool_decide_eq_false_2.
Qed.

(** The variables the three deployments have in common. *)
Lemma handler_env cr w d :
  d ∈ [BuildDeploymentForIShieldAPI cr; BuildDeploymentForAdmissionController cr;
       BuildDeploymentForObserver cr] →
  runs_in d w →
  w_env w !! "POD_NAMESPACE" = Some (is_Namespace cr) ∧
  w_env w !! "REQUEST_HANDLER_CONFIG_NAME" = Some (RequestHandlerConfigName (Spec cr)) ∧
  w_env w !! "REQUEST_HANDLER_CONFIG_KEY" = Some (RequestHandlerConfigKey (Spec cr)).
Proof.
  intros Hd (c & Hc & Henv).
  repeat (apply elem_of_cons in Hd as [->|Hd]); [..|by apply elem_of_nil in Hd];
    simpl in Hc; injection Hc as <-; rewrite Henv; unfold podEnv; simpl;
    split_and!; repeat (rewrite lookup_insert_ne by done); by rewrite lookup_insert_eq.
Qed.
Lemma controller_env cr w :
  runs_in (BuildDeploymentForAdmissionController cr) w →
  w_env w !! "POD_NAMESPACE" = Some (is_Namespace cr) ∧
  w_env w !! "CONTROLLER_CONFIG_NAME" = Some (AdmissionControllerConfigName (Spec cr)) ∧
  w_env w !! "CONTROLLER_CONFIG_KEY" = Some (AdmissionControllerConfigKey (Spec cr)).
Proof.
  intros (c & Hc & Henv). simpl in Hc. injection Hc as <-. rewrite Henv. unfold podEnv. simpl.
  split_and!; repeat (rewrite lookup_insert_ne by done); by rewrite lookup_insert_eq.
Qed.

Lemma loaded_config_of cr w rc :
  w_env w !! "POD_NAMESPACE" = Some (is_Namespace cr) →
  w_env w !! "REQUEST_HANDLER_CONFIG_NAME" = Some (RequestHandlerConfigName (Spec cr)) →
  w_env w !! "REQUEST_HANDLER_CONFIG_KEY" = Some (RequestHandlerConfigKey (Spec cr)) →
  is_Namespace cr ≠ "" → RequestHandlerConfigName (Spec cr) ≠ "" →
  RequestHandlerConfigKey (Spec cr) ≠ "" →
  provides w (BuildReqConfigForIShield cr) →
  yaml_RequestHandlerConfig (RequestHandlerConfigText (Spec cr)) = (Some rc, None) →
  loaded_config w = (Some rc, None).
Proof.
  intros H1 H2 H3 Hns Hn Hk (Hg & Hf & Hcm) Hy.
  unfold loaded_config, LoadRequestHandlerConfig. cbv [mbind M_bind].
  rewrite !env_or_run, !(envor_lookup _ _ _ _ H1), !(envor_lookup _ _ _ _ H2),
    !(envor_lookup _ _ _ _ H3) by done.
  unfold getW, mret, M_ret. rewrite Hg, Hf. simpl in Hcm. rewrite Hcm. simpl.
  by rewrite lookup_singleton_eq, Hy.
Qed.

Lemma loaded_ac_of cr w ac :
  w_env w !! "POD_NAMESPACE" = Some (is_Namespace cr) →
  w_env w !! "CONTROLLER_CONFIG_NAME" = Some (AdmissionControllerConfigName (Spec cr)) →
  w_env w !! "CONTROLLER_CONFIG_KEY" = Some (AdmissionControllerConfigKey (Spec cr)) →
  is_Namespace cr ≠ "" → AdmissionControllerConfigName (Spec cr) ≠ "" →
  AdmissionControllerConfigKey (Spec cr) ≠ "" →
  provides w (BuildACConfigForIShield cr) →
  yaml_AdmissionControllerConfig (AdmissionControllerConfigText (Spec cr)) = (Some ac, None) →
  loaded_ac w = (Some ac, None).
Proof.
  intros H1 H2 H3 Hns Hn Hk (Hg & Hf & Hcm) Hy.
  unfold loaded_ac, loadAdmissionControllerConfig. cbv [mbind M_bind].
  rewrite !env_or_run, !(envor_lookup _ _ _ _ H1), !(envor_lookup _ _ _ _ H2),
    !(envor_lookup _ _ _ _ H3) by done.
  unfold getW, mret, M_ret. rewrite Hg, Hf. simpl in Hcm. rewrite Hcm. simpl.
  by rewrite lookup_singleton_eq, Hy.
Qed.

(** C10.  The configuration reaches the servers.  A process in any of the three
    deployed pods loads the request handler configuration of the custom resource
    once the operator's config map is in the cluster, and the admission controller
    loads its own configuration as well. *)
Theorem config_delivered cr w rc d :
  d ∈ [BuildDeploymentForIShieldAPI cr; BuildDeploymentForAdmissionController cr;
       BuildDeploymentForObserver cr] →
  runs_in d w → is_Namespace cr ≠ "" →
  RequestHandlerConfigName (Spec cr) ≠ "" → RequestHandlerConfigKey (Spec cr) ≠ "" →
  provides w (BuildReqConfigForIShield cr) →
  yaml_RequestHandlerConfig (RequestHandlerConfigText (Spec cr)) = (Some rc, None) →
  loaded_config w = (Some rc, None) ∧
  ∀ ac, d = BuildDeploymentForAdmissionController cr →
    AdmissionControllerConfigName (Spec cr) ≠ "" → AdmissionControllerConfigKey (Spec cr) ≠ "" →
    provides w (BuildACConfigForIShield cr) →
    yaml_AdmissionControllerConfig (AdmissionControllerConfigText (Spec cr)) = (Some ac, None) →
    loaded_ac w = (Some ac, None).
Proof.
  intros Hd Hr Hns Hn Hk Hp Hy. split.
  - destruct (handler_env cr w d Hd Hr) as (H1 & H2 & H3). by apply (loaded_config_of cr).
  - intros ac -> Hn' Hk' Hp' Hy'. destruct (controller_env cr w Hr) as (H1 & H2 & H3).
    by apply (loaded_ac_of cr).
Qed.
End integration.

(** ** Wiring *)

Section wiring.
Context {OT : OpTypes} {OF : OpFiles}.
Context {T : ExtTypes} {L : ExtLib T} {O : OS} {K : Kube} {S : Sigstore T K}
  {Y : ShieldYaml T} {AY : AdmissionYaml} {MC : MipClient T K}.
Implicit Types (cr : IntegrityShield) (w : World).

Definition mainContainer (d : Object KDeployment) : option Container :=
  head (Containers (pt_Spec (podOf d))).

(** The container port that the first port of a service leads to: the service
    selects the pods of [d] and names the port. *)
Definition reaches (svc : Object KService) (d : Object KDeployment) : option Z :=
  c ← mainContainer d;
  p ← head (svc_Ports (o_Body svc));
  if decide (svc_Selector (o_Body svc) = pt_Labels (podOf d) ∧
             OperatorResources.Namespace (o_Meta svc) = OperatorResources.Namespace (o_Meta d))
  then match sp_TargetPort p with
       | IntVal z => Some z
       | StrVal n => cp_ContainerPort <$> head (filter (λ q, cp_Name q = n) (c_Ports c))
       end
  else None.
(** The secret that the main container of [d] sees under [path]. *)
Definition mountedSecret (d : Object KDeployment) (path : string) : option string :=
  c ← mainContainer d;
  m ← head (filter (λ m, MountPath m = path) (c_VolumeMounts c));
  v ← head (filter (λ v, vol_Name v = vm_Name m) (Volumes (pt_Spec (podOf d))));
  match vol_Source v with SecretVolumeSource n _ => Some n | _ => None end.
Definition keyFiles (s : Object KSecret) : Prop :=
  is_Some (s_Data (o_Body s) !! tlsCertFile) ∧ is_Some (s_Data (o_Body s) !! tlsKeyFile).

(** C28. The webhook of the operator reaches the admission controller.  Whatever the
    flags, a started admission controller serves [ProcessRequest] at the path of the
    registered webhook, with the certificates of the secret that the operator
    creates for it; and the webhook's service leads to the port of the manager
    exactly when the custom resource sets the controller's port to 9443. *)
Theorem webhook_wired `{CtrlRuntime} cr metrics lead mgr :
  started (webhook_main metrics lead) = Some mgr →
  ∃ wh path,
    o_Body (BuildValidatingWebhookConfigurationForIShield cr) = [wh] ∧ wh_Path wh = Some path ∧
    mg_Webhooks mgr = [(path, Handle)] ∧ (∀ req w, Handle req w = ProcessRequest req w) ∧
    (wh_ServiceName wh, wh_ServiceNamespace wh) =
      (Name (o_Meta (BuildServiceForIShield cr)),
       OperatorResources.Namespace (o_Meta (BuildServiceForIShield cr))) ∧
    (reaches (BuildServiceForIShield cr) (BuildDeploymentForAdmissionController cr)
       = Some (mo_Port (mg_Options mgr)) ↔ cc_Port (ControllerContainer (Spec cr)) = 9443%Z) ∧
    mountedSecret (BuildDeploymentForAdmissionController cr) (CertDir (mg_Options mgr))
      = Some (Name (o_Meta (BuildAPITlsSecretForIShield cr))) ∧
    keyFiles (BuildAPITlsSecretForIShield cr).
Proof.
  intros Hs. destruct (webhook_main_cases metrics lead) as (_ & _ & Hm).
  destruct (Hm mgr Hs) as (Hw & Hp & Hc). eexists _, _.
  split; [reflexivity|]. split; [reflexivity|]. split; [exact Hw|].
  split; [apply Handle_run|]. split; [reflexivity|]. rewrite Hp, Hc. split_and!.
  - unfold reaches. simpl. rewrite decide_True by done.
    split; [by intros [= ->]|by intros ->].
  - reflexivity.
  - split; eexists; reflexivity.
Qed.

(** The probes of the API deployment are answered.  The liveness and readiness
    probes that the operator sets go to the port on which the server listens, and
    the server answers them with status 200 without touching its state; its key pair
    is read from the mounted secret; and the API service leads to that port exactly
    when the custom resource sets the API port to 8080. *)
Theorem api_wired `{HttpConn} `{!ApiJson T} cr :
  let d := BuildDeploymentForIShieldAPI cr in
  ∃ c, mainContainer d = Some c ∧
    (∀ probe, probe ∈ [c_ReadinessProbe c; c_LivenessProbe c] → ∃ p path,
       probe = Some p ∧ pr_Handler p = HTTPGet path (IntVal 8080) "HTTPS" ∧
       ∀ w, runs (exchange (mkHttpRequest "GET" path "" "")) w (λ a w', w' = w ∧
              ∃ rp, a = Some rp ∧ rp_Status rp = Some StatusOK)) ∧
    api_Addr = ":8080" ∧
    mountedSecret d tlsDir = Some (Name (o_Meta (BuildTlsSecretForIShield cr))) ∧
    keyFiles (BuildTlsSecretForIShield cr) ∧
    (reaches (BuildAPIServiceForIShield cr) d = Some 8080%Z ↔ api_Port (API (Spec cr)) = 8080%Z).
Proof.
  intros d. eexists. split; [reflexivity|]. split_and!; try reflexivity.
  - intros probe Hin. apply elem_of_cons in Hin as [->|Hin].
    2: apply list_elem_of_singleton in Hin as ->.
    all: eexists _, _; split; [reflexivity|]; split; [reflexivity|]; intros w.
    all: apply exchange_health; simpl; set_solver.
  - split; eexists; reflexivity.
  - unfold reaches. simpl. rewrite decide_True by done.
    split; [by intros [= ->]|by intros ->].
Qed.

End wiring.

Section witness.
Import Demo AdmissionDemo OperatorDemo.
Definition acPod : World (K := AK) :=
  mkWorld (K := AK) (podEnv (controllerEnv (cr_with false None))) InfoLevel false ∅ 0 (mkMem true
    {[ ("is", "request-handler-config") :=
         mkConfigMap "request-handler-config" {[ "config.yaml" := "mode: enforce" ]};
       ("is", "ac-config") := mkConfigMap "ac-config" {[ "config.yaml" := "mode: detect" ]} ]}
    ∅ ∅ ∅ ∅).
Lemma config_delivered_witness :
  loaded_ac acPod = (Some (acCfg "mode: detect"), None).
Proof.
  assert (runs_in (BuildDeploymentForAdmissionController (cr_with false None)) acPod) as Hr
    by (eexists; split; reflexivity).
  assert (provides acPod (BuildReqConfigForIShield (cr_with false None))) as Hp
    by (split; [reflexivity|split; [reflexivity|vm_compute; reflexivity]]).
  apply (config_delivered (cr_with false None) acPod
    (default RequestHandlerConfig_zero (yaml_RequestHandlerConfig "mode: enforce").1)
    (BuildDeploymentForAdmissionController (cr_with false None))); try discriminate.
  - right. left.
  - exact Hr.
  - exact Hp.
  - vm_compute. reflexivity.
  - reflexivity.
  - split; [reflexivity|split; [reflexivity|vm_compute; reflexivity]].
  - vm_compute. reflexivity.
Defined.

Lemma webhook_wired_witness :
  ∃ wh path, o_Body (BuildValidatingWebhookConfigurationForIShield (cr_with false None)) = [wh] ∧
    wh_Path wh = Some path ∧ path = "/validate-resource".
Proof.
  destruct (webhook_wired (H := ManagersDemo.calmRuntime) (K := AK) (cr_with false None) ":8080" false
    (mkManager (mkOptions ":8080" 9443 "" false "22a603b9.sigstore.dev" webhook_tlsDir)
       [("/validate-resource", Handle)] [] [] []) eq_refl)
    as (wh & path & H1 & H2 & H3 & _).
  exists wh, path. split; [exact H1|]. split; [exact H2|]. injection H3 as H3. by rewrite H3.
Defined.

Definition obsPod : World (K := AK) :=
  mkWorld (K := AK) (podEnv (observerEnv (cr_with false None))) InfoLevel false ∅ 0
    (mkMem true ∅ ∅ ∅ ∅ ∅).
End witness.
