(* ===== verification/EndToEnd.v ===== *)
(** * From the deployment to the stored report

    The chain a report takes: the operator deploys the observer and the admission
    controller with their environment ([resources/deployment.go]), the server
    builds a generated typed client ([NewForConfig]) and calls it, the client sends
    REST requests, the API server keeps the objects of the custom resource
    definitions of the operator ([resources/crd.go]) and checks the roles.  The
    theorems compose the components' results along that chain; the sequential
    models see the generated clients through their class of clients. *)
From S2P Require Import Prelude GoStrings World ShieldConfig Demo ImageVerify RequestHandler Admission.
From S2P Require Import Observer ObserverMain RestClients OperatorResources Managers.
From S2P Require Import Operator OperatorProofs OperatorDemo Access Integration.
From stdpp Require Import base gmap strings list.
From Stdlib Require Import ZArith Lia.

Local Open Scope string_scope.

(** ** The chain of the observer *)

Section observer_chain.
Context {OT : OpTypes} {OF : OpFiles}.
Context {T : ExtTypes} {L : ExtLib T} {O : OS} {K : Kube} {S : Sigstore T K}
  {Y : ShieldYaml T} {X : ObserverExt T K}.
Context {RT : RestTypes} `{!ApiStore Cluster ManifestIntegrityState,
  !Transport Cluster ManifestIntegrityState,
  !RestServes (S := Cluster) (A := ManifestIntegrityState)}.
Context {D : Type} `{!ConfigLib D, !ConfigLaws D} (Codecs : Scheme) (cfg : rest_Config).
Context (go : GetOptions) (co : CreateOptions) (uo : UpdateOptions)
  (zero : ManifestIntegrityState).
Implicit Types (cr : IntegrityShield) (w : World).

(** The observer's client of integrity states is the generated one. *)
Definition generated_states : Prop :=
  ∃ cl, RestClients.mis_NewForConfig (D := D) Codecs cfg = Good cl
    ∧ states = namespaced go co uo (ApisV1_ManifestIntegrityStates mis_Name zero (Some cl)).

Lemma generated_states_address :
  generated_states →
  addresses mis_Name manifestintegritystatesResource (λ ns, ns ≠ "") states.
Proof.
  intros (cl & Hcl & ->). apply (typed_NewForConfig_gv (D := D)) in Hcl as (r & Hr & Hgv & _).
  destruct cl as [c]. simpl in Hr. subst c.
  change manifestintegritystatesResource
    with (WithResource mis_SchemeGroupVersion "manifestintegritystates").
  rewrite <-Hgv. exact (states_address mis_Name zero go co uo r).
Qed.

Lemma observer_namespace cr w :
  runs_in (BuildDeploymentForObserver cr) w → is_Namespace cr ≠ "" →
  envor w "POD_NAMESPACE" defaultPodNamespace = is_Namespace cr.
Proof.
  intros Hr Hns. destruct (handler_env cr w (BuildDeploymentForObserver cr)) as (H & _);
    [set_solver|done|]. by apply envor_lookup.
Qed.

(** What a successful export leaves in the API server's store. *)
Lemma export_stored cr w vrr ign v r w' :
  generated_states → ApiStoreLaws mis_Name manifestintegritystatesResource →
  runs_in (BuildDeploymentForObserver cr) w → is_Namespace cr ≠ "" →
  exportVerifyResult vrr ign v w = (Ret r, w') →
  match r with
  | None => api_get manifestintegritystatesResource (is_Namespace cr) (s_ConstraintName vrr)
              (w_cluster w') = Good (Observer.mkMIS (s_ConstraintName vrr) (stateLabels ign v) vrr)
  | Some _ => w_cluster w' = w_cluster w
  end.
Proof.
  intros Hgen Hlaws Hr Hns Hrun. pose proof (generated_states_address Hgen) as Ha.
  assert (ResClientLaws mis_Name states) as Hlaw by (by eapply addresses_laws).
  apply exportVerifyResult_upsert_run in Hrun. rewrite (observer_namespace cr w Hr Hns) in Hrun.
  destruct r as [e|]; [done|]. destruct Hrun as [Hg _].
  destruct (ad_get _ _ _ _ Ha (is_Namespace cr) (s_ConstraintName vrr))
    as [(_ & _ & E)|(_ & e & E)]; rewrite E in Hg; [done|congruence].
Qed.

End observer_chain.

(** ** The chain of the admission controller *)

Section admission_chain.
Context {OT : OpTypes} {OF : OpFiles}.
Context {T : ExtTypes} {L : ExtLib T} {O : OS} {K : Kube} {MC : MipClient T K}.
Abbreviation Mip := ManifestIntegrityProfile.
Context {RT : RestTypes} `{!ApiStore Cluster Mip, !Transport Cluster Mip,
  !RestServes (S := Cluster) (A := Mip)}.
Context {D : Type} `{!ConfigLib D, !ConfigLaws D} (Codecs : Scheme) (cfg : rest_Config).
Context (go : GetOptions) (co : CreateOptions) (uo : UpdateOptions) (zero : Mip).
Implicit Types (cr : IntegrityShield) (w : World).

Definition generated_profiles : Prop :=
  ∃ cl, RestClients.mip_NewForConfig (D := D) Codecs cfg = Good cl
    ∧ mips = clusterwide go co uo
               (pi_resource (ApisV1_ManifestIntegrityProfiles mip_Name zero (Some cl))).

Lemma generated_profiles_address :
  generated_profiles →
  addresses mip_Name manifestintegrityprofilesResource (λ ns, ns = "") mips.
Proof.
  intros (cl & Hcl & ->). apply (typed_NewForConfig_gv (D := D)) in Hcl as (r & Hr & Hgv & _).
  destruct cl as [c]. simpl in Hr. subst c.
  change manifestintegrityprofilesResource
    with (WithResource mip_SchemeGroupVersion "manifestintegrityprofiles").
  rewrite <-Hgv. exact (profiles_address mip_Name zero go co uo r).
Qed.

Lemma profile_read n c :
  generated_profiles → validSegment n = true →
  rc_get mips c "" n = api_get manifestintegrityprofilesResource "" n c.
Proof.
  intros Hgen Hv. pose proof (generated_profiles_address Hgen) as Ha.
  destruct (ad_get _ _ _ _ Ha "" n) as [(_ & _ & E)|([?|?] & _)]; [done|done|congruence].
Qed.
Lemma profile_read_valid n c m :
  generated_profiles → rc_get mips c "" n = Good m → validSegment n = true.
Proof.
  intros Hgen E. pose proof (generated_profiles_address Hgen) as Ha.
  destruct (ad_get _ _ _ _ Ha "" n) as [(_ & ? & _)|(_ & e & E')]; [done|].
  rewrite E' in E. done.
Qed.

(** C16.  A deployed admission controller reports to the cluster.  With the
    generated client, every status update that returns nil stores the profile of
    the cluster-wide resource that the operator's definition serves with one
    violation of this request pushed on its status, its specification kept and
    every other profile untouched; an update that returns an error changes
    nothing; and the requests it sends are granted to the account of its pods. *)
Theorem deployed_controller_reports cr w name req msg r w' :
  generated_profiles → ApiStoreLaws mip_Name manifestintegrityprofilesResource →
  updateConstraintStatus name req msg w = (Ret r, w') →
  match r with
  | Some _ => w_cluster w' = w_cluster w
  | None => ∃ m v,
      api_get manifestintegrityprofilesResource "" name (w_cluster w) = Good m
      ∧ (v_Namespace v = rq_Namespace req ∧ v_Kind v = Kind (rq_Kind req)
         ∧ v_Name v = rq_Name req ∧ v_Message v = msg)
      ∧ api_get manifestintegrityprofilesResource "" name (w_cluster w')
        = Good (mkMIP name (mip_Spec m) (pushViolation v (mip_Status m)))
      ∧ ∀ n, n ≠ name → validSegment n = true →
          api_get manifestintegrityprofilesResource "" n (w_cluster w')
          = api_get manifestintegrityprofilesResource "" n (w_cluster w)
  end
  ∧ (let crd := o_Body (BuildManifestIntegrityProfileCRD cr) in
     crd_Group crd = gvr_Group manifestintegrityprofilesResource
     ∧ Plural (crd_Names crd) = gvr_Resource manifestintegrityprofilesResource
     ∧ ∃ v, v ∈ crd_Versions crd ∧ Served v = true
            ∧ ver_Name v = gvr_Version manifestintegrityprofilesResource)
  ∧ ∀ verb, verb ∈ ["list"; "get"; "update"] →
      allows cr (accountOf (BuildDeploymentForAdmissionController cr))
        (mkAccessTo verb (gvr_Group manifestintegrityprofilesResource)
           (gvr_Resource manifestintegrityprofilesResource) "") = true.
Proof.
  intros Hgen Hlaws Hrun. split_and!.
  - pose proof (generated_profiles_address Hgen) as Ha.
    assert (ResClientLaws mip_Name mips) as Hlaw by (by eapply addresses_laws).
    pose proof (runs_inv _ _ _ _ _ (updateConstraintStatus_runs name req msg w) Hrun)
      as (_ & _ & Hu).
    destruct r as [e|].
    + destruct Hu as [[Hc _]|(m & _ & Hu)]; [done|exact (World.update_refused (name := mip_Name) _ _ _ _ _ Hu)].
    + destruct Hu as [[_ [? ?]]|(m & Hg & Hu)]; [done|].
      pose proof (World.get_name (name := mip_Name) _ _ _ _ Hg) as Hn.
      pose proof (profile_read_valid _ _ _ Hgen Hg) as Hv.
      pose proof (World.update_get (name := mip_Name) _ _ _ _ Hu) as Hnew. cbn [mip_Name] in Hnew.
      rewrite Hn, profile_read in Hnew by done. rewrite profile_read in Hg by done.
      eexists m, _. split; [exact Hg|]. split; [shelve|]. split; [exact Hnew|].
      intros n Hne Hvn. rewrite <-!profile_read by done.
      eapply (World.update_other (name := mip_Name)); [exact Hu|]. simpl. congruence.
      Unshelve. by repeat split.
  - split; [reflexivity|]. split; [reflexivity|]. eexists. by split; [left|].
  - apply shield_may.
Qed.
End admission_chain.

(** ** A concrete server behind the generated clients *)

Module EndToEndDemo.
Import Demo AdmissionDemo ObserverDemo OperatorDemo.
#[local] Existing Instances RestDemo.types RestDemo.config_lib RestDemo.config_laws.

Section server.
Context {C A : Type} (name : A → string) (served : GroupVersionResource).
Context (getm : C → gmap (string * string) A) (setm : gmap (string * string) A → C → C).
Context (Hgs : ∀ m c, getm (setm m c) = m).

Definition get (r : GroupVersionResource) (ns n : string) (c : C) : res A :=
  if decide (r = served) then storeGet name (getm c) ns n else Bad RestDemo.missing.
Definition put (ns : string) (x : A) (c : C) : C := setm (<[(ns, name x) := x]> (getm c)) c.
Definition create (r : GroupVersionResource) (ns : string) (x : A) (c : C) : res A * C :=
  if decide (r = served ∧ name x ≠ "") then
    match get r ns (name x) c with
    | Good _ => (Bad RestDemo.exists_, c)
    | Bad _ => (Good x, put ns x c)
    end
  else (Bad RestDemo.invalid, c).
Definition update (r : GroupVersionResource) (ns n : string) (sub : list string) (x : A) (c : C)
    : res A * C :=
  if decide (r = served ∧ sub = [] ∧ name x = n) then
    match get r ns n c with
    | Good _ => (Good x, put ns x c)
    | Bad e => (Bad e, c)
    end
  else (Bad RestDemo.invalid, c).
Definition empty_list : ResourceList A := mkList "" [].

#[export] Instance server : ApiStore C A := {|
  api_get := get;
  api_list _ _ _ _ := Good empty_list;
  api_watch _ _ _ _ := Good tt;
  api_create := create;
  api_update := update;
  api_delete _ _ _ c := (Some RestDemo.invalid, c);
  api_deletecollection _ _ _ c := (Some RestDemo.invalid, c);
  api_patch _ _ _ _ _ _ c := (Bad RestDemo.invalid, c);
  validSegment n := bool_decide (n ≠ "") |}.

(** Requests are routed by verb, resource, namespace and name. *)
Definition refused (r : rest_Request A) : bool :=
  match r_name r, r_verb r with
  | Some n, _ => bool_decide (n = "" ∨ r_namespace r = Some "")
  | None, POST => bool_decide (r_namespace r = Some "")
  | None, _ => false
  end.
#[export] Instance wire : Transport C A := {|
  DoInto r z c :=
    let gvr := WithResource (r_gv r) (r_resource r) in
    let ns := default "" (r_namespace r) in
    if refused r then (z, Some RestDemo.invalid, c)
    else match r_verb r, r_name r, r_body r with
         | GET, Some n, _ => into z (get gvr ns n c, c)
         | POST, None, Some (ObjectBody x) => into z (create gvr ns x c)
         | PUT, Some n, Some (ObjectBody x) => into z (update gvr ns n (r_sub r) x c)
         | _, _, _ => (z, Some RestDemo.invalid, c)
         end;
  DoIntoList r z c := (empty_list, None, c);
  DoError r c := (Some RestDemo.invalid, c);
  DoWatch r c := (Good tt, c) |}.

Lemma wire_serves : RestServes (S := C) (A := A).
Proof.
  split; intros; cbn -[bool_decide]; unfold refused; cbn -[bool_decide];
    rewrite ?RestDemo.named_ok by done; try done.
  - by rewrite bool_decide_eq_false_2.
  - exists RestDemo.invalid. intros z s. cbn -[bool_decide]. unfold refused. cbn -[bool_decide].
    rewrite bool_decide_eq_true_2; [done|]. destruct H as [H|H]; [left|by right].
    apply bool_decide_eq_false in H. by apply dec_stable.
  - by exists RestDemo.invalid.
Qed.

Lemma get_put ns x c : get served ns (name x) (put ns x c) = Good x.
Proof.
  unfold get, put. rewrite decide_True by done. unfold storeGet.
  by rewrite Hgs, lookup_insert_eq, bool_decide_eq_true_2.
Qed.
Lemma get_put_other ns x c r ns' n :
  (ns', n) ≠ (ns, name x) → get r ns' n (put ns x c) = get r ns' n c.
Proof.
  intros Hne. unfold get, put. destruct (decide _); [|done]. unfold storeGet.
  by rewrite Hgs, lookup_insert_ne by congruence.
Qed.
Lemma server_laws : ApiStoreLaws (S := C) name served.
Proof.
  split; cbn -[get]; unfold create, update.
  - intros ns n c x. unfold get. rewrite decide_True by done. unfold storeGet.
    destruct (getm c !! _); [|done]. case_bool_decide; naive_solver.
  - intros ns x c y c'. destruct (decide _) as [[_ Hn]|]; [|done].
    destruct (get served ns (name x) c); [done|]. intros [= <- <-].
    split_and!; [by apply bool_decide_eq_true|by apply get_put|].
    intros ns' n Hne. by apply get_put_other.
  - intros ns n x c y c'. destruct (decide _) as [(_ & _ & <-)|]; [|done].
    destruct (get served ns (name x) c); [|done]. intros [= <- <-] _.
    split; [by apply get_put|]. intros ns' n' Hne. by apply get_put_other.
  - intros ns x c e c'. destruct (decide _); [|naive_solver].
    destruct (get _ _ _ _); naive_solver.
  - intros ns n x c e c'. destruct (decide _); [|naive_solver].
    destruct (get _ _ _ _); naive_solver.
Qed.
End server.

(** The observer of [ObserverDemo] with the generated client. *)
Abbreviation OC := (MemCluster Ext).
Abbreviation putStates := (λ m (c : OC), set_ext (mkExt m (x_objects (mc_ext c))) c).
#[local] Instance stateServer : ApiStore OC ManifestIntegrityState :=
  server mis_Name manifestintegritystatesResource (x_states ∘ mc_ext) putStates.
#[local] Instance stateWire : Transport OC ManifestIntegrityState :=
  wire mis_Name manifestintegritystatesResource (x_states ∘ mc_ext) putStates.
#[local] Instance stateServes : RestServes (S := OC) (A := ManifestIntegrityState).
Proof. apply wire_serves. Qed.
Definition v1 : ApisV1Client :=
  mkApisV1Client (Some (mkRESTClient mis_SchemeGroupVersion "/apis")).
Definition state_zero : ManifestIntegrityState := Observer.mkMIS "" ∅ spec0.
Definition restObserver : ObserverExt types OK := {|
  OptionRest_zero := @OptionRest_zero _ _ observerExt;
  SpecValue := @SpecValue _ _ observerExt;
  Object_spec := @Object_spec _ _ observerExt;
  json_Marshal_spec := @json_Marshal_spec _ _ observerExt;
  json_ConstraintSpec := @json_ConstraintSpec _ _ observerExt;
  json_Observation := @json_Observation _ _ observerExt;
  ParseGroupVersion := @ParseGroupVersion _ _ observerExt;
  Observer.NewDiscoveryClientForConfig := @Observer.NewDiscoveryClientForConfig _ _ observerExt;
  ServerPreferredResources := @ServerPreferredResources _ _ observerExt;
  dynamic_NewForConfig := @dynamic_NewForConfig _ _ observerExt;
  dynamic_List := @dynamic_List _ _ observerExt;
  Observer.mis_NewForConfig := @Observer.mis_NewForConfig _ _ observerExt;
  states := namespaced (S := OC) tt tt tt
              (ApisV1_ManifestIntegrityStates mis_Name state_zero (Some v1));
  cosign_Init := @cosign_Init _ _ observerExt |}.

Definition deployedObserver : World (K := OK) :=
  mkWorld (K := OK) (podEnv (observerEnv (cr_with false None))) InfoLevel false ∅ 0
    (w_cluster (obsWorld "x")).

(** The admission controller of [AdmissionDemo] with the generated client. *)
Abbreviation PC := (MemCluster Mips).
#[local] Instance profileServer : ApiStore PC (ManifestIntegrityProfile (T := types)) :=
  server mip_Name manifestintegrityprofilesResource mc_ext set_ext.
#[local] Instance profileWire : Transport PC (ManifestIntegrityProfile (T := types)) :=
  wire mip_Name manifestintegrityprofilesResource mc_ext set_ext.
#[local] Instance profileServes :
  RestServes (S := PC) (A := ManifestIntegrityProfile (T := types)).
Proof. apply wire_serves. Qed.
Definition restMips : MipClient types AK := {|
  Admission.mip_NewForConfig := @Admission.mip_NewForConfig _ _ mipClient;
  mips := clusterwide (S := PC) tt tt tt
            (pi_resource (ApisV1_ManifestIntegrityProfiles mip_Name mip0 (Some v1)));
  mips_List := @mips_List _ _ mipClient |}.
Lemma deployed_controller_reports_witness :
  ∃ m v, v_Message v = "denied" ∧
    api_get (S := PC) manifestintegrityprofilesResource "" "p0"
      (w_cluster (state_of (updateConstraintStatus (MC := restMips) "p0" unsigned "denied")
                    (acWorld "enforce" true one)))
    = Good (mkMIP "p0" (mip_Spec m) (pushViolation v (mip_Status m))).
Proof.
  assert (updateConstraintStatus (MC := restMips) "p0" unsigned "denied"
      (acWorld "enforce" true one)
    = (Ret None, state_of (updateConstraintStatus (MC := restMips) "p0" unsigned "denied")
                   (acWorld "enforce" true one))) as H
    by (apply run_eta; vm_compute; reflexivity).
  destruct (deployed_controller_reports (K := AK) (MC := restMips) (D := unit)
    [] RestDemo.config tt tt tt mip0 (cr_with false None) _ "p0" unsigned "denied" None _
    ltac:(exists v1; split; reflexivity) ltac:(by apply server_laws) H)
    as [(m & v & _ & (_ & _ & _ & Hv) & Hg & _) _].
  exists m, v. split; [exact Hv|exact Hg].
Defined.
End EndToEndDemo.
